(* ===== verification/_CoqProject ===== *)
-Q . S2P
Prelude.v
Eff.v
StdMap.v
StdText.v
ByteStream.v
Base64.v
Crc.v
ByteQueue.v
DataBuffer.v
StringEx.v
Util.v
ByteCrypto.v
Media.v
Double.v
Time.v
Logger.v
JsonUtf8.v
Json.v
JsonEscape.v
JsonText.v
JsonRead.v
WsFrame.v
WsTypes.v
WsBase.v
TcpPub.v
IpAddress.v
Ssl.v
Tcp.v
TcpClient.v
HttpCommon.v
HttpText.v
HttpSession.v
HttpServer.v
HttpRequests.v
HttpSafety.v
HttpServerTcp.v
HttpClient.v
HttpClientDemo.v
HttpEndToEnd.v
WsSession.v
WsClient.v
WsHandshake.v
WsConversation.v
WsSafety.v
RtmpHandshake.v
CoPub.v
CoTcp.v
CoEcho.v
CoEchoClient.v
CoHttp.v
CoHttpRequests.v
CoHttpDemo.v
RtmpSession.v
