(* ===== verification/Prelude.v ===== *)
(** * co_stream: TCP, TLS, HTTP, WebSocket and RTMP over libuv

    This library models the C++ sources under [src/src/] as executable functions and proves what
    the components do.  Every file names the sources it models; a definition has the name of the
    method or function it translates, an operation that has no name of its own (a loop, the part of
    a coroutine after a [co_await]) says which lines it is.

    ** The program and the files

    The program is one event loop (libuv).  Its callbacks read bytes from a connection and hand
    them up: TCP object, TLS, then HTTP or WebSocket or RTMP session, then the user's handler; what
    the handler writes goes the way back.  Two families do this, one with callback objects, one
    with coroutines.

    - Shared: [Prelude] (integers at their width, results [res] that are a value, an exception or
      undefined behaviour, list lemmas, tactics), [Eff] (methods: computations on an object that
      may throw or be undefined, and what may happen when they run), [StdMap] ([std::map] and the maps used as such), [StdText]
      ([atoi], decimal output).
    - Utilities ([utils/]): [ByteStream] (byte_stream.hpp), [Base64] (base64.cpp), [Crc] (crc.cpp,
      byte_crypto.cpp), [DataBuffer] (data_buffer.hpp), [StringEx] (stringex.hpp), [IpAddress]
      (ipaddress.hpp), [Util] (timer.hpp, stream_statics.hpp, uuid.hpp, random strings), [ByteCrypto] (the random engine and the HMAC of
      byte_crypto.cpp on the static object), [Media] (av/),
      [Double] (binary64 numbers), [Time] (timeex.hpp), [Logger] (logger.hpp), [CoPub] (co_pub.hpp).
    - JSON ([utils/json.hpp]): [JsonUtf8] (the UTF-8 decoder), [Json] (values and the serializer),
      [JsonEscape] and [JsonText] (what the serializer prints), [JsonRead] (a reader of the grammar
      and the round trip).
    - TCP ([net/tcp/]): [Ssl] (ssl_server.hpp, ssl_client.hpp), [Tcp] (tcp_session.hpp,
      tcp_server.hpp), [TcpClient] (tcp_client.hpp), [CoTcp] (co_tcp/: accepted connections, the
      listening socket, the client's connection), [CoEcho] and [CoEchoClient] (the echo programs).
    - HTTP ([net/http/]): [HttpCommon] (http_common.hpp), [HttpText] (texts of messages),
      [HttpSession] (http_session.cpp), [HttpServer] (http_server.cpp), [HttpRequests] (theorems
      about the two), [HttpSafety] (the session against arbitrary input), [HttpServerTcp] (server, HTTP sessions and their
      TCP sessions together), [HttpClient] (http_client.cpp), [CoHttp] and [CoHttpRequests] (co_http/: the
      coroutine server, definitions and theorems), [CoHttpDemo] (co_http_server_demo.cpp),
      [HttpClientDemo] (http_client_demo.cpp with the TCP client below it), [HttpEndToEnd] (client
      program and server session together).
    - WebSocket ([net/http/websocket/]): [WsFrame] (websocket_frame.cpp), [WsTypes] (the
      types of its fields), [WsBase]
      (ws_session_base.cpp and the frame writers), [WsSession] (websocket_session.cpp,
      websocket_server.cpp), [WsClient] (websocket_client.cpp), [WsHandshake] (theorems about the
      opening handshake), [WsConversation] (client and session from the handshake on, in full duplex),
      [WsSafety] (the session against arbitrary input).
    - RTMP ([net/rtmp/co_rtmp/]): [RtmpHandshake] (co_rtmp_handshake.cpp), [RtmpSession]
      (co_rtmp_session.cpp, co_rtmp_server.cpp).

    ** Interfaces

    - [ByteQueue] with [ByteQueueLaws]: what the protocols need of a byte buffer.  Discharged by
      the heap block of [DataBuffer] and by plain byte strings.  The protocols' theorems are
      proved from the laws.  [ByteQueuePacked] and [ByteQueueSized] add when an append succeeds
      without moving the contents; the theorems about long exchanges bound what is received by
      the slack of the buffer, the whole of it ([response_delivered]) or between two moments at which it is empty
      ([conversation]).
    - [TcpBaseSession] with [TcpBaseLaws] ([TcpPub]): a connection seen by an HTTP session.
      Discharged by the session of [Tcp] and by a log of requests.
    - [TcpClientI] with [TcpClientLaws] ([TcpPub]): the same for clients.  Discharged by
      [TcpClient] and by a log.
    - [OpenSsl], with [OpenSslWriter] and [OpenSslReader]: the calls of OpenSSL on an [SSL] object
      with memory BIOs; the reader's laws are about well-formed records of application data only.  [InetLib]: the C library's [inet_ntop] and [inet_pton].
    - [HttpCallbackI], [HttpClientCallbackI], [TcpSessionCallbackI], [WsEndpoint]: the abstract
      classes of the source through which a component calls its owner.  A callback may delete the HTTP
      client that calls it ([deleted]): every use of a member checks for that.
      [HttpClientCallbackLaws]: what a callback does that takes a response and leaves client and
      connection alone.
    - The writes of a WebSocket endpoint go to [tcp_] of its [Env], the state of the TCP connection: on a
      connection that the session has closed they throw, on a deleted handle they are undefined.

    ** Conventions

    Undefined behaviour (an access outside a block, a use of a destroyed object, a null pointer, a
    failed [assert], an overflow of a signed integer that the code can reach) is [Undef] in [res]
    and [Stuck] in [eff]; a theorem that ends in [Ok] or [Done] says in particular that it does not
    occur.  Integers carry their conversions ([u32], [s32], [u64], [s64]).  Results of libuv and
    OpenSSL calls, clock readings and random numbers are arguments, so a theorem holds for all of
    them unless it says which it assumes.  A coroutine is cut at its [co_await]: the part before
    asks the connection, the part after is applied to the resumption.  A handler is the list of
    operations it performs on its response.

    Loops that are not structural take fuel, and running out of it is undefined behaviour or
    [None], so the theorems about them prove that it suffices: [StringSplit], one round more than
    input bytes; [HandleFrame], one more than buffered bytes, since a frame takes two;
    [SslWrite_loop], one round per byte of the text; [ssl_read_loop], an argument of the read (the
    number of records that have arrived plus one is enough, [tls_client_drains]); [HandleRequest]
    of the coroutine server, one more than the bytes the connection holds; [Wait], the number of the first
    clock reading that is late enough (without one the loop of the code does not end either); [EchoRecv] and [DoJob], four, since a coroutine that is resumed
    suspends again after at most that many stages; [dump_bytes], twice the length of the string,
    since a byte is looked at again only after the sequence before it has been dropped;
    [digit_pairs] ten and [count_digits] six rounds, for the twenty digits of a 64-bit integer; the
    reader of [JsonRead], the size of the value.

    ** What the theorems show

    - Buffers and codecs: [DataBuffer_refines_bytes] (any run of operations acts as on a byte
      string), [byte_codecs_roundtrip], [Base64_roundtrip], [StringSplit_spec],
      [GetCrc32_be_bitwise], [GetHmacSha1_last], [IsIPv4_spec]; and the cases where the buffer fails:
      [DataBuffer_copy_loses_data], [AppendData_overlapping_copy], [small_buffer_overflows].
    - TCP and TLS: [session_refines_log] (a plain session implements the abstract connection),
      [tls_write_sends], [tls_read_one_record], [tls_client_drains], and the lemmas
      [cut_handshake_taken_for_done], [destroyed_with_write_in_flight]; with coroutines
      [receive_in_order], [sends_complete_in_order], [client_read_outcomes].
    - HTTP: [request_answered] and [closed_after_last_byte] (the whole life of a request, for any
      cut of the bytes), [arbitrary_bytes_safe] (any input, any interleaving with the ends of writes, failed ones included), [server_serves] (from
      the accepted connection to its removal from the table, over the TCP session), [https_short_body_cut],
      [duplicate_endpoint_drops_both], [GetHandle_routes], [response_delivered] (what a response object writes, read by
      the client), [http_end_to_end] (client program, its TCP client, server session and back),
      [page_fetched] (the client deleted in its own callback), [empty_header_value_throws],
      [write_error_use_after_free]; the coroutine server [co_request_answered],
      [empty_post_unanswered], [OnTimer_keeps], [demo_answers] (from the accepted connection to the closed one).
    - WebSocket: [conversation] (handshake and messages in both directions, read in any portions),
      [any_input_survived] (any input, errors, timer ticks and the end of the connection in between: what
      holds until a Close has been answered, and the two things that go wrong afterwards),
      [messages_delivered], [HandleFrame_refines], [HandleFrame_chunks], [frame_fields_typed],
      [handshake_completes] (with bytes beyond either head), [HandleWsClose_spec], [ping_drops_fragments],
      [Parse_accepts_negative_length], [rejected_request_unanswered].
    - RTMP: [client_hello_accepted], [ParseC1_spec], [server_answer] (S1 is made; S2 reads behind the end
      of its key), [first_read_is_a_C0C1], [S1_digest_signs_other_bytes].
    - JSON: [decode_wellformed] (the decoder accepts exactly UTF-8), [dump_outcome] (text, exception or
      undefined behaviour of every [dump]), [dump_read] (what is printed is read back as the same value).
    - The echo programs: [echo_server_refines] (an abstract echo), [echo_dialogue] (any number of rounds, and the answer that
      is cut in two).
    - Media, time and logging: [MediaStatics_reports], [Wait_paces], [ntp_roundtrip], [log_lines_bounded],
      [LogInfoData_bounded].

    ** Not modelled

    libuv, OpenSSL and the Windows headers are third-party code.  json.hpp is the nlohmann library: what
    the program uses of it is modelled, except [detail::to_chars], the printing of a finite double, which is an
    argument; parsing, iterators and the binary formats are not used.  io_interface.hpp has abstract classes
    only.  The HMAC context of byte_crypto.cpp is OpenSSL's and its
    random engine the C++ library's: both are arguments.  Of the [main] functions the parsing of
    arguments, the configuration of the log and the call of [uv_run] are left out, and the log calls of the
    protocols are not part of their models.  The RTMP messages after the handshake are not in the
    sources. *)
From Stdlib Require Export ZArith Lia Bool.
From Stdlib Require Ascii String.
From stdpp Require Export base gmap list numbers strings.
#[global] Open Scope Z_scope.

(** ** Machine integers: wrap-around at a width, two's complement for signed types *)

Definition u8 (z : Z) : Z := z mod 2 ^ 8.
Definition u16 (z : Z) : Z := z mod 2 ^ 16.
Definition u32 (z : Z) : Z := z mod 2 ^ 32.
Definition u64 (z : Z) : Z := z mod 2 ^ 64.
Definition s32 (z : Z) : Z := (z + 2 ^ 31) mod 2 ^ 32 - 2 ^ 31.
Definition s64 (z : Z) : Z := (z + 2 ^ 63) mod 2 ^ 64 - 2 ^ 63.

Definition INT_MAX : Z := 2 ^ 31 - 1.
Definition npos : Z := 2 ^ 64 - 1.

(** ** Outcomes of C++ code: a value, an exception, or undefined behaviour *)

Inductive exn : Type :=
| OutOfRange                    (* std::out_of_range, from std::string::substr *)
| BadAlloc                      (* std::bad_alloc, from operator new *)
| StreamExn (msg : list Z)      (* CppStreamException *)
| TypeError (id : Z) (what : list Z).   (* nlohmann::detail::type_error *)

Inductive res (A : Type) : Type :=
| Ok (a : A)
| Throw (e : exn)
| Undef.
Arguments Ok {A} a.
Arguments Throw {A} e.
Arguments Undef {A}.

#[export] Instance res_ret : MRet res := @Ok.
#[export] Instance res_bind : MBind res := fun A B f m =>
  match m with Ok a => f a | Throw e => Throw e | Undef => Undef end.

Definition guard_res (b : bool) : res unit := if b then Ok tt else Undef.

(** [int] and [int64_t] arithmetic: signed overflow is undefined behaviour. *)
Definition int_range (z : Z) : bool := (- 2 ^ 31 <=? z) && (z <? 2 ^ 31).
Definition chk_int (z : Z) : res Z := if int_range z then Ok z else Undef.
Definition int64_range (z : Z) : bool := (- 2 ^ 63 <=? z) && (z <? 2 ^ 63).
Definition chk_int64 (z : Z) : res Z := if int64_range z then Ok z else Undef.

(** ** Bytes and byte strings *)

Abbreviation bytes := (list Z).
Definition byte_ok (b : Z) : Prop := 0 <= b < 256.
Definition bytes_ok (l : bytes) : Prop := Forall byte_ok l.
Definition Zlen {A} (l : list A) : Z := Z.of_nat (length l).

(** A C string literal as its bytes. *)
Definition bstr (s : String.string) : bytes :=
  map (fun c => Z.of_N (Ascii.N_of_ascii c)) (String.list_ascii_of_string s).
Definition CRLF : bytes := [13; 10].

(** ** std::string: comparison at a position, find, rfind, substr *)

Definition beqb (x y : bytes) : bool := bool_decide (x = y).

Fixpoint is_prefix (p l : bytes) : bool :=
  match p, l with
  | [], _ => true
  | a :: p', b :: l' => (a =? b) && is_prefix p' l'
  | _ :: _, [] => false
  end.

(** First occurrence at or after position [i] (the position of the head of [l]). *)
Fixpoint find_at (p l : bytes) (i : Z) : Z :=
  if is_prefix p l then i
  else match l with [] => npos | _ :: l' => find_at p l' (i + 1) end.
Definition find (p l : bytes) : Z := find_at p l 0.

(** Last occurrence. *)
Fixpoint rfind_at (p l : bytes) (i acc : Z) : Z :=
  let acc' := if is_prefix p l then i else acc in
  match l with [] => acc' | _ :: l' => rfind_at p l' (i + 1) acc' end.
Definition rfind (p l : bytes) : Z := rfind_at p l 0 npos.

(** [s.substr(pos, n)]: throws when [pos > s.size()]. *)
Definition substr (s : bytes) (pos n : Z) : res bytes :=
  if pos <=? Zlen s then Ok (firstn (Z.to_nat (Z.min n (Zlen s))) (skipn (Z.to_nat pos) s))
  else Throw OutOfRange.
Definition substr_from (s : bytes) (pos : Z) : res bytes := substr s pos (Zlen s).

(** ** Memory blocks: cells are [None] while indeterminate *)

Abbreviation mem := (list (option Z)).
Definition mem_new (n : Z) : mem := replicate (Z.to_nat n) None.
Definition init (l : bytes) : mem := map Some l.

(** [memcpy] out of a block and into a block; an access outside the block is undefined. *)
Definition mem_load (m : mem) (off n : Z) : res mem :=
  if (0 <=? off) && (0 <=? n) && (off + n <=? Zlen m)
  then Ok (firstn (Z.to_nat n) (skipn (Z.to_nat off) m)) else Undef.
Definition mem_store (m : mem) (off : Z) (d : mem) : res mem :=
  if (0 <=? off) && (off + Zlen d <=? Zlen m)
  then Ok (firstn (Z.to_nat off) m ++ d ++ skipn (Z.to_nat (off + Zlen d)) m) else Undef.

(** The bytes of a block, when every cell has a value. *)
Fixpoint determinate (m : mem) : res bytes :=
  match m with
  | [] => Ok []
  | Some b :: m' => l ← determinate m'; Ok (b :: l)
  | None :: _ => Undef
  end.

(** ** Automation *)

(** Case analysis on the boolean tests of a goal or hypothesis, turned into arithmetic. *)
Ltac zbool :=
  repeat match goal with
  | H : context [Z.leb ?a ?b] |- _ => destruct (Z.leb_spec a b) in H; cbn [andb orb negb] in H
  | H : context [Z.ltb ?a ?b] |- _ => destruct (Z.ltb_spec a b) in H; cbn [andb orb negb] in H
  | H : context [Z.eqb ?a ?b] |- _ => destruct (Z.eqb_spec a b) in H; cbn [andb orb negb] in H
  | |- context [Z.leb ?a ?b] => destruct (Z.leb_spec a b); cbn [andb orb negb]
  | |- context [Z.ltb ?a ?b] => destruct (Z.ltb_spec a b); cbn [andb orb negb]
  | |- context [Z.eqb ?a ?b] => destruct (Z.eqb_spec a b); cbn [andb orb negb]
  end.

(** Walk through the binds of a computation known to succeed. *)
Ltac res_inv H :=
  repeat match type of H with
  | mbind _ ?m = Ok _ => let E := fresh "E" in
      destruct m eqn:E; cbn [mbind res_bind] in H; try discriminate H
  | Ok _ = Ok _ => injection H as H
  | (if ?b then _ else _) = Ok _ => let E := fresh "E" in
      destruct b eqn:E; try discriminate H
  end.

Lemma bind_Ok {A B} (a : A) (f : A -> res B) : (Ok a ≫= f) = f a.
Proof. reflexivity. Qed.

Create HintDb bytesdb.
Create Rewrite HintDb zlen.

(** ** Lengths *)

Section zlen.
Context {A : Type}.
Implicit Types l : list A.

Lemma Zlen_nonneg l : 0 <= Zlen l.
Proof. unfold Zlen; lia. Qed.
Lemma Zlen_nil : Zlen (@nil A) = 0.
Proof. reflexivity. Qed.
Lemma Zlen_cons x l : Zlen (x :: l) = 1 + Zlen l.
Proof. unfold Zlen; cbn [length]; lia. Qed.
Lemma Zlen_app l l' : Zlen (l ++ l') = Zlen l + Zlen l'.
Proof. unfold Zlen; rewrite length_app; lia. Qed.
Lemma Zlen_take n l : 0 <= n -> Zlen (firstn (Z.to_nat n) l) = Z.min n (Zlen l).
Proof. intros; unfold Zlen; rewrite length_firstn; lia. Qed.
Lemma Zlen_drop n l : 0 <= n -> Zlen (skipn (Z.to_nat n) l) = Z.max 0 (Zlen l - n).
Proof. intros; unfold Zlen; rewrite length_skipn; lia. Qed.
Lemma Zlen_replicate n (x : A) : Zlen (replicate (Z.to_nat n) x) = Z.max 0 n.
Proof. unfold Zlen; rewrite length_replicate; lia. Qed.
Lemma Zlen_0_nil l : Zlen l = 0 -> l = [].
Proof. destruct l; [done|rewrite Zlen_cons; pose proof (Zlen_nonneg l); lia]. Qed.
Lemma to_nat_Zlen l : Z.to_nat (Zlen l) = length l.
Proof. unfold Zlen; lia. Qed.
End zlen.

Lemma Zlen_map {A B} (f : A -> B) l : Zlen (map f l) = Zlen l.
Proof. unfold Zlen; rewrite length_map; lia. Qed.

Lemma Zlen_init l : Zlen (init l) = Zlen l.
Proof. apply Zlen_map. Qed.

#[export] Hint Rewrite @Zlen_nil @Zlen_cons @Zlen_app @Zlen_replicate @Zlen_init @to_nat_Zlen
  @length_app @length_map @length_replicate : zlen.
#[export] Hint Resolve Zlen_nonneg : bytesdb.

(** Arithmetic about lengths: normalise, recall that lengths are non-negative, call lia. *)
Ltac zlen :=
  autorewrite with zlen in *;
  repeat match goal with
  | |- context [Zlen ?l] =>
      lazymatch goal with H : 0 <= Zlen l |- _ => fail | _ => pose proof (Zlen_nonneg l) end
  | H0 : context [Zlen ?l] |- _ =>
      lazymatch goal with H : 0 <= Zlen l |- _ => fail | _ => pose proof (Zlen_nonneg l) end
  end; try lia.

(** ** Byte ranges *)

Lemma u8_ok z : byte_ok (u8 z).
Proof. unfold byte_ok, u8. apply Z.mod_pos_bound; lia. Qed.
Lemma u8_small b : byte_ok b -> u8 b = b.
Proof. unfold byte_ok, u8; intros; apply Z.mod_small; lia. Qed.
Lemma u16_small b : 0 <= b < 65536 -> u16 b = b.
Proof. unfold u16; intros; apply Z.mod_small; lia. Qed.
Lemma u32_small b : 0 <= b < 2 ^ 32 -> u32 b = b.
Proof. unfold u32; intros; apply Z.mod_small; lia. Qed.
Lemma u64_small b : 0 <= b < 2 ^ 64 -> u64 b = b.
Proof. unfold u64; intros; apply Z.mod_small; lia. Qed.
Lemma s32_small z : - 2 ^ 31 <= z < 2 ^ 31 -> s32 z = z.
Proof. unfold s32; intros; rewrite Z.mod_small; lia. Qed.
Lemma s64_small z : - 2 ^ 63 <= z < 2 ^ 63 -> s64 z = z.
Proof. unfold s64; intros; rewrite Z.mod_small; lia. Qed.
Lemma chk_int_ok z : - 2 ^ 31 <= z < 2 ^ 31 -> chk_int z = Ok z.
Proof. unfold chk_int, int_range; intros; zbool; try lia; done. Qed.
Lemma chk_int64_ok z : - 2 ^ 63 <= z < 2 ^ 63 -> chk_int64 z = Ok z.
Proof. unfold chk_int64, int64_range; intros; zbool; try lia; done. Qed.

#[export] Hint Resolve u8_ok : bytesdb.

Lemma bytes_ok_app l l' : bytes_ok (l ++ l') <-> bytes_ok l /\ bytes_ok l'.
Proof. apply Forall_app. Qed.
Lemma bytes_ok_firstn n l : bytes_ok l -> bytes_ok (firstn n l).
Proof. apply Forall_take. Qed.
Lemma bytes_ok_skipn n l : bytes_ok l -> bytes_ok (skipn n l).
Proof. apply Forall_drop. Qed.

(** A quantified statement over all byte values, decided by evaluation. *)
Definition all_bytes (f : Z -> bool) : bool := forallb (fun n => f (Z.of_nat n)) (seq 0 256).
Lemma all_bytes_spec f : all_bytes f = true -> forall b, byte_ok b -> f b = true.
Proof.
  intros H b [Hb1 Hb2]. unfold all_bytes in H. rewrite forallb_forall in H.
  specialize (H (Z.to_nat b)). rewrite Z2Nat.id in H by lia.
  apply H, in_seq. lia.
Qed.

(** ** Bit-level facts *)

Lemma testbit_high a n i : 0 <= a < 2 ^ n -> n <= i -> Z.testbit a i = false.
Proof.
  intros [Ha Hn] Hi. destruct (Z.eq_dec a 0) as [->|]; [apply Z.testbit_0_l|].
  apply Z.bits_above_log2; [lia|]. apply Z.log2_lt_pow2; [lia|].
  eapply Z.lt_le_trans; [exact Hn|]. apply Z.pow_le_mono_r; lia.
Qed.

Lemma lt_pow2_testbit a n : 0 <= n -> 0 <= a ->
  (forall i, n <= i -> Z.testbit a i = false) -> a < 2 ^ n.
Proof.
  intros Hn Ha H. destruct (Z.eq_dec a 0) as [->|Hz]; [apply Z.pow_pos_nonneg; lia|].
  apply Z.log2_lt_pow2; [lia|]. destruct (Z.lt_ge_cases (Z.log2 a) n); [done|].
  specialize (H (Z.log2 a) H0). rewrite Z.bit_log2 in H by lia. discriminate.
Qed.

Lemma lxor_bound a b n : 0 <= n -> 0 <= a < 2 ^ n -> 0 <= b < 2 ^ n -> 0 <= Z.lxor a b < 2 ^ n.
Proof.
  intros Hn Ha Hb. split; [apply Z.lxor_nonneg; lia|].
  apply lt_pow2_testbit; [done|apply Z.lxor_nonneg; lia|].
  intros i Hi. rewrite Z.lxor_spec, (testbit_high a n), (testbit_high b n) by done. done.
Qed.

Lemma lor_bound a b n : 0 <= n -> 0 <= a < 2 ^ n -> 0 <= b < 2 ^ n -> 0 <= Z.lor a b < 2 ^ n.
Proof.
  intros Hn Ha Hb. split; [apply Z.lor_nonneg; lia|].
  apply lt_pow2_testbit; [done|apply Z.lor_nonneg; lia|].
  intros i Hi. rewrite Z.lor_spec, (testbit_high a n), (testbit_high b n) by done. done.
Qed.

(** Or-ing a shifted value over a smaller one is addition. *)
Lemma lor_shiftl_add a b n : 0 <= n -> 0 <= b < 2 ^ n -> Z.lor (Z.shiftl a n) b = a * 2 ^ n + b.
Proof.
  intros Hn Hb. rewrite <- (Z.shiftl_mul_pow2 a n) by done. symmetry.
  rewrite <- Z.lxor_lor, <- Z.add_nocarry_lxor; try done.
  all: apply Z.bits_inj_0; intros i; rewrite Z.land_spec;
    destruct (Z.lt_ge_cases i 0); [rewrite !Z.testbit_neg_r by lia; done|];
    destruct (Z.lt_ge_cases i n);
    [rewrite Z.shiftl_spec_low by lia; done|rewrite (testbit_high b n) by lia; apply andb_false_r].
Qed.

(** ** Loads and stores *)

Lemma firstn_app_len {A} (l k : list A) : firstn (length l) (l ++ k) = l.
Proof. rewrite firstn_app, firstn_all, Nat.sub_diag, firstn_0, app_nil_r; done. Qed.
Lemma skipn_app_len {A} (l k : list A) : skipn (length l) (l ++ k) = k.
Proof. rewrite skipn_app, skipn_all, Nat.sub_diag; done. Qed.

Lemma firstn_Zlen_app {A} (l k : list A) n : n = Zlen l -> firstn (Z.to_nat n) (l ++ k) = l.
Proof. intros ->. rewrite to_nat_Zlen. apply firstn_app_len. Qed.
Lemma skipn_Zlen_app {A} (l k : list A) n : n = Zlen l -> skipn (Z.to_nat n) (l ++ k) = k.
Proof. intros ->. rewrite to_nat_Zlen. apply skipn_app_len. Qed.

(** A block split around a range. *)
Lemma mem_split (m : mem) off n : 0 <= off -> 0 <= n -> off + n <= Zlen m ->
  exists a d c, m = a ++ d ++ c /\ Zlen a = off /\ Zlen d = n.
Proof.
  intros. exists (firstn (Z.to_nat off) m), (firstn (Z.to_nat n) (skipn (Z.to_nat off) m)),
    (skipn (Z.to_nat n) (skipn (Z.to_nat off) m)).
  rewrite !firstn_skipn. repeat split; rewrite ?Zlen_take, ?Zlen_drop by lia; lia.
Qed.

Lemma mem_load_app a d c off n :
  off = Zlen a -> n = Zlen d -> mem_load (a ++ d ++ c) off n = Ok d.
Proof.
  intros -> ->. unfold mem_load. autorewrite with zlen.
  pose proof (Zlen_nonneg a); pose proof (Zlen_nonneg d); pose proof (Zlen_nonneg c).
  zbool; try lia. rewrite skipn_app_len, firstn_app_len. done.
Qed.

Lemma mem_store_app a d d' c off :
  off = Zlen a -> Zlen d' = Zlen d -> mem_store (a ++ d ++ c) off d' = Ok (a ++ d' ++ c).
Proof.
  intros -> E. unfold mem_store. autorewrite with zlen. rewrite E.
  pose proof (Zlen_nonneg a); pose proof (Zlen_nonneg d); pose proof (Zlen_nonneg c).
  zbool; try lia. rewrite firstn_app_len.
  rewrite (app_assoc a d c), skipn_Zlen_app; [done|zlen].
Qed.

Lemma mem_store_len m off d m' : mem_store m off d = Ok m' -> Zlen m' = Zlen m.
Proof.
  unfold mem_store. destruct (_ && _) eqn:E; [|done]. intros [= <-].
  apply andb_true_iff in E as [E1 E2]. apply Z.leb_le in E1, E2.
  rewrite !Zlen_app, Zlen_take, Zlen_drop; zlen.
Qed.

Lemma determinate_init l : determinate (init l) = Ok l.
Proof. induction l as [|b l IH]; [done|]. cbn. fold (init l). rewrite IH. done. Qed.

Lemma determinate_Ok m l : determinate m = Ok l -> m = init l.
Proof.
  revert l; induction m as [|[b|] m IH]; intros l H; cbn in H.
  - injection H as <-; done.
  - destruct (determinate m) eqn:E; cbn in H; try done. injection H as <-.
    rewrite (IH _ eq_refl). done.
  - done.
Qed.

(** ** String search *)

Lemma is_prefix_app p l : is_prefix p l = true <-> exists k, l = p ++ k.
Proof.
  revert l; induction p as [|a p IH]; intros l; cbn.
  - split; [intros _; exists l|]; done.
  - destruct l as [|b l]; [split; [done|intros [? ?]; done]|].
    rewrite andb_true_iff, Z.eqb_eq, IH. split.
    + intros [-> [k ->]]. exists k; done.
    + intros [k [= -> ->]]. split; [done|exists k; done].
Qed.

(** [find] returns the first position at which the pattern occurs, or [npos]. *)
Lemma find_at_spec p l i : Zlen l + i < npos -> 0 <= i ->
  let r := find_at p l i in
  (r = npos /\ forall a c, l <> a ++ p ++ c) \/
  (exists a c, l = a ++ p ++ c /\ r = i + Zlen a /\
     forall a' c', l = a' ++ p ++ c' -> Zlen a <= Zlen a').
Proof.
  revert i; induction l as [|x l IH]; intros i Hb Hi; cbn [find_at];
    destruct (is_prefix p _) eqn:E.
  - apply is_prefix_app in E as [k E]. right. exists [], k. split_and!; [done|zlen|intros; zlen].
  - left. split; [done|]. intros a c Hc. symmetry in Hc. apply app_nil in Hc as [_ [-> _]%app_nil]. done.
  - apply is_prefix_app in E as [k E]. right. exists [], k. split_and!; [done|zlen|intros; zlen].
  - assert (Hn : forall c, x :: l <> p ++ c).
    { intros c Hc. assert (is_prefix p (x :: l) = true) by (apply is_prefix_app; eauto). congruence. }
    destruct (IH (i + 1)) as [[-> H]|(a & c & -> & -> & H)]; [zlen|lia| |].
    + left; split; [done|]. intros [|y a] c Hc; [by eapply Hn|].
      injection Hc as -> Hc. by eapply H.
    + right. exists (x :: a), c. split_and!; [done|zlen|]. intros [|y a'] c' Hc.
      * by apply Hn in Hc.
      * injection Hc as -> Hc. apply H in Hc. zlen.
Qed.
