(* ===== verification/Eff.v ===== *)
(** Code that mutates an object and may throw.

    [eff S A] is a computation on an object of type [S]: it ends with a value, with an
    exception — the object keeps the changes made before the throw — or in undefined
    behaviour.  Record fields are updated with the notation [x <| field := v |>]. *)
From S2P Require Import Prelude.
From coqutil Require Export Datatypes.RecordSetters.
Export TriangleBracketNotations.

Inductive outc (S A : Type) : Type :=
| Done (s : S) (a : A)
| Raised (s : S) (e : exn)
| Stuck.
Arguments Done {S A} s a.
Arguments Raised {S A} s e.
Arguments Stuck {S A}.

Definition eff (S A : Type) : Type := S -> outc S A.

#[export] Instance eff_ret S : MRet (eff S) := fun A a s => Done s a.
#[export] Instance eff_bind S : MBind (eff S) := fun A B f m s =>
  match m s with Done s' a => f a s' | Raised s' e => Raised s' e | Stuck => Stuck end.

Section eff.
Context {S : Type}.

Definition get : eff S S := fun s => Done s s.
Definition gets {A} (f : S -> A) : eff S A := fun s => Done s (f s).
Definition modify (f : S -> S) : eff S unit := fun s => Done (f s) tt.
Definition raise {A} (e : exn) : eff S A := fun s => Raised s e.
Definition stuck {A} : eff S A := fun s => Stuck.

(** A computation on values, run inside a method. *)
Definition lift {A} (r : res A) : eff S A := fun s =>
  match r with Ok a => Done s a | Throw e => Raised s e | Undef => Stuck end.

(** [try { m } catch (const std::exception&) { h }]. *)
Definition try_catch {A} (m : eff S A) (h : exn -> eff S A) : eff S A := fun s =>
  match m s with Done s' a => Done s' a | Raised s' e => h e s' | Stuck => Stuck end.

Definition when (b : bool) (m : eff S unit) : eff S unit := if b then m else mret tt.

Fixpoint for_each {A} (l : list A) (body : A -> eff S unit) : eff S unit :=
  match l with [] => mret tt | x :: l' => body x ;; for_each l' body end.

(** A pointer that must not be null. *)
Definition deref {A} (o : option A) : eff S A := match o with Some a => mret a | None => stuck end.

(** A method of a member object. *)
Definition zoom {T A} (proj : S -> T) (upd : S -> T -> S) (m : eff T A) : eff S A := fun s =>
  match m (proj s) with
  | Done t a => Done (upd s t) a
  | Raised t e => Raised (upd s t) e
  | Stuck => Stuck
  end.

Lemma bind_done {A B} (m : eff S A) (f : A -> eff S B) s s' a :
  m s = Done s' a -> (m ≫= f) s = f a s'.
Proof. intros E. unfold mbind, eff_bind. rewrite E. done. Qed.
Lemma bind_raised {A B} (m : eff S A) (f : A -> eff S B) s s' e :
  m s = Raised s' e -> (m ≫= f) s = Raised s' e.
Proof. intros E. unfold mbind, eff_bind. rewrite E. done. Qed.
Lemma bind_inv {A B} (m : eff S A) (f : A -> eff S B) s s' b :
  (m ≫= f) s = Done s' b -> exists s1 a, m s = Done s1 a /\ f a s1 = Done s' b.
Proof. unfold mbind, eff_bind. destruct (m s) as [s1 a| |]; [|done..]. by exists s1, a. Qed.
Lemma lift_inv {A} (r : res A) (s s' : S) a : lift r s = Done s' a -> r = Ok a /\ s' = s.
Proof. unfold lift. destruct r; [|done..]. by intros [= <- <-]. Qed.
Lemma bind_assoc {A B C} (m : eff S A) (f : A -> eff S B) (g : B -> eff S C) s :
  ((m ≫= f) ≫= g) s = (m ≫= fun a => f a ≫= g) s.
Proof. unfold mbind, eff_bind. destruct (m s); done. Qed.
Lemma for_each_app {A} (l k : list A) (body : A -> eff S unit) s :
  for_each (l ++ k) body s = (for_each l body ;; for_each k body) s.
Proof.
  revert s; induction l as [|x l IH]; intros s; [done|].
  cbn [app for_each]. rewrite bind_assoc. unfold mbind, eff_bind. destruct (body x s); done || apply IH.
Qed.
(** A loop that only changes the object. *)
Lemma for_each_modify {A} (f : A -> S -> S) l s :
  for_each l (fun x => modify (f x)) s = Done (fold_left (fun s x => f x s) l s) tt.
Proof. revert s; induction l as [|x l IH]; intros s; [done|]. cbn [for_each fold_left]. by erewrite bind_done by reflexivity. Qed.
(** A loop that returns, with [P] after every round. *)
Fixpoint ran {A} (P : S -> Prop) (body : A -> eff S unit) (l : list A) (s s' : S) : Prop :=
  match l with
  | [] => s' = s
  | x :: l' => exists s1, body x s = Done s1 tt /\ P s1 /\ ran P body l' s1 s'
  end.
Lemma ran_for_each {A} (P : S -> Prop) (body : A -> eff S unit) l s s' : ran P body l s s' -> for_each l body s = Done s' tt.
Proof.
  revert s; induction l as [|x l IH]; intros s; cbn [ran for_each]; [by intros ->|].
  intros (s1 & E & _ & H). rewrite (bind_done _ _ _ _ _ E). by apply IH.
Qed.
Lemma ran_last {A} (P : S -> Prop) (body : A -> eff S unit) l s s' : P s -> ran P body l s s' -> P s'.
Proof.
  revert s; induction l as [|x l IH]; intros s Hs; cbn [ran]; [by intros ->|]. intros (s1 & _ & H1 & H). by apply (IH s1).
Qed.
Lemma ran_snoc {A} (P : S -> Prop) (body : A -> eff S unit) l x s s1 s' :
  ran P body l s s1 -> body x s1 = Done s' tt -> P s' -> ran P body (l ++ [x]) s s'.
Proof.
  revert s; induction l as [|y l IH]; intros s; cbn [ran app].
  - intros -> E HP. by exists s'.
  - intros (s2 & E2 & H2 & H) E HP. exists s2. split_and!; [done|done|by apply IH].
Qed.
End eff.

(** ** What may happen when a method runs *)

Section wp.
Context {S : Type}.
Definition wp {A} (m : eff S A) (R : A -> S -> Prop) (E : exn -> S -> Prop) (s : S) : Prop :=
  match m s with Done s' a => R a s' | Raised s' e => E e s' | Stuck => False end.

Lemma wp_bind {A B} (m : eff S A) (f : A -> eff S B) R E s : wp m (fun a => wp (f a) R E) E s -> wp (m ≫= f) R E s.
Proof. unfold wp, mbind, eff_bind. by destruct (m s). Qed.
Lemma wp_weaken {A} (m : eff S A) (R R' : A -> S -> Prop) (E E' : exn -> S -> Prop) s :
  wp m R E s -> (forall a s', R a s' -> R' a s') -> (forall e s', E e s' -> E' e s') -> wp m R' E' s.
Proof. unfold wp. destruct (m s); eauto. Qed.
Lemma wp_try {A} (m : eff S A) (h : exn -> eff S A) R E s : wp m R (fun e => wp (h e) R E) s -> wp (try_catch m h) R E s.
Proof. unfold wp, try_catch. by destruct (m s). Qed.
Lemma wp_ret {A} (a : A) (R : A -> S -> Prop) E s : R a s -> wp (mret a) R E s.
Proof. done. Qed.
Lemma wp_get (R : S -> S -> Prop) E s : R s s -> wp get R E s.
Proof. done. Qed.
Lemma wp_modify f (R : unit -> S -> Prop) E s : R tt (f s) -> wp (modify f) R E s.
Proof. done. Qed.
Lemma wp_lift {A} (r : res A) a (R : A -> S -> Prop) E s : r = Ok a -> R a s -> wp (lift r) R E s.
Proof. by intros ->. Qed.
Lemma wp_deref {A} (o : option A) a (R : A -> S -> Prop) E s : o = Some a -> R a s -> wp (deref o) R E s.
Proof. by intros ->. Qed.
Lemma wp_for_each {A} (l : list A) (body : A -> eff S unit) (P : S -> Prop) E s :
  (forall x s, In x l -> P s -> wp (body x) (fun _ => P) E s) -> P s -> wp (for_each l body) (fun _ => P) E s.
Proof.
  intros H. revert s; induction l as [|x l IH]; intros s Hs; [done|]. cbn [for_each]. apply wp_bind.
  eapply wp_weaken; [apply H; [by left|done]| |done]. intros ? s' Hs'. apply IH; [|done]. intros y s1 Hy. apply H. by right.
Qed.
End wp.

(** The same rounds seen on a larger object. *)
Lemma ran_map {S T A} (P : S -> Prop) (f : A -> eff S unit) (g : A -> eff T unit) (h : S -> T) l : forall s s',
  (forall x s s1, In x l -> P s -> P s1 -> f x s = Done s1 tt -> g x (h s) = Done (h s1) tt) ->
  P s -> ran P f l s s' -> ran (fun _ => True) g l (h s) (h s').
Proof.
  induction l as [|x l IH]; intros s s' H Hs; cbn [ran]; [by intros ->|].
  intros (s1 & E & H1 & Hr). exists (h s1). split_and!; [apply H; [by left|done..]|done|].
  apply IH; [|done|done]. intros y s2 s3 Hy. apply H. by right.
Qed.

(** Two runs with related results: both return, or both throw the same. *)
Definition out_rel {S T A : Type} (R : S -> T -> Prop) (o : outc S A) (o' : outc T A) : Prop :=
  match o, o' with
  | Done s a, Done t b => R s t /\ a = b
  | Raised s e, Raised t e' => R s t /\ e = e'
  | _, _ => False
  end.

Lemma out_rel_for_each {S T A : Type} (R : S -> T -> Prop) (f : A -> eff S unit) (g : A -> eff T unit) l :
  (forall x s t, R s t -> out_rel R (f x s) (g x t)) ->
  forall s t, R s t -> out_rel R (for_each l f s) (for_each l g t).
Proof.
  intros H. induction l as [|x l IH]; intros s t HR; [done|]. cbn [for_each].
  unfold mbind, eff_bind. specialize (H x s t HR).
  destruct (f x s) as [s1 []|s1 e|], (g x t) as [t1 []|t1 e'|]; try done. destruct H as [H _]. by apply IH.
Qed.

(** Evaluate a computation step by step. *)
Ltac eff_step :=
  first [ erewrite bind_done by (first [reflexivity | eassumption]); cbv beta
        | erewrite bind_raised by (first [reflexivity | eassumption]) ].
