(* ===== verification/StdMap.v ===== *)
(** [std::map<std::string, V>]: association lists sorted by key, since the code iterates over
    its maps to print headers and to expire sessions. *)
From S2P Require Import Prelude.
From Stdlib Require Import Sorting.Sorted.

(** [std::string::compare]: lexicographic order on bytes. *)
Fixpoint bytes_ltb (x y : bytes) : bool :=
  match x, y with
  | [], [] => false
  | [], _ :: _ => true
  | _ :: _, [] => false
  | a :: x', b :: y' => (a <? b) || ((a =? b) && bytes_ltb x' y')
  end.

Section smap.
Context {V : Type}.
Implicit Types (m : list (bytes * V)) (k : bytes).

Fixpoint smap_find k m : option V :=
  match m with
  | [] => None
  | (k', v) :: m' => if beqb k k' then Some v else smap_find k m'
  end.

(** [m[k] = v]. *)
Fixpoint smap_set k (v : V) m : list (bytes * V) :=
  match m with
  | [] => [(k, v)]
  | (k', v') :: m' =>
      if beqb k k' then (k, v) :: m'
      else if bytes_ltb k k' then (k, v) :: (k', v') :: m'
      else (k', v') :: smap_set k v m'
  end.

(** [m.insert({k, v})]: keeps an existing entry. *)
Definition smap_insert k (v : V) m : list (bytes * V) :=
  match smap_find k m with Some _ => m | None => smap_set k v m end.

Definition smap_erase k m : list (bytes * V) := List.filter (fun e => negb (beqb k (fst e))) m.

Definition key_lt (x y : bytes * V) : Prop := bytes_ltb (fst x) (fst y) = true.
Definition smap_wf m : Prop := StronglySorted key_lt m.
End smap.

(** [m[k]] read: inserts a default value when the key is absent. *)
Definition smap_index (k : bytes) (m : list (bytes * bytes)) : bytes * list (bytes * bytes) :=
  match smap_find k m with Some v => (v, m) | None => ([], smap_set k [] m) end.

Lemma beqb_true x y : beqb x y = true <-> x = y.
Proof. unfold beqb. apply bool_decide_eq_true. Qed.
Lemma beqb_false x y : beqb x y = false <-> x <> y.
Proof. unfold beqb. apply bool_decide_eq_false. Qed.
Lemma beqb_refl x : beqb x x = true.
Proof. apply beqb_true. done. Qed.

Lemma bytes_ltb_irrefl x : bytes_ltb x x = false.
Proof. induction x as [|a x IH]; [done|]. cbn. rewrite Z.ltb_irrefl, Z.eqb_refl, IH. done. Qed.

Lemma bytes_ltb_trans x y z : bytes_ltb x y = true -> bytes_ltb y z = true -> bytes_ltb x z = true.
Proof.
  revert y z; induction x as [|a x IH]; intros [|b y] [|c z]; cbn; try done.
  rewrite !orb_true_iff, !andb_true_iff, !Z.ltb_lt, !Z.eqb_eq.
  intros [H1|[-> H1]] [H2|[-> H2]]; [left; lia|left; lia|left; lia|right; split; [done|eauto]].
Qed.

Lemma bytes_ltb_total x y : bytes_ltb x y = false -> x <> y -> bytes_ltb y x = true.
Proof.
  revert y; induction x as [|a x IH]; intros [|b y]; cbn; try done.
  rewrite orb_false_iff, andb_false_iff, Z.ltb_ge, Z.eqb_neq, orb_true_iff, andb_true_iff, Z.ltb_lt, Z.eqb_eq.
  intros [H1 [H2|H2]] Hne; [left; lia|].
  destruct (Z.eq_dec a b) as [->|]; [right; split; [done|]; apply IH; [done|congruence]|left; lia].
Qed.

Section smap_lemmas.
Context {V : Type}.
Implicit Types (m : list (bytes * V)) (k : bytes).

Lemma smap_find_set k v m k' :
  smap_find k' (smap_set k v m) = if beqb k' k then Some v else smap_find k' m.
Proof.
  induction m as [|[k1 v1] m IH]; cbn; [done|].
  destruct (beqb k k1) eqn:E1.
  - apply beqb_true in E1 as ->. cbn. destruct (beqb k' k1) eqn:E; done.
  - destruct (bytes_ltb k k1) eqn:E2; cbn.
    + destruct (beqb k' k) eqn:E; done.
    + destruct (beqb k' k1) eqn:E3; [|exact IH].
      apply beqb_true in E3 as ->. destruct (beqb k1 k) eqn:E4; [|done].
      apply beqb_true in E4 as ->. rewrite beqb_refl in E1. done.
Qed.

Lemma smap_find_insert k v m k' :
  smap_find k' (smap_insert k v m) =
  match smap_find k' m with Some x => Some x | None => if beqb k' k then Some v else None end.
Proof.
  unfold smap_insert. destruct (smap_find k m) eqn:E.
  - destruct (smap_find k' m) eqn:E'; [done|]. destruct (beqb k' k) eqn:Ek; [|done].
    apply beqb_true in Ek as ->. congruence.
  - rewrite smap_find_set. destruct (beqb k' k) eqn:Ek.
    + apply beqb_true in Ek as ->. rewrite E. done.
    + destruct (smap_find k' m); done.
Qed.

Lemma smap_set_keys k v m e : In e (smap_set k v m) -> e = (k, v) \/ In e m.
Proof.
  induction m as [|[k1 v1] m IH]; cbn; [intuition congruence|].
  destruct (beqb k k1); [cbn; intuition congruence|].
  destruct (bytes_ltb k k1); cbn; intuition congruence.
Qed.

Lemma smap_set_wf k v m : smap_wf m -> smap_wf (smap_set k v m).
Proof.
  unfold smap_wf. induction 1 as [|[k1 v1] m Hm IH Hall]; cbn; [repeat constructor|].
  destruct (beqb k k1) eqn:E1.
  - apply beqb_true in E1 as ->. constructor; [done|]. exact Hall.
  - apply beqb_false in E1. destruct (bytes_ltb k k1) eqn:E2.
    + constructor; [constructor; done|]. constructor; [exact E2|].
      eapply Forall_impl; [exact Hall|]. intros [k2 v2]; unfold key_lt; cbn. intros. eapply bytes_ltb_trans; done.
    + constructor; [done|]. apply List.Forall_forall. intros e He.
      apply smap_set_keys in He as [->|He].
      * unfold key_lt; cbn. apply bytes_ltb_total; [done|congruence].
      * rewrite List.Forall_forall in Hall. apply Hall. done.
Qed.

Lemma smap_find_erase k m k' : smap_find k' (smap_erase k m) = if beqb k k' then None else smap_find k' m.
Proof.
  unfold smap_erase. induction m as [|[k1 v1] m IH]; cbn; [destruct (beqb k k'); done|].
  destruct (beqb k k1) eqn:E1; cbn [negb].
  - rewrite IH. apply beqb_true in E1 as ->. destruct (beqb k1 k') eqn:E2; [done|].
    destruct (beqb k' k1) eqn:E3; [|done]. apply beqb_true in E3 as ->. rewrite beqb_refl in E2. done.
  - cbn. rewrite IH. destruct (beqb k' k1) eqn:E3; [|done]. apply beqb_true in E3 as ->. rewrite E1. done.
Qed.

Lemma smap_erase_absent k m : smap_find k m = None -> smap_erase k m = m.
Proof.
  unfold smap_erase. induction m as [|[k1 v1] m IH]; cbn; [done|]. destruct (beqb k k1); [done|]. cbn. intros H. by rewrite IH.
Qed.
Lemma smap_erase_set k v m : smap_erase k (smap_set k v m) = smap_erase k m.
Proof.
  unfold smap_erase. induction m as [|[k1 v1] m IH]; cbn [smap_set List.filter fst]; [cbn; by rewrite beqb_refl|].
  destruct (beqb k k1) eqn:E; [cbn; by rewrite beqb_refl|].
  destruct (bytes_ltb k k1); cbn [List.filter fst]; rewrite ?beqb_refl, ?E; cbn [negb]; [done|]. by rewrite IH.
Qed.
Lemma smap_set_set k v v' m : smap_find k m = None -> smap_set k v' (smap_set k v m) = smap_set k v' m.
Proof.
  induction m as [|[k1 v1] m IH]; cbn [smap_set smap_find]; [by rewrite beqb_refl|].
  destruct (beqb k k1) eqn:E; [done|]. intros H. destruct (bytes_ltb k k1) eqn:El; cbn [smap_set]; [by rewrite beqb_refl|].
  rewrite E, El. f_equal. by apply IH.
Qed.
End smap_lemmas.
