(* ===== verification/StdText.v ===== *)
(** Decimal text of the C and C++ standard libraries: [atoi], and the decimal output of
    [std::to_string] and of the stream operators on unsigned integers. *)
From S2P Require Import Prelude.

Definition isspace (c : Z) : bool := ((9 <=? c) && (c <=? 13)) || (c =? 32).
Definition isdigit (c : Z) : bool := (48 <=? c) && (c <=? 57).

Fixpoint skip_space (s : bytes) : bytes :=
  match s with c :: s' => if isspace c then skip_space s' else s | [] => [] end.
Fixpoint digits (s : bytes) (acc : Z) : Z :=
  match s with c :: s' => if isdigit c then digits s' (10 * acc + (c - 48)) else acc | [] => acc end.

(** [atoi]: undefined when the number does not fit in an [int]. *)
Definition atoi (s : bytes) : res Z :=
  match skip_space s with
  | 45 :: s' => chk_int (- digits s' 0)
  | 43 :: s' => chk_int (digits s' 0)
  | s' => chk_int (digits s' 0)
  end.

Fixpoint to_string_loop (fuel : nat) (n : Z) (acc : bytes) : bytes :=
  match fuel with
  | O => acc
  | S fuel' =>
      let acc := (48 + n mod 10) :: acc in
      if n <? 10 then acc else to_string_loop fuel' (n / 10) acc
  end.
(** Twenty digits are enough for 64 bits. *)
Definition to_string (n : Z) : bytes := to_string_loop 20 n [].

(** Signed output. *)
Definition to_string_int (n : Z) : bytes := if n <? 0 then 45 :: to_string (- n) else to_string n.

Lemma isdigit_true c : isdigit c = true <-> 48 <= c <= 57.
Proof. unfold isdigit. rewrite andb_true_iff, !Z.leb_le. done. Qed.

Lemma to_string_loop_spec fuel : forall n acc, 0 <= n < 10 ^ Z.of_nat fuel -> (0 < fuel)%nat ->
  exists ds, to_string_loop fuel n acc = ds ++ acc /\ ds <> [] /\ Forall (fun c => isdigit c = true) ds /\
    (length ds <= fuel)%nat /\
    forall k s, digits (ds ++ s) k = digits s (10 ^ Z.of_nat (length ds) * k + n).
Proof.
  induction fuel as [|fuel IH]; intros n acc Hn Hf; [lia|]. cbn [to_string_loop].
  pose proof (Z.mod_pos_bound n 10 ltac:(lia)) as Hm. pose proof (Z.div_mod n 10 ltac:(lia)) as Hd.
  assert (Hdig : isdigit (48 + n mod 10) = true) by (apply isdigit_true; lia).
  destruct (Z.ltb_spec n 10) as [H|H].
  - exists [48 + n mod 10]. split_and!; [done|done|by repeat constructor|cbn; lia|].
    intros k s. cbn [app digits]. rewrite Hdig. f_equal. rewrite Z.mod_small by lia. cbn. lia.
  - assert (Hf' : (0 < fuel)%nat) by (destruct fuel; [cbn in Hn; lia|lia]).
    assert (Hn' : 0 <= n / 10 < 10 ^ Z.of_nat fuel).
    { rewrite Nat2Z.inj_succ, Z.pow_succ_r in Hn by lia. split; [lia|]. apply Z.div_lt_upper_bound; lia. }
    destruct (IH (n / 10) (48 + n mod 10 :: acc) Hn' Hf') as (ds & E & Hne & Hall & Hlen & Hdg).
    exists (ds ++ [48 + n mod 10]). split_and!.
    + rewrite E, <- app_assoc. done.
    + destruct ds; done.
    + apply Forall_app. split; [done|by repeat constructor].
    + rewrite length_app. cbn. lia.
    + intros k s. rewrite <- app_assoc, Hdg. cbn [app digits]. rewrite Hdig. f_equal.
      rewrite length_app, Nat2Z.inj_add. cbn [length]. rewrite Z.pow_add_r by lia.
      change (10 ^ Z.of_nat 1) with 10. lia.
Qed.

(** Fuel beyond the number of digits changes nothing. *)
Lemma to_string_loop_fuel f : forall g n acc, 0 <= n < 10 ^ Z.of_nat f -> (0 < f <= g)%nat ->
  to_string_loop g n acc = to_string_loop f n acc.
Proof.
  induction f as [|f IH]; intros [|g] n acc Hn Hf; [lia..|]. cbn [to_string_loop].
  destruct (Z.ltb_spec n 10); [done|]. rewrite Nat2Z.inj_succ, Z.pow_succ_r in Hn by lia.
  apply IH; [split; [apply Z.div_pos; lia|apply Z.div_lt_upper_bound; lia]|].
  destruct f; [cbn in Hn; lia|lia].
Qed.

Lemma to_string_len w n : 0 <= n < 10 ^ Z.of_nat w -> (0 < w <= 20)%nat -> Zlen (to_string n) <= Z.of_nat w.
Proof.
  intros Hn Hw. unfold to_string. rewrite (to_string_loop_fuel w) by (done || lia).
  destruct (to_string_loop_spec w n [] Hn) as (ds & -> & _ & _ & Hl & _); [lia|].
  rewrite app_nil_r. unfold Zlen. lia.
Qed.

Lemma to_string_spec n : 0 <= n < 2 ^ 64 ->
  to_string n <> [] /\ Forall (fun c => isdigit c = true) (to_string n) /\
  (forall s, (forall c s', s = c :: s' -> isdigit c = false) -> digits (to_string n ++ s) 0 = n) /\
  Zlen (to_string n) <= 20.
Proof.
  intros H. destruct (to_string_loop_spec 20 n []) as (ds & E & Hn & Ha & Hl & Hd); [|lia|].
  { split; [lia|]. eapply Z.lt_trans; [apply H|]. reflexivity. }
  unfold to_string. rewrite E, app_nil_r. split_and!; [done|done| |unfold Zlen; lia].
  intros s Hs. rewrite Hd, Z.mul_0_r, Z.add_0_l. destruct s as [|c s]; [done|].
  cbn. rewrite (Hs c s eq_refl). done.
Qed.

Lemma atoi_throws v e : atoi v <> Throw e.
Proof.
  assert (H : forall z, chk_int z <> Throw e) by (intros z; unfold chk_int; by destruct (int_range z)).
  unfold atoi. repeat (case_match; try done).
Qed.

Lemma atoi_unsigned c l : 43 < c -> c <> 45 -> atoi (c :: l) = chk_int (digits (c :: l) 0).
Proof.
  intros H1 H2. unfold atoi. cbn [skip_space].
  assert (isspace c = false) as ->.
  { unfold isspace. apply orb_false_iff. rewrite andb_false_iff, Z.leb_gt, Z.leb_gt, Z.eqb_neq. lia. }
  destruct c as [|p|p]; try lia. do 6 (destruct p as [p|p|]; try reflexivity; try lia).
Qed.

(** [atoi] reads back what was printed, whatever non-digit follows. *)
Lemma atoi_to_string n s : 0 <= n < 2 ^ 31 -> (forall c s', s = c :: s' -> isdigit c = false) ->
  atoi (to_string n ++ s) = Ok n.
Proof.
  intros H Hs. destruct (to_string_spec n ltac:(lia)) as (Hne & Ha & Hd & _).
  specialize (Hd s Hs). destruct (to_string n) as [|c l]; [done|].
  apply Forall_cons in Ha as [Hc _]. apply isdigit_true in Hc. cbn [app] in *.
  rewrite atoi_unsigned, Hd by lia. apply chk_int_ok. lia.
Qed.

Lemma to_string_chars n c : 0 <= n < 2 ^ 64 -> c ∈ to_string n -> 48 <= c <= 57.
Proof.
  intros H Hc. destruct (to_string_spec n H) as (_ & Ha & _). rewrite Forall_forall in Ha.
  apply isdigit_true, Ha. done.
Qed.
