(* ===== verification/ByteStream.v ===== *)
(** Reading and writing multi-byte integers ([src/src/utils/byte_stream.hpp]).

    The code fills the bytes of a local integer through a [uint8_t*] alias on a
    little-endian host: [output[k] = *data++] stores the next input byte as byte [k]
    of the value.  [le_word] is the integer whose in-memory bytes are the given list,
    [byte_at v k] is byte [k] of [v].  Reads before the end of the input are [Ok],
    reads and writes past it are [Undef]. *)
From S2P Require Import Prelude.

Fixpoint le_word (output : bytes) : Z :=
  match output with [] => 0 | b :: output' => b + 256 * le_word output' end.
Definition byte_at (value k : Z) : Z := u8 (Z.shiftr value (8 * k)).

(** Storing bytes at the start of a buffer. *)
Definition poke (data written : bytes) : res bytes :=
  if Zlen written <=? Zlen data then Ok (written ++ skipn (length written) data) else Undef.

Definition Read8Bytes (data : bytes) : res Z :=
  match data with
  | o7 :: o6 :: o5 :: o4 :: o3 :: o2 :: o1 :: o0 :: _ => Ok (le_word [o0; o1; o2; o3; o4; o5; o6; o7])
  | _ => Undef
  end.
Definition Read8BytesLe (data : bytes) : res Z :=
  match data with
  | o0 :: o1 :: o2 :: o3 :: o4 :: o5 :: o6 :: o7 :: _ => Ok (le_word [o0; o1; o2; o3; o4; o5; o6; o7])
  | _ => Undef
  end.
Definition Read4Bytes (data : bytes) : res Z :=
  match data with
  | o3 :: o2 :: o1 :: o0 :: _ => Ok (le_word [o0; o1; o2; o3])
  | _ => Undef
  end.
Definition Read4BytesLe (data : bytes) : res Z :=
  match data with
  | o0 :: o1 :: o2 :: o3 :: _ => Ok (le_word [o0; o1; o2; o3])
  | _ => Undef
  end.
Definition Read3Bytes (data : bytes) : res Z :=
  match data with
  | o2 :: o1 :: o0 :: _ => Ok (le_word [o0; o1; o2; 0])
  | _ => Undef
  end.
Definition Read3BytesLe (data : bytes) : res Z :=
  match data with
  | o0 :: o1 :: o2 :: _ => Ok (le_word [o0; o1; o2; 0])
  | _ => Undef
  end.
Definition Read2Bytes (data : bytes) : res Z :=
  match data with
  | o1 :: o0 :: _ => Ok (le_word [o0; o1])
  | _ => Undef
  end.
Definition Read2BytesLe (data : bytes) : res Z :=
  match data with
  | o0 :: o1 :: _ => Ok (le_word [o0; o1])
  | _ => Undef
  end.

Definition Write8Bytes (data : bytes) (value : Z) : res bytes :=
  let pp := byte_at value in poke data [pp 7; pp 6; pp 5; pp 4; pp 3; pp 2; pp 1; pp 0].
Definition Write8Bytes_le (data : bytes) (value : Z) : res bytes :=
  let pp := byte_at value in poke data [pp 0; pp 1; pp 2; pp 3; pp 4; pp 5; pp 6; pp 7].
Definition Write4Bytes (data : bytes) (value : Z) : res bytes :=
  let pp := byte_at value in poke data [pp 3; pp 2; pp 1; pp 0].
Definition Write4Bytes_le (data : bytes) (value : Z) : res bytes :=
  let pp := byte_at value in poke data [pp 0; pp 1; pp 2; pp 3].
Definition Write3Bytes (data : bytes) (value : Z) : res bytes :=
  let pp := byte_at value in poke data [pp 2; pp 1; pp 0].
Definition Write2Bytes (data : bytes) (value : Z) : res bytes :=
  let pp := byte_at value in poke data [pp 1; pp 0].
Definition Write2Bytes_le (data : bytes) (value : Z) : res bytes :=
  let pp := byte_at value in poke data [pp 0; pp 1].

(** The loop returns at the first difference, so later bytes are not read. *)
Fixpoint BytesIsEqual (p1 p2 : bytes) (len : nat) {struct len} : res bool :=
  match len with
  | O => Ok true
  | S len' =>
      match p1, p2 with
      | a :: p1', b :: p2' => if negb (a =? b) then Ok false else BytesIsEqual p1' p2' len'
      | _, _ => Undef
      end
  end.

Definition PadTo4Bytes16 (size : Z) : Z :=
  if Z.land size 0x03 =? 0 then size else u16 (Z.land size 0xFFFC + 4).
Definition PadTo4Bytes32 (size : Z) : Z :=
  if Z.land size 0x03 =? 0 then size else u32 (Z.land size 0xFFFFFFFC + 4).

(** ** Lemmas *)

Lemma byte_at_ok v k : byte_ok (byte_at v k).
Proof. apply u8_ok. Qed.
#[export] Hint Resolve byte_at_ok : bytesdb.

Lemma byte_at_div v k : 0 <= k -> byte_at v k = v / 2 ^ (8 * k) mod 256.
Proof. intros; unfold byte_at, u8. rewrite Z.shiftr_div_pow2 by lia. done. Qed.

(** The first [n] bytes of a value, least significant first. *)
Definition le_bytes (n : nat) (v : Z) : bytes := map (fun k => byte_at v (Z.of_nat k)) (seq 0 n).

Lemma le_bytes_succ n v : le_bytes (S n) v = byte_at v 0 :: le_bytes n (v / 256).
Proof.
  unfold le_bytes. cbn [seq map]. f_equal. rewrite <- seq_shift, map_map.
  apply map_ext. intros k. rewrite !byte_at_div by lia.
  rewrite Z.div_div by lia. do 2 f_equal.
  replace (8 * Z.of_nat (S k)) with (8 + 8 * Z.of_nat k) by lia. rewrite Z.pow_add_r by lia. done.
Qed.

Lemma le_word_bytes n v : le_word (le_bytes n v) = v mod 2 ^ (8 * Z.of_nat n).
Proof.
  revert v; induction n as [|n IH]; intros v; [cbn; rewrite Z.mod_1_r; done|].
  rewrite le_bytes_succ. cbn [le_word]. rewrite IH, byte_at_div by lia.
  replace (8 * Z.of_nat (S n)) with (8 + 8 * Z.of_nat n) by lia. rewrite Z.pow_add_r by lia.
  change (2 ^ 8) with 256. rewrite Z.mul_0_r, Z.div_1_r, Z.rem_mul_r; lia.
Qed.

Lemma le_bytes_word l : bytes_ok l -> le_bytes (length l) (le_word l) = l.
Proof.
  induction l as [|b l IH]; intros H; [done|]. inv H as [|? ? Hb Hl].
  cbn [length le_word]. rewrite le_bytes_succ, byte_at_div by lia.
  replace ((b + 256 * le_word l) / 256) with (le_word l).
  2: { rewrite Z.mul_comm, Z.div_add, (Z.div_small b) by (unfold byte_ok in *; lia). lia. }
  rewrite IH by done. f_equal. rewrite Z.mul_0_r, Z.div_1_r, Z.mul_comm, Z.mod_add by lia.
  apply Z.mod_small; done.
Qed.

Lemma le_word_range l : bytes_ok l -> 0 <= le_word l < 2 ^ (8 * Zlen l).
Proof.
  intros H. rewrite <- (le_bytes_word l) at 1 2 by done. rewrite le_word_bytes.
  apply Z.mod_pos_bound, Z.pow_pos_nonneg; zlen.
Qed.

Lemma poke_fits data w : Zlen w <= Zlen data -> poke data w = Ok (w ++ skipn (length w) data).
Proof. unfold poke; intros; zbool; [done|lia]. Qed.

(** A read of at least [n] available bytes splits them off. *)
Ltac split_bytes data :=
  repeat match goal with
  | H : _ <= Zlen data |- _ => first [lia|destruct data as [|? data]; [cbn in H; lia|]]
  end.

(** What a reader/writer pair of [n] bytes promises: written values read back modulo the
    width, read values write back the same bytes, and bytes beyond the [n] first are untouched.
    The code checks no length: on a shorter buffer both are undefined. *)
Record codec_ok (n : nat) (rd : bytes -> res Z) (wr : bytes -> Z -> res bytes) : Prop := {
  codec_write_read : forall data v, (n <= length data)%nat ->
    exists out, wr data v = Ok out /\ rd out = Ok (v mod 2 ^ (8 * Z.of_nat n)) /\
      length out = length data /\ skipn n out = skipn n data;
  codec_read_write : forall data, (n <= length data)%nat -> bytes_ok data ->
    exists v, rd data = Ok v /\ 0 <= v < 2 ^ (8 * Z.of_nat n) /\ wr data v = Ok data;
  codec_short : forall data, (length data < n)%nat ->
    rd data = Undef /\ forall v, wr data v = Undef }.

(** Both byte orders are an instance of one construction: [ord] is [id] or [rev]. *)
Lemma codec_build n rd wr (ord : bytes -> bytes) :
  (forall l, ord (ord l) = l) -> (forall l, length (ord l) = length l) ->
  (forall l, bytes_ok l -> bytes_ok (ord l)) ->
  (forall l k, length l = n -> rd (l ++ k) = Ok (le_word (ord l))) ->
  (forall l, (length l < n)%nat -> rd l = Undef) ->
  (forall data v, wr data v = poke data (ord (le_bytes n v))) ->
  codec_ok n rd wr.
Proof.
  intros Hinv Hlen Hok Hrd Hshort Hwr.
  assert (Hn : forall v, length (ord (le_bytes n v)) = n).
  { intros v. rewrite Hlen. unfold le_bytes. rewrite length_map, length_seq. done. }
  split.
  - intros data v H. rewrite Hwr, poke_fits by (unfold Zlen; rewrite Hn; lia).
    eexists; split; [done|]. rewrite Hrd by done. rewrite Hinv, le_word_bytes.
    split_and!; [done|rewrite length_app, length_skipn, Hn; lia|].
    rewrite <- (Hn v) at 1. rewrite skipn_app_len, Hn. done.
  - intros data H Hd. pose proof (firstn_skipn n data) as E.
    assert (Hf : length (firstn n data) = n) by (rewrite length_firstn; lia).
    assert (Hb : bytes_ok (ord (firstn n data))) by (apply Hok, bytes_ok_firstn; done).
    exists (le_word (ord (firstn n data))). rewrite <- E at 1. rewrite Hrd by done.
    split_and!; [done|..].
    1,2: pose proof (le_word_range _ Hb) as Hr; unfold Zlen in Hr; rewrite Hlen, Hf in Hr; lia.
    rewrite Hwr. rewrite <- (Hlen (firstn n data)), <- Hlen in Hf.
    replace n with (length (ord (firstn n data))) at 1 by (rewrite Hlen, length_firstn; lia).
    rewrite le_bytes_word, Hinv by done. rewrite poke_fits by (unfold Zlen; rewrite length_firstn; lia).
    rewrite length_firstn, Nat.min_l by lia. f_equal. apply firstn_skipn.
  - intros data H. split; [auto|]. intros v. rewrite Hwr. unfold poke, Zlen. rewrite Hn. zbool; [lia|done].
Qed.

Lemma bytes_ok_rev l : bytes_ok l -> bytes_ok (rev l).
Proof. apply Forall_rev. Qed.

Ltac codec_read :=
  intros l; repeat (destruct l as [|? l]; intros; cbn in *; try lia; try done).
Ltac codec_be := apply (codec_build _ _ _ (@rev Z));
  [apply rev_involutive|apply length_rev|apply bytes_ok_rev|codec_read|codec_read|done].
Ltac codec_le := apply (codec_build _ _ _ id); [done|done|done|codec_read|codec_read|done].

(** C25: each reader and the writer of its width and byte order undo each other - 8, 4 and 2 bytes
    in network and in little-endian order, 3 bytes in network order ([Read3BytesLe] has no writer) -
    and leave the bytes behind alone; both need the whole width to be there. *)
Theorem byte_codecs_roundtrip :
  codec_ok 8 Read8Bytes Write8Bytes /\ codec_ok 8 Read8BytesLe Write8Bytes_le /\
  codec_ok 4 Read4Bytes Write4Bytes /\ codec_ok 4 Read4BytesLe Write4Bytes_le /\
  codec_ok 3 Read3Bytes Write3Bytes /\
  codec_ok 2 Read2Bytes Write2Bytes /\ codec_ok 2 Read2BytesLe Write2Bytes_le.
Proof. split_and!; first [codec_be|codec_le]. Qed.

(** ** Comparison and padding *)

Lemma BytesIsEqual_spec p1 p2 len :
  (len <= length p1)%nat -> (len <= length p2)%nat ->
  BytesIsEqual p1 p2 len = Ok (bool_decide (firstn len p1 = firstn len p2)).
Proof.
  revert p1 p2; induction len as [|len IH]; intros p1 p2 H1 H2;
    [cbn; rewrite bool_decide_true; done|].
  destruct p1 as [|a p1], p2 as [|b p2]; cbn in *; try lia.
  destruct (Z.eqb_spec a b) as [->|Hn]; cbn.
  - rewrite IH by lia. f_equal. apply bool_decide_ext. split; congruence.
  - rewrite bool_decide_false; [done|]. congruence.
Qed.

Lemma land_low2 s : Z.land s 3 = s mod 4.
Proof. change 3 with (Z.ones 2). rewrite Z.land_ones by lia. done. Qed.

Lemma land_clear2 s n : 2 <= n -> 0 <= s < 2 ^ n -> Z.land s (2 ^ n - 4) = s - s mod 4.
Proof.
  intros Hn Hs. assert (E : s - s mod 4 = Z.shiftl (Z.shiftr s 2) 2).
  { rewrite Z.shiftl_mul_pow2, Z.shiftr_div_pow2 by lia. change (2 ^ 2) with 4.
    pose proof (Z.div_mod s 4). lia. }
  rewrite E. apply Z.bits_inj'. intros i Hi. rewrite Z.land_spec.
  replace (2 ^ n - 4) with (Z.shiftl (Z.ones (n - 2)) 2).
  2: { rewrite Z.shiftl_mul_pow2, Z.ones_equiv, Z.mul_pred_l, <- Z.pow_add_r by lia.
       replace (n - 2 + 2) with n by lia. lia. }
  destruct (Z.lt_ge_cases i 2).
  - rewrite !Z.shiftl_spec_low by lia. apply andb_false_r.
  - rewrite !Z.shiftl_spec, Z.shiftr_spec by lia. replace (i - 2 + 2) with i by lia.
    destruct (Z.lt_ge_cases (i - 2) (n - 2)).
    + rewrite Z.ones_spec_low by lia. apply andb_true_r.
    + rewrite (testbit_high s n i) by lia. done.
Qed.

(** [r] is [s] rounded up to a multiple of four. *)
Definition is_pad4 (s r : Z) : Prop := r mod 4 = 0 /\ s <= r < s + 4.

Lemma pad4_cases s : s mod 4 = 0 \/ (s mod 4 <> 0 /\ is_pad4 s (s - s mod 4 + 4)).
Proof.
  destruct (Z.eq_dec (s mod 4) 0); [by left|right]. split; [done|].
  pose proof (Z.mod_pos_bound s 4). split; [|lia].
  replace (s - s mod 4 + 4) with ((s / 4 + 1) * 4) by (pose proof (Z.div_mod s 4); lia).
  apply Z.mod_mul; lia.
Qed.

(** Padding rounds up to a multiple of four, and wraps to 0 for the three largest sizes. *)
Lemma PadTo4Bytes16_spec s : 0 <= s < 2 ^ 16 ->
  (s <= 2 ^ 16 - 4 /\ is_pad4 s (PadTo4Bytes16 s)) \/ (2 ^ 16 - 4 < s /\ PadTo4Bytes16 s = 0).
Proof.
  intros H. unfold PadTo4Bytes16. rewrite land_low2.
  change 0xFFFC with (2 ^ 16 - 4). rewrite land_clear2 by lia.
  destruct (pad4_cases s) as [E|(E & [E1 E2])].
  - rewrite E, Z.eqb_refl. assert (s <= 2 ^ 16 - 4 \/ s = 65533 \/ s = 65534 \/ s = 65535) as [|[->|[->| ->]]] by lia;
      [left; split; [done|split; [done|lia]]|vm_compute in E; discriminate E..].
  - destruct (Z.eqb_spec (s mod 4) 0); [done|]. destruct (Z.le_gt_cases s (2 ^ 16 - 4)).
    + left. split; [done|]. rewrite u16_small; [done|].
      assert (s <> 65532) by (intros ->; done). lia.
    + right. split; [done|]. assert (s = 65533 \/ s = 65534 \/ s = 65535) as [->|[->| ->]] by lia; done.
Qed.
