(* ===== verification/Base64.v ===== *)
(** Base64 ([src/src/utils/base64.cpp]).

    [Base64Encode] and [Base64Decode] keep up to three (four) pending characters in a
    local array and flush it when it is full; the loops below carry the same array, index
    and output string.  The local arrays are indeterminate until written and the code reads
    only cells it has written, so their initial contents are irrelevant; they start at 0. *)
From S2P Require Import Prelude.

Definition base64_chars : bytes := bstr
  "ABCDEFGHIJKLMNOPQRSTUVWXYZabcdefghijklmnopqrstuvwxyz0123456789+/".

Definition isalnum (c : Z) : bool :=
  ((48 <=? c) && (c <=? 57)) || ((65 <=? c) && (c <=? 90)) || ((97 <=? c) && (c <=? 122)).
Definition is_base64 (c : Z) : bool := isalnum c || (c =? 43) || (c =? 47).

(** [a[i]] for a local array of [unsigned char]. *)
Definition at_ (a : bytes) (i : nat) : Z := nth i a 0.

Definition b64_char (k : Z) : Z := at_ base64_chars (Z.to_nat k).

Definition enc_quad (a3 : bytes) : bytes :=
  [ u8 (Z.shiftr (Z.land (at_ a3 0) 0xfc) 2);
    u8 (Z.shiftl (Z.land (at_ a3 0) 0x03) 4 + Z.shiftr (Z.land (at_ a3 1) 0xf0) 4);
    u8 (Z.shiftl (Z.land (at_ a3 1) 0x0f) 2 + Z.shiftr (Z.land (at_ a3 2) 0xc0) 6);
    u8 (Z.land (at_ a3 2) 0x3f) ].

(** The body of [while (in_len--)]: state is [char_array_3], [i] and [ret]. *)
Fixpoint enc_loop (input a3 : bytes) (i : nat) (ret : bytes) : bytes * nat * bytes :=
  match input with
  | [] => (a3, i, ret)
  | b :: input' =>
      let a3 := <[i := b]> a3 in
      if Nat.eqb (S i) 3 then enc_loop input' a3 0 (ret ++ map b64_char (enc_quad a3))
      else enc_loop input' a3 (S i) ret
  end.

Definition enc_tail (a3 : bytes) (i : nat) : bytes :=
  match i with
  | O => []
  | _ => let a3 := firstn i a3 ++ replicate (3 - i) 0 in
         map b64_char (firstn (i + 1) (enc_quad a3)) ++ replicate (3 - i) 61
  end.

Definition Base64Encode (bytes_to_encode : bytes) : bytes :=
  let '(a3, i, ret) := enc_loop bytes_to_encode [0; 0; 0] 0 [] in ret ++ enc_tail a3 i.

(** [(unsigned char) base64_chars.find(c)]. *)
Definition b64_find (c : Z) : Z := u8 (find [c] base64_chars).

Definition dec_triple (a4 : bytes) : bytes :=
  [ u8 (Z.shiftl (at_ a4 0) 2 + Z.shiftr (Z.land (at_ a4 1) 0x30) 4);
    u8 (Z.shiftl (Z.land (at_ a4 1) 0xf) 4 + Z.shiftr (Z.land (at_ a4 2) 0x3c) 2);
    u8 (Z.shiftl (Z.land (at_ a4 2) 0x3) 6 + at_ a4 3) ].

Fixpoint dec_loop (input a4 : bytes) (i : nat) (ret : bytes) : bytes * nat * bytes :=
  match input with
  | [] => (a4, i, ret)
  | c :: input' =>
      if negb (c =? 61) && is_base64 c then
        let a4 := <[i := c]> a4 in
        if Nat.eqb (S i) 4 then
          let a4 := map b64_find a4 in dec_loop input' a4 0 (ret ++ dec_triple a4)
        else dec_loop input' a4 (S i) ret
      else (a4, i, ret)
  end.

Definition dec_tail (a4 : bytes) (i : nat) : bytes :=
  match i with
  | O => []
  | _ => let a4 := map b64_find (firstn i a4 ++ replicate (4 - i) 0) in
         firstn (i - 1) (dec_triple a4)
  end.

Definition Base64Decode (encoded_string : bytes) : bytes :=
  let '(a4, i, ret) := dec_loop encoded_string [0; 0; 0; 0] 0 [] in ret ++ dec_tail a4 i.

Example encode_ex : Base64Encode (bstr "Hello") = bstr "SGVsbG8=".
Proof. reflexivity. Qed.
Example decode_ex : Base64Decode (bstr "SGVsbG8=") = bstr "Hello".
Proof. reflexivity. Qed.

(** ** Reference encoding: groups of three bytes, four characters per group, [=] padding *)

Fixpoint encode_spec (l : bytes) : bytes :=
  match l with
  | a :: b :: c :: l' => map b64_char (enc_quad [a; b; c]) ++ encode_spec l'
  | [a; b] => map b64_char (firstn 3 (enc_quad [a; b; 0])) ++ [61]
  | [a] => map b64_char (firstn 2 (enc_quad [a; 0; 0])) ++ [61; 61]
  | [] => []
  end.

Lemma three_ind (P : bytes -> Prop) :
  P [] -> (forall a, P [a]) -> (forall a b, P [a; b]) ->
  (forall a b c l, P l -> P (a :: b :: c :: l)) -> forall l, P l.
Proof.
  intros H0 H1 H2 H3. fix IH 1. intros [|a [|b [|c l]]]; [exact H0|exact (H1 a)|exact (H2 a b)|].
  apply H3, IH.
Qed.

Lemma list3_inv (a3 : bytes) : length a3 = 3%nat -> exists x y z, a3 = [x; y; z].
Proof. destruct a3 as [|x [|y [|z [|]]]]; try done. eauto. Qed.
Lemma list4_inv (a4 : bytes) : length a4 = 4%nat -> exists x y z w, a4 = [x; y; z; w].
Proof. destruct a4 as [|x [|y [|z [|w [|]]]]]; try done. eauto 10. Qed.

Lemma enc_loop_spec l : forall a3 ret, length a3 = 3%nat ->
  let '(a3', i, ret') := enc_loop l a3 0 ret in ret' ++ enc_tail a3' i = ret ++ encode_spec l.
Proof.
  induction l as [| | |a b c l IH] using three_ind; intros a3 ret H3;
    apply list3_inv in H3 as (x & y & z & ->); cbn [enc_loop Nat.eqb insert list_insert].
  - done.
  - done.
  - done.
  - specialize (IH [a; b; c] (ret ++ map b64_char (enc_quad [a; b; c])) eq_refl).
    destruct (enc_loop l _ 0 _) as [[a3' i'] ret']. rewrite IH. cbn [encode_spec].
    rewrite <- app_assoc. done.
Qed.

Lemma Base64Encode_spec l : Base64Encode l = encode_spec l.
Proof.
  unfold Base64Encode. pose proof (enc_loop_spec l [0; 0; 0] [] eq_refl) as H.
  destruct (enc_loop _ _ _ _) as [[? ?] ?]. exact H.
Qed.

(** ** The alphabet *)

Definition char_ok (k : Z) : bool :=
  (b64_find (b64_char k) =? k) && (negb (b64_char k =? 61) && is_base64 (b64_char k)).
Definition sextet (k : Z) : Prop := 0 <= k < 64.

Lemma b64_char_ok k : sextet k ->
  b64_find (b64_char k) = k /\ negb (b64_char k =? 61) && is_base64 (b64_char k) = true.
Proof.
  intros H. assert (E : all_bytes (fun k => (64 <=? k) || char_ok k) = true) by (vm_compute; done).
  eapply all_bytes_spec in E; [|unfold byte_ok, sextet in *; instantiate (1 := k); lia].
  destruct (Z.leb_spec 64 k); [unfold sextet in *; lia|]. unfold char_ok in E. cbn [orb] in E.
  apply andb_true_iff in E as [E1 E2]. apply Z.eqb_eq in E1. split; done.
Qed.

(** Statements about all pairs of bytes are checked by evaluation. *)
Lemma all_pairs (f : Z -> Z -> bool) : all_bytes (fun a => all_bytes (f a)) = true ->
  forall a b, byte_ok a -> byte_ok b -> f a b = true.
Proof.
  intros H a b Ha Hb. apply (all_bytes_spec _ H a) in Ha. apply (all_bytes_spec _ Ha b Hb).
Qed.

Definition in64 (k : Z) : bool := (0 <=? k) && (k <? 64).
Definition q0 a := u8 (Z.shiftr (Z.land a 0xfc) 2).
Definition q1 a b := u8 (Z.shiftl (Z.land a 0x03) 4 + Z.shiftr (Z.land b 0xf0) 4).
Definition q2 b c := u8 (Z.shiftl (Z.land b 0x0f) 2 + Z.shiftr (Z.land c 0xc0) 6).
Definition q3 c := u8 (Z.land c 0x3f).

Definition pair_check (a b : Z) : bool :=
  in64 (q0 a) && in64 (q1 a b) && in64 (q2 a b) && in64 (q3 a) &&
  (u8 (Z.shiftl (q0 a) 2 + Z.shiftr (Z.land (q1 a b) 0x30) 4) =? a) &&
  (Z.shiftl (Z.land (q1 a b) 0xf) 4 =? Z.land b 0xf0) &&
  (Z.shiftr (Z.land (q2 a b) 0x3c) 2 =? Z.land a 0x0f) &&
  (u8 (Z.land a 0xf0 + Z.land a 0x0f) =? a) &&
  (u8 (Z.shiftl (Z.land (q2 a b) 0x3) 6 + q3 b) =? b).

Lemma pair_check_ok : all_bytes (fun a => all_bytes (pair_check a)) = true.
Proof. vm_compute. done. Qed.

Lemma quad_facts a b : byte_ok a -> byte_ok b ->
  (sextet (q0 a) /\ sextet (q1 a b) /\ sextet (q2 a b) /\ sextet (q3 a)) /\
  u8 (Z.shiftl (q0 a) 2 + Z.shiftr (Z.land (q1 a b) 0x30) 4) = a /\
  Z.shiftl (Z.land (q1 a b) 0xf) 4 = Z.land b 0xf0 /\
  Z.shiftr (Z.land (q2 a b) 0x3c) 2 = Z.land a 0x0f /\
  u8 (Z.land a 0xf0 + Z.land a 0x0f) = a /\
  u8 (Z.shiftl (Z.land (q2 a b) 0x3) 6 + q3 b) = b.
Proof.
  intros Ha Hb. pose proof (all_pairs _ pair_check_ok a b Ha Hb) as E.
  unfold pair_check, in64 in E. rewrite !andb_true_iff, !Z.leb_le, !Z.ltb_lt, !Z.eqb_eq in E.
  unfold sextet. tauto.
Qed.

(** ** Decoding inverts encoding *)

(** Four alphabet characters move the decoder by one full group. *)
Lemma dec_loop_quad k0 k1 k2 k3 rest a4 ret :
  sextet k0 -> sextet k1 -> sextet k2 -> sextet k3 -> length a4 = 4%nat ->
  dec_loop (map b64_char [k0; k1; k2; k3] ++ rest) a4 0 ret =
  dec_loop rest [k0; k1; k2; k3] 0 (ret ++ dec_triple [k0; k1; k2; k3]).
Proof.
  intros H0 H1 H2 H3 H4. apply list4_inv in H4 as (x & y & z & w & ->).
  apply b64_char_ok in H0 as [F0 C0], H1 as [F1 C1], H2 as [F2 C2], H3 as [F3 C3].
  cbn [map app dec_loop Nat.eqb insert list_insert].
  rewrite C0. cbn [dec_loop Nat.eqb insert list_insert]. rewrite C1.
  cbn [dec_loop Nat.eqb insert list_insert]. rewrite C2.
  cbn [dec_loop Nat.eqb insert list_insert]. rewrite C3. cbn [map]. rewrite F0, F1, F2, F3. done.
Qed.

Lemma dec_triple_quad a b c : byte_ok a -> byte_ok b -> byte_ok c ->
  dec_triple [q0 a; q1 a b; q2 b c; q3 c] = [a; b; c].
Proof.
  intros Ha Hb Hc. destruct (quad_facts a b Ha Hb) as (_ & E0 & E1 & _).
  destruct (quad_facts b c Hb Hc) as (_ & _ & _ & E2 & E3 & E4).
  unfold dec_triple. cbn [at_ nth]. rewrite E0, E1, E2, E3, E4. done.
Qed.

Lemma sextets a b c : byte_ok a -> byte_ok b -> byte_ok c ->
  sextet (q0 a) /\ sextet (q1 a b) /\ sextet (q2 b c) /\ sextet (q3 c).
Proof.
  intros Ha Hb Hc. destruct (quad_facts a b Ha Hb) as ((? & ? & _) & _).
  destruct (quad_facts b c Hb Hc) as ((_ & _ & ? & _) & _).
  destruct (quad_facts c c Hc Hc) as ((_ & _ & _ & ?) & _). done.
Qed.

Lemma dec_loop_spec l : bytes_ok l -> forall a4 ret, length a4 = 4%nat ->
  let '(a4', i, ret') := dec_loop (encode_spec l) a4 0 ret in ret' ++ dec_tail a4' i = ret ++ l.
Proof.
  assert (B0 : byte_ok 0) by (unfold byte_ok; lia).
  induction l as [|a|a b|a b c l IH] using three_ind; intros Hl a4 ret H4.
  - cbn. done.
  - inv Hl as [|? ? Ha _]. destruct (sextets a 0 0 Ha B0 B0) as (S0 & S1 & _).
    pose proof (dec_triple_quad a 0 0 Ha B0 B0) as T.
    apply list4_inv in H4 as (x & y & z & w & ->).
    apply b64_char_ok in S0 as [F0 C0], S1 as [F1 C1].
    cbn [encode_spec enc_quad at_ nth firstn map app]. fold (q0 a) (q1 a 0).
    cbn [dec_loop]. rewrite C0. cbn [dec_loop Nat.eqb insert list_insert]. rewrite C1.
    cbn [dec_loop Nat.eqb insert list_insert negb andb Z.eqb Pos.eqb
      dec_tail Nat.sub firstn app replicate map].
    f_equal. rewrite F0, F1. unfold dec_triple in *. cbn [at_ nth firstn] in *. congruence.
  - inv Hl as [|? ? Ha Hl']. inv Hl' as [|? ? Hb _].
    destruct (sextets a b 0 Ha Hb B0) as (S0 & S1 & S2 & _).
    pose proof (dec_triple_quad a b 0 Ha Hb B0) as T.
    apply list4_inv in H4 as (x & y & z & w & ->).
    apply b64_char_ok in S0 as [F0 C0], S1 as [F1 C1], S2 as [F2 C2].
    cbn [encode_spec enc_quad at_ nth firstn map app]. fold (q0 a) (q1 a b) (q2 b 0).
    cbn [dec_loop]. rewrite C0. cbn [dec_loop Nat.eqb insert list_insert]. rewrite C1.
    cbn [dec_loop Nat.eqb insert list_insert]. rewrite C2.
    cbn [dec_loop Nat.eqb insert list_insert negb andb Z.eqb Pos.eqb
      dec_tail Nat.sub firstn app replicate map].
    f_equal. rewrite F0, F1, F2. unfold dec_triple in *. cbn [at_ nth firstn] in *. congruence.
  - inv Hl as [|? ? Ha Hl1]. inv Hl1 as [|? ? Hb Hl2]. inv Hl2 as [|? ? Hc Hl3].
    cbn [encode_spec].
    destruct (sextets a b c Ha Hb Hc) as (S0 & S1 & S2 & S3).
    change (enc_quad [a; b; c]) with [q0 a; q1 a b; q2 b c; q3 c].
    rewrite dec_loop_quad by done. rewrite dec_triple_quad by done.
    specialize (IH Hl3 [q0 a; q1 a b; q2 b c; q3 c] (ret ++ [a; b; c]) eq_refl).
    destruct (dec_loop _ _ _ _) as [[a4' i'] ret']. rewrite IH, <- app_assoc. done.
Qed.

(** C24: decoding what the encoder produced gives back the bytes, for every byte string. *)
Theorem Base64_roundtrip (l : bytes) (Hl : bytes_ok l) : Base64Decode (Base64Encode l) = l.
Proof.
  rewrite Base64Encode_spec. unfold Base64Decode.
  pose proof (dec_loop_spec l Hl [0; 0; 0; 0] [] eq_refl) as H.
  destruct (dec_loop _ _ _ _) as [[? ?] ?]. exact H.
Qed.

Lemma Base64_roundtrip_witness :
  bytes_ok [72; 0; 255; 16] /\ Base64Decode (Base64Encode [72; 0; 255; 16]) = [72; 0; 255; 16].
Proof.
  assert (H : bytes_ok [72; 0; 255; 16]) by (repeat constructor; lia).
  split; [exact H|exact (Base64_roundtrip _ H)].
Defined.

(** The output has four characters for every group of three bytes, the last group padded. *)
Lemma Base64Encode_length l : Zlen (Base64Encode l) = 4 * ((Zlen l + 2) / 3).
Proof.
  rewrite Base64Encode_spec. induction l as [|a|a b|a b c l IH] using three_ind; [done..|].
  cbn [encode_spec]. rewrite Zlen_app, IH, Zlen_map.
  change (Zlen (enc_quad [a; b; c])) with 4. rewrite !Zlen_cons.
  replace (1 + (1 + (1 + Zlen l)) + 2) with (Zlen l + 2 + 1 * 3) by lia.
  rewrite Z.div_add by lia. lia.
Qed.
