(* ===== verification/Crc.v ===== *)
(** CRC-32 ([src/src/utils/crc.cpp], [src/src/utils/byte_crypto.cpp]).

    Two table-driven implementations share one update step
    [crc = table[(uint8_t)crc ^ b] ^ (crc >> 8)].  [CRC_32_IEEE_LE] and
    [ByteCrypto::crc32_table] hold the reflected polynomial 0xEDB88320; [CRC_32_IEEE]
    holds the byte-swapped entries of the most-significant-bit-first polynomial
    0x04C11DB7, so that the same step computes the MSB-first CRC on a byte-swapped
    register.  The theorems relate each of them to the bit-by-bit definition. *)
From S2P Require Import Prelude.

(** ** The tables *)

Definition CRC_32_IEEE : list Z := [
   0x00000000; 0xb71dc104; 0x6e3b8209; 0xd926430d; 0xdc760413; 0x6b6bc517; 0xb24d861a; 0x0550471e;
   0xb8ed0826; 0x0ff0c922; 0xd6d68a2f; 0x61cb4b2b; 0x649b0c35; 0xd386cd31; 0x0aa08e3c; 0xbdbd4f38;
   0x70db114c; 0xc7c6d048; 0x1ee09345; 0xa9fd5241; 0xacad155f; 0x1bb0d45b; 0xc2969756; 0x758b5652;
   0xc836196a; 0x7f2bd86e; 0xa60d9b63; 0x11105a67; 0x14401d79; 0xa35ddc7d; 0x7a7b9f70; 0xcd665e74;
   0xe0b62398; 0x57abe29c; 0x8e8da191; 0x39906095; 0x3cc0278b; 0x8bdde68f; 0x52fba582; 0xe5e66486;
   0x585b2bbe; 0xef46eaba; 0x3660a9b7; 0x817d68b3; 0x842d2fad; 0x3330eea9; 0xea16ada4; 0x5d0b6ca0;
   0x906d32d4; 0x2770f3d0; 0xfe56b0dd; 0x494b71d9; 0x4c1b36c7; 0xfb06f7c3; 0x2220b4ce; 0x953d75ca;
   0x28803af2; 0x9f9dfbf6; 0x46bbb8fb; 0xf1a679ff; 0xf4f63ee1; 0x43ebffe5; 0x9acdbce8; 0x2dd07dec;
   0x77708634; 0xc06d4730; 0x194b043d; 0xae56c539; 0xab068227; 0x1c1b4323; 0xc53d002e; 0x7220c12a;
   0xcf9d8e12; 0x78804f16; 0xa1a60c1b; 0x16bbcd1f; 0x13eb8a01; 0xa4f64b05; 0x7dd00808; 0xcacdc90c;
   0x07ab9778; 0xb0b6567c; 0x69901571; 0xde8dd475; 0xdbdd936b; 0x6cc0526f; 0xb5e61162; 0x02fbd066;
   0xbf469f5e; 0x085b5e5a; 0xd17d1d57; 0x6660dc53; 0x63309b4d; 0xd42d5a49; 0x0d0b1944; 0xba16d840;
   0x97c6a5ac; 0x20db64a8; 0xf9fd27a5; 0x4ee0e6a1; 0x4bb0a1bf; 0xfcad60bb; 0x258b23b6; 0x9296e2b2;
   0x2f2bad8a; 0x98366c8e; 0x41102f83; 0xf60dee87; 0xf35da999; 0x4440689d; 0x9d662b90; 0x2a7bea94;
   0xe71db4e0; 0x500075e4; 0x892636e9; 0x3e3bf7ed; 0x3b6bb0f3; 0x8c7671f7; 0x555032fa; 0xe24df3fe;
   0x5ff0bcc6; 0xe8ed7dc2; 0x31cb3ecf; 0x86d6ffcb; 0x8386b8d5; 0x349b79d1; 0xedbd3adc; 0x5aa0fbd8;
   0xeee00c69; 0x59fdcd6d; 0x80db8e60; 0x37c64f64; 0x3296087a; 0x858bc97e; 0x5cad8a73; 0xebb04b77;
   0x560d044f; 0xe110c54b; 0x38368646; 0x8f2b4742; 0x8a7b005c; 0x3d66c158; 0xe4408255; 0x535d4351;
   0x9e3b1d25; 0x2926dc21; 0xf0009f2c; 0x471d5e28; 0x424d1936; 0xf550d832; 0x2c769b3f; 0x9b6b5a3b;
   0x26d61503; 0x91cbd407; 0x48ed970a; 0xfff0560e; 0xfaa01110; 0x4dbdd014; 0x949b9319; 0x2386521d;
   0x0e562ff1; 0xb94beef5; 0x606dadf8; 0xd7706cfc; 0xd2202be2; 0x653deae6; 0xbc1ba9eb; 0x0b0668ef;
   0xb6bb27d7; 0x01a6e6d3; 0xd880a5de; 0x6f9d64da; 0x6acd23c4; 0xddd0e2c0; 0x04f6a1cd; 0xb3eb60c9;
   0x7e8d3ebd; 0xc990ffb9; 0x10b6bcb4; 0xa7ab7db0; 0xa2fb3aae; 0x15e6fbaa; 0xccc0b8a7; 0x7bdd79a3;
   0xc660369b; 0x717df79f; 0xa85bb492; 0x1f467596; 0x1a163288; 0xad0bf38c; 0x742db081; 0xc3307185;
   0x99908a5d; 0x2e8d4b59; 0xf7ab0854; 0x40b6c950; 0x45e68e4e; 0xf2fb4f4a; 0x2bdd0c47; 0x9cc0cd43;
   0x217d827b; 0x9660437f; 0x4f460072; 0xf85bc176; 0xfd0b8668; 0x4a16476c; 0x93300461; 0x242dc565;
   0xe94b9b11; 0x5e565a15; 0x87701918; 0x306dd81c; 0x353d9f02; 0x82205e06; 0x5b061d0b; 0xec1bdc0f;
   0x51a69337; 0xe6bb5233; 0x3f9d113e; 0x8880d03a; 0x8dd09724; 0x3acd5620; 0xe3eb152d; 0x54f6d429;
   0x7926a9c5; 0xce3b68c1; 0x171d2bcc; 0xa000eac8; 0xa550add6; 0x124d6cd2; 0xcb6b2fdf; 0x7c76eedb;
   0xc1cba1e3; 0x76d660e7; 0xaff023ea; 0x18ede2ee; 0x1dbda5f0; 0xaaa064f4; 0x738627f9; 0xc49be6fd;
   0x09fdb889; 0xbee0798d; 0x67c63a80; 0xd0dbfb84; 0xd58bbc9a; 0x62967d9e; 0xbbb03e93; 0x0cadff97;
   0xb110b0af; 0x060d71ab; 0xdf2b32a6; 0x6836f3a2; 0x6d66b4bc; 0xda7b75b8; 0x035d36b5; 0xb440f7b1;
   0x00000001 ].

Definition CRC_32_IEEE_LE : list Z := [
   0x00000000; 0x77073096; 0xee0e612c; 0x990951ba; 0x076dc419; 0x706af48f; 0xe963a535; 0x9e6495a3;
   0x0edb8832; 0x79dcb8a4; 0xe0d5e91e; 0x97d2d988; 0x09b64c2b; 0x7eb17cbd; 0xe7b82d07; 0x90bf1d91;
   0x1db71064; 0x6ab020f2; 0xf3b97148; 0x84be41de; 0x1adad47d; 0x6ddde4eb; 0xf4d4b551; 0x83d385c7;
   0x136c9856; 0x646ba8c0; 0xfd62f97a; 0x8a65c9ec; 0x14015c4f; 0x63066cd9; 0xfa0f3d63; 0x8d080df5;
   0x3b6e20c8; 0x4c69105e; 0xd56041e4; 0xa2677172; 0x3c03e4d1; 0x4b04d447; 0xd20d85fd; 0xa50ab56b;
   0x35b5a8fa; 0x42b2986c; 0xdbbbc9d6; 0xacbcf940; 0x32d86ce3; 0x45df5c75; 0xdcd60dcf; 0xabd13d59;
   0x26d930ac; 0x51de003a; 0xc8d75180; 0xbfd06116; 0x21b4f4b5; 0x56b3c423; 0xcfba9599; 0xb8bda50f;
   0x2802b89e; 0x5f058808; 0xc60cd9b2; 0xb10be924; 0x2f6f7c87; 0x58684c11; 0xc1611dab; 0xb6662d3d;
   0x76dc4190; 0x01db7106; 0x98d220bc; 0xefd5102a; 0x71b18589; 0x06b6b51f; 0x9fbfe4a5; 0xe8b8d433;
   0x7807c9a2; 0x0f00f934; 0x9609a88e; 0xe10e9818; 0x7f6a0dbb; 0x086d3d2d; 0x91646c97; 0xe6635c01;
   0x6b6b51f4; 0x1c6c6162; 0x856530d8; 0xf262004e; 0x6c0695ed; 0x1b01a57b; 0x8208f4c1; 0xf50fc457;
   0x65b0d9c6; 0x12b7e950; 0x8bbeb8ea; 0xfcb9887c; 0x62dd1ddf; 0x15da2d49; 0x8cd37cf3; 0xfbd44c65;
   0x4db26158; 0x3ab551ce; 0xa3bc0074; 0xd4bb30e2; 0x4adfa541; 0x3dd895d7; 0xa4d1c46d; 0xd3d6f4fb;
   0x4369e96a; 0x346ed9fc; 0xad678846; 0xda60b8d0; 0x44042d73; 0x33031de5; 0xaa0a4c5f; 0xdd0d7cc9;
   0x5005713c; 0x270241aa; 0xbe0b1010; 0xc90c2086; 0x5768b525; 0x206f85b3; 0xb966d409; 0xce61e49f;
   0x5edef90e; 0x29d9c998; 0xb0d09822; 0xc7d7a8b4; 0x59b33d17; 0x2eb40d81; 0xb7bd5c3b; 0xc0ba6cad;
   0xedb88320; 0x9abfb3b6; 0x03b6e20c; 0x74b1d29a; 0xead54739; 0x9dd277af; 0x04db2615; 0x73dc1683;
   0xe3630b12; 0x94643b84; 0x0d6d6a3e; 0x7a6a5aa8; 0xe40ecf0b; 0x9309ff9d; 0x0a00ae27; 0x7d079eb1;
   0xf00f9344; 0x8708a3d2; 0x1e01f268; 0x6906c2fe; 0xf762575d; 0x806567cb; 0x196c3671; 0x6e6b06e7;
   0xfed41b76; 0x89d32be0; 0x10da7a5a; 0x67dd4acc; 0xf9b9df6f; 0x8ebeeff9; 0x17b7be43; 0x60b08ed5;
   0xd6d6a3e8; 0xa1d1937e; 0x38d8c2c4; 0x4fdff252; 0xd1bb67f1; 0xa6bc5767; 0x3fb506dd; 0x48b2364b;
   0xd80d2bda; 0xaf0a1b4c; 0x36034af6; 0x41047a60; 0xdf60efc3; 0xa867df55; 0x316e8eef; 0x4669be79;
   0xcb61b38c; 0xbc66831a; 0x256fd2a0; 0x5268e236; 0xcc0c7795; 0xbb0b4703; 0x220216b9; 0x5505262f;
   0xc5ba3bbe; 0xb2bd0b28; 0x2bb45a92; 0x5cb36a04; 0xc2d7ffa7; 0xb5d0cf31; 0x2cd99e8b; 0x5bdeae1d;
   0x9b64c2b0; 0xec63f226; 0x756aa39c; 0x026d930a; 0x9c0906a9; 0xeb0e363f; 0x72076785; 0x05005713;
   0x95bf4a82; 0xe2b87a14; 0x7bb12bae; 0x0cb61b38; 0x92d28e9b; 0xe5d5be0d; 0x7cdcefb7; 0x0bdbdf21;
   0x86d3d2d4; 0xf1d4e242; 0x68ddb3f8; 0x1fda836e; 0x81be16cd; 0xf6b9265b; 0x6fb077e1; 0x18b74777;
   0x88085ae6; 0xff0f6a70; 0x66063bca; 0x11010b5c; 0x8f659eff; 0xf862ae69; 0x616bffd3; 0x166ccf45;
   0xa00ae278; 0xd70dd2ee; 0x4e048354; 0x3903b3c2; 0xa7672661; 0xd06016f7; 0x4969474d; 0x3e6e77db;
   0xaed16a4a; 0xd9d65adc; 0x40df0b66; 0x37d83bf0; 0xa9bcae53; 0xdebb9ec5; 0x47b2cf7f; 0x30b5ffe9;
   0xbdbdf21c; 0xcabac28a; 0x53b39330; 0x24b4a3a6; 0xbad03605; 0xcdd70693; 0x54de5729; 0x23d967bf;
   0xb3667a2e; 0xc4614ab8; 0x5d681b02; 0x2a6f2b94; 0xb40bbe37; 0xc30c8ea1; 0x5a05df1b; 0x2d02ef8d;
   0x00000001 ].

Definition crc32_table : list Z := [
   0x00000000; 0x77073096; 0xee0e612c; 0x990951ba; 0x076dc419; 0x706af48f; 0xe963a535; 0x9e6495a3;
   0x0edb8832; 0x79dcb8a4; 0xe0d5e91e; 0x97d2d988; 0x09b64c2b; 0x7eb17cbd; 0xe7b82d07; 0x90bf1d91;
   0x1db71064; 0x6ab020f2; 0xf3b97148; 0x84be41de; 0x1adad47d; 0x6ddde4eb; 0xf4d4b551; 0x83d385c7;
   0x136c9856; 0x646ba8c0; 0xfd62f97a; 0x8a65c9ec; 0x14015c4f; 0x63066cd9; 0xfa0f3d63; 0x8d080df5;
   0x3b6e20c8; 0x4c69105e; 0xd56041e4; 0xa2677172; 0x3c03e4d1; 0x4b04d447; 0xd20d85fd; 0xa50ab56b;
   0x35b5a8fa; 0x42b2986c; 0xdbbbc9d6; 0xacbcf940; 0x32d86ce3; 0x45df5c75; 0xdcd60dcf; 0xabd13d59;
   0x26d930ac; 0x51de003a; 0xc8d75180; 0xbfd06116; 0x21b4f4b5; 0x56b3c423; 0xcfba9599; 0xb8bda50f;
   0x2802b89e; 0x5f058808; 0xc60cd9b2; 0xb10be924; 0x2f6f7c87; 0x58684c11; 0xc1611dab; 0xb6662d3d;
   0x76dc4190; 0x01db7106; 0x98d220bc; 0xefd5102a; 0x71b18589; 0x06b6b51f; 0x9fbfe4a5; 0xe8b8d433;
   0x7807c9a2; 0x0f00f934; 0x9609a88e; 0xe10e9818; 0x7f6a0dbb; 0x086d3d2d; 0x91646c97; 0xe6635c01;
   0x6b6b51f4; 0x1c6c6162; 0x856530d8; 0xf262004e; 0x6c0695ed; 0x1b01a57b; 0x8208f4c1; 0xf50fc457;
   0x65b0d9c6; 0x12b7e950; 0x8bbeb8ea; 0xfcb9887c; 0x62dd1ddf; 0x15da2d49; 0x8cd37cf3; 0xfbd44c65;
   0x4db26158; 0x3ab551ce; 0xa3bc0074; 0xd4bb30e2; 0x4adfa541; 0x3dd895d7; 0xa4d1c46d; 0xd3d6f4fb;
   0x4369e96a; 0x346ed9fc; 0xad678846; 0xda60b8d0; 0x44042d73; 0x33031de5; 0xaa0a4c5f; 0xdd0d7cc9;
   0x5005713c; 0x270241aa; 0xbe0b1010; 0xc90c2086; 0x5768b525; 0x206f85b3; 0xb966d409; 0xce61e49f;
   0x5edef90e; 0x29d9c998; 0xb0d09822; 0xc7d7a8b4; 0x59b33d17; 0x2eb40d81; 0xb7bd5c3b; 0xc0ba6cad;
   0xedb88320; 0x9abfb3b6; 0x03b6e20c; 0x74b1d29a; 0xead54739; 0x9dd277af; 0x04db2615; 0x73dc1683;
   0xe3630b12; 0x94643b84; 0x0d6d6a3e; 0x7a6a5aa8; 0xe40ecf0b; 0x9309ff9d; 0x0a00ae27; 0x7d079eb1;
   0xf00f9344; 0x8708a3d2; 0x1e01f268; 0x6906c2fe; 0xf762575d; 0x806567cb; 0x196c3671; 0x6e6b06e7;
   0xfed41b76; 0x89d32be0; 0x10da7a5a; 0x67dd4acc; 0xf9b9df6f; 0x8ebeeff9; 0x17b7be43; 0x60b08ed5;
   0xd6d6a3e8; 0xa1d1937e; 0x38d8c2c4; 0x4fdff252; 0xd1bb67f1; 0xa6bc5767; 0x3fb506dd; 0x48b2364b;
   0xd80d2bda; 0xaf0a1b4c; 0x36034af6; 0x41047a60; 0xdf60efc3; 0xa867df55; 0x316e8eef; 0x4669be79;
   0xcb61b38c; 0xbc66831a; 0x256fd2a0; 0x5268e236; 0xcc0c7795; 0xbb0b4703; 0x220216b9; 0x5505262f;
   0xc5ba3bbe; 0xb2bd0b28; 0x2bb45a92; 0x5cb36a04; 0xc2d7ffa7; 0xb5d0cf31; 0x2cd99e8b; 0x5bdeae1d;
   0x9b64c2b0; 0xec63f226; 0x756aa39c; 0x026d930a; 0x9c0906a9; 0xeb0e363f; 0x72076785; 0x05005713;
   0x95bf4a82; 0xe2b87a14; 0x7bb12bae; 0x0cb61b38; 0x92d28e9b; 0xe5d5be0d; 0x7cdcefb7; 0x0bdbdf21;
   0x86d3d2d4; 0xf1d4e242; 0x68ddb3f8; 0x1fda836e; 0x81be16cd; 0xf6b9265b; 0x6fb077e1; 0x18b74777;
   0x88085ae6; 0xff0f6a70; 0x66063bca; 0x11010b5c; 0x8f659eff; 0xf862ae69; 0x616bffd3; 0x166ccf45;
   0xa00ae278; 0xd70dd2ee; 0x4e048354; 0x3903b3c2; 0xa7672661; 0xd06016f7; 0x4969474d; 0x3e6e77db;
   0xaed16a4a; 0xd9d65adc; 0x40df0b66; 0x37d83bf0; 0xa9bcae53; 0xdebb9ec5; 0x47b2cf7f; 0x30b5ffe9;
   0xbdbdf21c; 0xcabac28a; 0x53b39330; 0x24b4a3a6; 0xbad03605; 0xcdd70693; 0x54de5729; 0x23d967bf;
   0xb3667a2e; 0xc4614ab8; 0x5d681b02; 0x2a6f2b94; 0xb40bbe37; 0xc30c8ea1; 0x5a05df1b; 0x2d02ef8d ].

(** ** The code *)

(** [cpp_streamer::GetCrc32(crc_table, crc, data, size)]; the index is a [uint8_t], so it
    is below 256; a table that is too short is an out-of-bounds read. *)
Definition crc_step (crc_table : list Z) (crc b : Z) : res Z :=
  match crc_table !! Z.to_nat (Z.lxor (u8 crc) b) with
  | Some t => Ok (Z.lxor t (Z.shiftr crc 8))
  | None => Undef
  end.
Fixpoint GetCrc32 (crc_table : list Z) (crc : Z) (data : bytes) : res Z :=
  match data with
  | [] => Ok crc
  | b :: data' => crc' ← crc_step crc_table crc b; GetCrc32 crc_table crc' data'
  end.

(** [ByteCrypto::GetCrc32(data, size)]: index [(crc ^ *p++) & 0xFF], initial value and final
    complement. *)
Fixpoint ByteCrypto_GetCrc32_loop (crc : Z) (data : bytes) : res Z :=
  match data with
  | [] => Ok crc
  | b :: data' =>
      match crc32_table !! Z.to_nat (Z.land (Z.lxor crc b) 0xFF) with
      | Some t => ByteCrypto_GetCrc32_loop (Z.lxor t (Z.shiftr crc 8)) data'
      | None => Undef
      end
  end.
Definition ByteCrypto_GetCrc32 (data : bytes) : res Z :=
  crc ← ByteCrypto_GetCrc32_loop 0xFFFFFFFF data; Ok (Z.lxor crc 0xFFFFFFFF).

(** [ByteCrypto::GetCrc32(crc, data, size)]: no initial value, no complement. *)
Definition ByteCrypto_GetCrc32_from (crc : Z) (data : bytes) : res Z :=
  GetCrc32 crc32_table crc data.

Example crc_check : ByteCrypto_GetCrc32 (bstr "123456789") = Ok 0xCBF43926.
Proof. vm_compute. reflexivity. Qed.

(** ** Bit-by-bit reference *)

Definition POLY_LE : Z := 0xEDB88320.
Definition POLY_BE : Z := 0x04C11DB7.

Definition lsb_bit (c : Z) : Z := Z.lxor (Z.shiftr c 1) (if Z.odd c then POLY_LE else 0).
Definition msb_bit (c : Z) : Z := Z.lxor (u32 (Z.shiftl c 1)) (if Z.testbit c 31 then POLY_BE else 0).
Definition lsb_step (c b : Z) : Z := Nat.iter 8 lsb_bit (Z.lxor c b).
Definition msb_step (c b : Z) : Z := Nat.iter 8 msb_bit (Z.lxor c (Z.shiftl b 24)).
Definition crc_lsb (c : Z) (data : bytes) : Z := fold_left lsb_step data c.
Definition crc_msb (c : Z) (data : bytes) : Z := fold_left msb_step data c.

(** Byte swap of a 32-bit register. *)
Definition bswap32 (c : Z) : Z :=
  Z.lor (Z.shiftl (u8 c) 24) (Z.lor (Z.shiftl (u8 (Z.shiftr c 8)) 16)
    (Z.lor (Z.shiftl (u8 (Z.shiftr c 16)) 8) (u8 (Z.shiftr c 24)))).

(** ** Lemmas *)

Lemma testbit_mod z n k : 0 <= n -> Z.testbit (z mod 2 ^ n) k = (0 <=? k) && (k <? n) && Z.testbit z k.
Proof.
  intros Hn. zbool; try (rewrite Z.testbit_neg_r by lia; done).
  - rewrite Z.mod_pow2_bits_low by lia. done.
  - rewrite Z.mod_pow2_bits_high by lia. done.
Qed.
Lemma testbit_u8 z k : Z.testbit (u8 z) k = (0 <=? k) && (k <? 8) && Z.testbit z k.
Proof. apply testbit_mod; lia. Qed.
Lemma testbit_u32 z k : Z.testbit (u32 z) k = (0 <=? k) && (k <? 32) && Z.testbit z k.
Proof. apply testbit_mod; lia. Qed.
Lemma testbit_shiftl z n k : 0 <= k -> Z.testbit (Z.shiftl z n) k = (n <=? k) && Z.testbit z (k - n).
Proof.
  intros. rewrite Z.shiftl_spec by done. zbool; [done|]. rewrite Z.testbit_neg_r by lia. done.
Qed.

(** Compare two integers bit by bit. *)
Ltac bits_eq :=
  apply Z.bits_inj'; intros ?k ?;
  repeat first [rewrite Z.lxor_spec|rewrite Z.lor_spec|rewrite testbit_u8|rewrite testbit_u32
    |rewrite testbit_shiftl by lia|rewrite Z.shiftr_spec by lia];
  zbool; try lia; rewrite ?orb_false_r, ?xorb_false_r, ?xorb_false_l; try done;
  try (f_equal; f_equal; lia).

Lemma lxor_4 a b c d : Z.lxor (Z.lxor a b) (Z.lxor c d) = Z.lxor (Z.lxor a c) (Z.lxor b d).
Proof.
  rewrite !Z.lxor_assoc. f_equal. rewrite <- !Z.lxor_assoc. f_equal. apply Z.lxor_comm.
Qed.

Section linear.
Context (f : Z -> Z) (Hf : forall a b, f (Z.lxor a b) = Z.lxor (f a) (f b)).
Lemma iter_linear n a b : Nat.iter n f (Z.lxor a b) = Z.lxor (Nat.iter n f a) (Nat.iter n f b).
Proof. induction n as [|n IH]; [done|]. rewrite !Nat.iter_succ, IH, Hf. done. Qed.
End linear.

Lemma cond_linear (p : Z) (x y : bool) :
  (if xorb x y then p else 0) = Z.lxor (if x then p else 0) (if y then p else 0).
Proof. destruct x, y; cbn; rewrite ?Z.lxor_nilpotent, ?Z.lxor_0_r; done. Qed.

Lemma lsb_bit_linear a b : lsb_bit (Z.lxor a b) = Z.lxor (lsb_bit a) (lsb_bit b).
Proof.
  unfold lsb_bit. rewrite Z.shiftr_lxor, <- !Z.bit0_odd, Z.lxor_spec, cond_linear. apply lxor_4.
Qed.
Lemma msb_bit_linear a b : msb_bit (Z.lxor a b) = Z.lxor (msb_bit a) (msb_bit b).
Proof.
  unfold msb_bit. rewrite Z.lxor_spec, cond_linear.
  replace (u32 (Z.shiftl (Z.lxor a b) 1)) with (Z.lxor (u32 (Z.shiftl a 1)) (u32 (Z.shiftl b 1)))
    by bits_eq. apply lxor_4.
Qed.

(** Zero low bits are shifted out unchanged (zero high bits, for the other direction). *)
Lemma lsb_bit_double h : lsb_bit (2 * h) = h.
Proof.
  unfold lsb_bit. rewrite Z.odd_mul, Z.lxor_0_r. rewrite Z.shiftr_div_pow2, Z.mul_comm by lia.
  apply Z.div_mul; lia.
Qed.
Lemma lsb_iter_high n h : Nat.iter n lsb_bit (2 ^ Z.of_nat n * h) = h.
Proof.
  revert h; induction n as [|n IH]; intros h; [cbn; lia|].
  rewrite Nat.iter_succ_r. replace (2 ^ Z.of_nat (S n) * h) with (2 * (2 ^ Z.of_nat n * h)).
  - rewrite lsb_bit_double. apply IH.
  - rewrite Nat2Z.inj_succ, Z.pow_succ_r; lia.
Qed.

Lemma msb_bit_double h : 0 <= h < 2 ^ 31 -> msb_bit h = 2 * h.
Proof.
  intros H. unfold msb_bit. rewrite (testbit_high h 31) by lia.
  rewrite Z.lxor_0_r, Z.shiftl_mul_pow2 by lia. rewrite u32_small; lia.
Qed.
Lemma msb_iter_low n h : 0 <= h -> h * 2 ^ Z.of_nat n < 2 ^ 32 ->
  Nat.iter n msb_bit h = h * 2 ^ Z.of_nat n.
Proof.
  revert h; induction n as [|n IH]; intros h H0 H; [cbn; lia|].
  rewrite Nat2Z.inj_succ, Z.pow_succ_r in * by lia.
  assert (1 <= 2 ^ Z.of_nat n) by (pose proof (Z.pow_pos_nonneg 2 (Z.of_nat n)); lia).
  rewrite Nat.iter_succ_r, msb_bit_double by nia. rewrite IH; nia.
Qed.

Lemma table_checked (t : list Z) (g : Z -> Z) :
  all_bytes (fun i => bool_decide (t !! Z.to_nat i = Some (g i))) = true ->
  forall i, byte_ok i -> t !! Z.to_nat i = Some (g i).
Proof. intros H i Hi. eapply all_bytes_spec in H; [|done]. apply bool_decide_eq_true in H. done. Qed.

Lemma table_le_ok i : byte_ok i -> CRC_32_IEEE_LE !! Z.to_nat i = Some (Nat.iter 8 lsb_bit i).
Proof. apply table_checked. vm_compute. done. Qed.
Lemma table_bc_ok i : byte_ok i -> crc32_table !! Z.to_nat i = Some (Nat.iter 8 lsb_bit i).
Proof. apply table_checked. vm_compute. done. Qed.
Lemma table_be_ok i : byte_ok i ->
  CRC_32_IEEE !! Z.to_nat i = Some (bswap32 (Nat.iter 8 msb_bit (Z.shiftl i 24))).
Proof. apply (table_checked _ (fun i => bswap32 (Nat.iter 8 msb_bit (Z.shiftl i 24)))). vm_compute. done. Qed.

Lemma lxor_byte a b : byte_ok a -> byte_ok b -> byte_ok (Z.lxor a b).
Proof. intros. apply (lxor_bound a b 8); unfold byte_ok in *; lia. Qed.
Lemma testbit_byte b k : byte_ok b -> 8 <= k -> Z.testbit b k = false.
Proof. intros; apply (testbit_high b 8); unfold byte_ok in *; lia. Qed.

(** One table step is eight reference steps. *)
Lemma lsb_step_table c b : byte_ok b ->
  lsb_step c b = Z.lxor (Nat.iter 8 lsb_bit (Z.lxor (u8 c) b)) (Z.shiftr c 8).
Proof.
  intros Hb. unfold lsb_step.
  replace (Z.lxor c b) with (Z.lxor (Z.lxor (u8 c) b) (2 ^ Z.of_nat 8 * Z.shiftr c 8)).
  - rewrite (iter_linear _ lsb_bit_linear), lsb_iter_high. done.
  - rewrite Z.mul_comm, <- Z.shiftl_mul_pow2 by lia. apply Z.bits_inj'. intros k Hk.
    rewrite !Z.lxor_spec, testbit_u8, testbit_shiftl by lia. change (Z.of_nat 8) with 8.
    destruct (Z.lt_ge_cases k 8).
    + zbool; try lia. apply xorb_false_r.
    + rewrite (testbit_byte b k), Z.shiftr_spec by (done || lia). zbool; try lia.
      rewrite !xorb_false_r, xorb_false_l. f_equal; lia.
Qed.

Lemma bswap_testbit x k : 0 <= k -> Z.testbit (bswap32 x) k =
  (k <? 32) && Z.testbit x (if k <? 8 then k + 24 else if k <? 16 then k + 8
                            else if k <? 24 then k - 8 else k - 24).
Proof.
  intros Hk. unfold bswap32. rewrite !Z.lor_spec, !testbit_shiftl, !testbit_u8 by lia.
  zbool; try lia; rewrite ?Z.shiftr_spec by lia; rewrite ?orb_false_r; f_equal; lia.
Qed.

Lemma bswap_linear a b : bswap32 (Z.lxor a b) = Z.lxor (bswap32 a) (bswap32 b).
Proof.
  apply Z.bits_inj'; intros k Hk. rewrite Z.lxor_spec, !bswap_testbit, Z.lxor_spec by done.
  destruct (k <? 32); done.
Qed.

Lemma bswap_top C : 0 <= C < 2 ^ 32 -> u8 (bswap32 C) = Z.shiftr C 24.
Proof.
  intros HC. apply Z.bits_inj'; intros k Hk.
  rewrite testbit_u8, bswap_testbit, Z.shiftr_spec by done. zbool; try lia; try (f_equal; lia).
  rewrite (testbit_high C 32); [done|lia|lia].
Qed.

Lemma bswap_shift C : 0 <= C < 2 ^ 32 -> Z.shiftr (bswap32 C) 8 = bswap32 (u32 (Z.shiftl C 8)).
Proof.
  intros HC. apply Z.bits_inj'; intros k Hk.
  rewrite Z.shiftr_spec, !bswap_testbit by lia.
  rewrite testbit_u32. zbool; try lia; try done; rewrite testbit_shiftl by lia; zbool; try lia;
    try done; f_equal; lia.
Qed.

(** One MSB-first reference step, split into its table part and its shift part. *)
Lemma msb_step_split C b : 0 <= C < 2 ^ 32 -> byte_ok b ->
  msb_step C b = Z.lxor (Nat.iter 8 msb_bit (Z.shiftl (Z.lxor (Z.shiftr C 24) b) 24))
                        (u32 (Z.shiftl C 8)).
Proof.
  intros HC Hb. unfold msb_step. set (low := C mod 2 ^ 24).
  assert (Hlow : 0 <= low < 2 ^ 24) by (apply Z.mod_pos_bound; lia).
  replace (Z.lxor C (Z.shiftl b 24)) with (Z.lxor (Z.shiftl (Z.lxor (Z.shiftr C 24) b) 24) low).
  - rewrite (iter_linear _ msb_bit_linear), (msb_iter_low 8 low) by (change (Z.of_nat 8) with 8; lia).
    f_equal. change (Z.of_nat 8) with 8. unfold low, u32. rewrite Z.shiftl_mul_pow2 by lia.
    replace (2 ^ 32) with (2 ^ 24 * 2 ^ 8) by lia. rewrite Z.mul_mod_distr_r by lia. done.
  - apply Z.bits_inj'; intros k Hk. unfold low.
    rewrite !Z.lxor_spec, testbit_mod, !testbit_shiftl, Z.lxor_spec by lia.
    destruct (Z.lt_ge_cases k 24).
    + zbool; try lia. rewrite ?xorb_false_l, ?xorb_false_r. done.
    + rewrite Z.shiftr_spec by lia. replace (k - 24 + 24) with k by lia. zbool; try lia.
      rewrite xorb_false_r. done.
Qed.

Lemma lxor32 a b : 0 <= a < 2 ^ 32 -> 0 <= b < 2 ^ 32 -> 0 <= Z.lxor a b < 2 ^ 32.
Proof. apply lxor_bound; lia. Qed.

Lemma msb_bit_range c : 0 <= c < 2 ^ 32 -> 0 <= msb_bit c < 2 ^ 32.
Proof.
  intros H. unfold msb_bit. apply lxor32; [apply Z.mod_pos_bound; lia|].
  destruct (Z.testbit _ _); unfold POLY_BE; lia.
Qed.
Lemma msb_step_range c b : 0 <= c < 2 ^ 32 -> byte_ok b -> 0 <= msb_step c b < 2 ^ 32.
Proof.
  intros Hc Hb. unfold msb_step. generalize 8%nat. induction n as [|n IH].
  - apply lxor32; [done|]. rewrite Z.shiftl_mul_pow2 by lia. unfold byte_ok in Hb. nia.
  - rewrite Nat.iter_succ. apply msb_bit_range, IH.
Qed.

Lemma crc_step_le c b : byte_ok b -> crc_step CRC_32_IEEE_LE c b = Ok (lsb_step c b).
Proof.
  intros Hb. unfold crc_step. rewrite table_le_ok by (apply lxor_byte; [apply u8_ok|done]).
  rewrite lsb_step_table by done. done.
Qed.
Lemma crc_step_bc c b : byte_ok b -> crc_step crc32_table c b = Ok (lsb_step c b).
Proof.
  intros Hb. unfold crc_step. rewrite table_bc_ok by (apply lxor_byte; [apply u8_ok|done]).
  rewrite lsb_step_table by done. done.
Qed.
Lemma crc_step_be C b : 0 <= C < 2 ^ 32 -> byte_ok b ->
  crc_step CRC_32_IEEE (bswap32 C) b = Ok (bswap32 (msb_step C b)).
Proof.
  intros HC Hb. unfold crc_step. rewrite bswap_top by done.
  assert (byte_ok (Z.shiftr C 24)).
  { unfold byte_ok. rewrite Z.shiftr_div_pow2 by lia. split; [apply Z.div_pos; lia|].
    apply Z.div_lt_upper_bound; lia. }
  rewrite table_be_ok by (apply lxor_byte; done).
  rewrite msb_step_split, bswap_linear, bswap_shift by done. done.
Qed.

Lemma GetCrc32_cons t c b data :
  GetCrc32 t c (b :: data) = (crc' ← crc_step t c b; GetCrc32 t crc' data).
Proof. reflexivity. Qed.
Lemma crc_msb_cons C b data : crc_msb C (b :: data) = crc_msb (msb_step C b) data.
Proof. reflexivity. Qed.
Lemma crc_lsb_cons c b data : crc_lsb c (b :: data) = crc_lsb (lsb_step c b) data.
Proof. reflexivity. Qed.

(** With the little-endian table, the table-driven loop computes the bit-by-bit reflected
    CRC from any register value, on any data. *)
Theorem GetCrc32_le_bitwise (crc : Z) (data : bytes) (Hd : bytes_ok data) :
  GetCrc32 CRC_32_IEEE_LE crc data = Ok (crc_lsb crc data) /\
  ByteCrypto_GetCrc32_from crc data = Ok (crc_lsb crc data).
Proof.
  unfold ByteCrypto_GetCrc32_from.
  revert crc; induction Hd as [|b data Hb Hd IH]; intros crc; [done|].
  rewrite !GetCrc32_cons, crc_lsb_cons, (crc_step_le crc b Hb), (crc_step_bc crc b Hb), !bind_Ok.
  apply IH.
Qed.

Lemma GetCrc32_le_bitwise_witness :
  bytes_ok [49; 50] /\ GetCrc32 CRC_32_IEEE_LE 0 [49; 50] = Ok (crc_lsb 0 [49; 50]).
Proof.
  assert (H : bytes_ok [49; 50]) by (repeat constructor; lia).
  split; [exact H|]. exact (proj1 (GetCrc32_le_bitwise 0 [49; 50] H)).
Defined.

(** C36: with [CRC_32_IEEE] the same loop computes the MSB-first CRC with polynomial
    0x04C11DB7, on a byte-swapped register. *)
Theorem GetCrc32_be_bitwise (C : Z) (data : bytes) (HC : 0 <= C < 2 ^ 32) (Hd : bytes_ok data) :
  GetCrc32 CRC_32_IEEE (bswap32 C) data = Ok (bswap32 (crc_msb C data)).
Proof.
  revert C HC; induction Hd as [|b data Hb Hd IH]; intros C HC; [reflexivity|].
  rewrite GetCrc32_cons, crc_msb_cons, (crc_step_be C b HC Hb), bind_Ok.
  apply IH, msb_step_range; assumption.
Qed.

Lemma GetCrc32_be_bitwise_witness :
  0 <= 0xFFFFFFFF < 2 ^ 32 /\ bytes_ok [1; 255] /\
  GetCrc32 CRC_32_IEEE (bswap32 0xFFFFFFFF) [1; 255] = Ok (bswap32 (crc_msb 0xFFFFFFFF [1; 255])).
Proof.
  assert (H : bytes_ok [1; 255]) by (repeat constructor; lia).
  assert (H0 : 0 <= 0xFFFFFFFF < 2 ^ 32) by lia.
  split; [exact H0|split; [exact H|]]. exact (GetCrc32_be_bitwise _ _ H0 H).
Defined.

Lemma ByteCrypto_loop_ok crc data : bytes_ok data ->
  ByteCrypto_GetCrc32_loop crc data = Ok (crc_lsb crc data).
Proof.
  intros Hd. revert crc; induction Hd as [|b data Hb Hd IH]; intros crc; [done|].
  cbn [ByteCrypto_GetCrc32_loop]. rewrite crc_lsb_cons.
  replace (Z.land (Z.lxor crc b) 0xFF) with (Z.lxor (u8 crc) b).
  - rewrite table_bc_ok by (apply lxor_byte; [apply u8_ok|done]).
    rewrite IH, lsb_step_table by done. reflexivity.
  - change 0xFF with (Z.ones 8). rewrite Z.land_ones by lia.
    apply Z.bits_inj'; intros k Hk. rewrite testbit_mod, !Z.lxor_spec, testbit_u8 by lia.
    destruct (Z.lt_ge_cases k 8); zbool; try lia; [done|].
    rewrite (testbit_byte b k) by done. done.
Qed.

(** The one-shot [ByteCrypto::GetCrc32] is CRC-32: all-ones initial register, bit-by-bit
    reflected updates, final complement. *)
Theorem ByteCrypto_GetCrc32_spec (data : bytes) (Hd : bytes_ok data) :
  ByteCrypto_GetCrc32 data = Ok (Z.lxor (crc_lsb 0xFFFFFFFF data) 0xFFFFFFFF).
Proof.
  unfold ByteCrypto_GetCrc32. rewrite ByteCrypto_loop_ok by done. reflexivity.
Qed.

Lemma ByteCrypto_GetCrc32_spec_witness :
  bytes_ok [49] /\ ByteCrypto_GetCrc32 [49] = Ok (Z.lxor (crc_lsb 0xFFFFFFFF [49]) 0xFFFFFFFF).
Proof.
  assert (H : bytes_ok [49]) by (repeat constructor; lia).
  split; [exact H|exact (ByteCrypto_GetCrc32_spec _ H)].
Defined.
