(* ===== verification/ByteQueue.v ===== *)
(** The interface between the byte buffer and its clients.

    [ByteQueue] lists the operations the protocol code performs on a [DataBuffer];
    [ByteQueueLaws] states what they promise in terms of the byte string the buffer holds.
    The WebSocket and HTTP files prove their theorems against the laws; [DataBuffer.v]
    discharges them for the code's buffer, and the instance below for plain byte strings,
    the abstract queue. *)
From S2P Require Import Prelude.

Class ByteQueue (Q : Type) : Type := {
  bq_new : Z -> res Q;                    (* DataBuffer(size_t) *)
  bq_append : Q -> bytes -> res Q;        (* AppendData *)
  bq_consume : Q -> Z -> res Q;           (* ConsumeData *)
  bq_reset : Q -> Q;                      (* Reset *)
  bq_len : Q -> Z;                        (* DataLen *)
  bq_peek : Q -> Z -> Z -> res bytes;     (* n bytes read at Data() + off *)
  bq_poke : Q -> Z -> bytes -> res Q }.   (* bytes written at Data() + off *)

(** The size of a [DataBuffer()]. *)
Definition EXTRA_LEN_default : Z := 10 * 1024.

(** [std::string(b.Data(), b.DataLen())]. *)
Definition bq_string `{ByteQueue Q} (q : Q) : res bytes := bq_peek q 0 (bq_len q).

Definition splice (l : bytes) (off : Z) (x : bytes) : bytes :=
  firstn (Z.to_nat off) l ++ x ++ skipn (Z.to_nat (off + Zlen x)) l.
Definition slice (l : bytes) (off n : Z) : bytes := firstn (Z.to_nat n) (skipn (Z.to_nat off) l).

Class ByteQueueLaws (Q : Type) `{ByteQueue Q} : Type := {
  bq_rep : Q -> bytes -> Prop;
  bq_room : Q -> Z -> Prop;
  bq_rep_len : forall q l, bq_rep q l -> bq_len q = Zlen l /\ Zlen l < 2 ^ 31;
  bq_append_law : forall q l x, bq_rep q l -> bq_room q (Zlen x) ->
    exists q', bq_append q x = Ok q' /\ bq_rep q' (l ++ x);
  bq_consume_law : forall q l n, bq_rep q l -> 0 <= n <= Zlen l ->
    exists q', bq_consume q n = Ok q' /\ bq_rep q' (skipn (Z.to_nat n) l);
  bq_reset_law : forall q l, bq_rep q l -> bq_rep (bq_reset q) [];
  bq_peek_law : forall q l off n, bq_rep q l -> 0 <= off -> 0 <= n -> off + n <= Zlen l ->
    bq_peek q off n = Ok (slice l off n);
  (* no block holds 2^31 bytes *)
  bq_peek_huge : forall q l off n, bq_rep q l -> 0 <= off -> 2 ^ 31 <= n -> bq_peek q off n = Undef;
  bq_poke_law : forall q l off x, bq_rep q l -> 0 <= off -> off + Zlen x <= Zlen l ->
    exists q', bq_poke q off x = Ok q' /\ bq_rep q' (splice l off x);
  (* a new buffer for [n] bytes takes any string of at most that length *)
  bq_fill_law : forall n x, 0 <= n < 2 ^ 30 -> Zlen x <= n ->
    exists q q', bq_new n = Ok q /\ bq_append q x = Ok q' /\ bq_rep q' x }.

(** Buffers whose contents sit at the front of their block, as they do until the first
    consume: every append succeeds. *)
Class ByteQueuePacked (Q : Type) `{ByteQueueLaws Q} : Type := {
  bq_packed : Q -> Prop;
  (* a buffer created for at least 200 bytes, the reserved header *)
  bq_new_packed : forall n, 200 <= n < 2 ^ 30 -> exists q, bq_new n = Ok q /\ bq_rep q [] /\ bq_packed q;
  bq_packed_append : forall q l x, bq_rep q l -> bq_packed q -> Zlen l + Zlen x < 2 ^ 30 ->
    exists q', bq_append q x = Ok q' /\ bq_rep q' (l ++ x) /\ bq_packed q';
  bq_packed_reset : forall q l, bq_rep q l -> bq_packed q -> bq_packed (bq_reset q) }.

(** Buffers created for at least 400 bytes, the reserved header twice: an empty one always takes
    more data, and one that has been given less than it was created for does, however much was
    consumed in between.  [bq_slack q k]: [k] more bytes fit without moving the contents;
    [bq_elastic c q k]: the same for a buffer of capacity [c], which has all of it whenever it is empty. *)
Class ByteQueueSized (Q : Type) `{ByteQueueLaws Q} : Type := {
  bq_sized : Q -> Prop;
  bq_slack : Q -> Z -> Prop;
  bq_elastic : Z -> Q -> Z -> Prop;
  bq_slack_of : Z -> Z;
  bq_new_sized : forall n, 400 <= n < 2 ^ 30 ->
    exists q, bq_new n = Ok q /\ bq_rep q [] /\ bq_sized q /\ bq_slack q (bq_slack_of n) /\ n - 400 <= bq_slack_of n;
  bq_sized_empty : forall q n, bq_sized q -> bq_rep q [] -> n < 2 ^ 30 -> bq_room q n;
  bq_slack_room : forall q k l n, bq_slack q k -> bq_rep q l -> 0 <= n <= k -> bq_room q n;
  bq_sized_append : forall q x q', bq_append q x = Ok q' -> bq_sized q -> bq_sized q';
  bq_sized_consume : forall q n q', bq_consume q n = Ok q' -> bq_sized q -> bq_sized q';
  bq_sized_reset : forall q, bq_sized q -> bq_sized (bq_reset q);
  bq_slack_append : forall q x q' k, bq_append q x = Ok q' -> bq_slack q k -> Zlen x <= k -> bq_slack q' (k - Zlen x);
  bq_slack_consume : forall q n q' k, bq_consume q n = Ok q' -> bq_slack q k -> bq_slack q' k;
  bq_slack_poke : forall q off x q' k, bq_poke q off x = Ok q' -> bq_slack q k -> bq_slack q' k;
  bq_new_elastic : forall n q, 400 <= n < 2 ^ 30 -> bq_new n = Ok q -> bq_elastic (bq_slack_of n) q (bq_slack_of n);
  bq_elastic_slack : forall c q k, bq_elastic c q k -> bq_slack q k;
  bq_elastic_renewed : forall c q k, bq_elastic c q k -> bq_rep q [] -> bq_elastic c q c;
  bq_elastic_append : forall c q x q' k, bq_append q x = Ok q' -> bq_elastic c q k -> Zlen x <= k -> bq_elastic c q' (k - Zlen x);
  bq_elastic_consume : forall c q n q' k, bq_consume q n = Ok q' -> bq_elastic c q k -> bq_elastic c q' k;
  bq_elastic_poke : forall c q off x q' k, bq_poke q off x = Ok q' -> bq_elastic c q k -> bq_elastic c q' k }.

Lemma bq_string_law `{ByteQueueLaws Q} q l : bq_rep q l -> bq_string q = Ok l.
Proof.
  intros Hr. unfold bq_string. destruct (bq_rep_len _ _ Hr) as [-> _].
  rewrite (bq_peek_law _ _ _ _ Hr) by zlen. unfold slice.
  rewrite to_nat_Zlen. cbn [Z.to_nat skipn]. rewrite firstn_all. done.
Qed.

(** ** Slices and splices *)

Lemma slice_app a d c off n : off = Zlen a -> n = Zlen d -> slice (a ++ d ++ c) off n = d.
Proof. intros -> ->. unfold slice. rewrite !to_nat_Zlen, skipn_app_len, firstn_app_len. done. Qed.
Lemma slice_0 l n : slice l 0 n = firstn (Z.to_nat n) l.
Proof. unfold slice. rewrite drop_0. done. Qed.
Lemma Zlen_slice l off n : 0 <= off -> 0 <= n -> off + n <= Zlen l -> Zlen (slice l off n) = n.
Proof. intros. unfold slice. rewrite Zlen_take, Zlen_drop by lia. lia. Qed.
Lemma splice_app a d d' c off : off = Zlen a -> Zlen d' = Zlen d ->
  splice (a ++ d ++ c) off d' = a ++ d' ++ c.
Proof.
  intros -> E. unfold splice. rewrite to_nat_Zlen, firstn_app_len, E.
  rewrite (app_assoc a d c), skipn_Zlen_app; [done|zlen].
Qed.

(** ** The abstract queue: a byte string *)

#[export] Instance list_queue : ByteQueue bytes := {
  bq_new _ := Ok [];
  bq_append l x := if Zlen (l ++ x) <? 2 ^ 31 then Ok (l ++ x) else Undef;
  bq_consume l n := if n <=? Zlen l then if 0 <=? n then Ok (skipn (Z.to_nat n) l) else Undef else Ok l;
  bq_reset _ := [];
  bq_len l := Zlen l;
  bq_peek l off n :=
    if (0 <=? off) && (0 <=? n) && (off + n <=? Zlen l) then Ok (slice l off n) else Undef;
  bq_poke l off x :=
    if (0 <=? off) && (off + Zlen x <=? Zlen l) then Ok (splice l off x) else Undef }.

#[export] Instance list_queue_laws : ByteQueueLaws bytes.
Proof.
  unshelve refine {|
    bq_rep := fun q l => q = l /\ Zlen l < 2 ^ 31;
    bq_room := fun q n => Zlen q + n < 2 ^ 31 |}.
  - intros q l [-> H]; done.
  - intros q l x [-> H] Hr. exists (l ++ x). cbn. rewrite Zlen_app. zbool; [done|lia].
  - intros q l n [-> H] Hn. exists (skipn (Z.to_nat n) l). cbn. zbool; try lia.
    split_and!; [done|done|]. rewrite Zlen_drop; lia.
  - intros q l [-> H]; cbn. split; done.
  - intros q l off n [-> H] ???. cbn. zbool; try lia; done.
  - intros q l off n [-> H] ??. cbn. zbool; try lia; done.
  - intros q l off x [-> H] ??. exists (splice l off x). cbn. zbool; try lia.
    split_and!; [done|done|]. unfold splice. rewrite !Zlen_app, Zlen_take, Zlen_drop; zlen.
  - intros n x Hn Hx. exists [], x. cbn. zbool; [done|lia].
Defined.

#[export] Instance list_queue_packed : ByteQueuePacked bytes.
Proof.
  refine {| bq_packed := fun _ => True |}; [intros n Hn; exists []; done| |done].
  intros q l x Hr _ Hl. destruct (bq_append_law q l x Hr) as (q' & E & Hr').
  - destruct Hr as [-> _]. cbn. lia.
  - exists q'. done.
Defined.

#[export] Instance list_queue_sized : ByteQueueSized bytes.
Proof.
  refine {| bq_sized := fun _ => True; bq_slack := fun q k => Zlen q + k < 2 ^ 31; bq_slack_of := fun n => 2 ^ 30;
            bq_elastic := fun c q k => Zlen q + k <= c < 2 ^ 31 |}.
  - intros n Hn. exists []. split_and!; try done. lia.
  - intros q n _ [-> _] Hn. cbn. zlen.
  - intros q k l n Hk [-> _] Hn. cbn. lia.
  - done.
  - done.
  - done.
  - intros q x q' k E Hk Hx. cbn in E. destruct (_ <? _); [|done]. injection E as <-. rewrite Zlen_app. lia.
  - intros q n q' k E Hk. cbn in E. destruct (_ <=? _); [destruct (0 <=? n) eqn:E0; [|done]|]; injection E as <-; [|done].
    apply Z.leb_le in E0. rewrite Zlen_drop by lia. zlen.
  - intros q off x q' k E Hk. cbn in E. destruct (_ && _) eqn:E0; [|done]. injection E as <-.
    apply andb_true_iff in E0 as [E0 E1]. apply Z.leb_le in E0, E1.
    unfold splice. rewrite !Zlen_app, Zlen_take, Zlen_drop by zlen. zlen.
  - intros n q _ [= <-]. rewrite Zlen_nil. lia.
  - intros c q k H. lia.
  - intros c q k H [-> _]. rewrite Zlen_nil. lia.
  - intros c q x q' k E Hk Hx. cbn in E. destruct (_ <? _); [|done]. injection E as <-. rewrite Zlen_app. lia.
  - intros c q n q' k E Hk. cbn in E. destruct (_ <=? _); [destruct (0 <=? n) eqn:E0; [|done]|]; injection E as <-; [|done].
    apply Z.leb_le in E0. rewrite Zlen_drop by lia. zlen.
  - intros c q off x q' k E Hk. cbn in E. destruct (_ && _) eqn:E0; [|done]. injection E as <-.
    apply andb_true_iff in E0 as [E0 E1]. apply Z.leb_le in E0, E1.
    unfold splice. rewrite !Zlen_app, Zlen_take, Zlen_drop by zlen. zlen.
Defined.

(** ** Runs of operations *)

Inductive bop : Type :=
| BAppend (x : bytes)
| BConsume (n : Z)
| BReset
| BPoke (off : Z) (x : bytes).

Definition bq_exec `{ByteQueue Q} (q : Q) (op : bop) : res Q :=
  match op with
  | BAppend x => bq_append q x
  | BConsume n => bq_consume q n
  | BReset => Ok (bq_reset q)
  | BPoke off x => bq_poke q off x
  end.
Fixpoint bq_run `{ByteQueue Q} (q : Q) (ops : list bop) : res Q :=
  match ops with [] => Ok q | op :: ops' => q' ← bq_exec q op; bq_run q' ops' end.

(** What an operation does to the byte string. *)
Definition abs_exec (l : bytes) (op : bop) : bytes :=
  match op with
  | BAppend x => l ++ x
  | BConsume n => skipn (Z.to_nat n) l
  | BReset => []
  | BPoke off x => splice l off x
  end.

Section runs.
Context `{HQ : ByteQueueLaws Q}.

Definition op_pre (q : Q) (l : bytes) (op : bop) : Prop :=
  match op with
  | BAppend x => bq_room q (Zlen x)
  | BConsume n => 0 <= n <= Zlen l
  | BReset => True
  | BPoke off x => 0 <= off /\ off + Zlen x <= Zlen l
  end.
Fixpoint run_pre (q : Q) (l : bytes) (ops : list bop) : Prop :=
  match ops with
  | [] => True
  | op :: ops' => op_pre q l op /\
      forall q', bq_exec q op = Ok q' -> run_pre q' (abs_exec l op) ops'
  end.

Lemma bq_exec_law q l op : bq_rep q l -> op_pre q l op ->
  exists q', bq_exec q op = Ok q' /\ bq_rep q' (abs_exec l op).
Proof.
  intros Hr Hp. destruct op; cbn in *.
  - apply bq_append_law; done.
  - apply bq_consume_law; done.
  - eexists; split; [done|]. eapply bq_reset_law; done.
  - apply bq_poke_law; tauto.
Qed.

Lemma bq_run_law q l ops : bq_rep q l -> run_pre q l ops ->
  exists q', bq_run q ops = Ok q' /\ bq_rep q' (fold_left abs_exec ops l).
Proof.
  revert q l; induction ops as [|op ops IH]; intros q l Hr Hp; [eauto|].
  destruct Hp as [Hp Hnext]. destruct (bq_exec_law q l op Hr Hp) as (q' & E & Hr').
  destruct (IH q' _ Hr' (Hnext _ E)) as (q'' & E' & Hr''). exists q''. cbn. rewrite E. done.
Qed.
End runs.
