(* ===== verification/DataBuffer.v ===== *)
(** [DataBuffer] ([src/src/utils/data_buffer.hpp]): a growable byte buffer with reserved
    header room, used by every protocol of the library.

    The heap block is a list of cells, [None] while indeterminate ([new char[n]] does not
    initialise).  Every [memcpy] is a checked load and store: an access outside the block,
    a [memcpy] between overlapping ranges and an [int] overflow are [Undef].  [size_t] and
    [int] conversions are written out.  [operator new] fails only for sizes above
    PTRDIFF_MAX; smaller allocations are assumed to succeed. *)
From S2P Require Import Prelude ByteQueue.

Definition EXTRA_LEN : Z := 10 * 1024.
Definition PRE_RESERVE_HEADER_SIZE : Z := 200.

Record DataBuffer : Type := mkDataBuffer {
  sent_flag_ : bool;
  dst_ip_ : bytes;
  dst_port_ : Z;
  buffer_ : mem;
  buffer_size_ : Z;
  data_len_ : Z;
  start_ : Z;
  end_ : Z }.

Definition new_chars (n : Z) : res mem := if n <? 2 ^ 63 then Ok (mem_new n) else Throw BadAlloc.

(** [DataBuffer(size_t data_size)]. *)
Definition DataBuffer_new (data_size : Z) : res DataBuffer :=
  block ← new_chars (u64 (data_size + PRE_RESERVE_HEADER_SIZE));
  block ← mem_store block 0 (replicate (Z.to_nat data_size) (Some 0));
  Ok {| sent_flag_ := false; dst_ip_ := []; dst_port_ := 0;
        buffer_ := block; buffer_size_ := data_size; data_len_ := 0;
        start_ := PRE_RESERVE_HEADER_SIZE; end_ := PRE_RESERVE_HEADER_SIZE |}.

(** The copy constructor and [operator=] (which leaks the previous block): both copy
    [data_len_] bytes from the beginning of the block. *)
Definition DataBuffer_copy (input : DataBuffer) : res DataBuffer :=
  block ← new_chars (u64 (buffer_size_ input + PRE_RESERVE_HEADER_SIZE));
  src ← mem_load (buffer_ input) 0 (data_len_ input);
  block ← mem_store block 0 src;
  Ok {| sent_flag_ := sent_flag_ input; dst_ip_ := dst_ip_ input; dst_port_ := dst_port_ input;
        buffer_ := block; buffer_size_ := buffer_size_ input; data_len_ := data_len_ input;
        start_ := start_ input; end_ := end_ input |}.
Definition DataBuffer_assign (_this input : DataBuffer) : res DataBuffer := DataBuffer_copy input.

Definition set_block (d : DataBuffer) (block : mem) (size len st en : Z) : DataBuffer :=
  {| sent_flag_ := sent_flag_ d; dst_ip_ := dst_ip_ d; dst_port_ := dst_port_ d;
     buffer_ := block; buffer_size_ := size; data_len_ := len; start_ := st; end_ := en |}.

Definition GetNewSize (new_len : Z) : res Z :=
  if new_len <=? 50 * 1024 then Ok (50 * 1024)
  else if (50 * 1024 <? new_len) && (new_len <=? 100 * 1024) then Ok (100 * 1024)
  else if (100 * 1024 <? new_len) && (new_len <=? 200 * 1024) then Ok (200 * 1024)
  else if (200 * 1024 <? new_len) && (new_len <=? 500 * 1024) then Ok (500 * 1024)
  else chk_int (new_len + 10 * 1024).

(** [memcpy(block + dst, block + src, n)] inside one block: undefined when the ranges overlap.
    A copy onto itself is accepted, as the compilers the project supports guarantee. *)
Definition memcpy_within (block : mem) (dst src n : Z) : res mem :=
  if (0 <? Z.abs (dst - src)) && (Z.abs (dst - src) <? n) then Undef
  else tmp ← mem_load block src n; mem_store block dst tmp.

(** [buffer_size_ - PRE_RESERVE_HEADER_SIZE], a [size_t]. *)
Definition limit (d : DataBuffer) : Z := u64 (buffer_size_ d - PRE_RESERVE_HEADER_SIZE).

Definition AppendData (d : DataBuffer) (input_data : bytes) : res (DataBuffer * Z) :=
  let input_len := Zlen input_data in
  if input_len =? 0 then Ok (d, 0)
  else if limit d <? u64 (u64 (end_ d) + input_len) then
    if limit d <=? u64 (u64 (data_len_ d) + input_len) then
      new_len ← chk_int (data_len_ d + s32 input_len);
      new_len ← chk_int (new_len + EXTRA_LEN);
      new_len ← GetNewSize new_len;
      new_buffer ← new_chars (u64 new_len);
      old ← mem_load (buffer_ d) (start_ d) (data_len_ d);
      new_buffer ← mem_store new_buffer PRE_RESERVE_HEADER_SIZE old;
      new_buffer ← mem_store new_buffer (PRE_RESERVE_HEADER_SIZE + data_len_ d) (init input_data);
      len ← chk_int (data_len_ d + s32 input_len);
      e ← chk_int (PRE_RESERVE_HEADER_SIZE + len);
      Ok (set_block d new_buffer new_len len PRE_RESERVE_HEADER_SIZE e, len)
    else
      block ← (if start_ d <=? data_len_ d then
                 temp_p ← mem_load (buffer_ d) (start_ d) (data_len_ d);
                 mem_store (buffer_ d) PRE_RESERVE_HEADER_SIZE temp_p
               else memcpy_within (buffer_ d) PRE_RESERVE_HEADER_SIZE (start_ d) (data_len_ d));
      block ← mem_store block (PRE_RESERVE_HEADER_SIZE + data_len_ d) (init input_data);
      len ← chk_int (data_len_ d + s32 input_len);
      e ← chk_int (PRE_RESERVE_HEADER_SIZE + len);
      Ok (set_block d block (buffer_size_ d) len PRE_RESERVE_HEADER_SIZE e, len)
  else
    block ← mem_store (buffer_ d) (end_ d) (init input_data);
    len ← chk_int (data_len_ d + s32 input_len);
    e ← chk_int (end_ d + s32 input_len);
    Ok (set_block d block (buffer_size_ d) len (start_ d) e, len).

Definition Reset (d : DataBuffer) : DataBuffer :=
  set_block d (buffer_ d) (buffer_size_ d) 0 PRE_RESERVE_HEADER_SIZE PRE_RESERVE_HEADER_SIZE.

(** Returns the new buffer and the pointer as an offset into the block, [None] for [nullptr]. *)
Definition ConsumeData (d : DataBuffer) (consume_len : Z) : res (DataBuffer * option Z) :=
  if data_len_ d <? consume_len then Ok (d, None)
  else
    below ← (if consume_len <? 0 then s ← chk_int (start_ d + consume_len); Ok (s <? 0) else Ok false);
    if (below : bool) then Ok (d, None)
    else
      s ← chk_int (start_ d + consume_len);
      len ← chk_int (data_len_ d - consume_len);
      let d' := set_block d (buffer_ d) (buffer_size_ d) len s (end_ d) in
      let d' := if len =? 0 then Reset d' else d' in
      Ok (d', Some (start_ d')).

Definition DataLen (d : DataBuffer) : Z := u64 (data_len_ d).
Definition Require_ (d : DataBuffer) (len : Z) : bool := s32 len <=? data_len_ d.

Definition GetSentFlag (d : DataBuffer) : bool := sent_flag_ d.
Definition GetDstIp (d : DataBuffer) : bytes := dst_ip_ d.
Definition GetDstPort (d : DataBuffer) : Z := dst_port_ d.
Definition SetSentFlag (d : DataBuffer) (flag : bool) : DataBuffer :=
  mkDataBuffer flag (dst_ip_ d) (dst_port_ d) (buffer_ d) (buffer_size_ d) (data_len_ d) (start_ d) (end_ d).
Definition SetDstIp (d : DataBuffer) (ip : bytes) : DataBuffer :=
  mkDataBuffer (sent_flag_ d) ip (dst_port_ d) (buffer_ d) (buffer_size_ d) (data_len_ d) (start_ d) (end_ d).
Definition SetDstPort (d : DataBuffer) (port : Z) : DataBuffer :=
  mkDataBuffer (sent_flag_ d) (dst_ip_ d) (u16 port) (buffer_ d) (buffer_size_ d) (data_len_ d) (start_ d) (end_ d).

(** Reads and writes through [Data() + off]. *)
Definition peek (d : DataBuffer) (off n : Z) : res bytes :=
  c ← mem_load (buffer_ d) (start_ d + off) n; determinate c.
Definition poke (d : DataBuffer) (off : Z) (x : bytes) : res DataBuffer :=
  block ← mem_store (buffer_ d) (start_ d + off) (init x);
  Ok (set_block d block (buffer_size_ d) (data_len_ d) (start_ d) (end_ d)).

#[export] Instance DataBuffer_queue : ByteQueue DataBuffer := {
  bq_new := DataBuffer_new;
  bq_append d x := r ← AppendData d x; Ok (fst r);
  bq_consume d n := r ← ConsumeData d n; Ok (fst r);
  bq_reset := Reset;
  bq_len := DataLen;
  bq_peek := peek;
  bq_poke := poke }.

(** ** The representation invariant *)

(** The buffer [d] holds exactly the byte string [l], between [start_] and [end_]. *)
Definition rep (d : DataBuffer) (l : bytes) : Prop :=
  (exists a c, buffer_ d = a ++ init l ++ c /\ Zlen a = start_ d) /\
  data_len_ d = Zlen l /\ end_ d = start_ d + Zlen l /\
  0 <= buffer_size_ d <= Zlen (buffer_ d) /\ 200 <= Zlen (buffer_ d) < 2 ^ 31 /\
  buffer_size_ d < 2 ^ 31 /\ end_ d < 2 ^ 31.

(** The compaction branch of [AppendData] runs a [memcpy] between overlapping ranges. *)
Definition overlap_append (d : DataBuffer) (n : Z) : Prop :=
  limit d < end_ d + n /\ data_len_ d + n < limit d /\
  data_len_ d < start_ d /\ 0 < Z.abs (PRE_RESERVE_HEADER_SIZE - start_ d) < data_len_ d.

(** [n] more bytes can be appended: no [int] overflow, no overlapping copy, and in a buffer
    created with fewer than 200 bytes (which never grows) they fit in the block. *)
Definition room (d : DataBuffer) (n : Z) : Prop :=
  data_len_ d + n + 2 * EXTRA_LEN < 2 ^ 31 /\
  (if buffer_size_ d <? PRE_RESERVE_HEADER_SIZE then end_ d + n <= Zlen (buffer_ d)
   else ~ overlap_append d n).

Lemma chk_int_small z : - 2 ^ 31 <= z < 2 ^ 31 -> chk_int z = Ok z.
Proof. apply chk_int_ok. Qed.

Lemma GetNewSize_spec n : 0 <= n < 2 ^ 31 - EXTRA_LEN ->
  exists m, GetNewSize n = Ok m /\ n <= m <= Z.max (51200) (n + 307200) /\ 51200 <= m < 2 ^ 31.
Proof.
  unfold GetNewSize, EXTRA_LEN. intros H. zbool; try lia; try (eexists; split; [done|lia]).
  rewrite chk_int_ok by lia. eexists; split; [done|lia].
Qed.

Lemma new_chars_ok n : 0 <= n < 2 ^ 63 -> new_chars n = Ok (mem_new n).
Proof. intros; unfold new_chars; zbool; [done|lia]. Qed.

Lemma limit_large d : 200 <= buffer_size_ d < 2 ^ 31 -> limit d = buffer_size_ d - 200.
Proof. intros; unfold limit. apply u64_small. unfold PRE_RESERVE_HEADER_SIZE; lia. Qed.
Lemma limit_small d : 0 <= buffer_size_ d < 200 -> limit d = 2 ^ 64 + buffer_size_ d - 200.
Proof.
  intros; unfold limit, u64, PRE_RESERVE_HEADER_SIZE.
  replace (buffer_size_ d - 200) with (2 ^ 64 + buffer_size_ d - 200 + (-1) * 2 ^ 64) by lia.
  rewrite Z.mod_add, Z.mod_small; lia.
Qed.

Section append.
Context (d : DataBuffer) (l x : bytes) (Hrep : rep d l) (Hx : 0 < Zlen x).
Context (Hint : data_len_ d + Zlen x + 2 * EXTRA_LEN < 2 ^ 31).

(** The three branches of [AppendData], each ending in a buffer holding [l ++ x]. *)
Lemma append_in_place :
  end_ d + Zlen x <= Zlen (buffer_ d) -> end_ d + Zlen x < 2 ^ 31 ->
  exists d', (block ← mem_store (buffer_ d) (end_ d) (init x);
    len ← chk_int (data_len_ d + s32 (Zlen x));
    e ← chk_int (end_ d + s32 (Zlen x));
    Ok (set_block d block (buffer_size_ d) len (start_ d) e, len)) = Ok (d', Zlen (l ++ x)) /\
    rep d' (l ++ x).
Proof.
  intros H1 H2. destruct Hrep as ((a & c & Eb & Ea) & El & Ee & Hs & Hb & Hs' & Hend).
  unfold EXTRA_LEN in Hint.
  assert (Hc : Zlen x <= Zlen c) by (rewrite Eb in H1; zlen).
  destruct (mem_split c 0 (Zlen x)) as (c0 & c1 & c2 & -> & Hc0 & Hc1); [lia..|].
  apply Zlen_0_nil in Hc0 as ->. cbn [app] in *.
  rewrite Eb, app_assoc, mem_store_app by (rewrite ?Zlen_init; zlen).
  rewrite s32_small, !chk_int_ok, !bind_Ok by zlen.
  eexists; split; [do 2 f_equal; zlen|]. unfold rep. cbn [set_block buffer_ data_len_ end_ start_ buffer_size_].
  assert (HB : Zlen ((a ++ init l) ++ init x ++ c2) = Zlen (buffer_ d)) by (rewrite Eb; zlen).
  rewrite HB. split_and!; try zlen.
  exists a, c2. split; [|done]. unfold init. rewrite map_app, <- !app_assoc. done.
Qed.

(** Copying the contents to the start of a block with enough space, then appending. *)
Lemma append_moved (block old : mem) size :
  0 <= size <= Zlen block -> 200 <= Zlen block < 2 ^ 31 -> size < 2 ^ 31 ->
  200 + Zlen l + Zlen x <= Zlen block ->
  old = init l ->
  exists d', (block1 ← mem_store block PRE_RESERVE_HEADER_SIZE old;
    block2 ← mem_store block1 (PRE_RESERVE_HEADER_SIZE + data_len_ d) (init x);
    len ← chk_int (data_len_ d + s32 (Zlen x));
    e ← chk_int (PRE_RESERVE_HEADER_SIZE + len);
    Ok (set_block d block2 size len PRE_RESERVE_HEADER_SIZE e, len)) = Ok (d', Zlen (l ++ x)) /\
    rep d' (l ++ x).
Proof.
  intros H1 H2 Hsz H3 ->. destruct Hrep as (_ & El & _). unfold EXTRA_LEN in Hint.
  destruct (mem_split block 200 (Zlen l)) as (a & m & c & -> & Ha & Hm); [zlen..|].
  destruct (mem_split c 0 (Zlen x)) as (c0 & c1 & c2 & -> & Hc0 & Hc1); [zlen..|].
  apply Zlen_0_nil in Hc0 as ->. cbn [app] in *. unfold PRE_RESERVE_HEADER_SIZE.
  rewrite mem_store_app, bind_Ok by (rewrite ?Zlen_init; zlen).
  rewrite app_assoc, mem_store_app, bind_Ok by (rewrite ?Zlen_init; zlen).
  rewrite s32_small, (chk_int_ok (data_len_ d + Zlen x)), bind_Ok by zlen.
  rewrite chk_int_ok, bind_Ok by zlen.
  eexists; split; [do 2 f_equal; zlen|]. unfold rep. cbn [set_block buffer_ data_len_ end_ start_ buffer_size_].
  split_and!; try zlen. exists a, c2. split; [|done]. unfold init. rewrite map_app, <- !app_assoc. done.
Qed.
End append.

Lemma rep_load d l : rep d l -> mem_load (buffer_ d) (start_ d) (data_len_ d) = Ok (init l).
Proof.
  intros ((a & c & Eb & Ea) & El & _). rewrite Eb. apply mem_load_app; [done|zlen].
Qed.

Lemma AppendData_ok d l x : rep d l -> room d (Zlen x) ->
  exists d' n, AppendData d x = Ok (d', n) /\ rep d' (l ++ x) /\
    n = (if Zlen x =? 0 then 0 else Zlen (l ++ x)).
Proof.
  intros Hrep [Hint Hroom]. unfold AppendData. pose proof Hrep as (_ & El & Ee & Hs & Hb & Hs' & Hend).
  destruct (Z.eqb_spec (Zlen x) 0) as [E0|Hx].
  { apply Zlen_0_nil in E0 as ->. rewrite app_nil_r. eauto. }
  assert (Hx' : 0 < Zlen x) by zlen. unfold EXTRA_LEN in Hint.
  assert (Hstart : 0 <= start_ d) by (destruct Hrep as ((a & c & _ & <-) & _); zlen).
  rewrite !(u64_small (end_ d)), !(u64_small (data_len_ d)) by zlen. rewrite !u64_small by zlen.
  destruct (Z.ltb_spec (buffer_size_ d) PRE_RESERVE_HEADER_SIZE) as [Hsm|Hbig];
    unfold PRE_RESERVE_HEADER_SIZE in Hsm || unfold PRE_RESERVE_HEADER_SIZE in Hbig.
  - rewrite limit_small by lia. rewrite (proj2 (Z.ltb_ge _ _)) by lia.
    destruct (append_in_place d l x Hrep Hx') as (d' & E & Hd'); [unfold EXTRA_LEN; lia|lia|lia|].
    exists d', (Zlen (l ++ x)). split_and!; [exact E|exact Hd'|done].
  - rewrite limit_large by lia.
    destruct (Z.ltb_spec (buffer_size_ d - 200) (end_ d + Zlen x));
      [destruct (Z.leb_spec (buffer_size_ d - 200) (data_len_ d + Zlen x))|].
    + rewrite s32_small, chk_int_ok, bind_Ok by zlen.
      unfold EXTRA_LEN. change (10 * 1024) with 10240. rewrite chk_int_ok, bind_Ok by zlen.
      destruct (GetNewSize_spec (data_len_ d + Zlen x + 10240)) as (m & -> & Hm1 & Hm2);
        [unfold EXTRA_LEN; zlen|]. rewrite bind_Ok, u64_small, new_chars_ok, bind_Ok by lia.
      rewrite (rep_load _ _ Hrep), bind_Ok.
      destruct (append_moved d l x Hrep Hx' Hint (mem_new m) (init l) m) as (d' & E & Hd').
      1-5: unfold mem_new; rewrite ?Zlen_replicate; zlen.
      1: done.
      exists d', (Zlen (l ++ x)). rewrite s32_small, chk_int_ok in E by zlen. split_and!; [exact E|exact Hd'|done].
    + assert (Hmv : (if start_ d <=? data_len_ d then
                 temp_p ← mem_load (buffer_ d) (start_ d) (data_len_ d);
                 mem_store (buffer_ d) PRE_RESERVE_HEADER_SIZE temp_p
               else memcpy_within (buffer_ d) PRE_RESERVE_HEADER_SIZE (start_ d) (data_len_ d)) =
              mem_store (buffer_ d) PRE_RESERVE_HEADER_SIZE (init l)).
      { destruct (Z.leb_spec (start_ d) (data_len_ d)); [rewrite (rep_load _ _ Hrep); done|].
        unfold memcpy_within. destruct (_ && _) eqn:E; [|rewrite (rep_load _ _ Hrep); done].
        exfalso. apply Hroom. apply andb_true_iff in E as [E1 E2].
        apply Z.ltb_lt in E1, E2. unfold overlap_append. rewrite limit_large by lia. lia. }
      rewrite Hmv. destruct (append_moved d l x Hrep Hx' Hint (buffer_ d) (init l) (buffer_size_ d))
        as (d' & E & Hd'); [zlen..|done|].
      exists d', (Zlen (l ++ x)). split_and!; [exact E|exact Hd'|done].
    + destruct (append_in_place d l x Hrep Hx') as (d' & E & Hd'); [unfold EXTRA_LEN; lia|lia|lia|].
      exists d', (Zlen (l ++ x)). split_and!; [exact E|exact Hd'|done].
Qed.

(** ** The other operations *)

Lemma Reset_ok' d : 0 <= buffer_size_ d <= Zlen (buffer_ d) -> 200 <= Zlen (buffer_ d) < 2 ^ 31 ->
  buffer_size_ d < 2 ^ 31 -> rep (Reset d) [].
Proof.
  intros H1 H2 H3. unfold rep, Reset, PRE_RESERVE_HEADER_SIZE.
  cbn [set_block buffer_ data_len_ end_ start_ buffer_size_].
  destruct (mem_split (buffer_ d) 200 0) as (b & e & f & E & Hb & He); [lia..|].
  apply Zlen_0_nil in He as ->. change (Zlen (@nil Z)) with 0. split_and!; try lia. exists b, f. done.
Qed.

Lemma ConsumeData_ok d l n : rep d l -> 0 <= n <= Zlen l ->
  exists d', ConsumeData d n = Ok (d', Some (start_ d')) /\ rep d' (skipn (Z.to_nat n) l).
Proof.
  intros ((a & c & Eb & Ea) & El & Ee & Hs & Hb & Hs' & Hend) Hn. unfold ConsumeData.
  rewrite (proj2 (Z.ltb_ge _ _)), (proj2 (Z.ltb_ge n 0)), bind_Ok by lia.
  rewrite !chk_int_ok, !bind_Ok by zlen. eexists; split; [done|].
  rewrite <- (firstn_skipn (Z.to_nat n) l) in Eb.
  set (r := skipn (Z.to_nat n) l) in *.
  assert (Hr : Zlen r = Zlen l - n) by (unfold r; rewrite Zlen_drop; lia).
  unfold init in Eb. rewrite map_app, <- app_assoc in Eb.
  destruct (Z.eqb_spec (data_len_ d - n) 0) as [E0|E0].
  - assert (r = []) as -> by (apply Zlen_0_nil; lia).
    apply (Reset_ok' (set_block d (buffer_ d) (buffer_size_ d) (data_len_ d - n) (start_ d + n) (end_ d)));
      cbn [set_block buffer_ buffer_size_]; done.
  - unfold rep. cbn [set_block buffer_ data_len_ end_ start_ buffer_size_]. split_and!; try zlen.
    exists (a ++ init (firstn (Z.to_nat n) l)), c. rewrite <- app_assoc. split; [exact Eb|].
    rewrite Zlen_app, Zlen_init, Zlen_take by lia. lia.
Qed.

Lemma Reset_ok d l : rep d l -> rep (Reset d) [].
Proof. intros (_ & _ & _ & Hs & Hb & Hs' & _). apply Reset_ok'; done. Qed.

(** The two refusals: consuming more than there is, and giving back more than the header
    room, leave the buffer unchanged and return the null pointer. *)
Lemma ConsumeData_refused d n :
  (data_len_ d < n \/ (n < 0 /\ - 2 ^ 31 <= start_ d + n < 0 /\ 0 <= data_len_ d)) ->
  ConsumeData d n = Ok (d, None).
Proof.
  unfold ConsumeData. intros [H|(H1 & H2 & H3)].
  - rewrite (proj2 (Z.ltb_lt _ _)) by done. done.
  - rewrite (proj2 (Z.ltb_ge _ _)), (proj2 (Z.ltb_lt n 0)) by lia.
    rewrite (chk_int_ok (start_ d + n)), !bind_Ok by lia. rewrite (proj2 (Z.ltb_lt _ 0)) by lia. done.
Qed.

Lemma peek_ok d l off n : rep d l -> 0 <= off -> 0 <= n -> off + n <= Zlen l ->
  peek d off n = Ok (slice l off n).
Proof.
  intros ((a & c & Eb & Ea) & _) H1 H2 H3. unfold peek.
  set (p := firstn (Z.to_nat off) l). set (q := skipn (Z.to_nat n) (skipn (Z.to_nat off) l)).
  assert (El : l = p ++ slice l off n ++ q) by (unfold p, q, slice; rewrite !firstn_skipn; done).
  rewrite Eb, El at 1. unfold init. rewrite !map_app, <- !app_assoc, app_assoc.
  rewrite mem_load_app, bind_Ok; [apply determinate_init|..].
  - unfold p. rewrite Zlen_app, Zlen_map, Zlen_take by lia. lia.
  - rewrite Zlen_map. unfold slice. rewrite Zlen_take, Zlen_drop by lia. lia.
Qed.

Lemma poke_ok d l off x : rep d l -> 0 <= off -> off + Zlen x <= Zlen l ->
  exists d', poke d off x = Ok d' /\ rep d' (splice l off x).
Proof.
  intros ((a & c & Eb & Ea) & El & Ee & Hs & Hb & Hs' & Hend) H1 H2. unfold poke.
  set (p := firstn (Z.to_nat off) l) in *.
  set (m := slice l off (Zlen x)). set (q := skipn (Z.to_nat (Zlen x)) (skipn (Z.to_nat off) l)).
  assert (E : l = p ++ m ++ q) by (unfold p, q, m, slice; rewrite !firstn_skipn; done).
  assert (Hm : Zlen m = Zlen x).
  { unfold m, slice. rewrite Zlen_take, Zlen_drop; zlen. }
  assert (Hp : Zlen p = off) by (unfold p; rewrite Zlen_take; zlen).
  assert (Hq : splice l off x = p ++ x ++ q).
  { rewrite E, splice_app; [done|lia|lia]. }
  rewrite Hq. rewrite E in Eb. unfold init in Eb. rewrite !map_app, <- !app_assoc, app_assoc in Eb.
  rewrite Eb, mem_store_app, bind_Ok by (rewrite ?Zlen_init, ?Zlen_app, ?Zlen_map; lia).
  eexists; split; [done|]. unfold rep. cbn [set_block buffer_ data_len_ end_ start_ buffer_size_].
  assert (HL : Zlen l = Zlen (p ++ x ++ q)) by (rewrite E, !Zlen_app; lia).
  assert (HB : Zlen ((a ++ map Some p) ++ init x ++ map Some q ++ c) = Zlen (buffer_ d)).
  { rewrite Eb, !Zlen_app, !Zlen_map, Zlen_init. lia. }
  rewrite HB, <- HL. split_and!; try lia.
  exists a, c. split; [|done]. unfold init. rewrite !map_app, <- !app_assoc. done.
Qed.

(** A fresh buffer for [n] bytes. *)
Lemma DataBuffer_new_ok n : 0 <= n < 2 ^ 30 ->
  exists d, DataBuffer_new n = Ok d /\ rep d [] /\ buffer_size_ d = n /\ data_len_ d = 0 /\
    start_ d = 200 /\ Zlen (buffer_ d) = n + 200.
Proof.
  intros H. unfold DataBuffer_new, PRE_RESERVE_HEADER_SIZE.
  rewrite u64_small, new_chars_ok, bind_Ok by lia.
  assert (Hl : Zlen (mem_new (n + 200)) = n + 200) by (unfold mem_new; rewrite Zlen_replicate; lia).
  destruct (mem_split (mem_new (n + 200)) 0 n) as (a & m & c & E & Ha & Hm); [lia..|].
  apply Zlen_0_nil in Ha as ->. rewrite E, mem_store_app, bind_Ok by (rewrite ?Zlen_replicate; zlen).
  eexists; split; [done|].
  assert (HB : Zlen (replicate (Z.to_nat n) (Some 0) ++ c) = n + 200).
  { rewrite <- Hl, E. cbn [app]. rewrite !Zlen_app, Zlen_replicate. lia. }
  cbn [buffer_ data_len_ end_ start_ buffer_size_ app]. split_and!; try done; unfold rep;
    cbn [buffer_ data_len_ end_ start_ buffer_size_].
  destruct (mem_split (replicate (Z.to_nat n) (Some 0) ++ c) 200 0) as (b & e & f & E' & Hb & He); [lia..|].
  apply Zlen_0_nil in He as ->. rewrite HB. change (Zlen (@nil Z)) with 0. split_and!; try lia.
  exists b, f. done.
Qed.

(** The pattern [DataBuffer b(n); b.AppendData(data, len)] with [len <= n]: whatever the size,
    the buffer then holds exactly the data. *)
Lemma DataBuffer_fill_ok n x : 0 <= n < 2 ^ 30 -> Zlen x <= n ->
  exists d d' k, DataBuffer_new n = Ok d /\ AppendData d x = Ok (d', k) /\ rep d' x.
Proof.
  intros Hn Hx. destruct (DataBuffer_new_ok n Hn) as (d & E & Hrep & Hsz & Hlen & Hst & Hbl).
  destruct (AppendData_ok d [] x Hrep) as (d' & k & E' & Hrep' & _).
  - split; [rewrite Hlen; unfold EXTRA_LEN; lia|]. rewrite Hsz. unfold PRE_RESERVE_HEADER_SIZE.
    destruct Hrep as (_ & _ & He & _). change (Zlen (@nil Z)) with 0 in He.
    destruct (Z.ltb_spec n 200); [lia|]. unfold overlap_append. lia.
  - exists d, d', k. done.
Qed.

(** Discharging the interface: [DataBuffer] keeps exactly the byte string its operations
    describe, on every branch of [AppendData] (append in place, compaction, growth). *)
#[export] Instance DataBuffer_queue_laws : ByteQueueLaws DataBuffer.
Proof.
  unshelve refine {| bq_rep := rep; bq_room := room |}.
  - intros d l (H1 & El & Ee & Hs & Hb & Hs' & Hend). cbn. unfold DataLen.
    assert (0 <= start_ d) by (destruct H1 as (a & ? & _ & <-); zlen).
    rewrite u64_small; zlen.
  - intros d l x Hr Hroom. destruct (AppendData_ok d l x Hr Hroom) as (d' & n & E & Hr' & _).
    exists d'. cbn. rewrite E. done.
  - intros d l n Hr Hn. destruct (ConsumeData_ok d l n Hr Hn) as (d' & E & Hr').
    exists d'. cbn. rewrite E. done.
  - exact Reset_ok.
  - exact peek_ok.
  - intros d l off n ((a & c & _ & Ha) & _ & _ & _ & Hb & _) H0 Hn. cbn. unfold peek, mem_load.
    rewrite (proj2 (Z.leb_gt (start_ d + off + n) _)), andb_false_r by zlen. done.
  - exact poke_ok.
  - intros n x Hn Hx. destruct (DataBuffer_fill_ok n x Hn Hx) as (d & d' & k & E & E' & Hr).
    exists d, d'. cbn. rewrite E'. done.
Defined.

(** A buffer that was only appended to keeps its contents right after the reserved header. *)
Definition packed (d : DataBuffer) : Prop :=
  start_ d = PRE_RESERVE_HEADER_SIZE /\ PRE_RESERVE_HEADER_SIZE <= buffer_size_ d.

Lemma GetNewSize_large n m : GetNewSize n = Ok m -> 51200 <= m.
Proof.
  unfold GetNewSize. zbool; intros E; try (injection E as <-; lia); try lia.
  unfold chk_int in E. destruct (int_range _); [|discriminate]. injection E as <-. lia.
Qed.

Lemma AppendData_packed d x d' n : AppendData d x = Ok (d', n) -> packed d -> packed d'.
Proof.
  unfold AppendData, packed. intros H [H1 H2].
  destruct (_ =? 0); [injection H as <- _; done|].
  destruct (_ <? _); [destruct (_ <=? _)|].
  - destruct (chk_int _); [|done..]. rewrite bind_Ok in H. destruct (chk_int _); [|done..]. rewrite bind_Ok in H.
    destruct (GetNewSize _) as [m| |] eqn:Em; [|done..]. apply GetNewSize_large in Em.
    rewrite bind_Ok in H. res_inv H. intros; subst d'. cbn [set_block start_ buffer_size_].
    unfold PRE_RESERVE_HEADER_SIZE. lia.
  - res_inv H. all: intros; subst d'; cbn [set_block start_ buffer_size_]; done.
  - res_inv H. intros; subst d'. cbn [set_block start_ buffer_size_]. done.
Qed.

#[export] Instance DataBuffer_queue_packed : ByteQueuePacked DataBuffer.
Proof.
  refine {| bq_packed := packed |}.
  - intros n Hn. destruct (DataBuffer_new_ok n) as (d & E & Hrep & Hsz & Hlen & Hst & Hbl); [lia|].
    exists d. split_and!; [done|done|]. split; [done|]. rewrite Hsz. unfold PRE_RESERVE_HEADER_SIZE. lia.
  - intros d l x Hr Hp Hl. destruct (AppendData_ok d l x Hr) as (d' & n & E & Hr' & _).
    { destruct Hr as (_ & El & _). destruct Hp as [H1 H2]. unfold PRE_RESERVE_HEADER_SIZE in *. split.
      - unfold EXTRA_LEN. lia.
      - rewrite (proj2 (Z.ltb_ge _ _)) by (unfold PRE_RESERVE_HEADER_SIZE; lia).
        unfold overlap_append, PRE_RESERVE_HEADER_SIZE. lia. }
    exists d'. split_and!; [cbn; rewrite E; done|done|]. eapply AppendData_packed; done.
  - intros d l Hr [H1 H2]. split; [done|exact H2].
Defined.

(** The size of the block never shrinks, and a block that is large enough is not moved. *)
Definition sized (d : DataBuffer) : Prop := PRE_RESERVE_HEADER_SIZE <= buffer_size_ d.
Definition slack (d : DataBuffer) (k : Z) : Prop :=
  PRE_RESERVE_HEADER_SIZE <= buffer_size_ d < 2 ^ 30 /\ PRE_RESERVE_HEADER_SIZE <= end_ d /\
  end_ d + k <= buffer_size_ d - PRE_RESERVE_HEADER_SIZE.

Lemma AppendData_sized d x d' n : AppendData d x = Ok (d', n) -> sized d -> sized d'.
Proof.
  unfold AppendData, sized. intros H H1.
  destruct (_ =? 0); [injection H as <- _; done|].
  destruct (_ <? _); [destruct (_ <=? _)|].
  - destruct (chk_int _); [|done..]. rewrite bind_Ok in H. destruct (chk_int _); [|done..]. rewrite bind_Ok in H.
    destruct (GetNewSize _) as [m| |] eqn:Em; [|done..]. apply GetNewSize_large in Em.
    rewrite bind_Ok in H. res_inv H. intros; subst d'. cbn [set_block buffer_size_].
    unfold PRE_RESERVE_HEADER_SIZE. lia.
  - res_inv H. all: intros; subst d'; cbn [set_block buffer_size_]; done.
  - res_inv H. intros; subst d'. cbn [set_block buffer_size_]. done.
Qed.

Lemma AppendData_slack d x d' n k : AppendData d x = Ok (d', n) -> slack d k -> Zlen x <= k -> slack d' (k - Zlen x).
Proof.
  unfold slack, PRE_RESERVE_HEADER_SIZE. intros H (H1 & H2 & H3) Hx. pose proof (Zlen_nonneg x). unfold AppendData in H.
  destruct (Z.eqb_spec (Zlen x) 0); [injection H as <- _; lia|].
  rewrite limit_large, (u64_small (end_ d)), u64_small, (proj2 (Z.ltb_ge _ _)) in H by lia.
  destruct (mem_store _ _ _); [|done..]. rewrite bind_Ok in H. destruct (chk_int (data_len_ d + _)); [|done..].
  rewrite bind_Ok, s32_small, chk_int_ok, bind_Ok in H by lia. injection H as <- _. cbn [set_block buffer_size_ end_]. lia.
Qed.

Lemma ConsumeData_fields d n d' p : ConsumeData d n = Ok (d', p) ->
  buffer_size_ d' = buffer_size_ d /\ (end_ d' = end_ d \/ end_ d' = PRE_RESERVE_HEADER_SIZE).
Proof.
  unfold ConsumeData. intros H. destruct (_ <? _); [injection H as <- _; auto|].
  match type of H with mbind _ ?m = _ => destruct m as [[]| |] end; cbn [mbind res_bind] in H; try discriminate H.
  { injection H as <- _. auto. }
  do 2 (match type of H with mbind _ ?m = _ => destruct m end; cbn [mbind res_bind] in H; try discriminate H).
  injection H as <- _. destruct (_ =? 0); (split; [done|]); [by right|by left].
Qed.

(** All of the block behind the reserved header, once the buffer is empty. *)
Definition elastic (c : Z) (d : DataBuffer) (k : Z) : Prop :=
  slack d k /\ c = buffer_size_ d - 2 * PRE_RESERVE_HEADER_SIZE /\ 0 <= data_len_ d /\ (data_len_ d = 0 -> end_ d = PRE_RESERVE_HEADER_SIZE).

Lemma AppendData_elastic c d x d' n k : AppendData d x = Ok (d', n) -> elastic c d k -> Zlen x <= k -> elastic c d' (k - Zlen x).
Proof.
  intros H (Hs & Hc & Hl & He) Hx. split; [by eapply AppendData_slack|]. pose proof Hs as (H1 & H2 & H3). pose proof (Zlen_nonneg x).
  unfold PRE_RESERVE_HEADER_SIZE in *. unfold AppendData in H. destruct (Z.eqb_spec (Zlen x) 0); [injection H as <- _; done|].
  rewrite limit_large, (u64_small (end_ d)), u64_small, (proj2 (Z.ltb_ge _ _)) in H by (unfold PRE_RESERVE_HEADER_SIZE; lia).
  destruct (mem_store _ _ _); [|done..]. rewrite bind_Ok, s32_small in H by lia.
  destruct (chk_int (data_len_ d + _)) as [m| |] eqn:Em; [|done..]. rewrite bind_Ok, chk_int_ok, bind_Ok in H by lia. injection H as <- _.
  assert (m = data_len_ d + Zlen x) as -> by (unfold chk_int in Em; destruct (int_range _); congruence).
  cbn [set_block buffer_size_ data_len_ end_]. split_and!; [done|lia|lia].
Qed.
Lemma ConsumeData_elastic c d n d' p k : ConsumeData d n = Ok (d', p) -> elastic c d k -> elastic c d' k.
Proof.
  intros H (Hs & Hc & Hl & He). pose proof (ConsumeData_fields _ _ _ _ H) as [Eb Ee]. unfold elastic, slack, PRE_RESERVE_HEADER_SIZE in *.
  rewrite Eb. split; [lia|]. split; [done|]. unfold ConsumeData in H. destruct (Z.ltb_spec (data_len_ d) n); [injection H as <- _; done|].
  match type of H with mbind _ ?m = _ => destruct m as [[]| |] end; cbn [mbind res_bind] in H; try discriminate H; [injection H as <- _; done|].
  destruct (chk_int (start_ d + n)); [|done..]. cbn [mbind res_bind] in H. destruct (chk_int (data_len_ d - n)) as [m| |] eqn:Em; [|done..].
  cbn [mbind res_bind] in H. injection H as <- _. assert (m = data_len_ d - n) as -> by (unfold chk_int in Em; destruct (int_range _); congruence).
  destruct (Z.eqb_spec (data_len_ d - n) 0) as [E|E]; cbn [Reset set_block data_len_ end_]; unfold PRE_RESERVE_HEADER_SIZE; lia.
Qed.

Lemma new_sized n : 400 <= n < 2 ^ 30 ->
  exists d, DataBuffer_new n = Ok d /\ rep d [] /\ sized d /\ slack d (n - 400) /\ n - 400 <= n - 400.
Proof.
  intros Hn. destruct (DataBuffer_new_ok n) as (d & E & Hr & Hsz & Hlen & Hst & _); [lia|].
  pose proof Hr as (_ & _ & He & _). rewrite Hst, Zlen_nil in He.
  exists d. unfold sized, slack, PRE_RESERVE_HEADER_SIZE. split_and!; try done; lia.
Qed.

Lemma rep_start d l : rep d l -> 0 <= start_ d.
Proof. intros ((a & c & _ & <-) & _). apply Zlen_nonneg. Qed.

Lemma slack_room d k l n : slack d k -> rep d l -> 0 <= n <= k -> room d n.
Proof.
  intros (H1 & H2 & H3) Hr Hn. pose proof (rep_start d l Hr). destruct Hr as (_ & El & Ee & _).
  unfold PRE_RESERVE_HEADER_SIZE in *. split; [unfold EXTRA_LEN; lia|]. unfold PRE_RESERVE_HEADER_SIZE.
  rewrite (proj2 (Z.ltb_ge _ _)) by lia. unfold overlap_append. rewrite limit_large by lia. lia.
Qed.

#[export] Instance DataBuffer_queue_sized : ByteQueueSized DataBuffer.
Proof.
  refine {| bq_sized := sized; bq_slack := slack; bq_slack_of := fun n => n - 400; bq_elastic := elastic |};
    cbn [bq_new bq_append bq_consume bq_reset bq_poke DataBuffer_queue].
  - exact new_sized.
  - intros d n Hs (_ & El & _) Hn. unfold sized in Hs. rewrite Zlen_nil in El. split; [unfold EXTRA_LEN; lia|].
    rewrite (proj2 (Z.ltb_ge _ _)) by done. unfold overlap_append. rewrite El. lia.
  - exact slack_room.
  - intros d x d' E. destruct (AppendData d x) as [[d1 n]| |] eqn:Ea; [|done..]. injection E as <-. by eapply AppendData_sized.
  - intros d n d' E. destruct (ConsumeData d n) as [[d1 p]| |] eqn:Ea; [|done..]. injection E as <-.
    apply ConsumeData_fields in Ea as [Ea _]. unfold sized. cbn [fst]. by rewrite Ea.
  - intros d H. exact H.
  - intros d x d' k E. destruct (AppendData d x) as [[d1 n]| |] eqn:Ea; [|done..]. injection E as <-. by eapply AppendData_slack.
  - intros d n d' k E. destruct (ConsumeData d n) as [[d1 p]| |] eqn:Ea; [|done..]. injection E as <-.
    apply ConsumeData_fields in Ea as [Ea Ee]. unfold slack, PRE_RESERVE_HEADER_SIZE in *. cbn [fst]. rewrite Ea. lia.
  - intros d off x d' k E. unfold poke in E. destruct (mem_store _ _ _); [|done..]. injection E as <-. done.
  - intros n d Hn E. destruct (DataBuffer_new_ok n) as (d0 & E0 & Hr & Hsz & Hlen & Hst & _); [lia|]. rewrite E in E0. injection E0 as <-.
    destruct (new_sized n Hn) as (d0 & E0 & _ & _ & Hs & _). rewrite E in E0. injection E0 as <-.
    destruct Hr as (_ & _ & He & _). rewrite Hst, Zlen_nil in He. unfold elastic, PRE_RESERVE_HEADER_SIZE. split_and!; [apply Hs..|lia|lia|lia].
  - intros c d k [H _]. exact H.
  - intros c d k (Hs & Hc & Hl & He) (_ & El & _). rewrite Zlen_nil in El. specialize (He El).
    unfold elastic, slack, PRE_RESERVE_HEADER_SIZE in *. lia.
  - intros c d x d' k E. destruct (AppendData d x) as [[d1 n]| |] eqn:Ea; [|done..]. injection E as <-. by eapply AppendData_elastic.
  - intros c d n d' k E. destruct (ConsumeData d n) as [[d1 p]| |] eqn:Ea; [|done..]. injection E as <-. by eapply ConsumeData_elastic.
  - intros c d off x d' k E. unfold poke in E. destruct (mem_store _ _ _); [|done..]. injection E as <-. done.
Defined.

(** ** Refinement of the byte string, and the defects of the buffer *)

(** C1: any run of appends, consumes, resets and in-place writes, each with its documented
    precondition, succeeds on the code's buffer, and what [Data()]/[DataLen()] then show is
    what the same operations do to a plain byte string. *)
Theorem DataBuffer_refines_bytes (d : DataBuffer) (l : bytes) (ops : list bop)
  (Hrep : rep d l) (Hpre : run_pre d l ops) :
  exists d', bq_run d ops = Ok d' /\ bq_string d' = Ok (fold_left abs_exec ops l) /\
    DataLen d' = Zlen (fold_left abs_exec ops l).
Proof.
  destruct (bq_run_law (HQ := DataBuffer_queue_laws) d l ops Hrep Hpre) as (d' & E & Hr). exists d'.
  split_and!; [done|apply bq_string_law; done|]. apply (bq_rep_len d' _ Hr).
Qed.

(** The copy constructor copies from the beginning of the block although the data starts
    after the reserved header: copying a buffer that was only appended to, with at most 200
    bytes, yields a buffer of the same length whose contents are indeterminate. *)
Lemma DataBuffer_copy_loses_data (d c : DataBuffer) (l : bytes)
  (Hrep : rep d l) (Hst : start_ d = PRE_RESERVE_HEADER_SIZE) (Hl : 0 < Zlen l <= 200)
  (Hc : DataBuffer_copy d = Ok c) : DataLen c = Zlen l /\ bq_string c = Undef.
Proof.
  destruct Hrep as ((a & r & Eb & Ea) & El & Ee & Hs & Hb & Hs' & Hend).
  unfold DataBuffer_copy, PRE_RESERVE_HEADER_SIZE in *.
  rewrite u64_small, new_chars_ok, bind_Ok in Hc by lia.
  assert (Hload : exists s, mem_load (buffer_ d) 0 (data_len_ d) = Ok s /\ Zlen s = Zlen l).
  { unfold mem_load. zbool; try lia. eexists; split; [done|]. rewrite Zlen_take, Zlen_drop by lia. lia. }
  destruct Hload as (s & Es & Hls). rewrite Es, bind_Ok in Hc.
  unfold mem_new, mem_store in Hc. rewrite Zlen_replicate in Hc.
  destruct (_ && _) in Hc; [|discriminate]. cbn [mbind res_bind] in Hc. injection Hc as <-.
  unfold bq_string. cbn [bq_peek bq_len DataBuffer_queue]. unfold DataLen, peek.
  cbn [data_len_ buffer_ start_]. rewrite u64_small by lia. split; [done|].
  rewrite Hst, El, Z.add_0_r. unfold mem_load. destruct (_ && _) eqn:Ec; [|done]. cbn [mbind res_bind].
  assert (0 < buffer_size_ d).
  { apply andb_true_iff in Ec as [_ Ec%Z.leb_le]. rewrite !Zlen_app, Zlen_drop, Zlen_replicate in Ec by lia.
    cbn [Z.to_nat firstn] in Ec. zlen. }
  cbn [Z.to_nat firstn app]. rewrite Z.add_0_l, Hls.
  rewrite skipn_app, (skipn_all2 s) by (unfold Zlen in *; lia). cbn [app].
  rewrite !drop_replicate.
  destruct (Z.to_nat (Zlen l)) as [|k] eqn:Ek; [lia|].
  destruct (_ - _ - _)%nat eqn:En; [|done]. exfalso. unfold Zlen in *; lia.
Qed.

(** The compaction branch is undefined behaviour exactly when the copied ranges overlap: the
    test that chooses between the direct copy and the copy through a temporary compares the
    length with [start_], not with the distance between the ranges. *)
Theorem AppendData_overlapping_copy (d : DataBuffer) (l x : bytes)
  (Hrep : rep d l) (Hsz : PRE_RESERVE_HEADER_SIZE <= buffer_size_ d) (Hx : 0 < Zlen x < 2 ^ 31)
  (Hov : overlap_append d (Zlen x)) : AppendData d x = Undef.
Proof.
  destruct Hrep as ((a & r & Eb & Ea) & El & Ee & Hs & Hb & Hs' & Hend).
  destruct Hov as (H1 & H2 & H3 & H4). unfold AppendData, PRE_RESERVE_HEADER_SIZE in *.
  rewrite limit_large in * by lia.
  rewrite (proj2 (Z.eqb_neq _ _)), !(u64_small (end_ d)), !(u64_small (data_len_ d)) by zlen.
  rewrite !u64_small, (proj2 (Z.ltb_lt _ _)), (proj2 (Z.leb_gt _ _)) by zlen.
  rewrite (proj2 (Z.leb_gt _ _)) by lia. unfold memcpy_within.
  rewrite (proj2 (Z.ltb_lt 0 _)), (proj2 (Z.ltb_lt _ (data_len_ d))) by lia. done.
Qed.

Definition small_buffer : res DataBuffer := d ← DataBuffer_new 10; bq_append d (replicate 10 65).

(** A buffer created for fewer than 200 bytes never grows, because
    [buffer_size_ - PRE_RESERVE_HEADER_SIZE] wraps around: filling it and appending once more
    writes past the end of the block. *)
Theorem small_buffer_overflows (n : Z) (x y : bytes) (d : DataBuffer)
  (Hn : 0 <= n < PRE_RESERVE_HEADER_SIZE) (Hx : Zlen x = n) (Hy : 0 < Zlen y < 2 ^ 31)
  (Hd : (b ← DataBuffer_new n; bq_append b x) = Ok d) : AppendData d y = Undef.
Proof.
  unfold PRE_RESERVE_HEADER_SIZE in Hn. destruct (DataBuffer_new_ok n) as (b & E & Hrep & Hsz & Hlen & Hst & Hbl); [lia|].
  rewrite E, bind_Ok in Hd. cbn [bq_append DataBuffer_queue] in Hd.
  assert (Hend0 : end_ b = 200) by (destruct Hrep as (_ & _ & -> & _); rewrite Hst; done).
  assert (Hb : end_ d = 200 + n /\ buffer_size_ d = n /\ Zlen (buffer_ d) = n + 200 /\ data_len_ d = n).
  { unfold AppendData in Hd. rewrite Hx in Hd. destruct (Z.eqb_spec n 0) as [->|].
    - cbn in Hd. injection Hd as <-. lia.
    - rewrite limit_small, Hsz, Hend0, Hlen in Hd by lia. rewrite !(u64_small 200), u64_small in Hd by lia.
      rewrite (proj2 (Z.ltb_ge _ _)) in Hd by lia.
      destruct (mem_store (buffer_ b) 200 (init x)) as [m| |] eqn:Em; try discriminate.
      apply mem_store_len in Em. rewrite s32_small, !chk_int_ok, !bind_Ok in Hd by lia.
      injection Hd as <-. cbn [set_block end_ buffer_size_ buffer_ data_len_ fst]. lia. }
  destruct Hb as (He & Hs & Hl & Hd').
  unfold AppendData. rewrite (proj2 (Z.eqb_neq _ _)) by lia. rewrite limit_small by lia.
  rewrite (u64_small (end_ d)), !u64_small by lia. rewrite (proj2 (Z.ltb_ge _ _)) by lia.
  unfold mem_store. rewrite Zlen_init, Hl, He.
  rewrite (proj2 (Z.leb_gt _ (n + 200))), andb_false_r by lia. done.
Qed.

(** ** Concrete buffers *)

(** A decision procedure for the representation invariant. *)
Definition repb (d : DataBuffer) (l : bytes) : bool :=
  bool_decide (firstn (length l) (skipn (Z.to_nat (start_ d)) (buffer_ d)) = init l) &&
  (0 <=? start_ d) && (start_ d <=? Zlen (buffer_ d)) &&
  (data_len_ d =? Zlen l) && (end_ d =? start_ d + Zlen l) && (0 <=? buffer_size_ d) &&
  (buffer_size_ d <=? Zlen (buffer_ d)) && (200 <=? Zlen (buffer_ d)) &&
  (Zlen (buffer_ d) <? 2 ^ 31) && (buffer_size_ d <? 2 ^ 31) && (end_ d <? 2 ^ 31).

Lemma repb_sound d l : repb d l = true -> rep d l.
Proof.
  unfold repb. rewrite !andb_true_iff, !Z.leb_le, !Z.ltb_lt, !Z.eqb_eq, bool_decide_eq_true.
  intros ((((((((((H1 & H2) & H3) & H4) & H5) & H6) & H7) & H8) & H9) & H10) & H11).
  unfold rep. split_and!; try lia.
  exists (firstn (Z.to_nat (start_ d)) (buffer_ d)),
    (skipn (length l) (skipn (Z.to_nat (start_ d)) (buffer_ d))).
  rewrite <- H1, !firstn_skipn. split; [done|]. rewrite Zlen_take; lia.
Qed.

Definition no_buffer : DataBuffer := mkDataBuffer false [] 0 [] 0 0 0 0.
Definition built (r : res DataBuffer) : DataBuffer := match r with Ok d => d | _ => no_buffer end.
(** A buffer for 300 bytes holding "hi". *)
Definition hi_buffer : DataBuffer := built (d ← DataBuffer_new 300; bq_append d [104; 105]).
(** A buffer for 600 bytes of which 60 of 190 were consumed: 130 bytes at offset 260. *)
Definition shifted_buffer : DataBuffer :=
  built (d ← DataBuffer_new 600; d ← bq_append d (replicate 190 7); bq_consume d 60).

Lemma DataBuffer_refines_bytes_witness :
  rep hi_buffer [104; 105] /\
  exists d', bq_run hi_buffer [BConsume 1; BPoke 0 [74]; BAppend [33]] = Ok d' /\
    bq_string d' = Ok [74; 33] /\ DataLen d' = 2.
Proof.
  assert (H : rep hi_buffer [104; 105]) by (apply repb_sound; vm_compute; reflexivity).
  split; [exact H|].
  apply (DataBuffer_refines_bytes hi_buffer [104; 105] [BConsume 1; BPoke 0 [74]; BAppend [33]] H).
  split; [vm_compute; intuition congruence|]. intros d1 E1.
  split; [vm_compute; intuition congruence|]. intros d2 E2. split; [|done].
  vm_compute in E1. injection E1 as <-. vm_compute in E2. injection E2 as <-.
  split; [vm_compute; done|]. unfold overlap_append. vm_compute. intuition discriminate.
Defined.

Lemma DataBuffer_copy_loses_data_witness :
  rep hi_buffer [104; 105] /\ DataLen (built (DataBuffer_copy hi_buffer)) = 2 /\
  bq_string (built (DataBuffer_copy hi_buffer)) = Undef.
Proof.
  assert (H : rep hi_buffer [104; 105]) by (apply repb_sound; vm_compute; reflexivity).
  split; [exact H|].
  apply (DataBuffer_copy_loses_data hi_buffer _ [104; 105] H); [reflexivity|vm_compute; split; congruence|].
  vm_compute. reflexivity.
Defined.

Lemma AppendData_overlapping_copy_witness :
  rep shifted_buffer (replicate 130 7) /\ AppendData shifted_buffer (replicate 250 1) = Undef.
Proof.
  assert (H : rep shifted_buffer (replicate 130 7)) by (apply repb_sound; vm_compute; reflexivity).
  split; [exact H|].
  apply (AppendData_overlapping_copy shifted_buffer _ (replicate 250 1) H).
  - vm_compute; congruence.
  - vm_compute; split; congruence.
  - unfold overlap_append; vm_compute; intuition congruence.
Defined.

Lemma small_buffer_overflows_witness :
  AppendData (built small_buffer) [1] = Undef.
Proof.
  apply (small_buffer_overflows 10 (replicate 10 65) [1] (built small_buffer)).
  - vm_compute; intuition congruence.
  - reflexivity.
  - vm_compute; intuition congruence.
  - vm_compute. reflexivity.
Defined.
