(* ===== verification/StringEx.v ===== *)
(** String helpers ([src/src/utils/stringex.hpp]): splitting, case conversion, suffix removal,
    hexadecimal dumps.

    [StringSplit] loops until the rest of the string is empty or holds no separator.  With an
    empty separator the loop of the source never ends; the fuel below, one more than the
    length of the input, is proved sufficient for every other separator
    ([StringSplit_total]). *)
From S2P Require Import Prelude.

(** The [do ... while] loop; [None] when the fuel runs out. *)
Fixpoint split_loop (fuel : nat) (tempString split_str : bytes) (output_vec : list bytes)
  : option (list bytes) :=
  match fuel with
  | O => None
  | S fuel' =>
      let pos := find split_str tempString in
      if pos =? npos then Some (output_vec ++ [tempString])
      else
        let seg_str := firstn (Z.to_nat pos) tempString in
        let tempString' := skipn (Z.to_nat (pos + Zlen split_str)) tempString in
        let output_vec' := output_vec ++ [seg_str] in
        if 0 <? Zlen tempString' then split_loop fuel' tempString' split_str output_vec'
        else Some output_vec'
  end.

(** Returns the vector; the [int] result of the source is its size. *)
Definition StringSplit_opt (input_str split_str : bytes) (output_vec : list bytes)
  : option (list bytes) :=
  if Zlen input_str =? 0 then Some output_vec
  else split_loop (S (length input_str)) input_str split_str output_vec.

(** As the callers use it, on an empty vector and a non-empty separator. *)
Definition StringSplit (input_str split_str : bytes) : list bytes :=
  match StringSplit_opt input_str split_str [] with Some v => v | None => [] end.

Definition tolower (c : Z) : Z := if (65 <=? c) && (c <=? 90) then c + 32 else c.
Definition toupper (c : Z) : Z := if (97 <=? c) && (c <=? 122) then c - 32 else c.
Definition String2Lower (data : bytes) : bytes := map tolower data.
Definition String2Upper (data : bytes) : bytes := map toupper data.

Definition RemoveSubfix (data subfix : bytes) : bytes :=
  let pos := rfind subfix data in
  if pos =? npos then data
  else if Zlen data - pos =? Zlen subfix then firstn (Z.to_nat pos) data else data.

Definition Uint32ToString (value : Z) : bytes :=
  let c k := Z.land (Z.shiftr value k) 0xff in
  let put c := if negb (c =? 0) then c else 32 in
  [put (c 24); put (c 16); put (c 8); put (Z.land value 0xff)].

(** ["%02x"]. *)
Definition hex_digit (n : Z) : Z := if n <? 10 then 48 + n else 87 + n.
Definition hex2 (b : Z) : bytes := [hex_digit (Z.shiftr b 4); hex_digit (Z.land b 15)].

(** The buffer has four characters per byte and each byte takes three; with no byte at all
    [&c0c1_desc[0]] indexes an empty vector. *)
Definition Data2HexString (data : bytes) : res bytes :=
  match data with
  | [] => Undef
  | _ => Ok (concat (map (fun b => hex2 b ++ [32]) data))
  end.

(** [DataToString(uint8_t*, size_t, bool)]: the loop body increments [index] once more when
    [return_flag] is set.  [index] is the loop variable; with no byte printed the result is
    built from an uninitialised array. *)
Fixpoint DataToString_loop (fuel : nat) (data : bytes) (len index : Z) (return_flag : bool) : bytes :=
  match fuel with
  | O => []
  | S fuel' =>
      if index <? (if 512 <? len then 512 else len) then
        let out := 32 :: hex2 (nth (Z.to_nat index) data 0) in
        if return_flag then
          let index := index + 1 in
          out ++ (if index mod 16 =? 0 then CRLF else []) ++
            DataToString_loop fuel' data len (index + 1) return_flag
        else out ++ DataToString_loop fuel' data len (index + 1) return_flag
      else []
  end.
Definition DataToString (data : bytes) (return_flag : bool) : res bytes :=
  match data with
  | [] => Undef
  | _ => Ok (DataToString_loop 513 data (Zlen data) 0 return_flag)
  end.

(** ** Lemmas on search *)

(** [p] does not occur in [l]. *)
Definition absent (p l : bytes) : Prop := forall a c, l <> a ++ p ++ c.

Lemma find_spec p l : Zlen l < npos ->
  (find p l = npos /\ absent p l) \/
  (exists a c, l = a ++ p ++ c /\ find p l = Zlen a /\ forall a' c', l = a' ++ p ++ c' -> Zlen a <= Zlen a').
Proof.
  intros H. destruct (find_at_spec p l 0) as [[E Ha]|(a & c & E & E' & Hm)]; [lia|lia|by left|].
  right. exists a, c. split_and!; [done|exact E'|done].
Qed.

(** Finding a known first occurrence. *)
Lemma find_first p a c : p <> [] -> Zlen (a ++ p ++ c) < npos ->
  (forall a' c', a ++ p ++ c = a' ++ p ++ c' -> Zlen a <= Zlen a') -> find p (a ++ p ++ c) = Zlen a.
Proof.
  intros Hp Hl Hf. destruct (find_spec p _ Hl) as [[_ Ha]|(a' & c' & E & -> & Hm)].
  - by destruct (Ha a c).
  - specialize (Hm _ _ eq_refl). specialize (Hf _ _ E). lia.
Qed.

Lemma find_absent p l : Zlen l < npos -> absent p l -> find p l = npos.
Proof.
  intros Hl Ha. destruct (find_spec p l Hl) as [[? _]|(a & c & E & _)]; [done|].
  by apply Ha in E.
Qed.

(** Loop step: with a non-empty separator the rest gets shorter. *)
Lemma split_total fuel s sep out : sep <> [] -> Zlen s < npos -> (length s < fuel)%nat ->
  is_Some (split_loop fuel s sep out).
Proof.
  intros Hsep. revert s out; induction fuel as [|fuel IH]; intros s out Hl Hf; [lia|].
  cbn [split_loop]. destruct (find_spec sep s Hl) as [[-> _]|(a & c & E & Ef & _)]; [rewrite Z.eqb_refl; eauto|].
  destruct (Z.eqb_spec (find sep s) npos); [eauto|]. rewrite Ef.
  rewrite E, app_assoc, skipn_Zlen_app by zlen. destruct (0 <? Zlen c); [|eauto].
  assert (length sep <> 0%nat) by (destruct sep; [done|discriminate]).
  apply IH; rewrite E in *; zlen.
Qed.

Lemma StringSplit_total s sep : sep <> [] -> Zlen s < npos ->
  StringSplit_opt s sep [] = Some (StringSplit s sep).
Proof.
  intros Hsep Hl. unfold StringSplit, StringSplit_opt. destruct (Zlen s =? 0); [done|].
  destruct (split_total (S (length s)) s sep [] Hsep Hl) as [v ->]; [lia|done].
Qed.

(** ** What splitting means *)

Fixpoint join (sep : bytes) (l : list bytes) : bytes :=
  match l with
  | [] => []
  | [x] => x
  | x :: l' => x ++ sep ++ join sep l'
  end.

Lemma join_cons sep x l : l <> [] -> join sep (x :: l) = x ++ sep ++ join sep l.
Proof. destruct l; done. Qed.

Lemma join_head_len sep x l : Zlen x <= Zlen (join sep (x :: l)).
Proof. destruct l; [cbn [join]; lia|]. rewrite join_cons, !Zlen_app by done. zlen. Qed.

Lemma join_in_len sep x l : In x l -> Zlen x <= Zlen (join sep l).
Proof.
  induction l as [|y l IH]; [done|]. intros [->|H]; [apply join_head_len|].
  destruct l as [|z l]; [done|]. rewrite join_cons, !Zlen_app by done. specialize (IH H). zlen.
Qed.

(** The first occurrence of [sep] in [a ++ sep ++ s] is the displayed one. *)
Definition first_at (a sep s : bytes) : Prop :=
  forall a' c', a ++ sep ++ s = a' ++ sep ++ c' -> Zlen a <= Zlen a'.

Lemma first_absent a sep s : sep <> [] -> first_at a sep s -> absent sep a.
Proof.
  intros Hs Hf b c ->. specialize (Hf b (c ++ sep ++ s)). rewrite <- !app_assoc in Hf.
  specialize (Hf eq_refl). destruct sep; [done|]. zlen.
Qed.

(** Cutting [s] at every leftmost occurrence of [sep], without a last piece that is empty. *)
Inductive cut (sep : bytes) : bytes -> list bytes -> Prop :=
  | cut_none s : s <> [] -> absent sep s -> cut sep s [s]
  | cut_end a : first_at a sep [] -> cut sep (a ++ sep) [a]
  | cut_more a s l : first_at a sep s -> s <> [] -> cut sep s l -> cut sep (a ++ sep ++ s) (a :: l).

Lemma first_at_unique sep a s a' s' : first_at a sep s -> first_at a' sep s' ->
  a ++ sep ++ s = a' ++ sep ++ s' -> a = a' /\ s = s'.
Proof.
  intros H H' E. pose proof (H _ _ E). pose proof (H' _ _ (eq_sym E)).
  assert (Hl : length a = length a') by (unfold Zlen in *; lia).
  apply app_inj_1 in E as [-> E]; [|done]. split; [done|]. by apply app_inv_head in E.
Qed.
Lemma cut_unique sep s l l' : cut sep s l -> cut sep s l' -> l = l'.
Proof.
  intros H. revert l'. induction H as [s Hs Ha|a Ha|a s l Ha Hs H IH]; intros l' H'.
  - remember s as t eqn:Et in H'. destruct H' as [|a Hf|a r l' Hf]; subst; [done|..].
    + by destruct (Ha a []); rewrite app_nil_r.
    + by destruct (Ha a r).
  - remember (a ++ sep) as t eqn:Et in H'. destruct H' as [t Ht Ha'|a' Ha'|a' r l' Ha' Hr].
    + by destruct (Ha' a []); rewrite app_nil_r.
    + f_equal. destruct (first_at_unique sep a [] a' []); rewrite ?app_nil_r; done.
    + destruct (first_at_unique sep a [] a' r); [done|done|rewrite app_nil_r; done|]. by subst r.
  - remember (a ++ sep ++ s) as t eqn:Et in H'. destruct H' as [t Ht Ha'|a' Ha'|a' r l' Ha' Hr H'].
    + by destruct (Ha' a s).
    + destruct (first_at_unique sep a s a' []); [done|done|rewrite app_nil_r; done|done].
    + destruct (first_at_unique sep a s a' r) as [-> ->]; [done..|]. f_equal. by apply IH.
Qed.
Lemma cut_nonempty sep s l : cut sep s l -> l <> [].
Proof. by intros []. Qed.
Lemma cut_join sep s l : cut sep s l -> join sep l = s \/ join sep l ++ sep = s.
Proof.
  induction 1 as [s|a|a s l _ _ H IH]; [by left|by right|]. rewrite join_cons by (eapply cut_nonempty; exact H).
  destruct IH as [<-|<-]; [left|right]; rewrite <- ?app_assoc; done.
Qed.
Lemma cut_absent sep s l : sep <> [] -> cut sep s l -> Forall (absent sep) l.
Proof.
  intros Hs. induction 1 as [s|a Ha|a s l Ha]; constructor; [done..| | |by eapply first_absent|done]; [|constructor].
  by eapply first_absent.
Qed.

Lemma split_loop_cut fuel s sep out v : sep <> [] -> Zlen s < npos -> s <> [] ->
  split_loop fuel s sep out = Some v -> exists l, v = out ++ l /\ cut sep s l.
Proof.
  intros Hsep. revert s out; induction fuel as [|fuel IH]; intros s out Hl Hs; cbn [split_loop]; [done|].
  destruct (find_spec sep s Hl) as [[-> Ha]|(a & c & E & Ef & Hm)].
  - rewrite Z.eqb_refl. intros [= <-]. exists [s]. split; [done|by constructor].
  - assert (Hp : find sep s <> npos) by (rewrite Ef, E in *; destruct sep; [done|zlen]).
    rewrite (proj2 (Z.eqb_neq _ _) Hp), Ef.
    assert (Hfst : first_at a sep c) by (intros a' c' E'; apply (Hm a' c'); congruence).
    replace (firstn (Z.to_nat (Zlen a)) s) with a by (rewrite E, firstn_Zlen_app; done).
    replace (skipn (Z.to_nat (Zlen a + Zlen sep)) s) with c
      by (rewrite E, app_assoc, skipn_Zlen_app; [done|zlen]).
    destruct (Z.ltb_spec 0 (Zlen c)) as [Hc|Hc].
    + assert (c <> []) by (intros ->; zlen).
      intros Hv. apply IH in Hv as (l & -> & Hcut); [|rewrite E in Hl; zlen|done].
      exists (a :: l). rewrite <- app_assoc. split; [done|]. rewrite E. by constructor.
    + intros [= <-]. exists [a]. split; [done|]. assert (c = []) as -> by (apply Zlen_0_nil; zlen).
      rewrite E, app_nil_r. by constructor.
Qed.

(** C27: splitting by a non-empty separator terminates and cuts the input at the leftmost
    occurrence of the separator, then the rest in the same way, until no separator or no rest is
    left: these are the only pieces [cut] allows, they contain no separator, and joining them
    gives back the input - or the input without the one separator it ends with, behind which no
    empty piece is made. *)
Theorem StringSplit_spec (s sep : bytes) (Hsep : sep <> []) (Hs : s <> []) (Hl : Zlen s < npos) :
  exists l, StringSplit_opt s sep [] = Some l /\ cut sep s l /\ (forall l', cut sep s l' -> l' = l) /\
    (join sep l = s \/ join sep l ++ sep = s) /\ Forall (absent sep) l.
Proof.
  destruct (split_total (S (length s)) s sep [] Hsep Hl) as [v E]; [lia|].
  destruct (split_loop_cut _ _ _ _ _ Hsep Hl Hs E) as (l & -> & H). exists l.
  split; [|split; [done|split; [|split; [by apply cut_join|by eapply cut_absent]]]].
  - unfold StringSplit_opt. destruct (Z.eqb_spec (Zlen s) 0) as [E0%Zlen_0_nil|]; done.
  - intros l' H'. by eapply cut_unique.
Qed.

Lemma StringSplit_spec_witness :
  exists l, StringSplit_opt (bstr "a=b=") (bstr "=") [] = Some l /\ cut (bstr "=") (bstr "a=b=") l /\
    (forall l', cut (bstr "=") (bstr "a=b=") l' -> l' = l) /\
    (join (bstr "=") l = bstr "a=b=" \/ join (bstr "=") l ++ bstr "=" = bstr "a=b=") /\
    Forall (absent (bstr "=")) l.
Proof. apply StringSplit_spec; [discriminate|discriminate|reflexivity]. Defined.
Example split_overlap : StringSplit_opt (bstr "aaa") (bstr "aa") [] = Some [[]; bstr "a"].
Proof. reflexivity. Qed.

(** ** Parts of a text *)

Definition infix (x s : bytes) : Prop := exists a b, s = a ++ x ++ b.
Lemma infix_trans x y z : infix x y -> infix y z -> infix x z.
Proof. intros (a & b & ->) (c & d & ->). exists (c ++ a), (b ++ d). by rewrite <- !app_assoc. Qed.
Lemma infix_app x a b : infix x (a ++ x ++ b).
Proof. by exists a, b. Qed.
Lemma infix_firstn n s : infix (firstn n s) s.
Proof. exists [], (skipn n s). symmetry. apply firstn_skipn. Qed.
Lemma infix_skipn n s : infix (skipn n s) s.
Proof. exists (firstn n s), []. rewrite app_nil_r. symmetry. apply firstn_skipn. Qed.
Lemma infix_len x s : infix x s -> Zlen x <= Zlen s.
Proof. intros (a & b & ->). rewrite !Zlen_app. zlen. Qed.

Lemma join_infix sep x l : In x l -> infix x (join sep l).
Proof.
  induction l as [|y l IH]; [done|]. intros [->|H].
  - destruct l; [exists [], []; by rewrite app_nil_r|]. rewrite join_cons by done. exists []. by eexists.
  - destruct l as [|z l]; [done|]. rewrite join_cons by done. eapply infix_trans; [by apply IH|].
    rewrite app_assoc. exists (y ++ sep), []. by rewrite app_nil_r.
Qed.
Lemma StringSplit_infix s sep x : sep <> [] -> Zlen s < npos -> In x (StringSplit s sep) -> infix x s.
Proof.
  intros Hs Hl Hin. pose proof (StringSplit_total s sep Hs Hl) as E. unfold StringSplit_opt in E.
  destruct (Z.eqb_spec (Zlen s) 0) as [E0|E0]; [injection E as E; by rewrite <- E in Hin|].
  destruct (split_loop_cut _ _ _ _ _ Hs Hl ltac:(intros ->; done) E) as (l & El & Hj%cut_join). cbn [app] in El. rewrite El in Hin.
  pose proof (join_infix sep x l Hin) as Hx. destruct Hj as [<-|<-]; [done|].
  eapply infix_trans; [exact Hx|]. exists [], sep. done.
Qed.

(** Splitting inverts joining, when separator-free pieces cannot overlap a separator. *)
Lemma split_loop_join sep l fuel out :
  sep <> [] -> (forall a s, absent sep a -> first_at a sep s) ->
  l <> [] -> Forall (absent sep) l -> List.last l [] <> [] ->
  Zlen (join sep l) < npos -> (length (join sep l) < fuel)%nat ->
  split_loop fuel (join sep l) sep out = Some (out ++ l).
Proof.
  intros Hsep Hun. revert fuel out; induction l as [|x l IH]; intros fuel out Hn Ha Hlast Hl Hf; [done|].
  inv Ha as [|? ? Hx Ha']. destruct fuel as [|fuel]; [lia|]. cbn [split_loop].
  destruct l as [|y l].
  - cbn [join] in *. rewrite (find_absent sep x Hl Hx), Z.eqb_refl. done.
  - rewrite join_cons in * by done. set (r := join sep (y :: l)) in *.
    rewrite (find_first sep x r Hsep Hl (Hun x r Hx)).
    rewrite (proj2 (Z.eqb_neq _ _)) by zlen. rewrite (firstn_Zlen_app x (sep ++ r)) by done.
    rewrite (app_assoc x sep r), skipn_Zlen_app by zlen.
    assert (Hr : r <> []).
    { unfold r. destruct l as [|z l]; [exact Hlast|]. rewrite join_cons by done.
      destruct y, sep; done. }
    rewrite (proj2 (Z.ltb_lt _ _)) by (destruct r; [done|zlen]).
    assert (length sep <> 0%nat) by (destruct sep; [done|discriminate]).
    rewrite (IH fuel (out ++ [x])); [rewrite <- app_assoc; done|done|done|done|zlen|].
    rewrite !length_app in Hf. lia.
Qed.

Lemma first_at_char (c : Z) a s : absent [c] a -> first_at a [c] s.
Proof.
  intros Ha a' c' E. destruct (Z.le_gt_cases (Zlen a) (Zlen a')); [done|]. exfalso.
  apply app_eq_inv in E as [(k & -> & E)|(k & -> & _)]; [|zlen].
  destruct k as [|x k]; [zlen|]. injection E as <- E. by apply (Ha a' k).
Qed.

Lemma first_at_CRLF a s : absent CRLF a -> first_at a CRLF s.
Proof.
  intros Ha a' c' E. destruct (Z.le_gt_cases (Zlen a) (Zlen a')); [done|]. exfalso.
  apply app_eq_inv in E as [(k & -> & E)|(k & -> & _)]; [|zlen].
  destruct k as [|x [|y k]]; [zlen|done|]. injection E as <- <- E. by apply (Ha a' k).
Qed.

Lemma StringSplit_join sep l : (exists c, sep = [c]) \/ sep = CRLF ->
  l <> [] -> Forall (absent sep) l -> List.last l [] <> [] -> Zlen (join sep l) < npos ->
  StringSplit (join sep l) sep = l.
Proof.
  intros Hs Hn Ha Hlast Hl.
  assert (sep <> []) by (destruct Hs as [[c ->]| ->]; done).
  assert (Hu : forall a s, absent sep a -> first_at a sep s).
  { destruct Hs as [[c ->]| ->]; intros; [apply first_at_char|apply first_at_CRLF]; done. }
  unfold StringSplit, StringSplit_opt. destruct (Z.eqb_spec (Zlen (join sep l)) 0) as [E|E].
  - exfalso. apply Zlen_0_nil in E. destruct l as [|x [|y l]]; [done|done|].
    rewrite join_cons in E by done. apply app_nil in E as [_ E]. apply app_nil in E as [E _]. done.
  - rewrite (split_loop_join sep l) by (done || lia). done.
Qed.

(** ** Suffix removal and case *)

Lemma rfind_at_spec p l i acc : Zlen l + i < npos -> 0 <= i ->
  let r := rfind_at p l i acc in
  (r = acc /\ absent p l) \/
  (exists a c, l = a ++ p ++ c /\ r = i + Zlen a /\ forall a' c', l = a' ++ p ++ c' -> Zlen a' <= Zlen a).
Proof.
  revert i acc; induction l as [|x l IH]; intros i acc Hb Hi; cbn [rfind_at].
  - destruct (is_prefix p []) eqn:E.
    + apply is_prefix_app in E as [k E]. right. exists [], k. split_and!; [done|zlen|].
      intros a' c' Hc. destruct a'; [zlen|done].
    + left. split; [done|]. intros a c Hc. destruct a; [|done].
      assert (is_prefix p [] = true) by (apply is_prefix_app; exists c; done). congruence.
  - destruct (IH (i + 1) (if is_prefix p (x :: l) then i else acc)) as [[-> Ha]|(a & c & -> & -> & Hm)]; [zlen|lia| |].
    + destruct (is_prefix p (x :: l)) eqn:E.
      * apply is_prefix_app in E as [k E]. right. exists [], k. split_and!; [done|zlen|].
        intros [|y a'] c' Hc; [zlen|]. injection Hc as _ Hc. by apply Ha in Hc.
      * left. split; [done|]. intros [|y a] c Hc.
        -- assert (is_prefix p (x :: l) = true) by (apply is_prefix_app; eauto). congruence.
        -- injection Hc as _ Hc. by apply Ha in Hc.
    + right. exists (x :: a), c. split_and!; [done|zlen|]. intros [|y a'] c' Hc; [zlen|].
      injection Hc as _ Hc. apply Hm in Hc. zlen.
Qed.

(** [RemoveSubfix] removes the suffix once when it is one, and nothing otherwise. *)
Lemma RemoveSubfix_spec data sub : Zlen data < npos ->
  (exists p, data = p ++ sub /\ RemoveSubfix data sub = p) \/
  ((forall p, data <> p ++ sub) /\ RemoveSubfix data sub = data).
Proof.
  intros Hl. unfold RemoveSubfix, rfind.
  destruct (rfind_at_spec sub data 0 npos) as [[-> Ha]|(a & c & E & -> & Hm)]; [lia|lia| |].
  - rewrite Z.eqb_refl. right. split; [|done]. intros p E. apply (Ha p []). rewrite app_nil_r; done.
  - rewrite Z.add_0_l. rewrite (proj2 (Z.eqb_neq _ _)) by (rewrite E in Hl; zlen).
    destruct (Z.eqb_spec (Zlen data - Zlen a) (Zlen sub)) as [Hs|Hs].
    + left. exists a. assert (c = []) as -> by (apply Zlen_0_nil; rewrite E in Hs; zlen).
      rewrite app_nil_r in E. split; [done|]. rewrite E, firstn_Zlen_app; done.
    + right. split; [|done]. intros p Ep. specialize (Hm p []). rewrite app_nil_r in Hm.
      specialize (Hm Ep). rewrite E in *. apply (f_equal Zlen) in Ep. zlen.
Qed.

Lemma String2Lower_idem s : String2Lower (String2Lower s) = String2Lower s.
Proof.
  unfold String2Lower. rewrite map_map. apply map_ext. intros c. unfold tolower at 2 3.
  destruct ((65 <=? c) && (c <=? 90)) eqn:E; unfold tolower; [|rewrite E; done].
  apply andb_true_iff in E as [E1%Z.leb_le E2%Z.leb_le]. zbool; lia.
Qed.

(** The dump with line breaks shows every other byte: its loop advances the index twice. *)
Example DataToString_skips : DataToString [1; 2; 3; 4] true = Ok (bstr " 01 03").
Proof. vm_compute. reflexivity. Qed.
Example DataToString_all : DataToString [1; 2; 3; 4] false = Ok (bstr " 01 02 03 04").
Proof. vm_compute. reflexivity. Qed.
