(* ===== verification/Util.v ===== *)
(** Small utilities ([src/src/utils/timer.hpp], [stream_statics.hpp], [uuid.hpp], the random strings
    of [byte_crypto.cpp]).

    Random numbers and clock readings are arguments. *)
From S2P Require Import Prelude StringEx.
From coqutil Require Export Datatypes.RecordSetters.
Export TriangleBracketNotations.

(** ** [TimerInterface]: a repeating libuv timer *)

(** The object's flag, and whether libuv has the timer armed. *)
Record TimerInterface : Type := mkTimer { timeout_ms_ : Z; running_ : bool; armed_ : bool }.
Definition TimerInterface_new (timeout_ms : Z) : TimerInterface := mkTimer (u32 timeout_ms) false false.
Definition StartTimer (t : TimerInterface) : TimerInterface :=
  if running_ t then t else t <| running_ := true |> <| armed_ := true |>.
Definition StopTimer (t : TimerInterface) : TimerInterface :=
  if negb (running_ t) then t else t <| running_ := false |> <| armed_ := false |>.
(** Whether [OnUvTimerCallback] calls [OnTimer]. *)
Definition OnUvTimerCallback (t : TimerInterface) : bool := running_ t.

Inductive timer_op : Type := TStart | TStop.
Definition timer_exec (t : TimerInterface) (op : timer_op) : TimerInterface :=
  match op with TStart => StartTimer t | TStop => StopTimer t end.

(** After any calls the flag is what the last one asked for, and libuv agrees with it. *)
Lemma timer_last_call ms ops op :
  let t := fold_left timer_exec (ops ++ [op]) (TimerInterface_new ms) in
  OnUvTimerCallback t = (match op with TStart => true | TStop => false end) /\ armed_ t = running_ t.
Proof.
  cbv zeta. assert (H : forall t, armed_ t = running_ t -> armed_ (fold_left timer_exec ops t) = running_ (fold_left timer_exec ops t)).
  { induction ops as [|o ops IH]; intros [ms' r a] E; [exact E|]. cbn in E. subst a. cbn [fold_left]. apply IH. destruct o, r; done. }
  specialize (H (TimerInterface_new ms) eq_refl). rewrite fold_left_app. cbn [fold_left].
  destruct (fold_left timer_exec ops _) as [ms' r a]. cbn in H. subst a. destruct op, r; done.
Qed.

(** ** [StreamStatics] *)

Record StreamStatics : Type := mkStreamStatics {
  count_ : Z;
  last_count_ : Z;
  bytes_ : Z;
  last_bytes_ : Z;
  timestamp_ : Z }.
Definition STREAM_STATICS_INTERVAL_MAX : Z := 10 * 1000.

Definition StreamStatics_new : StreamStatics := mkStreamStatics 0 0 0 0 0.
Definition stream_mark (s : StreamStatics) (now_ms : Z) : StreamStatics :=
  s <| timestamp_ := now_ms |> <| last_bytes_ := bytes_ s |> <| last_count_ := count_ s |>.
Definition stream_stale (s : StreamStatics) (now_ms : Z) : bool :=
  (timestamp_ s =? 0) || (STREAM_STATICS_INTERVAL_MAX <? now_ms - timestamp_ s).

Definition stream_Update (s : StreamStatics) (bytes now_ms : Z) : StreamStatics :=
  let s := s <| bytes_ ::= fun b => u64 (b + bytes) |> <| count_ ::= fun c => u64 (c + 1) |> in
  if stream_stale s now_ms then stream_mark s now_ms else s.

(** The speed, and [count_per_second], which the early returns leave unwritten. *)
Definition BytesPerSecond (s : StreamStatics) (now_ms : Z) : StreamStatics * Z * option Z :=
  if stream_stale s now_ms then (stream_mark s now_ms, 0, None)
  else if now_ms <=? timestamp_ s then (stream_mark s now_ms, 0, None)
  else
    let dt := now_ms - timestamp_ s in
    (stream_mark s now_ms, u64 (u64 (bytes_ s - last_bytes_ s) * 1000) / dt,
     Some (u64 (u64 (count_ s - last_count_ s) * 1000) / dt)).

(** Bytes counted since the last mark, at the rate of the time since then; the divisor is positive. *)
Lemma BytesPerSecond_rate s (sizes : list (Z * Z)) now t0 :
  s = stream_mark s t0 -> 0 < t0 < now -> now - t0 <= STREAM_STATICS_INTERVAL_MAX ->
  Forall (fun e => 0 <= fst e /\ snd e <= now) sizes ->
  0 <= bytes_ s -> 0 <= count_ s -> (bytes_ s + foldr Z.add 0 (map fst sizes)) * 1000 < 2 ^ 64 ->
  (count_ s + Z.of_nat (length sizes)) * 1000 < 2 ^ 64 ->
  let s' := fold_left (fun s e => stream_Update s (fst e) (snd e)) sizes s in
  BytesPerSecond s' now =
    (stream_mark s' now, foldr Z.add 0 (map fst sizes) * 1000 / (now - t0), Some (Z.of_nat (length sizes) * 1000 / (now - t0))).
Proof.
  intros E Ht Hi Hs Hb Hc Hsum Hcnt.
  assert (G : forall sizes c b, Forall (fun e => 0 <= fst e /\ snd e <= now) sizes -> 0 <= b -> 0 <= c ->
    b + foldr Z.add 0 (map fst sizes) < 2 ^ 64 -> c + Z.of_nat (length sizes) < 2 ^ 64 ->
    fold_left (fun s e => stream_Update s (fst e) (snd e)) sizes (mkStreamStatics c (last_count_ s) b (last_bytes_ s) t0) =
    mkStreamStatics (c + Z.of_nat (length sizes)) (last_count_ s) (b + foldr Z.add 0 (map fst sizes)) (last_bytes_ s) t0).
  { clear -Ht Hi. induction sizes as [|[n ts] sizes IH]; intros c b Hs Hb Hc Hsum Hcnt.
    - cbn. rewrite !Z.add_0_r. done.
    - apply Forall_cons in Hs as [[Hn Hts] Hs]. cbn [fst snd map foldr length] in *.
      assert (0 <= foldr Z.add 0 (map fst sizes)) by (clear -Hs; induction Hs as [|? ? [? _]]; cbn; lia).
      cbn [fold_left fst snd]. unfold stream_Update at 2, stream_stale. cbn.
      rewrite (proj2 (Z.eqb_neq _ _)) by lia. rewrite (proj2 (Z.ltb_ge _ _)) by (unfold STREAM_STATICS_INTERVAL_MAX in *; lia).
      cbn [orb]. unfold u64 at 1 2. rewrite !Z.mod_small by lia. rewrite IH by (done || lia). f_equal; lia. }
  assert (H0 : 0 <= foldr Z.add 0 (map fst sizes)) by (clear -Hs; induction Hs as [|? ? [? _]]; cbn; lia).
  destruct s as [c lc b lb ts]. cbn in E. injection E as E1 E2 E3. unfold constant in E3. subst. cbn [bytes_ count_ last_bytes_ last_count_] in *.
  cbv zeta. rewrite G by (done || lia). unfold BytesPerSecond, stream_stale. cbn [timestamp_ bytes_ count_ last_bytes_ last_count_].
  rewrite (proj2 (Z.eqb_neq _ _)) by lia. rewrite (proj2 (Z.ltb_ge _ _)) by (unfold STREAM_STATICS_INTERVAL_MAX in *; lia).
  cbn [orb]. rewrite (proj2 (Z.leb_gt _ _)) by lia. rewrite !Z.add_simpl_l. unfold u64.
  rewrite !Z.mod_small by (try rewrite Z.mod_small; lia). done.
Qed.

(** ** [UUID] *)

(** ["%04x"] of a 16-bit value. *)
Definition hex4 (n : Z) : bytes := hex2 (n / 256) ++ hex2 (n mod 256).
Definition dash : bytes := [45].
(** [data] are the eight 16-bit random numbers, in the order they are drawn. *)
Definition MakeUUID2 (data : Z -> Z) : bytes :=
  hex4 (data 0) ++ hex4 (data 1) ++ dash ++ hex4 (data 2) ++ dash ++ hex4 (data 3) ++ dash ++ hex4 (data 4) ++ dash ++
  hex4 (data 5) ++ hex4 (data 6) ++ hex4 (data 7).
(** Each [snprintf] is told that all 128 bytes are left. *)
Definition MakeUUID (data : list Z) : bytes := concat (map hex2 (firstn 12 data)).
Definition MakeNumString (data : list Z) : bytes := map (fun v => 48 + v mod 10) data.

(** [ByteCrypto::GetRandomString]: at most 256 characters. *)
Definition random_chars : bytes := bstr "0123456789abcdefghijklmnopqrstuvwxyz".
Definition GetRandomString (random : Z -> Z) (len : Z) : bytes :=
  map (fun i => nth (Z.to_nat (random (Z.of_nat i))) random_chars 0) (seq 0 (Z.to_nat (Z.min len 256))).

(** The text and its terminator fit into the array of 128 bytes. *)
Lemma MakeUUID_length data : length data = 12%nat -> Zlen (MakeUUID data) = 24.
Proof. intros H. unfold MakeUUID. rewrite firstn_all2 by lia. do 12 (destruct data as [|? data]; [done|]). destruct data; done. Qed.
Lemma GetRandomString_ok random len : 0 <= len -> (forall i, 0 <= random i < Zlen random_chars) ->
  Zlen (GetRandomString random len) = Z.min len 256 /\
  Forall (fun c => In c random_chars) (GetRandomString random len).
Proof.
  intros Hl Hr. unfold GetRandomString. split; [unfold Zlen; rewrite length_map, length_seq; lia|].
  apply Forall_map, List.Forall_forall. intros i _. apply nth_In. specialize (Hr (Z.of_nat i)). unfold Zlen in Hr. lia.
Qed.
