(* ===== verification/ByteCrypto.v ===== *)
(** The static object [ByteCrypto] ([src/src/utils/byte_crypto.cpp]): its random engine and its HMAC context.  The CRC routines
    are in [Crc.v].

    OpenSSL's HMAC context and the C++ random engine are the interfaces [HmacLib] and [RandomLib].  [GetHmacSha1] returns a
    pointer to the static buffer, so its result is the member [hmac_sha1_buffer], which the next call overwrites. *)
From S2P Require Import Prelude Eff Util.

(** [HMAC_CTX_new] gives no context when memory is short.  [HMAC_Final] gives the return value, what it writes and the length
    it reports. *)
Class HmacLib (H : Type) : Type := {
  HMAC_CTX_new : option H;
  HMAC_Init_ex : bytes -> H -> H * Z;
  HMAC_Update : bytes -> H -> H * Z;
  HMAC_Final : H -> H * (Z * bytes * Z) }.
Class RandomLib (R : Type) : Type := {
  default_engine : R;
  seed : Z -> R;
  uniform : Z -> Z -> R -> R * Z }.

(** What their documentation says: a context that has been given a key and data yields the MAC of the data under that key,
    twenty bytes, whatever it was used for before; a uniform number lies between its bounds. *)
Class HmacLaws (H : Type) {HH : HmacLib H} : Type := {
  hmac_sha1 : bytes -> bytes -> bytes;
  hmac_sha1_len : forall key data, Zlen (hmac_sha1 key data) = 20;
  keyed : H -> bytes -> bytes -> Prop;
  HMAC_Init_ex_law : forall h key, exists h', HMAC_Init_ex key h = (h', 1) /\ keyed h' key [];
  HMAC_Update_law : forall h key data x, keyed h key data -> exists h', HMAC_Update x h = (h', 1) /\ keyed h' key (data ++ x);
  HMAC_Final_law : forall h key data, keyed h key data -> exists h', HMAC_Final h = (h', (1, hmac_sha1 key data, 20)) }.
Class RandomLaws (R : Type) {HR : RandomLib R} : Type := {
  uniform_law : forall min max r, min <= max -> min <= snd (uniform min max r) <= max }.

Section crypto.
Context {H R : Type} {HH : HmacLib H} {HR : RandomLib R}.

Record ByteCrypto : Type := mkByteCrypto {
  init_ : bool;
  hmac_sha1_ctx : option H;
  hmac_sha1_buffer : bytes;
  random : R }.

(** The initial values of the static members. *)
Definition ByteCrypto_statics : ByteCrypto := mkByteCrypto false None (repeat 0 20) default_engine.

Abbreviation M := (eff ByteCrypto).

Definition Init (now_ms : Z) : M unit :=
  s ← get;
  if init_ s then mret tt
  else
    modify (fun s => s <| init_ := true |> <| hmac_sha1_ctx := HMAC_CTX_new |> <| hmac_sha1_buffer := repeat 0 20 |>
                       <| random := seed (Z.land now_ms 4294967295) |>).
Definition DeInit : M unit :=
  s ← get;
  if negb (init_ s) then mret tt
  else modify (fun s => s <| init_ := false |> <| hmac_sha1_ctx := None |>).

(** The distribution's lower bound must not exceed the upper one. *)
Definition GetRandomUint (min max : Z) : M Z :=
  s ← get;
  if max <? min then stuck
  else let '(r, v) := uniform min max (random s) in modify (fun s => s <| random := r |>) ;; mret v.

(** One call on the context, which must not be null. *)
Definition on_ctx {A} (f : H -> H * A) : M A :=
  s ← get; h ← deref (hmac_sha1_ctx s);
  let '(h', a) := f h in modify (fun s => s <| hmac_sha1_ctx := Some h' |>) ;; mret a.

(** The lengths are passed as [int]; the buffer has twenty bytes. *)
Definition GetHmacSha1 (key data : bytes) : M unit :=
  if (2 ^ 31 <=? Zlen key) || (2 ^ 31 <=? Zlen data) then stuck
  else
    ret ← on_ctx (HMAC_Init_ex key);
    if negb (ret =? 1) then raise (StreamExn (bstr "OpenSSL HMAC_Init_ex() failed with key")) else
    ret ← on_ctx (HMAC_Update data);
    if negb (ret =? 1) then raise (StreamExn (bstr "OpenSSL HMAC_Init_ex() failed with key")) else
    '(ret, out, ret_len) ← on_ctx HMAC_Final;
    (if 20 <? Zlen out then stuck
     else modify (fun s => s <| hmac_sha1_buffer ::= fun b => out ++ skipn (length out) b |>)) ;;
    if negb (ret =? 1) then raise (StreamExn (bstr "OpenSSL HMAC_Final error")) else
    if negb (ret_len =? 20) then raise (StreamExn (bstr "OpenSSL HMAC_Final error")) else mret tt.

(** [GetRandomString]: at most 256 characters. *)
Fixpoint random_buffer (n : nat) : M bytes :=
  match n with
  | O => mret []
  | S n' =>
      rand_number ← GetRandomUint 0 (Zlen random_chars - 1);
      c ← deref (random_chars !! Z.to_nat rand_number);
      rest ← random_buffer n'; mret (c :: rest)
  end.
Definition ByteCrypto_GetRandomString (len : Z) : M bytes := random_buffer (Z.to_nat (Z.min len 256)).
End crypto.
Arguments ByteCrypto H R : clear implicits.

(** ** Properties *)

Section properties.
Context {H R : Type} {HH : HmacLib H} {HR : RandomLib R} {HHL : HmacLaws H} {HRL : RandomLaws R}.
Implicit Types s : ByteCrypto H R.

Lemma on_ctx_done {A} (f : H -> H * A) s h h' a : hmac_sha1_ctx s = Some h -> f h = (h', a) ->
  on_ctx f s = Done (s <| hmac_sha1_ctx := Some h' |>) a.
Proof. intros E1 E2. unfold on_ctx. erewrite bind_done by reflexivity. rewrite E1. erewrite bind_done by reflexivity. by rewrite E2. Qed.

(** One call: the buffer holds the MAC, the context is ready for the next. *)
Lemma GetHmacSha1_done s h key data : hmac_sha1_ctx s = Some h -> length (hmac_sha1_buffer s) = 20%nat ->
  Zlen key < 2 ^ 31 -> Zlen data < 2 ^ 31 ->
  exists s' h', GetHmacSha1 key data s = Done s' tt /\ hmac_sha1_buffer s' = hmac_sha1 key data /\
    hmac_sha1_ctx s' = Some h' /\ init_ s' = init_ s /\ random s' = random s.
Proof.
  intros Hc Hb Hk Hd. unfold GetHmacSha1. rewrite !(proj2 (Z.leb_gt _ _)) by done. cbn [orb].
  destruct (HMAC_Init_ex_law h key) as (h1 & E1 & K1). destruct (HMAC_Update_law h1 key [] data K1) as (h2 & E2 & K2).
  destruct (HMAC_Final_law h2 key data K2) as (h3 & E3). pose proof (hmac_sha1_len key data) as Hl.
  rewrite (bind_done _ _ _ _ _ (on_ctx_done _ s h h1 1 Hc E1)). change (negb (1 =? 1)) with false. cbv iota.
  erewrite bind_done by (apply (on_ctx_done _ _ h1 h2 1); [by destruct s|done]). change (negb (1 =? 1)) with false. cbv iota.
  erewrite bind_done by (apply (on_ctx_done _ _ h2 h3 _); [by destruct s|exact E3]). cbv beta iota. rewrite Hl.
  change (20 <? 20) with false. cbv iota. erewrite bind_done by reflexivity. change (negb (1 =? 1)) with false. change (negb (20 =? 20)) with false. cbv iota.
  eexists _, h3. split; [reflexivity|]. destruct s. cbn in *. split; [|done].
  rewrite skipn_all2, app_nil_r; [done|]. unfold Zlen in Hl. lia.
Qed.

(** After [Init], whatever numbers have been drawn and MACs computed in between, [GetHmacSha1] leaves in the static buffer
    the HMAC-SHA1 of its own key and data; it is the buffer every earlier result pointed to, so of a sequence of results only
    the last one remains.  Before [Init] and after [DeInit] the call dereferences a null context. *)
Lemma GetHmacSha1_last (now : Z) (calls : list (bytes * bytes)) (key data : bytes) (h : H)
  (Hctx : HMAC_CTX_new = Some h)
  (Hcalls : Forall (fun c => Zlen (fst c) < 2 ^ 31 /\ Zlen (snd c) < 2 ^ 31) (calls ++ [(key, data)])) :
  (exists s, (Init now ;; for_each (calls ++ [(key, data)]) (fun c => GetHmacSha1 (fst c) (snd c))) (@ByteCrypto_statics H R _) = Done s tt /\
     hmac_sha1_buffer s = hmac_sha1 key data /\ random s = seed (Z.land now 4294967295)) /\
  GetHmacSha1 key data (@ByteCrypto_statics H R _) = Stuck /\
  (Init now ;; DeInit ;; GetHmacSha1 key data) (@ByteCrypto_statics H R _) = Stuck.
Proof.
  assert (Hkd : Zlen key < 2 ^ 31 /\ Zlen data < 2 ^ 31) by (apply Forall_app in Hcalls as [_ Hc]; by apply Forall_inv in Hc).
  split.
  - assert (G : forall cs s h0, Forall (fun c => Zlen (fst c) < 2 ^ 31 /\ Zlen (snd c) < 2 ^ 31) cs -> hmac_sha1_ctx s = Some h0 ->
      length (hmac_sha1_buffer s) = 20%nat ->
      exists s' h', for_each cs (fun c => GetHmacSha1 (fst c) (snd c)) s = Done s' tt /\ hmac_sha1_ctx s' = Some h' /\
        length (hmac_sha1_buffer s') = 20%nat /\ random s' = random s).
    { induction cs as [|[k d] cs IH]; intros s h0 Hcs Hc Hb; [by exists s, h0|]. apply Forall_cons in Hcs as [[Hk Hd] Hcs]. cbn [for_each fst snd] in *.
      destruct (GetHmacSha1_done s h0 k d Hc Hb Hk Hd) as (s1 & h1 & E & Eb & Ec & _ & Er). rewrite (bind_done _ _ _ _ _ E).
      destruct (IH s1 h1 Hcs Ec) as (s' & h' & E' & F1 & F2 & F3); [rewrite Eb; pose proof (hmac_sha1_len k d); unfold Zlen in *; lia|].
      exists s', h'. by rewrite F3. }
    erewrite bind_done by reflexivity. apply Forall_app in Hcalls as [Hcalls _].
    match goal with |- context [for_each _ _ ?s0] => destruct (G calls s0 h Hcalls Hctx eq_refl) as (s1 & h1 & E1 & F1 & F2 & F3) end.
    destruct (GetHmacSha1_done s1 h1 key data F1 F2) as (s2 & h2 & E2 & G1 & _ & _ & G4); [apply Hkd..|].
    exists s2. rewrite for_each_app, (bind_done _ _ _ _ _ E1). cbn [for_each fst snd]. rewrite (bind_done _ _ _ _ _ E2). by rewrite G4, F3.
  - unfold GetHmacSha1. rewrite !(proj2 (Z.leb_gt _ _)) by apply Hkd. done.
Qed.

(** The random strings of [Util.v], with the numbers the engine yields. *)
Lemma random_buffer_spec n : forall s, exists s' f, random_buffer n s = Done s' (map (fun i => nth (Z.to_nat (f (Z.of_nat i))) random_chars 0) (seq 0 n)) /\
  (forall i, 0 <= f i < Zlen random_chars).
Proof.
  induction n as [|n IH]; intros s; [exists s, (fun _ => 0); split; [done|]; intros i; by vm_compute|]. cbn [random_buffer].
  pose proof (uniform_law 0 (Zlen random_chars - 1) (random s) ltac:(by vm_compute)) as Hv.
  destruct (uniform 0 (Zlen random_chars - 1) (random s)) as [r v] eqn:Eu. cbn [snd] in Hv.
  set (s1 := s <| random := r |>).
  assert (E1 : GetRandomUint 0 (Zlen random_chars - 1) s = Done s1 v) by (unfold GetRandomUint; erewrite bind_done by reflexivity; rewrite Eu; done).
  rewrite (bind_done _ _ _ _ _ E1).
  assert (Hlt : (Z.to_nat v < length random_chars)%nat) by (unfold Zlen in Hv; lia).
  destruct (lookup_lt_is_Some_2 random_chars (Z.to_nat v) Hlt) as [c Ec]. rewrite Ec. erewrite bind_done by reflexivity.
  destruct (IH s1) as (s2 & f & E2 & Hf). rewrite (bind_done _ _ _ _ _ E2).
  exists s2, (fun i => if i =? 0 then v else f (i - 1)). split.
  - unfold mret, eff_ret. f_equal. cbn [seq map]. f_equal; [symmetry; apply nth_lookup_Some; exact Ec|].
    rewrite <- seq_shift, map_map. apply map_ext_in. intros i _.
    rewrite (proj2 (Z.eqb_neq _ _)) by lia. by replace (Z.of_nat (S i) - 1) with (Z.of_nat i) by lia.
  - intros i. destruct (i =? 0); [lia|apply Hf].
Qed.
Lemma ByteCrypto_GetRandomString_ok s len : 0 <= len -> exists s' random text,
  ByteCrypto_GetRandomString len s = Done s' text /\ text = GetRandomString random len /\ Zlen text = Z.min len 256 /\
  Forall (fun c => In c random_chars) text.
Proof.
  intros Hl. destruct (random_buffer_spec (Z.to_nat (Z.min len 256)) s) as (s' & f & E & Hf).
  exists s', f, (GetRandomString f len). split; [exact E|]. split; [done|]. by apply GetRandomString_ok.
Qed.
End properties.

(** ** Witness *)

(** A MAC that keeps the first bytes, and an engine that counts. *)
Definition demo_mac (key data : bytes) : bytes := firstn 20 (key ++ data ++ repeat 0 20).
#[export] Instance demo_hmac : HmacLib (bytes * bytes) := {
  HMAC_CTX_new := Some ([], []);
  HMAC_Init_ex key _ := ((key, []), 1);
  HMAC_Update x h := ((fst h, snd h ++ x), 1);
  HMAC_Final h := (h, (1, demo_mac (fst h) (snd h), 20)) }.
#[export] Instance demo_hmac_laws : HmacLaws (bytes * bytes).
Proof.
  refine {| hmac_sha1 := demo_mac; keyed h key data := h = (key, data) |}.
  - intros key data. unfold demo_mac, Zlen. rewrite length_firstn, !length_app. cbn [length repeat]. lia.
  - intros h key. eexists. split; reflexivity.
  - intros h key data x ->. eexists. split; reflexivity.
  - intros h key data ->. eexists. reflexivity.
Defined.
#[export] Instance demo_random : RandomLib Z := { default_engine := 1; seed z := z; uniform min max r := (r + 1, Z.max min (Z.min max r)) }.

Lemma GetHmacSha1_last_witness :
  (exists s, (Init 1700000000000 ;; for_each ([([1], [2; 3])] ++ [([4], [5])]) (fun c => GetHmacSha1 (fst c) (snd c))) (@ByteCrypto_statics (bytes * bytes) Z _) = Done s tt /\
     hmac_sha1_buffer s = demo_mac [4] [5] /\ random s = Z.land 1700000000000 4294967295) /\
  GetHmacSha1 [4] [5] (@ByteCrypto_statics (bytes * bytes) Z _) = Stuck /\
  (Init 1700000000000 ;; DeInit ;; GetHmacSha1 [4] [5]) (@ByteCrypto_statics (bytes * bytes) Z _) = Stuck.
Proof.
  refine (GetHmacSha1_last (H := bytes * bytes) (R := Z) 1700000000000 [([1], [2; 3])] [4] [5] ([], []) _ _); [reflexivity|].
  repeat constructor.
Defined.
