(* ===== verification/Media.v ===== *)
(** Media packets and what is measured on them ([src/src/utils/av/]).

    Timestamps and byte counts are [int64_t]; a sum or difference of them that leaves that range
    is undefined in the source, except where a [size_t] takes part, which wraps. *)
From S2P Require Import Prelude ByteQueue StdText StringEx.
From coqutil Require Export Datatypes.RecordSetters.
Export TriangleBracketNotations.

(** ** Kinds of packets ([av.hpp]) *)

Inductive MEDIA_PKT_TYPE : Type :=
| MEDIA_UNKOWN_TYPE | MEDIA_VIDEO_TYPE | MEDIA_AUDIO_TYPE | MEDIA_MOVBOX_TYPE | MEDIA_METADATA_TYPE.
Inductive MEDIA_CODEC_TYPE : Type :=
| MEDIA_CODEC_UNKOWN | MEDIA_CODEC_H264 | MEDIA_CODEC_H265 | MEDIA_CODEC_H266 | MEDIA_CODEC_VP8 | MEDIA_CODEC_VP9
| MEDIA_CODEC_AV1 | MEDIA_CODEC_AAC | MEDIA_CODEC_OPUS | MEDIA_CODEC_MP3.
Inductive MEDIA_FORMAT_TYPE : Type := MEDIA_FORMAT_UNKOWN | MEDIA_FORMAT_RAW | MEDIA_FORMAT_FLV | MEDIA_FORMAT_MPEGTS.

Definition avtype_tostring (t : MEDIA_PKT_TYPE) : bytes :=
  match t with
  | MEDIA_VIDEO_TYPE => bstr "video"
  | MEDIA_AUDIO_TYPE => bstr "audio"
  | MEDIA_METADATA_TYPE => bstr "metadata"
  | _ => bstr "unkown"
  end.
Definition codectype_tostring (t : MEDIA_CODEC_TYPE) : bytes :=
  match t with
  | MEDIA_CODEC_H264 => bstr "h264"
  | MEDIA_CODEC_H265 => bstr "h265"
  | MEDIA_CODEC_VP8 => bstr "vp8"
  | MEDIA_CODEC_VP9 => bstr "vp9"
  | MEDIA_CODEC_AAC => bstr "aac"
  | MEDIA_CODEC_OPUS => bstr "opus"
  | MEDIA_CODEC_MP3 => bstr "mp3"
  | _ => bstr "unknown"
  end.
Definition formattype_tostring (t : MEDIA_FORMAT_TYPE) : bytes :=
  match t with
  | MEDIA_FORMAT_RAW => bstr "raw"
  | MEDIA_FORMAT_FLV => bstr "flv"
  | MEDIA_FORMAT_MPEGTS => bstr "mpegts"
  | _ => bstr "unkown"
  end.

(** [avc_nalu2str] on the number of the enumerator. *)
Definition avc_nalu2str (nalu_type : Z) : bytes :=
  match nalu_type with
  | 1 => bstr "NonIDR"
  | 2 => bstr "DataPartitionA"
  | 3 => bstr "DataPartitionB"
  | 4 => bstr "DataPartitionC"
  | 5 => bstr "IDR"
  | 6 => bstr "SEI"
  | 7 => bstr "SPS"
  | 8 => bstr "PPS"
  | 9 => bstr "AccessUnitDelimiter"
  | 10 => bstr "EOSequence"
  | 11 => bstr "EOStream"
  | 12 => bstr "FilterData"
  | 13 => bstr "SPSExt"
  | 14 => bstr "PrefixNALU"
  | 15 => bstr "SubsetSPS"
  | 19 => bstr "LayerWithoutPartition"
  | 20 => bstr "CodedSliceExt"
  | _ => bstr "unknown"
  end.

(** [get_video_extradata]: the bytes written to [extra_data]; [sps[1..3]] are read whatever the
    length, and the lengths are those of the arrays. *)
Definition get_video_extradata (pps sps : bytes) : res bytes :=
  match sps with
  | _ :: s1 :: s2 :: s3 :: _ =>
      Ok ([1; s1; s2; s3; 255; 225; Z.land (Z.shiftr (Zlen sps) 8) 255; Z.land (Zlen sps) 255] ++ sps ++
          [1; Z.land (Z.shiftr (Zlen pps) 8) 255; Z.land (Zlen pps) 255] ++ pps)
  | _ => Undef
  end.

(** A reader of the AVC decoder configuration record with one SPS and one PPS. *)
Definition read_extradata (l : bytes) : option (bytes * bytes) :=
  match l with
  | 1 :: _ :: _ :: _ :: 255 :: 225 :: h :: lo :: l =>
      let n := Z.to_nat (h * 256 + lo) in
      match skipn n l with
      | 1 :: h' :: lo' :: r => Some (firstn n l, firstn (Z.to_nat (h' * 256 + lo')) r)
      | _ => None
      end
  | _ => None
  end.

Lemma len_word n : 0 <= n < 2 ^ 16 -> Z.land (Z.shiftr n 8) 255 * 256 + Z.land n 255 = n.
Proof.
  intros H. change 255 with (Z.ones 8). rewrite !Z.land_ones, Z.shiftr_div_pow2 by lia. change (2 ^ 8) with 256 in *.
  rewrite (Z.mod_small (n / 256)) by (split; [apply Z.div_pos; lia|apply Z.div_lt_upper_bound; lia]).
  rewrite Z.mul_comm. symmetry. apply Z.div_mod. lia.
Qed.

Lemma read_record a b c sps pps : Zlen sps < 2 ^ 16 -> Zlen pps < 2 ^ 16 ->
  read_extradata ([1; a; b; c; 255; 225; Z.land (Z.shiftr (Zlen sps) 8) 255; Z.land (Zlen sps) 255] ++ sps ++
    [1; Z.land (Z.shiftr (Zlen pps) 8) 255; Z.land (Zlen pps) 255] ++ pps) = Some (sps, pps).
Proof.
  intros Hs Hp. pose proof (Zlen_nonneg sps). pose proof (Zlen_nonneg pps). cbn [app]. unfold read_extradata.
  rewrite len_word, to_nat_Zlen, skipn_app_len, firstn_app_len by lia.
  rewrite len_word, to_nat_Zlen, firstn_all by lia. done.
Qed.

(** Parameter sets survive the record. *)
Lemma extradata_roundtrip pps sps out : get_video_extradata pps sps = Ok out -> Zlen sps < 2 ^ 16 -> Zlen pps < 2 ^ 16 ->
  read_extradata out = Some (sps, pps).
Proof.
  intros E Hs Hp. destruct sps as [|s0 [|s1 [|s2 [|s3 l]]]]; try done.
  assert (Eo := read_record s1 s2 s3 _ _ Hs Hp). unfold get_video_extradata in E. congruence.
Qed.

(** ** [Media_Packet] *)

Section packet.
Context {Q : Type} {HQ : ByteQueue Q}.

(** [metadata_type_] has no initial value: [None]. *)
Record Media_Packet : Type := mkPacket {
  av_type_ : MEDIA_PKT_TYPE;
  codec_type_ : MEDIA_CODEC_TYPE;
  fmt_type_ : MEDIA_FORMAT_TYPE;
  dts_ : Z;
  pts_ : Z;
  is_key_frame_ : bool;
  is_seq_hdr_ : bool;
  has_flv_audio_asc_ : bool;
  buffer_ptr_ : Q;
  metadata_type_ : option Z;
  metadata_ : list (bytes * bytes);
  sample_rate_ : Z;
  sample_size_ : Z;
  channel_ : Z;
  aac_asc_type_ : Z;
  key_ : bytes;
  vhost_ : bytes;
  app_ : bytes;
  streamname_ : bytes;
  streamid_ : Z;
  typeid_ : Z }.

Definition Media_Packet_new (len : Z) : res Media_Packet :=
  b ← bq_new len;
  Ok (mkPacket MEDIA_UNKOWN_TYPE MEDIA_CODEC_UNKOWN MEDIA_FORMAT_UNKOWN (-1) (-1) false false false b None [] 44100 1 2 2
        [] [] [] [] 0 0).

Definition copy_properties (p pkt : Media_Packet) : Media_Packet :=
  mkPacket (av_type_ pkt) (codec_type_ pkt) (fmt_type_ pkt) (dts_ pkt) (pts_ pkt) (is_key_frame_ pkt) (is_seq_hdr_ pkt)
    (has_flv_audio_asc_ p) (buffer_ptr_ p) (metadata_type_ p) (metadata_ p) (sample_rate_ p) (sample_size_ p) (channel_ p)
    (aac_asc_type_ p) (key_ pkt) (vhost_ pkt) (app_ pkt) (streamname_ pkt) (streamid_ pkt) (typeid_ pkt).

(** The copy constructor and [copy()]. *)
Definition Media_Packet_copy (pkt : Media_Packet) : res Media_Packet :=
  p ← Media_Packet_new (bq_len (buffer_ptr_ pkt) + 1024);
  d ← bq_string (buffer_ptr_ pkt);
  b ← bq_append (buffer_ptr_ p) d;
  Ok ((copy_properties p pkt) <| buffer_ptr_ := b |>).

(** The data lines of [Dump]: [print] is what [print_buffer] holds. *)
Fixpoint dump_data (i : Z) (data print : bytes) : bytes :=
  match data with
  | [] => print
  | b :: data =>
      if i mod 16 =? 0 then print ++ CRLF ++ dump_data (i + 1) data (hex2 b ++ [32])
      else dump_data (i + 1) data (print ++ hex2 b ++ [32])
  end.

(** [Dump] reads [metadata_type_] when there are metadata. *)
Definition Media_Packet_Dump (p : Media_Packet) (data_dump : bool) : res bytes :=
  let flag (b : bool) := if b then bstr "1" else bstr "0" in
  let field name v := match v with [] => [] | _ => bstr name ++ v end in
  meta ← match metadata_ p, metadata_type_ p with
         | [], _ => Ok []
         | _, None => Undef
         | items, Some t => Ok (CRLF ++ bstr "metadata type:" ++ to_string_int t ++ CRLF ++
             concat (map (fun e => bstr "key:" ++ fst e ++ bstr ", value:" ++ snd e ++ CRLF) items))
         end;
  d ← bq_string (buffer_ptr_ p);
  Ok (bstr "av type:" ++ avtype_tostring (av_type_ p) ++
      (match av_type_ p with
       | MEDIA_METADATA_TYPE => []
       | _ => bstr ", codec type:" ++ codectype_tostring (codec_type_ p)
       end) ++
      bstr ", format type:" ++ formattype_tostring (fmt_type_ p) ++
      bstr ", dts:" ++ to_string_int (dts_ p) ++ bstr ", pts:" ++ to_string_int (pts_ p) ++
      bstr ", is key frame:" ++ flag (is_key_frame_ p) ++ bstr ", is seq frame:" ++ flag (is_seq_hdr_ p) ++
      bstr ", data length:" ++ to_string (bq_len (buffer_ptr_ p)) ++
      field ", key:" (key_ p) ++ field ", app:" (app_ p) ++ field ", stream name:" (streamname_ p) ++ meta ++
      (if data_dump then CRLF ++ bstr "data:" ++ dump_data 0 d [] ++ CRLF else [])).

(** ** [MediaStatics] ([media_statics.hpp]) *)

(** The counters of one kind of media; [gop_] only counts video. *)
Record TrackStatics : Type := mkTrack {
  last_ts_ : Z;
  tbytes_ : Z;
  frames_ : Z;
  last_bytes_ : Z;
  last_frames_ : Z;
  kbits_sec_ : Z;
  frames_sec_ : Z }.
Record MediaStatics : Type := mkStatics {
  interval_ : Z; video_ : TrackStatics; audio_ : TrackStatics; gop_frames_ : Z; gop_ : Z }.

Definition MEDIA_STATICS_DEF_INTERVAL : Z := 2000.
Definition TrackStatics_new : TrackStatics := mkTrack (-1) 0 0 0 0 0 0.
Definition MediaStatics_new (interval : Z) : MediaStatics :=
  mkStatics (if interval <? MEDIA_STATICS_DEF_INTERVAL then MEDIA_STATICS_DEF_INTERVAL else interval)
    TrackStatics_new TrackStatics_new 0 0.

(** [HandleAudio], and [HandleVideo] without its group-of-pictures counters. *)
Definition HandleTrack (interval : Z) (t : TrackStatics) (current_ts len : Z) : TrackStatics * Z :=
  let t := t <| tbytes_ ::= fun b => s64 (b + len) |> <| frames_ ::= fun n => n + 1 |> in
  if last_ts_ t <? 0 then (t <| last_ts_ := current_ts |>, 0)
  else if (current_ts <? last_ts_ t) && (interval <? last_ts_ t - current_ts) then (t <| last_ts_ := current_ts |>, 0)
  else
    let diff_t := if last_ts_ t <? current_ts then current_ts - last_ts_ t else last_ts_ t - current_ts in
    if interval <=? diff_t then
      let bytes := tbytes_ t - last_bytes_ t in
      let frames := frames_ t - last_frames_ t in
      (t <| kbits_sec_ := Z.quot (bytes * 8) diff_t |> <| frames_sec_ := Z.quot frames (Z.quot diff_t 1000) |>
         <| last_bytes_ := tbytes_ t |> <| last_frames_ := frames_ t |> <| last_ts_ := current_ts |>, 1)
    else (t, 0).

Definition HandleVideo (m : MediaStatics) (current_ts : Z) (pkt : Media_Packet) : MediaStatics * Z :=
  let m := m <| gop_frames_ ::= fun n => n + 1 |> in
  let m := if is_key_frame_ pkt then m <| gop_ := gop_frames_ m |> <| gop_frames_ := 0 |> else m in
  let '(t, ret) := HandleTrack (interval_ m) (video_ m) current_ts (bq_len (buffer_ptr_ pkt)) in
  (m <| video_ := t |>, ret).
Definition HandleAudio (m : MediaStatics) (current_ts : Z) (pkt : Media_Packet) : MediaStatics * Z :=
  let '(t, ret) := HandleTrack (interval_ m) (audio_ m) current_ts (bq_len (buffer_ptr_ pkt)) in
  (m <| audio_ := t |>, ret).

(** [None] is a null pointer. *)
Definition InputPacket (m : MediaStatics) (now : Z) (basedOnSysTime : bool) (pkt : option Media_Packet) : MediaStatics * Z :=
  match pkt with
  | None => (m, 0)
  | Some pkt =>
      let current_ts := if basedOnSysTime then now else dts_ pkt in
      match av_type_ pkt with
      | MEDIA_VIDEO_TYPE => HandleVideo m current_ts pkt
      | MEDIA_AUDIO_TYPE => HandleAudio m current_ts pkt
      | _ => (m, 0)
      end
  end.
End packet.
Arguments Media_Packet Q : clear implicits.

Lemma Media_Packet_copy_ok {Q} `{ByteQueueLaws Q} (pkt : Media_Packet Q) l : bq_rep (buffer_ptr_ pkt) l ->
  Zlen l + 1024 < 2 ^ 30 ->
  exists p, Media_Packet_copy pkt = Ok p /\ bq_rep (buffer_ptr_ p) l /\ dts_ p = dts_ pkt /\ pts_ p = pts_ pkt /\
    av_type_ p = av_type_ pkt /\ metadata_ p = [].
Proof.
  intros Hr Hl. pose proof (Zlen_nonneg l). destruct (bq_rep_len _ _ Hr) as [El _].
  destruct (bq_fill_law (Zlen l + 1024) l) as (q & q' & E1 & E2 & Hq); [lia|lia|].
  unfold Media_Packet_copy, Media_Packet_new. rewrite El, E1, (bq_string_law _ _ Hr). cbn. rewrite E2. cbn.
  eexists. split; [reflexivity|]. done.
Qed.

(** The dump of data is 16 bytes to a line. *)
Lemma dump_data_line i data print : i mod 16 <> 0 -> i mod 16 + Zlen data <= 16 -> 0 <= i ->
  dump_data i data print = print ++ concat (map (fun b => hex2 b ++ [32]) data).
Proof.
  revert i print; induction data as [|b data IH]; intros i print Hi Hl Hp; [cbn; rewrite app_nil_r; done|].
  cbn [dump_data map concat]. rewrite (proj2 (Z.eqb_neq _ _)) by done. rewrite Zlen_cons in Hl. pose proof (Zlen_nonneg data).
  destruct data as [|c data]; [cbn [dump_data map concat]; rewrite app_nil_r, <- ?app_assoc; done|].
  rewrite Zlen_cons in Hl, H. assert (0 <= i mod 16 < 16) by (apply Z.mod_pos_bound; lia). pose proof (Zlen_nonneg data).
  assert (E : (i + 1) mod 16 = i mod 16 + 1).
  { rewrite <- Zplus_mod_idemp_l. apply Z.mod_small. lia. }
  rewrite IH; [rewrite <- !app_assoc; done|lia|rewrite E, Zlen_cons; lia|lia].
Qed.

(** ** Reports of [MediaStatics] *)

(** One track against a reference that keeps the packets since the last report instead of
    running totals: what is reported is computed from exactly those packets. *)
Record window : Type := mkWindow { w_last : option Z; w_group : list Z }.
Definition sum (l : list Z) : Z := foldr Z.add 0 l.

Definition window_step (interval : Z) (w : window) (e : Z * Z) : window * option (Z * Z) :=
  let g := w_group w ++ [snd e] in
  match w_last w with
  | None => (mkWindow (Some (fst e)) g, None)
  | Some last =>
      if interval <? last - fst e then (mkWindow (Some (fst e)) g, None)
      else if interval <=? Z.abs (fst e - last) then
        let dt := Z.abs (fst e - last) in
        (mkWindow (Some (fst e)) [], Some (sum g * 8 / dt, Zlen g / (dt / 1000)))
      else (mkWindow (Some last) g, None)
  end.

Fixpoint window_reports (interval : Z) (w : window) (l : list (Z * Z)) : list (Z * Z) :=
  match l with
  | [] => []
  | e :: l => let '(w, o) := window_step interval w e in
      match o with Some r => r :: window_reports interval w l | None => window_reports interval w l end
  end.

(** The rates after each packet for which [InputPacket] returns 1. *)
Fixpoint track_reports (interval : Z) (t : TrackStatics) (l : list (Z * Z)) : list (Z * Z) :=
  match l with
  | [] => []
  | e :: l => let '(t, ret) := HandleTrack interval t (fst e) (snd e) in
      if ret =? 1 then (kbits_sec_ t, frames_sec_ t) :: track_reports interval t l else track_reports interval t l
  end.

Definition tracks (t : TrackStatics) (w : window) : Prop :=
  last_ts_ t = default (-1) (w_last w) /\ (forall x, w_last w = Some x -> 0 <= x) /\
  tbytes_ t = last_bytes_ t + sum (w_group w) /\ frames_ t = last_frames_ t + Zlen (w_group w) /\
  0 <= last_bytes_ t /\ Forall (fun n => 0 <= n) (w_group w).

Lemma sum_app l k : sum (l ++ k) = sum l + sum k.
Proof. unfold sum. induction l as [|x l IH]; cbn; lia. Qed.
Lemma sum_nonneg l : Forall (fun n => 0 <= n) l -> 0 <= sum l.
Proof. unfold sum. induction 1; cbn; lia. Qed.

Lemma track_step interval t w ts n : MEDIA_STATICS_DEF_INTERVAL <= interval -> tracks t w -> 0 <= ts -> 0 <= n ->
  tbytes_ t + n < 2 ^ 63 ->
  let '(t', ret) := HandleTrack interval t ts n in
  let '(w', o) := window_step interval w (ts, n) in
  tracks t' w' /\ tbytes_ t' = tbytes_ t + n /\
  match o with Some r => ret = 1 /\ (kbits_sec_ t', frames_sec_ t') = r | None => ret = 0 end.
Proof.
  unfold MEDIA_STATICS_DEF_INTERVAL. intros Hi (H1 & H2 & H3 & H4 & H5 & H6) Hts Hn Hb.
  assert (Hg : Forall (fun n => 0 <= n) (w_group w ++ [n])) by (apply Forall_app; split; [done|repeat constructor; done]).
  pose proof (sum_nonneg _ Hg) as Hs. pose proof (sum_nonneg _ H6) as Hs0. rewrite sum_app in Hs. change (sum [n]) with (n + 0) in Hs.
  destruct t as [lt b f lb lf kb fs]. cbn [last_ts_ tbytes_ frames_ last_bytes_ last_frames_] in *.
  unfold HandleTrack, window_step. cbn. rewrite s64_small by lia. destruct w as [[last|] g]; cbn [w_last w_group default] in *.
  - cbn in H1. subst lt. specialize (H2 last eq_refl). rewrite (proj2 (Z.ltb_ge last 0)) by lia.
    replace ((ts <? last) && (interval <? last - ts)) with (interval <? last - ts)
      by (destruct (Z.ltb_spec interval (last - ts)), (Z.ltb_spec ts last); cbn; done || lia).
    destruct (Z.ltb_spec interval (last - ts)).
    + unfold tracks. cbn. rewrite sum_app, Zlen_app. change (Zlen [n]) with 1. cbn. split_and!; try lia; try done; try (intros x [= <-]; lia).
    + replace (if last <? ts then ts - last else last - ts) with (Z.abs (ts - last))
        by (destruct (Z.ltb_spec last ts); lia).
      destruct (Z.leb_spec interval (Z.abs (ts - last))) as [Hd|Hd].
      * unfold tracks. cbn. split_and!; try lia; try done; [intros x [= <-]; lia|change (Zlen (@nil Z)) with 0; lia|].
        rewrite !sum_app, Zlen_app. change (sum [n]) with (n + 0). change (Zlen [n]) with 1.
        set (d := Z.abs (ts - last)) in *. pose proof (Zlen_nonneg g).
        assert (0 < d / 1000) by (apply Z.div_str_pos; lia).
        rewrite (Z.quot_div_nonneg d 1000), (Z.quot_div_nonneg _ d), (Z.quot_div_nonneg _ (d / 1000)) by lia.
        unfold constant. f_equal; f_equal; lia.
      * unfold tracks. cbn. rewrite sum_app, Zlen_app. change (Zlen [n]) with 1. cbn. split_and!; try lia; try done; try (intros x [= <-]; lia).
  - cbn in H1. subst lt. cbn. unfold tracks. cbn. rewrite sum_app, Zlen_app. change (Zlen [n]) with 1. cbn. split_and!; try lia; try done; try (intros x [= <-]; lia).
Qed.

(** The rates reported by [MediaStatics] for a track are those of the packets since the last
    report over the time since then, whatever timestamps the packets carry; the counters never
    divide by zero. *)
Lemma MediaStatics_reports (interval : Z) (pkts : list (Z * Z))
  (Hpkts : Forall (fun e => 0 <= fst e /\ 0 <= snd e) pkts) (Hsum : sum (map snd pkts) < 2 ^ 63) :
  track_reports (interval_ (MediaStatics_new interval)) TrackStatics_new pkts =
  window_reports (interval_ (MediaStatics_new interval)) (mkWindow None []) pkts.
Proof.
  assert (Hi : MEDIA_STATICS_DEF_INTERVAL <= interval_ (MediaStatics_new interval)).
  { cbn. destruct (Z.ltb_spec interval MEDIA_STATICS_DEF_INTERVAL); lia. }
  set (i := interval_ _) in *.
  assert (G : forall t w, tracks t w -> tbytes_ t + sum (map snd pkts) < 2 ^ 63 ->
    track_reports i t pkts = window_reports i w pkts).
  { clear Hsum. induction Hpkts as [|[ts n] pkts [Hts Hn] Hp IH]; intros t w Ht Hb; [done|].
    cbn [map snd fst] in *. change (sum (n :: map snd pkts)) with (n + sum (map snd pkts)) in Hb.
    assert (0 <= sum (map snd pkts)) by (apply sum_nonneg, Forall_map; eapply Forall_impl; [exact Hp|]; cbn; tauto).
    pose proof (track_step i t w ts n Hi Ht Hts Hn ltac:(lia)) as Hstep.
    cbn [track_reports window_reports fst snd]. destruct (HandleTrack i t ts n) as [t' ret].
    destruct (window_step i w (ts, n)) as [w' [r|]]; destruct Hstep as (Ht' & Eb & Hr).
    - destruct Hr as [-> <-]. cbn. f_equal. apply IH; [done|lia].
    - subst ret. cbn. apply IH; [done|lia]. }
  apply G; [|exact Hsum]. unfold tracks. cbn. split_and!; try done.
Qed.

(** ** [WaitBasedOnTimestamp] *)

Record WaitBasedOnTimestamp : Type := mkWait { first_pkt_ts_ : Z; first_sys_ts_ : Z; last_pkt_ts_ : Z }.
Definition wait_Reset : WaitBasedOnTimestamp := mkWait (-1) (-1) (-1).
Definition PACKET_DIFF_MAX_MS : Z := 5 * 1000.

Section wait.
(** The readings of the system clock during this call; it may be set back between them. *)
Context (clock : nat -> Z).

(** [(now_ms - first_sys_ts_) - (pkt_ts - first_pkt_ts_)] at a reading, in [int64_t]. *)
Definition wait_diff (now_ms first_sys first_pkt pkt_ts : Z) : res Z :=
  a ← chk_int64 (now_ms - first_sys); b ← chk_int64 (pkt_ts - first_pkt); chk_int64 (a - b).

(** The [while] loop: the number of sleeps at its end, [None] when it goes on past [fuel]. *)
Fixpoint wait_loop (fuel : nat) (sleeps : nat) (first_sys first_pkt pkt_ts : Z) : res (option nat) :=
  diff_t ← wait_diff (clock sleeps) first_sys first_pkt pkt_ts;
  if diff_t <? 30 then
    match fuel with O => Ok None | S fuel => wait_loop fuel (S sleeps) first_sys first_pkt pkt_ts end
  else Ok (Some sleeps).

(** The new state and the sleeps, in milliseconds. *)
Definition Wait (fuel : nat) (s : WaitBasedOnTimestamp) (pkt_ts : Z) : res (option (WaitBasedOnTimestamp * list Z)) :=
  let now_ms := clock 0 in
  if first_pkt_ts_ s <=? 0 then Ok (Some (mkWait pkt_ts now_ms pkt_ts, []))
  else
    diff_t ← chk_int64 (if last_pkt_ts_ s <? pkt_ts then pkt_ts - last_pkt_ts_ s else last_pkt_ts_ s - pkt_ts);
    if PACKET_DIFF_MAX_MS <? diff_t then Ok (Some (mkWait pkt_ts now_ms pkt_ts, [5]))
    else
      o ← wait_loop fuel 0 (first_sys_ts_ s) (first_pkt_ts_ s) pkt_ts;
      match o with
      | Some n => Ok (Some (s <| last_pkt_ts_ := pkt_ts |>, replicate n 10))
      | None => Ok None
      end.

(** Far from the ends of [int64_t], so that no difference of differences leaves it. *)
Definition mid_int64 (z : Z) : Prop := Z.abs z < 2 ^ 61.
Context (Hclock : forall n, mid_int64 (clock n)).

Lemma wait_diff_ok k fs fp ts : mid_int64 fs -> mid_int64 fp -> mid_int64 ts ->
  wait_diff (clock k) fs fp ts = Ok (clock k - fs - (ts - fp)).
Proof.
  intros H1 H2 H3. pose proof (Hclock k) as H0. unfold mid_int64 in *. unfold wait_diff.
  rewrite (chk_int64_ok (clock k - fs)) by lia. cbn [mbind res_bind]. rewrite (chk_int64_ok (ts - fp)) by lia.
  cbn [mbind res_bind]. apply chk_int64_ok. lia.
Qed.

Section loop.
Context (fs fp ts : Z) (Hfs : mid_int64 fs) (Hfp : mid_int64 fp) (Hts : mid_int64 ts).
Let due := fs + (ts - fp).

Lemma wait_loop_ends n fuel : forall k, (n <= fuel)%nat -> due + 30 <= clock (k + n)%nat ->
  (forall j, (j < n)%nat -> clock (k + j)%nat < due + 30) -> wait_loop fuel k fs fp ts = Ok (Some (k + n)%nat).
Proof.
  revert fuel; induction n as [|n IH]; intros fuel k Hf Hd Hj.
  - rewrite Nat.add_0_r in *. destruct fuel; cbn [wait_loop]; rewrite wait_diff_ok by done; cbn [mbind res_bind];
      rewrite (proj2 (Z.ltb_ge _ _)) by lia; done.
  - destruct fuel as [|fuel]; [lia|]. cbn [wait_loop]. rewrite wait_diff_ok by done. cbn [mbind res_bind].
    pose proof (Hj 0%nat ltac:(lia)) as H0. rewrite Nat.add_0_r in H0. rewrite (proj2 (Z.ltb_lt _ _)) by lia.
    rewrite (IH fuel (S k)); [f_equal; f_equal; lia|lia|replace (S k + n)%nat with (k + S n)%nat by lia; done|].
    intros j Hjn. replace (S k + j)%nat with (k + S j)%nat by lia. apply Hj. lia.
Qed.
Lemma wait_loop_goes_on fuel : forall k, (forall j, clock j < due + 30) -> wait_loop fuel k fs fp ts = Ok None.
Proof.
  induction fuel as [|fuel IH]; intros k Hj; cbn [wait_loop]; rewrite wait_diff_ok by done; cbn [mbind res_bind];
    pose proof (Hj k); rewrite (proj2 (Z.ltb_lt _ _)) by lia; [done|by apply IH].
Qed.
End loop.

(** The first reading that is not before [t]. *)
Lemma first_reading t m : t <= clock m -> exists n, (n <= m)%nat /\ t <= clock n /\ forall j, (j < n)%nat -> clock j < t.
Proof.
  intros Hm. assert (H : forall k, (exists n, (n <= k)%nat /\ t <= clock n /\ forall j, (j < n)%nat -> clock j < t) \/
    forall j, (j <= k)%nat -> clock j < t).
  { induction k as [|k [(n & Hn & H)|H]].
    - destruct (Z.le_gt_cases t (clock 0%nat)); [left; exists 0%nat; split_and!; [lia|done|lia]|].
      right. intros j Hj. replace j with 0%nat by lia. lia.
    - left. exists n. split; [lia|done].
    - destruct (Z.le_gt_cases t (clock (S k))); [left; exists (S k); split_and!; [lia|done|intros; apply H; lia]|].
      right. intros j Hj. destruct (Nat.eq_dec j (S k)) as [->|]; [lia|apply H; lia]. }
  destruct (H m) as [(n & Hn & Hd & Hj)|H']; [by exists n|]. specialize (H' m ltac:(lia)). lia.
Qed.
End wait.

(** C38: what [Wait] does, whatever the system clock reads, it may be set back.  The first packet (any packet as
    long as the first timestamp is not positive) and a packet more than 5 s away from the one before start a new
    base and return, the latter after one sleep of 5 ms.  Every other packet waits in sleeps of 10 ms until the
    first clock reading that is at least 30 ms past its due time, and returns then; when no reading ever is, it
    does not return.  Times further than 2^61 ms from the epoch are left out: the differences may overflow. *)
Theorem Wait_paces (clock : nat -> Z) (s : WaitBasedOnTimestamp) (ts : Z)
  (Hclock : forall n, mid_int64 (clock n)) (Hts : mid_int64 ts)
  (Hs : mid_int64 (first_pkt_ts_ s) /\ mid_int64 (first_sys_ts_ s) /\ mid_int64 (last_pkt_ts_ s)) :
  let due := first_sys_ts_ s + (ts - first_pkt_ts_ s) in
  let base := mkWait ts (clock 0%nat) ts in
  if decide (first_pkt_ts_ s <= 0) then forall fuel, Wait clock fuel s ts = Ok (Some (base, []))
  else if decide (PACKET_DIFF_MAX_MS < Z.abs (ts - last_pkt_ts_ s)) then forall fuel, Wait clock fuel s ts = Ok (Some (base, [5]))
  else
    (forall m, due + 30 <= clock m -> exists n, (n <= m)%nat /\ due + 30 <= clock n /\ (forall j, (j < n)%nat -> clock j < due + 30) /\
       forall fuel, (n <= fuel)%nat -> Wait clock fuel s ts = Ok (Some (s <| last_pkt_ts_ := ts |>, replicate n 10))) /\
    ((forall m, clock m < due + 30) -> forall fuel, Wait clock fuel s ts = Ok None).
Proof.
  destruct Hs as (Hfp & Hfs & Hlp). intros due base.
  assert (E : forall fuel, 0 < first_pkt_ts_ s -> Wait clock fuel s ts =
    if PACKET_DIFF_MAX_MS <? Z.abs (ts - last_pkt_ts_ s) then Ok (Some (base, [5]))
    else o ← wait_loop clock fuel 0 (first_sys_ts_ s) (first_pkt_ts_ s) ts;
      match o with Some n => Ok (Some (s <| last_pkt_ts_ := ts |>, replicate n 10)) | None => Ok None end).
  { intros fuel H. unfold Wait. rewrite (proj2 (Z.leb_gt _ _)) by done.
    replace (if last_pkt_ts_ s <? ts then ts - last_pkt_ts_ s else last_pkt_ts_ s - ts) with (Z.abs (ts - last_pkt_ts_ s))
      by (destruct (Z.ltb_spec (last_pkt_ts_ s) ts); lia).
    unfold mid_int64 in *. rewrite chk_int64_ok by lia. done. }
  destruct (decide (first_pkt_ts_ s <= 0)) as [Hz|Hz].
  { intros fuel. unfold Wait. rewrite (proj2 (Z.leb_le _ _)) by done. done. }
  destruct (decide (PACKET_DIFF_MAX_MS < Z.abs (ts - last_pkt_ts_ s))) as [Hj|Hj].
  { intros fuel. rewrite E, (proj2 (Z.ltb_lt _ _)) by lia. done. }
  rewrite <- Z.le_ngt in Hj. split.
  - intros m Hm. destruct (first_reading clock (due + 30) m Hm) as (n & Hn & Hd & Hb). exists n. split_and!; [done..|].
    intros fuel Hf. rewrite E, (proj2 (Z.ltb_ge _ _)) by lia.
    rewrite (wait_loop_ends clock Hclock (first_sys_ts_ s) (first_pkt_ts_ s) ts Hfs Hfp Hts n fuel 0 Hf Hd Hb). done.
  - intros Hm fuel. rewrite E, (proj2 (Z.ltb_ge _ _)) by lia.
    rewrite (wait_loop_goes_on clock Hclock (first_sys_ts_ s) (first_pkt_ts_ s) ts Hfs Hfp Hts fuel 0 Hm). done.
Qed.

(** A stream whose timestamps start at 0 is not paced: the first packet does not count as one. *)
Lemma Wait_zero_start clock fuel ts : exists s,
  Wait clock fuel wait_Reset 0 = Ok (Some (s, [])) /\ Wait clock 0 s ts = Ok (Some (mkWait ts (clock 0%nat) ts, [])).
Proof. eexists. split; reflexivity. Qed.
(** Timestamps at both ends of their range. *)
Example Wait_overflows clock : Wait clock 0 (mkWait 1 0 (- 2 ^ 62)) (2 ^ 62) = Undef.
Proof. reflexivity. Qed.

(** ** Witnesses *)

Lemma MediaStatics_reports_witness :
  let pkts := [(100, 500); (1100, 1500); (2100, 1000); (2600, 10); (4700, 990)] in
  track_reports (interval_ (MediaStatics_new 0)) TrackStatics_new pkts =
    window_reports (interval_ (MediaStatics_new 0)) (mkWindow None []) pkts /\
  track_reports (interval_ (MediaStatics_new 0)) TrackStatics_new pkts = [(12, 1); (3, 1)].
Proof.
  split; [|vm_compute; reflexivity].
  apply (MediaStatics_reports 0 [(100, 500); (1100, 1500); (2100, 1000); (2600, 10); (4700, 990)]); [|vm_compute; reflexivity].
  repeat (apply Forall_cons; split; [cbn; lia|]). apply Forall_nil. exact I.
Defined.

(** A clock that is set back after its third reading. *)
Definition demo_clock (n : nat) : Z := if decide (n < 3)%nat then 50050 + 10 * Z.of_nat n else 50040 + 10 * Z.of_nat (Nat.min n 10).
Lemma Wait_paces_witness :
  let s := mkWait 1000 50000 1040 in
  (exists n, (n <= 10)%nat /\ 50110 <= demo_clock n /\ (forall j, (j < n)%nat -> demo_clock j < 50110) /\
     forall fuel, (n <= fuel)%nat -> Wait demo_clock fuel s 1080 = Ok (Some (s <| last_pkt_ts_ := 1080 |>, replicate n 10))) /\
  ((forall m, demo_clock m < 50110) -> forall fuel, Wait demo_clock fuel s 1080 = Ok None).
Proof.
  assert (Hc : forall n, mid_int64 (demo_clock n)) by (intros n; unfold mid_int64, demo_clock; destruct (decide (n < 3)%nat); lia).
  pose proof (Wait_paces demo_clock (mkWait 1000 50000 1040) 1080 Hc ltac:(unfold mid_int64; lia)
    ltac:(unfold mid_int64; cbn; lia)) as H.
  cbv zeta in H. rewrite decide_False in H by (cbn; lia). rewrite decide_False in H by (cbn; unfold PACKET_DIFF_MAX_MS; lia).
  destruct H as [H1 H2]. split; [apply (H1 10%nat); vm_compute; discriminate|exact H2].
Defined.
