(* ===== verification/Double.v ===== *)
(** [double]: IEEE 754 binary64 with rounding to nearest even, on the Standard Library's executable
    [spec_float] (precision 53, largest exponent 1024), the conversions C++ makes between doubles
    and integers, [std::round], and the bits of a double ([AV_INT_FLOAT64] of
    utils/byte_stream.hpp).  The lemmas say when a product, a quotient or a conversion is exact. *)
From S2P Require Import Prelude.
From Stdlib Require Import Floats.SpecFloat.

Abbreviation double := spec_float.

(** An integer converted to [double], and the operators [*] and [/]. *)
Definition of_int (z : Z) : double := binary_normalize 53 1024 z 0 false.
Definition dmul (x y : double) : double := SFmul 53 1024 x y.
Definition ddiv (x y : double) : double := SFdiv 53 1024 x y.

Definition magnitude_trunc (m : positive) (e : Z) : Z :=
  if 0 <=? e then Zpos m * 2 ^ e else Zpos m / 2 ^ (- e).
(** Half away from zero. *)
Definition magnitude_round (m : positive) (e : Z) : Z :=
  if 0 <=? e then Zpos m * 2 ^ e else (2 * Zpos m + 2 ^ (- e)) / 2 ^ (1 - e).

(** The integer a conversion or [std::round] yields; a NaN or an infinity has none. *)
Definition to_integer (mag : positive -> Z -> Z) (x : double) : res Z :=
  match x with
  | S754_zero _ => Ok 0
  | S754_finite s m e => Ok (if s then - mag m e else mag m e)
  | _ => Undef
  end.

(** [(uint32_t)x]: undefined when the integral part does not fit. *)
Definition to_u32 (x : double) : res Z :=
  n ← to_integer magnitude_trunc x; guard_res ((0 <=? n) && (n <? 2 ^ 32)) ;; Ok n.
(** [(int64_t)std::round(x)]. *)
Definition round_s64 (x : double) : res Z := n ← to_integer magnitude_round x; chk_int64 n.

(** ** The bits of a double: sign, eleven bits of exponent, 52 bits of fraction *)

Definition ByteInt2Double (i : Z) : double :=
  let s := Z.testbit i 63 in
  let e := Z.shiftr i 52 mod 2 ^ 11 in
  let f := i mod 2 ^ 52 in
  if e =? 2 ^ 11 - 1 then (if f =? 0 then S754_infinity s else S754_nan)
  else if e =? 0 then (if f =? 0 then S754_zero s else S754_finite s (Z.to_pos f) (-1074))
  else S754_finite s (Z.to_pos (2 ^ 52 + f)) (e - 1075).

(** The one NaN of [spec_float] is written as the quiet NaN without payload. *)
Definition ByteDouble2Int (x : double) : Z :=
  let bits (s : bool) (e f : Z) := Z.b2z s * 2 ^ 63 + e * 2 ^ 52 + f in
  match x with
  | S754_zero s => bits s 0 0
  | S754_infinity s => bits s (2 ^ 11 - 1) 0
  | S754_nan => bits false (2 ^ 11 - 1) (2 ^ 51)
  | S754_finite s m e =>
      if Zpos m <? 2 ^ 52 then bits s 0 (Zpos m) else bits s (e + 1075) (Zpos m - 2 ^ 52)
  end.

Lemma bits_split i : 0 <= i < 2 ^ 64 ->
  i = Z.b2z (Z.testbit i 63) * 2 ^ 63 + (Z.shiftr i 52 mod 2 ^ 11) * 2 ^ 52 + i mod 2 ^ 52.
Proof.
  intros H. rewrite Z.testbit_spec' by lia. rewrite Z.shiftr_div_pow2 by lia.
  pose proof (Z.div_mod i (2 ^ 52) ltac:(lia)) as E.
  pose proof (Z.div_mod (i / 2 ^ 52) (2 ^ 11) ltac:(lia)) as E2.
  rewrite Z.div_div in E2 by lia. change (2 ^ 52 * 2 ^ 11) with (2 ^ 63) in E2.
  rewrite (Z.mod_small (i / 2 ^ 63) 2).
  2:{ split; [apply Z.div_pos; lia|]. apply Z.div_lt_upper_bound; lia. }
  change (2 ^ 63) with (2 ^ 52 * 2 ^ 11) at 2. lia.
Qed.

(** Every pattern that is not a NaN comes back. *)
Lemma ByteDouble2Int_Int2Double i : 0 <= i < 2 ^ 64 ->
  ByteInt2Double i <> S754_nan -> ByteDouble2Int (ByteInt2Double i) = i.
Proof.
  intros H Hn. pose proof (bits_split i H) as E. unfold ByteInt2Double in *.
  pose proof (Z.mod_pos_bound i (2 ^ 52) ltac:(lia)) as Hf.
  pose proof (Z.mod_pos_bound (Z.shiftr i 52) (2 ^ 11) ltac:(lia)) as He.
  set (s := Z.testbit i 63) in *. set (e := Z.shiftr i 52 mod 2 ^ 11) in *. set (f := i mod 2 ^ 52) in *.
  clearbody s e f.
  destruct (Z.eqb_spec e (2 ^ 11 - 1)); [destruct (Z.eqb_spec f 0); [|done]|
    destruct (Z.eqb_spec e 0); [destruct (Z.eqb_spec f 0)|]]; cbn [ByteDouble2Int];
    rewrite ?Z2Pos.id by lia; zbool; lia.
Qed.

Lemma digits2_log2 p : Zpos (digits2_pos p) = Z.log2 (Zpos p) + 1.
Proof.
  induction p as [p IH|p IH|]; cbn [digits2_pos]; [| |done]; rewrite Pos2Z.inj_succ, IH.
  - rewrite (Pos2Z.inj_xI p), Z.log2_succ_double by lia. lia.
  - rewrite (Pos2Z.inj_xO p), Z.log2_double by lia. lia.
Qed.

Lemma log2_range (p : positive) : 2 ^ Z.log2 (Zpos p) <= Zpos p < 2 ^ (Z.log2 (Zpos p) + 1).
Proof. apply (Z.log2_spec (Zpos p)). lia. Qed.

(** A finite double is subnormal, with the least exponent, or has exactly 53 bits. *)
Lemma valid_finite s m e : valid_binary 53 1024 (S754_finite s m e) = true ->
  (Zpos m < 2 ^ 52 /\ e = -1074) \/ (2 ^ 52 <= Zpos m < 2 ^ 53 /\ -1074 <= e <= 971).
Proof.
  cbn [valid_binary]. unfold bounded, canonical_mantissa, fexp, emin.
  rewrite andb_true_iff, Z.eqb_eq, Z.leb_le, digits2_log2. intros [E He].
  pose proof (log2_range m) as [Hl Hr]. pose proof (Z.log2_nonneg (Zpos m)).
  destruct (Z.le_gt_cases (Z.log2 (Zpos m)) 51).
  - left. split; [|lia]. eapply Z.lt_le_trans; [exact Hr|]. apply Z.pow_le_mono_r; lia.
  - right. assert (Z.log2 (Zpos m) = 52) as E2 by lia. rewrite E2 in *. lia.
Qed.

Lemma testbit_63 s r : 0 <= r < 2 ^ 63 -> Z.testbit (Z.b2z s * 2 ^ 63 + r) 63 = s.
Proof.
  intros H. rewrite Z.testbit_odd, Z.shiftr_div_pow2, Z.add_comm, Z.div_add, Z.div_small by lia. by destruct s.
Qed.

(** The three fields of the bits built from them. *)
Lemma ByteInt2Double_fields s e f : 0 <= e < 2 ^ 11 -> 0 <= f < 2 ^ 52 ->
  let i := Z.b2z s * 2 ^ 63 + e * 2 ^ 52 + f in
  Z.testbit i 63 = s /\ Z.shiftr i 52 mod 2 ^ 11 = e /\ i mod 2 ^ 52 = f.
Proof.
  intros He Hf i. unfold i. split_and!.
  - rewrite <- Z.add_assoc. apply testbit_63. lia.
  - rewrite Z.shiftr_div_pow2 by lia.
    replace (_ + f) with (f + (e + Z.b2z s * 2 ^ 11) * 2 ^ 52) by (change (2 ^ 63) with (2 ^ 11 * 2 ^ 52); lia).
    rewrite Z.div_add, (Z.div_small f), Z.add_0_l, Z.mod_add, Z.mod_small by lia. done.
  - replace (_ + f) with (f + (e + Z.b2z s * 2 ^ 11) * 2 ^ 52) by (change (2 ^ 63) with (2 ^ 11 * 2 ^ 52); lia).
    rewrite Z.mod_add, Z.mod_small by lia. done.
Qed.

(** Every double that is not a NaN comes back. *)
Lemma ByteInt2Double_Double2Int x : valid_binary 53 1024 x = true -> x <> S754_nan ->
  ByteInt2Double (ByteDouble2Int x) = x.
Proof.
  intros Hv Hn. unfold ByteInt2Double. destruct x as [s|s| |s m e]; cbn [ByteDouble2Int]; [| |done|].
  - destruct (ByteInt2Double_fields s 0 0) as (-> & -> & ->); [lia|lia|]. done.
  - destruct (ByteInt2Double_fields s (2 ^ 11 - 1) 0) as (-> & -> & ->); [lia|lia|]. done.
  - apply valid_finite in Hv as [[Hm ->]|[Hm He]].
    + destruct (Z.ltb_spec (Zpos m) (2 ^ 52)); [|lia].
      destruct (ByteInt2Double_fields s 0 (Zpos m)) as (-> & -> & ->); [lia|lia|]. done.
    + destruct (Z.ltb_spec (Zpos m) (2 ^ 52)); [lia|].
      destruct (ByteInt2Double_fields s (e + 1075) (Zpos m - 2 ^ 52)) as (-> & -> & ->); [lia|lia|].
      zbool; try lia. f_equal; lia.
Qed.

(** ** Exact arithmetic *)

(** The double [p * 2 ^ e], its mantissa shifted to 53 bits. *)
Definition exactly (p : positive) (e : Z) : double :=
  let sh := 52 - Z.log2 (Zpos p) in S754_finite false (Z.to_pos (Zpos p * 2 ^ sh)) (e - sh).

(** Shifting out zeros loses nothing. *)
Lemma iter_pos_add {A} (f : A -> A) n x : iter_pos f n x = Pos.iter f x n.
Proof.
  revert x. induction n as [n IH|n IH|]; intros x; cbn [iter_pos Pos.iter]; rewrite ?IH; [|done|done].
  rewrite <- !Pos.iter_swap. done.
Qed.

Lemma shr_exact n k e : 0 <= n ->
  shr (shr_record_of_loc (Zpos k * 2 ^ n) loc_Exact) e n = (shr_record_of_loc (Zpos k) loc_Exact, e + n).
Proof.
  intros Hn. destruct n as [|n|n]; [rewrite Z.mul_1_r, Z.add_0_r; done| |lia].
  unfold shr. cbn [shr_record_of_loc]. rewrite iter_pos_add. f_equal. clear Hn. revert k.
  induction n as [|n IH] using Pos.peano_ind; intros k.
  - replace (Zpos k * 2 ^ 1) with (Zpos (xO k)) by lia. done.
  - rewrite Pos.iter_succ, Pos2Z.inj_succ, Z.pow_succ_r by lia.
    replace (Zpos k * (2 * 2 ^ Zpos n)) with (Zpos (xO k) * 2 ^ Zpos n) by lia. rewrite IH. done.
Qed.

Lemma shr_fexp_exact k e n : 0 <= n -> fexp 53 1024 (Z.log2 (Zpos k * 2 ^ n) + 1 + e) - e = n ->
  shr_fexp 53 1024 (Zpos k * 2 ^ n) e loc_Exact = (shr_record_of_loc (Zpos k) loc_Exact, e + n).
Proof.
  intros Hn He. unfold shr_fexp. pose proof (Z.pow_pos_nonneg 2 n ltac:(lia) Hn) as Hp.
  assert (Zdigits2 (Zpos k * 2 ^ n) = Z.log2 (Zpos k * 2 ^ n) + 1) as ->.
  { destruct (Zpos k * 2 ^ n) as [|q|q] eqn:E; [lia|apply digits2_log2|lia]. }
  rewrite He. apply shr_exact, Hn.
Qed.

(** Rounding a mantissa that has enough zeros at its end. *)
Lemma round_exact p a e : Z.log2 (Zpos p) <= 52 -> 52 - Z.log2 (Zpos p) <= a ->
  -1022 <= Z.log2 (Zpos p) + e + a <= 1023 ->
  binary_round_aux 53 1024 false (Zpos p * 2 ^ a) e loc_Exact = exactly p (e + a).
Proof.
  intros Hp Ha He. unfold exactly. set (sh := 52 - Z.log2 (Zpos p)) in *.
  assert (Hsh : Z.log2 (Zpos p * 2 ^ sh) = 52) by (rewrite Z.log2_mul_pow2; lia).
  pose proof (Z.pow_pos_nonneg 2 sh ltac:(lia) ltac:(lia)) as Hpos.
  destruct (Zpos p * 2 ^ sh) as [|k|k] eqn:Ek; [lia| |lia].
  replace (Zpos p * 2 ^ a) with (Zpos k * 2 ^ (a - sh)).
  2:{ rewrite <- Ek, <- Z.mul_assoc, <- Z.pow_add_r by lia. do 2 f_equal. lia. }
  unfold binary_round_aux. rewrite shr_fexp_exact; [|lia|].
  2:{ rewrite Z.log2_mul_pow2 by lia. unfold fexp, emin. lia. }
  cbn [shr_record_of_loc shr_m loc_of_shr_record round_nearest_even].
  pose proof (shr_fexp_exact k (e + (a - sh)) 0 ltac:(lia)) as E. rewrite Z.mul_1_r in E.
  rewrite E by (unfold fexp, emin; lia). cbn [shr_record_of_loc shr_m].
  destruct (Z.leb_spec (e + (a - sh) + 0) (1024 - 53)); [|lia]. cbn [Z.to_pos]. f_equal. lia.
Qed.

Lemma iter_xO p d : Zpos (Pos.iter xO p d) = Zpos p * 2 ^ Zpos d.
Proof.
  induction d as [|d IH] using Pos.peano_ind; [cbn; lia|].
  rewrite Pos.iter_succ, Pos2Z.inj_succ, Z.pow_succ_r by lia. lia.
Qed.

(** An integer of at most 53 bits converts exactly. *)
Lemma of_int_exact p : Z.log2 (Zpos p) <= 52 -> of_int (Zpos p) = exactly p 0.
Proof.
  intros Hp. unfold of_int. cbn [binary_normalize]. unfold binary_round, shl_align.
  pose proof (Z.log2_nonneg (Zpos p)). rewrite digits2_log2.
  assert (fexp 53 1024 (Z.log2 (Zpos p) + 1 + 0) = - (52 - Z.log2 (Zpos p))) as -> by (unfold fexp, emin; lia).
  rewrite Z.sub_0_r. destruct (52 - Z.log2 (Zpos p)) as [|d|d] eqn:E; [| |lia].
  - pose proof (round_exact p 0 0) as R. rewrite Z.mul_1_r in R. apply R; lia.
  - change (- Zpos d) with (Zneg d). cbv beta iota. change (PosDef.Pos.iter xO p d) with (Pos.iter xO p d).
    rewrite iter_xO, round_exact by lia. f_equal. lia.
Qed.

Lemma exactly_mantissa p : Z.log2 (Zpos p) <= 52 ->
  Zpos (Z.to_pos (Zpos p * 2 ^ (52 - Z.log2 (Zpos p)))) = Zpos p * 2 ^ (52 - Z.log2 (Zpos p)).
Proof. intros H. apply Z2Pos.id. pose proof (Z.pow_pos_nonneg 2 (52 - Z.log2 (Zpos p))). lia. Qed.

(** A product of at most 53 bits is exact. *)
Lemma dmul_exact p q e f : Z.log2 (Zpos (p * q)) <= 52 -> -1022 <= Z.log2 (Zpos (p * q)) + e + f <= 1023 ->
  dmul (exactly p e) (exactly q f) = exactly (p * q) (e + f).
Proof.
  intros Hpq He. pose proof (Z.log2_mul_above (Zpos p) (Zpos q) ltac:(lia) ltac:(lia)) as Hab.
  pose proof (Z.log2_mul_below (Zpos p) (Zpos q) ltac:(lia) ltac:(lia)) as Hbe.
  pose proof (Z.log2_nonneg (Zpos p)). pose proof (Z.log2_nonneg (Zpos q)).
  rewrite Pos2Z.inj_mul in Hpq.
  unfold dmul. unfold exactly at 1 2. cbn [SFmul xorb]. rewrite Pos2Z.inj_mul, !exactly_mantissa by lia.
  replace (_ * _ * (_ * _)) with
    (Zpos (p * q) * 2 ^ ((52 - Z.log2 (Zpos p)) + (52 - Z.log2 (Zpos q)))) by (rewrite Z.pow_add_r by lia; lia).
  rewrite round_exact by (rewrite Pos2Z.inj_mul in *; lia). f_equal. lia.
Qed.

(** Dividing by a power of two only moves the exponent. *)
Lemma ddiv_pow2_exact p e f : Z.log2 (Zpos p) <= 52 -> -800 <= e <= 800 -> -100 <= f <= 100 ->
  ddiv (exactly p e) (exactly 1 f) = exactly p (e - f).
Proof.
  intros Hp He Hf. pose proof (Z.log2_nonneg (Zpos p)). pose proof (exactly_mantissa p Hp) as EM.
  unfold ddiv. unfold exactly at 1 2. cbn [SFdiv xorb]. set (M := Z.to_pos _) in *.
  unfold SFdiv_core_binary. cbn [Zdigits2]. rewrite !digits2_log2, EM, Z.log2_mul_pow2 by lia.
  change (Z.log2 (Zpos 1)) with 0. change (Zpos (Z.to_pos (1 * 2 ^ (52 - 0)))) with (2 ^ 52).
  change (Z.log2 (2 ^ 52)) with 52.
  set (sh := 52 - Z.log2 (Zpos p)) in *. replace (sh + Z.log2 (Zpos p)) with 52 by lia.
  assert (Z.min (fexp 53 1024 (52 + 1 + (e - sh) - (52 + 1 + (f - (52 - 0))))) (e - sh - (f - (52 - 0)))
    = e - sh - (f - (52 - 0)) - 53) as -> by (unfold fexp, emin; lia).
  match goal with |- context [match ?s with Z0 => _ | _ => _ end] => replace s with 53 by lia end.
  rewrite Z.shiftl_mul_pow2 by lia.
  destruct (Z.div_eucl (Zpos p * 2 ^ sh * 2 ^ 53) (2 ^ 52)) as [q r] eqn:E.
  assert (q = Zpos p * 2 ^ (sh + 1) /\ r = 0) as [-> ->].
  { assert (Zpos p * 2 ^ sh * 2 ^ 53 = Zpos p * 2 ^ (sh + 1) * 2 ^ 52) as Em.
    { rewrite Z.pow_add_r by lia. change (2 ^ 53) with (2 * 2 ^ 52). change (2 ^ 1) with 2. lia. }
    rewrite Em in E. clear Em. pose proof (Z.div_mul (Zpos p * 2 ^ (sh + 1)) (2 ^ 52) ltac:(lia)) as Ed.
    pose proof (Z.mod_mul (Zpos p * 2 ^ (sh + 1)) (2 ^ 52) ltac:(lia)) as Er.
    unfold Z.div in Ed. unfold Z.modulo in Er. rewrite E in Ed, Er. done. }
  change (new_location (2 ^ 52) 0) with loc_Exact. rewrite round_exact by lia. f_equal. lia.
Qed.

Lemma trunc_exactly p e : Z.log2 (Zpos p) <= 52 -> e <= 0 ->
  to_integer magnitude_trunc (exactly p e) = Ok (Zpos p / 2 ^ (- e)).
Proof.
  intros Hp He. unfold exactly, to_integer, magnitude_trunc. rewrite exactly_mantissa by done. f_equal.
  set (sh := 52 - Z.log2 (Zpos p)). destruct (Z.leb_spec 0 (e - sh)).
  - replace e with 0 by lia. replace sh with 0 by lia. rewrite !Z.mul_1_r, Z.div_1_r. done.
  - replace (- (e - sh)) with (- e + sh) by lia. rewrite Z.pow_add_r by lia.
    apply Z.div_mul_cancel_r; apply Z.pow_nonzero; lia.
Qed.

Lemma round_exactly p e : Z.log2 (Zpos p) <= 52 -> e < 0 ->
  to_integer magnitude_round (exactly p e) = Ok ((Zpos p + 2 ^ (- e - 1)) / 2 ^ (- e)).
Proof.
  intros Hp He. unfold exactly, to_integer, magnitude_round. rewrite exactly_mantissa by done. f_equal.
  set (sh := 52 - Z.log2 (Zpos p)). destruct (Z.leb_spec 0 (e - sh)); [lia|].
  replace (- (e - sh)) with (1 + (- e - 1) + sh) by lia. replace (1 - (e - sh)) with (1 + (- e) + sh) by lia.
  rewrite !(Z.pow_add_r 2 _ sh), !(Z.pow_add_r 2 1) by lia. change (2 ^ 1) with 2.
  replace (2 * (Zpos p * 2 ^ sh) + 2 * 2 ^ (- e - 1) * 2 ^ sh) with ((Zpos p + 2 ^ (- e - 1)) * (2 * 2 ^ sh)) by lia.
  replace (2 * 2 ^ (- e) * 2 ^ sh) with (2 ^ (- e) * (2 * 2 ^ sh)) by lia.
  apply Z.div_mul_cancel_r; [apply Z.pow_nonzero; lia|]. pose proof (Z.pow_pos_nonneg 2 sh). lia.
Qed.
