(* ===== verification/Time.v ===== *)
(** The clock and the NTP conversions of utils/timeex.hpp.  The readings of the clocks and the broken
    down local time are arguments; the arithmetic in [double] is that of [Double]. *)
From S2P Require Import Prelude StdText Double.

(** ** Clocks: the library's durations are counts of nanoseconds, [duration_cast] truncates *)

Definition now_millisec (system_ns : Z) : Z := Z.quot system_ns 1000000.
Definition now_microsec (steady_ns : Z) : Z := Z.quot steady_ns 1000.

(** What [localtime] returns, and [%0<w>d] of [sprintf]. *)
Record tm := { tm_year : Z; tm_mon : Z; tm_mday : Z; tm_hour : Z; tm_min : Z; tm_sec : Z }.

Definition format_0d (w n : Z) : bytes :=
  let ds := to_string (Z.abs n) in
  let sign := if n <? 0 then [45] else [] in
  sign ++ replicate (Z.to_nat (w - Zlen sign - Zlen ds)) 48 ++ ds.

(** The text is written to a block of 80 characters, with its final zero. *)
Definition get_now_str (now : tm) (system_ns : Z) : res bytes :=
  let now_ms := Z.rem (now_millisec system_ns) 1000 in
  let text := format_0d 4 (tm_year now + 1900) ++ [45] ++ format_0d 2 (tm_mon now) ++ [45] ++
    format_0d 2 (tm_mday now) ++ [32] ++ format_0d 2 (tm_hour now) ++ [58] ++ format_0d 2 (tm_min now) ++ [58] ++
    format_0d 2 (tm_sec now) ++ [46] ++ format_0d 3 (Z.rem now_ms 1000) in
  guard_res (Zlen text <? 80) ;; Ok text.

(** ** NTP time stamps *)

Definition NTP_FRACT_UNIT : Z := 2 ^ 32.
Record NTP_TIMESTAMP := { ntp_sec : Z; ntp_frac : Z }.

(** The cast in [(uint32_t)ms / 1000] applies to [ms]. *)
Definition millisec_to_ntp (ms : Z) : res NTP_TIMESTAMP :=
  frac ← to_u32 (dmul (ddiv (of_int (Z.rem ms 1000)) (of_int 1000)) (of_int NTP_FRACT_UNIT));
  Ok {| ntp_sec := u32 ms / 1000; ntp_frac := frac |}.

Definition ntp_to_millisec (ntp : NTP_TIMESTAMP) : res Z :=
  frac ← round_s64 (ddiv (dmul (of_int (ntp_frac ntp)) (of_int 1000)) (of_int NTP_FRACT_UNIT));
  chk_int64 (ntp_sec ntp * 1000 + frac).

(** The 24-bit send time of an RTP header extension, in units of 2^-18 seconds. *)
Definition abs_time_to_ms (abs_time_24bits : Z) : double :=
  let kTimestampToMs := ddiv (of_int 1000) (of_int (Z.shiftl 1 (18 + 8))) in
  let timestamp := u32 (Z.shiftl abs_time_24bits 8) in
  dmul (of_int timestamp) kTimestampToMs.

(** ** The text of the time *)

Lemma format_0d_len w n : 0 <= n < 10 ^ Z.of_nat w -> (0 < w <= 20)%nat ->
  Zlen (format_0d (Z.of_nat w) n) = Z.of_nat w.
Proof.
  intros Hn Hw. pose proof (to_string_len w n Hn Hw). unfold format_0d.
  destruct (Z.ltb_spec n 0); [lia|]. rewrite Z.abs_eq by lia. cbn [app].
  rewrite Zlen_app, Zlen_nil, Zlen_replicate. lia.
Qed.

(** The fields of a time of the calendar fill the text exactly; the month is the zero-based one. *)
Lemma get_now_str_spec y mo d h mi s ns :
  0 <= y + 1900 < 10000 -> 0 <= mo < 12 -> 1 <= d <= 31 -> 0 <= h < 24 -> 0 <= mi < 60 -> 0 <= s <= 60 -> 0 <= ns ->
  exists text, get_now_str (Build_tm y mo d h mi s) ns = Ok text /\ Zlen text = 23 /\
    exists rest, text = format_0d 4 (y + 1900) ++ [45] ++ format_0d 2 mo ++ [45] ++ rest.
Proof.
  intros. unfold get_now_str. cbn [tm_year tm_mon tm_mday tm_hour tm_min tm_sec].
  pose proof (Z.rem_bound_pos (now_millisec ns) 1000 ltac:(apply Z.quot_pos; lia) ltac:(lia)) as Hr.
  set (ms := Z.rem (now_millisec ns) 1000) in *. rewrite (Z.rem_small ms) by lia.
  match goal with |- context [guard_res (Zlen ?t <? 80)] => assert (Zlen t = 23) as E end.
  { rewrite !Zlen_app. change (Zlen [?x]) with 1.
    rewrite (format_0d_len 4), !(format_0d_len 2), (format_0d_len 3) by (change (Z.of_nat 2) with 2; lia).
    done. }
  rewrite E. cbn [guard_res mbind res_bind]. eexists. split_and!; [reflexivity|exact E|eauto].
Qed.

(** ** NTP *)

(** Three digits of milliseconds as a fraction of 2^32, rounded down: the division rounds, but never
    up to the next integer. *)
Lemma frac_of_millisec r : 0 <= r < 1000 ->
  to_u32 (dmul (ddiv (of_int r) (of_int 1000)) (of_int NTP_FRACT_UNIT)) = Ok (r * 2 ^ 32 / 1000).
Proof.
  intros H.
  set (f := fun n => match to_u32 (dmul (ddiv (of_int (Z.of_nat n)) (of_int 1000)) (of_int NTP_FRACT_UNIT)) with
                     | Ok v => v =? Z.of_nat n * 2 ^ 32 / 1000 | _ => false end).
  assert (forallb f (seq 0 1000) = true) as E by (vm_compute; reflexivity).
  rewrite forallb_forall in E. specialize (E (Z.to_nat r) ltac:(apply in_seq; lia)). unfold f in E. clear f.
  rewrite Z2Nat.id in E by lia. destruct to_u32 as [v|e|]; [|done..]. apply Z.eqb_eq in E. congruence.
Qed.

Lemma millisec_to_ntp_spec ms : 0 <= ms < 2 ^ 63 ->
  millisec_to_ntp ms = Ok {| ntp_sec := ms mod 2 ^ 32 / 1000; ntp_frac := ms mod 1000 * 2 ^ 32 / 1000 |}.
Proof.
  intros H. unfold millisec_to_ntp. rewrite Z.rem_mod_nonneg by lia.
  rewrite frac_of_millisec by (apply Z.mod_pos_bound; lia). done.
Qed.

Lemma of_int_1000 : of_int 1000 = exactly 1000 0.
Proof. reflexivity. Qed.
Lemma of_int_pow2 : of_int (2 ^ 32) = exactly 1 32 /\ of_int (2 ^ 26) = exactly 1 26.
Proof. split; reflexivity. Qed.

Lemma log2_lt_u32 p : Zpos p < 2 ^ 32 -> Z.log2 (Zpos p) <= 31 /\ Z.log2 (Zpos (p * 1000)) <= 41.
Proof.
  intros H. split.
  - enough (Z.log2 (Zpos p) < 32) by lia. apply Z.log2_lt_pow2; lia.
  - rewrite Pos2Z.inj_mul. enough (Z.log2 (Zpos p * 1000) < 42) by lia. apply Z.log2_lt_pow2; lia.
Qed.

(** Every time stamp is read as the nearest millisecond, halves upwards. *)
Lemma ntp_to_millisec_spec sec frac : 0 <= sec < 2 ^ 32 -> 0 <= frac < 2 ^ 32 ->
  ntp_to_millisec {| ntp_sec := sec; ntp_frac := frac |} = Ok (sec * 1000 + (frac * 1000 + 2 ^ 31) / 2 ^ 32).
Proof.
  intros Hs Hf. unfold ntp_to_millisec, NTP_FRACT_UNIT. cbn [ntp_sec ntp_frac].
  assert (0 <= (frac * 1000 + 2 ^ 31) / 2 ^ 32 < 1001) as Hq.
  { split; [apply Z.div_pos; lia|apply Z.div_lt_upper_bound; lia]. }
  assert (to_integer magnitude_round (ddiv (dmul (of_int frac) (of_int 1000)) (of_int (2 ^ 32)))
    = Ok ((frac * 1000 + 2 ^ 31) / 2 ^ 32)) as E.
  { destruct frac as [|p|p]; [reflexivity| |lia]. destruct (log2_lt_u32 p ltac:(lia)) as [Hl Hl2].
    pose proof (Z.log2_nonneg (Zpos (p * 1000))).
    rewrite of_int_1000, (proj1 of_int_pow2), of_int_exact, dmul_exact, ddiv_pow2_exact, round_exactly by lia.
    rewrite Pos2Z.inj_mul. done. }
  unfold round_s64. rewrite E, bind_Ok, chk_int64_ok, bind_Ok, chk_int64_ok by lia. done.
Qed.

(** The send time is exact: the unit is a power of two of seconds. *)
Lemma abs_time_to_ms_spec p : Zpos p < 2 ^ 24 ->
  abs_time_to_ms (Zpos p) = exactly (p * 256 * 1000) (-26).
Proof.
  intros H. unfold abs_time_to_ms. change (Z.shiftl 1 (18 + 8)) with (2 ^ 26).
  rewrite Z.shiftl_mul_pow2, u32_small by lia.
  replace (Zpos p * 2 ^ 8) with (Zpos (p * 256)) by lia. destruct (log2_lt_u32 (p * 256) ltac:(lia)) as [Hl Hl2].
  pose proof (Z.log2_nonneg (Zpos (p * 256 * 1000))).
  rewrite (proj2 of_int_pow2), of_int_1000, ddiv_pow2_exact, of_int_exact by (done || lia).
  rewrite dmul_exact by lia. done.
Qed.

(** C34: the round trip through an NTP time stamp.  For every non-negative 64-bit count of
    milliseconds both conversions are defined (no double is out of range of the integer it is
    converted to), and what comes back has the right milliseconds and the seconds of the low 32 bits of the
    count; so the round trip is the identity exactly for counts below 2^32, about 49.7 days. *)
Theorem ntp_roundtrip ms : 0 <= ms < 2 ^ 63 ->
  exists ntp back, millisec_to_ntp ms = Ok ntp /\ ntp_to_millisec ntp = Ok back /\
    0 <= ntp_sec ntp < 2 ^ 32 /\ 0 <= ntp_frac ntp < 2 ^ 32 /\
    back = ms mod 2 ^ 32 / 1000 * 1000 + ms mod 1000 /\ (back = ms <-> ms < 2 ^ 32).
Proof.
  intros H. rewrite (millisec_to_ntp_spec ms H).
  pose proof (Z.mod_pos_bound ms 1000 ltac:(lia)) as Hr. set (r := ms mod 1000) in *.
  pose proof (Z.mod_pos_bound ms (2 ^ 32) ltac:(lia)) as Hm. pose proof (Z.div_mod ms (2 ^ 32) ltac:(lia)) as Em.
  set (m := ms mod 2 ^ 32) in *.
  assert (0 <= m / 1000 < 2 ^ 32) as Hs by (split; [apply Z.div_pos; lia|apply Z.div_lt_upper_bound; lia]).
  pose proof (Z.div_mod (r * 2 ^ 32) 1000 ltac:(lia)) as Ef.
  pose proof (Z.mod_pos_bound (r * 2 ^ 32) 1000 ltac:(lia)) as Hf.
  assert (0 <= r * 2 ^ 32 / 1000 < 2 ^ 32) as Hfr by (split; [apply Z.div_pos; lia|apply Z.div_lt_upper_bound; lia]).
  do 2 eexists. split_and!; [reflexivity|apply ntp_to_millisec_spec; done|cbn; lia..| |].
  - f_equal. symmetry. apply Z.div_unique with (r * 2 ^ 32 / 1000 * 1000 + 2 ^ 31 - r * 2 ^ 32); lia.
  - assert ((r * 2 ^ 32 / 1000 * 1000 + 2 ^ 31) / 2 ^ 32 = r) as ->.
    { symmetry. apply Z.div_unique with (r * 2 ^ 32 / 1000 * 1000 + 2 ^ 31 - r * 2 ^ 32); lia. }
    pose proof (Z.div_mod m 1000 ltac:(lia)) as Ed. pose proof (Z.mod_pos_bound m 1000 ltac:(lia)) as Hd.
    pose proof (Z.div_mod ms 1000 ltac:(lia)) as Es. fold r in Es. split; intros E.
    + destruct (Z.lt_ge_cases ms (2 ^ 32)); [done|]. assert (1 <= ms / 2 ^ 32) by (apply Z.div_le_lower_bound; lia). lia.
    + assert (m = ms) as -> by (apply Z.mod_small; lia). lia.
Qed.

Lemma ntp_roundtrip_witness : 0 <= 1234567 < 2 ^ 63 /\
  exists ntp back, millisec_to_ntp 1234567 = Ok ntp /\ ntp_to_millisec ntp = Ok back /\
    0 <= ntp_sec ntp < 2 ^ 32 /\ 0 <= ntp_frac ntp < 2 ^ 32 /\
    back = 1234567 mod 2 ^ 32 / 1000 * 1000 + 1234567 mod 1000 /\ (back = 1234567 <-> 1234567 < 2 ^ 32).
Proof. split; [lia|]. apply (ntp_roundtrip 1234567). lia. Defined.
