(* ===== verification/Logger.v ===== *)
(** The logger of utils/logger.hpp: the level test and the formatting buffer of each entry point, the
    line that is printed and where it goes.  What a format and its arguments denote is an argument
    (the text); whether [fopen] succeeds and the readings of the clock are arguments too. *)
From S2P Require Import Prelude StringEx Time.

Definition LOGGER_BUFFER_SIZE : Z := 2 * 1024 * 1024.

Inductive LOGGER_LEVEL := LOGGER_DEBUG_LEVEL | LOGGER_INFO_LEVEL | LOGGER_WARN_LEVEL | LOGGER_ERROR_LEVEL.
Definition level_num (l : LOGGER_LEVEL) : Z :=
  match l with
  | LOGGER_DEBUG_LEVEL => 0 | LOGGER_INFO_LEVEL => 1 | LOGGER_WARN_LEVEL => 2 | LOGGER_ERROR_LEVEL => 3
  end.

(** Where a line is written. *)
Inductive sink := Cout | File (name : bytes).

Record Logger := {
  filename_ : bytes;
  level_ : LOGGER_LEVEL;
  buffer_ : mem;
  buffer_len_ : Z;
  console_enable_ : bool;
  written : list (sink * bytes)         (* what std::cout and the files have received *)
}.

(** What a call finds of the world: the clock, and whether the file can be opened. *)
Record world := { local_time : tm; system_ns : Z; fopen_ok : bool }.

Definition new_Logger (filename : bytes) (level : LOGGER_LEVEL) : Logger :=
  {| filename_ := filename; level_ := level; buffer_ := mem_new LOGGER_BUFFER_SIZE;
     buffer_len_ := LOGGER_BUFFER_SIZE; console_enable_ := false; written := [] |}.

Definition SetFilename (lg : Logger) (filename : bytes) : Logger :=
  {| filename_ := filename; level_ := level_ lg; buffer_ := buffer_ lg; buffer_len_ := buffer_len_ lg;
     console_enable_ := console_enable_ lg; written := written lg |}.
Definition SetLevel (lg : Logger) (level : LOGGER_LEVEL) : Logger :=
  {| filename_ := filename_ lg; level_ := level; buffer_ := buffer_ lg; buffer_len_ := buffer_len_ lg;
     console_enable_ := console_enable_ lg; written := written lg |}.
Definition SetConsole (lg : Logger) (enable : bool) : Logger :=
  {| filename_ := filename_ lg; level_ := level_ lg; buffer_ := buffer_ lg; buffer_len_ := buffer_len_ lg;
     console_enable_ := enable; written := written lg |}.
Definition EnableConsole (lg : Logger) : Logger := SetConsole lg true.
Definition DisableConsole (lg : Logger) : Logger := SetConsole lg false.
Definition set_buffer (lg : Logger) (m : mem) (len : Z) : Logger :=
  {| filename_ := filename_ lg; level_ := level_ lg; buffer_ := m; buffer_len_ := len;
     console_enable_ := console_enable_ lg; written := written lg |}.
Definition AllocBuffer (lg : Logger) (len : Z) : Logger := set_buffer lg (mem_new len) len.
Definition print_to (lg : Logger) (out : list (sink * bytes)) : Logger :=
  {| filename_ := filename_ lg; level_ := level_ lg; buffer_ := buffer_ lg; buffer_len_ := buffer_len_ lg;
     console_enable_ := console_enable_ lg; written := written lg ++ out |}.

(** ** C strings in a block *)

(** The characters before the first zero; reading past the block or an indeterminate cell is undefined. *)
Fixpoint c_str (m : mem) : res bytes :=
  match m with
  | Some b :: m' => if b =? 0 then Ok [] else l ← c_str m'; Ok (b :: l)
  | _ => Undef
  end.

(** [snprintf(block + off, n, ...)] of a text: at most [n - 1] characters and a zero are stored, the
    length of the whole text is returned.  A pointer beyond the block's end is undefined. *)
Definition snprintf (m : mem) (off n : Z) (text : bytes) : res (mem * Z) :=
  guard_res ((0 <=? off) && (off <=? Zlen m)) ;;
  if n =? 0 then Ok (m, Zlen text)
  else m' ← mem_store m off (init (firstn (Z.to_nat (n - 1)) text ++ [0])); Ok (m', Zlen text).

(** ** Output *)

Definition line_text (level now buffer : bytes) : bytes :=
  [91] ++ level ++ [93] ++ [91] ++ now ++ [93] ++ buffer ++ CRLF.

Definition Logf (w : world) (lg : Logger) (level buffer : bytes) : res Logger :=
  now ← get_now_str (local_time w) (system_ns w);
  let ss := line_text level now buffer in
  Ok (if beqb (filename_ lg) [] then print_to lg [(Cout, ss)]
      else print_to lg ((if fopen_ok w then [(File (filename_ lg), ss)] else []) ++
                        (if console_enable_ lg then [(Cout, ss)] else []))).

(** The test at the head of every entry point: a null logger or a level above the bound returns. *)
Definition gated (bound : LOGGER_LEVEL) (logger : option Logger) (body : Logger -> res Logger) : res (option Logger) :=
  match logger with
  | None => Ok None
  | Some lg => if level_num bound <? level_num (level_ lg) then Ok (Some lg) else lg' ← body lg; Ok (Some lg')
  end.

Definition LogError (w : world) (logger : option Logger) (data : bytes) : res (option Logger) :=
  gated LOGGER_INFO_LEVEL logger (fun lg => Logf w lg (bstr "W") data).
Definition LogWarn (w : world) (logger : option Logger) (data : bytes) : res (option Logger) :=
  gated LOGGER_INFO_LEVEL logger (fun lg => Logf w lg (bstr "W") data).
Definition LogInfo (w : world) (logger : option Logger) (data : bytes) : res (option Logger) :=
  gated LOGGER_INFO_LEVEL logger (fun lg => Logf w lg (bstr "I") data).
Definition LogDebug (w : world) (logger : option Logger) (data : bytes) : res (option Logger) :=
  gated LOGGER_INFO_LEVEL logger (fun lg => Logf w lg (bstr "D") data).

(** [vsnprintf(buffer, bsize, fmt, ap)] and what follows; [terminate] is [buffer[ret_len] = 0]. *)
Definition format_and_log (terminate : bool) (level : bytes) (w : world) (text : bytes) (lg : Logger) : res Logger :=
  '(m, ret_len) ← snprintf (buffer_ lg) 0 (buffer_len_ lg) text;
  m ← (if terminate then mem_store m ret_len [Some 0] else Ok m);
  s ← c_str m;
  Logf w (set_buffer lg m (buffer_len_ lg)) level s.

Definition LogErrorf (w : world) (logger : option Logger) (text : bytes) : res (option Logger) :=
  gated LOGGER_ERROR_LEVEL logger (format_and_log true (bstr "E") w text).
Definition LogWarnf (w : world) (logger : option Logger) (text : bytes) : res (option Logger) :=
  gated LOGGER_WARN_LEVEL logger (format_and_log false (bstr "W") w text).
Definition LogInfof (w : world) (logger : option Logger) (text : bytes) : res (option Logger) :=
  gated LOGGER_INFO_LEVEL logger (format_and_log false (bstr "I") w text).
Definition LogDebugf (w : world) (logger : option Logger) (text : bytes) : res (option Logger) :=
  gated LOGGER_DEBUG_LEVEL logger (format_and_log true (bstr "D") w text).

(** ** The hexadecimal dump *)

Definition print_buffer_size : Z := 16 * 1024.
Definition MAX_LINES : Z := 100.

(** One [print_len += snprintf(print_data + print_len, print_buffer_size - print_len, ...)]. *)
Definition append_print (st : mem * Z) (text : bytes) : res (mem * Z) :=
  let '(m, print_len) := st in
  '(m, ret) ← snprintf m print_len (u64 (print_buffer_size - print_len)) text;
  Ok (m, u64 (print_len + ret)).

(** The loop, [n] rounds from [index] on; [data] is the block the pointer points to. *)
Fixpoint LogInfoData_loop (data : bytes) (n : nat) (index line : Z) (st : mem * Z) : res (mem * Z) :=
  match n with
  | O => Ok st
  | S n' =>
      let one (st : mem * Z) (line : Z) :=
        match data !! Z.to_nat index with
        | None => Undef
        | Some b => st ← append_print st (32 :: hex2 b); LogInfoData_loop data n' (index + 1) line st
        end in
      if index mod 16 =? 0 then
        st ← append_print st CRLF;
        if MAX_LINES <? line + 1 then Ok st else one st (line + 1)
      else one st line
  end.

Definition LogInfoData (w : world) (logger : option Logger) (data : bytes) (len : Z) (dscr : bytes) : res (option Logger) :=
  gated LOGGER_INFO_LEVEL logger (fun lg =>
    st ← append_print (mem_new print_buffer_size, 0) (dscr ++ [58]);
    '(m, _) ← LogInfoData_loop data (Z.to_nat (s32 len)) 0 0 st;
    s ← c_str m;
    Logf w lg (bstr "I") s).

(** ** Exceptions: the message is cut to a buffer of 1024 characters *)

Definition CppStreamException (description : bytes) : exn := StreamExn description.
Definition CSM_THROW_ERROR {A} (desc : bytes) : res A :=
  '(m, _) ← snprintf (mem_new 1024) 0 1024 desc;
  exp_buffer ← c_str m;
  Throw (CppStreamException exp_buffer).

(** ** Blocks and strings *)

Definition no_zero (text : bytes) : Prop := Forall (fun b => b <> 0) text.

Lemma c_str_init text rest : no_zero text -> c_str (init text ++ Some 0 :: rest) = Ok text.
Proof.
  induction 1 as [|b l Hb _ IH]; [done|]. cbn [init map app c_str]. destruct (Z.eqb_spec b 0); [done|].
  fold (init l). rewrite IH. done.
Qed.

Lemma no_zero_firstn n text : no_zero text -> no_zero (firstn n text).
Proof. apply Forall_take. Qed.

(** Printing behind [acc]: what fits of the text, then a zero. *)
Lemma snprintf_at acc rest n text : 0 < n <= Zlen rest ->
  exists rest', snprintf (init acc ++ rest) (Zlen acc) n text
    = Ok (init acc ++ init (firstn (Z.to_nat (n - 1)) text) ++ Some 0 :: rest', Zlen text) /\
    1 + Z.min (n - 1) (Zlen text) + Zlen rest' = Zlen rest.
Proof.
  intros Hn. set (t := firstn (Z.to_nat (n - 1)) text).
  assert (Ht : Zlen t = Z.min (n - 1) (Zlen text)) by (unfold t; apply Zlen_take; lia).
  set (k := Z.to_nat (1 + Zlen t)). exists (skipn k rest). split.
  - unfold snprintf. rewrite Zlen_app, Zlen_init. pose proof (Zlen_nonneg acc).
    destruct (Z.leb_spec 0 (Zlen acc)); [|lia]. destruct (Z.leb_spec (Zlen acc) (Zlen acc + Zlen rest)); [|lia].
    cbn [andb guard_res mbind res_bind]. destruct (Z.eqb_spec n 0); [lia|].
    rewrite <- (firstn_skipn k rest) at 1. fold t.
    rewrite (mem_store_app (init acc) (firstn k rest)) by (unfold k; autorewrite with zlen; rewrite ?Zlen_take; zlen).
    cbn [mbind res_bind]. unfold init at 2. rewrite map_app, <- app_assoc. done.
  - unfold k. pose proof (Zlen_nonneg t). rewrite Zlen_drop by lia. lia.
Qed.

(** ** The formatting entry points *)

Definition Logger_wf (lg : Logger) : Prop := 0 < buffer_len_ lg /\ Zlen (buffer_ lg) = buffer_len_ lg.

(** Where a logger sends a line. *)
Definition destinations (w : world) (lg : Logger) (ss : bytes) : list (sink * bytes) :=
  if beqb (filename_ lg) [] then [(Cout, ss)]
  else (if fopen_ok w then [(File (filename_ lg), ss)] else []) ++ (if console_enable_ lg then [(Cout, ss)] else []).

(** The call printed the line of [text] once, to the logger's destinations, and changed nothing else
    but the contents of the buffer. *)
Definition logged (w : world) (now : bytes) (lg : Logger) (level text : bytes) (r : res (option Logger)) : Prop :=
  exists m, Zlen m = buffer_len_ lg /\
    r = Ok (Some (print_to (set_buffer lg m (buffer_len_ lg)) (destinations w lg (line_text level now text)))).

Lemma Logf_prints w lg level text now : get_now_str (local_time w) (system_ns w) = Ok now ->
  Logf w lg level text = Ok (print_to lg (destinations w lg (line_text level now text))).
Proof. intros E. unfold Logf, destinations. rewrite E. cbn [mbind res_bind]. destruct beqb; done. Qed.

Section formatted.
Context (w : world) (now : bytes) (lg : Logger) (text : bytes).
Context (Hnow : get_now_str (local_time w) (system_ns w) = Ok now) (Hwf : Logger_wf lg) (Hz : no_zero text).

Lemma format_buffer : exists rest,
  snprintf (buffer_ lg) 0 (buffer_len_ lg) text
    = Ok (init (firstn (Z.to_nat (buffer_len_ lg - 1)) text) ++ Some 0 :: rest, Zlen text) /\
  1 + Z.min (buffer_len_ lg - 1) (Zlen text) + Zlen rest = buffer_len_ lg.
Proof.
  destruct Hwf as [H1 H2]. destruct (snprintf_at [] (buffer_ lg) (buffer_len_ lg) text) as (rest & E & L); [lia|].
  exists rest. split; [exact E|lia].
Qed.

(** Without the store behind the text: a long text is cut to the buffer. *)
Lemma format_cut level bound : level_num (level_ lg) <= level_num bound ->
  logged w now lg level (firstn (Z.to_nat (buffer_len_ lg - 1)) text)
    (gated bound (Some lg) (format_and_log false level w text)).
Proof.
  intros Hl. destruct format_buffer as (rest & E & L). destruct Hwf as [H1 H2].
  unfold gated. destruct (Z.ltb_spec (level_num bound) (level_num (level_ lg))); [lia|].
  unfold format_and_log. rewrite E. cbn [mbind res_bind]. rewrite c_str_init by (by apply no_zero_firstn).
  cbn [mbind res_bind]. rewrite (Logf_prints _ _ _ _ _ Hnow). cbn [mbind res_bind]. eexists. split; [|reflexivity].
  autorewrite with zlen. rewrite Zlen_take by lia. lia.
Qed.

(** With the store: defined exactly when the text and its zero fit. *)
Lemma format_terminate level bound : level_num (level_ lg) <= level_num bound ->
  if Zlen text <? buffer_len_ lg then logged w now lg level text (gated bound (Some lg) (format_and_log true level w text))
  else gated bound (Some lg) (format_and_log true level w text) = Undef.
Proof.
  intros Hl. destruct format_buffer as (rest & E & L). destruct Hwf as [H1 H2]. pose proof (Zlen_nonneg text).
  unfold gated. destruct (Z.ltb_spec (level_num bound) (level_num (level_ lg))); [lia|].
  unfold format_and_log. rewrite E. cbn [mbind res_bind].
  destruct (Z.ltb_spec (Zlen text) (buffer_len_ lg)) as [Hf|Hf].
  - rewrite firstn_all2 by (unfold Zlen in *; lia).
    rewrite (mem_store_app (init text) [Some 0] [Some 0] rest) by (autorewrite with zlen; done).
    cbn [mbind res_bind app]. rewrite c_str_init by done.
    cbn [mbind res_bind]. rewrite (Logf_prints _ _ _ _ _ Hnow). cbn [mbind res_bind]. eexists. split; [|reflexivity].
    autorewrite with zlen. lia.
  - unfold mem_store. autorewrite with zlen. rewrite Zlen_take by lia.
    destruct (Z.leb_spec (Zlen text + (1 + 0)) (Z.min (buffer_len_ lg - 1) (Zlen text) + (1 + Zlen rest))); [lia|].
    rewrite andb_false_r. done.
Qed.
End formatted.

(** C39: the four formatting entry points.  A null logger, and one whose level is above the call's,
    prints nothing.  Otherwise [LogWarnf] and [LogInfof] print exactly one line, with the text cut to
    the buffer's size less one, to the logger's destinations; [LogErrorf] and [LogDebugf], which store a zero
    at the length [vsnprintf] reports, print the whole text when it fits with its zero, and write outside the
    buffer otherwise. *)
Theorem log_lines_bounded w now lg text :
  get_now_str (local_time w) (system_ns w) = Ok now -> Logger_wf lg -> no_zero text ->
  let cut := firstn (Z.to_nat (buffer_len_ lg - 1)) text in
  let on bound := level_num (level_ lg) <=? level_num bound in
  (LogErrorf w None text = Ok None /\ LogWarnf w None text = Ok None /\
   LogInfof w None text = Ok None /\ LogDebugf w None text = Ok None) /\
  (if Zlen text <? buffer_len_ lg then logged w now lg (bstr "E") text (LogErrorf w (Some lg) text)
   else LogErrorf w (Some lg) text = Undef) /\
  (if on LOGGER_WARN_LEVEL then logged w now lg (bstr "W") cut (LogWarnf w (Some lg) text)
   else LogWarnf w (Some lg) text = Ok (Some lg)) /\
  (if on LOGGER_INFO_LEVEL then logged w now lg (bstr "I") cut (LogInfof w (Some lg) text)
   else LogInfof w (Some lg) text = Ok (Some lg)) /\
  (if on LOGGER_DEBUG_LEVEL then
     if Zlen text <? buffer_len_ lg then logged w now lg (bstr "D") text (LogDebugf w (Some lg) text)
     else LogDebugf w (Some lg) text = Undef
   else LogDebugf w (Some lg) text = Ok (Some lg)).
Proof.
  intros Hnow Hwf Hz cut on. split; [done|].
  assert (Hoff : forall bound f, on bound = false -> gated bound (Some lg) f = Ok (Some lg)).
  { unfold on, gated. intros bound f Hb. apply Z.leb_gt in Hb. by rewrite (proj2 (Z.ltb_lt _ _) Hb). }
  assert (Hon : forall bound, on bound = true -> level_num (level_ lg) <= level_num bound) by (intros b; apply Z.leb_le).
  split_and!.
  - apply (format_terminate w now lg text Hnow Hwf Hz). destruct (level_ lg); cbn; lia.
  - destruct (on LOGGER_WARN_LEVEL) eqn:E; [|by apply Hoff]. by apply (format_cut w now lg text Hnow Hwf Hz), Hon.
  - destruct (on LOGGER_INFO_LEVEL) eqn:E; [|by apply Hoff]. by apply (format_cut w now lg text Hnow Hwf Hz), Hon.
  - destruct (on LOGGER_DEBUG_LEVEL) eqn:E; [|by apply Hoff]. by apply (format_terminate w now lg text Hnow Hwf Hz), Hon.
Qed.

(** A new logger, and one with another buffer, are in the state the theorem asks for. *)
Lemma new_Logger_wf filename level : Logger_wf (new_Logger filename level).
Proof. split; [reflexivity|]. unfold new_Logger, mem_new. cbn [buffer_ buffer_len_]. rewrite Zlen_replicate. done. Qed.
Lemma AllocBuffer_wf lg len : 0 < len -> Logger_wf (AllocBuffer lg len).
Proof. intros H. split; [done|]. unfold AllocBuffer, set_buffer, mem_new. cbn [buffer_ buffer_len_]. rewrite Zlen_replicate. lia. Qed.

(** ** The dump *)

(** What stands for the byte at an index: a new line before every sixteenth. *)
Definition dump_cell (i : Z) (b : Z) : bytes := (if i mod 16 =? 0 then CRLF else []) ++ 32 :: hex2 b.
Definition dump_from (i : Z) (d : bytes) : bytes :=
  concat (imap (fun k b => dump_cell (i + Z.of_nat k) b) (firstn (Z.to_nat (1600 - i)) d)) ++
  (if 1600 - i <? Zlen d then CRLF else []).

Lemma dump_from_cons i b d : 0 <= i < 1600 -> dump_from i (b :: d) = dump_cell i b ++ dump_from (i + 1) d.
Proof.
  intros H. unfold dump_from. rewrite Zlen_cons.
  replace (Z.to_nat (1600 - i)) with (S (Z.to_nat (1600 - (i + 1)))) by lia. cbn [firstn imap concat].
  rewrite Z.add_0_r, <- app_assoc. f_equal. f_equal; [|zbool; done || lia].
  f_equal. apply imap_ext. intros k x _. cbn. f_equal. lia.
Qed.

(** The first [acc] characters of the block have been printed. *)
Definition printed (acc : bytes) (st : mem * Z) : Prop :=
  snd st = Zlen acc /\ Zlen (fst st) = print_buffer_size /\ exists rest, fst st = init acc ++ rest.
Definition terminated (acc : bytes) (st : mem * Z) : Prop :=
  printed acc st /\ exists rest, fst st = init acc ++ Some 0 :: rest.

Lemma append_print_ok acc st text : printed acc st -> Zlen acc + Zlen text < print_buffer_size ->
  exists st', append_print st text = Ok st' /\ terminated (acc ++ text) st'.
Proof.
  intros (E1 & E2 & rest & E3) Hf. destruct st as [m pl]. cbn [fst snd] in *. subst pl.
  pose proof (Zlen_nonneg acc) as Ha. pose proof (Zlen_nonneg text) as Ht.
  assert (Hr : Zlen rest = print_buffer_size - Zlen acc) by (rewrite <- E2, E3, Zlen_app, Zlen_init; lia).
  unfold append_print. assert (u64 (print_buffer_size - Zlen acc) = Zlen rest) as ->.
  { unfold print_buffer_size in *. rewrite u64_small; lia. }
  destruct (snprintf_at acc rest (Zlen rest) text) as (rest' & E & L); [lia|]. rewrite E3, E.
  cbn [mbind res_bind]. eexists. split; [reflexivity|].
  rewrite firstn_all2 by (unfold Zlen in *; lia).
  assert (Em : forall r, init acc ++ init text ++ r = init (acc ++ text) ++ r).
  { intros r. unfold init. rewrite map_app, app_assoc. done. }
  rewrite Em. split; [split_and!|]; cbn [fst snd]; [|autorewrite with zlen; lia|eauto|eauto].
  rewrite Zlen_app. apply u64_small. unfold print_buffer_size in *. lia.
Qed.

Lemma terminated_printed acc st : terminated acc st -> printed acc st.
Proof. by intros []. Qed.

Lemma skipn_step (data d : bytes) i b : 0 <= i -> skipn (Z.to_nat i) data = b :: d ->
  data !! Z.to_nat i = Some b /\ skipn (Z.to_nat (i + 1)) data = d.
Proof.
  intros Hi Hd. split.
  - rewrite <- (Nat.add_0_r (Z.to_nat i)), <- lookup_drop, Hd. done.
  - replace (Z.to_nat (i + 1)) with (Z.to_nat i + 1)%nat by lia. rewrite <- drop_drop, Hd. done.
Qed.

Lemma dump_from_stop b d : dump_from 1600 (b :: d) = CRLF.
Proof.
  unfold dump_from. change (1600 - 1600) with 0. pose proof (Zlen_nonneg d).
  rewrite Zlen_cons, (proj2 (Z.ltb_lt 0 (1 + Zlen d))) by lia. done.
Qed.

Lemma dump_from_nil i : i <= 1600 -> dump_from i [] = [].
Proof. intros H. unfold dump_from. rewrite firstn_nil, Zlen_nil. destruct (Z.ltb_spec (1600 - i) 0); [lia|done]. Qed.

(** The loop from any index on prints the rest of the dump, as long as that fits. *)
Lemma LogInfoData_loop_ok data d : forall i acc st,
  skipn (Z.to_nat i) data = d -> 0 <= i <= 1600 -> terminated acc st ->
  Zlen acc + Zlen (dump_from i d) < print_buffer_size ->
  exists st', LogInfoData_loop data (length d) i ((i + 15) / 16) st = Ok st' /\ terminated (acc ++ dump_from i d) st'.
Proof.
  induction d as [|b d IH]; intros i acc st Hd Hi Hst Hf.
  { exists st. rewrite dump_from_nil, app_nil_r by lia. done. }
  destruct (skipn_step data d i b ltac:(lia) Hd) as [Hb Hd']. pose proof (Zlen_nonneg (dump_from (i + 1) d)) as Hdn.
  cbn [length LogInfoData_loop]. rewrite Hb.
  assert (Hone : forall acc1 st1, i < 1600 -> terminated acc1 st1 ->
    Zlen acc1 + (Zlen (32 :: hex2 b) + Zlen (dump_from (i + 1) d)) < print_buffer_size ->
    exists st', (st2 ← append_print st1 (32 :: hex2 b);
        LogInfoData_loop data (length d) (i + 1) ((i + 1 + 15) / 16) st2) = Ok st' /\
      terminated (acc1 ++ 32 :: hex2 b ++ dump_from (i + 1) d) st').
  { intros acc1 st1 Hlt Ht Hfit.
    destruct (append_print_ok acc1 st1 (32 :: hex2 b)) as (st2 & E & Ht2); [apply Ht|lia|].
    rewrite E. cbn [mbind res_bind]. change (32 :: hex2 b ++ ?x) with ((32 :: hex2 b) ++ x). rewrite app_assoc.
    apply IH; [done|lia|done|]. rewrite Zlen_app. lia. }
  destruct (Z.eq_dec i 1600) as [->|Hlt].
  { rewrite dump_from_stop in *. destruct (append_print_ok acc st CRLF) as (st1 & E & Ht1); [apply Hst|done|].
    change (1600 mod 16 =? 0) with true. cbn [mbind res_bind]. rewrite E. exists st1. done. }
  rewrite dump_from_cons in * by lia. unfold dump_cell in *. rewrite !Zlen_app in Hf.
  destruct (Z.eqb_spec (i mod 16) 0) as [Hm|Hm].
  - destruct (append_print_ok acc st CRLF) as (st1 & E & Ht1); [apply Hst|zlen|]. rewrite E. cbn [mbind res_bind].
    assert ((i + 15) / 16 + 1 = (i + 1 + 15) / 16 /\ (i + 1 + 15) / 16 <= 100) as [-> Hl] by (split; Z.div_mod_to_equations; lia).
    unfold MAX_LINES. destruct (Z.ltb_spec 100 ((i + 1 + 15) / 16)); [lia|].
    destruct (Hone (acc ++ CRLF) st1) as (st' & E' & Ht'); [lia|done|rewrite Zlen_app; lia|].
    exists st'. split; [exact E'|]. rewrite <- !app_assoc in *. exact Ht'.
  - replace ((i + 15) / 16) with ((i + 1 + 15) / 16) by (Z.div_mod_to_equations; lia).
    apply Hone; [lia|done|]. rewrite Zlen_nil in Hf. lia.
Qed.

Lemma dump_from_len d : forall i, 0 <= i <= 1600 ->
  Zlen (dump_from i d) <= 3 * (1600 - i) + 2 * (100 - (i + 15) / 16) + 2.
Proof.
  induction d as [|b d IH]; intros i Hi.
  - rewrite dump_from_nil, Zlen_nil by lia. Z.div_mod_to_equations; lia.
  - destruct (Z.eq_dec i 1600) as [->|]; [rewrite dump_from_stop; done|].
    rewrite dump_from_cons by lia. specialize (IH (i + 1) ltac:(lia)). unfold dump_cell. rewrite !Zlen_app.
    change (Zlen (32 :: hex2 b)) with 3.
    destruct (Z.eqb_spec (i mod 16) 0); [change (Zlen CRLF) with 2|rewrite Zlen_nil]; Z.div_mod_to_equations; lia.
Qed.

Lemma hex_digit_pos n : 0 <= n -> hex_digit n <> 0.
Proof. unfold hex_digit. intros H. zbool; lia. Qed.

Lemma dump_no_zero d : bytes_ok d -> forall i, 0 <= i <= 1600 -> no_zero (dump_from i d).
Proof.
  induction 1 as [|b d Hb _ IH]; intros i Hi; [rewrite dump_from_nil by lia; constructor|].
  destruct (Z.eq_dec i 1600) as [->|]; [rewrite dump_from_stop; by repeat constructor|].
  rewrite dump_from_cons by lia. apply Forall_app. split; [|apply IH; lia].
  unfold dump_cell. apply Forall_app. split; [destruct Z.eqb; by repeat constructor|].
  destruct Hb. repeat constructor; try done; apply hex_digit_pos; [apply Z.shiftr_nonneg; lia|apply Z.land_nonneg; lia].
Qed.

(** A print at a position beyond the block is undefined. *)
Lemma append_print_outside m pl text : Zlen m = print_buffer_size -> print_buffer_size < pl ->
  append_print (m, pl) text = Undef.
Proof.
  intros Hm Hp. unfold append_print, snprintf. rewrite Hm, (proj2 (Z.leb_gt pl print_buffer_size)), andb_false_r by lia. done.
Qed.

(** The first print at the start of the fresh block. *)
Lemma append_print_first text : Zlen text < 2 ^ 32 ->
  exists m, append_print (mem_new print_buffer_size, 0) text = Ok (m, Zlen text) /\ Zlen m = print_buffer_size.
Proof.
  intros Ht. pose proof (Zlen_nonneg text).
  assert (Hm : Zlen (mem_new print_buffer_size) = print_buffer_size) by (unfold mem_new; rewrite Zlen_replicate; done).
  set (m0 := mem_new print_buffer_size) in *. clearbody m0.
  destruct (snprintf_at [] m0 print_buffer_size text) as (rest & E & L); [rewrite Hm; done|].
  eexists. split.
  - unfold append_print. change (u64 (print_buffer_size - 0)) with print_buffer_size.
    change (snprintf m0 0) with (snprintf (init [] ++ m0) (Zlen (@nil Z))).
    rewrite E. cbn [mbind res_bind]. rewrite Z.add_0_l, u64_small by lia. reflexivity.
  - rewrite Hm in L. rewrite !Zlen_app, Zlen_cons, !Zlen_init, Zlen_take, Zlen_nil by done. lia.
Qed.

(** The hexadecimal dump.  With a description below 11381 characters, the data of any length (below 2^31) is
    printed as one line: the description, a colon, the first 1600 bytes in rows of sixteen, and a
    last empty row when there is more; nothing is written outside the block of 16 KiB.  With a description of
    at least 16 KiB and any data the second [snprintf] gets a pointer outside the block. *)
Lemma LogInfoData_bounded w now lg data dscr :
  get_now_str (local_time w) (system_ns w) = Ok now -> level_num (level_ lg) <= level_num LOGGER_INFO_LEVEL ->
  bytes_ok data -> Zlen data < 2 ^ 31 -> no_zero dscr ->
  (Zlen dscr < 11381 -> LogInfoData w (Some lg) data (Zlen data) dscr
     = Ok (Some (print_to lg (destinations w lg (line_text (bstr "I") now (dscr ++ [58] ++ dump_from 0 data)))))) /\
  (print_buffer_size <= Zlen dscr < 2 ^ 31 -> data <> [] -> LogInfoData w (Some lg) data (Zlen data) dscr = Undef).
Proof.
  intros Hnow Hl Hb Hd Hz. pose proof (Zlen_nonneg data). pose proof (Zlen_nonneg dscr).
  assert (Hn : Z.to_nat (s32 (Zlen data)) = length data) by (rewrite s32_small; zlen).
  assert (Hp : printed [] (mem_new print_buffer_size, 0)).
  { split_and!; [done| |by eexists]. cbn [fst]. unfold mem_new. rewrite Zlen_replicate. done. }
  unfold LogInfoData, gated. destruct (Z.ltb_spec (level_num LOGGER_INFO_LEVEL) (level_num (level_ lg))); [lia|].
  rewrite Hn. clear Hn. split.
  - intros Hs. pose proof (dump_from_len data 0 ltac:(lia)) as Hdl. change ((0 + 15) / 16) with 0 in Hdl.
    destruct (append_print_ok [] (mem_new print_buffer_size, 0) (dscr ++ [58]) Hp) as (st & -> & Ht);
      [unfold print_buffer_size; zlen|]. cbn [mbind res_bind app] in *.
    destruct (LogInfoData_loop_ok data data 0 (dscr ++ [58]) st) as (st' & E & Ht'); [done|lia|done|unfold print_buffer_size; zlen|].
    change ((0 + 15) / 16) with 0 in E. rewrite E. destruct st' as [m pl], Ht' as [_ [rest Em]]. cbn [fst] in Em.
    cbn [mbind res_bind]. rewrite Em, c_str_init.
    2:{ apply Forall_app. split; [|apply dump_no_zero; [done|lia]]. apply Forall_app. split; [done|by repeat constructor]. }
    cbn [mbind res_bind]. rewrite (Logf_prints _ _ _ _ _ Hnow), <- app_assoc. done.
  - intros Hs Hne. destruct data as [|b data]; [done|].
    destruct (append_print_first (dscr ++ [58])) as (m & -> & Hm); [zlen|]. cbn [mbind res_bind].
    cbn [length LogInfoData_loop]. change (0 mod 16 =? 0) with true. cbn iota.
    rewrite append_print_outside by (done || (rewrite Zlen_app; change (Zlen [58]) with 1; lia)). done.
Qed.

Lemma log_lines_bounded_witness :
  let w := {| local_time := Build_tm 125 0 31 23 59 59; system_ns := 0; fopen_ok := true |} in
  let lg := {| filename_ := []; level_ := LOGGER_INFO_LEVEL; buffer_ := mem_new 4; buffer_len_ := 4;
               console_enable_ := false; written := [] |} in
  exists now, get_now_str (local_time w) (system_ns w) = Ok now /\ Logger_wf lg /\ no_zero [65; 66; 67; 68] /\
    logged w now lg (bstr "I") [65; 66; 67] (LogInfof w (Some lg) [65; 66; 67; 68]) /\
    LogErrorf w (Some lg) [65; 66; 67; 68] = Undef.
Proof.
  intros w lg. eexists. split; [vm_compute; reflexivity|].
  assert (Hwf : Logger_wf lg) by (split; reflexivity). assert (Hz : no_zero [65; 66; 67; 68]) by (by repeat constructor).
  split; [exact Hwf|]. split; [exact Hz|].
  match goal with |- logged _ ?now _ _ _ _ /\ _ =>
    destruct (log_lines_bounded w now lg [65; 66; 67; 68] ltac:(vm_compute; reflexivity) Hwf Hz) as (_ & He & _ & Hi & _) end.
  split; [exact Hi|exact He].
Defined.

Lemma LogInfoData_bounded_witness :
  let w := {| local_time := Build_tm 125 0 31 23 59 59; system_ns := 0; fopen_ok := true |} in
  let lg := {| filename_ := []; level_ := LOGGER_INFO_LEVEL; buffer_ := mem_new 4; buffer_len_ := 4;
               console_enable_ := false; written := [] |} in
  exists now, get_now_str (local_time w) (system_ns w) = Ok now /\ level_num (level_ lg) <= 1 /\
    LogInfoData w (Some lg) [1; 171] 2 [120] = Ok (Some (print_to lg
      [(Cout, line_text (bstr "I") now ([120; 58; 13; 10; 32; 48; 49; 32; 97; 98]))])).
Proof.
  intros w lg. eexists. split; [vm_compute; reflexivity|]. split; [cbn; lia|].
  match goal with |- context [line_text _ ?now _] =>
    apply (proj1 (LogInfoData_bounded w now lg [1; 171] [120] ltac:(vm_compute; reflexivity) ltac:(cbn; lia)
      ltac:(repeat apply List.Forall_cons; [unfold byte_ok; lia..|apply List.Forall_nil]) ltac:(reflexivity) ltac:(by repeat constructor))
      ltac:(reflexivity)) end.
Defined.
