(* ===== verification/JsonUtf8.v ===== *)
(** UTF-8 in utils/json.hpp: the decoder [serializer::decode], a table-driven automaton, against the
    well-formed byte sequences of the Unicode standard (table 3-7) and its encoding form. *)
From S2P Require Import Prelude.

Definition UTF8_ACCEPT : Z := 0.
Definition UTF8_REJECT : Z := 1.

(** Classes of the 256 bytes, then a row of sixteen classes for each state. *)
Definition utf8d : list Z :=
  [0; 0; 0; 0; 0; 0; 0; 0; 0; 0; 0; 0; 0; 0; 0; 0; 0; 0; 0; 0; 0; 0; 0; 0; 0; 0; 0; 0; 0; 0; 0; 0;
   0; 0; 0; 0; 0; 0; 0; 0; 0; 0; 0; 0; 0; 0; 0; 0; 0; 0; 0; 0; 0; 0; 0; 0; 0; 0; 0; 0; 0; 0; 0; 0;
   0; 0; 0; 0; 0; 0; 0; 0; 0; 0; 0; 0; 0; 0; 0; 0; 0; 0; 0; 0; 0; 0; 0; 0; 0; 0; 0; 0; 0; 0; 0; 0;
   0; 0; 0; 0; 0; 0; 0; 0; 0; 0; 0; 0; 0; 0; 0; 0; 0; 0; 0; 0; 0; 0; 0; 0; 0; 0; 0; 0; 0; 0; 0; 0;
   1; 1; 1; 1; 1; 1; 1; 1; 1; 1; 1; 1; 1; 1; 1; 1; 9; 9; 9; 9; 9; 9; 9; 9; 9; 9; 9; 9; 9; 9; 9; 9;
   7; 7; 7; 7; 7; 7; 7; 7; 7; 7; 7; 7; 7; 7; 7; 7; 7; 7; 7; 7; 7; 7; 7; 7; 7; 7; 7; 7; 7; 7; 7; 7;
   8; 8; 2; 2; 2; 2; 2; 2; 2; 2; 2; 2; 2; 2; 2; 2; 2; 2; 2; 2; 2; 2; 2; 2; 2; 2; 2; 2; 2; 2; 2; 2;
   10; 3; 3; 3; 3; 3; 3; 3; 3; 3; 3; 3; 3; 4; 3; 3;
   11; 6; 6; 6; 5; 8; 8; 8; 8; 8; 8; 8; 8; 8; 8; 8;
   0; 1; 2; 3; 5; 8; 7; 1; 1; 1; 4; 6; 1; 1; 1; 1;
   1; 1; 1; 1; 1; 1; 1; 1; 1; 1; 1; 1; 1; 1; 1; 1; 1; 0; 1; 1; 1; 1; 1; 0; 1; 0; 1; 1; 1; 1; 1; 1;
   1; 2; 1; 1; 1; 1; 1; 2; 1; 2; 1; 1; 1; 1; 1; 1; 1; 1; 1; 1; 1; 1; 1; 2; 1; 1; 1; 1; 1; 1; 1; 1;
   1; 2; 1; 1; 1; 1; 1; 1; 1; 2; 1; 1; 1; 1; 1; 1; 1; 1; 1; 1; 1; 1; 1; 3; 1; 3; 1; 1; 1; 1; 1; 1;
   1; 3; 1; 1; 1; 1; 1; 3; 1; 3; 1; 1; 1; 1; 1; 1; 1; 3; 1; 1; 1; 1; 1; 1; 1; 1; 1; 1; 1; 1; 1; 1].
Definition utf8d_at (i : Z) : res Z :=
  match utf8d !! Z.to_nat i with Some t => Ok t | None => Undef end.

(** The new state and code point; the old code point is not read in [UTF8_ACCEPT]. *)
Definition decode (state codep byte : Z) : res (Z * Z) :=
  type ← utf8d_at byte;
  let codep := if negb (state =? UTF8_ACCEPT) then u32 (Z.lor (Z.land byte 63) (Z.shiftl codep 6))
               else Z.land (Z.shiftr 255 type) byte in
  state ← utf8d_at (256 + state * 16 + type);
  Ok (state, codep).

(** ** The standard *)

Definition scalar (c : Z) : Prop := 0 <= c < 55296 \/ 57344 <= c <= 1114111.

(** The encoding form of a scalar value. *)
Definition utf8_encode (c : Z) : bytes :=
  if c <? 128 then [c]
  else if c <? 2048 then [192 + c / 64; 128 + c mod 64]
  else if c <? 65536 then [224 + c / 4096; 128 + c / 64 mod 64; 128 + c mod 64]
  else [240 + c / 262144; 128 + c / 4096 mod 64; 128 + c / 64 mod 64; 128 + c mod 64].

(** Table 3-7: what may follow a first byte - how many bytes, the range of the next one - and the bits
    the first byte contributes. *)
Record pending := { more : nat; low : Z; high : Z; bits : Z }.
Definition first_byte (b : Z) : option pending :=
  let p k lo hi v := Some {| more := k; low := lo; high := hi; bits := v |} in
  if b <? 128 then p 0%nat 0 0 b
  else if b <? 194 then None
  else if b <? 224 then p 1%nat 128 191 (b - 192)
  else if b =? 224 then p 2%nat 160 191 0
  else if b =? 237 then p 2%nat 128 159 13
  else if b <? 240 then p 2%nat 128 191 (b - 224)
  else if b =? 240 then p 3%nat 144 191 0
  else if b <? 244 then p 3%nat 128 191 (b - 240)
  else if b =? 244 then p 3%nat 128 143 4
  else None.
Definition next_byte (p : pending) (b : Z) : option pending :=
  if (low p <=? b) && (b <=? high p)
  then Some {| more := pred (more p); low := 128; high := 191; bits := bits p * 64 + (b - 128) |} else None.

(** The code points of a text, [None] when it is ill-formed; [o] is a sequence that has begun. *)
Fixpoint utf8_scan (o : option pending) (l : bytes) : option (list Z) :=
  match l with
  | [] => match o with None => Some [] | Some _ => None end
  | b :: l =>
      match match o with None => first_byte b | Some p => next_byte p b end with
      | None => None
      | Some p => match more p with O => cons (bits p) <$> utf8_scan None l | S _ => utf8_scan (Some p) l end
      end
  end.
Definition utf8_text (l : bytes) : option (list Z) := utf8_scan None l.

(** ** The automaton follows the table *)

(** What a state of the automaton waits for. *)
Definition expects (st : Z) : option (nat * Z * Z) :=
  match st with
  | 2 => Some (1%nat, 128, 191) | 3 => Some (2%nat, 128, 191) | 4 => Some (2%nat, 160, 191) | 5 => Some (2%nat, 128, 159)
  | 6 => Some (3%nat, 144, 191) | 7 => Some (3%nat, 128, 191) | 8 => Some (3%nat, 128, 143) | _ => None
  end.
Definition in_state (st cp : Z) (o : option pending) : Prop :=
  match o with
  | None => st = UTF8_ACCEPT
  | Some p => expects st = Some (more p, low p, high p) /\ cp = bits p /\ 0 <= bits p /\ (bits p + 1) * 64 ^ Z.of_nat (more p) <= 2 ^ 21
  end.
Definition step (o : option pending) (b : Z) : option pending := match o with None => first_byte b | Some p => next_byte p b end.

Lemma expects_cases st k lo hi : expects st = Some (k, lo, hi) -> 2 <= st <= 8.
Proof. destruct st as [|p|]; [done| |done]. do 4 (destruct p as [p|p|]; try done). Qed.

Definition first_ok (b : Z) : bool :=
  match decode 0 0 b, first_byte b with
  | Ok (st, cp), None => st =? UTF8_REJECT
  | Ok (st, cp), Some p =>
      (cp =? bits p) && (0 <=? bits p) &&
      match more p with
      | O => (st =? UTF8_ACCEPT) && (bits p <? 128)
      | S _ => bool_decide (expects st = Some (more p, low p, high p)) && ((bits p + 1) * 64 ^ Z.of_nat (more p) <=? 2 ^ 21)
      end
  | _, _ => false
  end.
Lemma first_ok_all b : byte_ok b -> first_ok b = true.
Proof. apply all_bytes_spec. vm_compute. reflexivity. Qed.

Definition next_ok (st b : Z) : bool :=
  match utf8d_at b, expects st with
  | Ok type, Some (k, lo, hi) =>
      match utf8d_at (256 + st * 16 + type) with
      | Ok st' => if (lo <=? b) && (b <=? hi)
                  then match pred k with O => st' =? UTF8_ACCEPT | k' => bool_decide (expects st' = Some (k', 128, 191)) end
                  else st' =? UTF8_REJECT
      | _ => false
      end
  | _, _ => false
  end.
Lemma next_ok_all st b : byte_ok b -> 2 <= st <= 8 -> next_ok st b = true.
Proof.
  intros Hb Hst. assert (st = 2 \/ st = 3 \/ st = 4 \/ st = 5 \/ st = 6 \/ st = 7 \/ st = 8) as H by lia.
  destruct_or! H; subst; revert b Hb; apply all_bytes_spec; vm_compute; reflexivity.
Qed.

Lemma continuation_bits cp b : 0 <= cp < 2 ^ 15 -> 128 <= b < 192 -> u32 (Z.lor (Z.land b 63) (Z.shiftl cp 6)) = cp * 64 + (b - 128).
Proof.
  intros Hc Hb. rewrite Z.lor_comm. change 63 with (Z.ones 6). rewrite Z.land_ones by lia.
  rewrite lor_shiftl_add by (try apply Z.mod_pos_bound; lia). change (2 ^ 6) with 64.
  replace (b mod 64) with (b - 128) by (apply Z.mod_unique_pos with 2; lia). apply u32_small. lia.
Qed.

Lemma expects_high st k lo hi : expects st = Some (k, lo, hi) -> (0 < k)%nat /\ 128 <= lo /\ hi <= 191.
Proof.
  intros H. pose proof (expects_cases _ _ _ _ H).
  assert (st = 2 \/ st = 3 \/ st = 4 \/ st = 5 \/ st = 6 \/ st = 7 \/ st = 8) as Hs by lia.
  destruct_or! Hs; subst; cbn in H; injection H as <- <- <-; lia.
Qed.

(** One byte: the automaton rejects, accepts a code point or waits exactly as the table says. *)
Lemma decode_step st cp o b : byte_ok b -> in_state st cp o ->
  exists st' cp', decode st cp b = Ok (st', cp') /\
    match step o b with
    | None => st' = UTF8_REJECT
    | Some p => match more p with
                | O => st' = UTF8_ACCEPT /\ cp' = bits p /\ (o = None -> 0 <= cp' < 128)
                | S _ => in_state st' cp' (Some p)
                end
    end.
Proof.
  intros Hb. destruct o as [p|]; cbn [in_state step].
  - intros (He & -> & H0 & Hbits). pose proof (expects_cases _ _ _ _ He) as Hst. pose proof (expects_high _ _ _ _ He) as (Hk & Hlo & Hhi).
    pose proof (next_ok_all st b Hb Hst) as Hn. unfold next_ok in Hn. rewrite He in Hn. unfold decode, next_byte.
    destruct (utf8d_at b) as [type| |]; [|done..]. destruct (utf8d_at (256 + st * 16 + type)) as [st'| |] eqn:Es; [|done..].
    cbn [mbind res_bind]. rewrite Es. cbn [mbind res_bind].
    destruct (Z.eqb_spec st UTF8_ACCEPT) as [E|_]; [unfold UTF8_ACCEPT in E; lia|]. cbn [negb].
    eexists _, _. split; [reflexivity|]. destruct (Z.leb_spec (low p) b), (Z.leb_spec b (high p)); cbn [andb] in *; [|by apply Z.eqb_eq..].
    assert (bits p < 2 ^ 15) as Hb15.
    { destruct (more p) as [|k] eqn:Ek; [|rewrite Nat2Z.inj_succ, Z.pow_succ_r in Hbits by lia; pose proof (Z.pow_pos_nonneg 64 (Z.of_nat k)); nia].
      lia. }
    rewrite continuation_bits by lia. cbn [more].
    destruct (more p) as [|k]; cbn [pred] in *; [apply Z.eqb_eq in Hn as ->; done|].
    destruct k as [|k]; [apply Z.eqb_eq in Hn as ->; done|]. apply bool_decide_eq_true in Hn.
    cbn [in_state more low high bits]. rewrite Nat2Z.inj_succ, Z.pow_succ_r in Hbits by lia.
    pose proof (Z.pow_pos_nonneg 64 (Z.of_nat (S k))). split_and!; [done|done|lia|nia].
  - intros ->. pose proof (first_ok_all b Hb) as Hf. unfold first_ok in Hf. change (decode UTF8_ACCEPT cp b) with (decode 0 0 b).
    destruct (decode 0 0 b) as [[st' cp']| |]; [|done..]. eexists _, _. split; [reflexivity|].
    destruct (first_byte b) as [p|]; [|by apply Z.eqb_eq]. rewrite !andb_true_iff in Hf. destruct Hf as [[Hc H0] Hm].
    apply Z.eqb_eq in Hc. apply Z.leb_le in H0. destruct (more p) as [|k] eqn:Ek; rewrite andb_true_iff in Hm; destruct Hm as [Hm1 Hm2].
    + apply Z.eqb_eq in Hm1. apply Z.ltb_lt in Hm2. split_and!; [done|done|lia].
    + apply bool_decide_eq_true in Hm1. apply Z.leb_le in Hm2. split_and!; cbn; try rewrite Ek; done.
Qed.

(** The decoder over a text, from a state: the code points it accepts, until a byte is rejected. *)
Fixpoint decode_all (st cp : Z) (l : bytes) : res (Z * list Z) :=
  match l with
  | [] => Ok (st, [])
  | b :: l =>
      '(st, cp) ← decode st cp b;
      if st =? UTF8_REJECT then Ok (st, [])
      else '(e, cps) ← decode_all st cp l; Ok (e, if st =? UTF8_ACCEPT then cp :: cps else cps)
  end.

Lemma in_state_not st cp p : in_state st cp (Some p) -> st <> UTF8_ACCEPT /\ st <> UTF8_REJECT.
Proof. intros [He _]. apply expects_cases in He. unfold UTF8_ACCEPT, UTF8_REJECT. lia. Qed.

Lemma decode_all_scan l : bytes_ok l -> forall st cp o, in_state st cp o ->
  exists e cps, decode_all st cp l = Ok (e, cps) /\ (e = UTF8_ACCEPT <-> utf8_scan o l = Some cps) /\
    (utf8_scan o l = None \/ utf8_scan o l = Some cps).
Proof.
  induction 1 as [|b l Hb _ IH]; intros st cp o Hst; cbn [decode_all utf8_scan].
  - exists st, []. destruct o as [p|].
    + apply in_state_not in Hst as [? ?]. split_and!; [done| |by left]. split; [done|done].
    + split_and!; [done| |by right]. split; done.
  - destruct (decode_step st cp o b Hb Hst) as (st' & cp' & -> & Hs). cbn [mbind res_bind]. unfold step in Hs.
    destruct (match o with None => _ | Some p => _ end) as [p|].
    2: { subst st'. cbn. exists UTF8_REJECT, []. split_and!; [done| |by left]. split; done. }
    destruct (more p) as [|k].
    + destruct Hs as (-> & -> & _). destruct (IH UTF8_ACCEPT (bits p) None eq_refl) as (e & cps & -> & Hiff & Hor).
      cbn. exists e, (bits p :: cps). split_and!; [done| |].
      * rewrite Hiff. destruct (utf8_scan None l); cbn; split; congruence.
      * destruct Hor as [-> | ->]; [by left|by right].
    + destruct (in_state_not _ _ _ Hs) as [H0 H1]. apply Z.eqb_neq in H0, H1. rewrite H1.
      destruct (IH st' cp' (Some p) Hs) as (e & cps & -> & Hiff & Hor). cbn [mbind res_bind]. rewrite H0. eauto 6.
Qed.

(** ** The table is the encoding form *)

Lemma utf8_scan_cont p b l : low p <= b <= high p ->
  utf8_scan (Some p) (b :: l) =
  match pred (more p) with
  | O => cons (bits p * 64 + (b - 128)) <$> utf8_scan None l
  | S k => utf8_scan (Some {| more := S k; low := 128; high := 191; bits := bits p * 64 + (b - 128) |}) l
  end.
Proof. intros H. cbn [utf8_scan]. unfold next_byte. rewrite !(proj2 (Z.leb_le _ _)) by lia. cbn. by destruct (pred (more p)). Qed.

Lemma cons_fmap_eq (x y : Z) (o : option (list Z)) : x = y -> cons x <$> o = cons y <$> o.
Proof. by intros ->. Qed.

(** The digits of a number in base 64. *)
Lemma base64 n : 0 <= n -> exists q d, n / 64 = q /\ n mod 64 = d /\ n = 64 * q + d /\ 0 <= d < 64 /\ 0 <= q.
Proof.
  intros H. exists (n / 64), (n mod 64). pose proof (Z.mod_pos_bound n 64 ltac:(lia)). pose proof (Z.div_mod n 64 ltac:(lia)).
  pose proof (Z.div_pos n 64). split_and!; lia.
Qed.

Lemma utf8_scan_encode c l : scalar c -> utf8_scan None (utf8_encode c ++ l) = cons c <$> utf8_scan None l.
Proof.
  intros Hc. unfold scalar in Hc.
  destruct (base64 c ltac:(lia)) as (q1 & d1 & E1 & D1 & Ec & Hd1 & Hq1).
  destruct (base64 q1 Hq1) as (q2 & d2 & E2 & D2 & Eq1 & Hd2 & Hq2).
  destruct (base64 q2 Hq2) as (q3 & d3 & E3 & D3 & Eq2 & Hd3 & Hq3).
  unfold utf8_encode. change 262144 with (64 * (64 * 64)). change 4096 with (64 * 64).
  rewrite <- !(Z.div_div c 64) by lia. rewrite E1, D1, <- (Z.div_div q1 64), E2, D2, E3, D3 by lia. clear E1 E2 E3 D1 D2 D3.
  destruct (Z.ltb_spec c 128); [|destruct (Z.ltb_spec c 2048); [|destruct (Z.ltb_spec c 65536)]]; cbn [app];
    match goal with |- utf8_scan None (?b :: ?l) = _ =>
      change (utf8_scan None (b :: l)) with
        (match first_byte b with
         | None => None
         | Some p => match more p with O => cons (bits p) <$> utf8_scan None l | S _ => utf8_scan (Some p) l end
         end) end; unfold first_byte; zbool; try lia; cbn [more bits].
  1: done.
  all: repeat (rewrite utf8_scan_cont by (cbn [low high]; lia); cbn [more bits pred]).
  all: apply cons_fmap_eq; lia.
Qed.

Lemma utf8_scan_next p l cps : utf8_scan (Some p) l = Some cps ->
  exists b l', l = b :: l' /\ low p <= b <= high p /\
    match pred (more p) with
    | O => exists cps', cps = bits p * 64 + (b - 128) :: cps' /\ utf8_scan None l' = Some cps'
    | S k => utf8_scan (Some {| more := S k; low := 128; high := 191; bits := bits p * 64 + (b - 128) |}) l' = Some cps
    end.
Proof.
  destruct l as [|b l]; [done|]. cbn [utf8_scan]. unfold next_byte.
  destruct (Z.leb_spec (low p) b), (Z.leb_spec b (high p)); cbn [andb more bits]; try done.
  intros E. exists b, l. split_and!; [done..|]. destruct (pred (more p)); [|done].
  destruct (utf8_scan None l) as [cps'|]; [|done]. cbn in E. injection E as <-. eauto.
Qed.

(** A text that is scanned begins with an encoded scalar value. *)
Lemma utf8_scan_inv l cps : bytes_ok l -> l <> [] -> utf8_scan None l = Some cps ->
  exists c l' cps', scalar c /\ l = utf8_encode c ++ l' /\ cps = c :: cps' /\ utf8_scan None l' = Some cps'.
Proof.
  intros Hok Hne. destruct l as [|b l]; [done|]. apply Forall_cons in Hok as [Hb Hok]. unfold byte_ok in Hb.
  cbn [utf8_scan]. destruct (first_byte b) as [p|] eqn:Ep; [|done].
  assert (Hend : forall c l' cps', scalar c -> b :: l = utf8_encode c ++ l' -> cps = c :: cps' -> utf8_scan None l' = Some cps' ->
    exists c l' cps', scalar c /\ b :: l = utf8_encode c ++ l' /\ cps = c :: cps' /\ utf8_scan None l' = Some cps') by eauto 8.
  unfold first_byte in Ep. zbool; try done; injection Ep as <-; cbn [more bits]; intros E.
  1: { destruct (utf8_scan None l) as [cps'|] eqn:El; [|done]. injection E as <-.
       apply (Hend b l cps'); [left; lia| |done..]. unfold utf8_encode. destruct (Z.ltb_spec b 128); [done|lia]. }
  all: apply utf8_scan_next in E as (b2 & l2 & -> & Hb2 & E); cbn [more low high bits pred] in E, Hb2.
  all: try (apply utf8_scan_next in E as (b3 & l3 & -> & Hb3 & E); cbn [more low high bits pred] in E, Hb3).
  all: try (apply utf8_scan_next in E as (b4 & l4 & -> & Hb4 & E); cbn [more low high bits pred] in E, Hb4).
  all: destruct E as (cps' & -> & E).
  all: match type of E with utf8_scan None ?l' = _ => refine (Hend _ l' cps' _ _ eq_refl E) end; [unfold scalar; lia|].
  all: unfold utf8_encode; zbool; try lia; cbn [app]; repeat (refine (f_equal2 cons _ _); [Z.to_euclidean_division_equations; lia|]); done.
Qed.

Lemma utf8_encode_bytes c : scalar c -> bytes_ok (utf8_encode c) /\ utf8_encode c <> [].
Proof.
  intros Hc. unfold scalar in Hc. unfold utf8_encode.
  zbool; (split; [|done]); repeat (apply Forall_cons; split); try constructor; unfold byte_ok;
    Z.to_euclidean_division_equations; lia.
Qed.

Lemma utf8_text_encode cps : Forall scalar cps -> utf8_text (concat (map utf8_encode cps)) = Some cps.
Proof.
  unfold utf8_text. induction 1 as [|c cps Hc _ IH]; [done|]. cbn [map concat]. rewrite utf8_scan_encode, IH by done. done.
Qed.

Lemma utf8_text_inv l : bytes_ok l -> forall cps, utf8_text l = Some cps ->
  l = concat (map utf8_encode cps) /\ Forall scalar cps.
Proof.
  unfold utf8_text. induction l as [l IH] using (induction_ltof1 _ (@length Z)). unfold ltof in IH. intros Hok cps Hs.
  destruct l as [|b l]; [injection Hs as <-; done|].
  destruct (utf8_scan_inv (b :: l) cps Hok) as (c & l' & cps' & Hc & El & -> & Hs'); [done..|].
  destruct (utf8_encode_bytes c Hc) as [Hb Hne]. rewrite El in Hok. apply bytes_ok_app in Hok as [_ Hok'].
  destruct (IH l') with (cps := cps') as [E2 HF]; [|done..|].
  { rewrite El, length_app. destruct (utf8_encode c); [done|]. cbn. lia. }
  rewrite El, E2. split; [done|by constructor].
Qed.

(** C35: the decoder is a decoder of UTF-8.  Run over a byte string from [UTF8_ACCEPT] it always has a
    table entry to look at, and it ends in [UTF8_ACCEPT] with the code points [cps] exactly when the string is the
    concatenation of the encoding forms of [cps] and these are scalar values: overlong forms, surrogates,
    values above 10FFFF, stray and missing continuation bytes are all rejected or left pending. *)
Theorem decode_wellformed (l : bytes) (cps : list Z) : bytes_ok l ->
  (exists st out, decode_all UTF8_ACCEPT 0 l = Ok (st, out)) /\
  (decode_all UTF8_ACCEPT 0 l = Ok (UTF8_ACCEPT, cps) <-> l = concat (map utf8_encode cps) /\ Forall scalar cps).
Proof.
  intros Hok. destruct (decode_all_scan l Hok UTF8_ACCEPT 0 None eq_refl) as (e & out & E & Hiff & _).
  split; [eauto|]. rewrite E. split.
  - intros [= -> ->]. apply utf8_text_inv; [done|]. apply Hiff. done.
  - intros [-> Hs]. pose proof (utf8_text_encode cps Hs) as Ht. unfold utf8_text in Ht.
    assert (e = UTF8_ACCEPT) as ->.
    { destruct (decode_all_scan _ Hok UTF8_ACCEPT 0 None eq_refl) as (e2 & out2 & E2 & Hiff2 & [Hn|Hn]); [congruence|].
      rewrite E in E2. injection E2 as <- <-. apply Hiff. done. }
    rewrite (proj1 Hiff eq_refl) in Ht. congruence.
Qed.

(** U+0041, U+20AC, U+1F600 and a lone first byte of three. *)
Lemma decode_wellformed_witness :
  ((exists st out, decode_all UTF8_ACCEPT 0 [65; 226; 130; 172; 240; 159; 152; 128] = Ok (st, out)) /\
   (decode_all UTF8_ACCEPT 0 [65; 226; 130; 172; 240; 159; 152; 128] = Ok (UTF8_ACCEPT, [65; 8364; 128512]) <->
    [65; 226; 130; 172; 240; 159; 152; 128] = concat (map utf8_encode [65; 8364; 128512]) /\ Forall scalar [65; 8364; 128512])) /\
  decode_all UTF8_ACCEPT 0 [65; 226; 130; 172; 240; 159; 152; 128] = Ok (UTF8_ACCEPT, [65; 8364; 128512]) /\
  decode_all UTF8_ACCEPT 0 [65; 226] = Ok (3, [65]) /\ decode_all UTF8_ACCEPT 0 [237; 160; 128] = Ok (UTF8_REJECT, []).
Proof.
  split; [|vm_compute; done]. apply decode_wellformed.
  repeat (apply Forall_cons; split; [unfold byte_ok; lia|]). constructor.
Defined.
