(* ===== verification/Json.v ===== *)
(** JSON values and their printing in utils/json.hpp: [basic_json::operator[]], [basic_json::dump] and
    [detail::serializer].  The printing of a finite double ([detail::to_chars]) is an argument.  Parsing and
    the rest of the library are not used by the program. *)
From S2P Require Import Prelude StdMap StdText StringEx Util Double JsonUtf8.

(** ** Values: the tags of [value_t] with their members of [json_value]; an object is a [std::map] *)

Inductive json : Type :=
| JNull
| JObject (object : list (bytes * json))
| JArray (array : list json)
| JString (string : bytes)
| JBoolean (boolean : bool)
| JInteger (number_integer : Z)
| JUnsigned (number_unsigned : Z)
| JFloat (number_float : double)
| JDiscarded.

Definition type_name (v : json) : bytes :=
  match v with
  | JNull => bstr "null" | JObject _ => bstr "object" | JArray _ => bstr "array" | JString _ => bstr "string"
  | JBoolean _ => bstr "boolean" | JDiscarded => bstr "discarded" | _ => bstr "number"
  end.

(** The message of an exception is a C string. *)
Fixpoint until_zero (s : bytes) : bytes :=
  match s with [] => [] | b :: s => if b =? 0 then [] else b :: until_zero s end.
Definition type_error_create (id : Z) (what_arg : bytes) : exn :=
  TypeError id (until_zero (bstr "[json.exception.type_error." ++ to_string_int id ++ bstr "] " ++ what_arg)).

(** [v[key] = x]. *)
Definition index_assign (v : json) (key : bytes) (x : json) : res json :=
  match match v with JNull => JObject [] | _ => v end with
  | JObject ms => Ok (JObject (smap_set key x ms))
  | v => Throw (type_error_create 305 (bstr "cannot use operator[] with a string argument with " ++ type_name v))
  end.

(** ** The serializer *)

Inductive error_handler_t : Type := Strict | Replace | Ignore.

(** [out] is the text written to [o]; [string_buffer] is local to [dump_escaped]. *)
Record serializer : Type := mkSer {
  out : bytes;
  number_buffer : mem;
  indent_string : bytes }.
Definition new_serializer (indent_char : Z) : serializer :=
  mkSer [] (replicate 64 (Some 0)) (replicate 512 indent_char).

Definition write_characters (s : bytes) (t : serializer) : serializer := mkSer (out t ++ s) (number_buffer t) (indent_string t).
Definition with_buffer (t : serializer) (m : mem) : serializer := mkSer (out t) m (indent_string t).

(** *** Strings *)

Definition string_buffer_size : Z := 512.

(** [string_buffer] is its first [bytes] bytes; [n] bytes are stored behind them, of which [l] count. *)
Definition store (buf l : bytes) (n : Z) : res bytes := guard_res (Zlen buf + n <=? string_buffer_size) ;; Ok (buf ++ l).

Definition unicode_escape (u : Z) : bytes := [92; 117] ++ hex4 (u16 u).

Definition store_codepoint (ensure_ascii : bool) (buf : bytes) (codepoint byte : Z) : res bytes :=
  let short c := buf ← store buf [92] 1; store buf [c] 1 in
  if codepoint =? 8 then short 98
  else if codepoint =? 9 then short 116
  else if codepoint =? 10 then short 110
  else if codepoint =? 12 then short 102
  else if codepoint =? 13 then short 114
  else if codepoint =? 34 then short 34
  else if codepoint =? 92 then short 92
  else if (codepoint <=? 31) || (ensure_ascii && (127 <=? codepoint)) then
    if codepoint <=? 65535 then store buf (unicode_escape codepoint) 7
    else store buf (unicode_escape (55232 + Z.shiftr codepoint 10) ++ unicode_escape (56320 + Z.land codepoint 1023)) 13
  else store buf [byte] 1.

(** The locals of [dump_escaped]. *)
Record escaping : Type := mkEsc {
  codepoint : Z;
  state : Z;
  string_buffer : bytes;
  bytes_after_last_accept : Z;
  undumped_chars : Z;
  dumped : serializer }.

(** Fewer than 13 bytes left: the buffer is written. *)
Definition flush (buf : bytes) (t : serializer) : bytes * serializer :=
  if u64 (string_buffer_size - Zlen buf) <? 13 then ([], write_characters buf t) else (buf, t).

(** [%.2X]. *)
Definition HEX_digit (n : Z) : Z := if n <? 10 then 48 + n else 55 + n.
Definition HEX2 (b : Z) : bytes := [HEX_digit (Z.shiftr b 4); HEX_digit (Z.land b 15)].

Definition replacement (ensure_ascii : bool) : bytes := if ensure_ascii then bstr "\ufffd" else [239; 191; 189].

(** The rejected sequence is forgotten, and marked under [Replace]. *)
Definition drop_sequence (handler : error_handler_t) (ensure_ascii : bool) (st' cp' : Z) (e : escaping) : res escaping :=
  let buf := firstn (Z.to_nat (bytes_after_last_accept e)) (string_buffer e) in
  match handler with
  | Replace =>
      buf ← store buf (replacement ensure_ascii) (Zlen (replacement ensure_ascii));
      let '(buf, t) := flush buf (dumped e) in
      Ok (mkEsc cp' UTF8_ACCEPT buf (Zlen buf) 0 t)
  | _ => Ok (mkEsc cp' UTF8_ACCEPT buf (bytes_after_last_accept e) 0 (dumped e))
  end.

(** One byte at index [i]; the result says whether it is to be read again. *)
Definition dump_byte (handler : error_handler_t) (ensure_ascii : bool) (i byte : Z) (e : escaping) : res (escaping * bool) :=
  '(st, cp) ← decode (state e) (codepoint e) byte;
  if st =? UTF8_ACCEPT then
    buf ← store_codepoint ensure_ascii (string_buffer e) cp byte;
    let '(buf, t) := flush buf (dumped e) in
    Ok (mkEsc cp st buf (Zlen buf) 0 t, false)
  else if st =? UTF8_REJECT then
    match handler with
    | Strict => Throw (type_error_create 316
                  (bstr "invalid UTF-8 byte at index " ++ to_string i ++ bstr ": 0x" ++ HEX2 byte ++ [0]))
    | _ => e' ← drop_sequence handler ensure_ascii st cp e; Ok (e', 0 <? undumped_chars e)
    end
  else
    buf ← (if negb ensure_ascii then store (string_buffer e) [byte] 1 else Ok (string_buffer e));
    Ok (mkEsc cp st buf (bytes_after_last_accept e) (undumped_chars e + 1) (dumped e), false).

(** The loop over the string; a byte is read at most twice. *)
Fixpoint dump_bytes (fuel : nat) (handler : error_handler_t) (ensure_ascii : bool) (i : Z) (s : bytes) (e : escaping) : res escaping :=
  match s with
  | [] => Ok e
  | byte :: s' =>
      match fuel with
      | O => Undef
      | S fuel =>
          '(e, again) ← dump_byte handler ensure_ascii i byte e;
          if again : bool then dump_bytes fuel handler ensure_ascii i s e else dump_bytes fuel handler ensure_ascii (i + 1) s' e
      end
  end.

(** Behind the loop: what was accepted is written, and the sequence that is not complete is handled. *)
Definition dump_escaped_end (handler : error_handler_t) (s : bytes) (ensure_ascii : bool) (e : escaping) : res serializer :=
  if state e =? UTF8_ACCEPT then Ok (if 0 <? Zlen (string_buffer e) then write_characters (string_buffer e) (dumped e) else dumped e)
  else
    let accepted := write_characters (firstn (Z.to_nat (bytes_after_last_accept e)) (string_buffer e)) (dumped e) in
    match handler with
    | Strict => Throw (type_error_create 316 (bstr "incomplete UTF-8 string; last byte: 0x" ++ HEX2 (List.last s 0) ++ [0]))
    | Ignore => Ok accepted
    | Replace => Ok (write_characters (replacement ensure_ascii) accepted)
    end.

Definition dump_escaped (handler : error_handler_t) (s : bytes) (ensure_ascii : bool) (t : serializer) : res serializer :=
  e ← dump_bytes (2 * length s) handler ensure_ascii 0 s (mkEsc 0 UTF8_ACCEPT [] 0 0 t);
  dump_escaped_end handler s ensure_ascii e.

(** *** Integers: 64 bits have at most twenty digits *)

Fixpoint count_digits (fuel : nat) (x n_digits : Z) : res Z :=
  match fuel with
  | O => Undef
  | S fuel =>
      if x <? 10 then Ok n_digits
      else if x <? 100 then Ok (n_digits + 1)
      else if x <? 1000 then Ok (n_digits + 2)
      else if x <? 10000 then Ok (n_digits + 3)
      else count_digits fuel (x / 10000) (n_digits + 4)
  end.

Definition digits_to_99 : list (Z * Z) :=
  [(48, 48); (48, 49); (48, 50); (48, 51); (48, 52); (48, 53); (48, 54); (48, 55); (48, 56); (48, 57); (49, 48); (49,
   49); (49, 50); (49, 51); (49, 52); (49, 53); (49, 54); (49, 55); (49, 56); (49, 57); (50, 48); (50, 49); (50, 50);
   (50, 51); (50, 52); (50, 53); (50, 54); (50, 55); (50, 56); (50, 57); (51, 48); (51, 49); (51, 50); (51, 51); (51,
   52); (51, 53); (51, 54); (51, 55); (51, 56); (51, 57); (52, 48); (52, 49); (52, 50); (52, 51); (52, 52); (52, 53);
   (52, 54); (52, 55); (52, 56); (52, 57); (53, 48); (53, 49); (53, 50); (53, 51); (53, 52); (53, 53); (53, 54); (53,
   55); (53, 56); (53, 57); (54, 48); (54, 49); (54, 50); (54, 51); (54, 52); (54, 53); (54, 54); (54, 55); (54, 56);
   (54, 57); (55, 48); (55, 49); (55, 50); (55, 51); (55, 52); (55, 53); (55, 54); (55, 55); (55, 56); (55, 57); (56,
   48); (56, 49); (56, 50); (56, 51); (56, 52); (56, 53); (56, 54); (56, 55); (56, 56); (56, 57); (57, 48); (57, 49);
   (57, 50); (57, 51); (57, 52); (57, 53); (57, 54); (57, 55); (57, 56); (57, 57)].

Definition remove_sign (x : Z) : Z := u64 (u64 (- (x + 1)) + 1).

(** Two digits are stored in front of [ptr]. *)
Definition store_pair (m : mem) (ptr index : Z) : res mem :=
  match digits_to_99 !! Z.to_nat index with
  | Some (d0, d1) => m ← mem_store m (ptr - 1) [Some d1]; mem_store m (ptr - 2) [Some d0]
  | None => Undef
  end.

Fixpoint digit_pairs (fuel : nat) (m : mem) (ptr abs_value : Z) : res (mem * Z * Z) :=
  match fuel with
  | O => Undef
  | S fuel =>
      if 100 <=? abs_value then m ← store_pair m ptr (abs_value mod 100); digit_pairs fuel m (ptr - 2) (abs_value / 100)
      else Ok (m, ptr, abs_value)
  end.

Definition dump_integer (x : Z) (t : serializer) : res serializer :=
  if x =? 0 then Ok (write_characters [48] t)
  else
    let is_negative := negb (0 <=? x) in
    m ← (if is_negative then mem_store (number_buffer t) 0 [Some 45] else Ok (number_buffer t));
    let abs_value := if is_negative then remove_sign x else u64 x in
    n ← count_digits 6 abs_value 1;
    let n_chars := if is_negative then 1 + n else n in
    guard_res (n_chars <? 64 - 1) ;;
    '(m, ptr, abs_value) ← digit_pairs 10 m n_chars abs_value;
    m ← (if 10 <=? abs_value then store_pair m ptr abs_value else mem_store m (ptr - 1) [Some (48 + abs_value)]);
    chars ← mem_load m 0 n_chars;
    chars ← determinate chars;
    Ok (write_characters chars (with_buffer t m)).

(** *** Values *)

(** [write_characters(indent_string.c_str(), n)]: the final zero may be read too. *)
Definition write_indent (n : Z) (t : serializer) : res serializer :=
  if n <=? Zlen (indent_string t) then Ok (write_characters (firstn (Z.to_nat n) (indent_string t)) t)
  else if n =? Zlen (indent_string t) + 1 then Ok (write_characters (indent_string t ++ [0]) t)
  else Undef.
(** [resize] fills with spaces. *)
Definition grow_indent (new_indent : Z) (t : serializer) : serializer :=
  if Zlen (indent_string t) <? new_indent
  then mkSer (out t) (number_buffer t) (indent_string t ++ replicate (length (indent_string t)) 32) else t.

(** The loop over the members or elements: all but the last are followed by [sep]. *)
Section print_list.
Context {A : Type} (sep : bytes) (body : A -> serializer -> res serializer).
Fixpoint print_list (l : list A) (t : serializer) : res serializer :=
  match l with
  | [] => Ok t
  | x :: l => t ← body x t; match l with [] => Ok t | _ => print_list l (write_characters sep t) end
  end.
End print_list.

Section dump.
Context (to_chars : double -> bytes) (handler : error_handler_t).

Definition dump_float (x : double) (t : serializer) : serializer :=
  match x with
  | SpecFloat.S754_zero _ | SpecFloat.S754_finite _ _ _ => write_characters (to_chars x) t
  | _ => write_characters (bstr "null") t
  end.

(** A key and what follows it, from the quote on. *)
Definition dump_key (k : bytes) (ensure_ascii : bool) (colon : bytes) (t : serializer) : res serializer :=
  t ← dump_escaped handler k ensure_ascii (write_characters [34] t); Ok (write_characters colon t).

Fixpoint dump_value (v : json) (pretty_print ensure_ascii : bool) (indent_step current_indent : Z) (t : serializer) : res serializer :=
  match v with
  | JObject [] => Ok (write_characters (bstr "{}") t)
  | JObject ms =>
      if pretty_print then
        let new_indent := u32 (current_indent + indent_step) in
        t ← print_list [44; 10] (fun e t =>
              t ← write_indent new_indent t;
              t ← dump_key (fst e) ensure_ascii [34; 58; 32] t;
              dump_value (snd e) true ensure_ascii indent_step new_indent t)
            ms (grow_indent new_indent (write_characters [123; 10] t));
        t ← write_indent current_indent (write_characters [10] t);
        Ok (write_characters [125] t)
      else
        t ← print_list [44] (fun e t =>
              t ← dump_key (fst e) ensure_ascii [34; 58] t;
              dump_value (snd e) false ensure_ascii indent_step current_indent t)
            ms (write_characters [123] t);
        Ok (write_characters [125] t)
  | JArray [] => Ok (write_characters (bstr "[]") t)
  | JArray vs =>
      if pretty_print then
        let new_indent := u32 (current_indent + indent_step) in
        t ← print_list [44; 10] (fun v t =>
              t ← write_indent new_indent t;
              dump_value v true ensure_ascii indent_step new_indent t)
            vs (grow_indent new_indent (write_characters [91; 10] t));
        t ← write_indent current_indent (write_characters [10] t);
        Ok (write_characters [93] t)
      else
        t ← print_list [44] (fun v t => dump_value v false ensure_ascii indent_step current_indent t)
            vs (write_characters [91] t);
        Ok (write_characters [93] t)
  | JString s => t ← dump_escaped handler s ensure_ascii (write_characters [34] t); Ok (write_characters [34] t)
  | JBoolean b => Ok (write_characters (if b then bstr "true" else bstr "false") t)
  | JInteger n => dump_integer n t
  | JUnsigned n => dump_integer n t
  | JFloat x => Ok (dump_float x t)
  | JDiscarded => Ok (write_characters (bstr "<discarded>") t)
  | JNull => Ok (write_characters (bstr "null") t)
  end.
End dump.

(** [basic_json::dump]. *)
Definition dump (to_chars : double -> bytes) (v : json) (indent indent_char : Z) (ensure_ascii : bool) (handler : error_handler_t) : res bytes :=
  let t := new_serializer indent_char in
  t ← (if 0 <=? indent then dump_value to_chars handler v true ensure_ascii (u32 indent) 0 t
       else dump_value to_chars handler v false ensure_ascii 0 0 t);
  Ok (out t).

Example dump_demo : dump (fun _ => []) (JObject [(bstr "a", JArray [JInteger (-12345); JUnsigned 7; JNull; JString [195; 169; 10]])])
  (-1) 32 true Strict = Ok ([123; 34; 97; 34; 58] ++ bstr "[-12345,7,null," ++ [34] ++ bstr "\u00e9\n" ++ [34] ++ bstr "]}").
Proof. vm_compute. reflexivity. Qed.
Example dump_pretty_demo : dump (fun _ => []) (JArray [JArray []; JInteger (- 2 ^ 63)]) 2 32 false Strict
  = Ok (bstr "[" ++ [10] ++ bstr "  []," ++ [10] ++ bstr "  -9223372036854775808" ++ [10] ++ bstr "]").
Proof. vm_compute. reflexivity. Qed.
Example dump_replace_demo : dump (fun _ => []) (JString [65; 226; 130; 66; 255]) (-1) 32 false Replace
  = Ok ([34; 65; 239; 191; 189; 66; 239; 191; 189; 34]).
Proof. vm_compute. reflexivity. Qed.
