(* ===== verification/JsonEscape.v ===== *)
(** What the serializer of [Json] does with strings and integers: a string is escaped code point by code
    point within the fixed buffer, refused or repaired as the error handler says; an integer is
    printed in decimal. *)
From S2P Require Import Prelude StdMap StdText StringEx Util Double JsonUtf8 Json.

(** ** Strings *)

(** The short escapes, and the UTF-16 form of a code point. *)
Definition short_escape (c : Z) : option Z :=
  if c =? 8 then Some 98 else if c =? 9 then Some 116 else if c =? 10 then Some 110 else if c =? 12 then Some 102
  else if c =? 13 then Some 114 else if c =? 34 then Some 34 else if c =? 92 then Some 92 else None.
Definition utf16 (c : Z) : list Z :=
  if c <? 65536 then [c] else [55296 + (c - 65536) / 1024; 56320 + (c - 65536) mod 1024].
Definition escape (ensure_ascii : bool) (c : Z) : bytes :=
  match short_escape c with
  | Some x => [92; x]
  | None => if (c <? 32) || (ensure_ascii && (127 <=? c)) then concat (map (fun u => [92; 117] ++ hex4 u) (utf16 c))
            else utf8_encode c
  end.

(** The code points of a text, [None] for each ill-formed sequence: a sequence ends before the first
    byte that cannot continue it. *)
Fixpoint utf8_repair (o : option pending) (l : bytes) : list (option Z) :=
  match l with
  | [] => match o with None => [] | Some _ => [None] end
  | b :: l =>
      let go (q : option pending) := match q with
        | None => None :: utf8_repair None l
        | Some q => match more q with O => Some (bits q) :: utf8_repair None l | S _ => utf8_repair (Some q) l end
        end in
      match o with
      | None => go (first_byte b)
      | Some p => match next_byte p b with None => None :: go (first_byte b) | q => go q end
      end
  end.

Definition handled (h : error_handler_t) (r : list (option Z)) : option (list Z) :=
  match h with
  | Strict => mapM id r
  | Replace => Some (map (default 65533) r)
  | Ignore => Some (omap id r)
  end.

Lemma utf8_repair_scan l : forall o, utf8_scan o l = mapM id (utf8_repair o l).
Proof.
  assert (Hc : forall (c : Z) r, mapM id (Some c :: r) = cons c <$> mapM id r).
  { intros c r. cbn. destruct (mapM id r); done. }
  induction l as [|b l IH]; intros o; [by destruct o|]. cbn [utf8_scan utf8_repair].
  destruct o as [p|].
  - destruct (next_byte p b) as [q|]; [|done]. destruct (more q); [rewrite Hc, IH; done|apply IH].
  - destruct (first_byte b) as [q|]; [|done]. destruct (more q); [rewrite Hc, IH; done|apply IH].
Qed.

(** *** The escaping loop *)

Lemma write_app a b t : write_characters b (write_characters a t) = write_characters (a ++ b) t.
Proof. unfold write_characters. cbn. by rewrite app_assoc. Qed.
Lemma write_nil t : write_characters [] t = t.
Proof. unfold write_characters. rewrite app_nil_r. by destruct t. Qed.

(** Between two bytes: [buf0] is what was accepted, [p] the sequence that has begun. *)
Record esc_rel (ascii : bool) (e : escaping) (buf0 p : bytes) (o : option pending) : Prop := {
  er_state : in_state (state e) (codepoint e) o;
  er_buffer : string_buffer e = buf0 ++ (if ascii then [] else p);
  er_accept : bytes_after_last_accept e = Zlen buf0;
  er_room : Zlen buf0 <= 499;
  er_undumped : undumped_chars e = Zlen p;
  er_prefix : forall l, utf8_scan None (p ++ l) = utf8_scan o l;
  er_bytes : bytes_ok p;
  er_len : match o with None => p = [] | Some q => p <> [] /\ (length p + more q <= 4)%nat end }.

Definition accepted (e : escaping) (buf0 : bytes) : serializer := write_characters buf0 (dumped e).

Lemma hex4_len u : Zlen (hex4 u) = 4.
Proof. reflexivity. Qed.

Lemma escape_len ascii c : Zlen (escape ascii c) <= 12.
Proof.
  unfold escape, utf16, utf8_encode. destruct (short_escape c); [vm_compute; discriminate|].
  destruct (_ || _); repeat (match goal with |- context [if ?b then _ else _] => destruct b end); vm_compute; discriminate.
Qed.

Lemma scalar_u16 c : scalar c -> c < 65536 -> u16 c = c.
Proof. intros [H|H] ?; apply u16_small; lia. Qed.

Lemma store_ok buf l n : Zlen buf + n <= 512 -> store buf l n = Ok (buf ++ l).
Proof. intros H. unfold store, string_buffer_size. rewrite (proj2 (Z.leb_le _ _)) by lia. done. Qed.

Lemma surrogates c : scalar c -> 65536 <= c ->
  u16 (55232 + Z.shiftr c 10) = 55296 + (c - 65536) / 1024 /\ u16 (56320 + Z.land c 1023) = 56320 + (c - 65536) mod 1024.
Proof.
  intros Hc Hge. unfold scalar in Hc. rewrite Z.shiftr_div_pow2 by lia. change 1023 with (Z.ones 10).
  rewrite Z.land_ones by lia. change (2 ^ 10) with 1024. replace (c - 65536) with (c + (-64) * 1024) by lia.
  rewrite Z.div_add, Z.mod_add by lia. pose proof (Z.mod_pos_bound c 1024 ltac:(lia)).
  assert (c / 1024 < 1088) by (apply Z.div_lt_upper_bound; lia).
  assert (64 <= c / 1024) by (apply Z.div_le_lower_bound; lia).
  split; rewrite u16_small; lia.
Qed.

(** An accepted code point leaves its escape in the buffer. *)
Lemma store_codepoint_ok ascii buf0 p b c : scalar c -> p ++ [b] = utf8_encode c -> Zlen buf0 <= 499 ->
  store_codepoint ascii (buf0 ++ (if ascii then [] else p)) c b = Ok (buf0 ++ escape ascii c).
Proof.
  intros Hc Hp Hl.
  assert (H1 : c < 128 -> p = [] /\ b = c).
  { intros H. unfold utf8_encode in Hp. destruct (Z.ltb_spec c 128); [|lia]. destruct p as [|x [|]]; by injection Hp. }
  assert (H3 : Zlen p <= 3).
  { enough (Zlen (p ++ [b]) <= 4) by zlen. rewrite Hp. unfold utf8_encode.
    repeat (match goal with |- context [if ?b then _ else _] => destruct b end); vm_compute; discriminate. }
  assert (Hshort : forall x, c < 128 -> (buf ← store (buf0 ++ (if ascii then [] else p)) [92] 1; store buf [x] 1) = Ok (buf0 ++ [92; x])).
  { intros x H. destruct (H1 H) as [-> _]. replace (if ascii then [] else @nil Z) with (@nil Z) by (by destruct ascii).
    rewrite app_nil_r, store_ok by lia. cbn [mbind res_bind]. rewrite store_ok by zlen. by rewrite <- app_assoc. }
  unfold store_codepoint, escape, short_escape.
  do 7 (match goal with |- context [c =? ?k] => destruct (Z.eqb_spec c k); [by apply Hshort; lia|] end).
  replace (c <=? 31) with (c <? 32) by (destruct (Z.leb_spec c 31), (Z.ltb_spec c 32); lia).
  destruct ((c <? 32) || (ascii && (127 <=? c))) eqn:Ec.
  - assert (Hbuf : buf0 ++ (if ascii then [] else p) = buf0).
    { destruct ascii; [apply app_nil_r|]. rewrite orb_false_r in Ec. apply Z.ltb_lt in Ec. destruct H1 as [-> _]; [lia|apply app_nil_r]. }
    rewrite Hbuf. unfold utf16. destruct (Z.leb_spec c 65535), (Z.ltb_spec c 65536); try lia.
    + rewrite store_ok by lia. unfold unicode_escape. rewrite scalar_u16 by done. cbn [map concat]. by rewrite app_nil_r.
    + rewrite store_ok by lia. unfold unicode_escape. destruct (surrogates c Hc) as [-> ->]; [lia|]. cbn [map concat]. by rewrite app_nil_r.
  - apply orb_false_iff in Ec as [Ec1 Ec2]. apply Z.ltb_ge in Ec1. destruct ascii.
    + apply Z.leb_gt in Ec2. destruct H1 as [-> ->]; [lia|]. rewrite app_nil_r, store_ok by lia. unfold utf8_encode.
      destruct (Z.ltb_spec c 128); [done|lia].
    + rewrite store_ok by zlen. by rewrite <- app_assoc, Hp.
Qed.

Lemma flush_ok buf t : Zlen buf <= 511 ->
  exists buf' t', flush buf t = (buf', t') /\ Zlen buf' <= 499 /\ write_characters buf' t' = write_characters buf t.
Proof.
  intros H. pose proof (Zlen_nonneg buf). unfold flush, string_buffer_size. rewrite u64_small by lia.
  destruct (Z.ltb_spec (512 - Zlen buf) 13); eexists _, _; (split; [reflexivity|]); (split; [|by rewrite ?write_nil]); [done|lia].
Qed.

Lemma bytes_ok_snoc p b : bytes_ok p -> byte_ok b -> bytes_ok (p ++ [b]).
Proof. intros Hp Hb. apply bytes_ok_app. split; [done|]. apply Forall_cons. split; [done|constructor]. Qed.

Lemma esc_rel_fresh ascii cp buf t : Zlen buf <= 499 -> esc_rel ascii (mkEsc cp UTF8_ACCEPT buf (Zlen buf) 0 t) buf [] None.
Proof. intros H. constructor; cbn; try done; [by destruct ascii; rewrite app_nil_r|constructor]. Qed.

Lemma first_byte_more b q : first_byte b = Some q -> (more q <= 3)%nat.
Proof. unfold first_byte. intros E. repeat (destruct (_ <? _) in E; [injection E as <-; cbn; lia || done|]).
  zbool; try done; injection E as <-; cbn; lia. Qed.

(** A sequence begins or goes on: its byte is copied, or kept back for its escape. *)
Lemma dump_byte_more h ascii i b e buf0 p o q : byte_ok b -> esc_rel ascii e buf0 p o -> step o b = Some q -> more q <> O ->
  exists e', dump_byte h ascii i b e = Ok (e', false) /\ esc_rel ascii e' buf0 (p ++ [b]) (Some q) /\ accepted e' buf0 = accepted e buf0.
Proof.
  intros Hb [Hst Hbuf Hacc Hroom Hund Hpre Hbytes Hlen] Hs Hq.
  destruct (decode_step _ _ _ b Hb Hst) as (st & cp & E & H). rewrite Hs in H. destruct (more q) as [|k] eqn:Ek; [done|].
  unfold dump_byte. rewrite E. cbn [mbind res_bind]. destruct (in_state_not _ _ _ H) as [H0 H1].
  rewrite (proj2 (Z.eqb_neq _ _) H0), (proj2 (Z.eqb_neq _ _) H1).
  assert (Hlp : (length (p ++ [b]) + more q <= 4)%nat).
  { rewrite length_app. cbn [length]. destruct o as [r|]; cbn [step] in Hs.
    - destruct Hlen as [_ Hlen]. unfold next_byte in Hs. destruct (_ && _); [|done]. injection Hs as <-. cbn in Ek |- *. lia.
    - apply first_byte_more in Hs. subst p. cbn. lia. }
  assert (Es : (if negb ascii then store (string_buffer e) [b] 1 else Ok (string_buffer e)) = Ok (buf0 ++ if ascii then [] else p ++ [b])).
  { rewrite Hbuf. destruct ascii; [done|]. cbn [negb]. rewrite length_app in Hlp. cbn in Hlp. rewrite store_ok by (unfold Zlen in *; rewrite length_app; lia).
    by rewrite <- app_assoc. }
  rewrite Es. cbn [mbind res_bind]. eexists. split; [reflexivity|]. split; [|done].
  constructor; cbn; try done.
  - rewrite Hund. zlen.
  - intros l. rewrite <- app_assoc, Hpre. cbn [app utf8_scan]. unfold step in Hs. rewrite Hs, Ek. done.
  - by apply bytes_ok_snoc.
  - split; [by destruct p|]. rewrite Ek in *. done.
Qed.

(** A code point is complete. *)
Lemma dump_byte_accept h ascii i b e buf0 p o q : byte_ok b -> esc_rel ascii e buf0 p o -> step o b = Some q -> more q = O ->
  exists e' buf', dump_byte h ascii i b e = Ok (e', false) /\ esc_rel ascii e' buf' [] None /\
    accepted e' buf' = write_characters (escape ascii (bits q)) (accepted e buf0).
Proof.
  intros Hb [Hst Hbuf Hacc Hroom Hund Hpre Hbytes Hlen] Hs Hq.
  destruct (decode_step _ _ _ b Hb Hst) as (st & cp & E & H). rewrite Hs, Hq in H. destruct H as (-> & -> & _).
  unfold dump_byte. rewrite E. cbn [mbind res_bind]. change (UTF8_ACCEPT =? UTF8_ACCEPT) with true. cbv iota.
  assert (Hsc : utf8_text (p ++ [b]) = Some [bits q]).
  { unfold utf8_text. rewrite Hpre. cbn [utf8_scan]. unfold step in Hs. rewrite Hs, Hq. done. }
  apply utf8_text_inv in Hsc as [Hsc Hscal]; [|by apply bytes_ok_snoc].
  cbn [map concat] in Hsc. rewrite app_nil_r in Hsc. apply Forall_cons in Hscal as [Hscal _].
  rewrite Hbuf, (store_codepoint_ok _ _ _ _ _ Hscal Hsc Hroom). cbn [mbind res_bind].
  destruct (flush_ok (buf0 ++ escape ascii (bits q)) (dumped e)) as (buf' & t' & -> & Hl & Hw); [pose proof (escape_len ascii (bits q)); zlen|].
  eexists _, buf'. split; [reflexivity|]. split; [by apply esc_rel_fresh|]. unfold accepted. cbn [dumped]. by rewrite Hw, write_app.
Qed.

Lemma dump_byte_reject h ascii i b e buf0 p o : byte_ok b -> esc_rel ascii e buf0 p o -> step o b = None ->
  match h with
  | Strict => exists what, dump_byte h ascii i b e = Throw (TypeError 316 what)
  | _ => exists e' buf', dump_byte h ascii i b e = Ok (e', match o with None => false | Some _ => true end) /\
           esc_rel ascii e' buf' [] None /\
           accepted e' buf' = write_characters (match h with Replace => escape ascii 65533 | _ => [] end) (accepted e buf0)
  end.
Proof.
  intros Hb [Hst Hbuf Hacc Hroom Hund Hpre Hbytes Hlen] Hs.
  destruct (decode_step _ _ _ b Hb Hst) as (st & cp & E & H). rewrite Hs in H. subst st.
  unfold dump_byte. rewrite E. cbn [mbind res_bind].
  assert (Hcut : firstn (Z.to_nat (bytes_after_last_accept e)) (string_buffer e) = buf0) by (rewrite Hacc, Hbuf, to_nat_Zlen; apply firstn_app_len).
  assert (Hagain : (0 <? undumped_chars e) = match o with None => false | Some _ => true end).
  { rewrite Hund. destruct o; [destruct Hlen as [Hne _]; destruct p; [done|apply Z.ltb_lt; zlen]|subst p; done]. }
  destruct h; cbn [negb Z.eqb UTF8_REJECT UTF8_ACCEPT].
  - eexists. reflexivity.
  - unfold drop_sequence. rewrite Hcut.
    assert (Hr : replacement ascii = escape ascii 65533) by (destruct ascii; vm_compute; reflexivity).
    rewrite Hr. pose proof (escape_len ascii 65533). rewrite store_ok by lia. cbn [mbind res_bind].
    destruct (flush_ok (buf0 ++ escape ascii 65533) (dumped e)) as (buf' & t' & -> & Hl & Hw); [zlen|].
    cbn [mbind res_bind]. rewrite Hagain. eexists _, buf'. split; [reflexivity|]. split; [by apply esc_rel_fresh|].
    unfold accepted. cbn [dumped]. by rewrite Hw, write_app.
  - unfold drop_sequence. rewrite Hcut, Hacc, Hagain. cbn [mbind res_bind]. eexists _, buf0. split; [reflexivity|].
    split; [by apply esc_rel_fresh|]. by rewrite write_nil.
Qed.

Definition escaped (ascii : bool) (cps : list Z) : bytes := concat (map (escape ascii) cps).

(** The outcome of a string: its code points escaped behind what was written, or an exception. *)
Definition string_outcome (ascii : bool) (o : option (list Z)) (t : serializer) (r : res serializer) : Prop :=
  match o with
  | Some cps => r = Ok (write_characters (escaped ascii cps) t)
  | None => exists what, r = Throw (TypeError 316 what)
  end.

Lemma string_outcome_cons ascii c o t r : string_outcome ascii o (write_characters (escape ascii c) t) r ->
  string_outcome ascii (cons c <$> o) t r.
Proof. destruct o as [cps|]; [|done]. cbn. intros ->. by rewrite write_app. Qed.

Lemma handled_some h c r : handled h (Some c :: r) = cons c <$> handled h r.
Proof. destruct h; cbn; [by destruct (mapM id r)|done|done]. Qed.

Lemma string_outcome_none ascii h r t x :
  match h with
  | Strict => exists what, x = Throw (TypeError 316 what)
  | Replace => string_outcome ascii (handled h r) (write_characters (escape ascii 65533) t) x
  | Ignore => string_outcome ascii (handled h r) (write_characters [] t) x
  end -> string_outcome ascii (handled h (None :: r)) t x.
Proof. destruct h; [done| |by rewrite write_nil]. apply string_outcome_cons. Qed.

Lemma string_outcome_nil ascii h t : string_outcome ascii (handled h []) t (Ok t).
Proof.
  assert (string_outcome ascii (Some []) t (Ok t)) by (unfold string_outcome, escaped; cbn [map concat]; by rewrite write_nil).
  by destruct h.
Qed.

Lemma dump_escaped_end_ok h ascii s0 e buf0 p o : esc_rel ascii e buf0 p o ->
  string_outcome ascii (handled h (utf8_repair o [])) (accepted e buf0) (dump_escaped_end h s0 ascii e).
Proof.
  intros [Hst Hbuf Hacc Hroom Hund Hpre Hbytes Hlen]. unfold dump_escaped_end. destruct o as [q|]; cbn [utf8_repair].
  - destruct (in_state_not _ _ _ Hst) as [H0 _]. rewrite (proj2 (Z.eqb_neq _ _) H0).
    rewrite Hacc, Hbuf, to_nat_Zlen, firstn_app_len. apply string_outcome_none. destruct h; [by eexists| |].
    + replace (replacement ascii) with (escape ascii 65533) by (destruct ascii; vm_compute; reflexivity).
      apply string_outcome_nil.
    + rewrite write_nil. apply string_outcome_nil.
  - rewrite Hst. subst p. replace (string_buffer e) with buf0 by (rewrite Hbuf; by destruct ascii; rewrite app_nil_r).
    unfold accepted. destruct (Z.ltb_spec 0 (Zlen buf0)) as [H|H].
    + apply string_outcome_nil.
    + assert (buf0 = []) as -> by (apply Zlen_0_nil; zlen). rewrite write_nil. apply string_outcome_nil.
Qed.

Lemma dump_bytes_ok h ascii s0 s : bytes_ok s -> forall fuel i e buf0 p o, esc_rel ascii e buf0 p o ->
  (2 * length s <= fuel + match o with None => 1 | Some _ => 0 end)%nat ->
  string_outcome ascii (handled h (utf8_repair o s)) (accepted e buf0)
    (e ← dump_bytes fuel h ascii i s e; dump_escaped_end h s0 ascii e).
Proof.
  induction 1 as [|b s Hb _ IH]; intros fuel i e buf0 p o Hrel Hfuel; [by destruct fuel; cbn; eapply dump_escaped_end_ok|].
  (* a byte from the beginning of a sequence, or going on with one *)
  assert (Hgo : forall fuel i e buf0 p o q, esc_rel ascii e buf0 p o -> step o b = Some q -> (2 * length s <= fuel)%nat ->
    string_outcome ascii (handled h (match more q with O => Some (bits q) :: utf8_repair None s | S _ => utf8_repair (Some q) s end))
      (accepted e buf0) (e ← dump_bytes (S fuel) h ascii i (b :: s) e; dump_escaped_end h s0 ascii e)).
  { clear fuel i e buf0 p o Hrel Hfuel. intros fuel i e buf0 p o q Hrel Hs Hf. cbn [dump_bytes]. destruct (more q) as [|k] eqn:Ek.
    - destruct (dump_byte_accept h ascii i b e buf0 p o q Hb Hrel Hs Ek) as (e' & buf' & -> & Hrel' & Ha).
      cbn [mbind res_bind]. rewrite handled_some. apply string_outcome_cons. rewrite <- Ha. eapply IH; [exact Hrel'|lia].
    - destruct (dump_byte_more h ascii i b e buf0 p o q Hb Hrel Hs) as (e' & -> & Hrel' & Ha); [lia|].
      cbn [mbind res_bind]. rewrite <- Ha. eapply IH; [exact Hrel'|lia]. }
  (* a byte that cannot begin a sequence *)
  assert (Hfirst : forall fuel i e buf0, esc_rel ascii e buf0 [] None -> (2 * length s <= fuel)%nat ->
    string_outcome ascii (handled h (utf8_repair None (b :: s))) (accepted e buf0)
      (e ← dump_bytes (S fuel) h ascii i (b :: s) e; dump_escaped_end h s0 ascii e)).
  { clear fuel i e buf0 p o Hrel Hfuel. intros fuel i e buf0 Hrel Hf. cbn [utf8_repair]. destruct (first_byte b) as [q|] eqn:Eq.
    - eapply Hgo; done.
    - pose proof (dump_byte_reject h ascii i b e buf0 [] None Hb Hrel Eq) as Hr. apply string_outcome_none. cbn [dump_bytes].
      destruct h; [destruct Hr as [what ->]; by eexists|destruct Hr as (e' & buf' & -> & Hrel' & Ha); cbn [mbind res_bind]..];
        rewrite <- Ha; eapply IH; [exact Hrel'|lia|exact Hrel'|lia]. }
  cbn [length] in Hfuel. destruct o as [r|].
  2: { pose proof (er_len _ _ _ _ _ Hrel) as ->. destruct fuel as [|fuel]; [lia|]. apply Hfirst; [done|lia]. }
  destruct fuel as [|[|fuel]]; [lia..|]. cbn [utf8_repair]. destruct (next_byte r b) as [q|] eqn:Eq.
  { eapply Hgo; [done|done|lia]. }
  pose proof (dump_byte_reject h ascii i b e buf0 p (Some r) Hb Hrel Eq) as Hr. apply string_outcome_none. cbn [dump_bytes].
  destruct h; [destruct Hr as [what ->]; by eexists|destruct Hr as (e' & buf' & -> & Hrel' & Ha); cbn [mbind res_bind]..];
    rewrite <- Ha; apply Hfirst; [done|lia|done|lia].
Qed.

(** A string within its bytes: escaped, repaired or refused. *)
Lemma dump_escaped_ok h ascii s t : bytes_ok s ->
  string_outcome ascii (handled h (utf8_repair None s)) t (dump_escaped h s ascii t).
Proof.
  intros Hs. unfold dump_escaped.
  pose proof (dump_bytes_ok h ascii s s Hs (2 * length s) 0 (mkEsc 0 UTF8_ACCEPT [] 0 0 t) [] [] None) as H.
  unfold accepted in H. cbn [dumped] in H. rewrite write_nil in H. apply H; [by apply esc_rel_fresh|lia].
Qed.

(** ** Integers *)

Lemma to_string_loop_acc f : forall n acc, to_string_loop f n acc = to_string_loop f n [] ++ acc.
Proof.
  induction f as [|f IH]; intros n acc; [done|]. cbn [to_string_loop]. destruct (n <? 10); [done|].
  rewrite (IH _ (_ :: acc)), (IH _ [_]), <- app_assoc. done.
Qed.

Lemma to_string_digit n : 0 <= n < 10 -> to_string n = [48 + n].
Proof. intros H. unfold to_string. cbn [to_string_loop]. rewrite Z.mod_small by lia. destruct (Z.ltb_spec n 10); [done|lia]. Qed.

Lemma to_string_snoc n : 10 <= n < 2 ^ 64 -> to_string n = to_string (n / 10) ++ [48 + n mod 10].
Proof.
  intros H. unfold to_string at 1. change (to_string_loop 20 n []) with
    (if n <? 10 then [48 + n mod 10] else to_string_loop 19 (n / 10) [48 + n mod 10]).
  destruct (Z.ltb_spec n 10); [lia|]. rewrite to_string_loop_acc.
  assert (to_string (n / 10) = to_string_loop 19 (n / 10) []) as ->; [|done].
  apply to_string_loop_fuel; [|lia]. split; [apply Z.div_pos; lia|]. apply Z.div_lt_upper_bound; [lia|].
  eapply Z.lt_trans; [apply H|reflexivity].
Qed.

Lemma to_string_pair n : 100 <= n < 2 ^ 64 ->
  to_string n = to_string (n / 100) ++ [48 + n mod 100 / 10; 48 + n mod 100 mod 10].
Proof.
  intros H. assert (10 <= n / 10 < 2 ^ 64) by (split; [apply Z.div_le_lower_bound|apply Z.div_lt_upper_bound]; lia).
  rewrite to_string_snoc, (to_string_snoc (n / 10)) by lia. rewrite Z.div_div, <- app_assoc by lia.
  replace (n mod 100 / 10) with (n / 10 mod 10) by (Z.to_euclidean_division_equations; lia).
  replace (n mod 100 mod 10) with (n mod 10) by (Z.to_euclidean_division_equations; lia). done.
Qed.

Lemma to_string_pos n : 0 <= n < 2 ^ 64 -> 1 <= Zlen (to_string n) <= 20.
Proof.
  intros H. destruct (to_string_spec n H) as (Hne & _ & _ & Hl). split; [|done].
  destruct (to_string n); [done|zlen].
Qed.

Lemma to_string_len_step n : 10 <= n < 2 ^ 64 -> Zlen (to_string n) = Zlen (to_string (n / 10)) + 1.
Proof. intros H. rewrite to_string_snoc by done. zlen. Qed.

Lemma count_digits_ok f : forall x k, 0 <= x < 2 ^ 64 -> x < 10000 ^ Z.of_nat f ->
  (0 < f)%nat -> count_digits f x k = Ok (k - 1 + Zlen (to_string x)).
Proof.
  induction f as [|f IH]; intros x k Hx Hf H0; [lia|]. cbn [count_digits].
  assert (Hd : forall d, 0 < d -> 0 <= x / d < 2 ^ 64).
  { intros d Hd. split; [apply Z.div_pos; lia|apply Z.div_lt_upper_bound; nia]. }
  destruct (Z.ltb_spec x 10); [rewrite to_string_digit by lia; f_equal; zlen|].
  rewrite to_string_len_step by lia. destruct (Z.ltb_spec x 100).
  { rewrite to_string_digit; [f_equal; zlen|split; [apply Z.div_pos|apply Z.div_lt_upper_bound]; lia]. }
  assert (10 <= x / 10) by (apply Z.div_le_lower_bound; lia). pose proof (Hd 10 ltac:(lia)).
  rewrite to_string_len_step, Z.div_div by lia. change (10 * 10) with 100. destruct (Z.ltb_spec x 1000).
  { rewrite to_string_digit; [f_equal; zlen|split; [apply Z.div_pos|apply Z.div_lt_upper_bound]; lia]. }
  assert (10 <= x / 100) by (apply Z.div_le_lower_bound; lia). pose proof (Hd 100 ltac:(lia)).
  rewrite to_string_len_step, Z.div_div by lia. change (100 * 10) with 1000. destruct (Z.ltb_spec x 10000).
  { rewrite to_string_digit; [f_equal; zlen|split; [apply Z.div_pos|apply Z.div_lt_upper_bound]; lia]. }
  assert (10 <= x / 1000) by (apply Z.div_le_lower_bound; lia). pose proof (Hd 1000 ltac:(lia)).
  rewrite to_string_len_step, Z.div_div by lia. change (1000 * 10) with 10000. pose proof (Hd 10000 ltac:(lia)).
  rewrite Nat2Z.inj_succ, Z.pow_succ_r in Hf by lia.
  destruct f as [|f]; [change (10000 ^ Z.of_nat 0) with 1 in Hf; lia|].
  rewrite IH; [f_equal; lia|lia|apply Z.div_lt_upper_bound; lia|lia].
Qed.

Lemma digits_to_99_ok i : 0 <= i < 100 -> digits_to_99 !! Z.to_nat i = Some (48 + i / 10, 48 + i mod 10).
Proof.
  intros H. assert (forallb (fun n => bool_decide (digits_to_99 !! n = Some (48 + Z.of_nat n / 10, 48 + Z.of_nat n mod 10))) (seq 0 100) = true)
    as E by (vm_compute; reflexivity).
  rewrite forallb_forall in E. specialize (E (Z.to_nat i) ltac:(apply in_seq; lia)). apply bool_decide_eq_true in E.
  rewrite Z2Nat.id in E by lia. done.
Qed.

(** A pair of digits in front of [c]. *)
Lemma store_pair_ok a x y c i ptr : 0 <= i < 100 -> ptr = Zlen a + 2 ->
  store_pair (a ++ [x; y] ++ c) ptr i = Ok (a ++ init [48 + i / 10; 48 + i mod 10] ++ c).
Proof.
  intros Hi Hp. unfold store_pair. rewrite digits_to_99_ok by done.
  change (a ++ [x; y] ++ c) with (a ++ [x] ++ [y] ++ c). rewrite (app_assoc a [x]).
  rewrite (mem_store_app _ _ [Some (48 + i mod 10)]) by zlen. cbn [mbind res_bind]. rewrite <- app_assoc.
  rewrite (mem_store_app _ _ [Some (48 + i / 10)]) by zlen. done.
Qed.

(** The digits of [n] fill the cells in front of [c]. *)
Lemma digit_pairs_ok f : forall n a d c ptr, 0 < n < 2 ^ 64 -> n < 100 ^ Z.of_nat f -> Zlen d = Zlen (to_string n) ->
  ptr = Zlen a + Zlen d ->
  ('(m, ptr, n) ← digit_pairs f (a ++ d ++ c) ptr n;
   if 10 <=? n then store_pair m ptr n else mem_store m (ptr - 1) [Some (48 + n)]) = Ok (a ++ init (to_string n) ++ c).
Proof.
  induction f as [|f IH]; intros n a d c ptr Hn Hf Hd Hp; [cbn in Hf; lia|]. cbn [digit_pairs].
  rewrite Nat2Z.inj_succ, Z.pow_succ_r in Hf by lia. destruct (Z.leb_spec 100 n) as [H|H].
  - pose proof (Z.mod_pos_bound n 100 ltac:(lia)). rewrite to_string_pair in Hd by lia. autorewrite with zlen in Hd.
    assert (0 < n / 100 < 2 ^ 64) as Hq by (split; [apply Z.div_str_pos|apply Z.div_lt_upper_bound]; lia).
    pose proof (to_string_pos (n / 100) ltac:(lia)).
    destruct (mem_split d (Zlen d - 2) 2) as (d1 & d2 & d3 & -> & Hd1 & Hd2); [zlen..|].
    assert (d3 = []) as -> by (apply Zlen_0_nil; zlen). rewrite app_nil_r in *.
    destruct d2 as [|x [|y [|]]]; try (zlen; fail). rewrite <- app_assoc, app_assoc, store_pair_ok by zlen.
    cbn [mbind res_bind]. rewrite <- app_assoc.
    assert (Zlen d1 = Zlen (to_string (n / 100))) as Hl by zlen.
    rewrite (IH (n / 100) a d1); [|done|apply Z.div_lt_upper_bound; lia|done|zlen]. rewrite (to_string_pair n) by lia. unfold init. rewrite map_app, <- app_assoc. done.
  - cbn [mbind res_bind]. destruct (Z.leb_spec 10 n).
    + assert (0 <= n / 10 < 10) by (split; [apply Z.div_pos|apply Z.div_lt_upper_bound]; lia).
      rewrite (to_string_snoc n), (to_string_digit (n / 10)) in * by lia.
      destruct d as [|x [|y [|]]]; try (zlen; fail). rewrite store_pair_ok by zlen. done.
    + rewrite to_string_digit in * by lia. destruct d as [|x [|]]; try (zlen; fail).
      rewrite (mem_store_app _ _ [Some (48 + n)]) by zlen. done.
Qed.

Lemma dump_integer_ok x t : - 2 ^ 63 <= x < 2 ^ 64 -> Zlen (number_buffer t) = 64 ->
  exists m, dump_integer x t = Ok (write_characters (to_string_int x) (with_buffer t m)) /\ Zlen m = 64.
Proof.
  intros Hx Hm. unfold dump_integer. destruct (Z.eqb_spec x 0) as [->|H0].
  { exists (number_buffer t). split; [|done]. by destruct t. }
  set (neg := negb (0 <=? x)). set (k := if neg then 1 else 0).
  assert (Habs : (if neg then remove_sign x else u64 x) = Z.abs x).
  { unfold neg, remove_sign. destruct (Z.leb_spec 0 x); cbn [negb]; [rewrite u64_small; lia|].
    rewrite (u64_small (- (x + 1))), u64_small; lia. }
  assert (Hsign : exists m0, (if neg then mem_store (number_buffer t) 0 [Some 45] else Ok (number_buffer t)) = Ok m0 /\
    Zlen m0 = 64 /\ (if neg then exists m', m0 = Some 45 :: m' else True)).
  { destruct neg; [|by eexists]. destruct (number_buffer t) as [|c m']; [done|].
    exists (Some 45 :: m'). split_and!; [|by rewrite Zlen_cons in *|by eexists]. exact (mem_store_app [] [c] [Some 45] m' 0 eq_refl eq_refl). }
  destruct Hsign as (m0 & -> & Hm0 & Hn0). cbn [mbind res_bind]. rewrite Habs.
  pose proof (to_string_pos (Z.abs x) ltac:(lia)) as Hl.
  rewrite (count_digits_ok 6) by lia. cbn [mbind res_bind].
  replace (if neg then 1 + (1 - 1 + Zlen (to_string (Z.abs x))) else 1 - 1 + Zlen (to_string (Z.abs x)))
    with (k + Zlen (to_string (Z.abs x))) by (unfold k; destruct neg; lia).
  assert (0 <= k <= 1) as Hk by (unfold k; destruct neg; lia). rewrite (proj2 (Z.ltb_lt _ _)) by lia. cbn [guard_res mbind res_bind].
  destruct (mem_split m0 k (Zlen (to_string (Z.abs x)))) as (a & d & c & -> & Ha & Hd); [lia..|].
  pose proof (digit_pairs_ok 10 (Z.abs x) a d c (k + Zlen (to_string (Z.abs x)))
    ltac:(lia) ltac:(lia) Hd ltac:(lia)) as Hdp.
  destruct (digit_pairs 10 _ _ _) as [[[m1 ptr] n]| |]; [|done..]. cbn [mbind res_bind] in Hdp |- *. rewrite Hdp.
  cbn [mbind res_bind]. exists (a ++ init (to_string (Z.abs x)) ++ c). split; [|zlen].
  assert (a ++ init (to_string (Z.abs x)) = init (to_string_int x)) as E.
  { unfold to_string_int. unfold k, neg in *. destruct (Z.ltb_spec x 0), (Z.leb_spec 0 x); try lia; cbn [negb] in *.
    - destruct Hn0 as [m' Em]. destruct a as [|y [|]]; try (zlen; fail). injection Em as ->. replace (- x) with (Z.abs x) by lia. done.
    - assert (a = []) as -> by (apply Zlen_0_nil; lia). by rewrite Z.abs_eq by lia. }
  rewrite app_assoc, E. rewrite (mem_load_app [] (init (to_string_int x)) c 0) by (try done; rewrite <- E; zlen).
  cbn [mbind res_bind]. rewrite determinate_init. done.
Qed.
