(* ===== verification/JsonText.v ===== *)
(** What [dump] of [Json] prints: the text of a value, compact or indented, and when there is none. *)
From S2P Require Import Prelude StdMap StdText StringEx Util Double JsonUtf8 Json JsonEscape.

(** ** Values *)

(** Texts that may be missing, one after the other. *)
Fixpoint cat (os : list (option bytes)) : option bytes :=
  match os with [] => Some [] | o :: os => x ← o; y ← cat os; Some (x ++ y) end.
Lemma cat_app os os' : cat (os ++ os') = (x ← cat os; y ← cat os'; Some (x ++ y)).
Proof.
  induction os as [|o os IH]; cbn; [by destruct (cat os')|]. destruct o as [x|]; [|done]. cbn. rewrite IH.
  destruct (cat os) as [y|]; [|done]. cbn. destruct (cat os'); [cbn; by rewrite app_assoc|done].
Qed.
Fixpoint join (sep : bytes) (os : list (option bytes)) : list (option bytes) :=
  match os with [] => [] | [o] => [o] | o :: os => o :: Some sep :: join sep os end.

(** The indentation: the character asked for, and spaces behind the first 512. *)
Definition indentation (ic n : Z) : bytes := replicate (Z.to_nat (Z.min n 512)) ic ++ replicate (Z.to_nat (n - 512)) 32.

Section text.
Context (to_chars : double -> bytes) (handler : error_handler_t) (ascii : bool) (ic step : Z).

Definition quoted (s : bytes) : option bytes := cat [Some [34]; escaped ascii <$> handled handler (utf8_repair None s); Some [34]].
Definition float_text (x : double) : bytes :=
  match x with SpecFloat.S754_zero _ | SpecFloat.S754_finite _ _ _ => to_chars x | _ => bstr "null" end.

(** A container at indentation [cur]: each part on a line of its own when printed prettily. *)
Definition bracket (pretty : bool) (cur : Z) (open close : Z) (parts : list (option bytes)) : option bytes :=
  if pretty then cat ([Some [open; 10]] ++ join [44; 10] (map (fun o => cat [Some (indentation ic (cur + step)); o]) parts) ++
                      [Some [10]; Some (indentation ic cur); Some [close]])
  else cat ([Some [open]] ++ join [44] parts ++ [Some [close]]).

Fixpoint text (v : json) (pretty : bool) (cur : Z) : option bytes :=
  match v with
  | JNull => Some (bstr "null")
  | JObject [] => Some (bstr "{}")
  | JObject ms => bracket pretty cur 123 125
      (map (fun e => cat [quoted (fst e); Some (if pretty then [58; 32] else [58]); text (snd e) pretty (if pretty then cur + step else cur)]) ms)
  | JArray [] => Some (bstr "[]")
  | JArray vs => bracket pretty cur 91 93 (map (fun v => text v pretty (if pretty then cur + step else cur)) vs)
  | JString s => quoted s
  | JBoolean b => Some (if b then bstr "true" else bstr "false")
  | JInteger n | JUnsigned n => Some (to_string_int n)
  | JFloat x => Some (float_text x)
  | JDiscarded => Some (bstr "<discarded>")
  end.
End text.

(** The values of the C++ types. *)
Inductive json_ok : json -> Prop :=
| ok_null : json_ok JNull
| ok_object ms : Forall (fun e => bytes_ok (fst e) /\ json_ok (snd e)) ms -> json_ok (JObject ms)
| ok_array vs : Forall json_ok vs -> json_ok (JArray vs)
| ok_string s : bytes_ok s -> json_ok (JString s)
| ok_boolean b : json_ok (JBoolean b)
| ok_integer n : - 2 ^ 63 <= n < 2 ^ 63 -> json_ok (JInteger n)
| ok_unsigned n : 0 <= n < 2 ^ 64 -> json_ok (JUnsigned n)
| ok_float x : json_ok (JFloat x)
| ok_discarded : json_ok JDiscarded.

Section json_induction.
Context (P : json -> Prop).
Context (Hnull : P JNull) (Hobject : forall ms, Forall (fun e => P (snd e)) ms -> P (JObject ms))
  (Harray : forall vs, Forall P vs -> P (JArray vs)) (Hstring : forall s, P (JString s)) (Hboolean : forall b, P (JBoolean b))
  (Hinteger : forall n, P (JInteger n)) (Hunsigned : forall n, P (JUnsigned n)) (Hfloat : forall x, P (JFloat x)) (Hdiscarded : P JDiscarded).
Fixpoint json_nested_ind (v : json) : P v :=
  match v with
  | JNull => Hnull
  | JObject ms => Hobject ms ((fix go (ms : list (bytes * json)) : Forall (fun e => P (snd e)) ms :=
      match ms with [] => List.Forall_nil _ | e :: ms => List.Forall_cons _ e ms (json_nested_ind (snd e)) (go ms) end) ms)
  | JArray vs => Harray vs ((fix go (vs : list json) : Forall P vs :=
      match vs with [] => List.Forall_nil _ | v :: vs => List.Forall_cons _ v vs (json_nested_ind v) (go vs) end) vs)
  | JString s => Hstring s
  | JBoolean b => Hboolean b
  | JInteger n => Hinteger n
  | JUnsigned n => Hunsigned n
  | JFloat x => Hfloat x
  | JDiscarded => Hdiscarded
  end.
End json_induction.

Fixpoint depth (v : json) : Z :=
  match v with
  | JObject ms => 1 + fold_right (fun e d => Z.max (depth (snd e)) d) 0 ms
  | JArray vs => 1 + fold_right (fun v d => Z.max (depth v) d) 0 vs
  | _ => 0
  end.
Lemma depth_nonneg v : 0 <= depth v.
Proof. destruct v; cbn; try lia; [induction object|induction array]; cbn; lia. Qed.

Section outcome.
Context (ic : Z).

(** [indent_string] has at least [n] characters, its first 512 as they were created. *)
Definition ready (n : Z) (t : serializer) : Prop :=
  Zlen (number_buffer t) = 64 /\ exists k, indent_string t = replicate 512 ic ++ replicate k 32 /\ n <= 512 + Z.of_nat k.

(** What a step of the serializer does: the text is appended, and [indent_string] never shrinks. *)
Definition outcome (o : option bytes) (t : serializer) (r : res serializer) : Prop :=
  match o with
  | Some x => exists t', r = Ok t' /\ out t' = out t ++ x /\ forall n, ready n t -> ready n t'
  | None => exists what, r = Throw (TypeError 316 what)
  end.

Lemma outcome_ok t : outcome (cat []) t (Ok t).
Proof. exists t. cbn. rewrite app_nil_r. done. Qed.

(** One after the other. *)
Lemma outcome_seq (o o' : option bytes) t r k : outcome o t r ->
  (forall t', (forall n, ready n t -> ready n t') -> outcome o' t' (k t')) ->
  outcome (x ← o; y ← o'; Some (x ++ y)) t (t' ← r; k t').
Proof.
  destruct o as [x|]; [|intros [what ->] _; by exists what]. intros (t' & -> & Ho & Hr) Hk. cbn [mbind res_bind option_bind].
  specialize (Hk t' Hr). destruct o' as [y|]; [|done]. destruct Hk as (t2 & -> & Ho2 & Hr2).
  exists t2. split_and!; [done|by rewrite Ho2, Ho, <- app_assoc|auto].
Qed.

Lemma outcome_bind o os t r k : outcome o t r ->
  (forall t', (forall n, ready n t -> ready n t') -> outcome (cat os) t' (k t')) ->
  outcome (cat (o :: os)) t (t' ← r; k t').
Proof. apply outcome_seq. Qed.

Lemma outcome_app os os' t r k : outcome (cat os) t r ->
  (forall t', (forall n, ready n t -> ready n t') -> outcome (cat os') t' (k t')) ->
  outcome (cat (os ++ os')) t (t' ← r; k t').
Proof. rewrite cat_app. apply outcome_seq. Qed.

Lemma outcome_write1 x t : outcome (Some x) t (Ok (write_characters x t)).
Proof. exists (write_characters x t). done. Qed.

Lemma outcome_write x os t r : outcome (cat os) (write_characters x t) r -> outcome (cat (Some x :: os)) t r.
Proof.
  intros H. cbn [cat]. destruct (cat os) as [y|]; [|exact H]. destruct H as (t' & -> & Ho & Hr).
  exists t'. split_and!; [done|rewrite Ho; cbn; by rewrite <- app_assoc|done].
Qed.

Lemma outcome_last o t r : outcome o t r -> outcome (cat [o]) t r.
Proof. destruct o as [x|]; cbn; [by rewrite app_nil_r|done]. Qed.

Lemma outcome_write_last x t : outcome (cat [Some x]) t (Ok (write_characters x t)).
Proof. apply outcome_last, outcome_write1. Qed.

(** A loop prints its parts with the separator between them. *)
Lemma print_list_ok {A} sep (body : A -> serializer -> res serializer) (part : A -> option bytes) n l :
  Forall (fun x => forall t, ready n t -> outcome (part x) t (body x t)) l ->
  forall t, ready n t -> outcome (cat (join sep (map part l))) t (print_list sep body l t).
Proof.
  induction 1 as [|x l Hx Hl IH]; intros t Ht; [apply outcome_ok|]. cbn [print_list].
  destruct l as [|y l]; cbn [map join] in *.
  - pose proof (outcome_bind (part x) [] t (body x t) (fun t => Ok t) (Hx t Ht) (fun t' _ => outcome_ok t')) as H.
    destruct (body x t); done.
  - apply outcome_bind; [auto|]. intros t' Hr. apply outcome_write, IH. exact (Hr n Ht).
Qed.
End outcome.

Section values.
Context (to_chars : double -> bytes) (h : error_handler_t) (ascii : bool) (ic step : Z).
Context (Hstep : 0 <= step <= 1024).

Lemma outcome_string s os t k : bytes_ok s ->
  (forall t', (forall n, ready ic n t -> ready ic n t') -> outcome ic (cat os) t' (k t')) ->
  outcome ic (cat ((escaped ascii <$> handled h (utf8_repair None s)) :: os)) t (t' ← dump_escaped h s ascii t; k t').
Proof.
  intros Hs Hk. apply outcome_bind; [|exact Hk]. pose proof (dump_escaped_ok h ascii s t Hs) as H.
  destruct (handled h (utf8_repair None s)) as [cps|]; [|exact H]. unfold string_outcome in H. rewrite H. apply outcome_write1.
Qed.

Lemma outcome_quoted s t : bytes_ok s ->
  outcome ic (quoted h ascii s) t (t ← dump_escaped h s ascii (write_characters [34] t); Ok (write_characters [34] t)).
Proof. intros Hs. apply outcome_write, outcome_string; [done|]. intros t' _. apply outcome_write_last. Qed.

Lemma dump_key_ok s colon t : bytes_ok s ->
  outcome ic (cat [quoted h ascii s; Some colon]) t (dump_key h s ascii (34 :: colon) t).
Proof.
  intros Hs. pose proof (outcome_bind ic _ [Some colon] t _ (fun t => Ok (write_characters colon t)) (outcome_quoted s t Hs)
    (fun t' _ => outcome_write_last ic colon t')) as H. unfold dump_key.
  destruct (dump_escaped _ _ _ _); [|exact H..]. cbn [mbind res_bind] in *. by rewrite write_app in H.
Qed.

Lemma outcome_integer n t : - 2 ^ 63 <= n < 2 ^ 64 -> ready ic 0 t -> outcome ic (Some (to_string_int n)) t (dump_integer n t).
Proof.
  intros Hn Ht. destruct (dump_integer_ok n t Hn (proj1 Ht)) as (m & -> & Hm). eexists. split; [reflexivity|].
  split; [done|]. intros k [_ Hk]. done.
Qed.

Lemma indent_split n k : 0 <= n <= 512 + Z.of_nat k ->
  firstn (Z.to_nat n) (replicate 512 ic ++ replicate k 32) = indentation ic n.
Proof.
  intros H. unfold indentation. rewrite firstn_app, length_replicate. f_equal.
  - rewrite take_replicate. f_equal. lia.
  - rewrite take_replicate. f_equal. lia.
Qed.

Lemma outcome_indent n os t k : 0 <= n -> ready ic n t ->
  (forall t', (forall n, ready ic n t -> ready ic n t') -> outcome ic (cat os) t' (k t')) ->
  outcome ic (cat (Some (indentation ic n) :: os)) t (t' ← write_indent n t; k t').
Proof.
  intros Hn (Hb & j & Hj & Hl) Hk. apply outcome_bind; [|exact Hk]. unfold write_indent. rewrite Hj.
  rewrite (proj2 (Z.leb_le _ _)) by (unfold Zlen; rewrite length_app, !length_replicate; lia).
  rewrite indent_split by lia. apply outcome_write1.
Qed.

(** A level deeper: [indent_string] is doubled when it is too short, and is long enough then. *)
Lemma grow_ready cur t : 0 <= cur -> (cur = 0 \/ step <= cur) -> ready ic cur t ->
  (forall n, ready ic n t -> ready ic n (grow_indent (cur + step) t)) /\ ready ic (cur + step) (grow_indent (cur + step) t) /\
  out (grow_indent (cur + step) t) = out t.
Proof.
  intros H0 Hc (Hb & k & Hk & Hl). unfold grow_indent. rewrite Hk.
  assert (Zlen (replicate 512 ic ++ replicate k 32) = 512 + Z.of_nat k) as E by (unfold Zlen; rewrite length_app, !length_replicate; lia).
  rewrite E. destruct (Z.ltb_spec (512 + Z.of_nat k) (cur + step)).
  - assert (Hr : forall n, n <= 2 * (512 + Z.of_nat k) ->
      ready ic n (mkSer (out t) (number_buffer t) ((replicate 512 ic ++ replicate k 32) ++ replicate (length (replicate 512 ic ++ replicate k 32)) 32))).
    { intros n Hn. split; [done|]. rewrite length_app, !length_replicate. exists (k + (512 + k))%nat. cbn [indent_string].
      split; [by rewrite (replicate_add k), app_assoc|]. lia. }
    split_and!; [|apply Hr; lia|done]. intros n (_ & k' & Hk' & Hn). apply Hr. rewrite Hk in Hk'. apply app_inv_head in Hk'.
    apply (f_equal length) in Hk'. rewrite !length_replicate in Hk'. lia.
  - split_and!; [done| |done]. split; [done|]. exists k. split; [done|lia].
Qed.

Lemma outcome_from o t t1 r : out t1 = out t -> (forall n, ready ic n t -> ready ic n t1) -> outcome ic o t1 r -> outcome ic o t r.
Proof. intros Ho Hr. destruct o as [x|]; [|done]. intros (t' & -> & E & Hr'). exists t'. rewrite <- Ho. auto. Qed.

Lemma bracket_pretty_ok {A} (part : A -> option bytes) body op cl cur l t :
  0 <= cur -> (cur = 0 \/ step <= cur) -> cur + step < 2 ^ 32 -> ready ic cur t ->
  Forall (fun x => forall t, ready ic (cur + step) t -> outcome ic (part x) t (body x t)) l ->
  outcome ic (bracket ic step true cur op cl (map part l)) t
    (t ← print_list [44; 10] (fun x t => t ← write_indent (u32 (cur + step)) t; body x t) l
           (grow_indent (u32 (cur + step)) (write_characters [op; 10] t));
     t ← write_indent cur (write_characters [10] t); Ok (write_characters [cl] t)).
Proof.
  intros H0 Hc H32 Ht Hl. rewrite u32_small by lia. unfold bracket. cbn [app]. apply outcome_write.
  destruct (grow_ready cur (write_characters [op; 10] t) H0 Hc Ht) as (Hr & Hready & Ho). eapply outcome_from; [exact Ho|exact Hr|].
  rewrite map_map. apply outcome_app.
  - apply (print_list_ok ic _ _ (fun x => cat [Some (indentation ic (cur + step)); part x]) (cur + step)); [|done].
    eapply Forall_impl; [exact Hl|]. cbn beta. intros x Hx t1 Ht1. apply outcome_indent; [lia|done|].
    intros t2 Hr2. apply outcome_last. auto.
  - intros t1 Hr1. apply outcome_write, outcome_indent; [done|exact (Hr1 cur (Hr cur Ht))|]. intros t2 _. apply outcome_write_last.
Qed.

Lemma bracket_compact_ok {A} (part : A -> option bytes) body op cl cur n l t : ready ic n t ->
  Forall (fun x => forall t, ready ic n t -> outcome ic (part x) t (body x t)) l ->
  outcome ic (bracket ic step false cur op cl (map part l)) t
    (t ← print_list [44] body l (write_characters [op] t); Ok (write_characters [cl] t)).
Proof.
  intros Ht Hl. unfold bracket. cbn [app]. apply outcome_write. apply outcome_app.
  - by apply (print_list_ok ic _ _ part n).
  - intros t1 Hr1. apply outcome_write_last.
Qed.

Definition fits (pretty : bool) (cur : Z) (v : json) : Prop :=
  pretty = true -> 0 <= cur /\ (cur = 0 \/ step <= cur) /\ cur + depth v * step < 2 ^ 32.

Lemma fits_part pretty cur v w : depth w + 1 <= depth v -> fits pretty cur v -> fits pretty (if pretty then cur + step else cur) w.
Proof. intros Hd Hf ->. destruct (Hf eq_refl) as (? & ? & ?). split_and!; [lia|right; lia|nia]. Qed.

Lemma depth_member ms : Forall (fun e => depth (snd e) + 1 <= depth (JObject ms)) ms.
Proof.
  cbn. induction ms as [|e ms IH]; constructor; cbn; [lia|]. eapply Forall_impl; [exact IH|]. cbn. lia.
Qed.
Lemma depth_element vs : Forall (fun v => depth v + 1 <= depth (JArray vs)) vs.
Proof.
  cbn. induction vs as [|e vs IH]; constructor; cbn; [lia|]. eapply Forall_impl; [exact IH|]. cbn. lia.
Qed.

Lemma dump_value_ok v : json_ok v -> forall pretty cur t, fits pretty cur v -> ready ic (if pretty then cur else 0) t ->
  outcome ic (text to_chars h ascii ic step v pretty cur) t (dump_value to_chars h v pretty ascii step cur t).
Proof.
  induction v as [|ms IH|vs IH|s|b|n|n|x|] using json_nested_ind; intros Hok pretty cur t Hf Ht; inversion Hok as [|? Hms|? Hvs|? Hs| |? Hn|? Hn| |]; subst;
    cbn [text dump_value].
  - apply outcome_write1.
  - (* every member *)
    assert (Hm : forall n, n = (if pretty then cur + step else 0) -> Forall (fun e => forall t, ready ic n t ->
      outcome ic (cat [quoted h ascii (fst e); Some (if pretty then [58; 32] else [58]);
                       text to_chars h ascii ic step (snd e) pretty (if pretty then cur + step else cur)]) t
        (t ← dump_key h (fst e) ascii (34 :: if pretty then [58; 32] else [58]) t;
         dump_value to_chars h (snd e) pretty ascii step (if pretty then cur + step else cur) t)) ms).
    { intros n ->. pose proof (depth_member ms) as Hd. rewrite List.Forall_forall in *. intros e He t1 Ht1. destruct (Hms e He) as [Hk Hv].
      apply (outcome_app ic [_; _] [_]); [by apply dump_key_ok|]. intros t2 Hr2. apply outcome_last, (IH e He); [done| |].
      - eapply fits_part; [exact (Hd e He)|done].
      - destruct pretty; auto. }
    destruct ms as [|e ms]; [apply outcome_write1|]. destruct pretty.
    + destruct (Hf eq_refl) as (H0 & Hc & H32). cbn [depth fold_right snd] in H32. pose proof (depth_nonneg (snd e)).
      assert (cur + step < 2 ^ 32) by nia. rewrite (u32_small (cur + step)) by lia.
      pose proof (bracket_pretty_ok _ _ 123 125 cur (e :: ms) t H0 Hc ltac:(lia) Ht (Hm _ eq_refl)) as Hbr.
      rewrite (u32_small (cur + step)) in Hbr by lia. exact Hbr.
    + exact (bracket_compact_ok _ _ 123 125 cur 0 (e :: ms) t Ht (Hm _ eq_refl)).
  - assert (Hm : forall n, n = (if pretty then cur + step else 0) -> Forall (fun v => forall t, ready ic n t ->
      outcome ic (text to_chars h ascii ic step v pretty (if pretty then cur + step else cur)) t
        (dump_value to_chars h v pretty ascii step (if pretty then cur + step else cur) t)) vs).
    { intros n ->. pose proof (depth_element vs) as Hd. rewrite List.Forall_forall in *. intros v Hv t1 Ht1.
      apply (IH v Hv); [auto| |destruct pretty; auto]. eapply fits_part; [exact (Hd v Hv)|done]. }
    destruct vs as [|v vs]; [apply outcome_write1|]. destruct pretty.
    + destruct (Hf eq_refl) as (H0 & Hc & H32). cbn [depth fold_right] in H32. pose proof (depth_nonneg v).
      assert (cur + step < 2 ^ 32) by nia. rewrite (u32_small (cur + step)) by lia.
      pose proof (bracket_pretty_ok _ _ 91 93 cur (v :: vs) t H0 Hc ltac:(lia) Ht (Hm _ eq_refl)) as Hbr.
      rewrite (u32_small (cur + step)) in Hbr by lia. exact Hbr.
    + exact (bracket_compact_ok _ _ 91 93 cur 0 (v :: vs) t Ht (Hm _ eq_refl)).
  - by apply outcome_quoted.
  - apply outcome_write1.
  - apply outcome_integer; [lia|]. destruct Ht as [Ht (k & Hk & _)]. split; [done|]. exists k. split; [done|lia].
  - apply outcome_integer; [lia|]. destruct Ht as [Ht (k & Hk & _)]. split; [done|]. exists k. split; [done|lia].
  - unfold dump_float, float_text. destruct x; apply outcome_write1.
  - apply outcome_write1.
Qed.
End values.

(** ** The outcome of [dump] *)

(** The strings of a value, keys included. *)
Fixpoint strings (v : json) : list bytes :=
  match v with
  | JObject ms => concat (map (fun e => fst e :: strings (snd e)) ms)
  | JArray vs => concat (map strings vs)
  | JString s => [s]
  | _ => []
  end.
Definition well_formed (s : bytes) : Prop := exists cps, s = concat (map utf8_encode cps) /\ Forall scalar cps.

Lemma cat_None os : cat os = None <-> Exists (eq None) os.
Proof.
  induction os as [|o os IH]; cbn; [rewrite Exists_nil; done|]. rewrite Exists_cons, <- IH.
  destruct o; cbn; [|split; [by left|done]]. destruct (cat os); cbn; split; try done; [intros [|]; done|by right].
Qed.

Lemma join_Exists sep os : Exists (eq None) (join sep os) <-> Exists (eq None) os.
Proof.
  induction os as [|o [|o' os] IH]; [done|done|]. change (join sep (o :: o' :: os)) with (o :: Some sep :: join sep (o' :: os)).
  rewrite !Exists_cons, IH, Exists_cons. intuition discriminate.
Qed.

Lemma none_comm (o : option bytes) : None = o <-> o = None.
Proof. split; congruence. Qed.

Lemma Exists_map {A} (f : A -> option bytes) l : Exists (eq None) (map f l) <-> Exists (fun x => f x = None) l.
Proof. induction l as [|x l IH]; cbn; [by rewrite !Exists_nil|]. rewrite !Exists_cons, IH. intuition congruence. Qed.

Lemma bracket_None ic step pretty cur op cl parts : bracket ic step pretty cur op cl parts = None <-> Exists (eq None) parts.
Proof.
  unfold bracket. destruct pretty; rewrite cat_None, !Exists_app, join_Exists, !Exists_cons, !Exists_nil; [|intuition discriminate].
  rewrite Exists_map. assert (H : Exists (fun o => cat [Some (indentation ic (cur + step)); o] = None) parts <-> Exists (eq None) parts).
  { induction parts as [|o parts IH]; [by rewrite !Exists_nil|]. rewrite !Exists_cons, IH, cat_None, !Exists_cons, Exists_nil. intuition discriminate. }
  rewrite H. intuition discriminate.
Qed.

Lemma handled_None h s : bytes_ok s -> (handled h (utf8_repair None s) = None <-> h = Strict /\ ~ well_formed s).
Proof.
  intros Hs. destruct h; cbn [handled]; [|split; [done|intros [? _]; done]..]. rewrite <- utf8_repair_scan.
  change (utf8_scan None s) with (utf8_text s). split.
  - intros Hn. split; [done|]. intros (cps & -> & Hc). rewrite utf8_text_encode in Hn; done.
  - intros [_ Hn]. destruct (utf8_text s) as [cps|] eqn:E; [|done]. destruct Hn. exists cps. by apply utf8_text_inv.
Qed.

Lemma quoted_None h ascii s : bytes_ok s -> (quoted h ascii s = None <-> h = Strict /\ ~ well_formed s).
Proof.
  intros Hs. unfold quoted. rewrite cat_None, !Exists_cons, Exists_nil, <- handled_None by done.
  destruct (handled h _); cbn; intuition discriminate.
Qed.

(** The text is missing only under [Strict], for an ill-formed string. *)
Lemma text_None to_chars h ascii ic step v : json_ok v -> forall pretty cur,
  text to_chars h ascii ic step v pretty cur = None <-> h = Strict /\ Exists (fun s => ~ well_formed s) (strings v).
Proof.
  induction v as [|ms IH|vs IH|s|b|n|n|x|] using json_nested_ind; intros Hok pretty cur;
    inversion Hok as [|? Hms|? Hvs|? Hs| |? Hn|? Hn| |]; subst; cbn [text strings]; try (rewrite Exists_nil; intuition discriminate).
  - assert (H : forall step', Exists (eq None) (map (fun e => cat [quoted h ascii (fst e); Some (if pretty then [58; 32] else [58]);
      text to_chars h ascii ic step (snd e) pretty step']) ms) <-> h = Strict /\ Exists (fun s => ~ well_formed s) (concat (map (fun e => fst e :: strings (snd e)) ms))).
    { intros cur'. clear Hok. induction IH as [|e ms He _ IH']; [cbn; rewrite !Exists_nil; intuition|].
      apply Forall_cons in Hms as [[Hk Hv] Hms]. cbn [map concat]. change ((fst e :: strings (snd e)) ++ ?l) with (fst e :: (strings (snd e) ++ l)).
      rewrite !Exists_cons, Exists_app, (IH' Hms), none_comm, cat_None, !Exists_cons, Exists_nil, !none_comm, quoted_None, He by done.
      intuition discriminate. }
    destruct ms as [|e ms]; [cbn; rewrite Exists_nil; intuition discriminate|]. rewrite bracket_None. apply H.
  - assert (H : forall cur', Exists (eq None) (map (fun v => text to_chars h ascii ic step v pretty cur') vs) <->
      h = Strict /\ Exists (fun s => ~ well_formed s) (concat (map strings vs))).
    { intros cur'. clear Hok. induction IH as [|v vs Hv _ IH']; [cbn; rewrite !Exists_nil; intuition|].
      apply Forall_cons in Hvs as [Hv' Hvs]. cbn [map concat].
      rewrite !Exists_cons, Exists_app, (IH' Hvs), none_comm, Hv by done. intuition. }
    destruct vs as [|v vs]; [cbn; rewrite Exists_nil; intuition discriminate|]. rewrite bracket_None. apply H.
  - rewrite Exists_cons, Exists_nil, quoted_None by done. intuition.
Qed.

Lemma new_serializer_ready ic : ready ic 512 (new_serializer ic).
Proof. split; [done|]. exists 0%nat. cbn [new_serializer indent_string]. split; [by rewrite app_nil_r|lia]. Qed.

Lemma dump_text to_chars v indent ic ascii h : json_ok v -> indent <= 1024 -> indent * depth v < 2 ^ 32 ->
  match text to_chars h ascii ic (Z.max 0 indent) v (0 <=? indent) 0 with
  | Some x => dump to_chars v indent ic ascii h = Ok x
  | None => exists what, dump to_chars v indent ic ascii h = Throw (TypeError 316 what)
  end.
Proof.
  intros Hok Hi Hd. pose proof (new_serializer_ready ic) as Hr. unfold dump.
  assert (H0 : ready ic 0 (new_serializer ic)) by (destruct Hr as (? & k & ? & ?); split; [done|]; exists k; split; [done|lia]).
  assert (Hstep : 0 <= Z.max 0 indent <= 1024) by lia.
  assert (Hfits : fits (Z.max 0 indent) (0 <=? indent) 0 v).
  { intros E. apply Z.leb_le in E. split_and!; [lia|by left|]. rewrite Z.max_r by lia. lia. }
  pose proof (dump_value_ok to_chars h ascii ic (Z.max 0 indent) Hstep v Hok (0 <=? indent) 0 (new_serializer ic) Hfits) as H.
  destruct (Z.leb_spec 0 indent) as [Hp|Hn].
  - rewrite Z.max_r in * by lia. rewrite u32_small by lia. specialize (H H0).
    destruct (text _ _ _ _ _ _ _ _) as [x|]; [|destruct H as [what ->]; by exists what]. destruct H as (t' & -> & E & _). cbn [mbind res_bind]. by rewrite E.
  - rewrite Z.max_l in * by lia. specialize (H H0).
    destruct (text _ _ _ _ _ _ _ _) as [x|]; [|destruct H as [what ->]; by exists what]. destruct H as (t' & -> & E & _). cbn [mbind res_bind]. by rewrite E.
Qed.

(** C16: the outcome of [dump], for values of the C++ types and any indentation up to 1024 whose product with the
    depth of the value is below 2^32: no buffer of the
    serializer is overrun and the text of the value is returned, unless the handler is [Strict] (the default) and some
    string or key is not well-formed UTF-8; then, and only then, the result is a [type_error] with id 316.  Pretty-printing a
    non-empty container with an indentation beyond 1025 reads behind the end of [indent_string]. *)
Theorem dump_outcome to_chars v indent ic ascii h :
  let refused := h = Strict /\ Exists (fun s => ~ well_formed s) (strings v) in
  json_ok v -> - 2 ^ 31 <= indent < 2 ^ 31 ->
  (indent <= 1024 -> indent * depth v < 2 ^ 32 ->
    (refused -> exists what, dump to_chars v indent ic ascii h = Throw (TypeError 316 what)) /\
    (~ refused -> exists x, text to_chars h ascii ic (Z.max 0 indent) v (0 <=? indent) 0 = Some x /\
                            dump to_chars v indent ic ascii h = Ok x)) /\
  (1025 < indent ->
    match v with JObject (_ :: _) | JArray (_ :: _) => dump to_chars v indent ic ascii h = Undef | _ => True end).
Proof.
  intros refused Hok Hi. split.
  - intros Hle Hd. pose proof (dump_text to_chars v indent ic ascii h Hok Hle Hd) as H.
    pose proof (text_None to_chars h ascii ic (Z.max 0 indent) v Hok (0 <=? indent) 0) as Hn. fold refused in Hn.
    destruct (text _ _ _ _ _ _ _ _) as [x|].
    + split; [intros Hr; by apply Hn in Hr|eauto].
    + split; [done|]. intros Hr. destruct Hr. by apply Hn.
  - intros Hgt. unfold dump. rewrite (proj2 (Z.leb_le 0 indent)) by lia. rewrite u32_small by lia.
    assert (Hw : forall op, write_indent (u32 (0 + indent)) (grow_indent (u32 (0 + indent)) (write_characters op (new_serializer ic))) = Undef).
    { intros op. rewrite u32_small by lia. unfold grow_indent. change (Zlen (indent_string (write_characters op (new_serializer ic)))) with 512.
      rewrite (proj2 (Z.ltb_lt _ _)) by lia. unfold write_indent. cbn [indent_string write_characters new_serializer].
      replace (Zlen _) with 1024 by (vm_compute; reflexivity). destruct (Z.leb_spec (0 + indent) 1024), (Z.eqb_spec (0 + indent) (1024 + 1)); (lia || done). }
    destruct v as [|[|e ms]|[|v vs]|s|b|n|n|x|]; try done; cbn [dump_value print_list]; rewrite Hw; done.
Qed.

Definition demo_object : json := JObject [(bstr "code", JInteger 200); (bstr "message", JString [195; 169; 34; 10])].
Lemma dump_outcome_witness :
  let v := demo_object in
  let bad := JArray [JString [104; 195]] in
  (let refused := Strict = Strict /\ Exists (fun s => ~ well_formed s) (strings v) in
   (2 <= 1024 -> 2 * depth v < 2 ^ 32 ->
    (refused -> exists what, dump (fun _ => []) v 2 32 true Strict = Throw (TypeError 316 what)) /\
    (~ refused -> exists x, text (fun _ => []) Strict true 32 (Z.max 0 2) v (0 <=? 2) 0 = Some x /\
                            dump (fun _ => []) v 2 32 true Strict = Ok x)) /\
   (1025 < 2 -> dump (fun _ => []) v 2 32 true Strict = Undef)) /\
  dump (fun _ => []) v 2 32 true Strict =
    Ok ([123; 10] ++ bstr "  " ++ [34] ++ bstr "code" ++ [34] ++ bstr ": 200," ++ [10] ++ bstr "  " ++ [34] ++ bstr "message" ++
        [34] ++ bstr ": " ++ [34] ++ bstr "\u00e9\" ++ [34] ++ bstr "\n" ++ [34; 10; 125]) /\
  dump (fun _ => []) bad (-1) 32 false Strict =
    Throw (TypeError 316 (bstr "[json.exception.type_error.316] incomplete UTF-8 string; last byte: 0xC3")) /\
  dump (fun _ => []) bad 1026 32 false Strict = Undef.
Proof.
  cbv zeta. split; [|vm_compute; done]. apply (dump_outcome (fun _ => []) demo_object 2 32 true Strict); [|lia].
  apply ok_object. repeat (apply Forall_cons; split); try apply Forall_nil; cbn [fst snd];
    repeat constructor; try lia; unfold bytes_ok, byte_ok; repeat (apply Forall_cons; split); try lia; constructor.
Defined.
