(* ===== verification/JsonRead.v ===== *)
(** A reader of JSON texts, after the grammar of RFC 8259 (integers only), and the round trip: what
    [dump] prints is read back. *)
From S2P Require Import Prelude StdMap StdText StringEx Util Double JsonUtf8 Json JsonEscape JsonText.

(** ** The reader *)

Definition is_ws (c : Z) : bool := (c =? 32) || (c =? 9) || (c =? 10) || (c =? 13).
Fixpoint skip_ws (l : bytes) : bytes :=
  match l with c :: l' => if is_ws c then skip_ws l' else l | [] => [] end.
Definition expect (c : Z) (l : bytes) : option bytes :=
  match l with c' :: l => if c' =? c then Some l else None | [] => None end.

Definition hex_value (c : Z) : option Z :=
  if isdigit c then Some (c - 48)
  else if (97 <=? c) && (c <=? 102) then Some (c - 87) else if (65 <=? c) && (c <=? 70) then Some (c - 55) else None.
Definition hex4_value (a b c d : Z) : option Z :=
  a ← hex_value a; b ← hex_value b; c ← hex_value c; d ← hex_value d; Some (((a * 16 + b) * 16 + c) * 16 + d).
Definition long_escape (c : Z) : option Z :=
  if c =? 98 then Some 8 else if c =? 116 then Some 9 else if c =? 110 then Some 10 else if c =? 102 then Some 12
  else if c =? 114 then Some 13 else if c =? 34 then Some 34 else if c =? 92 then Some 92 else if c =? 47 then Some 47 else None.

Definition prepend (x : bytes) (r : option (bytes * bytes)) : option (bytes * bytes) := '(s, l) ← r; Some (x ++ s, l).

(** The characters of a string up to its closing quote; surrogates come in pairs. *)
Fixpoint read_chars (l : bytes) : option (bytes * bytes) :=
  match l with
  | [] => None
  | b :: l =>
      if b =? 34 then Some ([], l)
      else if b =? 92 then
        match l with
        | 117 :: h1 :: h2 :: h3 :: h4 :: l =>
            u ← hex4_value h1 h2 h3 h4;
            if (55296 <=? u) && (u <? 56320) then
              match l with
              | 92 :: 117 :: k1 :: k2 :: k3 :: k4 :: l =>
                  v ← hex4_value k1 k2 k3 k4;
                  if (56320 <=? v) && (v <? 57344)
                  then prepend (utf8_encode (65536 + (u - 55296) * 1024 + (v - 56320))) (read_chars l) else None
              | _ => None
              end
            else if (56320 <=? u) && (u <? 57344) then None else prepend (utf8_encode u) (read_chars l)
        | c :: l => x ← long_escape c; prepend [x] (read_chars l)
        | [] => None
        end
      else if b <? 32 then None else prepend [b] (read_chars l)
  end.

Fixpoint skip_digits (l : bytes) : bytes :=
  match l with c :: l' => if isdigit c then skip_digits l' else l | [] => [] end.
Definition read_digits (l : bytes) : option (Z * bytes) :=
  match l with c :: _ => if isdigit c then Some (digits l 0, skip_digits l) else None | [] => None end.

Fixpoint starts (p l : bytes) : option bytes :=
  match p, l with [], _ => Some l | a :: p, b :: l => if a =? b then starts p l else None | _ :: _, [] => None end.

(** A value; the fuel bounds the values and the parts of containers. *)
Fixpoint read (fuel : nat) (l : bytes) : option (json * bytes) :=
  match fuel with
  | O => None
  | S fuel =>
      match skip_ws l with
      | [] => None
      | c :: l =>
          if c =? 123 then
            match skip_ws l with
            | 125 :: l => Some (JObject [], l)
            | _ => '(ms, l) ← read_members fuel l; Some (JObject ms, l)
            end
          else if c =? 91 then
            match skip_ws l with
            | 93 :: l => Some (JArray [], l)
            | _ => '(vs, l) ← read_elements fuel l; Some (JArray vs, l)
            end
          else if c =? 34 then '(s, l) ← read_chars l; Some (JString s, l)
          else if c =? 45 then '(n, l) ← read_digits l; Some (JInteger (- n), l)
          else if isdigit c then '(n, l) ← read_digits (c :: l); Some (JUnsigned n, l)
          else if c =? 116 then l ← starts (bstr "rue") l; Some (JBoolean true, l)
          else if c =? 102 then l ← starts (bstr "alse") l; Some (JBoolean false, l)
          else if c =? 110 then l ← starts (bstr "ull") l; Some (JNull, l)
          else None
      end
  end
with read_members (fuel : nat) (l : bytes) : option (list (bytes * json) * bytes) :=
  match fuel with
  | O => None
  | S fuel =>
      l ← expect 34 (skip_ws l); '(k, l) ← read_chars l; l ← expect 58 (skip_ws l); '(v, l) ← read fuel l;
      match skip_ws l with
      | 44 :: l => '(ms, l) ← read_members fuel l; Some ((k, v) :: ms, l)
      | 125 :: l => Some ([(k, v)], l)
      | _ => None
      end
  end
with read_elements (fuel : nat) (l : bytes) : option (list json * bytes) :=
  match fuel with
  | O => None
  | S fuel =>
      '(v, l) ← read fuel l;
      match skip_ws l with
      | 44 :: l => '(vs, l) ← read_elements fuel l; Some (v :: vs, l)
      | 93 :: l => Some ([v], l)
      | _ => None
      end
  end.

Fixpoint size (v : json) : nat :=
  match v with
  | JObject ms => S (fold_right (fun e n => S (size (snd e) + n)) 0%nat ms)
  | JArray vs => S (fold_right (fun v n => S (size v + n)) 0%nat vs)
  | _ => 1%nat
  end.

(** The tag a reader gives to an integer. *)
Fixpoint norm (v : json) : json :=
  match v with
  | JObject ms => JObject (map (fun e => (fst e, norm (snd e))) ms)
  | JArray vs => JArray (map norm vs)
  | JInteger n => if n <? 0 then JInteger n else JUnsigned n
  | v => v
  end.

(** No floating-point numbers and no values discarded by a parser. *)
Inductive plain : json -> Prop :=
| pl_null : plain JNull
| pl_object ms : Forall (fun e => plain (snd e)) ms -> plain (JObject ms)
| pl_array vs : Forall plain vs -> plain (JArray vs)
| pl_string s : plain (JString s)
| pl_boolean b : plain (JBoolean b)
| pl_integer n : plain (JInteger n)
| pl_unsigned n : plain (JUnsigned n).

Example read_demo : read 10 (bstr " [ -12 , {} , [true ] ] ") = Some (JArray [JInteger (-12); JObject []; JArray [JBoolean true]], [32]).
Proof. vm_compute. reflexivity. Qed.

(** ** Strings are read back *)

Lemma hex_value_digit n : 0 <= n < 16 -> hex_value (hex_digit n) = Some n.
Proof. intros H. unfold hex_value, hex_digit, isdigit. zbool; try lia; f_equal; lia. Qed.

Lemma hex4_value_ok u : 0 <= u < 65536 -> exists a b c d, hex4 u = [a; b; c; d] /\ hex4_value a b c d = Some u.
Proof.
  intros H. do 4 eexists. split; [reflexivity|]. unfold hex4_value. change 15 with (Z.ones 4).
  rewrite !Z.land_ones, !Z.shiftr_div_pow2 by lia. change (2 ^ 4) with 16.
  pose proof (Z.mod_pos_bound u 256 ltac:(lia)) as Hm. assert (0 <= u / 256 < 256) as Hd by (split; [apply Z.div_pos|apply Z.div_lt_upper_bound]; lia).
  assert (Hn : forall x, 0 <= x < 256 -> 0 <= x / 16 < 16 /\ 0 <= x mod 16 < 16).
  { intros x Hx. split; [split; [apply Z.div_pos|apply Z.div_lt_upper_bound]; lia|apply Z.mod_pos_bound; lia]. }
  rewrite !hex_value_digit by (apply Hn; done). cbn [mbind option_bind]. f_equal.
  pose proof (Z.div_mod u 256). pose proof (Z.div_mod (u / 256) 16). pose proof (Z.div_mod (u mod 256) 16). lia.
Qed.

Lemma prepend_app x y r : prepend x (prepend y r) = prepend (x ++ y) r.
Proof. destruct r as [[s l]|]; cbn; [by rewrite app_assoc|done]. Qed.

Lemma read_raw p l : Forall (fun b => 32 <= b /\ b <> 34 /\ b <> 92) p -> read_chars (p ++ l) = prepend p (read_chars l).
Proof.
  induction 1 as [|b p (H1 & H2 & H3) _ IH]; [cbn [app]; by destruct (read_chars l) as [[]|]|].
  cbn [app read_chars]. rewrite (proj2 (Z.eqb_neq b 34)), (proj2 (Z.eqb_neq b 92)), (proj2 (Z.ltb_ge b 32)) by lia.
  rewrite IH, prepend_app. done.
Qed.

Lemma read_unit u l : 0 <= u < 65536 -> ~ 55296 <= u < 57344 ->
  read_chars ([92; 117] ++ hex4 u ++ l) = prepend (utf8_encode u) (read_chars l).
Proof.
  intros H Hs. destruct (hex4_value_ok u H) as (a & b & c & d & -> & E).
  cbn [app read_chars]. change (92 =? 34) with false. change (92 =? 92) with true. cbv iota. rewrite E. cbn [mbind option_bind].
  destruct (Z.leb_spec 55296 u), (Z.ltb_spec u 56320), (Z.leb_spec 56320 u), (Z.ltb_spec u 57344); cbn [andb]; try lia; done.
Qed.

Lemma read_pair u v l : 55296 <= u < 56320 -> 56320 <= v < 57344 ->
  read_chars (([92; 117] ++ hex4 u) ++ ([92; 117] ++ hex4 v) ++ l) =
  prepend (utf8_encode (65536 + (u - 55296) * 1024 + (v - 56320))) (read_chars l).
Proof.
  intros Hu Hv. destruct (hex4_value_ok u) as (a1 & b1 & c1 & d1 & -> & V1); [lia|].
  destruct (hex4_value_ok v) as (a2 & b2 & c2 & d2 & -> & V2); [lia|].
  assert (Bu : (55296 <=? u) && (u <? 56320) = true) by (apply andb_true_iff; rewrite Z.leb_le, Z.ltb_lt; done).
  assert (Bv : (56320 <=? v) && (v <? 57344) = true) by (apply andb_true_iff; rewrite Z.leb_le, Z.ltb_lt; done).
  cbn [app].
  change (read_chars (92 :: 117 :: a1 :: b1 :: c1 :: d1 :: 92 :: 117 :: a2 :: b2 :: c2 :: d2 :: l)) with
    (u ← hex4_value a1 b1 c1 d1;
     if (55296 <=? u) && (u <? 56320) then
       v ← hex4_value a2 b2 c2 d2;
       if (56320 <=? v) && (v <? 57344)
       then prepend (utf8_encode (65536 + (u - 55296) * 1024 + (v - 56320))) (read_chars l) else None
     else if (56320 <=? u) && (u <? 57344) then None
     else prepend (utf8_encode u) (read_chars (92 :: 117 :: a2 :: b2 :: c2 :: d2 :: l))).
  rewrite V1. cbn [mbind option_bind]. rewrite Bu, V2. cbn [mbind option_bind]. by rewrite Bv.
Qed.

Lemma read_surrogates c l : 65536 <= c <= 1114111 ->
  read_chars (concat (map (fun u => [92; 117] ++ hex4 u) [55296 + (c - 65536) / 1024; 56320 + (c - 65536) mod 1024]) ++ l) =
  prepend (utf8_encode c) (read_chars l).
Proof.
  intros H. pose proof (Z.mod_pos_bound (c - 65536) 1024 ltac:(lia)) as Hm. pose proof (Z.div_mod (c - 65536) 1024 ltac:(lia)) as Hd.
  assert (0 <= (c - 65536) / 1024 < 1024) as Hq by (split; [apply Z.div_pos|apply Z.div_lt_upper_bound]; lia).
  set (q := (c - 65536) / 1024) in *. set (r := (c - 65536) mod 1024) in *. clearbody q r.
  cbn [map concat]. rewrite app_nil_r, <- app_assoc, read_pair by lia. do 2 f_equal. lia.
Qed.

Lemma read_escape ascii c l : scalar c -> read_chars (escape ascii c ++ l) = prepend (utf8_encode c) (read_chars l).
Proof.
  intros Hc. unfold escape, short_escape.
  do 7 (match goal with |- context [c =? ?k] => destruct (Z.eqb_spec c k) as [->|]; [done|] end).
  destruct (_ || _) eqn:Ec.
  - unfold utf16. destruct (Z.ltb_spec c 65536).
    + cbn [map concat]. rewrite app_nil_r, <- app_assoc. apply read_unit; unfold scalar in Hc; lia.
    + apply read_surrogates. unfold scalar in Hc. lia.
  - apply orb_false_iff in Ec as [Ec _]. apply Z.ltb_ge in Ec. apply read_raw. unfold scalar in Hc. unfold utf8_encode.
    assert (forall k, 0 < k -> 0 <= c / k) by (intros k Hk; apply Z.div_pos; lia).
    pose proof (Z.mod_pos_bound c 64 ltac:(lia)). pose proof (Z.mod_pos_bound (c / 64) 64 ltac:(lia)). pose proof (Z.mod_pos_bound (c / 4096) 64 ltac:(lia)).
    pose proof (H 64). pose proof (H 4096). pose proof (H 262144).
    zbool; repeat (apply Forall_cons; split; [lia|]); constructor.
Qed.

Lemma read_escaped ascii cps rest : Forall scalar cps ->
  read_chars (escaped ascii cps ++ 34 :: rest) = Some (concat (map utf8_encode cps), rest).
Proof.
  induction 1 as [|c cps Hc _ IH]; [done|]. unfold escaped in *. cbn [map concat]. rewrite <- app_assoc, read_escape, IH by done. done.
Qed.

Lemma quoted_reads ascii s x : bytes_ok s -> quoted Strict ascii s = Some x ->
  exists y, x = 34 :: y /\ forall rest, read_chars (y ++ rest) = Some (s, rest).
Proof.
  intros Hs. unfold quoted. cbn [handled]. rewrite <- utf8_repair_scan. change (utf8_scan None s) with (utf8_text s).
  destruct (utf8_text s) as [cps|] eqn:E; [|done]. cbn. intros [= <-]. apply utf8_text_inv in E as [-> Hc]; [|done].
  eexists. split; [reflexivity|]. intros rest. rewrite <- app_assoc. by apply read_escaped.
Qed.

(** ** Numbers *)

Definition no_digit (l : bytes) : Prop := match l with c :: _ => isdigit c = false | [] => True end.

Lemma skip_digits_app ds l : Forall (fun c => isdigit c = true) ds -> no_digit l -> skip_digits (ds ++ l) = l.
Proof. induction 1 as [|c ds Hc _ IH]; intros Hl; cbn; [destruct l as [|c l]; [done|]; cbn in *; by rewrite Hl|]. rewrite Hc. auto. Qed.

Lemma read_digits_ok n l : 0 <= n < 2 ^ 64 -> no_digit l -> read_digits (to_string n ++ l) = Some (n, l).
Proof.
  intros Hn Hl. destruct (to_string_spec n Hn) as (Hne & Hds & Hd & _). unfold read_digits.
  specialize (Hd l ltac:(intros c l' ->; exact Hl)). pose proof (skip_digits_app _ _ Hds Hl) as Hs.
  destruct (to_string n) as [|c ds]; [done|]. apply Forall_cons in Hds as [Hc _]. cbn [app] in *. by rewrite Hc, Hd, Hs.
Qed.

(** ** White space *)

Definition ws (w : bytes) : Prop := Forall (fun c => is_ws c = true) w.

Lemma skip_ws_app w l : ws w -> skip_ws (w ++ l) = skip_ws l.
Proof. induction 1 as [|c w Hc _ IH]; [done|]. cbn. by rewrite Hc. Qed.

Lemma ws_indentation ic n : is_ws ic = true -> ws (indentation ic n).
Proof. intros H. apply Forall_app. split; apply Forall_replicate; done. Qed.

Lemma read_ws fuel w l : ws w -> read fuel (w ++ l) = read fuel l.
Proof. intros Hw. destruct fuel; [done|]. cbn [read]. by rewrite skip_ws_app. Qed.
Lemma read_members_ws fuel w l : ws w -> read_members fuel (w ++ l) = read_members fuel l.
Proof. intros Hw. destruct fuel; [done|]. cbn [read_members]. by rewrite skip_ws_app. Qed.
Lemma read_elements_ws fuel w l : ws w -> read_elements fuel (w ++ l) = read_elements fuel l.
Proof. intros Hw. destruct fuel; [done|]. cbn [read_elements]. by rewrite read_ws. Qed.

Lemma no_digit_ws w c l : ws w -> isdigit c = false -> no_digit (w ++ c :: l).
Proof.
  intros Hw Hc. destruct Hw as [|d w Hd _]; [done|]. cbn. unfold is_ws, isdigit in *. zbool; try done; lia.
Qed.

(** ** Containers *)

(** The parts of a container with the separators between them. *)
Fixpoint separated (sep : bytes) (zs : list bytes) : bytes :=
  match zs with [] => [] | [z] => z | z :: zs => z ++ sep ++ separated sep zs end.

Lemma cat_join sep os y : cat (join sep os) = Some y -> exists zs, os = map Some zs /\ y = separated sep zs.
Proof.
  revert y. induction os as [|o os IH]; intros y; [intros [= <-]; by exists []|].
  destruct os as [|o' os].
  - cbn. destruct o as [z|]; [|done]. cbn. intros [= <-]. exists [z]. cbn. by rewrite app_nil_r.
  - change (join sep (o :: o' :: os)) with (o :: Some sep :: join sep (o' :: os)).
    cbn [cat]. destruct o as [z|]; [|done]. cbn [mbind option_bind]. destruct (cat (join sep (o' :: os))) as [y'|]; [|done].
    cbn. intros [= <-]. destruct (IH y' eq_refl) as (zs & E & ->). exists (z :: zs). split; [cbn; by rewrite E|].
    destruct zs as [|z' zs]; [done|]. cbn [separated]. done.
Qed.

(** A text that is read as [v]. *)
Definition reads_as (v : json) (z : bytes) : Prop :=
  forall fuel rest, (size v <= fuel)%nat -> no_digit rest -> read fuel (z ++ rest) = Some (norm v, rest).
Definition member_text (e : bytes * json) (z : bytes) : Prop :=
  exists w y w' x, z = w ++ 34 :: y ++ 58 :: w' ++ x /\ ws w /\ ws w' /\
    (forall rest, read_chars (y ++ rest) = Some (fst e, rest)) /\ reads_as (snd e) x.
Definition element_text (v : json) (z : bytes) : Prop := exists w x, z = w ++ x /\ ws w /\ reads_as v x.

Lemma read_members_ok w w' ms zs : ws w -> ws w' -> Forall2 member_text ms zs -> ms <> [] -> forall fuel rest,
  (fold_right (fun e n => S (size (snd e) + n)) 0 ms <= fuel)%nat ->
  read_members fuel (separated (44 :: w) zs ++ w' ++ 125 :: rest) = Some (map (fun e => (fst e, norm (snd e))) ms, rest).
Proof.
  intros Hw Hw'. induction 1 as [|e z ms zs (w1 & y & w2 & x & -> & H1 & H2 & Hy & Hx) Hms IH]; [done|]. intros _ fuel rest Hf.
  cbn [fold_right] in Hf. destruct fuel as [|fuel]; [lia|].
  assert (Hgo : forall tl, no_digit tl -> read_members (S fuel) ((w1 ++ 34 :: y ++ 58 :: w2 ++ x) ++ tl) =
    match skip_ws tl with
    | 44 :: l => '(ms, l) ← read_members fuel l; Some ((fst e, norm (snd e)) :: ms, l)
    | 125 :: l => Some ([(fst e, norm (snd e))], l)
    | _ => None
    end).
  { intros tl Htl. rewrite <- app_assoc, read_members_ws by done. cbn [read_members app skip_ws]. change (is_ws 34) with false. cbv iota.
    cbn [expect]. change (34 =? 34) with true. cbv iota. cbn [mbind option_bind]. rewrite <- app_assoc, Hy. cbn [mbind option_bind app skip_ws].
    change (is_ws 58) with false. cbv iota. cbn [expect]. change (58 =? 58) with true. cbv iota. cbn [mbind option_bind].
    rewrite <- app_assoc, read_ws, Hx by (done || lia). done. }
  destruct zs as [|z zs]; cbn [separated].
  - inversion Hms; subst. rewrite Hgo by (by apply no_digit_ws). rewrite skip_ws_app by done. done.
  - destruct ms as [|e' ms]; [by inversion Hms|]. rewrite <- app_assoc, Hgo by done. cbn [app skip_ws]. change (is_ws 44) with false. cbv iota.
    rewrite <- app_assoc, read_members_ws, IH by (done || lia). done.
Qed.

Lemma read_elements_ok w w' vs zs : ws w -> ws w' -> Forall2 element_text vs zs -> vs <> [] -> forall fuel rest,
  (fold_right (fun v n => S (size v + n)) 0 vs <= fuel)%nat ->
  read_elements fuel (separated (44 :: w) zs ++ w' ++ 93 :: rest) = Some (map norm vs, rest).
Proof.
  intros Hw Hw'. induction 1 as [|v z vs zs (w1 & x & -> & H1 & Hx) Hvs IH]; [done|]. intros _ fuel rest Hf.
  cbn [fold_right] in Hf. destruct fuel as [|fuel]; [lia|].
  assert (Hgo : forall tl, no_digit tl -> read_elements (S fuel) ((w1 ++ x) ++ tl) =
    match skip_ws tl with
    | 44 :: l => '(vs, l) ← read_elements fuel l; Some (norm v :: vs, l)
    | 93 :: l => Some ([norm v], l)
    | _ => None
    end).
  { intros tl Htl. rewrite <- app_assoc, read_elements_ws by done. cbn [read_elements]. rewrite Hx by (done || lia). done. }
  destruct zs as [|z zs]; cbn [separated].
  - inversion Hvs; subst. rewrite Hgo by (by apply no_digit_ws). rewrite skip_ws_app by done. done.
  - destruct vs as [|v' vs]; [by inversion Hvs|]. rewrite <- app_assoc, Hgo by done. cbn [app skip_ws]. change (is_ws 44) with false. cbv iota.
    rewrite <- app_assoc, read_elements_ws, IH by (done || lia). done.
Qed.

(** The first character of a text: neither white space nor a closing bracket. *)
Definition opens (x : bytes) : Prop := match x with c :: _ => is_ws c = false /\ c <> 93 /\ c <> 125 | [] => False end.

Lemma opens_digit n : 0 <= n < 2 ^ 64 -> opens (to_string n).
Proof.
  intros Hn. destruct (to_string_spec n Hn) as (Hne & Hds & _). destruct (to_string n) as [|c ds]; [done|].
  apply Forall_cons in Hds as [Hc _]. apply isdigit_true in Hc. cbn. unfold is_ws. zbool; try lia; done.
Qed.

Lemma Forall2_map_some {A} (f : A -> option bytes) l zs : map f l = map Some zs -> Forall2 (fun x z => f x = Some z) l zs.
Proof. revert zs. induction l as [|x l IH]; intros [|z zs] E; try done. injection E as E1 E2. constructor; auto. Qed.

Section roundtrip.
Context (to_chars : double -> bytes) (ascii : bool) (ic step : Z) (Hic : is_ws ic = true).

Lemma bracket_inv {A} (f : A -> option bytes) pretty cur op cl l x :
  bracket ic step pretty cur op cl (map f l) = Some x -> exists w w' zs,
    ws w /\ ws w' /\ x = op :: w ++ separated (44 :: w) zs ++ w' ++ [cl] /\
    Forall2 (fun a z => exists w1 z', ws w1 /\ z = w1 ++ z' /\ f a = Some z') l zs.
Proof.
  assert (H10 : ws [10]) by (by repeat constructor).
  unfold bracket. destruct pretty; rewrite !cat_app.
  - rewrite map_map. destruct (cat (join _ _)) as [y|] eqn:Ey; [|by cbn]. apply cat_join in Ey as (zs & Ez & ->).
    cbn. intros [= <-]. exists [10], (10 :: indentation ic cur), zs. split_and!; [done| |by cbn; rewrite ?app_nil_r, <- ?app_assoc|].
    { apply Forall_cons. split; [done|by apply ws_indentation]. }
    apply Forall2_map_some in Ez. eapply Forall2_impl; [exact Ez|]. cbn beta. intros a z E.
    exists (indentation ic (cur + step)). cbn in E. destruct (f a) as [z'|]; [|done]. injection E as <-. exists z'.
    split_and!; [by apply ws_indentation|by rewrite app_nil_r|done].
  - destruct (cat (join _ _)) as [y|] eqn:Ey; [|by cbn]. apply cat_join in Ey as (zs & Ez & ->).
    cbn. intros [= <-]. exists [], [], zs. split_and!; [constructor|constructor|done|].
    apply Forall2_map_some in Ez. eapply Forall2_impl; [exact Ez|]. cbn beta. intros a z E. exists [], z. split_and!; [constructor|done|done].
Qed.

Lemma read_brace fuel x rest ms : (exists y, skip_ws x = 34 :: y) -> read_members fuel x = Some (ms, rest) -> read (S fuel) (123 :: x) = Some (JObject ms, rest).
Proof. intros [y Hx] E. cbn [read skip_ws]. change (is_ws 123) with false. cbv iota. change (123 =? 123) with true. cbv iota. by rewrite Hx, E. Qed.

Lemma read_square fuel x rest vs c y : skip_ws x = c :: y -> c <> 93 -> read_elements fuel x = Some (vs, rest) ->
  read (S fuel) (91 :: x) = Some (JArray vs, rest).
Proof.
  intros Hx Hc E. cbn [read skip_ws]. change (is_ws 91) with false. cbv iota. change (91 =? 123) with false. change (91 =? 91) with true. cbv iota.
  rewrite Hx, E. destruct c as [|p|p]; try done. do 7 (destruct p as [p|p|]; try done).
Qed.

Lemma skip_ws_opens x l : opens x -> exists c y, skip_ws (x ++ l) = c :: y /\ c <> 93.
Proof. destruct x as [|c x]; [done|]. intros (Hw & H1 & _). exists c, (x ++ l). cbn. by rewrite Hw. Qed.

Lemma read_number n : - 2 ^ 63 <= n < 2 ^ 64 -> reads_as (JInteger n) (to_string_int n) /\ opens (to_string_int n).
Proof.
  intros Hn. unfold to_string_int, reads_as. cbn [norm]. destruct (Z.ltb_spec n 0); split; try done.
  - intros [|fuel] rest Hf Hr; [cbn in Hf; lia|]. cbn [read app skip_ws]. change (is_ws 45) with false. cbv iota.
    change (45 =? 123) with false. change (45 =? 91) with false. change (45 =? 34) with false. change (45 =? 45) with true. cbv iota.
    rewrite read_digits_ok by (done || lia). cbn. by rewrite Z.opp_involutive.
  - intros [|fuel] rest Hf Hr; [cbn in Hf; lia|]. pose proof (read_digits_ok n rest ltac:(lia) Hr) as Hd.
    pose proof (opens_digit n ltac:(lia)) as Ho. destruct (to_string_spec n ltac:(lia)) as (_ & Hds & _).
    destruct (to_string n) as [|c ds]; [done|]. cbn in Ho. apply Forall_cons in Hds as [Hc _]. pose proof (proj1 (isdigit_true c) Hc).
    cbn [app] in *. cbn [read skip_ws]. rewrite (proj1 Ho).
    rewrite (proj2 (Z.eqb_neq c 123)), (proj2 (Z.eqb_neq c 91)), (proj2 (Z.eqb_neq c 34)), (proj2 (Z.eqb_neq c 45)) by lia.
    rewrite Hc, Hd. done.
  - by apply opens_digit; lia.
Qed.

Lemma text_reads v : json_ok v -> plain v -> forall pretty cur x,
  text to_chars Strict ascii ic step v pretty cur = Some x -> opens x /\ reads_as v x.
Proof.
  assert (Hword : forall u x, opens x ->
    (forall fuel rest, read (S fuel) (x ++ rest) = Some (norm u, rest)) -> opens x /\ reads_as u x).
  { intros u x Ho Hr. split; [done|]. intros [|fuel] rest Hf _; [destruct u; cbn in Hf; lia|apply Hr]. }
  induction v as [|ms IH|vs IH|s|b|n|n|d|] using json_nested_ind; intros Hok Hpl pretty cur x;
    inversion Hok as [|? Hms|? Hvs|? Hs| |? Hn|? Hn| |]; inversion Hpl as [|? Pms|? Pvs| | | |]; subst; cbn [text].
  - intros [= <-]. apply Hword; [done|]. intros fuel rest. destruct rest; done.
  - destruct ms as [|e0 ms0] eqn:Ems; [intros [= <-]; apply Hword; done|]. rewrite <- Ems in *. clear Hok Hpl.
    intros E. apply bracket_inv in E as (w & w' & zs & Hw & Hw' & -> & Hzs).
    assert (Hmem : Forall2 member_text ms zs).
    { clear Ems. induction Hzs as [|e z ms zs (w1 & z' & H1 & -> & Ez) Hzs IHz]; [constructor|].
      apply Forall_cons in IH as [He IH], Hms as [[Hk Hv] Hms], Pms as [Pe Pms]. constructor; [|apply IHz; assumption].
      cbn [cat fst snd] in Ez. destruct (quoted Strict ascii (fst e)) as [k|] eqn:Ek; [|done]. apply (quoted_reads _ _ _ Hk) in Ek as (y & -> & Hy).
      destruct (text _ _ _ _ _ (snd e) _ _) as [xv|] eqn:Ev; [|done]. cbn [mbind option_bind] in Ez. injection Ez as <-.
      destruct (He Hv Pe _ _ _ Ev) as [_ Hr]. exists w1, y, (if pretty then [32] else []), xv.
      split_and!; [|done|destruct pretty; by repeat constructor|done|done]. rewrite app_nil_r. destruct pretty; done. }
    split; [done|]. intros [|fuel] rest Hf _; [cbn in Hf; lia|].
    assert (Hread : read_members fuel (w ++ separated (44 :: w) zs ++ w' ++ 125 :: rest) = Some (map (fun e => (fst e, norm (snd e))) ms, rest)).
    { rewrite read_members_ws by done. apply read_members_ok; try done; [by rewrite Ems|]. cbn [size] in Hf. lia. }
    cbn [app norm]. rewrite <- !app_assoc. cbn [app]. apply read_brace; [|exact Hread]. rewrite skip_ws_app by done.
    subst ms. inversion Hmem as [|? z ? zs' (w1 & y & w2 & xv & -> & H1 & _) _]; subst.
    destruct zs' as [|z zs']; cbn [separated]; rewrite <- !app_assoc, skip_ws_app by done; eexists; reflexivity.
  - destruct vs as [|v0 vs0] eqn:Evs; [intros [= <-]; apply Hword; done|]. rewrite <- Evs in *. clear Hok Hpl.
    intros E. apply bracket_inv in E as (w & w' & zs & Hw & Hw' & -> & Hzs).
    assert (Hel : Forall2 (fun v z => element_text v z /\ exists w1 x, ws w1 /\ z = w1 ++ x /\ opens x) vs zs).
    { clear Evs. induction Hzs as [|v z vs zs (w1 & z' & H1 & -> & Ez) Hzs IHz]; [constructor|].
      apply Forall_cons in IH as [He IH], Hvs as [Hv Hvs], Pvs as [Pe Pvs]. constructor; [|apply IHz; assumption].
      destruct (He Hv Pe _ _ _ Ez) as [Ho Hr]. split; [by exists w1, z'|by exists w1, z']. }
    split; [done|]. intros [|fuel] rest Hf _; [cbn in Hf; lia|].
    assert (Hread : read_elements fuel (w ++ separated (44 :: w) zs ++ w' ++ 93 :: rest) = Some (map norm vs, rest)).
    { rewrite read_elements_ws by done. apply read_elements_ok; try done; [|by rewrite Evs|cbn [size] in Hf; lia].
      eapply Forall2_impl; [exact Hel|]. by intros ? ? [? _]. }
    cbn [app norm]. rewrite <- !app_assoc. cbn [app]. subst vs.
    inversion Hel as [|? z ? zs' [_ (w1 & xv & H1 & -> & Ho)] _]; subst.
    destruct (skip_ws_opens xv (match zs' with [] => [] | _ => (44 :: w) ++ separated (44 :: w) zs' end ++ w' ++ 93 :: rest) Ho) as (c & y & Hc & Hc93).
    eapply read_square; [|exact Hc93|exact Hread]. rewrite skip_ws_app by done.
    destruct zs' as [|z zs']; cbn [separated]; rewrite <- !app_assoc, skip_ws_app by done; [exact Hc|]. rewrite <- app_assoc in Hc. exact Hc.
  - intros E. apply (quoted_reads _ _ _ Hs) in E as (y & -> & Hy). split; [done|].
    intros [|fuel] rest Hf _; [cbn in Hf; lia|]. cbn [app read skip_ws]. change (is_ws 34) with false. cbv iota.
    change (34 =? 123) with false. change (34 =? 91) with false. change (34 =? 34) with true. cbv iota. by rewrite Hy.
  - intros [= <-]. apply Hword; [by destruct b|]. intros fuel rest. by destruct b, rest.
  - intros [= <-]. destruct (read_number n ltac:(lia)) as [Hr Ho]. done.
  - intros [= <-]. destruct (read_number n ltac:(lia)) as [Hr Ho]. split; [done|]. unfold reads_as in *. cbn [norm size] in *.
    destruct (Z.ltb_spec n 0); [lia|]. done.
Qed.
End roundtrip.

(** C15: what [dump] prints is read back.  For every value of the C++ types without floating-point numbers whose strings and
    keys are well-formed, compact or with any indentation up to 1024 by a white-space character, with non-ASCII
    characters escaped or not, [dump] returns a text, and a reader of the JSON grammar that is given the text, with anything but a digit behind it,
    reads exactly that text as the same value (an integer that is not negative counts as unsigned). *)
Theorem dump_read to_chars v indent ic ascii :
  json_ok v -> plain v -> Forall well_formed (strings v) -> is_ws ic = true -> indent <= 1024 -> indent * depth v < 2 ^ 32 ->
  exists x, dump to_chars v indent ic ascii Strict = Ok x /\
    forall fuel rest, (size v <= fuel)%nat -> no_digit rest -> read fuel (x ++ rest) = Some (norm v, rest).
Proof.
  intros Hok Hpl Hwf Hic Hi Hd. pose proof (dump_text to_chars v indent ic ascii Strict Hok Hi Hd) as H.
  destruct (text _ _ _ _ _ _ _ _) as [x|] eqn:E.
  - exists x. split; [exact H|]. apply (text_reads _ _ _ _ Hic _ Hok Hpl) in E as [_ Hr]. exact Hr.
  - apply (text_None to_chars Strict ascii ic (Z.max 0 indent) v Hok) in E as [_ E]. exfalso.
    apply List.Exists_exists in E as (s & Hs & Hn). rewrite List.Forall_forall in Hwf. exact (Hn (Hwf s Hs)).
Qed.

Lemma dump_read_witness :
  (exists x, dump (fun _ => []) demo_object 2 32 true Strict = Ok x /\
    forall fuel rest, (size demo_object <= fuel)%nat -> no_digit rest -> read fuel (x ++ rest) = Some (norm demo_object, rest)) /\
  norm demo_object = JObject [(bstr "code", JUnsigned 200); (bstr "message", JString [195; 169; 34; 10])].
Proof.
  split; [|vm_compute; reflexivity]. apply (dump_read (fun _ => []) demo_object 2 32 true); [| | |reflexivity|lia|reflexivity].
  - apply ok_object. repeat (apply Forall_cons; split); try apply Forall_nil; cbn [fst snd];
      repeat constructor; try lia; unfold bytes_ok, byte_ok; repeat (apply Forall_cons; split); try lia; constructor.
  - apply pl_object. repeat constructor.
  - apply Forall_cons. split; [|apply Forall_cons; split; [|apply Forall_cons; split; [|constructor]]].
    + exists [99; 111; 100; 101]. split; [reflexivity|]. repeat (apply Forall_cons; split; [unfold scalar; lia|]). constructor.
    + exists [109; 101; 115; 115; 97; 103; 101]. split; [reflexivity|]. repeat (apply Forall_cons; split; [unfold scalar; lia|]). constructor.
    + exists [233; 34; 10]. split; [reflexivity|]. repeat (apply Forall_cons; split; [unfold scalar; lia|]). constructor.
Defined.
