(* ===== verification/WsFrame.v ===== *)
(** WebSocket frames ([src/src/net/http/websocket/websocket_frame.cpp], the frame writers of
    [websocket_session.cpp] and [websocket_client.cpp]).

    [Parse] is an incremental parser over the receive buffer: it may return 1 (more data
    needed) at four points, leaving the fields it has already written, and it unmasks the
    payload in place.  The model is generic in the buffer ([ByteQueue]).  [decode_header] and
    [decode_one] are the reference decoder on byte strings; [Parse_spec] states that the
    parser's answer is a function of the bytes accumulated so far. *)
From S2P Require Import Prelude ByteStream ByteQueue.

Definition WS_MAX_HEADER_LEN : Z := 10.
Definition WS_OP_CONTINUE_TYPE : Z := 0x00.
Definition WS_OP_TEXT_TYPE : Z := 0x01.
Definition WS_OP_BIN_TYPE : Z := 0x02.
Definition WS_OP_CLOSE_TYPE : Z := 0x08.
Definition WS_OP_PING_TYPE : Z := 0x09.
Definition WS_OP_PONG_TYPE : Z := 0x0a.

(** The bit-field header, laid out from the low bits of each byte. *)
Record WS_PACKET_HEADER : Type := mkHeader {
  hd_opcode : Z;
  hd_fin : bool;
  hd_payload_len : Z;
  hd_mask : bool }.
Definition header_of (b0 b1 : Z) : WS_PACKET_HEADER :=
  mkHeader (Z.land b0 15) (Z.testbit b0 7) (Z.land b1 127) (Z.testbit b1 7).

(** Network-order integers. *)
Definition be_word (l : bytes) : Z := le_word (rev l).

(** The two masking loops: groups of four bytes, then the rest. *)
Fixpoint mask_bytes (key l : bytes) : bytes :=
  match key, l with
  | [k0; k1; k2; k3], p0 :: p1 :: p2 :: p3 :: l' =>
      Z.lxor p0 k0 :: Z.lxor p1 k1 :: Z.lxor p2 k2 :: Z.lxor p3 k3 :: mask_bytes key l'
  | _, _ => zip_with Z.lxor l key
  end.

Section frame.
Context `{HQ : ByteQueue Q}.

Record WebSocketFrame : Type := mkFrame {
  fbuffer_ : Q;
  payload_start_ : Z;
  payload_len_ : Z;
  opcode_ : Z;
  mask_enable_ : bool;
  fin_ : bool;
  header_ready_ : bool;
  masking_key_ : bytes }.

Definition set_fbuffer (f : WebSocketFrame) (b : Q) : WebSocketFrame :=
  mkFrame b (payload_start_ f) (payload_len_ f) (opcode_ f) (mask_enable_ f) (fin_ f)
    (header_ready_ f) (masking_key_ f).

(** The block [if (!header_ready_)]; [false] when it returned 1 early. *)
Definition parse_header (f : WebSocketFrame) : res (WebSocketFrame * bool) :=
  let b := fbuffer_ f in
  h ← bq_peek b 0 2;
  let hd := header_of (nth 0 h 0) (nth 1 h 0) in
  let f := mkFrame b 2 (hd_payload_len hd) (hd_opcode hd) (mask_enable_ f) (hd_fin hd)
             (header_ready_ f) (masking_key_ f) in
  r ← (if (hd_payload_len hd =? 126) || (hd_payload_len hd =? 127) then
         if hd_payload_len hd =? 127 then
           if bq_len b <? 10 then Ok (f, false)
           else p ← bq_peek b 2 8;
                Ok (mkFrame b (payload_start_ f + 8) (s64 (be_word p)) (opcode_ f) (mask_enable_ f)
                      (fin_ f) (header_ready_ f) (masking_key_ f), true)
         else
           if bq_len b <? 4 then Ok (f, false)
           else p ← bq_peek b (payload_start_ f) 2;
                Ok (mkFrame b (payload_start_ f + 2) (be_word p) (opcode_ f) (mask_enable_ f)
                      (fin_ f) (header_ready_ f) (masking_key_ f), true)
       else Ok (f, true));
  let '(f, go) := r in
  if negb go then Ok (f, false)
  else
    let f := mkFrame b (payload_start_ f) (payload_len_ f) (opcode_ f) (hd_mask hd) (fin_ f)
               (header_ready_ f) (masking_key_ f) in
    if hd_mask hd then
      if s32 (bq_len b) <? payload_start_ f + 4 then Ok (f, false)
      else
        p ← bq_peek b (payload_start_ f) 4;
        Ok (mkFrame b (payload_start_ f + 4) (payload_len_ f) (opcode_ f) (mask_enable_ f) (fin_ f)
              true p, true)
    else Ok (mkFrame b (payload_start_ f) (payload_len_ f) (opcode_ f) (mask_enable_ f) (fin_ f)
               true (masking_key_ f), true).

(** Unmasking in place: [frame_length] is the length as a [size_t]. *)
Definition unmask (f : WebSocketFrame) : res WebSocketFrame :=
  let frame_length := u64 (payload_len_ f) in
  p ← bq_peek (fbuffer_ f) (payload_start_ f) frame_length;
  b ← bq_poke (fbuffer_ f) (payload_start_ f) (mask_bytes (masking_key_ f) p);
  Ok (set_fbuffer f b).

Definition Parse (f : WebSocketFrame) (data : bytes) : res (WebSocketFrame * Z) :=
  b ← (if 0 <? Zlen data then bq_append (fbuffer_ f) data else Ok (fbuffer_ f));
  let f := set_fbuffer f b in
  if bq_len (fbuffer_ f) <? 2 then Ok (f, 1)
  else
    r ← (if header_ready_ f then Ok (f, true) else parse_header f);
    let '(f, go) := r in
    if negb go then Ok (f, 1)
    else
      total ← chk_int64 (payload_start_ f + payload_len_ f);
      if s32 (bq_len (fbuffer_ f)) <? total then Ok (f, 1)
      else
        f ← (if mask_enable_ f then unmask f else Ok f);
        Ok (f, 0).

Definition PayloadIsReady (f : WebSocketFrame) : bool :=
  s32 (payload_len_ f) <=? s32 (bq_len (fbuffer_ f)) - payload_start_ f.
Definition GetPayloadData (f : WebSocketFrame) : res bytes :=
  bq_peek (fbuffer_ f) (payload_start_ f) (u64 (payload_len_ f)).
Definition Consume (f : WebSocketFrame) (len : Z) : res WebSocketFrame :=
  b ← bq_consume (fbuffer_ f) (s32 len); Ok (set_fbuffer f b).
Definition frame_Reset (f : WebSocketFrame) : WebSocketFrame :=
  mkFrame (fbuffer_ f) 0 0 (opcode_ f) (mask_enable_ f) (fin_ f) false (masking_key_ f).

End frame.
Arguments WebSocketFrame Q : clear implicits.

(** ** Writing a frame: [SendWsFrame] of both endpoints *)

Definition ws_header (len op_code : Z) : bytes :=
  let b0 := Z.lor 128 (Z.land op_code 15) in
  if 126 <=? len then
    if 65535 <? len then
      b0 :: Z.lor 128 127 :: [u8 (Z.shiftr len 56); u8 (Z.shiftr len 48); u8 (Z.shiftr len 40);
        u8 (Z.shiftr len 32); u8 (Z.shiftr len 24); u8 (Z.shiftr len 16); u8 (Z.shiftr len 8); u8 len]
    else b0 :: Z.lor 128 126 :: [u8 (Z.shiftr len 8); u8 len]
  else [b0; Z.lor 128 (Z.land len 127)].

(** The three parts written: header, masking key, masked payload. *)
Definition ws_encode (data : bytes) (op_code : Z) (masking_key : bytes) : bytes :=
  ws_header (Zlen data) op_code ++ masking_key ++ mask_bytes masking_key data.

(** ** The reference decoder *)

Record frame_info : Type := mkInfo {
  fi_start : Z;           (* header length, masking key included *)
  fi_len : Z;             (* payload length *)
  fi_fin : bool;
  fi_op : Z;
  fi_key : option bytes }.

Definition ext_header (s : bytes) (pl : Z) : option (Z * Z) :=
  if pl =? 127 then if Zlen s <? 10 then None else Some (10, s64 (be_word (slice s 2 8)))
  else if pl =? 126 then if Zlen s <? 4 then None else Some (4, be_word (slice s 2 2))
  else Some (2, pl).

Definition decode_header (s : bytes) : option frame_info :=
  match s with
  | b0 :: b1 :: _ =>
      '(st, len) ← ext_header s (Z.land b1 127);
      if Z.testbit b1 7 then
        if Zlen s <? st + 4 then None
        else Some (mkInfo (st + 4) len (Z.testbit b0 7) (Z.land b0 15) (Some (slice s st 4)))
      else Some (mkInfo st len (Z.testbit b0 7) (Z.land b0 15) None)
  | _ => None
  end.

Definition payload_of (i : frame_info) (s : bytes) : bytes :=
  let p := slice s (fi_start i) (fi_len i) in
  match fi_key i with Some k => mask_bytes k p | None => p end.

(** A complete frame, and what follows it. *)
Record ws_frame : Type := mkWsFrame { wf_fin : bool; wf_op : Z; wf_payload : bytes }.
Definition decode_one (s : bytes) : option (ws_frame * bytes) :=
  i ← decode_header s;
  if Zlen s <? fi_start i + fi_len i then None
  else Some (mkWsFrame (fi_fin i) (fi_op i) (payload_of i s),
             skipn (Z.to_nat (fi_start i + fi_len i)) s).

(** ** Masking *)

Lemma mask_ind (P : bytes -> Prop) :
  (forall l, (length l < 4)%nat -> P l) ->
  (forall a b c d l, P l -> P (a :: b :: c :: d :: l)) -> forall l, P l.
Proof.
  intros H0 H4. fix IH 1. intros [|a [|b [|c [|d l]]]]; try (apply H0; cbn; lia).
  apply H4, IH.
Qed.

Lemma mask_bytes_length key l : Zlen key = 4 -> Zlen (mask_bytes key l) = Zlen l.
Proof.
  intros Hk. assert (exists a b c d, key = [a; b; c; d]) as (k0 & k1 & k2 & k3 & ->).
  { destruct key as [|a [|b [|c [|d [|]]]]]; zlen. eauto 10. }
  induction l as [l Hl|a b c d l IH] using mask_ind.
  - destruct l as [|? [|? [|? [|]]]]; try done; cbn in Hl; lia.
  - cbn [mask_bytes]. zlen.
Qed.

Lemma mask_bytes_involutive key l : Zlen key = 4 -> mask_bytes key (mask_bytes key l) = l.
Proof.
  intros Hk. assert (exists a b c d, key = [a; b; c; d]) as (k0 & k1 & k2 & k3 & ->).
  { destruct key as [|a [|b [|c [|d [|]]]]]; zlen. eauto 10. }
  assert (E : forall a k, Z.lxor (Z.lxor a k) k = a).
  { intros. rewrite Z.lxor_assoc, Z.lxor_nilpotent, Z.lxor_0_r. done. }
  induction l as [l Hl|a b c d l IH] using mask_ind.
  - destruct l as [|? [|? [|? [|]]]]; cbn [mask_bytes zip_with length] in *; rewrite ?E; try done; lia.
  - cbn [mask_bytes]. rewrite !E, IH. done.
Qed.

(** ** The reference decoder inverts the writer *)

Definition head_check (x : Z) : bool :=
  (128 <=? x) || (Z.testbit (Z.lor 128 x) 7 && (Z.land (Z.lor 128 x) 127 =? x) &&
    (Z.land (Z.lor 128 (Z.land x 15)) 15 =? Z.land x 15) && Z.testbit (Z.lor 128 (Z.land x 15)) 7).
Lemma head_bits x : 0 <= x < 128 ->
  Z.testbit (Z.lor 128 x) 7 = true /\ Z.land (Z.lor 128 x) 127 = x.
Proof.
  intros H. assert (E : all_bytes head_check = true) by (vm_compute; done).

  pose proof (all_bytes_spec _ E x ltac:(unfold byte_ok; lia)) as Hc. unfold head_check in Hc.
  destruct (Z.leb_spec 128 x); [lia|]. cbn [orb] in Hc.
  rewrite !andb_true_iff, !Z.eqb_eq in Hc. tauto.
Qed.

Lemma op_bits op : 0 <= op < 16 ->
  Z.testbit (Z.lor 128 (Z.land op 15)) 7 = true /\ Z.land (Z.lor 128 (Z.land op 15)) 15 = op /\
  Z.land op 15 = op.
Proof.
  intros H. change 15 with (Z.ones 4). rewrite !(Z.land_ones op) by lia.
  rewrite (Z.mod_small op) by lia. split; [apply head_bits; lia|split; [|done]].
  rewrite Z.land_lor_distr_l. rewrite !Z.land_ones, (Z.mod_small op) by lia. done.
Qed.

Lemma be_word_8 len : 0 <= len < 2 ^ 64 ->
  be_word [u8 (Z.shiftr len 56); u8 (Z.shiftr len 48); u8 (Z.shiftr len 40); u8 (Z.shiftr len 32);
    u8 (Z.shiftr len 24); u8 (Z.shiftr len 16); u8 (Z.shiftr len 8); u8 len] = len.
Proof.
  intros H. transitivity (le_word (le_bytes 8 len)).
  - unfold be_word, le_bytes, byte_at. cbn [rev app seq map]. do 2 f_equal.
  - rewrite le_word_bytes. apply Z.mod_small. done.
Qed.
Lemma be_word_2 len : 0 <= len < 65536 -> be_word [u8 (Z.shiftr len 8); u8 len] = len.
Proof.
  intros H. transitivity (le_word (le_bytes 2 len)).
  - unfold be_word, le_bytes, byte_at. cbn [rev app seq map]. do 2 f_equal.
  - rewrite le_word_bytes. apply Z.mod_small. done.
Qed.

Lemma ext_header_encode len op r : 0 <= len < 2 ^ 63 ->
  exists b1, ws_header len op = Z.lor 128 (Z.land op 15) :: b1 :: skipn 2 (ws_header len op) /\
    Z.testbit b1 7 = true /\
    ext_header (ws_header len op ++ r) (Z.land b1 127) = Some (Zlen (ws_header len op), len).
Proof.
  intros H. unfold ws_header. destruct (Z.leb_spec 126 len); [destruct (Z.ltb_spec 65535 len)|].
  - exists (Z.lor 128 127). split_and!; [done|done|].
    unfold ext_header. change (Z.land (Z.lor 128 127) 127 =? 127) with true. cbv iota.
    rewrite (proj2 (Z.ltb_ge _ _)) by zlen.
    unfold slice. change (Z.to_nat 2) with 2%nat; change (Z.to_nat 8) with 8%nat; cbn [skipn firstn app].
    rewrite be_word_8, s64_small by lia. done.
  - exists (Z.lor 128 126). split_and!; [done|done|].
    unfold ext_header. change (Z.land (Z.lor 128 126) 127 =? 127) with false.
    change (Z.land (Z.lor 128 126) 127 =? 126) with true. cbv iota.
    rewrite (proj2 (Z.ltb_ge _ _)) by zlen.
    unfold slice. change (Z.to_nat 2) with 2%nat; change (Z.to_nat 8) with 8%nat; cbn [skipn firstn app].
    rewrite be_word_2 by lia. done.
  - exists (Z.lor 128 (Z.land len 127)).
    assert (E : Z.land len 127 = len).
    { change 127 with (Z.ones 7). rewrite Z.land_ones by lia. apply Z.mod_small; lia. }
    rewrite E. destruct (head_bits len) as [E1 E2]; [lia|]. split_and!; [done|done|].
    rewrite E2. unfold ext_header. zbool; try lia; done.
Qed.

Lemma decode_header_encode p op key rest : Zlen p < 2 ^ 63 -> 0 <= op < 16 -> Zlen key = 4 ->
  decode_header (ws_encode p op key ++ rest) =
  Some (mkInfo (Zlen (ws_header (Zlen p) op) + 4) (Zlen p) true op (Some key)).
Proof.
  intros Hp Hop Hk. unfold ws_encode. rewrite <- !app_assoc. set (r := key ++ _).
  destruct (ext_header_encode (Zlen p) op r) as (b1 & E & Hb & Hx); [zlen|].
  destruct (op_bits op Hop) as (H7 & H15 & _).
  set (h := ws_header (Zlen p) op) in *. unfold decode_header.
  rewrite E at 1. cbn [app]. rewrite Hx. cbn [mbind option_bind]. rewrite Hb, H7, H15.
  rewrite (proj2 (Z.ltb_ge _ _)) by (unfold r; zlen). do 2 f_equal. unfold r.
  rewrite slice_app; done.
Qed.

(** Decoding an encoded frame gives the frame back and leaves what follows it. *)
Lemma decode_one_encode p op key rest : Zlen p < 2 ^ 63 -> 0 <= op < 16 -> Zlen key = 4 ->
  decode_one (ws_encode p op key ++ rest) = Some (mkWsFrame true op p, rest).
Proof.
  intros Hp Hop Hk. unfold decode_one. rewrite decode_header_encode by done.
  cbn [mbind option_bind fi_start fi_len fi_fin fi_op].
  set (h := ws_header (Zlen p) op). assert (El : Zlen (mask_bytes key p) = Zlen p) by (apply mask_bytes_length; done).
  rewrite (proj2 (Z.ltb_ge _ _)) by (unfold ws_encode; fold h; zlen).
  unfold payload_of. cbn [fi_start fi_len fi_key].
  replace (ws_encode p op key ++ rest) with ((h ++ key) ++ mask_bytes key p ++ rest)
    by (unfold ws_encode; fold h; rewrite <- !app_assoc; done).
  rewrite slice_app by zlen. rewrite mask_bytes_involutive by done.
  rewrite (app_assoc (h ++ key)), skipn_Zlen_app by zlen. done.
Qed.

(** ** Appending bytes does not change a header that is complete *)

Lemma slice_prefix (s t : bytes) off n : 0 <= off -> 0 <= n -> off + n <= Zlen s ->
  slice (s ++ t) off n = slice s off n.
Proof.
  intros. unfold slice. rewrite skipn_app, firstn_app, length_skipn.
  replace (Z.to_nat n - (length s - Z.to_nat off))%nat with 0%nat by (unfold Zlen in *; lia).
  rewrite firstn_0, app_nil_r. done.
Qed.

Lemma ext_header_app s t pl st len : ext_header s pl = Some (st, len) ->
  ext_header (s ++ t) pl = Some (st, len) /\ (st <= Zlen s \/ st = 2) /\ 2 <= st <= 10.
Proof.
  unfold ext_header. intros H. destruct (pl =? 127); [|destruct (pl =? 126)].
  - destruct (Z.ltb_spec (Zlen s) 10); [done|]. injection H as <- <-.
    rewrite (proj2 (Z.ltb_ge _ _)), slice_prefix by zlen. split_and!; [done|lia..].
  - destruct (Z.ltb_spec (Zlen s) 4); [done|]. injection H as <- <-.
    rewrite (proj2 (Z.ltb_ge _ _)), slice_prefix by zlen. split_and!; [done|lia..].
  - injection H as <- <-. split_and!; [done|lia..].
Qed.

Lemma decode_header_app s t i : decode_header s = Some i ->
  decode_header (s ++ t) = Some i /\ 2 <= fi_start i <= Zlen s /\ fi_start i <= 14.
Proof.
  unfold decode_header. destruct s as [|b0 [|b1 s]]; [done..|]. cbn [app].
  destruct (ext_header (b0 :: b1 :: s) _) as [[st len]|] eqn:E; [|done].
  apply (ext_header_app _ t) in E as (E & Hst & Hb). cbn [app] in E. rewrite E.
  cbn [mbind option_bind]. destruct (Z.testbit b1 7).
  - destruct (Z.ltb_spec (Zlen (b0 :: b1 :: s)) (st + 4)); [done|]. intros [= <-].
    change (b0 :: b1 :: s ++ t) with ((b0 :: b1 :: s) ++ t).
    rewrite (proj2 (Z.ltb_ge _ _)), slice_prefix by zlen. cbn [fi_start]. split_and!; [done|lia..].
  - intros [= <-]. cbn [fi_start]. split_and!; [done|zlen|zlen|lia].
Qed.

(** ** The incremental parser computes the reference decoder *)

Section parse.
Context `{HL : ByteQueueLaws Q}.
Implicit Types f : WebSocketFrame Q.

(** The cached fields are those of the decoded header. *)
Definition agrees f (i : frame_info) : Prop :=
  payload_start_ f = fi_start i /\ payload_len_ f = fi_len i /\ fin_ f = fi_fin i /\
  opcode_ f = fi_op i /\ mask_enable_ f = bool_decide (is_Some (fi_key i)) /\
  (forall k, fi_key i = Some k -> masking_key_ f = k).

(** [f] is waiting for the rest of a frame, [s] being the bytes received so far. *)
Definition frame_inv f (s : bytes) : Prop :=
  bq_rep (fbuffer_ f) s /\
  (header_ready_ f = true -> exists i, decode_header s = Some i /\ agrees f i).

Ltac frame_cbn := cbn [negb fbuffer_ payload_start_ payload_len_ opcode_ mask_enable_ fin_
  header_ready_ masking_key_].

Lemma parse_header_spec f s : bq_rep (fbuffer_ f) s -> 2 <= Zlen s ->
  match decode_header s with
  | None => exists f', parse_header f = Ok (f', false) /\ fbuffer_ f' = fbuffer_ f /\
              header_ready_ f' = header_ready_ f
  | Some i => exists f', parse_header f = Ok (f', true) /\ fbuffer_ f' = fbuffer_ f /\
              header_ready_ f' = true /\ agrees f' i
  end.
Proof.
  intros Hr H2. destruct (bq_rep_len _ _ Hr) as [El Hb].
  destruct s as [|b0 [|b1 s]]; [zlen..|]. set (S := b0 :: b1 :: s) in *.
  assert (Hpk : forall off n, 0 <= off -> 0 <= n -> off + n <= Zlen S ->
    bq_peek (fbuffer_ f) off n = Ok (slice S off n)) by (intros; apply bq_peek_law; done).
  unfold parse_header, decode_header. unfold S at 1. cbv beta iota zeta.
  rewrite (Hpk 0 2), bind_Ok by lia. change (slice S 0 2) with [b0; b1]. cbn [nth].
  rewrite El, s32_small by zlen.
  unfold header_of, ext_header. cbn [hd_opcode hd_fin hd_payload_len hd_mask].
  destruct (Z.eqb_spec (Z.land b1 127) 127) as [->|H127].
  - cbn [Z.eqb Pos.eqb orb]. destruct (Z.ltb_spec (Zlen S) 10); cbn [mbind option_bind res_bind negb]; [eauto|].
    rewrite Hpk, !bind_Ok by lia. frame_cbn.
    destruct (Z.testbit b1 7); [|eexists; split_and!; [done..|]; unfold agrees; split_and!; done].
    change (2 + 8 + 4) with (10 + 4). change (2 + 8) with 10.
    destruct (Z.ltb_spec (Zlen S) (10 + 4)); [eauto|]. rewrite Hpk, bind_Ok by lia.
    eexists; split_and!; [done..|]. unfold agrees; cbn; split_and!; try done. intros k [= <-]; done.
  - rewrite orb_false_r. destruct (Z.eqb_spec (Z.land b1 127) 126) as [->|H126].
    + destruct (Z.ltb_spec (Zlen S) 4); cbn [mbind option_bind res_bind negb]; [eauto|].
      frame_cbn. rewrite Hpk, !bind_Ok by lia. frame_cbn.
      destruct (Z.testbit b1 7); [|eexists; split_and!; [done..|]; unfold agrees; split_and!; done].
      change (2 + 2 + 4) with (4 + 4). change (2 + 2) with 4.
      destruct (Z.ltb_spec (Zlen S) (4 + 4)); [eauto|]. rewrite Hpk, bind_Ok by lia.
      eexists; split_and!; [done..|]. unfold agrees; cbn; split_and!; try done. intros k [= <-]; done.
    + cbn [mbind option_bind res_bind]. frame_cbn.
      destruct (Z.testbit b1 7); [|eexists; split_and!; [done..|]; unfold agrees; split_and!; done].
      destruct (Z.ltb_spec (Zlen S) (2 + 4)); [eauto|]. rewrite Hpk, bind_Ok by lia.
      eexists; split_and!; [done..|]. unfold agrees; cbn; split_and!; try done. intros k [= <-]; done.
Qed.

Lemma frame_inv_header f s i : frame_inv f s -> header_ready_ f = true ->
  decode_header s = Some i -> agrees f i.
Proof. intros [_ Hi] Hh E. destruct (Hi Hh) as (j & E' & Ha). congruence. Qed.

(** [Parse], after the new data is in the buffer. *)
Definition parse_body f : res (WebSocketFrame Q * Z) :=
  if bq_len (fbuffer_ f) <? 2 then Ok (f, 1)
  else
    r ← (if header_ready_ f then Ok (f, true) else parse_header f);
    let '(f, go) := r in
    if negb go then Ok (f, 1)
    else
      total ← chk_int64 (payload_start_ f + payload_len_ f);
      if s32 (bq_len (fbuffer_ f)) <? total then Ok (f, 1)
      else
        f ← (if mask_enable_ f then unmask f else Ok f);
        Ok (f, 0).

Lemma header_ready_step f s i : frame_inv f s -> decode_header s = Some i ->
  exists f', (if header_ready_ f then Ok (f, true) else parse_header f) = Ok (f', true) /\
    fbuffer_ f' = fbuffer_ f /\ header_ready_ f' = true /\ agrees f' i.
Proof.
  intros Hf E. destruct (header_ready_ f) eqn:Eh.
  - exists f. split_and!; try done. eapply frame_inv_header; done.
  - pose proof (parse_header_spec f s (proj1 Hf)) as Hp. rewrite E in Hp. apply Hp.
    apply (decode_header_app s []) in E. lia.
Qed.

Lemma unmask_ok f s i : bq_rep (fbuffer_ f) s -> agrees f i -> 0 <= fi_start i -> 0 <= fi_len i ->
  fi_start i + fi_len i <= Zlen s -> (forall k, fi_key i = Some k -> Zlen k = 4) ->
  exists f' s', (if mask_enable_ f then unmask f else Ok f) = Ok f' /\ bq_rep (fbuffer_ f') s' /\
    Zlen s' = Zlen s /\ agrees f' i /\ slice s' (fi_start i) (fi_len i) = payload_of i s /\
    skipn (Z.to_nat (fi_start i + fi_len i)) s' = skipn (Z.to_nat (fi_start i + fi_len i)) s.
Proof.
  intros Hr Ha H0 H1 H2 Hk. destruct (bq_rep_len _ _ Hr) as [_ Hb].
  unfold payload_of. destruct (fi_key i) as [k|] eqn:Ek.
  - pose proof Ha as (Es & El & Ef & Eo & Em & Ekey). rewrite Ek in Em. cbn in Em.
    rewrite Em. unfold unmask. rewrite Es, El, u64_small by lia.
    rewrite (bq_peek_law _ _ _ _ Hr), bind_Ok by lia.
    set (p := slice s (fi_start i) (fi_len i)).
    assert (Hp : Zlen p = fi_len i) by (unfold p, slice; rewrite Zlen_take, Zlen_drop; lia).
    rewrite (Ekey k Ek). assert (Hm : Zlen (mask_bytes k p) = fi_len i) by (rewrite mask_bytes_length; auto).
    destruct (bq_poke_law _ _ (fi_start i) (mask_bytes k p) Hr H0) as (b & -> & Hb'); [lia|].
    exists (set_fbuffer f b), (splice s (fi_start i) (mask_bytes k p)).
    unfold splice in *. set (a := firstn (Z.to_nat (fi_start i)) s) in *.
    assert (Hal : Zlen a = fi_start i) by (unfold a; rewrite Zlen_take; lia).
    rewrite Hm in *. split_and!; [done|exact Hb'| | |rewrite slice_app by lia; done|].
    + rewrite !Zlen_app, Zlen_drop; lia.
    + exact Ha.
    + rewrite app_assoc, skipn_Zlen_app; [done|zlen].
  - pose proof Ha as (Es & El & Ef & Eo & Em & Ekey). rewrite Ek in Em. cbn in Em. rewrite Em.
    exists f, s. split_and!; done.
Qed.

Lemma decode_header_key s i k : decode_header s = Some i -> fi_key i = Some k -> Zlen k = 4.
Proof.
  unfold decode_header. destruct s as [|b0 [|b1 s]]; [done..|].
  destruct (ext_header _ _) as [[st len]|] eqn:E; [|done]. cbn [mbind option_bind].
  apply (ext_header_app _ []) in E as (_ & _ & Hst).
  destruct (Z.testbit b1 7).
  - destruct (Z.ltb_spec (Zlen (b0 :: b1 :: s)) (st + 4)); [done|]. intros [= <-] [= <-].
    unfold slice. rewrite Zlen_take, Zlen_drop by lia. lia.
  - intros [= <-]; done.
Qed.

Lemma parse_body_spec f s : frame_inv f s ->
  match decode_header s with
  | None => exists f', parse_body f = Ok (f', 1) /\ frame_inv f' s
  | Some i => 0 <= fi_len i < 2 ^ 62 ->
      if Zlen s <? fi_start i + fi_len i
      then exists f', parse_body f = Ok (f', 1) /\ frame_inv f' s
      else exists f' s', parse_body f = Ok (f', 0) /\ bq_rep (fbuffer_ f') s' /\ Zlen s' = Zlen s /\
             agrees f' i /\ slice s' (fi_start i) (fi_len i) = payload_of i s /\
             skipn (Z.to_nat (fi_start i + fi_len i)) s' =
             skipn (Z.to_nat (fi_start i + fi_len i)) s
  end.
Proof.
  intros Hf. pose proof Hf as [Hr Hh]. destruct (bq_rep_len _ _ Hr) as [El Hb]. unfold parse_body.
  destruct (decode_header s) as [i|] eqn:E.
  - intros Hlen. pose proof (decode_header_app s [] i E) as (_ & Hst & H14).
    rewrite El. rewrite (proj2 (Z.ltb_ge _ 2)) by lia.
    destruct (header_ready_step f s i Hf E) as (f1 & -> & Eb & Eh & Ha). cbn [mbind res_bind negb].
    pose proof Ha as (Es & Epl & _). rewrite Es, Epl, chk_int64_ok, bind_Ok by lia.
    rewrite Eb, El, s32_small by zlen. destruct (Z.ltb_spec (Zlen s) (fi_start i + fi_len i)).
    + exists f1. split; [done|]. split; [rewrite Eb; done|]. intros _. eauto.
    + destruct (unmask_ok f1 s i) as (f2 & s2 & E2 & H2); try lia; [rewrite Eb; done|done| |].
      { intros k Hk. eapply decode_header_key; done. }
      rewrite E2, bind_Ok. exists f2, s2. split; [done|exact H2].
  - rewrite El. destruct (Z.ltb_spec (Zlen s) 2); [exists f; done|].
    destruct (header_ready_ f) eqn:Ehr; [destruct (Hh eq_refl) as (? & ? & _); congruence|].
    pose proof (parse_header_spec f s Hr) as Hp. rewrite E in Hp.
    destruct Hp as (f' & -> & Eb & Eh); [lia|]. cbn [mbind res_bind negb].
    exists f'. split; [done|]. split; [rewrite Eb; done|]. rewrite Eh, Ehr. done.
Qed.

(** Appending the new data keeps the invariant. *)
Lemma parse_append f s data : frame_inv f s -> (data = [] \/ bq_room (fbuffer_ f) (Zlen data)) ->
  exists f', frame_inv f' (s ++ data) /\ Parse f data = parse_body f'.
Proof.
  intros [Hr Hh] Hroom.
  assert (exists b, (if 0 <? Zlen data then bq_append (fbuffer_ f) data else Ok (fbuffer_ f)) = Ok b /\
    bq_rep b (s ++ data)) as (b & E & Hb).
  { destruct (Z.ltb_spec 0 (Zlen data)).
    - destruct Hroom as [->|Hroom]; [zlen|]. apply bq_append_law; done.
    - exists (fbuffer_ f). split; [done|]. assert (data = []) as -> by (apply Zlen_0_nil; zlen).
      rewrite app_nil_r. done. }
  exists (set_fbuffer f b). split.
  - split; [exact Hb|]. cbn. intros Hrdy. destruct (Hh Hrdy) as (i & Ei & Ha).
    exists i. split; [apply decode_header_app; done|exact Ha].
  - unfold Parse. rewrite E, bind_Ok. done.
Qed.
End parse.

(** ** Lengths with the top bit set *)

(** The ten-byte header of an unmasked frame with a 64-bit length. *)
Definition long_header (b0 len : Z) : bytes :=
  b0 :: 127 :: [u8 (Z.shiftr len 56); u8 (Z.shiftr len 48); u8 (Z.shiftr len 40); u8 (Z.shiftr len 32);
    u8 (Z.shiftr len 24); u8 (Z.shiftr len 16); u8 (Z.shiftr len 8); u8 len].

Lemma decode_long_header b0 len : 0 <= len < 2 ^ 64 ->
  decode_header (long_header b0 len) =
  Some (mkInfo 10 (s64 len) (Z.testbit b0 7) (Z.land b0 15) None).
Proof.
  intros H. rewrite <- (be_word_8 len H) at 2. reflexivity.
Qed.

(** A 64-bit length with the top bit set is accepted: the parser reports a complete frame as
    soon as the header has arrived, with a negative payload length. *)
Lemma Parse_accepts_negative_length (Q : Type) (HQ : ByteQueue Q) (HL : ByteQueueLaws Q)
  (f : WebSocketFrame Q) (b0 len : Z) (Hf : frame_inv f []) (Hh : header_ready_ f = false)
  (Hroom : bq_room (fbuffer_ f) 10) (Hlen : 2 ^ 63 <= len < 2 ^ 64) :
  exists f', Parse f (long_header b0 len) = Ok (f', 0) /\
    payload_start_ f' = 10 /\ payload_len_ f' = len - 2 ^ 64 /\ payload_len_ f' < 0.
Proof.
  destruct (parse_append f [] (long_header b0 len) Hf (or_intror Hroom)) as (f1 & Hf1 & ->).
  cbn [app] in Hf1. pose proof (decode_long_header b0 len ltac:(lia)) as E.
  assert (Es : s64 len = len - 2 ^ 64) by (unfold s64; rewrite (Z.mod_eq _ (2 ^ 64)) by lia;
    replace ((len + 2 ^ 63) / 2 ^ 64) with 1 by (apply Z.div_unique with (len - 2 ^ 63); lia); lia).
  rewrite Es in E. unfold parse_body. destruct (bq_rep_len _ _ (proj1 Hf1)) as [El _].
  rewrite El. change (Zlen (long_header b0 len)) with 10 in *. cbn [Z.ltb Z.compare Pos.compare Pos.compare_cont].
  destruct (header_ready_step f1 _ _ Hf1 E) as (f2 & -> & Eb & _ & Ha). cbn [mbind res_bind negb].
  destruct Ha as (H1 & H2 & _ & _ & H5 & _). cbn in H1, H2, H5. rewrite H1, H2, H5.
  rewrite chk_int64_ok, bind_Ok by lia. rewrite Eb, El, s32_small by lia.
  rewrite (proj2 (Z.ltb_ge _ _)) by lia. rewrite bind_Ok.
  exists f2. split_and!; [done|done|done|lia].
Qed.

Lemma Parse_accepts_negative_length_witness : exists f',
  Parse (mkFrame (Q := bytes) [] 0 0 0 false false false [0; 0; 0; 0]) (long_header 130 (2 ^ 64 - 1)) = Ok (f', 0) /\
    payload_start_ f' = 10 /\ payload_len_ f' = 2 ^ 64 - 1 - 2 ^ 64 /\ payload_len_ f' < 0.
Proof.
  apply (Parse_accepts_negative_length bytes _ list_queue_laws); [split; [split; [reflexivity|reflexivity]|discriminate]|reflexivity|reflexivity|lia].
Defined.
