(* ===== verification/WsTypes.v ===== *)
(** The types of the frame parser's fields (websocket_frame.hpp): whatever bytes arrive, the cached
    header stays within the C++ types and the sizes of the wire format, and every access of the
    parser to its buffer is either inside the received bytes or undefined. *)
From S2P Require Import Prelude ByteStream ByteQueue WsFrame.

Section types.
Context {Q : Type} {HQ : ByteQueue Q} {HQL : ByteQueueLaws Q}.
Implicit Types f : WebSocketFrame Q.

Record header_typed f : Prop := {
  ht_start : 0 <= payload_start_ f <= 14;               (* a header has at most 14 bytes *)
  ht_len : - 2 ^ 63 <= payload_len_ f < 2 ^ 63;         (* int64_t *)
  ht_opcode : 0 <= opcode_ f < 16;                      (* four bits *)
  ht_key : Zlen (masking_key_ f) = 4 /\ bytes_ok (masking_key_ f) }.

Record frame_typed f (s : bytes) : Prop := {
  ft_buffer : bq_rep (fbuffer_ f) s;
  ft_bytes : bytes_ok s;
  ft_header : header_typed f }.

Lemma header_typed_buffer f b : header_typed f -> header_typed (set_fbuffer f b).
Proof. intros []. by constructor. Qed.

Lemma bytes_ok_slice s off n : bytes_ok s -> bytes_ok (slice s off n).
Proof. intros H. apply bytes_ok_firstn, bytes_ok_skipn, H. Qed.
Lemma bytes_ok_splice s off x : bytes_ok s -> bytes_ok x -> bytes_ok (splice s off x).
Proof. intros H Hx. unfold splice. rewrite !bytes_ok_app. split_and!; [apply bytes_ok_firstn, H|exact Hx|apply bytes_ok_skipn, H]. Qed.

Lemma be_word_range l : bytes_ok l -> 0 <= be_word l < 2 ^ (8 * Zlen l).
Proof.
  intros H. unfold be_word. replace (Zlen l) with (Zlen (rev l)) by (unfold Zlen; rewrite length_rev; done).
  apply le_word_range, bytes_ok_rev, H.
Qed.

Lemma s64_range z : - 2 ^ 63 <= s64 z < 2 ^ 63.
Proof. unfold s64. pose proof (Z.mod_pos_bound (z + 2 ^ 63) (2 ^ 64) ltac:(lia)). lia. Qed.

Lemma land_low z n : 0 <= n -> 0 <= Z.land z (Z.ones n) < 2 ^ n.
Proof. intros H. rewrite Z.land_ones by lia. apply Z.mod_pos_bound, Z.pow_pos_nonneg; lia. Qed.

Lemma xor_bytes l : forall k, bytes_ok l -> bytes_ok k -> bytes_ok (zip_with Z.lxor l k).
Proof.
  induction l as [|a l IH]; intros [|b k] Hl Hk; try constructor.
  - apply Forall_cons in Hl as [Ha _]. apply Forall_cons in Hk as [Hb _]. apply (lxor_bound a b 8); [lia|exact Ha|exact Hb].
  - apply Forall_cons in Hl as [_ Hl]. apply Forall_cons in Hk as [_ Hk]. by apply IH.
Qed.

Lemma mask_bytes_ok key l : Zlen key = 4 -> bytes_ok key -> bytes_ok l -> bytes_ok (mask_bytes key l).
Proof.
  intros H4 Hk. destruct key as [|k0 [|k1 [|k2 [|k3 [|]]]]]; try (unfold Zlen in H4; cbn in H4; lia).
  assert (forall n l, (length l <= n)%nat -> bytes_ok l -> bytes_ok (mask_bytes [k0; k1; k2; k3] l)) as Hn.
  2: { intros Hl. exact (Hn (length l) l (le_n _) Hl). }
  clear l H4. induction n as [|n IH]; intros l Hlen Hl.
  - destruct l; [constructor|cbn in Hlen; lia].
  - destruct l as [|p0 [|p1 [|p2 [|p3 l]]]]; [apply xor_bytes; done..|].
    change (mask_bytes [k0; k1; k2; k3] (p0 :: p1 :: p2 :: p3 :: l)) with
      (zip_with Z.lxor [p0; p1; p2; p3] [k0; k1; k2; k3] ++ mask_bytes [k0; k1; k2; k3] l).
    change (p0 :: p1 :: p2 :: p3 :: l) with ([p0; p1; p2; p3] ++ l) in Hl. apply bytes_ok_app in Hl as [Hp Hl].
    apply bytes_ok_app. split; [apply xor_bytes; done|]. apply IH; [cbn in Hlen; lia|done].
Qed.

(** *** The header *)

Lemma header_typed_fields f s : bq_rep (fbuffer_ f) s -> bytes_ok s -> header_typed f -> 2 <= Zlen s ->
  exists f' go, parse_header f = Ok (f', go) /\ fbuffer_ f' = fbuffer_ f /\ header_typed f'.
Proof.
  intros Hr Hb Ht Hl. destruct (bq_rep_len _ _ Hr) as [El H31]. unfold parse_header.
  rewrite (bq_peek_law _ _ 0 2 Hr) by lia. cbn [mbind res_bind]. set (h := slice s 0 2).
  assert (Hop : 0 <= Z.land (nth 0 h 0) 15 < 16) by apply (land_low _ 4 ltac:(lia)).
  assert (Hpl : 0 <= Z.land (nth 1 h 0) 127 < 128) by apply (land_low _ 7 ltac:(lia)).
  unfold header_of. cbn [hd_opcode hd_fin hd_payload_len hd_mask].
  assert (Hpk : forall off n, 0 <= off -> 0 <= n -> off + n <= Zlen s -> exists p,
    bq_peek (fbuffer_ f) off n = Ok p /\ Zlen p = n /\ bytes_ok p).
  { intros off n H1 H2 H3. eexists. split; [apply bq_peek_law; done|]. split; [apply Zlen_slice; lia|apply bytes_ok_slice, Hb]. }
  rewrite El, s32_small by zlen. destruct Ht as [_ _ _ [Hk1 Hk2]].
  assert (Hmid : forall g, fbuffer_ g = fbuffer_ f -> masking_key_ g = masking_key_ f -> 0 <= opcode_ g < 16 ->
    2 <= payload_start_ g <= 10 -> - 2 ^ 63 <= payload_len_ g < 2 ^ 63 ->
    exists f' go, (let f0 := mkFrame (fbuffer_ f) (payload_start_ g) (payload_len_ g) (opcode_ g) (Z.testbit (nth 1 h 0) 7)
                     (fin_ g) (header_ready_ g) (masking_key_ g) in
      if Z.testbit (nth 1 h 0) 7 then
        if Zlen s <? payload_start_ f0 + 4 then Ok (f0, false)
        else p ← bq_peek (fbuffer_ f) (payload_start_ f0) 4;
             Ok (mkFrame (fbuffer_ f) (payload_start_ f0 + 4) (payload_len_ f0) (opcode_ f0) (mask_enable_ f0) (fin_ f0) true p, true)
      else Ok (mkFrame (fbuffer_ f) (payload_start_ f0) (payload_len_ f0) (opcode_ f0) (mask_enable_ f0) (fin_ f0) true
                 (masking_key_ f0), true)) = Ok (f', go) /\ fbuffer_ f' = fbuffer_ f /\ header_typed f').
  { intros g Hg Hgk Hgo Hgs Hgl. cbn [payload_start_ payload_len_ opcode_ mask_enable_ fin_ masking_key_].
    destruct (Z.testbit _ 7); [destruct (Z.ltb_spec (Zlen s) (payload_start_ g + 4)) as [?|Hfit]|].
    - eexists _, _. split_and!; [reflexivity|done|]. constructor; cbn; try rewrite Hgk; lia || done.
    - destruct (Hpk (payload_start_ g) 4) as (p & -> & Hp1 & Hp2); [lia..|]. eexists _, _.
      split_and!; [reflexivity|done|]. constructor; cbn; lia || done.
    - eexists _, _. split_and!; [reflexivity|done|]. constructor; cbn; try rewrite Hgk; lia || done. }
  destruct (Z.eqb_spec (Z.land (nth 1 h 0) 127) 127) as [E7|E7].
  - rewrite orb_true_r. destruct (Z.ltb_spec (Zlen s) 10); cbn [mbind res_bind negb].
    + eexists _, _. split_and!; [reflexivity|done|]. constructor; cbn; lia || done.
    + destruct (Hpk 2 8) as (p & -> & Hp1 & Hp2); [lia..|]. cbn [mbind res_bind negb payload_start_].
      apply (Hmid (mkFrame (fbuffer_ f) (2 + 8) (s64 (be_word p)) _ _ _ _ (masking_key_ f))); try done; try (cbn; lia).
      apply s64_range.
  - rewrite orb_false_r. destruct (Z.eqb_spec (Z.land (nth 1 h 0) 127) 126) as [E6|E6].
    + destruct (Z.ltb_spec (Zlen s) 4); cbn [mbind res_bind negb].
      * eexists _, _. split_and!; [reflexivity|done|]. constructor; cbn; lia || done.
      * cbn [payload_start_]. destruct (Hpk 2 2) as (p & -> & Hp1 & Hp2); [lia..|]. cbn [mbind res_bind negb].
        pose proof (be_word_range p Hp2) as Hw. rewrite Hp1 in Hw.
        apply (Hmid (mkFrame (fbuffer_ f) (2 + 2) (be_word p) _ _ _ _ (masking_key_ f))); try done; cbn in *; lia.
    + cbn [mbind res_bind negb].
      apply (Hmid (mkFrame (fbuffer_ f) 2 (Z.land (nth 1 h 0) 127) _ _ _ _ (masking_key_ f))); try done; cbn; lia.
Qed.

(** *** The payload *)

Lemma unmask_typed f s : frame_typed f s -> payload_start_ f + payload_len_ f <= Zlen s ->
  unmask f = Undef /\ payload_len_ f < 0 \/
  exists f' s', unmask f = Ok f' /\ frame_typed f' s' /\ Zlen s' = Zlen s /\ 0 <= payload_len_ f.
Proof.
  intros [Hr Hb Ht] Htot. pose proof Ht as [Hst Hlen Hop [Hk1 Hk2]]. destruct (bq_rep_len _ _ Hr) as [_ H31]. unfold unmask.
  destruct (Z.lt_ge_cases (payload_len_ f) 0) as [Hneg|Hpos].
  - left. split; [|done]. rewrite (bq_peek_huge _ _ _ _ Hr); [done|lia|].
    unfold u64. replace (payload_len_ f) with (payload_len_ f + 2 ^ 64 + (-1) * 2 ^ 64) by lia.
    rewrite Z.mod_add, Z.mod_small by lia. lia.
  - right. rewrite u64_small by lia. rewrite (bq_peek_law _ _ _ _ Hr) by lia. cbn [mbind res_bind].
    set (p := slice s (payload_start_ f) (payload_len_ f)).
    assert (Hp : Zlen p = payload_len_ f) by (apply Zlen_slice; lia).
    assert (Hm : Zlen (mask_bytes (masking_key_ f) p) = payload_len_ f) by (rewrite mask_bytes_length; done).
    destruct (bq_poke_law _ _ (payload_start_ f) (mask_bytes (masking_key_ f) p) Hr) as (b & -> & Hb'); [lia|lia|].
    eexists _, _. split; [reflexivity|]. split; [|split; [|done]].
    + constructor; [exact Hb'| |by apply header_typed_buffer].
      apply bytes_ok_splice; [exact Hb|]. apply mask_bytes_ok; [done|done|apply bytes_ok_slice, Hb].
    + unfold splice. rewrite Hm, !Zlen_app, Zlen_take, Zlen_drop by lia. lia.
Qed.

Lemma append_typed f s data : frame_typed f s -> bytes_ok data -> data = [] \/ bq_room (fbuffer_ f) (Zlen data) ->
  exists b, (if 0 <? Zlen data then bq_append (fbuffer_ f) data else Ok (fbuffer_ f)) = Ok b /\
    frame_typed (set_fbuffer f b) (s ++ data).
Proof.
  intros [Hr Hb Ht] Hd Hroom. pose proof (proj2 (bytes_ok_app s data) (conj Hb Hd)) as Hbd.
  destruct (Z.ltb_spec 0 (Zlen data)) as [Hp|Hp].
  - destruct Hroom as [->|Hroom]; [zlen|]. destruct (bq_append_law _ _ _ Hr Hroom) as (b & E & Hb'). exists b. split; [done|].
    constructor; [done|done|by apply header_typed_buffer].
  - assert (data = []) as -> by (apply Zlen_0_nil; zlen). rewrite app_nil_r in *. exists (fbuffer_ f).
    split; [done|]. constructor; [done|done|by apply header_typed_buffer].
Qed.

(** The outcome of [Parse]: it may meet undefined behaviour, it never throws, and when it returns, it
    returns 0 or 1, a 1 leaves the received bytes as they are, a 0 may have unmasked them in place. *)
Definition parse_outcome (s : bytes) (r : res (WebSocketFrame Q * Z)) : Prop :=
  match r with
  | Ok (f', ret) => exists s', frame_typed f' s' /\ Zlen s' = Zlen s /\
      (ret = 1 /\ s' = s \/ ret = 0 /\ payload_start_ f' + payload_len_ f' <= Zlen s)
  | Throw _ => False
  | Undef => True
  end.

Lemma Parse_typed f s data : frame_typed f s -> bytes_ok data -> data = [] \/ bq_room (fbuffer_ f) (Zlen data) ->
  parse_outcome (s ++ data) (Parse f data).
Proof.
  intros Hf Hd Hroom. unfold Parse. destruct (append_typed f s data Hf Hd Hroom) as (b & -> & Hf1).
  cbn [mbind res_bind]. set (f1 := set_fbuffer f b) in *. clearbody f1. set (s1 := s ++ data) in *. clearbody s1.
  destruct (bq_rep_len _ _ (ft_buffer _ _ Hf1)) as [El H31]. rewrite El.
  destruct (Z.ltb_spec (Zlen s1) 2); [exists s1; auto|].
  assert (Hh : exists f2 go, (if header_ready_ f1 then Ok (f1, true) else parse_header f1) = Ok (f2, go) /\ frame_typed f2 s1).
  { destruct Hf1 as [Hr Hb Ht]. destruct (header_ready_ f1); [by eexists _, _|].
    destruct (header_typed_fields f1 s1 Hr Hb Ht) as (f2 & go & E & Eb & Ht2); [lia|].
    exists f2, go. split; [done|]. constructor; [rewrite Eb; done|done|done]. }
  destruct Hh as (f2 & go & -> & Hf2). cbn [mbind res_bind]. destruct go; cbn [negb]; [|exists s1; auto].
  unfold chk_int64. destruct (int64_range _); [|exact I]. cbn [mbind res_bind].
  destruct (bq_rep_len _ _ (ft_buffer _ _ Hf2)) as [El2 _]. rewrite El2, s32_small by zlen.
  destruct (Z.ltb_spec (Zlen s1) (payload_start_ f2 + payload_len_ f2)); [exists s1; auto|].
  destruct (mask_enable_ f2); [|exists s1; split; [done|]; split; [done|]; right; split; [done|cbn; lia]].
  destruct (unmask_typed f2 s1 Hf2) as [[-> _]|(f3 & s3 & E3 & Hf3 & Hl3 & _)]; [lia|exact I|]. rewrite E3.
  cbn [mbind res_bind]. exists s3. split; [done|]. split; [done|]. right. split; [done|].
  unfold unmask in E3. destruct (bq_peek _ _ _); [|done..]. cbn [mbind res_bind] in E3.
  destruct (bq_poke _ _ _); [|done..]. injection E3 as <-. cbn. lia.
Qed.
End types.

(** C26: the parser's fields keep their types.  A frame object whose header fields are within their
    C++ types and the wire format's sizes ([payload_start_] at most 14, a 64-bit length, a four-bit
    opcode, four bytes of key), given any bytes, is left so by [Parse] (whatever it returns), by
    [Consume] of a part of the buffer and by [Reset]; the buffer holds bytes throughout, and the payload
    that [GetPayloadData] hands out after a complete, not negative length is bytes of that length. *)
Theorem frame_fields_typed {Q : Type} {HQ : ByteQueue Q} {HQL : ByteQueueLaws Q} (f : WebSocketFrame Q) (s data : bytes) :
  frame_typed f s -> bytes_ok data -> (data = [] \/ bq_room (fbuffer_ f) (Zlen data)) ->
  parse_outcome (s ++ data) (Parse f data) /\
  frame_typed (frame_Reset f) s /\
  (forall n, 0 <= n <= Zlen s -> exists f', Consume f n = Ok f' /\ frame_typed f' (skipn (Z.to_nat n) s)) /\
  (0 <= payload_len_ f -> payload_start_ f + payload_len_ f <= Zlen s ->
    exists p, GetPayloadData f = Ok p /\ Zlen p = payload_len_ f /\ bytes_ok p).
Proof.
  intros Hf Hd Hroom. split; [by apply Parse_typed|]. destruct Hf as [Hr Hb Ht]. pose proof Ht as [Hst Hlen Hop [Hk1 Hk2]].
  destruct (bq_rep_len _ _ Hr) as [_ H31]. split_and!.
  - constructor; [exact Hr|exact Hb|]. constructor; cbn; lia || done.
  - intros n Hn. unfold Consume. rewrite s32_small by lia. destruct (bq_consume_law _ _ n Hr Hn) as (b & -> & Hb').
    eexists. split; [reflexivity|]. constructor; [exact Hb'|apply bytes_ok_skipn, Hb|by apply header_typed_buffer].
  - intros H0 Htot. unfold GetPayloadData. rewrite u64_small by lia. rewrite (bq_peek_law _ _ _ _ Hr) by lia.
    eexists. split; [reflexivity|]. split; [apply Zlen_slice; lia|apply bytes_ok_slice, Hb].
Qed.

Lemma frame_fields_typed_witness :
  let f := mkFrame (Q := bytes) [] 0 0 0 false false false [0; 0; 0; 0] in
  parse_outcome ([] ++ [129; 130; 1; 2; 3; 4; 105; 107]) (Parse f [129; 130; 1; 2; 3; 4; 105; 107]) /\
  frame_typed (frame_Reset f) [] /\
  (forall n, 0 <= n <= Zlen (@nil Z) -> exists f', Consume f n = Ok f' /\ frame_typed f' (skipn (Z.to_nat n) [])) /\
  (0 <= payload_len_ f -> payload_start_ f + payload_len_ f <= Zlen (@nil Z) ->
    exists p, GetPayloadData f = Ok p /\ Zlen p = payload_len_ f /\ bytes_ok p).
Proof.
  apply (frame_fields_typed (mkFrame (Q := bytes) [] 0 0 0 false false false [0; 0; 0; 0]) []).
  - constructor; [split; reflexivity|constructor|]. constructor; cbn; try lia.
    split; [reflexivity|]. repeat (apply Forall_cons; split; [unfold byte_ok; lia|]). constructor.
  - repeat (apply Forall_cons; split; [unfold byte_ok; lia|]). constructor.
  - right. reflexivity.
Defined.
