(* ===== verification/WsBase.v ===== *)
(** The frame loop shared by both WebSocket endpoints
    ([src/src/net/http/websocket/ws_session_base.cpp]), and the two implementations of its
    virtual operations ([websocket_session.cpp], [websocket_client.cpp]).

    [HandleFrame] parses every complete frame in the receive buffer, collects the payloads of
    a fragmented message and dispatches on the opcode of the final frame.  Effects on the
    outside are recorded in order in [out_].  The virtual calls are the class [WsEndpoint],
    with one instance per endpoint.  [random] is the sequence of results of
    [ByteCrypto::GetRandomUint(1, 0xff)]; [now] is the clock reading of the call.

    [tcp_] is the state of the TCP connection below.  [uv_write] takes everything on a handle
    that has not been closed; on one that has been closed it fails, [TcpSession::AsyncWrite]
    throws, and the exception leaves the frame loop; after [OnTcpClose] the handle is freed
    memory.  [TcpClient::Close] only stops the reading, its handle stays open.

    [&data_vec[0]] for an empty payload is taken as a pointer to no bytes. *)
From S2P Require Import Prelude Eff ByteStream ByteQueue WsFrame.

Inductive ws_action : Type :=
| TcpWrite (data : bytes)          (* TcpSession::AsyncWrite / TcpClient::Send *)
| TcpClose
| TcpRead                          (* AsyncRead *)
| OnReadText (text : bytes)        (* callbacks *)
| OnReadData (data : bytes)
| OnConnection
| OnClose (code : Z) (desc : bytes).

(** The TCP connection: [TcpSession::close_] is set from [HandleClosed] on, [TcpClient::is_connect_]
    is false from [HandleStopped] on. *)
Inductive tcp_handle : Type :=
| HandleOpen
| HandleStopped                    (* TcpClient::Close: uv_read_stop *)
| HandleClosed                     (* TcpSession::Close: uv_close *)
| HandleDeleted.                   (* OnTcpClose *)

(** The fields of [WebSocketSessionBase] other than the frame parser and the fragments,
    with the endpoint's callback pointer and the position in the random sequence. *)
Record Env : Type := mkEnv {
  last_op_code_ : Z;
  die_count_ : Z;
  last_recv_pong_ms_ : Z;
  last_send_ping_ms_ : Z;
  is_connected_ : bool;
  close_ : bool;
  has_cb_ : bool;
  rand_pos_ : nat;
  tcp_ : tcp_handle;
  out_ : list ws_action }.

Definition initial_env : Env := mkEnv 1 0 (-1) (-1) false false false 0 HandleOpen [].

Definition emit (e : Env) (l : list ws_action) : Env :=
  mkEnv (last_op_code_ e) (die_count_ e) (last_recv_pong_ms_ e) (last_send_ping_ms_ e)
    (is_connected_ e) (close_ e) (has_cb_ e) (rand_pos_ e) (tcp_ e) (out_ e ++ l).
Definition set_last_op (e : Env) (op : Z) : Env :=
  mkEnv op (die_count_ e) (last_recv_pong_ms_ e) (last_send_ping_ms_ e)
    (is_connected_ e) (close_ e) (has_cb_ e) (rand_pos_ e) (tcp_ e) (out_ e).
Definition set_die (e : Env) (n : Z) : Env :=
  mkEnv (last_op_code_ e) n (last_recv_pong_ms_ e) (last_send_ping_ms_ e)
    (is_connected_ e) (close_ e) (has_cb_ e) (rand_pos_ e) (tcp_ e) (out_ e).
Definition set_pong (e : Env) (t : Z) : Env :=
  mkEnv (last_op_code_ e) (die_count_ e) t (last_send_ping_ms_ e)
    (is_connected_ e) (close_ e) (has_cb_ e) (rand_pos_ e) (tcp_ e) (out_ e).
Definition set_ping (e : Env) (t : Z) : Env :=
  mkEnv (last_op_code_ e) (die_count_ e) (last_recv_pong_ms_ e) t
    (is_connected_ e) (close_ e) (has_cb_ e) (rand_pos_ e) (tcp_ e) (out_ e).
Definition set_connected (e : Env) (b : bool) : Env :=
  mkEnv (last_op_code_ e) (die_count_ e) (last_recv_pong_ms_ e) (last_send_ping_ms_ e)
    b (close_ e) (has_cb_ e) (rand_pos_ e) (tcp_ e) (out_ e).
Definition set_close (e : Env) : Env :=
  mkEnv (last_op_code_ e) (die_count_ e) (last_recv_pong_ms_ e) (last_send_ping_ms_ e)
    (is_connected_ e) true (has_cb_ e) (rand_pos_ e) (tcp_ e) (out_ e).
Definition set_rand (e : Env) (n : nat) : Env :=
  mkEnv (last_op_code_ e) (die_count_ e) (last_recv_pong_ms_ e) (last_send_ping_ms_ e)
    (is_connected_ e) (close_ e) (has_cb_ e) n (tcp_ e) (out_ e).
Definition set_cb (e : Env) : Env :=
  mkEnv (last_op_code_ e) (die_count_ e) (last_recv_pong_ms_ e) (last_send_ping_ms_ e)
    (is_connected_ e) (close_ e) true (rand_pos_ e) (tcp_ e) (out_ e).

Definition set_tcp (e : Env) (h : tcp_handle) : Env :=
  mkEnv (last_op_code_ e) (die_count_ e) (last_recv_pong_ms_ e) (last_send_ping_ms_ e)
    (is_connected_ e) (close_ e) (has_cb_ e) (rand_pos_ e) h (out_ e).

(** ** The TCP connection *)

Definition is_open (e : Env) : bool := match tcp_ e with HandleOpen => true | _ => false end.
Definition write_error : exn := StreamExn (bstr "uv_write error").

(** [AsyncWrite] of the TCP session, [Send] of the TCP client. *)
Definition AsyncWrite (data : bytes) : eff Env unit :=
  e ← get;
  match tcp_ e with
  | HandleOpen | HandleStopped => modify (fun e => emit e [TcpWrite data])
  | HandleClosed => raise write_error
  | HandleDeleted => stuck
  end.
(** [AsyncRead] of the TCP session. *)
Definition AsyncRead : eff Env unit :=
  e ← get; when (is_open e) (modify (fun e => emit e [TcpRead])).
(** [Close]: of the TCP session to [HandleClosed], of the TCP client to [HandleStopped]. *)
Definition tcp_Close (h : tcp_handle) : eff Env unit :=
  e ← get; when (is_open e) (modify (fun e => emit (set_tcp e h) [TcpClose])).

(** The virtual operations an endpoint provides to the base class. *)
Class WsEndpoint : Type := {
  ep_send : (nat -> Z) -> bytes -> Z -> eff Env unit;             (* SendWsFrame *)
  ep_close : (nat -> Z) -> bytes -> eff Env unit }.               (* HandleWsClose *)

(** [HandleWsData], the same in both endpoints. *)
Definition HandleWsData (e : Env) (data : bytes) (op_code : Z) : Env :=
  if has_cb_ e then
    if op_code =? WS_OP_TEXT_TYPE then emit e [OnReadText data]
    else if op_code =? WS_OP_BIN_TYPE then emit e [OnReadData data]
    else e
  else e.

Section base.
Context (random : nat -> Z).

(** The four draws of the masking key. *)
Definition draw_key : eff Env bytes := fun e =>
  let n := rand_pos_ e in
  Done (set_rand e (n + 4)) [random n; random (n + 1)%nat; random (n + 2)%nat; random (n + 3)%nat].

(** [WebSocketSession::SendWsFrame]: three writes. *)
Definition session_SendWsFrame (data : bytes) (op_code : Z) : eff Env unit :=
  key ← draw_key;
  AsyncWrite (ws_header (Zlen data) op_code) ;; AsyncWrite key ;; AsyncWrite (mask_bytes key data).
(** [WebSocketClient::SendWsFrame]: one buffer. *)
Definition client_SendWsFrame (data : bytes) (op_code : Z) : eff Env unit :=
  key ← draw_key; AsyncWrite (ws_encode data op_code key).

(** [SendClose(code, reason)] does not use [code]. *)
Definition SendClose (send : bytes -> Z -> eff Env unit) (code : Z) (reason : bytes) : eff Env unit :=
  send reason WS_OP_CLOSE_TYPE.

(** The validation common to both [HandleWsClose]. *)
Definition close_code (data : bytes) : Z := Z.lor (Z.shiftl (nth 0 data 0) 8) (nth 1 data 0).
Definition close_code_invalid (code : Z) : bool :=
  (code <? 1000) || (5000 <=? code) ||
  (code =? 1004) || (code =? 1005) || (code =? 1006) || (code =? 1015).
Definition close_reply (send : bytes -> Z -> eff Env unit) (data : bytes) : eff Env unit :=
  if Zlen data <=? 1 then SendClose send 1002 (bstr "Incomplete close code")
  else if close_code_invalid (close_code data) then SendClose send 1002 (bstr "Invalid close code")
  else send data WS_OP_CLOSE_TYPE.

Definition session_HandleWsClose (data : bytes) : eff Env unit :=
  e ← get;
  if close_ e then mret tt
  else close_reply session_SendWsFrame data ;; modify set_close ;; tcp_Close HandleClosed.
Definition client_HandleWsClose (data : bytes) : eff Env unit :=
  e ← get;
  if close_ e then mret tt
  else
    close_reply client_SendWsFrame data ;; modify set_close ;;
    modify (fun e => set_connected (emit e [OnClose 0 (bstr "close")]) false) ;;
    tcp_Close HandleStopped.
End base.

#[export] Instance session_endpoint : WsEndpoint := {
  ep_send := session_SendWsFrame; ep_close := session_HandleWsClose }.
Definition client_endpoint : WsEndpoint := {|
  ep_send := client_SendWsFrame; ep_close := client_HandleWsClose |}.

Section dispatch.
Context {EP : WsEndpoint} (random : nat -> Z) (now : Z).

Definition HandleWsPing (items : list bytes) : eff Env unit :=
  for_each items (fun item => ep_send random item WS_OP_PONG_TYPE).

(** [SendPingFrame]: the seconds as four bytes, network order. *)
Definition SendPingFrame (now_ms : Z) : eff Env unit :=
  let now_sec := u32 (Z.quot now_ms 1000) in
  let data := [byte_at now_sec 3; byte_at now_sec 2; byte_at now_sec 1; byte_at now_sec 0] in
  ep_send random data WS_OP_PING_TYPE.

(** What the user of a session or a client calls. *)
Definition AsyncWriteText (text : bytes) : eff Env unit := ep_send random text WS_OP_TEXT_TYPE.
Definition AsyncWriteData (data : bytes) : eff Env unit := ep_send random data WS_OP_BIN_TYPE.

(** The [switch] on the opcode of a final frame. *)
Definition dispatch (op : Z) (items : list bytes) : eff Env unit :=
  if op =? WS_OP_PING_TYPE then HandleWsPing items
  else if op =? WS_OP_PONG_TYPE then modify (fun e => set_pong e now)
  else if op =? WS_OP_CLOSE_TYPE then for_each items (ep_close random)
  else if op =? WS_OP_CONTINUE_TYPE then
    for_each items (fun item => modify (fun e => HandleWsData e item (last_op_code_ e)))
  else if (op =? WS_OP_TEXT_TYPE) || (op =? WS_OP_BIN_TYPE) then
    for_each items (fun item => modify (fun e => HandleWsData e item op))
  else mret tt.

Context `{HQ : ByteQueue Q}.

Record WsBase : Type := mkBase {
  frame_ : WebSocketFrame Q;
  recv_buffer_vec_ : list Q;
  env_ : Env }.

Definition set_base (w : WsBase) : eff WsBase unit := modify (fun _ => w).
Definition set_env (w : WsBase) (e : Env) : WsBase := mkBase (frame_ w) (recv_buffer_vec_ w) e.
Definition on_env {A} (m : eff Env A) : eff WsBase A := zoom env_ set_env m.
(** [recv_buffer_vec_.clear()]. *)
Definition clear_items : eff WsBase unit := modify (fun w => mkBase (frame_ w) [] (env_ w)).

Fixpoint map_res {A B} (f : A -> res B) (l : list A) : res (list B) :=
  match l with
  | [] => Ok []
  | x :: l' => y ← f x; ys ← map_res f l'; Ok (y :: ys)
  end.

Definition is_data_op (op : Z) : bool := (op =? WS_OP_TEXT_TYPE) || (op =? WS_OP_BIN_TYPE).

(** The [do ... while] loop; [data] is passed to the parser in the first round only.  An
    exception of a handler leaves the fragments where they are. *)
Fixpoint HandleFrame_loop (fuel : nat) (data : bytes) : eff WsBase Z :=
  match fuel with
  | O => stuck
  | S fuel' =>
      w ← get;
      pr ← lift (Parse (frame_ w) data);
      let '(f, ret) := pr in
      set_base (mkBase f (recv_buffer_vec_ w) (env_ w)) ;;
      if negb (ret =? 0) then mret ret
      else
        let e := if is_data_op (opcode_ f) then set_last_op (env_ w) (opcode_ f) else env_ w in
        set_base (mkBase f (recv_buffer_vec_ w) e) ;;
        if negb (PayloadIsReady f) then mret 1
        else
          size ← lift (chk_int64 (payload_len_ f + 1024));
          item ← lift (bq_new (u64 size));
          payload ← lift (GetPayloadData f);
          item ← lift (bq_append item payload);
          let vec := recv_buffer_vec_ w ++ [item] in
          n ← lift (chk_int64 (payload_start_ f + payload_len_ f));
          f ← lift (Consume f (u64 n));
          let f := frame_Reset f in
          set_base (mkBase f vec e) ;;
          (if negb (fin_ f) then mret tt
           else
             items ← lift (map_res bq_string vec);
             on_env (modify (fun e => set_die e 0) ;; dispatch (opcode_ f) items) ;;
             clear_items) ;;
          if 0 <? bq_len (fbuffer_ f) then HandleFrame_loop fuel' [] else mret 0
  end.

(** A frame takes at least two bytes, so one round per buffered byte is enough. *)
Definition HandleFrame (data : bytes) : eff WsBase Z :=
  w ← get; HandleFrame_loop (S (Z.to_nat (bq_len (fbuffer_ (frame_ w)) + Zlen data))) data.
End dispatch.
Arguments WsBase Q : clear implicits.

(** ** The reference: decode all frames, then fold the dispatcher over them *)

Fixpoint decode_all (fuel : nat) (s : bytes) : list ws_frame * bytes :=
  match fuel with
  | O => ([], s)
  | S fuel' =>
      match decode_one s with
      | None => ([], s)
      | Some (fr, s') => let '(frs, r) := decode_all fuel' s' in (fr :: frs, r)
      end
  end.
Definition decode_frames (s : bytes) : list ws_frame * bytes := decode_all (S (length s)) s.

(** Every header met while decoding announces a non-negative length below 2^29. *)
Fixpoint lengths_ok (fuel : nat) (s : bytes) : bool :=
  match fuel with
  | O => true
  | S fuel' =>
      match decode_header s with
      | None => true
      | Some i => (0 <=? fi_len i) && (fi_len i <? 2 ^ 29) &&
          match decode_one s with None => true | Some (_, s') => lengths_ok fuel' s' end
      end
  end.

(** The effect of one frame on the pending fragments and the session. *)
Definition on_frame {EP : WsEndpoint} (random : nat -> Z) (now : Z) (fr : ws_frame) :
  eff (list bytes * Env) unit := fun '(vec, e) =>
  let e := if is_data_op (wf_op fr) then set_last_op e (wf_op fr) else e in
  let vec := vec ++ [wf_payload fr] in
  if wf_fin fr then
    match dispatch random now (wf_op fr) vec (set_die e 0) with
    | Done e _ => Done ([], e) tt
    | Raised e x => Raised (vec, e) x
    | Stuck => Stuck
    end
  else Done (vec, e) tt.
(** The frames one after the other, until one of them throws. *)
Definition on_frames {EP : WsEndpoint} (random : nat -> Z) (now : Z) (frs : list ws_frame) :
  eff (list bytes * Env) unit := for_each frs (on_frame random now).

(** ** Refinement *)

Lemma decode_one_shrinks s fr s' : decode_one s = Some (fr, s') ->
  (forall i, decode_header s = Some i -> 0 <= fi_len i) -> (length s' + 2 <= length s)%nat.
Proof.
  unfold decode_one. destruct (decode_header s) as [i|] eqn:E; [|done]. cbn [mbind option_bind].
  intros H Hl. specialize (Hl i eq_refl). apply (decode_header_app s []) in E as (_ & Hst & _).
  destruct (Z.ltb_spec (Zlen s) (fi_start i + fi_len i)); [done|]. injection H as <- <-.
  rewrite length_skipn. unfold Zlen in *. lia.
Qed.

Section refinement.
Context {EP : WsEndpoint} (random : nat -> Z) (now : Z) `{HL : ByteQueueLaws Q}.
Implicit Types w : WsBase Q.

(** [s]: bytes received and not yet consumed; [vec]: payloads of the fragments so far. *)
Definition base_inv w (s : bytes) (vec : list bytes) : Prop :=
  frame_inv (frame_ w) s /\ Forall2 bq_rep (recv_buffer_vec_ w) vec.

Lemma map_res_strings (qs : list Q) vec : Forall2 bq_rep qs vec -> map_res bq_string qs = Ok vec.
Proof.
  induction 1 as [|q l qs vec Hq _ IH]; [done|]. cbn. rewrite (bq_string_law q l Hq). cbn.
  rewrite IH. done.
Qed.

Lemma frame_done_inv (f : WebSocketFrame Q) s : bq_rep (fbuffer_ f) s -> frame_inv (frame_Reset f) s.
Proof. intros Hr. split; [exact Hr|done]. Qed.

(** What the loop does with a frame that the parser has completed. *)
Lemma take_frame f s i : bq_rep (fbuffer_ f) s -> agrees f i ->
  0 <= fi_start i -> 0 <= fi_len i < 2 ^ 29 -> fi_start i <= 14 -> fi_start i + fi_len i <= Zlen s ->
  PayloadIsReady f = true /\
  exists item0 item f',
    (size ← chk_int64 (payload_len_ f + 1024); bq_new (u64 size)) = Ok item0 /\
    GetPayloadData f = Ok (slice s (fi_start i) (fi_len i)) /\
    bq_append item0 (slice s (fi_start i) (fi_len i)) = Ok item /\
    bq_rep item (slice s (fi_start i) (fi_len i)) /\
    (n ← chk_int64 (payload_start_ f + payload_len_ f); Consume f (u64 n)) = Ok f' /\
    bq_rep (fbuffer_ f') (skipn (Z.to_nat (fi_start i + fi_len i)) s) /\
    fin_ f' = fi_fin i /\ opcode_ f' = fi_op i.
Proof.
  intros Hr (Es & El & Ef & Eo & _) H0 H1 H14 H2. destruct (bq_rep_len _ _ Hr) as [Hlen Hb].
  assert (Hp : Zlen (slice s (fi_start i) (fi_len i)) = fi_len i).
  { unfold slice. rewrite Zlen_take, Zlen_drop by lia. lia. }
  destruct (bq_fill_law (fi_len i + 1024) (slice s (fi_start i) (fi_len i))) as (q0 & q1 & En & Ea & Hq).
  1-2: lia.
  destruct (bq_consume_law (fbuffer_ f) s (fi_start i + fi_len i) Hr) as (b & Ec & Hb'); [lia|].
  split.
  - unfold PayloadIsReady. rewrite Es, El, Hlen, !s32_small by zlen. apply Z.leb_le. lia.
  - exists q0, q1, (set_fbuffer f b).
    rewrite Es, El, !chk_int64_ok, !bind_Ok, !u64_small by lia.
    unfold GetPayloadData, Consume. rewrite Es, El, u64_small, s32_small by lia.
    rewrite (bq_peek_law _ _ _ _ Hr) by lia. rewrite Ec. split_and!; done.
Qed.

(** The outcome of the loop follows the outcome of the reference: [rest] is pending, [ret] returned. *)
Definition ends_as (rest : bytes) (ret : Z) (o : outc (WsBase Q) Z) (o' : outc (list bytes * Env) unit) : Prop :=
  match o' with
  | Done (vec, e) _ => exists w', o = Done w' ret /\ base_inv w' rest vec /\ env_ w' = e
  | Raised (vec, e) x => exists w' r, o = Raised w' x /\ base_inv w' r vec /\ env_ w' = e
  | Stuck => o = Stuck
  end.

(** The end of a round: dispatch a final frame, keep a fragment. *)
Definition end_of_round (f : WebSocketFrame Q) (qs : list Q) : eff (WsBase Q) unit :=
  if negb (fin_ f) then mret tt
  else
    items ← lift (map_res bq_string qs);
    on_env (modify (fun e => set_die e 0) ;; dispatch random now (opcode_ f) items) ;;
    clear_items.

Lemma finish_frame (f : WebSocketFrame Q) (qs : list Q) vec p e rest :
  frame_inv f rest -> Forall2 bq_rep qs (vec ++ [p]) ->
  let e1 := if is_data_op (opcode_ f) then set_last_op e (opcode_ f) else e in
  match on_frame random now (mkWsFrame (fin_ f) (opcode_ f) p) (vec, e), end_of_round f qs (mkBase f qs e1) with
  | Done (v, e2) _, Done w _ => base_inv w rest v /\ env_ w = e2
  | Raised (v, e2) x, Raised w y => x = y /\ base_inv w rest v /\ env_ w = e2
  | Stuck, Stuck => True
  | _, _ => False
  end.
Proof.
  intros Hf Hv e1. unfold on_frame, end_of_round. cbn [wf_op wf_fin wf_payload]. fold e1.
  destruct (fin_ f); cbn [negb]; [|by split; [split|]].
  rewrite (map_res_strings _ _ Hv). erewrite bind_done by reflexivity. unfold mbind, eff_bind, on_env, zoom.
  cbn [env_ modify]. destruct (dispatch random now (opcode_ f) (vec ++ [p]) (set_die e1 0)) as [e2 []|e2 x|].
  - by split; [split; [|constructor]|].
  - by split; [|split; [split|]].
  - done.
Qed.

(** A round that ends like the reference, and what follows it. *)
Lemma ends_bind r ret rest (m : eff (WsBase Q) unit) (k : eff (WsBase Q) Z) w0 (g h : eff (list bytes * Env) unit) st :
  match g st, m w0 with
  | Done (v, e) _, Done w _ => base_inv w rest v /\ env_ w = e
  | Raised (v, e) x, Raised w y => x = y /\ base_inv w rest v /\ env_ w = e
  | Stuck, Stuck => True
  | _, _ => False
  end ->
  (forall w v e, base_inv w rest v -> env_ w = e -> ends_as r ret (k w) (h (v, e))) ->
  ends_as r ret ((m ;; k) w0) ((g ;; h) st).
Proof.
  intros Hm Hk. unfold mbind, eff_bind. destruct (g st) as [[v e] ?|[v e] x|], (m w0) as [w ?|w y|]; try done.
  - destruct Hm as [Hi He]. by apply Hk.
  - destruct Hm as (-> & Hi & He). by exists w, rest.
Qed.

Lemma HandleFrame_loop_spec fuel : forall w s vec data,
  base_inv w s vec -> (data = [] \/ bq_room (fbuffer_ (frame_ w)) (Zlen data)) ->
  lengths_ok fuel (s ++ data) = true -> (length (s ++ data) < fuel)%nat ->
  let '(frs, r) := decode_all fuel (s ++ data) in
  ends_as r (if decide (r = [] /\ frs <> []) then 0 else 1)
    (HandleFrame_loop random now fuel data w) (on_frames random now frs (vec, env_ w)).
Proof.
  induction fuel as [|fuel IH]; intros w s vec data [Hf Hv] Hroom Hlok Hfuel; [lia|].
  destruct (parse_append _ _ _ Hf Hroom) as (f & Hf' & EP').
  cbn [HandleFrame_loop]. erewrite bind_done by reflexivity. rewrite EP'. set (s1 := s ++ data) in *. clearbody s1.
  pose proof (parse_body_spec f s1 Hf') as Hspec. cbn [decode_all lengths_ok] in *.
  unfold decode_one in *. destruct (decode_header s1) as [i|] eqn:Ei; cbn [mbind option_bind] in *.
  2: { destruct Hspec as (f1 & -> & Hf1). rewrite decide_False by (intros [_ []]; done).
       eexists. split_and!; [reflexivity|by split|done]. }
  rewrite !andb_true_iff, Z.leb_le, Z.ltb_lt in Hlok. destruct Hlok as ((Hl0 & Hl29) & Hlok).
  destruct (decode_header_app s1 [] i Ei) as (_ & Hst & H14).
  specialize (Hspec ltac:(lia)). destruct (Z.ltb_spec (Zlen s1) (fi_start i + fi_len i)) as [Hinc|Hcomp].
  { destruct Hspec as (f1 & -> & Hf1). rewrite decide_False by (intros [_ []]; done).
       eexists. split_and!; [reflexivity|by split|done]. }
  destruct Hspec as (f1 & s2 & -> & Hr & Hlen & Ha & Hpay & Hskip). erewrite bind_done by reflexivity.
  cbv beta iota. change (0 =? 0) with true. cbn [negb]. erewrite bind_done by reflexivity. erewrite bind_done by reflexivity.
  destruct (take_frame f1 s2 i Hr Ha) as (Hready & q0 & q1 & f2 & En & Ep & Eap & Hq1 & Ec & Hr2 & Hfin & Hop);
    [lia..|].
  rewrite Hready. cbn [negb]. pose proof Ha as (_ & _ & Hfin1 & Hop1 & _).
  destruct (chk_int64 (payload_len_ f1 + 1024)) as [size| |]; try discriminate. cbn [mbind res_bind] in En.
  destruct (chk_int64 (payload_start_ f1 + payload_len_ f1)) as [n| |]; try discriminate. cbn [mbind res_bind] in Ec.
  erewrite bind_done by reflexivity. rewrite En. erewrite bind_done by reflexivity. rewrite Ep. erewrite bind_done by reflexivity.
  rewrite Eap. erewrite bind_done by reflexivity. erewrite bind_done by reflexivity. rewrite Ec.
  erewrite bind_done by reflexivity. erewrite bind_done by reflexivity.
  rewrite Hpay in Hq1. rewrite Hskip in Hr2. set (rest := skipn _ s1) in *.
  assert (Hv2 : Forall2 bq_rep (recv_buffer_vec_ w ++ [q1]) (vec ++ [payload_of i s1])).
  { apply Forall2_app; [done|]. repeat constructor. done. }
  assert (Hrl : (length rest + 2 <= length s1)%nat).
  { unfold rest. rewrite length_skipn. unfold Zlen in *. lia. }
  pose proof (finish_frame (frame_Reset f2) (recv_buffer_vec_ w ++ [q1]) vec (payload_of i s1) (env_ w) rest
    (frame_done_inv _ _ Hr2) Hv2) as Hend.
  change (opcode_ (frame_Reset f2)) with (opcode_ f2) in *. change (fin_ (frame_Reset f2)) with (fin_ f2) in *.
  change (fbuffer_ (frame_Reset f2)) with (fbuffer_ f2). rewrite Hfin, Hop in Hend. rewrite Hop1.
  destruct (bq_rep_len _ _ Hr2) as [-> _]. destruct (decode_all fuel rest) as [frs r] eqn:Ed.
  apply (ends_bind r _ rest (end_of_round (frame_Reset f2) (recv_buffer_vec_ w ++ [q1])) _ _ _ _ _ Hend).
  intros w1 v e2 Hinv1 He1.
  destruct (Z.ltb_spec 0 (Zlen rest)) as [Hpos|Hzero].
  - specialize (IH w1 rest v [] Hinv1 (or_introl eq_refl)). rewrite app_nil_r in IH.
    specialize (IH Hlok ltac:(lia)). rewrite Ed, He1 in IH.
    assert (Hnf : r = [] -> frs <> []).
    { intros -> ->. destruct fuel; cbn in Ed; [injection Ed as Ed; rewrite Ed in Hpos; zlen|].
      destruct (decode_one rest) as [[? ?]|]; [destruct (decode_all _ _); done|].
      injection Ed as Ed; rewrite Ed in Hpos; zlen. }
    replace (if decide (r = [] /\ _ :: frs <> []) then 0 else 1) with (if decide (r = [] /\ frs <> []) then 0 else 1); [exact IH|].
    destruct (decide (r = [] /\ frs <> [])) as [[-> _]|Hn]; [by rewrite decide_True|].
    rewrite decide_False; [done|]. intros [-> _]. apply Hn. split; [done|]. by apply Hnf.
  - assert (Hrest : rest = []) by (apply Zlen_0_nil; zlen). rewrite Hrest in *.
    assert (decode_all fuel [] = ([], [])) as E0 by (destruct fuel; done).
    rewrite E0 in Ed. injection Ed as <- <-. exists w1. rewrite decide_True by done. done.
Qed.
End refinement.

(** ** Theorems *)

Lemma decode_all_fuel n m s : (length s < n)%nat -> (length s < m)%nat ->
  lengths_ok n s = true -> decode_all n s = decode_all m s /\ lengths_ok m s = true.
Proof.
  revert m s; induction n as [|n IH]; intros m s Hn Hm Hl; [lia|]. destruct m as [|m]; [lia|].
  cbn [decode_all lengths_ok] in *. destruct (decode_header s) as [i|] eqn:Ei.
  - rewrite !andb_true_iff, Z.leb_le, Z.ltb_lt in Hl. destruct Hl as ((H0 & H29) & Hl).
    destruct (decode_one s) as [[fr s']|] eqn:Ed.
    + assert ((length s' + 2 <= length s)%nat).
      { eapply decode_one_shrinks; [done|]. intros j Hj. rewrite Ei in Hj. injection Hj as <-. done. }
      destruct (IH m s') as [-> ->]; [lia|lia|done|]. split; [done|].
      rewrite !andb_true_iff, Z.leb_le, Z.ltb_lt. done.
    + split; [done|]. rewrite !andb_true_iff, Z.leb_le, Z.ltb_lt. done.
  - unfold decode_one. rewrite Ei. done.
Qed.

(** All announced lengths are acceptable. *)
Definition stream_ok (s : bytes) : bool := lengths_ok (S (length s)) s.

Lemma stream_ok_unfold s : stream_ok s =
  match decode_header s with
  | None => true
  | Some i => (0 <=? fi_len i) && (fi_len i <? 2 ^ 29) &&
      match decode_one s with None => true | Some (_, s') => lengths_ok (length s) s' end
  end.
Proof. reflexivity. Qed.
Lemma decode_frames_unfold s : decode_frames s =
  match decode_one s with
  | None => ([], s)
  | Some (fr, s') => let '(frs, r) := decode_all (length s) s' in (fr :: frs, r)
  end.
Proof. reflexivity. Qed.

Lemma decode_frames_cons s fr s' : stream_ok s = true -> decode_one s = Some (fr, s') ->
  decode_frames s = (fr :: fst (decode_frames s'), snd (decode_frames s')) /\ stream_ok s' = true.
Proof.
  intros Hl E. rewrite stream_ok_unfold in Hl. rewrite (decode_frames_unfold s), E in *.
  destruct (decode_header s) as [i|] eqn:Ei; [|unfold decode_one in E; rewrite Ei in E; done].
  rewrite !andb_true_iff, Z.leb_le, Z.ltb_lt in Hl. destruct Hl as ((H0 & H29) & Hl).
  assert ((length s' + 2 <= length s)%nat).
  { eapply decode_one_shrinks; [done|]. intros j Hj. rewrite Ei in Hj. injection Hj as <-. done. }
  destruct (decode_all_fuel (length s) (S (length s')) s') as [-> H']; [lia|lia|done|].
  fold (decode_frames s'). destruct (decode_frames s'); done.
Qed.

Lemma decode_frames_none s : decode_one s = None -> decode_frames s = ([], s).
Proof. intros E. unfold decode_frames. cbn [decode_all]. rewrite E. done. Qed.

(** Decoding is incremental: a frame completed by the first bytes is not changed by later
    ones. *)
Lemma decode_one_app s t fr s' : decode_one s = Some (fr, s') ->
  (forall i, decode_header s = Some i -> 0 <= fi_len i) -> decode_one (s ++ t) = Some (fr, s' ++ t).
Proof.
  unfold decode_one. destruct (decode_header s) as [i|] eqn:E; [|done]. intros H Hl.
  specialize (Hl i eq_refl). destruct (decode_header_app s t i E) as (-> & Hst & H14).
  cbn [mbind option_bind] in *. destruct (Z.ltb_spec (Zlen s) (fi_start i + fi_len i)); [done|].
  injection H as <- <-. rewrite (proj2 (Z.ltb_ge _ _)) by zlen.
  assert (Ep : payload_of i (s ++ t) = payload_of i s).
  { unfold payload_of. rewrite slice_prefix by lia. done. }
  rewrite Ep, skipn_app. replace (Z.to_nat _ - length s)%nat with 0%nat by (unfold Zlen in *; lia). done.
Qed.

Lemma decode_frames_app s t : stream_ok (s ++ t) = true ->
  stream_ok s = true /\ stream_ok (snd (decode_frames s) ++ t) = true /\
  decode_frames (s ++ t) =
    (fst (decode_frames s) ++ fst (decode_frames (snd (decode_frames s) ++ t)),
     snd (decode_frames (snd (decode_frames s) ++ t))).
Proof.
  remember (length s) as n eqn:En. revert s En; induction n as [n IH] using lt_wf_ind; intros s -> Hl.
  destruct (decode_header s) as [i|] eqn:Ei.
  2: { assert (decode_one s = None) as E by (unfold decode_one; rewrite Ei; done).
       rewrite (decode_frames_none s E). cbn [fst snd app]. rewrite <- surjective_pairing.
       split_and!; [rewrite stream_ok_unfold, Ei; done|done|done]. }
  destruct (decode_header_app s t i Ei) as (Ei' & _).
  assert (Hlen : 0 <= fi_len i < 2 ^ 29).
  { rewrite stream_ok_unfold, Ei', !andb_true_iff, Z.leb_le, Z.ltb_lt in Hl. tauto. }
  destruct (decode_one s) as [[fr s']|] eqn:Ed.
  - assert (Hd : forall j, decode_header s = Some j -> 0 <= fi_len j) by (intros j Hj; rewrite Ei in Hj; injection Hj as <-; lia).
    pose proof (decode_one_app s t fr s' Ed Hd) as Ed'. pose proof (decode_one_shrinks s fr s' Ed Hd).
    destruct (decode_frames_cons _ _ _ Hl Ed') as [Hc Hl'].
    destruct (IH (length s') ltac:(lia) s' eq_refl Hl') as (H1 & H2 & H3).
    assert (Hs : stream_ok s = true).
    { rewrite stream_ok_unfold, Ei, Ed, !andb_true_iff, Z.leb_le, Z.ltb_lt.
      split; [lia|]. eapply (decode_all_fuel (S (length s'))); [lia|lia|exact H1]. }
    destruct (decode_frames_cons _ _ _ Hs Ed) as [Hc' _].
    rewrite Hc, Hc', H3. cbn [fst snd app]. split_and!; done.
  - rewrite (decode_frames_none s Ed). cbn [fst snd app]. rewrite <- surjective_pairing.
    split_and!; [|done|done]. rewrite stream_ok_unfold, Ei, Ed, !andb_true_iff, Z.leb_le, Z.ltb_lt. lia.
Qed.

(** Frames that follow complete frames. *)
Lemma stream_ok_app frs : forall s t, stream_ok s = true -> decode_frames s = (frs, []) -> stream_ok t = true ->
  stream_ok (s ++ t) = true /\ decode_frames (s ++ t) = (frs ++ fst (decode_frames t), snd (decode_frames t)).
Proof.
  induction frs as [|fr frs IH]; intros s t Hs Hd Ht; destruct (decode_one s) as [[fr' s']|] eqn:E.
  1,3: destruct (decode_frames_cons _ _ _ Hs E) as [Hc Hs']; rewrite Hc in Hd.
  - done.
  - injection Hd as -> Hf Hr. destruct (decode_header s) as [i|] eqn:Ei; [|unfold decode_one in E; rewrite Ei in E; done].
    destruct (decode_header_app s t i Ei) as (Ei' & _).
    assert (Hlen : 0 <= fi_len i < 2 ^ 29) by (rewrite stream_ok_unfold, Ei, !andb_true_iff, Z.leb_le, Z.ltb_lt in Hs; tauto).
    assert (Hj : forall j, decode_header s = Some j -> 0 <= fi_len j) by (intros j Hj; rewrite Ei in Hj; injection Hj as <-; lia).
    pose proof (decode_one_app s t fr s' E Hj) as E'. pose proof (decode_one_shrinks s fr s' E Hj).
    destruct (IH s' t Hs') as [H1 H2]; [by rewrite (surjective_pairing (decode_frames s')), Hf, Hr|done|].
    assert (Hst : stream_ok (s ++ t) = true).
    { rewrite stream_ok_unfold, Ei', E', !andb_true_iff, Z.leb_le, Z.ltb_lt. split; [lia|].
      eapply (decode_all_fuel (S (length (s' ++ t)))); [lia|rewrite !length_app; lia|exact H1]. }
    split; [done|]. destruct (decode_frames_cons _ _ _ Hst E') as [-> _]. by rewrite H2.
  - rewrite (decode_frames_none s E) in Hd. injection Hd as ->. cbn [app]. by rewrite <- surjective_pairing.
  - rewrite (decode_frames_none s E) in Hd. done.
Qed.

Section theorems.
Context {EP : WsEndpoint} (random : nat -> Z) (now : Z) `{HL : ByteQueueLaws Q}.

Lemma HandleFrame_spec (w : WsBase Q) s vec data :
  base_inv w s vec -> (data = [] \/ bq_room (fbuffer_ (frame_ w)) (Zlen data)) ->
  stream_ok (s ++ data) = true ->
  let '(frs, r) := decode_frames (s ++ data) in
  ends_as r (if decide (r = [] /\ frs <> []) then 0 else 1)
    (HandleFrame random now data w) (on_frames random now frs (vec, env_ w)).
Proof.
  intros Hinv Hroom Hok. unfold HandleFrame, decode_frames, stream_ok in *. erewrite bind_done by reflexivity.
  destruct (bq_rep_len _ _ (proj1 (proj1 Hinv))) as [-> _].
  replace (Z.to_nat (Zlen s + Zlen data)) with (length (s ++ data)) by (rewrite length_app; unfold Zlen; lia).
  apply (HandleFrame_loop_spec random now _ w s vec data Hinv Hroom Hok). lia.
Qed.


(** The reads of a connection, one call per chunk: [TcpSession::OnRead] returns at once when
    [close_] is set, [OnUVClientRead] when [is_connect_] is not. *)
Definition receive (c : bytes) : eff (WsBase Q) unit :=
  w ← get; if is_open (env_ w) then HandleFrame random now c ;; mret tt else mret tt.
Definition feed (chunks : list bytes) : eff (WsBase Q) unit := for_each chunks receive.

(** The buffer of the frame after any run of the loop: what was given is all that was used up. *)
Section slack.
Context {HS : ByteQueueSized Q}.

Lemma parse_header_buffer (f f' : WebSocketFrame Q) go : parse_header f = Ok (f', go) -> fbuffer_ f' = fbuffer_ f.
Proof.
  unfold parse_header. intros HE. destruct (bq_peek _ 0 2) as [h| |]; [|done..]. cbn [mbind res_bind] in HE.
  match type of HE with mbind _ ?m = _ => assert (Hm : forall f1 b1, m = Ok (f1, b1) -> fbuffer_ f1 = fbuffer_ f);
    [|destruct m as [[f1 b1]| |]; [|done..]; specialize (Hm f1 b1 eq_refl)] end.
  { intros f1 b1. cbn [fbuffer_ payload_start_ header_ready_ opcode_ mask_enable_ fin_ masking_key_].
    repeat case_match; try (intros [= <- <-]; done); intros E;
      match type of E with mbind _ ?m = _ => destruct m; [|done..] end; injection E as <- <-; done. }
  cbn [mbind res_bind] in HE. destruct b1; cbn [negb] in HE; [|injection HE as <- <-; done].
  repeat case_match; try (injection HE as <- <-; done);
    match type of HE with mbind _ ?m = _ => destruct m; [|done..] end; injection HE as <- <-; done.
Qed.

(** [P q k]: [k] more bytes fit, by one measure or the other. *)
Section room.
Context (P : Q -> Z -> Prop)
  (P_append : forall q x q' k, bq_append q x = Ok q' -> P q k -> Zlen x <= k -> P q' (k - Zlen x))
  (P_consume : forall q n q' k, bq_consume q n = Ok q' -> P q k -> P q' k)
  (P_poke : forall q off x q' k, bq_poke q off x = Ok q' -> P q k -> P q' k).

Lemma Parse_room (f f' : WebSocketFrame Q) data r k : Parse f data = Ok (f', r) -> P (fbuffer_ f) k ->
  Zlen data <= k -> P (fbuffer_ f') (k - Zlen data).
Proof.
  unfold Parse. intros HE Hk Hd.
  match type of HE with mbind _ ?m = _ => assert (Hm : forall b, m = Ok b -> P b (k - Zlen data)) end.
  { intros b. destruct (Z.ltb_spec 0 (Zlen data)) as [Hp|Hp].
    - intros E. eapply P_append; [exact E|exact Hk|exact Hd].
    - intros [= <-]. replace (Zlen data) with 0 by zlen. rewrite Z.sub_0_r. exact Hk. }
  match type of HE with mbind _ ?m = _ => destruct m as [b| |]; [|done..] end. specialize (Hm b eq_refl).
  cbn [mbind res_bind] in HE. set (f0 := set_fbuffer f b) in *. change (P (fbuffer_ f0) (k - Zlen data)) in Hm.
  clearbody f0. destruct (_ <? 2); [injection HE as <- _; done|].
  match type of HE with mbind _ ?m = _ => assert (Hh : forall f1 go, m = Ok (f1, go) -> fbuffer_ f1 = fbuffer_ f0);
    [|destruct m as [[f1 go]| |]; [|done..]; specialize (Hh f1 go eq_refl)] end.
  { intros f1 go. destruct (header_ready_ f0); [intros [= <- _]; done|apply parse_header_buffer]. }
  rewrite <- Hh in Hm. cbn [mbind res_bind] in HE. destruct go; cbn [negb] in HE; [|injection HE as <- _; done].
  destruct (chk_int64 _); [|done..]. cbn [mbind res_bind] in HE. destruct (_ <? _); [injection HE as <- _; done|].
  destruct (mask_enable_ f1); [|injection HE as <- _; done]. unfold unmask in HE. destruct (bq_peek _ _ _); [|done..].
  cbn [mbind res_bind] in HE. destruct (bq_poke _ _ _) as [b2| |] eqn:Ep; [|done..]. injection HE as <- _.
  eapply P_poke; [exact Ep|exact Hm].
Qed.

(** The virtual calls do not touch the parser. *)
Lemma on_env_frame {A} (m : eff Env A) (w w' : WsBase Q) a : on_env m w = Done w' a -> frame_ w' = frame_ w.
Proof. unfold on_env, zoom. destruct (m (env_ w)); [|done..]. by intros [= <- _]. Qed.

Lemma HandleFrame_loop_room fuel : forall (w w' : WsBase Q) data ret k,
  HandleFrame_loop random now fuel data w = Done w' ret -> P (fbuffer_ (frame_ w)) k -> Zlen data <= k ->
  P (fbuffer_ (frame_ w')) (k - Zlen data).
Proof.
  induction fuel as [|fuel IH]; intros w w' data ret k HE Hk Hd; [done|]. cbn [HandleFrame_loop] in HE.
  erewrite bind_done in HE by reflexivity. apply bind_inv in HE as (w1 & [f r] & HE1 & HE). apply lift_inv in HE1 as [Ep ->].
  pose proof (Parse_room _ _ _ _ _ Ep Hk Hd) as Hf. erewrite bind_done in HE by reflexivity.
  destruct (negb _); [injection HE as <- _; done|]. erewrite bind_done in HE by reflexivity.
  destruct (negb _); [injection HE as <- _; done|].
  do 5 (apply bind_inv in HE as (? & ? & HE1 & HE); apply lift_inv in HE1 as [_ ->]).
  apply bind_inv in HE as (? & f2 & HE1 & HE); apply lift_inv in HE1 as [Ec ->].
  unfold Consume in Ec. destruct (bq_consume _ _) as [b| |] eqn:Eb; [|done..]. injection Ec as <-.
  pose proof (P_consume _ _ _ _ Eb Hf) as Hb. erewrite bind_done in HE by reflexivity.
  apply bind_inv in HE as (w1 & [] & HE1 & HE). assert (Hw1 : fbuffer_ (frame_ w1) = b).
  { destruct (negb _); [injection HE1 as <-; done|]. apply bind_inv in HE1 as (? & items & HE1 & HE2).
    apply lift_inv in HE1 as [_ ->]. apply bind_inv in HE2 as (w2 & [] & HE1 & HE2). injection HE2 as <-.
    apply on_env_frame in HE1. cbn [frame_]. by rewrite HE1. }
  destruct (_ <? _); [|injection HE as <- _; by rewrite Hw1]. rewrite <- Hw1 in Hb.
  apply IH with (k := k - Zlen data) in HE; [|exact Hb|rewrite Zlen_nil; lia]. by rewrite Zlen_nil, Z.sub_0_r in HE.
Qed.
End room.

(** After a read. *)
Lemma HandleFrame_slack (w w' : WsBase Q) data ret k :
  HandleFrame random now data w = Done w' ret -> bq_slack (fbuffer_ (frame_ w)) k -> Zlen data <= k ->
  bq_slack (fbuffer_ (frame_ w')) (k - Zlen data).
Proof.
  unfold HandleFrame. intros E. erewrite bind_done in E by reflexivity. revert E.
  by apply (HandleFrame_loop_room bq_slack bq_slack_append bq_slack_consume bq_slack_poke).
Qed.
Lemma HandleFrame_elastic c (w w' : WsBase Q) data ret k :
  HandleFrame random now data w = Done w' ret -> bq_elastic c (fbuffer_ (frame_ w)) k -> Zlen data <= k ->
  bq_elastic c (fbuffer_ (frame_ w')) (k - Zlen data).
Proof.
  unfold HandleFrame. intros E. erewrite bind_done in E by reflexivity. revert E.
  by apply (HandleFrame_loop_room (bq_elastic c) (bq_elastic_append c) (bq_elastic_consume c) (bq_elastic_poke c)).
Qed.

Lemma feed_closed chunks (w : WsBase Q) : is_open (env_ w) = false -> feed chunks w = Done w tt.
Proof.
  intros Hc. unfold feed. induction chunks as [|c chunks IH]; [done|]. cbn [for_each].
  erewrite bind_done; [exact IH|]. unfold receive. erewrite bind_done by reflexivity. by rewrite Hc.
Qed.
Lemma receive_open c (w : WsBase Q) : is_open (env_ w) = true -> receive c w = (HandleFrame random now c ;; mret tt) w.
Proof. intros Ho. unfold receive. erewrite bind_done by reflexivity. by rewrite Ho. Qed.

(** After all complete frames have been taken, none is left. *)
Lemma decode_rest s : stream_ok s = true -> decode_one (snd (decode_frames s)) = None.
Proof.
  intros Hs. destruct (decode_frames_app s [] ltac:(by rewrite app_nil_r)) as (_ & Hr & Ef).
  rewrite !app_nil_r in *. destruct (decode_one (snd (decode_frames s))) as [[fr r2]|] eqn:Ed; [|done]. exfalso.
  destruct (decode_frames_cons _ _ _ Hr Ed) as [Hc _]. rewrite Hc in Ef. apply (f_equal (fun x => length (fst x))) in Ef.
  cbn [fst] in Ef. rewrite length_app in Ef. cbn in Ef. lia.
Qed.

(** How the reads [chunks] end, of which the first [n] are taken. *)
Definition feed_ends (w : WsBase Q) s vec chunks (n : nat) : Prop :=
  (n <= length chunks)%nat /\
  (forall m, (m < n)%nat -> exists wm, feed (firstn m chunks) w = Done wm tt /\ is_open (env_ wm) = true) /\
  let '(frs, r) := decode_frames (s ++ concat (firstn n chunks)) in
  match on_frames random now frs (vec, env_ w) with
  | Done (v, e) _ => exists w', feed chunks w = Done w' tt /\ base_inv w' r v /\ env_ w' = e /\
      ((n < length chunks)%nat -> is_open e = false)
  | Raised (v, e) x => exists w', feed chunks w = Raised w' x /\ env_ w' = e
  | Stuck => feed chunks w = Stuck
  end.

(** The first read, and then the rest. *)
Lemma feed_ends_cons (w w1 : WsBase Q) s vec c chunks n frs1 r1 v1 ret :
  is_open (env_ w) = true -> stream_ok (s ++ c ++ concat chunks) = true ->
  decode_frames (s ++ c) = (frs1, r1) -> on_frames random now frs1 (vec, env_ w) = Done (v1, env_ w1) tt ->
  HandleFrame random now c w = Done w1 ret -> feed_ends w1 r1 v1 chunks n -> feed_ends w s vec (c :: chunks) (S n).
Proof.
  intros Ho Hok E1 Ef Ew (Hn & Hm & Hend).
  assert (Efeed : forall l, feed (c :: l) w = feed l w1).
  { intros l. unfold feed. cbn [for_each]. erewrite bind_done; [done|]. rewrite receive_open by done. by rewrite (bind_done _ _ _ _ _ Ew). }
  split; [cbn; lia|]. split.
  { intros [|m] Hlt; [by exists w|]. cbn [firstn]. rewrite Efeed. apply Hm. lia. }
  cbn [firstn concat]. assert (Hok' : stream_ok ((s ++ c) ++ concat (firstn n chunks)) = true).
  { rewrite <- (firstn_skipn n chunks), concat_app, !app_assoc in Hok. by apply decode_frames_app in Hok as [Hok _]. }
  destruct (decode_frames_app _ _ Hok') as (_ & _ & E). rewrite app_assoc, E, E1. cbn [fst snd].
  destruct (decode_frames (r1 ++ concat (firstn n chunks))) as [frs2 r2]. cbn [fst snd].
  unfold on_frames in *. rewrite for_each_app, (bind_done _ _ _ _ _ Ef), Efeed.
  destruct (for_each frs2 _ _) as [[v e] []|[v e] x|]; [|done..].
  destruct Hend as (w' & H1 & H2 & H3 & H4). exists w'. split_and!; try done. intros Hlt. apply H4. cbn in Hlt. lia.
Qed.

Lemma feed_spec chunks : forall (w : WsBase Q) s vec,
  base_inv w s vec -> stream_ok (s ++ concat chunks) = true -> bq_slack (fbuffer_ (frame_ w)) (Zlen (concat chunks)) ->
  decode_one s = None -> exists n, feed_ends w s vec chunks n.
Proof.
  induction chunks as [|c chunks IH]; intros w s vec Hinv Hok Hlen Hd.
  { exists 0%nat. split; [done|]. split; [lia|]. cbn [firstn concat]. rewrite app_nil_r, (decode_frames_none s Hd).
    exists w. split_and!; [done..|cbn; lia]. }
  destruct (is_open (env_ w)) eqn:Ho.
  2: { exists 0%nat. split; [lia|]. split; [lia|]. cbn [firstn concat]. rewrite app_nil_r, (decode_frames_none s Hd).
       exists w. by rewrite (feed_closed _ _ Ho). }
  cbn [concat] in *. pose proof Hok as Hok'. rewrite app_assoc in Hok'. destruct (decode_frames_app _ _ Hok') as (H1 & H2 & _).
  assert (Hroom : bq_room (fbuffer_ (frame_ w)) (Zlen c)).
  { rewrite Zlen_app in Hlen. eapply bq_slack_room; [exact Hlen|apply Hinv|]. zlen. }
  pose proof (HandleFrame_spec w s vec c Hinv (or_intror Hroom) H1) as Hs.
  pose proof (decode_rest _ H1) as Hn. destruct (decode_frames (s ++ c)) as [frs1 r1] eqn:E1. cbn [snd] in *.
  assert (Efirst : firstn 1 (c :: chunks) = [c]) by done.
  destruct (on_frames random now frs1 (vec, env_ w)) as [[v1 e1] []|[v1 e1] x|] eqn:Ef; cbn [ends_as] in Hs.
  - destruct Hs as (w1 & Ew & Hi1 & He1). subst e1.
    assert (Hlen1 : bq_slack (fbuffer_ (frame_ w1)) (Zlen (concat chunks))).
    { rewrite Zlen_app in Hlen. replace (Zlen (concat chunks)) with (Zlen c + Zlen (concat chunks) - Zlen c) by lia.
      eapply HandleFrame_slack; [exact Ew|exact Hlen|]. pose proof (Zlen_nonneg (concat chunks)). lia. }
    destruct (IH w1 r1 v1 Hi1 H2 Hlen1 Hn) as [n Hend]. exists (S n). by eapply feed_ends_cons.
  - destruct Hs as (w1 & r & Ew & _ & He1). exists 1%nat. split; [cbn; lia|]. split.
    { intros m Hm. replace m with 0%nat by lia. by exists w. }
    rewrite Efirst. cbn [concat]. rewrite app_nil_r, E1, Ef. exists w1. split; [|done].
    unfold feed. cbn [for_each]. apply bind_raised. rewrite receive_open by done. by apply bind_raised.
  - exists 1%nat. split; [cbn; lia|]. split.
    { intros m Hm. replace m with 0%nat by lia. by exists w. }
    rewrite Efirst. cbn [concat]. rewrite app_nil_r, E1, Ef.
    unfold feed. cbn [for_each]. unfold mbind, eff_bind. rewrite receive_open by done. unfold mbind, eff_bind. by rewrite Hs.
Qed.

End slack.
End theorems.

(** ** Sending and receiving *)

Definition tcp_bytes (l : list ws_action) : bytes :=
  concat (map (fun a => match a with TcpWrite d => d | _ => [] end) l).

Lemma tcp_bytes_app l k : tcp_bytes (l ++ k) = tcp_bytes l ++ tcp_bytes k.
Proof. unfold tcp_bytes. rewrite map_app, concat_app. done. Qed.

(** What every endpoint's [SendWsFrame] promises on an open connection: one frame on the wire,
    nothing else. *)
Class WsEndpointLaws (EP : WsEndpoint) : Prop := {
  ep_send_law : forall random e d op, is_open e = true -> exists e' key,
    ep_send random d op e = Done e' tt /\ is_open e' = true /\ Zlen key = 4 /\
    tcp_bytes (out_ e') = tcp_bytes (out_ e) ++ ws_encode d op key;
  (* only the writes and the position in the random sequence *)
  ep_send_rest : forall random e d op, is_open e = true -> exists l n,
    ep_send random d op e = Done (emit (set_rand e n) l) tt /\ Forall (fun a => exists x, a = TcpWrite x) l }.

Lemma AsyncWrite_open d e : is_open e = true -> AsyncWrite d e = Done (emit e [TcpWrite d]) tt.
Proof. unfold is_open. intros Ho. unfold AsyncWrite. erewrite bind_done by reflexivity. by destruct (tcp_ e). Qed.
Lemma emit_emit e l k : emit (emit e l) k = emit e (l ++ k).
Proof. unfold emit. destruct e; cbn. rewrite app_assoc. done. Qed.
Lemma emit_nil e : emit e [] = e.
Proof. unfold emit. rewrite app_nil_r. destruct e; done. Qed.

Lemma session_SendWsFrame_open random e d op : is_open e = true ->
  session_SendWsFrame random d op e =
  let key := [random (rand_pos_ e); random (rand_pos_ e + 1)%nat; random (rand_pos_ e + 2)%nat; random (rand_pos_ e + 3)%nat] in
  Done (emit (set_rand e (rand_pos_ e + 4)) [TcpWrite (ws_header (Zlen d) op); TcpWrite key; TcpWrite (mask_bytes key d)]) tt.
Proof.
  intros Ho. unfold session_SendWsFrame. erewrite bind_done by reflexivity.
  erewrite bind_done by (by apply AsyncWrite_open). erewrite bind_done by (by apply AsyncWrite_open).
  rewrite AsyncWrite_open by done. by rewrite !emit_emit.
Qed.
Lemma client_SendWsFrame_open random e d op : is_open e = true ->
  client_SendWsFrame random d op e =
  let key := [random (rand_pos_ e); random (rand_pos_ e + 1)%nat; random (rand_pos_ e + 2)%nat; random (rand_pos_ e + 3)%nat] in
  Done (emit (set_rand e (rand_pos_ e + 4)) [TcpWrite (ws_encode d op key)]) tt.
Proof. intros Ho. unfold client_SendWsFrame. erewrite bind_done by reflexivity. by rewrite AsyncWrite_open. Qed.

#[export] Instance session_endpoint_laws : WsEndpointLaws session_endpoint.
Proof.
  split; intros random e d op Ho; cbn [ep_send session_endpoint]; rewrite session_SendWsFrame_open by done; cbv zeta.
  - eexists _, [_; _; _; _]. split_and!; [reflexivity|exact Ho|reflexivity|]. cbn [emit set_rand out_]. rewrite tcp_bytes_app.
    unfold tcp_bytes at 2, ws_encode. cbn [map concat]. by rewrite app_nil_r.
  - eexists _, _. split; [reflexivity|]. repeat (apply Forall_cons; split; [by eexists|]). by apply Forall_nil.
Qed.
#[export] Instance client_endpoint_laws : WsEndpointLaws client_endpoint.
Proof.
  split; intros random e d op Ho; cbn [ep_send client_endpoint]; rewrite client_SendWsFrame_open by done; cbv zeta.
  - eexists _, [_; _; _; _]. split_and!; [reflexivity|exact Ho|reflexivity|]. cbn [emit set_rand out_]. rewrite tcp_bytes_app.
    unfold tcp_bytes at 2. cbn [map concat]. by rewrite app_nil_r.
  - eexists _, _. split; [reflexivity|]. repeat (apply Forall_cons; split; [by eexists|]). by apply Forall_nil.
Qed.

(** A message: its opcode (text or binary) and its payload. *)
Definition message_ok (m : Z * bytes) : Prop :=
  (fst m = WS_OP_TEXT_TYPE \/ fst m = WS_OP_BIN_TYPE) /\ Zlen (snd m) < 2 ^ 29.
Definition deliver (m : Z * bytes) : ws_action :=
  if fst m =? WS_OP_TEXT_TYPE then OnReadText (snd m) else OnReadData (snd m).

Definition send_all (EP : WsEndpoint) (random : nat -> Z) (msgs : list (Z * bytes)) : eff Env unit :=
  for_each msgs (fun m => ep_send random (snd m) (fst m)).

Lemma send_all_bytes EP `{!WsEndpointLaws EP} random msgs : forall e, is_open e = true ->
  exists e' keys, send_all EP random msgs e = Done e' tt /\ is_open e' = true /\
    Forall (fun k => Zlen k = 4) keys /\ length keys = length msgs /\
    tcp_bytes (out_ e') = tcp_bytes (out_ e) ++ concat (zip_with (fun m k => ws_encode (snd m) (fst m) k) msgs keys).
Proof.
  unfold send_all. induction msgs as [|m msgs IH]; intros e Ho.
  - exists e, []. cbn. rewrite app_nil_r. split_and!; [done|done|constructor|done|done].
  - cbn [for_each]. destruct (ep_send_law random e (snd m) (fst m) Ho) as (e1 & k & E1 & Ho1 & Hk & Ek).
    destruct (IH e1 Ho1) as (e' & keys & E & Ho' & Hks & Hl & Eb). exists e', (k :: keys).
    rewrite (bind_done _ _ _ _ _ E1). split_and!; [done|done|by constructor|cbn; lia|]. by rewrite Eb, Ek, <- app_assoc.
Qed.

Lemma decode_messages msgs : forall keys, Forall message_ok msgs -> Forall (fun k => Zlen k = 4) keys ->
  length keys = length msgs ->
  let s := concat (zip_with (fun m k => ws_encode (snd m) (fst m) k) msgs keys) in
  stream_ok s = true /\ decode_frames s = (map (fun m => mkWsFrame true (fst m) (snd m)) msgs, []).
Proof.
  induction msgs as [|m msgs IH]; intros [|k keys] Hm Hk Hl; try done.
  inv Hm as [|? ? [Hop Hp] Hms]. inv Hk as [|? ? Hk4 Hks]. cbn [zip_with concat map].
  destruct (IH keys Hms Hks ltac:(cbn in Hl; lia)) as [H1 H2]. set (s := concat _) in *.
  assert (Ho : 0 <= fst m < 16) by (unfold WS_OP_TEXT_TYPE, WS_OP_BIN_TYPE in Hop; lia).
  pose proof (decode_one_encode (snd m) (fst m) k s ltac:(lia) Ho Hk4) as Ed.
  assert (Hok : stream_ok (ws_encode (snd m) (fst m) k ++ s) = true).
  { rewrite stream_ok_unfold, Ed, decode_header_encode by (done || lia). cbn [fi_len].
    rewrite !andb_true_iff, Z.leb_le, Z.ltb_lt. split; [zlen|].
    eapply (decode_all_fuel (S (length s))); [lia| |exact H1].
    rewrite length_app. unfold ws_encode, ws_header. rewrite !length_app. zbool; cbn [length]; lia. }
  split; [exact Hok|]. destruct (decode_frames_cons _ _ _ Hok Ed) as [-> _]. rewrite H2. done.
Qed.

Lemma HandleWsData_cb e d op : has_cb_ (HandleWsData e d op) = has_cb_ e /\ tcp_ (HandleWsData e d op) = tcp_ e.
Proof. unfold HandleWsData. destruct (has_cb_ e) eqn:E; [|done]. zbool; done. Qed.
Lemma fold_HandleWsData_cb (op : Env -> Z) l : forall e,
  let e' := fold_left (fun e item => HandleWsData e item (op e)) l e in has_cb_ e' = has_cb_ e /\ tcp_ e' = tcp_ e.
Proof.
  induction l as [|x l IH]; intros e; [done|]. cbn [fold_left]. destruct (IH (HandleWsData e x (op e))) as [-> ->].
  apply HandleWsData_cb.
Qed.

Lemma on_message {EP : WsEndpoint} random now vec e m : message_ok m -> has_cb_ e = true -> exists e',
  on_frame random now (mkWsFrame true (fst m) (snd m)) (vec, e) = Done ([], e') tt /\
  has_cb_ e' = true /\ tcp_ e' = tcp_ e /\ (vec = [] -> out_ e' = out_ e ++ [deliver m]).
Proof.
  intros Hm Hcb.
  set (e1 := set_die (set_last_op e (fst m)) 0).
  exists (fold_left (fun e item => HandleWsData e item (fst m)) (vec ++ [snd m]) e1).
  split; [|split; [|split]].
  - unfold on_frame. cbn [wf_op wf_fin wf_payload].
    assert (Hd : is_data_op (fst m) = true) by (by destruct Hm as [[-> | ->] _]). rewrite Hd.
    assert (Ed : dispatch random now (fst m) (vec ++ [snd m]) = for_each (vec ++ [snd m]) (fun item => modify (fun e => HandleWsData e item (fst m))))
      by (by destruct Hm as [[-> | ->] _]).
    by rewrite Ed, (for_each_modify (fun item e => HandleWsData e item (fst m))).
  - by rewrite (proj1 (fold_HandleWsData_cb (fun _ => fst m) _ _)).
  - by rewrite (proj2 (fold_HandleWsData_cb (fun _ => fst m) _ _)).
  - intros ->. cbn [app fold_left]. unfold HandleWsData, deliver. cbn [e1 set_die set_last_op has_cb_].
    rewrite Hcb. destruct Hm as [[-> | ->] _]; reflexivity.
Qed.

Lemma on_messages {EP : WsEndpoint} random now msgs : forall e, Forall message_ok msgs -> has_cb_ e = true -> exists e',
  on_frames random now (map (fun m => mkWsFrame true (fst m) (snd m)) msgs) ([], e) = Done ([], e') tt /\
  out_ e' = out_ e ++ map deliver msgs /\ has_cb_ e' = true /\ tcp_ e' = tcp_ e.
Proof.
  unfold on_frames. induction msgs as [|m msgs IH]; intros e Hm Hcb; [exists e; cbn; rewrite app_nil_r; done|].
  inv Hm as [|? ? Hm1 Hms]. cbn [map for_each].
  destruct (on_message random now [] e m Hm1 Hcb) as (e1 & E1 & H2 & Ht & H3). specialize (H3 eq_refl).
  destruct (IH e1 Hms H2) as (e' & E' & Ho & Hc & Ht'). exists e'. rewrite (bind_done _ _ _ _ _ E1), E', Ho, H3, <- app_assoc, Ht', Ht.
  done.
Qed.

(** C2: end to end: the bytes one endpoint writes for a list of text and binary messages on an open
    connection, read by the other endpoint, produce exactly the callbacks for these messages, in
    order, and leave nothing pending; every message is written, and the masking keys do not matter. *)
Theorem messages_delivered (SEND RECV : WsEndpoint) (HS : WsEndpointLaws SEND)
  (random random' : nat -> Z) (now : Z) (Q : Type) (HQ : ByteQueue Q) (HL : ByteQueueLaws Q)
  (e : Env) (w : WsBase Q) (msgs : list (Z * bytes))
  (He : out_ e = []) (Hopen : is_open e = true) (Hw : base_inv w [] []) (Hcb : has_cb_ (env_ w) = true)
  (Hm : Forall message_ok msgs) :
  exists e', send_all SEND random msgs e = Done e' tt /\
    (bq_room (fbuffer_ (frame_ w)) (Zlen (tcp_bytes (out_ e'))) ->
     exists w' ret, HandleFrame (EP := RECV) random' now (tcp_bytes (out_ e')) w = Done w' ret /\
       out_ (env_ w') = out_ (env_ w) ++ map deliver msgs /\ base_inv w' [] []).
Proof.
  destruct (send_all_bytes SEND random msgs e Hopen) as (e' & keys & Es & _ & Hk & Hl & E).
  rewrite He in E. change (tcp_bytes []) with (@nil Z) in E. cbn [app] in E. exists e'. split; [done|]. rewrite E. intros Hroom.
  destruct (decode_messages msgs keys Hm Hk Hl) as [Hok Hd].
  pose proof (HandleFrame_spec (EP := RECV) random' now w [] [] _ Hw (or_intror Hroom) Hok) as H.
  cbn [app] in H. rewrite Hd in H.
  destruct (on_messages (EP := RECV) random' now msgs (env_ w) Hm Hcb) as (e2 & E2 & Ho & _). rewrite E2 in H.
  destruct H as (w' & Ew & Hi & <-). by eexists w', _.
Qed.

(** ** Fragmented messages *)

Section fragments.
Context {EP : WsEndpoint} {EL : WsEndpointLaws EP} (random : nat -> Z) (now : Z) `{HL : ByteQueueLaws Q}.

(** A control frame between the fragments of a message destroys the fragments: the ping
    handler answers every pending fragment with a pong and the fragments are dropped, so only
    the part after the control frame is ever delivered. *)
Lemma ping_drops_fragments (w : WsBase Q) (data a b c : bytes)
  (Hw : base_inv w [] []) (Hcb : has_cb_ (env_ w) = true) (Hopen : is_open (env_ w) = true)
  (Hroom : bq_room (fbuffer_ (frame_ w)) (Zlen data)) (Hok : stream_ok data = true)
  (Hd : decode_frames data = ([mkWsFrame false WS_OP_TEXT_TYPE a; mkWsFrame true WS_OP_PING_TYPE b;
                              mkWsFrame true WS_OP_CONTINUE_TYPE c], [])) :
  exists w' ret e2, HandleFrame random now data w = Done w' ret /\
    (ep_send random a WS_OP_PONG_TYPE ;; ep_send random b WS_OP_PONG_TYPE) (set_die (set_last_op (env_ w) WS_OP_TEXT_TYPE) 0) = Done e2 tt /\
    out_ (env_ w') = out_ e2 ++ [OnReadText c] /\ base_inv w' [] [].
Proof.
  pose proof (HandleFrame_spec random now w [] [] data Hw (or_intror Hroom) Hok) as H1.
  cbn [app] in H1. rewrite Hd in H1. set (e0 := set_die (set_last_op (env_ w) WS_OP_TEXT_TYPE) 0) in *.
  destruct (ep_send_rest random e0 a WS_OP_PONG_TYPE Hopen) as (l1 & n1 & E1 & _). set (e1 := emit _ l1) in *.
  destruct (ep_send_rest random e1 b WS_OP_PONG_TYPE Hopen) as (l2 & n2 & E2 & _). set (e2 := emit _ l2) in *.
  assert (Ef : on_frames random now [mkWsFrame false WS_OP_TEXT_TYPE a; mkWsFrame true WS_OP_PING_TYPE b;
      mkWsFrame true WS_OP_CONTINUE_TYPE c] ([], env_ w) = Done ([], emit (set_die e2 0) [OnReadText c]) tt).
  { unfold on_frames. cbn [for_each]. erewrite bind_done by reflexivity.
    assert (Ep : on_frame random now (mkWsFrame true WS_OP_PING_TYPE b) ([a], set_last_op (env_ w) WS_OP_TEXT_TYPE) = Done ([], e2) tt).
    { unfold on_frame. cbn [wf_op wf_fin wf_payload app]. change (is_data_op WS_OP_PING_TYPE) with false. cbv iota.
      fold e0. unfold dispatch. change (WS_OP_PING_TYPE =? WS_OP_PING_TYPE) with true. cbv iota. unfold HandleWsPing. cbn [for_each].
      rewrite (bind_done _ _ _ _ _ E1). by rewrite (bind_done _ _ _ _ _ E2). }
    change (is_data_op WS_OP_TEXT_TYPE) with true. cbn [app]. rewrite (bind_done _ _ _ _ _ Ep). erewrite bind_done; [reflexivity|].
    unfold on_frame. cbn [wf_op wf_fin wf_payload app]. change (is_data_op WS_OP_CONTINUE_TYPE) with false. cbv iota.
    change (dispatch random now WS_OP_CONTINUE_TYPE [c] (set_die e2 0)) with
      (Done (HandleWsData (set_die e2 0) c (last_op_code_ (set_die e2 0))) tt).
    unfold HandleWsData. change (has_cb_ (set_die e2 0)) with (has_cb_ (env_ w)). by rewrite Hcb. }
  rewrite Ef in H1. destruct H1 as (w' & Ew & Hi & Henv). eexists w', _, e2. split; [exact Ew|].
  split; [by rewrite (bind_done _ _ _ _ _ E1)|]. by rewrite Henv.
Qed.

(** The fragments of a message that is not interrupted are delivered one by one, each with
    the opcode of the first. *)
Lemma fragments_delivered (e : Env) (op : Z) (p0 : bytes) (ps : list bytes) (pl : bytes)
  (Hop : op = WS_OP_TEXT_TYPE \/ op = WS_OP_BIN_TYPE) (Hcb : has_cb_ e = true) :
  exists st, on_frames random now
    (mkWsFrame false op p0 :: map (mkWsFrame false WS_OP_CONTINUE_TYPE) ps ++
      [mkWsFrame true WS_OP_CONTINUE_TYPE pl]) ([], e) = Done st tt /\
  out_ (snd st) = out_ e ++ map (fun p => deliver (op, p)) (p0 :: ps ++ [pl]).
Proof.
  assert (Hmid : forall ps v e, on_frames random now (map (mkWsFrame false WS_OP_CONTINUE_TYPE) ps) (v, e) = Done (v ++ ps, e) tt).
  { clear. unfold on_frames. induction ps as [|p ps IH]; intros v e; [cbn; rewrite app_nil_r; done|].
    cbn [map for_each]. erewrite bind_done by reflexivity. change (is_data_op _) with false. cbv iota. rewrite IH, <- app_assoc. done. }
  unfold on_frames in *. cbn [for_each]. erewrite bind_done by reflexivity. cbn [wf_op wf_payload].
  assert (Hdo : is_data_op op = true) by (destruct Hop as [->| ->]; done). rewrite Hdo, for_each_app, (bind_done _ _ _ _ _ (Hmid _ _ _)).
  set (e1 := set_die (set_last_op e op) 0).
  assert (Hf : forall l e0, has_cb_ e0 = true -> last_op_code_ e0 = op ->
    out_ (fold_left (fun e item => HandleWsData e item (last_op_code_ e)) l e0) = out_ e0 ++ map (fun p => deliver (op, p)) l).
  { clear -Hop. induction l as [|p l IH]; intros e0 H0 H1; [cbn; rewrite app_nil_r; done|]. cbn [fold_left map].
    assert (E : HandleWsData e0 p (last_op_code_ e0) = emit e0 [deliver (op, p)]).
    { unfold HandleWsData, deliver. rewrite H0, H1. destruct Hop as [->| ->]; done. }
    rewrite E, IH by done. cbn [emit out_]. rewrite <- app_assoc. done. }
  eexists. split.
  - cbn [for_each]. erewrite bind_done; [reflexivity|]. unfold on_frame. cbn [wf_op wf_fin wf_payload].
    change (is_data_op WS_OP_CONTINUE_TYPE) with false. cbv iota. fold e1.
    change (dispatch random now WS_OP_CONTINUE_TYPE) with
      (fun items => for_each items (fun item => modify (fun e => HandleWsData e item (last_op_code_ e)))).
    cbv beta. by rewrite (for_each_modify (fun item e => HandleWsData e item (last_op_code_ e))).
  - cbn [snd]. by rewrite Hf.
Qed.
End fragments.

(** ** The closing handshake *)

(** What the handler of a close frame leaves behind. *)
Lemma session_HandleWsClose_closes (random : nat -> Z) (e : Env) (data : bytes) : close_ e = false -> is_open e = true ->
  exists e', session_HandleWsClose random data e = Done e' tt /\ tcp_ e' = HandleClosed /\ close_ e' = true.
Proof.
  intros Hc Ho. unfold session_HandleWsClose. erewrite bind_done by reflexivity. rewrite Hc.
  assert (Er : exists reply, close_reply (session_SendWsFrame random) data = session_SendWsFrame random reply WS_OP_CLOSE_TYPE).
  { unfold close_reply, SendClose. destruct (_ <=? 1); [by eexists|]. destruct (close_code_invalid _); by eexists. }
  destruct Er as [reply ->]. erewrite bind_done by (by apply session_SendWsFrame_open). erewrite bind_done by reflexivity.
  unfold tcp_Close. erewrite bind_done by reflexivity. set (e1 := set_close _).
  replace (is_open e1) with true by (symmetry; exact Ho). eexists. by split.
Qed.

(** C31: a close frame on an open connection is answered once: the reply echoes a valid close code
    and carries only a reason text otherwise, the connection is closed after it, further close
    frames are ignored, and any frame written after it fails with the exception of the write. *)
Theorem HandleWsClose_spec (random : nat -> Z) (e : Env) (data : bytes) (Hopen : close_ e = false) (Htcp : is_open e = true) :
  let reply := if Zlen data <=? 1 then bstr "Incomplete close code"
               else if close_code_invalid (close_code data) then bstr "Invalid close code" else data in
  exists e', session_HandleWsClose random data e = Done e' tt /\
  (exists key, Zlen key = 4 /\
     tcp_bytes (out_ e') = tcp_bytes (out_ e) ++ ws_encode reply WS_OP_CLOSE_TYPE key) /\
  (exists l, out_ e' = l ++ [TcpClose]) /\ close_ e' = true /\
  (forall data', session_HandleWsClose random data' e' = Done e' tt) /\
  (forall d op, exists e2, session_SendWsFrame random d op e' = Raised e2 write_error /\ out_ e2 = out_ e').
Proof.
  intros reply. unfold session_HandleWsClose at 1.
  assert (Er : close_reply (session_SendWsFrame random) data = session_SendWsFrame random reply WS_OP_CLOSE_TYPE).
  { unfold close_reply, SendClose, reply. destruct (_ <=? 1); [done|]. destruct (close_code_invalid _); done. }
  destruct (ep_send_law (EP := session_endpoint) random e reply WS_OP_CLOSE_TYPE Htcp) as (e1 & k & E1 & Ho1 & Hk & Eb).
  exists (emit (set_tcp (set_close e1) HandleClosed) [TcpClose]). split_and!.
  - erewrite bind_done by reflexivity. rewrite Hopen, Er. rewrite (bind_done _ _ _ _ _ E1). erewrite bind_done by reflexivity.
    unfold tcp_Close. erewrite bind_done by reflexivity. change (is_open (set_close e1)) with (is_open e1). by rewrite Ho1.
  - exists k. split; [done|]. cbn [emit set_close set_tcp out_]. by rewrite tcp_bytes_app, Eb, app_nil_r.
  - eexists. reflexivity.
  - done.
  - intros data'. done.
  - intros d op. eexists. by split.
Qed.

(** [SendClose] drops its code: the first two payload bytes of the reply to an invalid code
    are the characters of the reason, not 1002. *)
Lemma SendClose_ignores_code send code code' reason :
  SendClose send code reason = SendClose send code' reason.
Proof. done. Qed.
Example close_reason_code : close_code (bstr "Invalid close code") = 18798.
Proof. reflexivity. Qed.

(** ** Witnesses: the properties at concrete sessions over plain byte strings *)

Definition fresh_frame : WebSocketFrame bytes := mkFrame [] 0 0 0 false false false [0; 0; 0; 0].
Definition fresh_session : WsBase bytes := mkBase fresh_frame [] (set_cb initial_env).
Definition key1 : bytes := [1; 2; 3; 4].
Definition const_random : nat -> Z := fun _ => 7.

Lemma fresh_inv : base_inv fresh_session [] [].
Proof. split; [split; [split; reflexivity|discriminate]|constructor]. Defined.

(** A message, a Close, and a Ping, the last cut short: the reply to the Ping throws. *)
Definition behind_close : bytes :=
  ws_encode (bstr "hello") WS_OP_TEXT_TYPE key1 ++ ws_encode [3; 232] WS_OP_CLOSE_TYPE key1 ++ ws_encode [9] WS_OP_PING_TYPE key1 ++ [129].
Example behind_close_throws :
  match HandleFrame (EP := session_endpoint) const_random 5 behind_close fresh_session with
  | Raised w x => x = write_error /\ List.filter (fun a => match a with TcpWrite _ => false | _ => true end) (out_ (env_ w)) = [OnReadText (bstr "hello"); TcpClose]
  | _ => False
  end.
Proof. vm_compute. by split. Qed.


(** A message in pieces, a Close with a Ping in the next read. *)
Definition cut_reads : list bytes :=
  [[129]; [133; 1; 2; 3]; [4; 105; 103; 111]; [104; 110; 136; 130; 1; 1; 1; 1; 2; 233]; [137; 128; 1; 1; 1; 1]].
(** The Ping in a read of its own is ignored. *)
Example cut_reads_done :
  match feed (EP := session_endpoint) const_random 5 cut_reads fresh_session with Done w _ => is_open (env_ w) = false | _ => False end.
Proof. vm_compute. done. Qed.

Lemma messages_delivered_witness :
  let msgs := [(WS_OP_TEXT_TYPE, bstr "hi"); (WS_OP_BIN_TYPE, [1; 2; 3; 4; 5])] in
  exists e', send_all client_endpoint const_random msgs initial_env = Done e' tt /\
    exists w' ret, HandleFrame (EP := session_endpoint) const_random 5 (tcp_bytes (out_ e')) fresh_session = Done w' ret /\
      out_ (env_ w') = out_ (env_ fresh_session) ++ map deliver msgs /\ base_inv w' [] [].
Proof.
  intros msgs. destruct (messages_delivered client_endpoint session_endpoint _ const_random const_random 5 bytes _ _ initial_env fresh_session msgs)
    as (e' & E & H); [reflexivity|reflexivity|apply fresh_inv|reflexivity| |].
  - repeat constructor; cbn; auto; lia.
  - exists e'. split; [exact E|]. apply H. vm_compute in E. injection E as <-. reflexivity.
Defined.

Lemma ping_drops_fragments_witness :
  let data := [1; 2; 104; 101; 137; 1; 9; 128; 1; 108] in
  exists w' ret e2, HandleFrame (EP := session_endpoint) const_random 5 data fresh_session = Done w' ret /\
    (ep_send (WsEndpoint := session_endpoint) const_random [104; 101] WS_OP_PONG_TYPE ;;
     ep_send (WsEndpoint := session_endpoint) const_random [9] WS_OP_PONG_TYPE)
      (set_die (set_last_op (env_ fresh_session) WS_OP_TEXT_TYPE) 0) = Done e2 tt /\
    out_ (env_ w') = out_ e2 ++ [OnReadText [108]] /\ base_inv w' [] [].
Proof.
  apply (ping_drops_fragments (EP := session_endpoint) const_random 5); [apply fresh_inv|reflexivity..].
Defined.

Lemma HandleWsClose_spec_witness :
  let e := set_cb initial_env in
  exists e', session_HandleWsClose const_random [3; 232] e = Done e' tt /\
  (exists key, Zlen key = 4 /\
     tcp_bytes (out_ e') = tcp_bytes (out_ e) ++ ws_encode [3; 232] WS_OP_CLOSE_TYPE key) /\
  (exists l, out_ e' = l ++ [TcpClose]) /\ close_ e' = true /\
  (forall data', session_HandleWsClose const_random data' e' = Done e' tt) /\
  (forall d op, exists e2, session_SendWsFrame const_random d op e' = Raised e2 write_error /\ out_ e2 = out_ e').
Proof. apply (HandleWsClose_spec const_random (set_cb initial_env) [3; 232]); reflexivity. Defined.
