(* ===== verification/TcpPub.v ===== *)
(** The interface between the TCP sessions and the protocols on top of them: the abstract class
    [TcpBaseSession] of [src/src/net/tcp/tcp_pub.hpp].

    [TcpBaseLaws] says what the protocol code relies on: on an open session a write and a read
    request are accepted, a close closes it, and on a closed session a read request and a
    second close do nothing.  [tb_trace] lists the accepted requests in order.  [Tcp.v]
    discharges the laws for [TcpSession]; the instance below is the abstract session. *)
From S2P Require Import Prelude Eff.

Inductive tcp_request : Type :=
| SWrite (data : bytes)
| SRead
| SClose.

Class TcpBaseSession (T : Type) : Type := {
  tb_write : bytes -> eff T unit;          (* AsyncWrite *)
  tb_read : eff T unit;                    (* AsyncRead *)
  tb_close : eff T unit }.                 (* Close *)

(** [TcpClient]: [Connect], [Send], [AsyncRead], [Close]. *)
Class TcpClientI (T : Type) : Type := {
  tc_connect : bytes -> Z -> eff T unit;
  tc_send : bytes -> eff T unit;
  tc_read : eff T unit;
  tc_close : eff T unit }.
Class TcpClientLaws (T : Type) `{TcpClientI T} : Type := {
  tcl_open : T -> Prop;
  tcl_read_law : forall t, tcl_open t -> exists t', tc_read t = Done t' tt /\ tcl_open t' }.

Class TcpBaseLaws (T : Type) `{TcpBaseSession T} : Type := {
  tb_trace : T -> list tcp_request;
  tb_open : T -> Prop;
  tb_closed : T -> Prop;
  tb_write_law : forall t d, tb_open t -> exists t', tb_write d t = Done t' tt /\ tb_open t' /\
    tb_trace t' = tb_trace t ++ [SWrite d];
  tb_read_law : forall t, tb_open t -> exists t', tb_read t = Done t' tt /\ tb_open t' /\
    tb_trace t' = tb_trace t ++ [SRead];
  tb_close_law : forall t, tb_open t -> exists t', tb_close t = Done t' tt /\ tb_closed t' /\
    tb_trace t' = tb_trace t ++ [SClose];
  tb_read_closed_law : forall t, tb_closed t -> tb_read t = Done t tt;
  tb_close_closed_law : forall t, tb_closed t -> tb_close t = Done t tt }.

(** The bytes handed to the connection. *)
Definition written (l : list tcp_request) : bytes :=
  concat (map (fun a => match a with SWrite d => d | _ => [] end) l).
Lemma written_app l k : written (l ++ k) = written l ++ written k.
Proof. unfold written. rewrite map_app, concat_app. done. Qed.
Lemma written_one d : written [SWrite d] = d.
Proof. unfold written. cbn. apply app_nil_r. Qed.

(** The separate writes. *)
Definition sends (l : list tcp_request) : list bytes :=
  omap (fun a => match a with SWrite d => Some d | _ => None end) l.
Lemma sends_app l k : sends (l ++ k) = sends l ++ sends k.
Proof. apply omap_app. Qed.
Lemma written_sends l : written l = concat (sends l).
Proof. induction l as [|[d| |] l IH]; [done|..]; unfold written in *; cbn in *; by rewrite IH. Qed.

(** Between the two traces nothing has closed the connection, and the nonempty pieces written make up [out]. *)
Definition wrote (l l' : list tcp_request) (out : bytes) : Prop :=
  exists k, l' = l ++ k /\ written k = out /\ Forall (fun r => r <> SClose /\ r <> SWrite []) k.
Lemma wrote_refl l : wrote l l [].
Proof. exists []. by rewrite app_nil_r. Qed.
Lemma wrote_trans l1 l2 l3 o1 o2 : wrote l1 l2 o1 -> wrote l2 l3 o2 -> wrote l1 l3 (o1 ++ o2).
Proof.
  intros (k1 & -> & <- & H1) (k2 & -> & <- & H2). exists (k1 ++ k2). rewrite written_app, app_assoc.
  split_and!; [done|done|by apply Forall_app].
Qed.
Lemma wrote_one l d : d <> [] -> wrote l (l ++ [SWrite d]) d.
Proof. intros H. exists [SWrite d]. rewrite written_one. split_and!; [done|done|]. repeat constructor; congruence. Qed.
Lemma wrote_read l : wrote l (l ++ [SRead]) [].
Proof. exists [SRead]. split_and!; [done|done|]. repeat constructor; congruence. Qed.
Lemma wrote_written l l' out : wrote l l' out -> written l' = written l ++ out.
Proof. intros (k & -> & <- & _). apply written_app. Qed.
Lemma wrote_sends l l' out : wrote l l' out ->
  exists ws, sends l' = sends l ++ ws /\ concat ws = out /\ Forall (fun d => d <> []) ws.
Proof.
  intros (k & -> & <- & H). exists (sends k). rewrite sends_app. split_and!; [done|by rewrite written_sends|].
  induction H as [|[d| |] k [_ Hd] _ IH]; [constructor|..]; try done. constructor; [|done]. intros ->. done.
Qed.

(** ** The abstract session: its trace and whether it is open *)

Record tcp_log : Type := mkLog { log_trace : list tcp_request; log_closed : bool }.

#[export] Instance tcp_log_session : TcpBaseSession tcp_log := {
  tb_write d t := if log_closed t then Raised t (StreamExn (bstr "uv_write error"))
                  else Done (mkLog (log_trace t ++ [SWrite d]) false) tt;
  tb_read t := if log_closed t then Done t tt else Done (mkLog (log_trace t ++ [SRead]) false) tt;
  tb_close t := if log_closed t then Done t tt else Done (mkLog (log_trace t ++ [SClose]) true) tt }.

#[export] Instance tcp_log_laws : TcpBaseLaws tcp_log.
Proof.
  refine {| tb_trace := log_trace; tb_open := fun t => log_closed t = false;
            tb_closed := fun t => log_closed t = true |}.
  1-3: intros [l b]; cbn; intros; subst b; eexists; split; [reflexivity|done].
  1-2: intros [l b]; cbn; intros ->; done.
Defined.
