(* ===== verification/IpAddress.v ===== *)
(** Addresses ([src/src/utils/ipaddress.hpp]).

    [inet_ntop] and [inet_pton] are the C library's; the text of an IPv4 address is its four
    octets in decimal ([dotted]).  A [struct sockaddr] is its family, the port as it is stored
    and the address bytes.  [isdigit] is taken to be false for characters above 127. *)
From S2P Require Import Prelude StdText.

Definition AF_INET : Z := 2.
Definition AF_INET6 : Z := 10.

Record sockaddr : Type := mkSockaddr { sa_family : Z; sin_port : Z; sin_addr : bytes }.

Definition dotted (a b c d : Z) : bytes :=
  to_string a ++ 46 :: to_string b ++ 46 :: to_string c ++ 46 :: to_string d.

(** What the C library converts: [inet_ntop] gives [None] for a null pointer. *)
Class InetLib : Type := {
  inet_ntop : Z -> bytes -> option bytes;
  inet_pton : bytes -> option bytes }.
Class InetLaws (I : InetLib) : Prop := {
  ntop_law : forall a b c d, byte_ok a -> byte_ok b -> byte_ok c -> byte_ok d ->
    inet_ntop AF_INET [a; b; c; d] = Some (dotted a b c d);
  pton_law : forall a b c d, byte_ok a -> byte_ok b -> byte_ok c -> byte_ok d ->
    inet_pton (dotted a b c d) = Some [a; b; c; d] }.

(** [GetIpStr(sa, port)]: the text, and the port when it is written. *)
Definition GetIpStr {I : InetLib} (sa : option sockaddr) (port : Z) : bytes * Z :=
  match sa with
  | None => ([], port)
  | Some sa =>
      if (sa_family sa =? AF_INET) || (sa_family sa =? AF_INET6) then
        match inet_ntop (sa_family sa) (sin_addr sa) with
        | None => ([], port)
        | Some s => (s, sin_port sa)
        end
      else ([], port)
  end.

(** [GetIpv4Sockaddr]: the address is left alone when the text is not one. *)
Definition GetIpv4Sockaddr {I : InetLib} (ip : bytes) (port : Z) (addr : sockaddr) : sockaddr :=
  let a := match inet_pton ip with Some a => a | None => sin_addr addr end in
  mkSockaddr AF_INET port a.

(** ** [IsIPv4] *)

Definition DOT : Z := 46.
Definition count_dots (IP : bytes) : Z := Zlen (filter (fun c => c = DOT) IP).

(** The tests on one part; three digits always fit in an [int]. *)
Definition part_ok (temp : bytes) : bool :=
  if (Zlen temp =? 0) || (3 <? Zlen temp) then false
  else if negb (forallb isdigit temp) then false
  else
    let tempInt := digits temp 0 in
    if (255 <? tempInt) || (tempInt <? 0) then false
    else beqb (to_string tempInt) temp.

(** The loop over the characters, [temp] being the part read so far. *)
Fixpoint ipv4_loop (IP temp : bytes) : bool :=
  match IP with
  | [] => true
  | c :: rest =>
      let temp := if negb (c =? DOT) then temp ++ [c] else temp in
      if (c =? DOT) || match rest with [] => true | _ => false end then
        if part_ok temp then ipv4_loop rest [] else false
      else ipv4_loop rest temp
  end.

Definition IsIPv4 (IP : bytes) : bool :=
  if negb (count_dots IP =? 3) then false
  else if negb (ipv4_loop IP []) then false
  else negb (List.last IP 0 =? DOT).

(** ** Parts between the dots *)

Fixpoint split_dots (IP temp : bytes) : list bytes :=
  match IP with
  | [] => [temp]
  | c :: rest => if c =? DOT then temp :: split_dots rest [] else split_dots rest (temp ++ [c])
  end.
Fixpoint join_dots (l : list bytes) : bytes :=
  match l with [] => [] | [p] => p | p :: l' => p ++ DOT :: join_dots l' end.

Lemma split_dots_nonempty IP : forall temp, split_dots IP temp <> [].
Proof. induction IP as [|c IP IH]; intros temp; cbn; [done|]. destruct (c =? DOT); [done|apply IH]. Qed.

Lemma join_split IP : forall temp, join_dots (split_dots IP temp) = temp ++ IP.
Proof.
  induction IP as [|c IP IH]; intros temp; cbn [split_dots]; [cbn; by rewrite app_nil_r|].
  destruct (Z.eqb_spec c DOT) as [->|].
  - cbn [join_dots]. pose proof (split_dots_nonempty IP []). specialize (IH []).
    destruct (split_dots IP []); [done|]. rewrite IH. done.
  - rewrite IH, <- app_assoc. done.
Qed.

Lemma length_split_dots IP : forall temp, Zlen (split_dots IP temp) = count_dots IP + 1.
Proof.
  unfold count_dots. induction IP as [|c IP IH]; intros temp; cbn [split_dots]; [done|].
  rewrite filter_cons. destruct (Z.eqb_spec c DOT) as [->|H].
  - rewrite decide_True by done. rewrite !Zlen_cons, IH. lia.
  - rewrite decide_False by done. apply IH.
Qed.

Lemma ipv4_loop_parts IP : forall temp, IP <> [] -> List.last IP 0 <> DOT ->
  ipv4_loop IP temp = forallb part_ok (split_dots IP temp).
Proof.
  induction IP as [|c IP IH]; intros temp Hne Hl; [done|]. cbn [ipv4_loop split_dots].
  destruct IP as [|c' IP].
  - cbn in Hl. destruct (Z.eqb_spec c DOT); [done|]. cbn. destruct (part_ok _); done.
  - change (List.last (c :: c' :: IP) 0) with (List.last (c' :: IP) 0) in Hl.
    destruct (Z.eqb_spec c DOT) as [->|]; cbn [negb orb].
    + cbn [forallb]. rewrite IH by done. destruct (part_ok temp); done.
    + apply IH; done.
Qed.

Lemma split_dots_app p IP : Forall (fun c => c <> DOT) p -> forall temp,
  split_dots (p ++ IP) temp = split_dots IP (temp ++ p).
Proof.
  induction 1 as [|c p Hc _ IH]; intros temp; cbn [app split_dots]; [by rewrite app_nil_r|].
  rewrite (proj2 (Z.eqb_neq _ _) Hc), IH, <- app_assoc. done.
Qed.

(** ** Octets *)

Lemma octet_part b : byte_ok b -> part_ok (to_string b) = true.
Proof. revert b. apply (all_bytes_spec (fun b => part_ok (to_string b))). vm_compute. reflexivity. Qed.

Lemma part_octet p : part_ok p = true -> exists b, byte_ok b /\ p = to_string b.
Proof.
  unfold part_ok. destruct (_ || _); [done|]. destruct (negb _); [done|].
  destruct (Z.ltb_spec 255 (digits p 0)); [done|]. destruct (Z.ltb_spec (digits p 0) 0); [done|].
  cbn [orb]. unfold beqb. intros E. apply bool_decide_eq_true in E.
  exists (digits p 0). split; [unfold byte_ok; lia|done].
Qed.

Lemma octet_no_dot b : byte_ok b -> Forall (fun c => c <> DOT) (to_string b).
Proof.
  intros H. apply Forall_forall. intros c Hc. unfold byte_ok in H.
  apply to_string_chars in Hc; [|lia]. unfold DOT. lia.
Qed.

Lemma dotted_split a b c d : byte_ok a -> byte_ok b -> byte_ok c -> byte_ok d ->
  split_dots (dotted a b c d) [] = [to_string a; to_string b; to_string c; to_string d].
Proof.
  intros Ha Hb Hc Hd. unfold dotted. rewrite split_dots_app by (by apply octet_no_dot).
  cbn [app split_dots]. change (46 =? DOT) with true. cbn iota.
  rewrite split_dots_app by (by apply octet_no_dot). cbn [app split_dots]. change (46 =? DOT) with true. cbn iota.
  rewrite split_dots_app by (by apply octet_no_dot). cbn [app split_dots]. change (46 =? DOT) with true. cbn iota.
  rewrite <- (app_nil_r (to_string d)) at 1.
  rewrite split_dots_app by (by apply octet_no_dot). done.
Qed.

Lemma dotted_last a b c d : byte_ok d -> dotted a b c d <> [] /\ List.last (dotted a b c d) 0 <> DOT.
Proof.
  intros Hd. pose proof (octet_no_dot d Hd) as Hn. unfold byte_ok in Hd.
  destruct (to_string_spec d ltac:(lia)) as (Hne & _).
  assert (E : exists q, dotted a b c d = q ++ to_string d).
  { exists (to_string a ++ 46 :: to_string b ++ 46 :: to_string c ++ [46]). unfold dotted.
    repeat (rewrite <- app_assoc; cbn [app]). done. }
  destruct E as [q ->]. destruct (exists_last Hne) as (l & x & E). rewrite E in *.
  apply Forall_app in Hn as [_ Hx]. apply Forall_inv in Hx.
  rewrite app_assoc, last_last. split; [|done]. intros [_ ?]%app_nil. done.
Qed.

Lemma IsIPv4_accepts IP : IsIPv4 IP = true ->
  exists a b c d, byte_ok a /\ byte_ok b /\ byte_ok c /\ byte_ok d /\ IP = dotted a b c d.
Proof.
  unfold IsIPv4. destruct (Z.eqb_spec (count_dots IP) 3) as [Hd|]; cbn [negb]; [|done].
  destruct (ipv4_loop IP []) eqn:El; cbn [negb]; [|done].
  destruct (Z.eqb_spec (List.last IP 0) DOT) as [|Hl]; cbn [negb]; [done|]. intros _.
  assert (Hne : IP <> []) by (intros ->; done).
  rewrite ipv4_loop_parts in El by done. pose proof (join_split IP []) as Ej.
  pose proof (length_split_dots IP []) as Hn. rewrite Hd in Hn.
  destruct (split_dots IP []) as [|p1 [|p2 [|p3 [|p4 [|p5 ps]]]]]; try (rewrite ?Zlen_cons, ?Zlen_nil in Hn; zlen).
  cbn [forallb] in El. rewrite !andb_true_iff in El. destruct El as (H1 & H2 & H3 & H4 & _).
  apply part_octet in H1 as (a & Ha & ->), H2 as (b & Hb & ->), H3 as (c & Hc & ->), H4 as (d & Hd' & ->).
  exists a, b, c, d. split_and!; [done..|]. cbn [app join_dots] in Ej. symmetry. exact Ej.
Qed.

Lemma IsIPv4_complete a b c d : byte_ok a -> byte_ok b -> byte_ok c -> byte_ok d ->
  IsIPv4 (dotted a b c d) = true.
Proof.
  intros Ha Hb Hc Hd. destruct (dotted_last a b c d Hd) as [Hne Hl].
  pose proof (dotted_split a b c d Ha Hb Hc Hd) as Es. pose proof (length_split_dots (dotted a b c d) []) as Hn.
  rewrite Es, !Zlen_cons, Zlen_nil in Hn. unfold IsIPv4. rewrite (proj2 (Z.eqb_eq _ 3)) by lia. cbn [negb].
  rewrite ipv4_loop_parts, Es by done. cbn [forallb]. rewrite !octet_part by done. cbn [andb negb].
  apply negb_true_iff, Z.eqb_neq. done.
Qed.

Section inet.
Context {I : InetLib} {HI : InetLaws I}.

(** C37: [IsIPv4] accepts exactly the canonical dotted quads of four octets, and what it accepts survives the conversion to a socket address and back, with the port. *)
Theorem IsIPv4_spec IP port addr port0 :
  IsIPv4 IP = true <->
  (exists a b c d, byte_ok a /\ byte_ok b /\ byte_ok c /\ byte_ok d /\ IP = dotted a b c d /\
     sin_addr (GetIpv4Sockaddr IP port addr) = [a; b; c; d] /\
     GetIpStr (Some (GetIpv4Sockaddr IP port addr)) port0 = (IP, port)).
Proof.
  split; [|by intros (a & b & c & d & Ha & Hb & Hc & Hd & -> & _); apply IsIPv4_complete].
  intros H. destruct (IsIPv4_accepts IP H) as (a & b & c & d & Ha & Hb & Hc & Hd & ->).
  exists a, b, c, d. unfold GetIpv4Sockaddr, GetIpStr. rewrite pton_law by done.
  cbn [sa_family sin_addr sin_port]. change ((AF_INET =? AF_INET) || (AF_INET =? AF_INET6)) with true. cbn iota.
  rewrite ntop_law by done. done.
Qed.
End inet.

(** ** A C library that satisfies the laws *)

#[export] Instance demo_inet : InetLib := {
  inet_ntop af l := match l with [a; b; c; d] => Some (dotted a b c d) | _ => None end;
  inet_pton s := if IsIPv4 s then Some (map (fun p => digits p 0) (split_dots s [])) else None }.

Lemma digits_octet b : byte_ok b -> digits (to_string b) 0 = b.
Proof.
  intros H. unfold byte_ok in H. destruct (to_string_spec b ltac:(lia)) as (_ & _ & E & _).
  specialize (E []). rewrite app_nil_r in E. apply E. done.
Qed.

#[export] Instance demo_inet_laws : InetLaws demo_inet.
Proof.
  split; [done|]. intros a b c d Ha Hb Hc Hd. unfold inet_pton, demo_inet.
  rewrite IsIPv4_complete, dotted_split by done. cbn [map]. rewrite !digits_octet by done. done.
Defined.

Example IsIPv4_rejects : map IsIPv4 [bstr "1.2.3"; bstr "1.2.3.256"; bstr "01.2.3.4"; bstr "1.2.3.4."; bstr "a.b.c.d"; []]
  = [false; false; false; false; false; false].
Proof. reflexivity. Qed.

Lemma IsIPv4_spec_witness :
  IsIPv4 (bstr "192.168.0.1") = true /\
  exists a b c d, byte_ok a /\ byte_ok b /\ byte_ok c /\ byte_ok d /\ bstr "192.168.0.1" = dotted a b c d /\
    sin_addr (GetIpv4Sockaddr (bstr "192.168.0.1") 443 (mkSockaddr 0 0 [])) = [a; b; c; d] /\
    GetIpStr (Some (GetIpv4Sockaddr (bstr "192.168.0.1") 443 (mkSockaddr 0 0 []))) 0 = (bstr "192.168.0.1", 443).
Proof.
  assert (H : IsIPv4 (bstr "192.168.0.1") = true) by reflexivity. split; [exact H|].
  exact (proj1 (IsIPv4_spec (bstr "192.168.0.1") 443 (mkSockaddr 0 0 []) 0) H).
Defined.
