(* ===== verification/Ssl.v ===== *)
(** TLS over a TCP connection ([src/src/net/tcp/ssl_server.hpp], [ssl_client.hpp]).

    OpenSSL is the interface [OpenSsl] on the state of one [SSL] object with its two memory
    BIOs: what arrives is written to [bio_in_], what is to be sent is read from [bio_out_].
    [BIO_get_mem_data] of [bio_out_] gives a null pointer only together with no bytes.
    The objects call back into the TCP object that owns them, and are destroyed with it:
    [SslOwner] reaches the SSL object through its owner, [None] once it has been deleted. *)
From S2P Require Import Prelude Eff ByteQueue.

Definition SSL_ERROR_NONE : Z := 0.
Definition SSL_ERROR_WANT_READ : Z := 2.
Definition SSL_DEF_RECV_BUFFER_SIZE : Z := 10 * 1024.

Inductive TLS_SERVER_STATE : Type :=
| TLS_SSL_SERVER_ZERO
| TLS_SSL_SERVER_INIT_DONE
| TLS_SSL_SERVER_HELLO_DONE
| TLS_SERVER_KEY_EXCHANGE_DONE
| TLS_SERVER_DATA_RECV_STATE.
Definition server_rank (s : TLS_SERVER_STATE) : Z :=
  match s with
  | TLS_SSL_SERVER_ZERO => 0 | TLS_SSL_SERVER_INIT_DONE => 1 | TLS_SSL_SERVER_HELLO_DONE => 2
  | TLS_SERVER_KEY_EXCHANGE_DONE => 3 | TLS_SERVER_DATA_RECV_STATE => 4
  end.
Inductive TLS_CLIENT_STATE : Type :=
| TLS_SSL_CLIENT_ZERO
| TLS_CLIENT_HELLO_DONE
| TLS_CLIENT_KEY_EXCHANGE
| TLS_CLIENT_READY.
Definition client_rank (s : TLS_CLIENT_STATE) : Z :=
  match s with
  | TLS_SSL_CLIENT_ZERO => 0 | TLS_CLIENT_HELLO_DONE => 1 | TLS_CLIENT_KEY_EXCHANGE => 2 | TLS_CLIENT_READY => 3
  end.

#[export] Instance server_state_eq_dec : EqDecision TLS_SERVER_STATE.
Proof. solve_decision. Defined.
#[export] Instance client_state_eq_dec : EqDecision TLS_CLIENT_STATE.
Proof. solve_decision. Defined.

(** The OpenSSL calls the code makes; results are the C return values, [SSL_do_handshake],
    [SSL_read] paired with what [SSL_get_error] says of them. *)
Class OpenSsl (X : Type) : Type := {
  SSL_CTX_set_cipher_list : X -> X * Z;
  SSL_new : X -> X * bool;
  BIO_new_in : X -> X * bool;
  BIO_new_out : X -> X * bool;
  SSL_use_certificate_file : X -> X * Z;
  SSL_use_RSAPrivateKey_file : X -> X * Z;
  SSL_check_private_key : X -> X * Z;
  BIO_write : bytes -> X -> X * Z;
  BIO_reset_in : X -> X * Z;
  BIO_reset_out : X -> X * Z;
  out_mem : X -> bytes;
  SSL_do_handshake : X -> X * (Z * Z);
  SSL_read : Z -> X -> X * (Z * Z * bytes);
  SSL_write : bytes -> X -> X * Z }.

Record SslServer (X : Type) : Type := mkSslServer { tls_state_ : TLS_SERVER_STATE; server_ssl : X }.
Record SslClient (X : Type) : Type := mkSslClient { state_ : TLS_CLIENT_STATE; client_ssl : X }.
Arguments mkSslServer {X}.
Arguments mkSslClient {X}.
Arguments tls_state_ {X}.
Arguments server_ssl {X}.
Arguments state_ {X}.
Arguments client_ssl {X}.

(** The owner [W] of an object [S]: how to reach it, and [PlaintextDataSend]. *)
Class SslOwner (W S : Type) : Type := {
  own_ssl : W -> option S;
  own_put : W -> S -> W;
  PlaintextDataSend : bytes -> eff W unit }.

(** ** The server side *)

Section server.
Context {X W : Type} {HX : OpenSsl X} {HW : SslOwner W (SslServer X)}.

Definition self : eff W (SslServer X) := w ← get; deref (own_ssl w).
Definition call {A} (f : X -> X * A) : eff W A :=
  s ← self; let '(x, a) := f (server_ssl s) in
  modify (fun w => own_put w (mkSslServer (tls_state_ s) x)) ;; mret a.
Definition out_bytes : eff W bytes := s ← self; mret (out_mem (server_ssl s)).
Definition set_state (st : TLS_SERVER_STATE) : eff W unit :=
  s ← self; modify (fun w => own_put w (mkSslServer st (server_ssl s))).

(** A failing [assert] is undefined. *)
Definition SslInit : eff W Z :=
  s ← self;
  if server_rank TLS_SSL_SERVER_INIT_DONE <=? server_rank (tls_state_ s) then mret 0
  else
    c ← call SSL_CTX_set_cipher_list;
    if negb (c =? 1) then stuck
    else
      ok ← call SSL_new;
      if negb ok then mret (-1) else
      ok ← call BIO_new_in;
      if negb ok then mret (-1) else
      ok ← call BIO_new_out;
      if negb ok then mret (-1) else
      r0 ← call SSL_use_certificate_file;
      if negb (r0 =? 1) then mret (-1) else
      r0 ← call SSL_use_RSAPrivateKey_file;
      if negb (r0 =? 1) then mret (-1) else
      r0 ← call SSL_check_private_key;
      if negb (r0 =? 1) then mret (-1) else
      set_state TLS_SSL_SERVER_INIT_DONE ;; mret 0.

Definition HandleTlsHello (buf : bytes) : eff W Z :=
  r0 ← call (BIO_write buf);
  if r0 <=? 0 then mret (-1) else
  '(r0, r1) ← call SSL_do_handshake;
  if negb (r0 =? -1) || negb (r1 =? SSL_ERROR_WANT_READ) then mret (-1) else
  data ← out_bytes;
  r0 ← (if 0 <? Zlen data then call BIO_reset_in else mret 1);
  if negb (r0 =? 1) then mret (-1) else
  data ← out_bytes;
  if Zlen data <=? 0 then mret (-1) else
  PlaintextDataSend data ;;
  r0 ← call BIO_reset_out;
  if negb (r0 =? 1) then mret (-1) else mret 0.

Definition HandleKeyExchange (buf : bytes) : eff W Z :=
  r0 ← call (BIO_write buf);
  if r0 <=? 0 then mret (-1) else
  '(r0, r1) ← call SSL_do_handshake;
  '(ret, data) ← (
    if (r0 =? 1) && (r1 =? SSL_ERROR_NONE) then
      data ← out_bytes; mret (if Zlen data <=? 0 then -1 else 0, data)
    else if negb (r0 =? -1) || negb (r1 =? SSL_ERROR_WANT_READ) then mret (-1, [])
    else
      data ← out_bytes;
      r0 ← (if 0 <? Zlen data then call BIO_reset_in else mret 1);
      mret (if negb (r0 =? 1) then -1 else 0, data));
  if negb (ret =? 0) then mret ret else
  PlaintextDataSend data ;;
  r0 ← call BIO_reset_out;
  if negb (r0 =? 1) then mret (-1) else
  set_state TLS_SERVER_KEY_EXCHANGE_DONE ;; mret 0.

Definition Handshake (buf : bytes) : eff W Z :=
  s ← self;
  if server_rank TLS_SERVER_KEY_EXCHANGE_DONE <=? server_rank (tls_state_ s) then mret 0
  else
    ret ← SslInit;
    if negb (ret =? 0) then mret ret
    else
      s ← self;
      match tls_state_ s with
      | TLS_SSL_SERVER_INIT_DONE =>
          ret ← HandleTlsHello buf;
          if negb (ret =? 0) then mret ret else set_state TLS_SSL_SERVER_HELLO_DONE ;; mret 0
      | TLS_SSL_SERVER_HELLO_DONE => HandleKeyExchange buf
      | _ => mret 0
      end.

(** [recv] is [cb_->PlaintextDataRecv]. *)
Definition HandleSslDataRecv (recv : bytes -> eff W unit) (data : bytes) : eff W Z :=
  s ← self;
  if server_rank (tls_state_ s) <? server_rank TLS_SERVER_KEY_EXCHANGE_DONE then mret 0
  else if decide (tls_state_ s = TLS_SERVER_KEY_EXCHANGE_DONE)
  then set_state TLS_SERVER_DATA_RECV_STATE ;; mret 0
  else
    r0 ← call (BIO_write data);
    if r0 <=? 0 then mret (-1)
    else
      '(r0, _, text) ← call (SSL_read SSL_DEF_RECV_BUFFER_SIZE);
      (if 0 <? r0 then recv text else mret tt) ;; mret 0.

(** The loop of [SslWrite] from offset [off] of the text. *)
Fixpoint SslWrite_loop (fuel : nat) (text : bytes) (off writen_len : Z) : eff W Z :=
  if off <? Zlen text then
    match fuel with
    | O => stuck
    | S fuel' =>
        r0 ← call (SSL_write (slice text off (s32 (Zlen text) - off)));
        if r0 <=? 0 then mret (-1)
        else
          data ← out_bytes;
          PlaintextDataSend data ;;
          r ← call BIO_reset_out;
          if negb (r =? 1) then mret (-1)
          else SslWrite_loop fuel' text (off + r0) (s32 (writen_len + r0))
    end
  else mret writen_len.
Definition SslWrite (text : bytes) : eff W Z := SslWrite_loop (length text) text 0 0.
End server.

(** ** The client side *)

Section client.
Context {X W : Type} {HX : OpenSsl X} {HW : SslOwner W (SslClient X)}.

Definition cself : eff W (SslClient X) := w ← get; deref (own_ssl w).
Definition ccall {A} (f : X -> X * A) : eff W A :=
  s ← cself; let '(x, a) := f (client_ssl s) in
  modify (fun w => own_put w (mkSslClient (state_ s) x)) ;; mret a.
Definition cout_bytes : eff W bytes := s ← cself; mret (out_mem (client_ssl s)).
Definition cset_state (st : TLS_CLIENT_STATE) : eff W unit :=
  s ← cself; modify (fun w => own_put w (mkSslClient st (client_ssl s))).

Definition ClientHello : eff W Z :=
  c ← ccall SSL_CTX_set_cipher_list;
  if negb (c =? 1) then mret (-1) else
  ok ← ccall SSL_new;
  if negb ok then mret (-1) else
  ok ← ccall BIO_new_in;
  if negb ok then mret (-1) else
  ok ← ccall BIO_new_out;
  if negb ok then mret (-1) else
  '(r0, r1) ← ccall SSL_do_handshake;
  if negb (r0 =? -1) || negb (r1 =? SSL_ERROR_WANT_READ) then mret (-1) else
  data ← cout_bytes;
  if Zlen data <=? 0 then mret (-1) else
  PlaintextDataSend data ;;
  r0 ← ccall BIO_reset_out;
  if negb (r0 =? 1) then mret (-1) else
  cset_state TLS_CLIENT_HELLO_DONE ;; mret 0.

Definition RecvServerHello (buf : bytes) : eff W Z :=
  r0 ← ccall (BIO_write buf);
  if r0 <=? 0 then mret (-1) else
  '(r0, r1) ← ccall SSL_do_handshake;
  if negb (r0 =? -1) || negb (r1 =? SSL_ERROR_WANT_READ) then mret (-1) else
  data ← cout_bytes;
  if 0 <? Zlen data then
    r0 ← ccall BIO_reset_in;
    if negb (r0 =? 1) then mret (-1) else
    PlaintextDataSend data ;;
    cset_state TLS_CLIENT_KEY_EXCHANGE ;;
    r0 ← ccall BIO_reset_out;
    if negb (r0 =? 1) then mret (-1) else mret 0
  else mret 1.

Definition HandleSessionTicket (buf : bytes) : eff W Z :=
  r0 ← ccall (BIO_write buf);
  if r0 <=? 0 then mret (-1) else
  '(r0, r1) ← ccall SSL_do_handshake;
  if (r0 =? 1) && (r1 =? SSL_ERROR_NONE) then cset_state TLS_CLIENT_READY ;; mret 0
  else if negb (r0 =? -1) || negb (r1 =? SSL_ERROR_WANT_READ) then mret (-1) else mret 1.

(** The reading loop, at most [fuel] reads. *)
Fixpoint ssl_read_loop (fuel : nat) (recv : bytes -> eff W unit) : eff W Z :=
  match fuel with
  | O => stuck
  | S fuel' =>
      '(r0, r1, text) ← ccall (SSL_read SSL_DEF_RECV_BUFFER_SIZE);
      if 0 <? r0 then recv text ;; ssl_read_loop fuel' recv
      else if (r0 =? -1) && (r1 =? SSL_ERROR_WANT_READ) then mret 0 else mret (-1)
  end.
Definition cHandleSslDataRecv (fuel : nat) (recv : bytes -> eff W unit) (data : bytes) : eff W Z :=
  '(r0, _, text) ← ccall (SSL_read SSL_DEF_RECV_BUFFER_SIZE);
  (if 0 <? r0 then recv text else mret tt) ;;
  r0 ← ccall (BIO_write data);
  if r0 <=? 0 then mret (-1) else ssl_read_loop fuel recv.

Fixpoint cSslWrite_loop (fuel : nat) (text : bytes) (off writen_len : Z) : eff W Z :=
  if off <? Zlen text then
    match fuel with
    | O => stuck
    | S fuel' =>
        r0 ← ccall (SSL_write (slice text off (s32 (Zlen text) - off)));
        if r0 <=? 0 then mret (-1)
        else
          data ← cout_bytes;
          when (0 <? Zlen data) (PlaintextDataSend data) ;;
          r ← ccall BIO_reset_out;
          if negb (r =? 1) then mret (-1)
          else cSslWrite_loop fuel' text (off + r0) (s32 (writen_len + r0))
    end
  else mret writen_len.
Definition cSslWrite (text : bytes) : eff W Z := cSslWrite_loop (length text) text 0 0.
End client.

(** ** An in-memory OpenSSL without encryption

    Every byte that arrives is a record; [SSL_write] takes two bytes at a time; the results of
    [SSL_do_handshake] are given in advance, and each call leaves one byte to be sent. *)

Record demo_ssl : Type := mkDemoSsl { demo_in : list bytes; demo_out : bytes; demo_handshake : list (Z * Z) }.

#[export] Instance demo_openssl : OpenSsl demo_ssl := {
  SSL_CTX_set_cipher_list x := (x, 1);
  SSL_new x := (x, true);
  BIO_new_in x := (x, true);
  BIO_new_out x := (x, true);
  SSL_use_certificate_file x := (x, 1);
  SSL_use_RSAPrivateKey_file x := (x, 1);
  SSL_check_private_key x := (x, 1);
  BIO_write d x := (mkDemoSsl (demo_in x ++ map (fun b => [b]) d) (demo_out x) (demo_handshake x), Zlen d);
  BIO_reset_in x := (mkDemoSsl [] (demo_out x) (demo_handshake x), 1);
  BIO_reset_out x := (mkDemoSsl (demo_in x) [] (demo_handshake x), 1);
  out_mem := demo_out;
  SSL_do_handshake x :=
    match demo_handshake x with
    | [] => (mkDemoSsl (demo_in x) (demo_out x ++ [22]) [], (1, SSL_ERROR_NONE))
    | r :: rs => (mkDemoSsl (demo_in x) (demo_out x ++ [22]) rs, r)
    end;
  SSL_read n x :=
    match demo_in x with
    | [] => (x, (-1, SSL_ERROR_WANT_READ, []))
    | r :: rs =>
        let t := firstn (Z.to_nat n) r in
        (mkDemoSsl (if n <? Zlen r then skipn (Z.to_nat n) r :: rs else rs) (demo_out x) (demo_handshake x),
         (Zlen t, SSL_ERROR_NONE, t))
    end;
  SSL_write t x :=
    let k := firstn 2 t in (mkDemoSsl (demo_in x) (demo_out x ++ k) (demo_handshake x), Zlen k) }.
