(* ===== verification/Tcp.v ===== *)
(** TCP sessions and the listening socket over libuv ([src/src/net/tcp/tcp_session.hpp],
    [tcp_server.hpp]).

    An object is modelled with its libuv handle: [uv_writes_] are the write requests libuv
    holds, oldest first, [uv_results_] the results of the libuv calls still to come (0 when
    the list is used up), [uv_log_] the accepted calls in order.  A write on a closing handle
    fails with UV_EBADF.  The callback object is code of the protocol: it acts on the pair of
    the TCP object and its own state, and may close or destroy the TCP object; [freed_] says
    that it has been destroyed, and a member access after that is undefined. *)
From S2P Require Import Prelude Eff ByteQueue StdText IpAddress TcpPub Ssl.

Definition UV_EALREADY : Z := -114.
Definition UV_EBADF : Z := -9.
Definition UV_ECANCELED : Z := -125.
Definition TCP_DEF_RECV_BUFFER_SIZE : Z := 5 * 1024.
Definition uv_error (s : String.string) : exn := StreamExn (bstr s).

Section session.
Context {X : Type} {HX : OpenSsl X}.

Record TcpSession : Type := mkTcpSession {
  close_ : bool;
  ssl_enable_ : bool;
  ssl_ : option (SslServer X);
  local_name_ : sockaddr;
  peer_name_ : sockaddr;
  freed_ : bool;
  uv_closing_ : bool;
  uv_writes_ : list bytes;
  uv_results_ : list Z;
  uv_log_ : list tcp_request }.

(** The constructors; [ssl] is given for the one with key and certificate.  [delete] of the
    handle, which came from [malloc], is left out. *)
Definition TcpSession_new (ssl : option X) (init accept : Z) (local peer : sockaddr) (results : list Z) : res TcpSession :=
  if negb (init =? 0) then Throw (uv_error "uv_tcp_init() failed")
  else if negb (accept =? 0) then Throw (uv_error "uv_accept() failed")
  else Ok (mkTcpSession false (match ssl with Some _ => true | None => false end)
             (match ssl with Some x => Some (mkSslServer TLS_SSL_SERVER_ZERO x) | None => None end)
             local peer false false [] results []).

Abbreviation M := (eff TcpSession).

Definition this : M unit := s ← get; if freed_ s then stuck else mret tt.
(** The result of a libuv call. *)
Definition uv_result : M Z :=
  s ← get;
  match uv_results_ s with
  | [] => mret 0
  | r :: rs => modify (fun s => s <| uv_results_ := rs |>) ;; mret r
  end.
Definition log (r : tcp_request) : M unit := modify (fun s => s <| uv_log_ ::= fun l => l ++ [r] |>).

Definition AsyncRead : M unit :=
  this ;;
  s ← get;
  if close_ s then mret tt
  else
    err ← uv_result; log SRead ;;
    if negb (err =? 0) then
      if err =? UV_EALREADY then mret tt else raise (uv_error "uv_read_start() failed")
    else mret tt.

(** [uv_write] of a copy of the data: [PlaintextDataSend] and the plain case of [AsyncWrite]. *)
Definition session_send (data : bytes) : M unit :=
  this ;;
  s ← get;
  err ← (if uv_closing_ s then mret UV_EBADF else uv_result);
  if negb (err =? 0) then raise (uv_error "uv_write error")
  else log (SWrite data) ;; modify (fun s => s <| uv_writes_ ::= fun l => l ++ [data] |>).

#[export] Instance session_owner : SslOwner TcpSession (SslServer X) := {
  own_ssl s := if freed_ s then None else ssl_ s;
  own_put s o := s <| ssl_ := Some o |>;
  PlaintextDataSend := session_send }.

Definition AsyncWrite (data : bytes) : M unit :=
  this ;;
  s ← get;
  if ssl_enable_ s && (match ssl_ s with Some _ => true | None => false end)
  then SslWrite data ;; mret tt
  else session_send data.

Definition Close : M unit :=
  this ;;
  s ← get;
  if close_ s then mret tt
  else
    modify (fun s => s <| close_ := true |>) ;;
    err ← uv_result;
    if negb (err =? 0) then raise (uv_error "uv_read_stop error")
    else log SClose ;; modify (fun s => s <| uv_closing_ := true |>).

(** The destructor; an exception leaving it terminates the program. *)
Definition TcpSession_destroy : M unit :=
  try_catch Close (fun _ => stuck) ;; modify (fun s => s <| freed_ := true |>).

Definition GetRemoteEndpoint {I : InetLib} (s : TcpSession) : bytes :=
  let '(remoteip, remoteport) := GetIpStr (Some (peer_name_ s)) 0 in remoteip ++ 58 :: to_string remoteport.
Definition GetLocalEndpoint {I : InetLib} (s : TcpSession) : bytes :=
  let '(localip, localport) := GetIpStr (Some (local_name_ s)) 0 in localip ++ 58 :: to_string localport.

#[export] Instance session_base : TcpBaseSession TcpSession := {
  tb_write := AsyncWrite; tb_read := AsyncRead; tb_close := Close }.
End session.
Arguments TcpSession X : clear implicits.

(** [TcpSessionCallbackI], with the callback object's state [C]. *)
Class TcpSessionCallbackI (X C : Type) : Type := {
  cb_OnWrite : Z -> Z -> eff (TcpSession X * C) unit;
  cb_OnRead : Z -> bytes -> eff (TcpSession X * C) unit }.

Section session_callbacks.
Context {X C : Type} {HX : OpenSsl X} {HC : TcpSessionCallbackI X C}.
Abbreviation W := (TcpSession X * C)%type.

Definition on_session {A} (m : eff (TcpSession X) A) : eff W A := zoom fst (fun w s => (s, snd w)) m.

#[export] Instance session_owner_pair : SslOwner W (SslServer X) := {
  own_ssl w := own_ssl (fst w);
  own_put w o := (own_put (fst w) o, snd w);
  PlaintextDataSend data := on_session (PlaintextDataSend data) }.

Definition session_OnRead (nread : Z) (base : bytes) : eff W unit :=
  on_session this ;;
  w ← get; let s := fst w in
  if close_ s then mret tt
  else if nread =? 0 then mret tt
  else if nread <? 0 then cb_OnRead (-1) []
  else if ssl_enable_ s then
    ret ← Handshake base;
    if negb (ret =? 0) then on_session Close
    else HandleSslDataRecv (cb_OnRead 0) base ;; on_session AsyncRead
  else cb_OnRead 0 base.
(** [OnUvRead]: [handle->data] is never reset. *)
Definition session_OnUvRead (nread : Z) (base : bytes) : eff W unit :=
  if nread =? 0 then mret tt else session_OnRead nread base.

Definition session_OnWrite (wr : bytes) (status : Z) : eff W unit :=
  on_session this ;;
  w ← get; let s := fst w in
  match (if ssl_enable_ s then ssl_ s else None) with
  | Some ssl =>
      when (bool_decide (tls_state_ ssl = TLS_SERVER_DATA_RECV_STATE))
        (when (negb (close_ s)) (cb_OnWrite status (Zlen wr)))
  | None => when (negb (close_ s)) (cb_OnWrite status (Zlen wr))
  end.
(** [OnUvWrite] for the oldest request. *)
Definition session_OnUvWrite (status : Z) : eff W unit :=
  w ← get;
  match uv_writes_ (fst w) with
  | [] => stuck
  | wr :: rest =>
      modify (fun w => ((fst w) <| uv_writes_ := rest |>, snd w)) ;;
      session_OnWrite wr status
  end.
End session_callbacks.

(** ** Plain sessions *)

Definition all_success (results : list Z) : Prop := Forall (fun r => r = 0) results.

Section plain.
Context {X : Type} {HX : OpenSsl X}.
Implicit Types s : TcpSession X.

Lemma this_done s : freed_ s = false -> this s = Done s tt.
Proof. intros H. unfold this. erewrite bind_done by reflexivity. rewrite H. done. Qed.

Lemma uv_result_success s : all_success (uv_results_ s) ->
  exists rs, uv_result s = Done (s <| uv_results_ := rs |>) 0 /\ all_success rs.
Proof.
  intros H. unfold uv_result. erewrite bind_done by reflexivity. destruct (uv_results_ s) as [|r rs] eqn:E.
  - exists []. split; [|constructor]. f_equal. destruct s; cbn in *. by rewrite E.
  - apply Forall_cons in H as [-> H]. exists rs. done.
Qed.

(** The calls libuv accepts. *)
Lemma session_send_eq s : freed_ s = false -> uv_closing_ s = false -> all_success (uv_results_ s) ->
  exists rs, all_success rs /\ forall d, session_send d s =
    Done (s <| uv_results_ := rs |> <| uv_log_ ::= fun l => l ++ [SWrite d] |> <| uv_writes_ ::= fun l => l ++ [d] |>) tt.
Proof.
  intros Hf Hu Hr. destruct (uv_result_success s Hr) as (rs & E & Hrs). exists rs. split; [done|]. intros d.
  unfold session_send. rewrite (bind_done _ _ _ _ _ (this_done s Hf)).
  erewrite bind_done by reflexivity. rewrite Hu. by rewrite (bind_done _ _ _ _ _ E).
Qed.
Lemma Close_eq s : freed_ s = false -> close_ s = false -> all_success (uv_results_ s) ->
  exists rs, all_success rs /\
    Close s = Done (s <| close_ := true |> <| uv_results_ := rs |> <| uv_log_ ::= fun l => l ++ [SClose] |> <| uv_closing_ := true |>) tt.
Proof.
  intros Hf Hc Hr. destruct (uv_result_success (s <| close_ := true |>)) as (rs & E & Hrs); [by destruct s|]. exists rs. split; [done|].
  unfold Close. rewrite (bind_done _ _ _ _ _ (this_done s Hf)). erewrite bind_done by reflexivity. rewrite Hc.
  erewrite bind_done by reflexivity. by rewrite (bind_done _ _ _ _ _ E).
Qed.

(** An accepted write. *)
Lemma session_send_done s d : freed_ s = false -> uv_closing_ s = false -> all_success (uv_results_ s) ->
  exists s', session_send d s = Done s' tt /\ freed_ s' = false /\ uv_closing_ s' = false /\
    all_success (uv_results_ s') /\ ssl_ s' = ssl_ s /\ uv_log_ s' = uv_log_ s ++ [SWrite d] /\ close_ s' = close_ s.
Proof.
  intros Hf Hu Hr. destruct (session_send_eq s Hf Hu Hr) as (rs & Hrs & E). rewrite E. eexists. split; [reflexivity|].
  destruct s. cbn in *. done.
Qed.

(** A plain session and the abstract session that has seen the same requests. *)
Record plain_sim s (g : tcp_log) : Prop := {
  ps_freed : freed_ s = false;
  ps_plain : ssl_enable_ s = false;
  ps_close : close_ s = log_closed g;
  ps_closing : uv_closing_ s = log_closed g;
  ps_log : uv_log_ s = log_trace g;
  ps_results : all_success (uv_results_ s) }.

Lemma AsyncRead_sim s g : plain_sim s g -> out_rel plain_sim (AsyncRead s) (tb_read g).
Proof.
  intros H. pose proof H as [Hf Hp Hc Hu Hl Hr]. unfold AsyncRead. rewrite (bind_done _ _ _ _ _ (this_done s Hf)).
  erewrite bind_done by reflexivity. rewrite Hc. cbn. destruct (log_closed g) eqn:Eg; [by split|].
  destruct (uv_result_success s Hr) as (rs & E & Hrs). rewrite (bind_done _ _ _ _ _ E).
  split; [|done]. destruct s. cbn in *. subst. split; done.
Qed.

Lemma session_send_sim s g d : plain_sim s g -> out_rel plain_sim (session_send d s) (tb_write d g).
Proof.
  intros H. pose proof H as [Hf Hp Hc Hu Hl Hr]. unfold session_send. rewrite (bind_done _ _ _ _ _ (this_done s Hf)).
  erewrite bind_done by reflexivity. rewrite Hu. cbn. destruct (log_closed g) eqn:Eg; [by split|].
  destruct (uv_result_success s Hr) as (rs & E & Hrs). rewrite (bind_done _ _ _ _ _ E).
  split; [|done]. destruct s. cbn in *. subst. split; done.
Qed.

Lemma AsyncWrite_plain s d : freed_ s = false -> ssl_enable_ s = false -> AsyncWrite d s = session_send d s.
Proof.
  intros Hf Hp. unfold AsyncWrite. rewrite (bind_done _ _ _ _ _ (this_done s Hf)).
  erewrite bind_done by reflexivity. rewrite Hp. done.
Qed.

Lemma Close_sim s g : plain_sim s g -> out_rel plain_sim (Close s) (tb_close g).
Proof.
  intros H. pose proof H as [Hf Hp Hc Hu Hl Hr]. unfold Close. rewrite (bind_done _ _ _ _ _ (this_done s Hf)).
  erewrite bind_done by reflexivity. rewrite Hc. cbn. destruct (log_closed g) eqn:Eg; [by split|].
  erewrite bind_done by reflexivity.
  destruct (uv_result_success (s <| close_ := true |>)) as (rs & E & Hrs); [destruct s; done|].
  rewrite (bind_done _ _ _ _ _ E). split; [|done]. destruct s. cbn in *. subst. split; done.
Qed.

Definition run_request {T} {HT : TcpBaseSession T} (r : tcp_request) : eff T unit :=
  match r with SWrite d => tb_write d | SRead => tb_read | SClose => tb_close end.

(** C17: A plain TCP session whose libuv calls succeed answers every sequence of writes, read requests and closes as the abstract session of the interface does: the same requests reach the connection in the same order, and a write after the close is the only failure. *)
Theorem session_refines_log reqs local peer results s :
  TcpSession_new None 0 0 local peer results = Ok s -> all_success results ->
  out_rel plain_sim (for_each reqs run_request s) (for_each reqs run_request (mkLog [] false)).
Proof.
  intros [= <-] Hr. apply out_rel_for_each; [|done]. intros [d| |] t g H; cbn [run_request].
  - cbn [tb_write session_base]. rewrite AsyncWrite_plain by apply H. by apply session_send_sim.
  - by apply AsyncRead_sim.
  - by apply Close_sim.
Qed.

(** The laws of the interface, for plain sessions. *)
#[export] Instance session_laws : TcpBaseLaws (TcpSession X).
Proof.
  refine {| tb_trace := uv_log_;
            tb_open := fun s => plain_sim s (mkLog (uv_log_ s) false);
            tb_closed := fun s => plain_sim s (mkLog (uv_log_ s) true) |}; cbn [tb_write tb_read tb_close session_base].
  - intros t d H. rewrite AsyncWrite_plain by apply H. pose proof (session_send_sim t _ d H) as E.
    destruct (session_send d t) as [t' []|t' e|]; try done. destruct E as [E _]. cbn in E.
    exists t'. split_and!; [done| |apply E]. destruct E. split; done.
  - intros t H. pose proof (AsyncRead_sim t _ H) as E. destruct (AsyncRead t) as [t' []|t' e|]; try done.
    destruct E as [E _]. cbn in E. exists t'. split_and!; [done| |apply E]. destruct E. split; done.
  - intros t H. pose proof (Close_sim t _ H) as E. destruct (Close t) as [t' []|t' e|]; try done.
    destruct E as [E _]. cbn in E. exists t'. split_and!; [done| |apply E]. destruct E. split; done.
  - intros t H. unfold AsyncRead. rewrite (bind_done _ _ _ _ _ (this_done t (ps_freed _ _ H))).
    erewrite bind_done by reflexivity. rewrite (ps_close _ _ H). done.
  - intros t H. unfold Close. rewrite (bind_done _ _ _ _ _ (this_done t (ps_freed _ _ H))).
    erewrite bind_done by reflexivity. rewrite (ps_close _ _ H). done.
Defined.

(** One call on a plain open session whose libuv calls succeed. *)
Definition plain_open s : Prop := plain_sim s (mkLog (uv_log_ s) false).
(** None of its writes has ended yet: the writes libuv holds are those of its trace. *)
Definition in_flight_all s : Prop := uv_writes_ s = sends (uv_log_ s).
Implicit Types t : TcpSession X.

Lemma AsyncRead_eq t : plain_open t -> exists rs, all_success rs /\
  AsyncRead t = Done (t <| uv_results_ := rs |> <| uv_log_ ::= fun l => l ++ [SRead] |>) tt.
Proof.
  intros [Hf Hp Hc Hu _ Hr]. destruct (uv_result_success t Hr) as (rs & E & Hrs). exists rs. split; [done|].
  unfold AsyncRead. rewrite (bind_done _ _ _ _ _ (this_done t Hf)).
  erewrite bind_done by reflexivity. rewrite Hc. cbn [log_closed]. by rewrite (bind_done _ _ _ _ _ E).
Qed.

(** The laws of the interface with the writes in flight. *)
Definition serving_laws : TcpBaseLaws (TcpSession X).
Proof.
  refine {| tb_trace := uv_log_;
            tb_open := fun t => plain_open t /\ in_flight_all t;
            tb_closed := fun t => plain_sim t (mkLog (uv_log_ t) true) /\ in_flight_all t |};
    cbn [tb_write tb_read tb_close session_base]; unfold plain_open, in_flight_all.
  - intros t d [H Hw]. destruct (session_send_eq t) as (rs & Hrs & E); [apply H..|]. rewrite AsyncWrite_plain, E by apply H. eexists. split; [reflexivity|].
    destruct H, t. cbn in *. subst. split; [|done]. split; [split; done|]. by rewrite sends_app.
  - intros t [H Hw]. destruct (AsyncRead_eq t H) as (rs & Hrs & E). rewrite E. eexists. split; [reflexivity|].
    destruct H, t. cbn in *. subst. split; [|done]. split; [split; done|]. by rewrite sends_app, app_nil_r.
  - intros t [H Hw]. destruct (Close_eq t) as (rs & Hrs & E); [apply H..|]. rewrite E. eexists. split; [reflexivity|].
    destruct H, t. cbn in *. subst. split; [|done]. split; [split; done|]. by rewrite sends_app, app_nil_r.
  - intros t [H _]. apply (tb_read_closed_law (TcpBaseLaws := session_laws)). exact H.
  - intros t [H _]. apply (tb_close_closed_law (TcpBaseLaws := session_laws)). exact H.
Defined.

(** A closed session deletes itself without another call to libuv. *)
Lemma destroy_closed t : freed_ t = false -> close_ t = true -> TcpSession_destroy t = Done (t <| freed_ := true |>) tt.
Proof.
  intros Hf Hc. unfold TcpSession_destroy, try_catch, mbind, eff_bind.
  assert (E : Close t = Done t tt).
  { unfold Close. rewrite (bind_done _ _ _ _ _ (this_done t Hf)). erewrite bind_done by reflexivity. by rewrite Hc. }
  by rewrite E.
Qed.
End plain.

(** ** TLS sessions *)

(** What OpenSSL promises of writing: with [bio_out_] empty, [SSL_write] takes some of the text
    and leaves in [bio_out_] records from which the peer reads that part. *)
Class OpenSslWriter (X : Type) {HX : OpenSsl X} : Type := {
  writing : X -> Prop;
  unseal : bytes -> bytes;
  SSL_write_law : forall x t, writing x -> t <> [] -> exists x1 k x2,
    SSL_write t x = (x1, k) /\ 0 < k <= Zlen t /\ unseal (out_mem x1) = firstn (Z.to_nat k) t /\
    BIO_reset_out x1 = (x2, 1) /\ writing x2 }.

(** What it promises of reading on an established connection while the peer sends data: bytes
    that continue a stream of well-formed records of application data ([app_data]; not alerts,
    close_notify or damaged records) make texts arrive when they are written to [bio_in_], and
    [SSL_read] takes from the first record only. *)
Class OpenSslReader (X : Type) {HX : OpenSsl X} : Type := {
  established : X -> Prop;
  pending : X -> list bytes;
  app_data : X -> bytes -> Prop;
  arrivals : X -> bytes -> list bytes;
  arrivals_law : forall x d, app_data x d -> Forall (fun r => r <> []) (arrivals x d);
  BIO_write_law : forall x d, established x -> app_data x d -> d <> [] -> exists x',
    BIO_write d x = (x', Zlen d) /\ established x' /\ pending x' = pending x ++ arrivals x d;
  SSL_read_law : forall x n r rs, established x -> pending x = r :: rs -> r <> [] -> 0 < n -> exists x',
    SSL_read n x = (x', (Zlen (firstn (Z.to_nat n) r), SSL_ERROR_NONE, firstn (Z.to_nat n) r)) /\ established x' /\
    pending x' = if n <? Zlen r then skipn (Z.to_nat n) r :: rs else rs;
  SSL_read_empty_law : forall x n, established x -> pending x = [] -> exists x',
    SSL_read n x = (x', (-1, SSL_ERROR_WANT_READ, [])) /\ established x' /\ pending x' = [] }.

(** What it promises of records: a text that fits in one is taken whole, and the record is longer than the text, by at most 2048 bytes and a header of five. *)
Class OpenSslRecords (X : Type) {HX : OpenSsl X} : Type := {
  sealing : X -> Prop;
  overhead : Z;
  SSL_write_record : forall x t, sealing x -> 0 < Zlen t <= 16384 -> exists x1 x2,
    SSL_write t x = (x1, Zlen t) /\ Zlen t + overhead <= Zlen (out_mem x1) <= 18437 /\ BIO_reset_out x1 = (x2, 1) /\ sealing x2 }.

Section tls.
Context {X : Type} {HX : OpenSsl X}.
Implicit Types s : TcpSession X.

Definition with_ssl s (o : SslServer X) : TcpSession X := s <| ssl_ := Some o |>.

Lemma call_session {A} (f : X -> X * A) s o x a : freed_ s = false -> ssl_ s = Some o ->
  f (server_ssl o) = (x, a) -> call f s = Done (with_ssl s (mkSslServer (tls_state_ o) x)) a.
Proof.
  intros Hf Ho E. unfold call, self. rewrite bind_assoc. erewrite bind_done by reflexivity.
  cbn [own_ssl session_owner]. rewrite Hf, Ho. erewrite bind_done by reflexivity. rewrite E. done.
Qed.
Lemma out_bytes_session s o : freed_ s = false -> ssl_ s = Some o ->
  out_bytes s = Done s (out_mem (server_ssl o)).
Proof.
  intros Hf Ho. unfold out_bytes, self. rewrite bind_assoc. erewrite bind_done by reflexivity.
  cbn [own_ssl session_owner]. rewrite Hf, Ho. done.
Qed.
Lemma with_ssl_freed s o : freed_ (with_ssl s o) = freed_ s.
Proof. destruct s; done. Qed.
Lemma with_ssl_ssl s o : ssl_ (with_ssl s o) = Some o.
Proof. destruct s; done. Qed.

Lemma session_send_cases s d : freed_ s = false ->
  (exists s', session_send d s = Done s' tt /\ freed_ s' = false /\ ssl_ s' = ssl_ s) \/
  (exists s' e, session_send d s = Raised s' e).
Proof.
  intros Hf. unfold session_send. rewrite (bind_done _ _ _ _ _ (this_done s Hf)).
  erewrite bind_done by reflexivity.
  assert (E : exists s1 r, (if uv_closing_ s then mret UV_EBADF else uv_result) s = Done s1 r /\
    freed_ s1 = false /\ ssl_ s1 = ssl_ s).
  { destruct (uv_closing_ s); [by eexists _, _|]. unfold uv_result. erewrite bind_done by reflexivity.
    destruct (uv_results_ s) as [|r rs]; eexists _, _; split; try reflexivity; [done|destruct s; done]. }
  destruct E as (s1 & r & E & Hf1 & Hs1). rewrite (bind_done _ _ _ _ _ E).
  destruct (r =? 0); [left|right; eexists _, _; reflexivity].
  eexists. split; [reflexivity|]. destruct s1. done.
Qed.

Lemma SslWrite_loop_returns fuel : forall text off n s o, freed_ s = false -> ssl_ s = Some o ->
  Zlen text - off <= Z.of_nat fuel -> SslWrite_loop fuel text off n s <> Stuck.
Proof.
  induction fuel as [|fuel IH]; intros text off n s o Hf Ho Hl; cbn [SslWrite_loop];
    destruct (Z.ltb_spec off (Zlen text)); try done; [lia|].
  destruct (SSL_write (slice text off (s32 (Zlen text) - off)) (server_ssl o)) as [x1 r0] eqn:E1.
  rewrite (bind_done _ _ _ _ _ (call_session _ s o x1 r0 Hf Ho E1)).
  destruct (Z.leb_spec r0 0); [done|]. set (s1 := with_ssl s _).
  assert (Hf1 : freed_ s1 = false) by (unfold s1; by rewrite with_ssl_freed).
  erewrite bind_done by (apply out_bytes_session; [done|apply with_ssl_ssl]).
  cbn [PlaintextDataSend session_owner].
  destruct (session_send_cases s1 (out_mem (server_ssl (mkSslServer (tls_state_ o) x1))) Hf1)
    as [(s2 & E2 & Hf2 & Hs2)|(s2 & e & E2)]; [|by rewrite (bind_raised _ _ _ _ _ E2)].
  rewrite (bind_done _ _ _ _ _ E2). unfold s1 in Hs2. rewrite with_ssl_ssl in Hs2.
  destruct (BIO_reset_out x1) as [x2 r] eqn:E3.
  rewrite (bind_done _ _ _ _ _ (call_session BIO_reset_out s2 _ x2 r Hf2 Hs2 E3)).
  destruct (r =? 1); [|done]. apply IH with (o := mkSslServer (tls_state_ o) x2);
    [by rewrite with_ssl_freed|by apply with_ssl_ssl|lia].
Qed.

(** A TLS session ready to write: open, libuv accepts the writes. *)
Record tls_writable {HXW : OpenSslWriter X} s : Prop := {
  tw_freed : freed_ s = false;
  tw_closing : uv_closing_ s = false;
  tw_results : all_success (uv_results_ s);
  tw_ssl : exists o, ssl_ s = Some o /\ writing (server_ssl o) }.

Lemma SslWrite_loop_sends {HXW : OpenSslWriter X} fuel : forall text off n s,
  tls_writable s -> 0 <= off <= Zlen text -> Zlen text < 2 ^ 31 -> Zlen text - off <= Z.of_nat fuel -> 0 <= n <= off ->
  exists s' recs, SslWrite_loop fuel text off n s = Done s' (n + (Zlen text - off)) /\ tls_writable s' /\
    uv_log_ s' = uv_log_ s ++ map SWrite recs /\ concat (map unseal recs) = skipn (Z.to_nat off) text.
Proof.
  induction fuel as [|fuel IH]; intros text off n s Hs Ho H31 Hl Hn; cbn [SslWrite_loop];
    destruct (Z.ltb_spec off (Zlen text)) as [Hlt|Hge].
  1: lia.
  1,3: exists s, []; split_and!; [unfold mret, eff_ret; f_equal; lia|done|by rewrite app_nil_r|];
    cbn; rewrite skipn_all2; [done|unfold Zlen in *; lia].
  destruct Hs as [Hf Hu Hr (o & Hso & Hw)]. rewrite s32_small by (pose proof (Zlen_nonneg text); lia).
  set (t := slice text off (Zlen text - off)).
  assert (Et : t = skipn (Z.to_nat off) text).
  { unfold t, slice. apply firstn_all2. rewrite length_skipn. unfold Zlen in *. lia. }
  assert (Elt : Zlen t = Zlen text - off) by (rewrite Et, Zlen_drop by lia; lia).
  destruct (SSL_write_law (server_ssl o) t Hw) as (x1 & k & x2 & E1 & Hk & Hun & E2 & Hw2);
    [intros Hz; rewrite Hz, Zlen_nil in Elt; lia|].
  rewrite (bind_done _ _ _ _ _ (call_session _ s o x1 k Hf Hso E1)).
  destruct (Z.leb_spec k 0); [lia|]. set (s1 := with_ssl s (mkSslServer (tls_state_ o) x1)).
  erewrite bind_done by (apply (out_bytes_session s1); [unfold s1; by rewrite with_ssl_freed|apply with_ssl_ssl]).
  destruct (session_send_done s1 (out_mem x1)) as (s2 & E & Hf2 & Hu2 & Hr2 & Ho2 & Hl2 & _);
    [unfold s1; destruct s; done..|].
  cbn [PlaintextDataSend session_owner server_ssl]. rewrite (bind_done _ _ _ _ _ E).
  unfold s1 in Ho2. rewrite with_ssl_ssl in Ho2.
  rewrite (bind_done _ _ _ _ _ (call_session BIO_reset_out s2 _ x2 1 Hf2 Ho2 E2)).
  cbn [Z.eqb Pos.eqb negb tls_state_]. rewrite s32_small by lia.
  destruct (IH text (off + k) (n + k) (with_ssl s2 (mkSslServer (tls_state_ o) x2))) as (s' & recs & E' & Hs' & Hlog & Hc);
    [split; destruct s2; try done; by eexists|lia..|].
  exists s', (out_mem x1 :: recs). rewrite E'. split_and!; [f_equal; lia|done| |].
  - rewrite Hlog. replace (uv_log_ (with_ssl s2 _)) with (uv_log_ s2) by (destruct s2; done).
    rewrite Hl2, <- app_assoc. unfold s1. destruct s; done.
  - cbn [map concat]. rewrite Hc, Hun, Et. replace (Z.to_nat (off + k)) with (Z.to_nat off + Z.to_nat k)%nat by lia.
    rewrite <- drop_drop, firstn_skipn. done.
Qed.

(** A TLS session in use. *)
Record tls_serving {HXR : OpenSslRecords X} s : Prop := {
  ts_freed : freed_ s = false;
  ts_close : close_ s = false;
  ts_closing : uv_closing_ s = false;
  ts_enable : ssl_enable_ s = true;
  ts_results : all_success (uv_results_ s);
  ts_ssl : exists x, ssl_ s = Some (mkSslServer TLS_SERVER_DATA_RECV_STATE x) /\ sealing x }.

Lemma AsyncWrite_record {HXR : OpenSslRecords X} s d : tls_serving s -> 0 < Zlen d <= 16384 ->
  exists s' rec, AsyncWrite d s = Done s' tt /\ tls_serving s' /\ Zlen d + overhead <= Zlen rec <= 18437 /\ uv_writes_ s' = uv_writes_ s ++ [rec].
Proof.
  intros [Hf Hc Hu He Hr (x & Ho & Hx)] Hd. destruct (SSL_write_record x d Hx Hd) as (x1 & x2 & E1 & Hl & E2 & Hx2).
  set (s1 := with_ssl s (mkSslServer TLS_SERVER_DATA_RECV_STATE x1)).
  destruct (session_send_eq s1) as (rs & Hrs & Es); [by destruct s..|]. specialize (Es (out_mem x1)).
  match type of Es with _ = Done ?t _ => set (s2 := t) in Es end.
  assert (Hs2 : freed_ s2 = false /\ ssl_ s2 = Some (mkSslServer TLS_SERVER_DATA_RECV_STATE x1)) by (destruct s; done).
  exists (with_ssl s2 (mkSslServer TLS_SERVER_DATA_RECV_STATE x2)), (out_mem x1). split; [|split_and!; [split; destruct s; try done; by exists x2|apply Hl|apply Hl|by destruct s]].
  unfold AsyncWrite. rewrite (bind_done _ _ _ _ _ (this_done s Hf)). erewrite bind_done by reflexivity. rewrite He, Ho. cbn [andb].
  enough (E : SslWrite d s = Done (with_ssl s2 (mkSslServer TLS_SERVER_DATA_RECV_STATE x2)) (Zlen d)) by (by rewrite (bind_done _ _ _ _ _ E)).
  unfold SslWrite. destruct (length d) as [|fuel] eqn:El; [unfold Zlen in Hd; rewrite El in Hd; cbn in Hd; lia|]. cbn [SslWrite_loop].
  rewrite (proj2 (Z.ltb_lt 0 (Zlen d))) by lia. rewrite s32_small, Z.sub_0_r, slice_0, to_nat_Zlen, firstn_all by lia.
  rewrite (bind_done _ _ _ _ _ (call_session _ s _ x1 (Zlen d) Hf Ho E1)). rewrite (proj2 (Z.leb_gt (Zlen d) 0)) by lia.
  erewrite bind_done by (apply (out_bytes_session s1); [unfold s1; by rewrite with_ssl_freed|apply with_ssl_ssl]).
  cbn [PlaintextDataSend session_owner server_ssl]. rewrite (bind_done _ _ _ _ _ Es). rewrite (bind_done _ _ _ _ _ (call_session BIO_reset_out s2 _ x2 1 (proj1 Hs2) (proj2 Hs2) E2)).
  cbn [Z.eqb Pos.eqb negb tls_state_]. rewrite !Z.add_0_l, s32_small by lia.
  destruct fuel; cbn [SslWrite_loop]; by rewrite Z.ltb_irrefl.
Qed.

(** C29: Writing text on a TLS session ends whatever OpenSSL and libuv answer, and when the session is established and libuv accepts the writes, the records handed to libuv are, in order, those from which the peer reads exactly the text. *)
Theorem tls_write_sends {HXW : OpenSslWriter X} s text : freed_ s = false -> ssl_enable_ s = true ->
  (forall o, ssl_ s = Some o -> AsyncWrite text s <> Stuck) /\
  (tls_writable s -> Zlen text < 2 ^ 31 ->
   exists s' recs, AsyncWrite text s = Done s' tt /\ tls_writable s' /\
     uv_log_ s' = uv_log_ s ++ map SWrite recs /\ concat (map unseal recs) = text).
Proof.
  intros Hf He.
  assert (E : forall o, ssl_ s = Some o -> AsyncWrite text s = (SslWrite text ;; mret tt) s).
  { intros o Ho. unfold AsyncWrite. rewrite (bind_done _ _ _ _ _ (this_done s Hf)).
    erewrite bind_done by reflexivity. rewrite He, Ho. done. }
  split.
  - intros o Ho. rewrite (E o Ho). pose proof (SslWrite_loop_returns (length text) text 0 0 s o Hf Ho) as H.
    unfold mbind, eff_bind. fold (SslWrite (W := TcpSession X) text) in H.
    destruct (SslWrite text s); try done. exfalso. apply H; [unfold Zlen; lia|done].
  - intros Hs H31. pose proof Hs as [_ _ _ (o & Ho & _)]. rewrite (E o Ho).
    destruct (SslWrite_loop_sends (length text) text 0 0 s Hs) as (s' & recs & E' & H1 & H2 & H3);
      [pose proof (Zlen_nonneg text); lia|done|unfold Zlen; lia|lia|].
    exists s', recs. unfold SslWrite. rewrite (bind_done _ _ _ _ _ E'). done.
Qed.
End tls.

(** ** Reads and late callbacks *)

Section reads.
Context {X C : Type} {HX : OpenSsl X} {HC : TcpSessionCallbackI X C}.
Implicit Types (s : TcpSession X) (c : C).

Lemma on_session_done {A} (m : eff (TcpSession X) A) s c s' a : m s = Done s' a ->
  on_session m (s, c) = Done (s', c) a.
Proof. intros E. unfold on_session, zoom. cbn [fst]. rewrite E. done. Qed.

Lemma call_pair {A} (f : X -> X * A) s c o x a : freed_ s = false -> ssl_ s = Some o ->
  f (server_ssl o) = (x, a) ->
  call f (s, c) = Done (with_ssl s (mkSslServer (tls_state_ o) x), c) a.
Proof.
  intros Hf Ho E. unfold call, self. rewrite bind_assoc. erewrite bind_done by reflexivity.
  cbn [own_ssl session_owner_pair session_owner fst]. rewrite Hf, Ho.
  erewrite bind_done by reflexivity. rewrite E. done.
Qed.
Lemma self_pair s c o : freed_ s = false -> ssl_ s = Some o -> self (s, c) = Done (s, c) o.
Proof.
  intros Hf Ho. unfold self. erewrite bind_done by reflexivity.
  cbn [own_ssl session_owner_pair session_owner fst]. rewrite Hf, Ho. done.
Qed.
Lemma set_state_pair st s c o : freed_ s = false -> ssl_ s = Some o ->
  set_state st (s, c) = Done (with_ssl s (mkSslServer st (server_ssl o)), c) tt.
Proof. intros Hf Ho. unfold set_state. rewrite (bind_done _ _ _ _ _ (self_pair s c o Hf Ho)). done. Qed.
Lemma out_bytes_pair s c o : freed_ s = false -> ssl_ s = Some o ->
  out_bytes (s, c) = Done (s, c) (out_mem (server_ssl o)).
Proof. intros Hf Ho. unfold out_bytes. rewrite (bind_done _ _ _ _ _ (self_pair s c o Hf Ho)). done. Qed.

(** A TLS session whose handshake the code takes for finished. *)
Record tls_reading s (x : X) : Prop := {
  tr_freed : freed_ s = false;
  tr_close : close_ s = false;
  tr_enable : ssl_enable_ s = true;
  tr_ssl : ssl_ s = Some (mkSslServer TLS_SERVER_DATA_RECV_STATE x) }.

Lemma session_OnRead_tls s c data : freed_ s = false -> close_ s = false -> ssl_enable_ s = true -> data <> [] ->
  session_OnRead (Zlen data) data (s, c) =
  (ret ← Handshake data;
   if negb (ret =? 0) then on_session Close
   else HandleSslDataRecv (cb_OnRead 0) data ;; on_session AsyncRead) (s, c).
Proof.
  intros Hf Hc He Hd. unfold session_OnRead.
  rewrite (bind_done _ _ _ _ _ (on_session_done _ s c _ _ (this_done s Hf))).
  erewrite bind_done by reflexivity. cbn [fst]. rewrite Hc, He.
  pose proof (Zlen_nonneg data). destruct (Z.eqb_spec (Zlen data) 0) as [E|]; [by apply Zlen_0_nil in E|].
  destruct (Z.ltb_spec (Zlen data) 0); [lia|]. done.
Qed.

Lemma Handshake_done s c o : freed_ s = false -> ssl_ s = Some o -> 3 <= server_rank (tls_state_ o) ->
  forall data, Handshake data (s, c) = Done (s, c) 0.
Proof.
  intros Hf Ho Hr data. unfold Handshake. rewrite (bind_done _ _ _ _ _ (self_pair s c o Hf Ho)).
  cbn [server_rank]. destruct (Z.leb_spec 3 (server_rank (tls_state_ o))); [done|lia].
Qed.

Lemma SSL_read_first {HXR : OpenSslReader X} (x : X) data r rs : established x -> app_data x data -> data <> [] ->
  pending x ++ arrivals x data = r :: rs -> Forall (fun r => r <> []) (pending x) ->
  exists x1 x', BIO_write data x = (x1, Zlen data) /\
    SSL_read SSL_DEF_RECV_BUFFER_SIZE x1 =
      (x', (Zlen (firstn (Z.to_nat SSL_DEF_RECV_BUFFER_SIZE) r), SSL_ERROR_NONE,
            firstn (Z.to_nat SSL_DEF_RECV_BUFFER_SIZE) r)) /\
    established x' /\ 0 < Zlen (firstn (Z.to_nat SSL_DEF_RECV_BUFFER_SIZE) r) /\
    pending x' = if SSL_DEF_RECV_BUFFER_SIZE <? Zlen r then skipn (Z.to_nat SSL_DEF_RECV_BUFFER_SIZE) r :: rs else rs.
Proof.
  intros He Ha Hd Hp Hne. destruct (BIO_write_law x data He Ha Hd) as (x1 & E1 & He1 & Hp1).
  assert (Hr : r <> []).
  { assert (Hall : Forall (fun r => r <> []) (r :: rs)) by (rewrite <- Hp; apply Forall_app; split; [done|by apply arrivals_law]).
    by apply Forall_inv in Hall. }
  destruct (SSL_read_law x1 SSL_DEF_RECV_BUFFER_SIZE r rs He1) as (x' & E2 & He2 & Hp2); [by rewrite Hp1|done|done|].
  exists x1, x'. split_and!; try done.
  rewrite Zlen_take by done. assert (0 < Zlen r); [|unfold SSL_DEF_RECV_BUFFER_SIZE; lia].
  destruct r; [done|]. rewrite Zlen_cons. zlen.
Qed.

(** On an established TLS session every read of application data delivers at most one record, and of that at most the first 10240 bytes, to the callback; whatever else has arrived stays in OpenSSL until the peer sends again.  After the callback the session asks for the next read through its own members: when the callback has destroyed the session, that is a use after free. *)
Lemma tls_read_one_record {HXR : OpenSslReader X} s c x data r rs :
  tls_reading s x -> established x -> Forall (fun r => r <> []) (pending x) -> app_data x data -> data <> [] ->
  pending x ++ arrivals x data = r :: rs ->
  exists x', tls_reading (with_ssl s (mkSslServer TLS_SERVER_DATA_RECV_STATE x')) x' /\ established x' /\
    pending x' = (if SSL_DEF_RECV_BUFFER_SIZE <? Zlen r then skipn (Z.to_nat SSL_DEF_RECV_BUFFER_SIZE) r :: rs else rs) /\
    let called := cb_OnRead 0 (firstn (Z.to_nat SSL_DEF_RECV_BUFFER_SIZE) r)
                    (with_ssl s (mkSslServer TLS_SERVER_DATA_RECV_STATE x'), c) in
    (forall w, called = Done w tt -> session_OnRead (Zlen data) data (s, c) = on_session AsyncRead w) /\
    (forall w, called = Done w tt -> freed_ (fst w) = true -> session_OnRead (Zlen data) data (s, c) = Stuck).
Proof.
  intros [Hf Hc He Ho] Hx Hne Ha Hd Hp.
  destruct (SSL_read_first x data r rs Hx Ha Hd Hp Hne) as (x1 & x' & E1 & E2 & He' & Hpos & Hp').
  exists x'. split; [split; destruct s; done|]. split; [done|]. split; [done|]. intros called.
  assert (E : forall w, called = Done w tt -> session_OnRead (Zlen data) data (s, c) = on_session AsyncRead w).
  { intros w Ew. rewrite session_OnRead_tls by done.
    rewrite (bind_done _ _ _ _ _ (Handshake_done s c _ Hf Ho ltac:(done) data)). cbn [Z.eqb negb].
    enough (EH : HandleSslDataRecv (cb_OnRead 0) data (s, c) = Done w 0) by (rewrite (bind_done _ _ _ _ _ EH); done).
    unfold HandleSslDataRecv. rewrite (bind_done _ _ _ _ _ (self_pair s c _ Hf Ho)).
    cbn [tls_state_ server_rank Z.ltb Z.compare Pos.compare Pos.compare_cont].
    rewrite decide_False by done. pose proof (Zlen_nonneg data).
    rewrite (bind_done _ _ _ _ _ (call_pair _ s c _ x1 (Zlen data) Hf Ho E1)).
    destruct (Z.leb_spec (Zlen data) 0) as [Hz|_]; [by assert (E0 : Zlen data = 0) by lia; apply Zlen_0_nil in E0|].
    erewrite bind_done by (apply (call_pair _ _ c (mkSslServer TLS_SERVER_DATA_RECV_STATE x1));
      [by rewrite with_ssl_freed|apply with_ssl_ssl|exact E2]).
    cbv beta iota. rewrite (proj2 (Z.ltb_lt _ _) Hpos). cbn [tls_state_].
    replace (with_ssl (with_ssl s _) _) with (with_ssl s (mkSslServer TLS_SERVER_DATA_RECV_STATE x')) by (destruct s; done).
    fold called. rewrite (bind_done _ _ _ _ _ Ew). done. }
  split; [done|]. intros w Ew Hw. rewrite (E w Ew). unfold on_session, zoom, AsyncRead, this, mbind, eff_bind, get.
  rewrite Hw. done.
Qed.

Lemma session_send_pair s c d s' : session_send d s = Done s' tt ->
  PlaintextDataSend d (s, c) = Done (s', c) tt.
Proof. intros E. cbn [PlaintextDataSend session_owner_pair session_owner]. by apply on_session_done. Qed.

Lemma AsyncRead_done s : freed_ s = false -> close_ s = false -> all_success (uv_results_ s) ->
  exists s', AsyncRead s = Done s' tt /\ ssl_ s' = ssl_ s.
Proof.
  intros Hf Hc Hr. unfold AsyncRead. rewrite (bind_done _ _ _ _ _ (this_done s Hf)).
  erewrite bind_done by reflexivity. rewrite Hc.
  destruct (uv_result_success s Hr) as (rs & E & Hrs). rewrite (bind_done _ _ _ _ _ E).
  eexists. split; [reflexivity|]. destruct s. done.
Qed.

(** [HandleKeyExchange] when the peer's flight is not complete. *)
Lemma HandleKeyExchange_wants_more s c o data x1 k x2 x3 x4 :
  freed_ s = false -> close_ s = false -> uv_closing_ s = false -> all_success (uv_results_ s) -> ssl_ s = Some o ->
  BIO_write data (server_ssl o) = (x1, k) -> 0 < k ->
  SSL_do_handshake x1 = (x2, (-1, SSL_ERROR_WANT_READ)) ->
  (if 0 <? Zlen (out_mem x2) then BIO_reset_in x2 else (x2, 1)) = (x3, 1) -> BIO_reset_out x3 = (x4, 1) ->
  exists s', HandleKeyExchange data (s, c) = Done (s', c) 0 /\ freed_ s' = false /\ close_ s' = false /\
    all_success (uv_results_ s') /\ ssl_ s' = Some (mkSslServer TLS_SERVER_KEY_EXCHANGE_DONE x4).
Proof.
  intros Hf Hc Hu Hr Ho E1 Hk E2 E3 E4. unfold HandleKeyExchange.
  rewrite (bind_done _ _ _ _ _ (call_pair _ s c o x1 k Hf Ho E1)).
  destruct (Z.leb_spec k 0); [lia|]. set (s1 := with_ssl s _).
  assert (H1 : freed_ s1 = false /\ ssl_ s1 = Some (mkSslServer (tls_state_ o) x1)) by (destruct s; done).
  rewrite (bind_done _ _ _ _ _ (call_pair SSL_do_handshake s1 c _ x2 _ (proj1 H1) (proj2 H1) E2)).
  cbv beta iota. cbn [tls_state_]. set (s2 := with_ssl s1 _).
  assert (H2 : freed_ s2 = false /\ ssl_ s2 = Some (mkSslServer (tls_state_ o) x2)) by (destruct s; done).
  change ((-1 =? 1) && (SSL_ERROR_WANT_READ =? SSL_ERROR_NONE)) with false.
  change (negb (-1 =? -1) || negb (SSL_ERROR_WANT_READ =? SSL_ERROR_WANT_READ)) with false. cbn iota.
  set (s3 := with_ssl s (mkSslServer (tls_state_ o) x3)).
  erewrite (bind_done _ _ (s2, c) (s3, c)).
  2:{ rewrite (bind_done _ _ _ _ _ (out_bytes_pair s2 c _ (proj1 H2) (proj2 H2))). cbn [server_ssl].
      destruct (0 <? Zlen (out_mem x2)).
      - rewrite (bind_done _ _ _ _ _ (call_pair BIO_reset_in s2 c _ x3 1 (proj1 H2) (proj2 H2) E3)).
        cbn [tls_state_]. replace (with_ssl s2 _) with s3 by (destruct s; done). reflexivity.
      - injection E3 as ->. erewrite bind_done by reflexivity. replace s2 with s3 by (destruct s; done). reflexivity. }
  cbv beta iota. cbn [Z.eqb Pos.eqb negb].
  destruct (session_send_done s3 (out_mem x2)) as (s4 & E & Hf4 & Hu4 & Hr4 & Ho4 & _ & Hc4);
    [unfold s3; destruct s; done..|].
  rewrite (bind_done _ _ _ _ _ (session_send_pair s3 c _ s4 E)).
  unfold s3 in Ho4, Hc4. rewrite with_ssl_ssl in Ho4.
  rewrite (bind_done _ _ _ _ _ (call_pair BIO_reset_out s4 c _ x4 1 Hf4 Ho4 E4)).
  cbn [Z.eqb Pos.eqb negb tls_state_].
  erewrite bind_done by (apply set_state_pair; [by rewrite with_ssl_freed|apply with_ssl_ssl]).
  eexists. split; [reflexivity|]. cbn [server_ssl]. destruct s, s4. cbn in *. subst. done.
Qed.

(** When the client's key exchange is cut into two reads, OpenSSL asks for more data after the first one; the session nevertheless takes the handshake for finished, moves on to the data state within the same read, and hands what follows to [SSL_read] without ever sending the handshake answer OpenSSL produces. *)
Lemma cut_handshake_taken_for_done s c x data x1 k x2 x3 x4 :
  freed_ s = false -> close_ s = false -> uv_closing_ s = false -> ssl_enable_ s = true ->
  all_success (uv_results_ s) -> ssl_ s = Some (mkSslServer TLS_SSL_SERVER_HELLO_DONE x) -> data <> [] ->
  BIO_write data x = (x1, k) -> 0 < k -> SSL_do_handshake x1 = (x2, (-1, SSL_ERROR_WANT_READ)) ->
  (if 0 <? Zlen (out_mem x2) then BIO_reset_in x2 else (x2, 1)) = (x3, 1) -> BIO_reset_out x3 = (x4, 1) ->
  exists s', session_OnRead (Zlen data) data (s, c) = Done (s', c) tt /\
    ssl_ s' = Some (mkSslServer TLS_SERVER_DATA_RECV_STATE x4).
Proof.
  intros Hf Hc Hu He Hr Ho Hd E1 Hk E2 E3 E4. rewrite session_OnRead_tls by done.
  destruct (HandleKeyExchange_wants_more s c _ data x1 k x2 x3 x4 Hf Hc Hu Hr Ho E1 Hk E2 E3 E4)
    as (s1 & E & Hf1 & Hc1 & Hr1 & Ho1).
  assert (EH : Handshake data (s, c) = Done (s1, c) 0).
  { unfold Handshake. rewrite (bind_done _ _ _ _ _ (self_pair s c _ Hf Ho)). cbn [tls_state_ server_rank].
    change (3 <=? 2) with false. cbn iota.
    erewrite (bind_done SslInit) by (unfold SslInit; rewrite (bind_done _ _ _ _ _ (self_pair s c _ Hf Ho)); reflexivity).
    cbn [Z.eqb negb]. rewrite (bind_done _ _ _ _ _ (self_pair s c _ Hf Ho)). exact E. }
  rewrite (bind_done _ _ _ _ _ EH). cbn [Z.eqb negb].
  assert (ER : HandleSslDataRecv (cb_OnRead 0) data (s1, c) =
    Done (with_ssl s1 (mkSslServer TLS_SERVER_DATA_RECV_STATE x4), c) 0).
  { unfold HandleSslDataRecv. rewrite (bind_done _ _ _ _ _ (self_pair s1 c _ Hf1 Ho1)). cbn [tls_state_ server_rank].
    change (3 <? 3) with false. cbn iota. rewrite decide_True by done.
    rewrite (bind_done _ _ _ _ _ (set_state_pair TLS_SERVER_DATA_RECV_STATE s1 c _ Hf1 Ho1)). done. }
  rewrite (bind_done _ _ _ _ _ ER). set (s2 := with_ssl s1 _).
  destruct (AsyncRead_done s2) as (s3 & E5 & Ho3); [unfold s2; destruct s1; done..|].
  exists s3. rewrite (on_session_done _ s2 c _ _ E5). split; [done|]. rewrite Ho3. apply with_ssl_ssl.
Qed.

(** A session destroyed while libuv still holds one of its writes is used after it has been freed: libuv reports the cancelled write to the session the handle still points to. *)
Lemma destroyed_with_write_in_flight s s' c wr rest status :
  uv_writes_ s = wr :: rest -> TcpSession_destroy s = Done s' tt ->
  session_OnUvWrite status (s', c) = Stuck.
Proof.
  intros Hw Hd. assert (E : freed_ s' = true /\ uv_writes_ s' = wr :: rest).
  { destruct s as [cl se so ln pn fr uc uw ur ul]. cbn in Hw. subst uw.
    destruct fr; [discriminate Hd|]. destruct cl; [injection Hd as <-; done|].
    destruct ur as [|r ur]; [injection Hd as <-; done|].
    unfold TcpSession_destroy, try_catch, Close, this, uv_result, log, modify, get, mbind, eff_bind, mret, eff_ret in Hd.
    cbn in Hd.
    destruct (r =? 0); [injection Hd as <-; done|discriminate Hd]. }
  destruct E as [Ef Ew]. unfold session_OnUvWrite. erewrite bind_done by reflexivity. cbn [fst]. rewrite Ew.
  erewrite bind_done by reflexivity. cbn [fst snd]. unfold session_OnWrite, mbind, eff_bind, on_session, zoom, this.
  unfold mbind, eff_bind, get. cbn [fst]. replace (freed_ _) with true by (destruct s'; done). done.
Qed.
End reads.

(** ** The listening socket *)

(** Results of [uv_tcp_bind] and [uv_listen] are not looked at.  [server_data_] is
    [server_handle_.data]; the handle is a member of the object. *)
Record TcpServer : Type := mkTcpServer { closed_ : bool; server_data_ : bool; listening_ : bool }.
Definition TcpServer_new (bind listen : Z) : TcpServer :=
  mkTcpServer false true ((bind =? 0) && (listen =? 0)).
Definition TcpServer_Close (s : TcpServer) : TcpServer :=
  if closed_ s then s else mkTcpServer true false false.
(** [on_uv_connection] and [OnConnection]: the status passed to [OnAccept], if it is called. *)
Definition on_uv_connection (s : TcpServer) (callback : bool) (status : Z) : option Z :=
  if server_data_ s && callback then Some status else None.
(** [on_uv_server_close] deletes the handle, which was not allocated by itself. *)
Definition on_uv_server_close {A} : res A := Undef.

(** ** Witnesses *)

#[export] Instance demo_writer : OpenSslWriter demo_ssl.
Proof.
  refine {| writing x := demo_out x = []; unseal d := d |}.
  intros x t Hx Ht. eexists _, _, _. split; [reflexivity|]. split.
  - destruct t as [|a [|b t]]; [done|..]; unfold Zlen; rewrite length_firstn; cbn [length]; lia.
  - cbn [out_mem demo_openssl demo_out]. rewrite Hx. split; [|split; [reflexivity|done]].
    destruct t as [|a [|b t]]; done.
Defined.

#[export] Instance demo_reader : OpenSslReader demo_ssl.
Proof.
  refine {| established x := True; pending := demo_in; app_data _ d := bytes_ok d; arrivals x d := map (fun b => [b]) d |}.
  - intros x d _. apply Forall_forall. intros r Hr. apply list_elem_of_fmap in Hr as (b & -> & _). done.
  - intros x d _ _ _. eexists. split; [reflexivity|]. done.
  - intros x n r rs _ E _ _. eexists. cbn [SSL_read demo_openssl]. rewrite E. split; [reflexivity|]. done.
  - intros x n _ E. eexists. cbn [SSL_read demo_openssl]. rewrite E. split; [reflexivity|]. done.
Defined.

(** A callback object that records its reads, and one that destroys the session. *)
Definition demo_log : Type := list (Z * bytes).
#[export] Instance demo_log_callback : TcpSessionCallbackI demo_ssl demo_log := {
  cb_OnWrite _ _ := mret tt;
  cb_OnRead ret data := modify (fun w => (fst w, snd w ++ [(ret, data)])) }.
#[export] Instance demo_closing_callback : TcpSessionCallbackI demo_ssl unit := {
  cb_OnWrite _ _ := mret tt;
  cb_OnRead ret data := on_session TcpSession_destroy }.

Definition demo_addr : sockaddr := mkSockaddr AF_INET 80 [127; 0; 0; 1].
Definition demo_tls (st : TLS_SERVER_STATE) (hs : list (Z * Z)) : TcpSession demo_ssl :=
  mkTcpSession false true (Some (mkSslServer st (mkDemoSsl [] [] hs))) demo_addr demo_addr false false [] [] [].
Definition demo_plain : TcpSession demo_ssl :=
  mkTcpSession false false None demo_addr demo_addr false false [] [] [].

Lemma session_refines_log_witness :
  out_rel plain_sim (for_each [SRead; SWrite [1]; SClose; SWrite [2]] run_request demo_plain)
    (for_each [SRead; SWrite [1]; SClose; SWrite [2]] run_request (mkLog [] false)).
Proof. apply (session_refines_log _ demo_addr demo_addr []); [reflexivity|constructor]. Defined.

Lemma tls_write_sends_witness :
  exists s' recs, AsyncWrite [1; 2; 3] (demo_tls TLS_SERVER_DATA_RECV_STATE []) = Done s' tt /\
    tls_writable s' /\ uv_log_ s' = [] ++ map SWrite recs /\ concat (map unseal recs) = [1; 2; 3].
Proof.
  apply (proj2 (tls_write_sends (demo_tls TLS_SERVER_DATA_RECV_STATE []) [1; 2; 3] eq_refl eq_refl)); [|reflexivity].
  split; [reflexivity|reflexivity|constructor|]. eexists. split; reflexivity.
Defined.

Lemma tls_read_one_record_witness :
  exists x', tls_reading (with_ssl (demo_tls TLS_SERVER_DATA_RECV_STATE []) (mkSslServer TLS_SERVER_DATA_RECV_STATE x')) x' /\
    established x' /\ pending x' = [[8]; [9]] /\
    let called := cb_OnRead 0 [7] (with_ssl (demo_tls TLS_SERVER_DATA_RECV_STATE []) (mkSslServer TLS_SERVER_DATA_RECV_STATE x'), tt) in
    (forall w, called = Done w tt ->
       session_OnRead 3 [7; 8; 9] (demo_tls TLS_SERVER_DATA_RECV_STATE [], tt) = on_session AsyncRead w) /\
    (forall w, called = Done w tt -> freed_ (fst w) = true ->
       session_OnRead 3 [7; 8; 9] (demo_tls TLS_SERVER_DATA_RECV_STATE [], tt) = Stuck).
Proof.
  apply (tls_read_one_record (demo_tls TLS_SERVER_DATA_RECV_STATE []) tt (mkDemoSsl [] [] []) [7; 8; 9] [7] [[8]; [9]]).
  - split; reflexivity.
  - exact Logic.I.
  - constructor.
  - repeat constructor; discriminate.
  - discriminate.
  - reflexivity.
Defined.

Example destroyed_in_callback :
  session_OnRead 3 [7; 8; 9] (demo_tls TLS_SERVER_DATA_RECV_STATE [], tt) = Stuck.
Proof. reflexivity. Qed.

Lemma cut_handshake_taken_for_done_witness :
  exists s', session_OnRead 2 [22; 3] (demo_tls TLS_SSL_SERVER_HELLO_DONE [(-1, SSL_ERROR_WANT_READ)], []) = Done (s', []) tt /\
    ssl_ s' = Some (mkSslServer TLS_SERVER_DATA_RECV_STATE (mkDemoSsl [] [] [])).
Proof.
  apply (cut_handshake_taken_for_done (demo_tls TLS_SSL_SERVER_HELLO_DONE [(-1, SSL_ERROR_WANT_READ)]) [] 
    (mkDemoSsl [] [] [(-1, SSL_ERROR_WANT_READ)]) [22; 3] (mkDemoSsl [[22]; [3]] [] [(-1, SSL_ERROR_WANT_READ)]) 2
    (mkDemoSsl [[22]; [3]] [22] []) (mkDemoSsl [] [22] [])); try reflexivity; [constructor|discriminate].
Defined.

Definition demo_in_flight : TcpSession demo_ssl := demo_plain <| uv_writes_ := [[1; 2]] |>.
Definition demo_destroyed : TcpSession demo_ssl :=
  mkTcpSession true false None demo_addr demo_addr true true [[1; 2]] [] [SClose].
Lemma destroyed_with_write_in_flight_witness : session_OnUvWrite UV_ECANCELED (demo_destroyed, @nil (Z * bytes)) = Stuck.
Proof. apply (destroyed_with_write_in_flight demo_in_flight demo_destroyed [] [1; 2] []); reflexivity. Defined.
