(* ===== verification/TcpClient.v ===== *)
(** The TCP client ([src/src/net/tcp/tcp_client.hpp]).

    Modelled as the sessions of [Tcp.v]: the client with its libuv handle.  [handle_] says that
    [connect_->handle] has been set, which only [uv_tcp_connect] does; using it before is
    undefined, as is using the list of addresses after [freeaddrinfo].  [leaked_] are the write
    requests that are never freed. *)
From S2P Require Import Prelude Eff ByteQueue StdText IpAddress TcpPub Ssl Tcp.

Inductive client_request : Type :=
| CConnect (addr : sockaddr)
| CWrite (data : bytes)
| CReadStart
| CReadStop
| CClose.

(** [htons] on a little-endian host. *)
Definition htons (p : Z) : Z := Z.lor (Z.shiftl (Z.land p 255) 8) (Z.shiftr p 8).

Section client.
Context {X : Type} {HX : OpenSsl X} {I : InetLib} (getaddrinfo : bytes -> Z -> option sockaddr).

Record TcpClient : Type := mkTcpClient {
  is_connect_ : bool;
  read_start_ : bool;
  cssl_enable_ : bool;
  ssl_client_ : option (SslClient X);
  dst_addr_ : sockaddr;
  handle_ : bool;
  cfreed_ : bool;
  cuv_writes_ : list bytes;
  cuv_results_ : list Z;
  cuv_log_ : list client_request;
  leaked_ : list bytes }.

Definition TcpClient_new (ssl : option X) (addr : sockaddr) (results : list Z) : TcpClient :=
  mkTcpClient false false (match ssl with Some _ => true | None => false end)
    (match ssl with Some x => Some (mkSslClient TLS_SSL_CLIENT_ZERO x) | None => None end)
    addr false false [] results [] [].

Abbreviation M := (eff TcpClient).

Definition cthis : M unit := s ← get; if cfreed_ s then stuck else mret tt.
Definition cuv_result : M Z :=
  s ← get;
  match cuv_results_ s with
  | [] => mret 0
  | r :: rs => modify (fun s => s <| cuv_results_ := rs |>) ;; mret r
  end.
Definition clog (r : client_request) : M unit := modify (fun s => s <| cuv_log_ ::= fun l => l ++ [r] |>).
(** A use of [connect_->handle]. *)
Definition use_handle : M unit := s ← get; if handle_ s then mret tt else stuck.

(** [PlaintextDataSend] and the plain case of [Send]: [what] is the text of the exception. *)
Definition client_write (what : String.string) (data : bytes) : M unit :=
  cthis ;; use_handle ;;
  err ← cuv_result;
  if negb (err =? 0) then raise (uv_error what)
  else clog (CWrite data) ;; modify (fun s => s <| cuv_writes_ ::= fun l => l ++ [data] |>).

#[export] Instance client_owner : SslOwner TcpClient (SslClient X) := {
  own_ssl s := if cfreed_ s then None else ssl_client_ s;
  own_put s o := s <| ssl_client_ := Some o |>;
  PlaintextDataSend := client_write "PlaintextDataSend uv_write error" }.

Definition Connect (host : bytes) (dst_port : Z) : M unit :=
  cthis ;;
  (if negb (IsIPv4 host) then
     match getaddrinfo host dst_port with
     | None => raise (uv_error "get address info error")
     | Some _ => stuck
     end
   else modify (fun s => s <| dst_addr_ := GetIpv4Sockaddr host (htons dst_port) (dst_addr_ s) |>)) ;;
  r ← cuv_result;
  if negb (r =? 0) then raise (uv_error "connect address error")
  else s ← get; clog (CConnect (dst_addr_ s)) ;; modify (fun s => s <| handle_ := true |>).

Definition Send (data : bytes) : M unit :=
  cthis ;;
  s ← get;
  if cssl_enable_ s then cSslWrite data ;; mret tt else client_write "uv_write error" data.

Definition client_AsyncRead : M unit :=
  cthis ;;
  s ← get;
  if negb (is_connect_ s) then mret tt
  else if read_start_ s then mret tt
  else
    modify (fun s => s <| read_start_ := true |>) ;;
    use_handle ;;
    r ← cuv_result; clog CReadStart ;;
    if negb (r =? 0) then
      if r =? UV_EALREADY then mret tt
      else raise (StreamExn (bstr "uv_read_start error:" ++ to_string_int r))
    else mret tt.

Definition client_Close : M unit :=
  cthis ;;
  s ← get;
  if negb (is_connect_ s) then mret tt
  else modify (fun s => s <| is_connect_ := false |>) ;; use_handle ;; clog CReadStop.

(** The destructor: [uv_read_stop(connect_->handle)] whether or not there was a connection. *)
Definition TcpClient_destroy : M unit :=
  client_Close ;; use_handle ;; clog CReadStop ;; clog CClose ;;
  modify (fun s => s <| cfreed_ := true |>).

#[export] Instance tcp_client : TcpClientI TcpClient := {
  tc_connect := Connect; tc_send := Send; tc_read := client_AsyncRead; tc_close := client_Close }.
End client.
Arguments TcpClient X : clear implicits.

(** [TcpClientCallback], with the callback object's state [C]. *)
Class TcpClientCallback (X C : Type) : Type := {
  ccb_OnConnect : Z -> eff (TcpClient X * C) unit;
  ccb_OnWrite : Z -> Z -> eff (TcpClient X * C) unit;
  ccb_OnRead : Z -> bytes -> eff (TcpClient X * C) unit }.

Section client_callbacks.
Context {X C : Type} {HX : OpenSsl X} {HC : TcpClientCallback X C}.
Abbreviation W := (TcpClient X * C)%type.

Definition on_client {A} (m : eff (TcpClient X) A) : eff W A := zoom fst (fun w s => (s, snd w)) m.

#[export] Instance client_owner_pair : SslOwner W (SslClient X) := {
  own_ssl w := own_ssl (fst w);
  own_put w o := (own_put (fst w) o, snd w);
  PlaintextDataSend data := on_client (PlaintextDataSend data) }.

Definition client_OnConnect (status : Z) : eff W unit :=
  on_client cthis ;;
  when (status =? 0) (on_client (modify (fun s => s <| is_connect_ := true |>))) ;;
  w ← get;
  if negb (cssl_enable_ (fst w)) then ccb_OnConnect status
  else
    ssl ← cself;
    match state_ ssl with
    | TLS_SSL_CLIENT_ZERO =>
        ret ← ClientHello;
        when (ret <? 0) (ccb_OnConnect ret)
    | _ => mret tt
    end.

Definition client_OnWrite (wr : bytes) (status : Z) : eff W unit :=
  on_client cthis ;;
  w ← get;
  handshaking ← (if cssl_enable_ (fst w)
                 then ssl ← cself; mret (client_rank (state_ ssl) <? client_rank TLS_CLIENT_READY)
                 else mret false);
  if (handshaking : bool) then
    on_client (modify (fun s => s <| leaked_ ::= fun l => l ++ [wr] |>)) ;; on_client client_AsyncRead
  else ccb_OnWrite status (Zlen wr).
Definition OnUVClientWrite (status : Z) : eff W unit :=
  w ← get;
  match cuv_writes_ (fst w) with
  | [] => stuck
  | wr :: rest => on_client (modify (fun s => s <| cuv_writes_ := rest |>)) ;; client_OnWrite wr status
  end.

(** [fuel] bounds the reads of [HandleSslDataRecv]. *)
Definition client_OnRead (fuel : nat) (nread : Z) (base : bytes) : eff W unit :=
  on_client cthis ;;
  if nread <? 0 then ccb_OnRead nread []
  else if nread =? 0 then mret tt
  else
    w ← get;
    if negb (cssl_enable_ (fst w)) then ccb_OnRead 0 base
    else
      ssl ← cself;
      match state_ ssl with
      | TLS_CLIENT_HELLO_DONE =>
          ret ← RecvServerHello base;
          if ret <? 0 then ccb_OnConnect ret else when (0 <? ret) (on_client client_AsyncRead)
      | TLS_CLIENT_KEY_EXCHANGE =>
          ret ← HandleSessionTicket base;
          if ret <? 0 then ccb_OnConnect ret
          else if 0 <? ret then on_client client_AsyncRead
          else ccb_OnConnect 0
      | TLS_CLIENT_READY => cHandleSslDataRecv fuel (ccb_OnRead 0) base ;; mret tt
      | TLS_SSL_CLIENT_ZERO => stuck
      end.
(** [OnUVClientRead]: only while connected. *)
Definition OnUVClientRead (fuel : nat) (nread : Z) (base : bytes) : eff W unit :=
  on_client cthis ;;
  w ← get; when (is_connect_ (fst w)) (client_OnRead fuel nread base).
End client_callbacks.

(** ** Plain clients discharge the interface *)

Section plain_client.
Context {X : Type} {HX : OpenSsl X} {I : InetLib} (getaddrinfo : bytes -> Z -> option sockaddr).
Implicit Types s : TcpClient X.

Lemma cuv_result_success s : all_success (cuv_results_ s) ->
  exists rs, cuv_result s = Done (s <| cuv_results_ := rs |>) 0 /\ all_success rs.
Proof.
  intros H. unfold cuv_result. erewrite bind_done by reflexivity. destruct (cuv_results_ s) as [|r rs] eqn:E.
  - exists []. split; [|constructor]. f_equal. destruct s; cbn in *. by rewrite E.
  - apply Forall_cons in H as [-> H]. exists rs. done.
Qed.
Lemma cthis_done s : cfreed_ s = false -> cthis s = Done s tt.
Proof. intros H. unfold cthis. erewrite bind_done by reflexivity. rewrite H. done. Qed.

Record client_open s : Prop := {
  co_freed : cfreed_ s = false;
  co_handle : handle_ s = true;
  co_results : all_success (cuv_results_ s) }.

Lemma client_AsyncRead_done s : client_open s -> exists s', client_AsyncRead s = Done s' tt /\ client_open s'.
Proof.
  intros H. pose proof H as [Hf Hh Hr]. unfold client_AsyncRead. rewrite (bind_done _ _ _ _ _ (cthis_done s Hf)).
  erewrite bind_done by reflexivity. destruct (is_connect_ s); cbn [negb]; [|by exists s].
  destruct (read_start_ s); [by exists s|]. erewrite bind_done by reflexivity.
  set (s1 := s <| read_start_ := true |>). unfold use_handle.
  erewrite (bind_done _ _ s1 s1 tt) by (erewrite bind_done by reflexivity; replace (handle_ s1) with true by (destruct s; done); done).
  destruct (cuv_result_success s1) as (rs & E & Hrs); [unfold s1; destruct s; done|].
  rewrite (bind_done _ _ _ _ _ E). eexists. split; [reflexivity|]. destruct s. split; done.
Qed.

#[export] Instance client_laws :
  TcpClientLaws (H := tcp_client getaddrinfo) (TcpClient X) := {
  tcl_open := client_open;
  tcl_read_law := client_AsyncRead_done }.
End plain_client.

(** ** TLS reads of the client *)

(** A callback object that records what it is given. *)
#[export] Instance client_log {X} : TcpClientCallback X (list (Z * bytes)) := {
  ccb_OnConnect _ := mret tt;
  ccb_OnWrite _ _ := mret tt;
  ccb_OnRead ret data := modify (fun w => (fst w, snd w ++ [(ret, data)])) }.

Section tls_client.
Context {X : Type} {HX : OpenSsl X} {HXR : OpenSslReader X}.
Implicit Types (s : TcpClient X) (c : list (Z * bytes)).

Definition with_client_ssl s (x : X) : TcpClient X := s <| ssl_client_ := Some (mkSslClient TLS_CLIENT_READY x) |>.
Record client_ready s (x : X) : Prop := {
  cr_freed : cfreed_ s = false;
  cr_enable : cssl_enable_ s = true;
  cr_ssl : ssl_client_ s = Some (mkSslClient TLS_CLIENT_READY x);
  cr_established : established x;
  cr_pending : Forall (fun r => r <> []) (pending x) }.

Lemma client_ready_with s x x' : client_ready s x -> established x' -> Forall (fun r => r <> []) (pending x') ->
  client_ready (with_client_ssl s x') x'.
Proof. intros [Hf He Ho _ _] ? ?. split; destruct s; done. Qed.

Lemma ccall_ready {A} (f : X -> X * A) s c x x' a : client_ready s x -> f x = (x', a) ->
  ccall f (s, c) = Done (with_client_ssl s x', c) a.
Proof.
  intros [Hf He Ho _ _] E. unfold ccall, cself. rewrite bind_assoc. erewrite bind_done by reflexivity.
  cbn [own_ssl client_owner_pair client_owner fst]. rewrite Hf, Ho.
  erewrite bind_done by reflexivity. cbn [client_ssl]. rewrite E. done.
Qed.

Definition total (ps : list bytes) : nat := length (concat ps).

(** The loop reads until OpenSSL has nothing left. *)
Lemma ssl_read_loop_drains fuel : forall s c x, client_ready s x -> (total (pending x) < fuel)%nat ->
  exists x' chunks, ssl_read_loop fuel (ccb_OnRead 0) (s, c) =
      Done (with_client_ssl s x', c ++ map (fun t => (0, t)) chunks) 0 /\
    client_ready (with_client_ssl s x') x' /\ pending x' = [] /\ concat chunks = concat (pending x).
Proof.
  induction fuel as [|fuel IH]; intros s c x Hs Hl; [lia|]. cbn [ssl_read_loop].
  destruct (pending x) as [|r rs] eqn:Ep.
  - destruct (SSL_read_empty_law x SSL_DEF_RECV_BUFFER_SIZE (cr_established _ _ Hs) Ep) as (x' & E & He & Hp).
    rewrite (bind_done _ _ _ _ _ (ccall_ready _ s c x x' _ Hs E)). exists x', [].
    split; [rewrite app_nil_r; done|]. split; [|done].
    apply (client_ready_with s x); [done|done|by rewrite Hp].
  - pose proof (cr_pending _ _ Hs) as Hne. rewrite Ep in Hne. apply Forall_cons in Hne as [Hr Hrs].
    destruct (SSL_read_law x SSL_DEF_RECV_BUFFER_SIZE r rs (cr_established _ _ Hs) Ep Hr ltac:(done)) as (x' & E & He & Hp).
    rewrite (bind_done _ _ _ _ _ (ccall_ready _ s c x x' _ Hs E)). cbv beta iota.
    set (t := firstn (Z.to_nat SSL_DEF_RECV_BUFFER_SIZE) r) in *.
    assert (Ht : 0 < Zlen t).
    { unfold t. rewrite Zlen_take by done. destruct r; [done|]. rewrite Zlen_cons. unfold SSL_DEF_RECV_BUFFER_SIZE. zlen. }
    rewrite (proj2 (Z.ltb_lt _ _) Ht). erewrite bind_done by reflexivity. cbn [fst snd].
    assert (Hc2 : t ++ concat (pending x') = concat (r :: rs)).
    { rewrite Hp. cbn [concat]. destruct (Z.ltb_spec SSL_DEF_RECV_BUFFER_SIZE (Zlen r)) as [Hlt|Hge]; cbn [concat].
      - unfold t. rewrite app_assoc, firstn_skipn. done.
      - unfold t. rewrite firstn_all2; [done|unfold Zlen in Hge; lia]. }
    assert (Hs' : client_ready (with_client_ssl s x') x').
    { apply (client_ready_with s x); [done|done|]. rewrite Hp.
      destruct (Z.ltb_spec SSL_DEF_RECV_BUFFER_SIZE (Zlen r)); [|done]. constructor; [|done].
      intros Ez. apply (f_equal Zlen) in Ez. change (Zlen (@nil Z)) with 0 in Ez. rewrite Zlen_drop in Ez by done. lia. }
    destruct (IH (with_client_ssl s x') (c ++ [(0, t)]) x' Hs') as (x2 & chunks & E2 & Hr2 & Hp2 & Hcc).
    { unfold total in *. rewrite <- Hc2, length_app in Hl. unfold Zlen in Ht. lia. }
    exists x2, (t :: chunks). rewrite E2.
    replace (with_client_ssl (with_client_ssl s x') x2) with (with_client_ssl s x2) in * by (destruct s; done).
    split; [rewrite <- app_assoc; done|]. split; [done|]. split; [done|]. cbn [concat]. rewrite Hcc. exact Hc2.
Qed.

(** C30: The TLS client, once its handshake is over and as long as the peer sends well-formed records of application data, delivers at every read everything that has arrived: the texts it passes to the callback are the texts that arrived, in order and complete, and nothing is left in OpenSSL.  The loop ends after at most one read per byte. *)
Theorem tls_client_drains s c x x1 data fuel : client_ready s x -> is_connect_ s = true -> data <> [] ->
  pending x = [] -> SSL_read SSL_DEF_RECV_BUFFER_SIZE x = (x1, (-1, SSL_ERROR_WANT_READ, [])) -> app_data x1 data ->
  (total (arrivals x1 data) < fuel)%nat ->
  exists x' chunks, OnUVClientRead fuel (Zlen data) data (s, c) =
      Done (with_client_ssl s x', c ++ map (fun t => (0, t)) chunks) tt /\
    pending x' = [] /\ concat chunks = concat (arrivals x1 data).
Proof.
  intros Hs Hcon Hd Hp E1 Ha Hl. pose proof (Zlen_nonneg data) as H0. pose proof Hs as [Hf He Ho Hest _].
  assert (Hpos : 0 < Zlen data) by (destruct (Z.eq_dec (Zlen data) 0) as [E|]; [apply Zlen_0_nil in E; done|lia]).
  destruct (SSL_read_empty_law x SSL_DEF_RECV_BUFFER_SIZE Hest Hp) as (x1' & E1' & He1 & Hp1).
  rewrite E1 in E1'. injection E1' as <-.
  assert (Hs1 : client_ready (with_client_ssl s x1) x1) by (apply (client_ready_with s x); [done|done|by rewrite Hp1]).
  destruct (BIO_write_law x1 data He1 Ha Hd) as (x2 & E2 & He2 & Hp2). rewrite Hp1 in Hp2. cbn [app] in Hp2.
  assert (Hs2 : client_ready (with_client_ssl s x2) x2).
  { apply (client_ready_with s x); [done|done|]. rewrite Hp2. by apply arrivals_law. }
  destruct (ssl_read_loop_drains fuel (with_client_ssl s x2) c x2 Hs2) as (x' & chunks & E3 & _ & Hp3 & Hc); [by rewrite Hp2|].
  exists x', chunks. split; [|by rewrite Hc, Hp2].
  assert (Ethis : on_client cthis (s, c) = Done (s, c) tt).
  { unfold on_client, zoom. cbn [fst]. rewrite cthis_done by done. done. }
  unfold OnUVClientRead. rewrite (bind_done _ _ _ _ _ Ethis). erewrite bind_done by reflexivity. cbn [fst]. rewrite Hcon.
  cbn [when]. unfold client_OnRead. rewrite (bind_done _ _ _ _ _ Ethis).
  destruct (Z.ltb_spec (Zlen data) 0); [lia|]. destruct (Z.eqb_spec (Zlen data) 0); [lia|].
  erewrite bind_done by reflexivity. cbn [fst]. rewrite He. cbn [negb].
  assert (Eself : cself (s, c) = Done (s, c) (mkSslClient TLS_CLIENT_READY x)).
  { unfold cself. erewrite bind_done by reflexivity. cbn [own_ssl client_owner_pair client_owner fst]. rewrite Hf, Ho. done. }
  rewrite (bind_done _ _ _ _ _ Eself). cbn [state_].
  enough (EH : cHandleSslDataRecv fuel (ccb_OnRead 0) data (s, c) =
    Done (with_client_ssl s x', c ++ map (fun t => (0, t)) chunks) 0) by (rewrite (bind_done _ _ _ _ _ EH); done).
  unfold cHandleSslDataRecv. rewrite (bind_done _ _ _ _ _ (ccall_ready _ s c x x1 _ Hs E1)). cbv beta iota.
  change (0 <? -1) with false. cbn iota. erewrite bind_done by reflexivity.
  rewrite (bind_done _ _ _ _ _ (ccall_ready _ _ c x1 x2 _ Hs1 E2)).
  destruct (Z.leb_spec (Zlen data) 0); [lia|].
  replace (with_client_ssl (with_client_ssl s x1) x2) with (with_client_ssl s x2) by (destruct s; done).
  rewrite E3. done.
Qed.
End tls_client.

(** ** Witness *)

Definition demo_client : TcpClient demo_ssl :=
  mkTcpClient true true true (Some (mkSslClient TLS_CLIENT_READY (mkDemoSsl [] [] []))) demo_addr true false [] [] [] [].

Lemma tls_client_drains_witness : exists x' chunks,
  OnUVClientRead 4 (Zlen [7; 8; 9]) [7; 8; 9] (demo_client, []) =
    Done (with_client_ssl demo_client x', [] ++ map (fun t => (0, t)) chunks) tt /\
  pending x' = [] /\ concat chunks = concat (arrivals (mkDemoSsl [] [] []) [7; 8; 9]).
Proof.
  apply (tls_client_drains demo_client [] (mkDemoSsl [] [] []) (mkDemoSsl [] [] []) [7; 8; 9] 4).
  - split; try reflexivity. constructor.
  - reflexivity.
  - discriminate.
  - reflexivity.
  - reflexivity.
  - repeat constructor; discriminate.
  - vm_compute. lia.
Defined.
