(* ===== verification/HttpCommon.v ===== *)
(** HTTP messages ([src/src/net/http/http_common.hpp]): URIs and their parameters, the request
    object, and the status line and headers a response prints. *)
From S2P Require Import Prelude Eff StdMap StdText StringEx.

(** Maps from names to values, as [std::map<std::string, std::string>]. *)
Abbreviation headers := (list (bytes * bytes)).

(** The loop over the items of the query; stops at the first item that is not [key=value],
    keeping the parameters stored so far. *)
Fixpoint uri_params (items : list bytes) (params : headers) : Z * headers :=
  match items with
  | [] => (0, params)
  | item :: items' =>
      match StringSplit item (bstr "=") with
      | [k; v] => uri_params items' (smap_set k v params)
      | _ => (-1, params)
      end
  end.

(** Result code, uri, parameters. *)
Definition GetUriAndParams (input : bytes) (params : headers) : Z * bytes * headers :=
  let pos := find (bstr "?") input in
  if pos =? npos then (0, input, params)
  else
    let uri := firstn (Z.to_nat pos) input in
    let param_str := skipn (Z.to_nat (pos + 1)) input in
    let '(ret, params) := uri_params (StringSplit param_str (bstr "&")) params in
    (ret, uri, params).

(** Changes its argument and returns it. *)
Definition GetUri (uri : bytes) : bytes :=
  if beqb uri (bstr "/") then uri
  else
    let uri := if find (bstr "/") uri =? 0 then skipn 1 uri else uri in
    let pos := rfind (bstr "/") uri in
    if pos =? u64 (Zlen uri - 1) then firstn (Z.to_nat (Z.min pos (Zlen uri))) uri else uri.

Record HttpRequest : Type := mkRequest {
  method_ : bytes;
  uri_ : bytes;
  params_ : headers;
  version_ : bytes;
  content_body_ : option bytes;
  content_length_ : Z;
  req_headers_ : headers }.
Definition new_request : HttpRequest := mkRequest [] [] [] [] None 0 [].

(** [session_] is whether the pointer to the session is non-null. *)
Record HttpResponse : Type := mkResponse {
  is_close_ : bool;
  written_header_ : bool;
  status_ : bytes;
  status_code_ : Z;
  proto_ : bytes;
  rversion_ : bytes;
  headers_ : headers;
  session_ : bool;
  rcontinue_flag_ : bool;
  remain_bytes_ : Z }.
Definition new_response : HttpResponse :=
  mkResponse false false (bstr "OK") 200 (bstr "HTTP") (bstr "1.1") [] true false 0.

Definition header_lines (hs : headers) : bytes :=
  concat (map (fun h => fst h ++ bstr ": " ++ snd h ++ CRLF) hs).

(** The text printed before the first body byte. *)
Definition response_head (p : HttpResponse) (len : Z) (continue_flag : bool) : bytes :=
  proto_ p ++ bstr "/" ++ rversion_ p ++ bstr " " ++ to_string_int (status_code_ p) ++ bstr " " ++
  status_ p ++ CRLF ++
  (if negb continue_flag then bstr "Content-Length: " ++ to_string len ++ CRLF else []) ++
  header_lines (headers_ p) ++ CRLF.

(** What a handler does with its response object. *)
Inductive resp_op : Type :=
| RSetStatusCode (code : Z)
| RSetStatus (status : bytes)
| RAddHeader (key value : bytes)
| RWrite (data : option bytes) (continue_flag : bool)
| RClose
| RThrow.

#[export] Instance resp_op_eq_dec : EqDecision resp_op.
Proof. solve_decision. Defined.

(** ** URIs *)

(** Leading and trailing slash removed once: the result has no trailing slash unless the path
    had two. *)
Example GetUri_cases : map GetUri [bstr "/"; bstr "/a/b/"; bstr "a"; bstr ""; bstr "//"; bstr "//a"] =
  [bstr "/"; bstr "a/b"; bstr "a"; bstr ""; bstr ""; bstr "/a"].
Proof. vm_compute. reflexivity. Qed.

Definition query (ps : headers) : bytes :=
  join (bstr "&") (map (fun p => fst p ++ bstr "=" ++ snd p) ps).

(** A parameter that survives the query syntax. *)
Definition param_ok (p : bytes * bytes) : Prop :=
  absent (bstr "=") (fst p) /\ absent (bstr "&") (fst p) /\ absent (bstr "=") (snd p) /\
  absent (bstr "&") (snd p) /\ snd p <> [].

Lemma absent_char (c : Z) l : absent [c] l <-> ~ In c l.
Proof.
  split.
  - intros Ha Hin. apply in_split in Hin as (a & k & ->). by apply (Ha a k).
  - intros Hn a k ->. apply Hn. apply in_or_app. right. left. done.
Qed.
Lemma absent_char_app (c : Z) l k : absent [c] (l ++ k) <-> absent [c] l /\ absent [c] k.
Proof. rewrite !absent_char, in_app_iff. tauto. Qed.

Lemma split_param k v : param_ok (k, v) -> Zlen k + Zlen v < npos - 1 ->
  StringSplit (k ++ bstr "=" ++ v) (bstr "=") = [k; v].
Proof.
  intros (H1 & H2 & H3 & H4 & H5) Hl. change (k ++ bstr "=" ++ v) with (join (bstr "=") [k; v]).
  apply StringSplit_join; [left; eexists; reflexivity|done|repeat constructor; done|done|].
  cbn [join fst snd] in *. rewrite !Zlen_app. change (Zlen (bstr "=")) with 1. lia.
Qed.

Lemma uri_params_ok ps : forall params, Forall param_ok ps ->
  Forall (fun p => Zlen (fst p) + Zlen (snd p) < npos - 1) ps ->
  uri_params (map (fun p => fst p ++ bstr "=" ++ snd p) ps) params =
  (0, fold_left (fun m p => smap_set (fst p) (snd p) m) ps params).
Proof.
  induction ps as [|[k v] ps IH]; intros params Hok Hl; [done|].
  apply Forall_cons in Hok as [Hp Hok]. apply Forall_cons in Hl as [Hl Hl']. cbn [map uri_params fst snd].
  rewrite split_param by done. apply IH; done.
Qed.

Lemma query_item_len p ps : In p ps -> Zlen (fst p) + 1 + Zlen (snd p) <= Zlen (query ps).
Proof.
  unfold query. induction ps as [|q ps IH]; [done|]. intros [->|Hin].
  - destruct ps; cbn [map]; [cbn [join]|rewrite join_cons by done]; rewrite !Zlen_app;
      change (Zlen (bstr "=")) with 1; zlen.
  - destruct ps as [|q' ps]; [done|]. cbn [map] in *. rewrite join_cons by done. specialize (IH Hin). zlen.
Qed.

Lemma query_split ps : Forall param_ok ps -> ps <> [] -> Zlen (query ps) < npos ->
  StringSplit (query ps) (bstr "&") = map (fun p => fst p ++ bstr "=" ++ snd p) ps.
Proof.
  intros Hok Hn Hl. apply StringSplit_join; [left; eexists; reflexivity|destruct ps; done| | |exact Hl].
  - apply Forall_map. eapply Forall_impl; [exact Hok|]. intros [k v] (H1 & H2 & H3 & H4 & H5).
    apply (absent_char_app 38 k). split; [done|]. apply (absent_char_app 38 [61] v).
    split; [apply absent_char; cbn; lia|done].
  - clear Hl. induction ps as [|p ps IH]; [done|]. apply Forall_cons in Hok as [_ Hok]. destruct ps as [|q ps].
    + cbn. destruct (fst p); done.
    + apply IH; done.
Qed.

(** The query string of a well-formed parameter list is parsed back. *)
Lemma GetUriAndParams_roundtrip path ps : absent (bstr "?") path -> Forall param_ok ps -> ps <> [] ->
  Zlen (path ++ bstr "?" ++ query ps) < npos ->
  GetUriAndParams (path ++ bstr "?" ++ query ps) [] =
  (0, path, fold_left (fun m p => smap_set (fst p) (snd p) m) ps []).
Proof.
  intros Hp Hok Hn Hl. unfold GetUriAndParams.
  rewrite (find_first (bstr "?") path (query ps)); [|done|done|apply first_at_char; done].
  rewrite !Zlen_app in Hl. change (Zlen (bstr "?")) with 1 in Hl.
  pose proof (Zlen_nonneg path). pose proof (Zlen_nonneg (query ps)).
  rewrite (proj2 (Z.eqb_neq _ _)) by lia.
  rewrite firstn_Zlen_app by done. rewrite app_assoc, skipn_Zlen_app by (rewrite Zlen_app; done).
  rewrite query_split by (done || lia). rewrite uri_params_ok; [done|done|].
  apply List.Forall_forall. intros p Hin. apply query_item_len in Hin.
  lia.
Qed.
