(* ===== verification/HttpText.v ===== *)
(** The textual form of HTTP messages and what searching and splitting find in it.

    A message head is a list of lines, each ended by CRLF, and an empty line.  The parsers of
    the server and client sessions, and those of the WebSocket and coroutine sessions, search
    for the empty line, split the head at CRLF and the first line at blanks; the lemmas below
    evaluate these steps on a head built from its parts. *)
From S2P Require Import Prelude StringEx StdText HttpCommon.

(** No carriage return. *)
Definition plain (l : bytes) : Prop := absent [13] l.

Lemma plain_app l k : plain (l ++ k) <-> plain l /\ plain k.
Proof. apply absent_char_app. Qed.
Lemma plain_CRLF l : plain l -> absent CRLF l.
Proof. intros H a c E. apply (H a (10 :: c)). exact E. Qed.

Definition head_text (lines : list bytes) : bytes := join CRLF lines ++ CRLF ++ CRLF.
Definition line_ok (x : bytes) : Prop := plain x /\ x <> [].

(** The lines of a response or request, each followed by CRLF. *)
Definition end_lines (lines : list bytes) : bytes := concat (map (fun x => x ++ CRLF) lines).
Lemma end_lines_join lines : lines <> [] -> end_lines lines ++ CRLF = head_text lines.
Proof.
  unfold head_text, end_lines. induction lines as [|x lines IH]; [done|]. intros _. cbn [map concat].
  destruct lines as [|y lines]; [cbn; rewrite app_nil_r, <- app_assoc; done|].
  rewrite join_cons, <- !app_assoc, IH by done. done.
Qed.

Lemma head_app_inv (x a k c : bytes) : plain x -> x ++ k = a ++ 13 :: c ->
  exists a', a = x ++ a' /\ k = a' ++ 13 :: c.
Proof.
  intros Hx E. apply app_eq_inv in E as [(m & -> & E)|(m & -> & ->)].
  - destruct m as [|y m].
    + exists []. rewrite !app_nil_r. done.
    + injection E as <- E. exfalso. apply (Hx a m). done.
  - exists m. done.
Qed.

(** The empty line found is the one that ends the head. *)
Lemma head_first lines rest : Forall line_ok lines -> lines <> [] ->
  first_at (join CRLF lines) (CRLF ++ CRLF) rest.
Proof.
  induction lines as [|x lines IH]; [done|]. intros Hok _. apply Forall_cons in Hok as [[Hx Hn] Hok].
  intros a c. destruct lines as [|y lines].
  - cbn [join]. intros E. apply (head_app_inv x a _ (10 :: 13 :: 10 :: c) Hx) in E as (a' & -> & _). zlen.
  - rewrite join_cons by done. set (r := join CRLF (y :: lines)) in *. rewrite <- !app_assoc. intros E.
    apply (head_app_inv x a _ (10 :: 13 :: 10 :: c) Hx) in E as (a' & -> & E).
    destruct a' as [|c0 [|c1 a'']].
    + exfalso. cbn in E. injection E as E. apply Forall_cons in Hok as [[Hy Hyn] _].
      assert (exists z y', y = z :: y' /\ z <> 13) as (z & y' & -> & Hz).
      { destruct y as [|z y']; [done|]. exists z, y'. split; [done|]. intros ->. by apply (Hy [] y'). }
      unfold r in E. destruct lines; cbn in E; congruence.
    + done.
    + cbn in E. injection E as <- <- E. assert (Hle : Zlen r <= Zlen a'').
      { apply (IH Hok ltac:(done) a'' c). exact E. }
      rewrite !Zlen_app, !Zlen_cons. change (Zlen CRLF) with 2. lia.
Qed.

Lemma head_find lines rest : Forall line_ok lines -> lines <> [] ->
  Zlen (head_text lines ++ rest) < npos ->
  find (CRLF ++ CRLF) (head_text lines ++ rest) = Zlen (join CRLF lines).
Proof.
  intros Hok Hn Hl. unfold head_text in *. rewrite <- (app_assoc (join CRLF lines)) in *.
  change ((CRLF ++ CRLF) ++ rest) with ((CRLF ++ CRLF) ++ rest) in *.
  apply find_first; [done|exact Hl|]. apply head_first; done.
Qed.

Lemma last_app_nonnil {A} (l : list A) d x : List.last (l ++ [x]) d = x.
Proof. induction l as [|y l IH]; [done|]. cbn. destruct (l ++ [x]) eqn:E; [destruct l; done|exact IH]. Qed.

Lemma last_line_ok lines : Forall line_ok lines -> lines <> [] -> List.last lines [] <> [].
Proof.
  induction lines as [|x lines IH]; [done|]. intros H _. apply Forall_cons in H as [[_ Hx] H].
  destruct lines; [done|]. apply IH; done.
Qed.

Lemma head_split lines : Forall line_ok lines -> lines <> [] -> Zlen (join CRLF lines) < npos ->
  StringSplit (join CRLF lines) CRLF = lines.
Proof.
  intros Hok Hn Hl. apply StringSplit_join; [by right|done| |by apply last_line_ok|done].
  eapply Forall_impl; [exact Hok|]. intros x [Hx _]. apply plain_CRLF. done.
Qed.

(** Text before the head is complete: every proper prefix that stops before the last byte of
    the empty line holds no empty line. *)
Lemma head_incomplete lines pre k : Forall line_ok lines -> lines <> [] -> k <> [] ->
  pre ++ k = head_text lines -> Zlen (head_text lines) < npos -> find (CRLF ++ CRLF) pre = npos.
Proof.
  intros Hok Hn Hk E Hl. apply find_absent; [rewrite <- E in Hl; zlen|]. intros a c ->.
  pose proof (head_first lines [] Hok Hn a (c ++ k)) as H. rewrite app_nil_r in H.
  unfold head_text in E. rewrite <- E in H. rewrite <- !app_assoc in H. specialize (H eq_refl).
  apply (f_equal Zlen) in E. rewrite !Zlen_app in E. change (Zlen CRLF) with 2 in E.
  pose proof (Zlen_nonneg c). destruct k; [done|zlen].
Qed.

(** ** Request and status lines *)

(** A word of the first line. *)
Definition word (x : bytes) : Prop := plain x /\ absent (bstr " ") x /\ x <> [].

Lemma word_no_space x : word x -> absent (bstr " ") x.
Proof. intros (_ & H & _). done. Qed.

Lemma words_split (ws : list bytes) : Forall word ws -> ws <> [] -> Zlen (join (bstr " ") ws) < npos ->
  StringSplit (join (bstr " ") ws) (bstr " ") = ws.
Proof.
  intros Hw Hn Hl. apply StringSplit_join; [left; eexists; reflexivity|done| | |done].
  - eapply Forall_impl; [exact Hw|]. intros x (_ & H & _). done.
  - clear Hl. induction ws as [|x ws IH]; [done|]. apply Forall_cons in Hw as [(_ & _ & Hx) Hw].
    destruct ws; [done|]. apply IH; done.
Qed.

Lemma words_line (ws : list bytes) : Forall word ws -> ws <> [] -> line_ok (join (bstr " ") ws).
Proof.
  induction ws as [|x ws IH]; [done|]. intros Hw _. apply Forall_cons in Hw as [(Hp & _ & Hx) Hw].
  destruct ws as [|y ws]; [done|]. rewrite join_cons by done. split; [|destruct x; done].
  apply plain_app. split; [done|]. apply plain_app. split; [apply absent_char; cbn; lia|]. apply IH; done.
Qed.

(** ** Header lines *)

Definition header_line (h : bytes * bytes) : bytes := fst h ++ bstr ": " ++ snd h.

(** A header the parsers read back: no carriage return, no colon in the name, and a decimal
    [int] as the value of Content-Length. *)
Definition header_ok (h : bytes * bytes) : Prop :=
  plain (fst h) /\ absent (bstr ":") (fst h) /\ plain (snd h) /\
  (fst h = bstr "Content-Length" -> exists n, 0 <= n < 2 ^ 31 /\ snd h = to_string n).

Lemma header_line_ok h : header_ok h -> line_ok (header_line h).
Proof.
  intros (H1 & H2 & H3 & _). unfold header_line. split; [|destruct (fst h); done].
  apply plain_app. split; [done|]. apply plain_app. split; [apply absent_char; cbn; lia|done].
Qed.

Lemma header_line_find h : header_ok h -> Zlen (header_line h) < npos ->
  find (bstr ":") (header_line h) = Zlen (fst h) /\ Zlen (fst h) <> npos /\
  substr (header_line h) 0 (Zlen (fst h)) = Ok (fst h) /\
  substr_from (header_line h) (Zlen (fst h) + 2) = Ok (snd h).
Proof.
  intros (H1 & H2 & H3 & _) Hl. unfold header_line in *.
  change (fst h ++ bstr ": " ++ snd h) with (fst h ++ bstr ":" ++ (32 :: snd h)) in *.
  rewrite find_first; [|done|done|apply first_at_char; done].
  rewrite !Zlen_app, Zlen_cons in Hl. change (Zlen (bstr ":")) with 1 in Hl.
  pose proof (Zlen_nonneg (fst h)). pose proof (Zlen_nonneg (snd h)).
  unfold substr_from, substr. rewrite !Zlen_app, Zlen_cons. change (Zlen (bstr ":")) with 1.
  split_and!; [done|lia| |].
  - rewrite (proj2 (Z.leb_le _ _)) by lia. rewrite Z.min_l by lia. change (Z.to_nat 0) with 0%nat. rewrite drop_0.
    rewrite firstn_Zlen_app by done. done.
  - rewrite (proj2 (Z.leb_le _ _)) by lia. rewrite Z.min_l by lia.
    change (fst h ++ bstr ":" ++ 32 :: snd h) with (fst h ++ [58; 32] ++ snd h).
    rewrite app_assoc, skipn_Zlen_app by (rewrite Zlen_app; done).
    rewrite firstn_all2; [done|]. unfold Zlen in *. lia.
Qed.

Lemma header_lines_end hs : header_lines hs = end_lines (map header_line hs).
Proof.
  unfold header_lines, end_lines, header_line. rewrite map_map. f_equal. apply map_ext. intros h.
  rewrite <- !app_assoc. done.
Qed.
