(* ===== verification/HttpSession.v ===== *)
(** The HTTP/1.1 server session ([src/src/net/http/http_session.cpp], the response object of
    [http_common.hpp]).

    A session owns a TCP session (interface [TcpBaseSession]), a request object and shared
    response objects; its callback object is the server (interface [HttpCallbackI]).  The
    responses live in a list, [response_ptr_] is an index into it, so that a response the
    session has replaced can still be used by the handler that holds it.  [freed_] says that
    the callback has destroyed the session; a member access after that is undefined.

    Handlers are code of the user: [handler i] maps the request to the operations the handler
    performs on its response.  [KeepAlive] and [UpdateMax] belong to a base class whose source
    is not in the repository; they are taken not to touch the session's own members. *)
From S2P Require Import Prelude Eff StdMap StdText StringEx ByteQueue TcpPub HttpCommon.

Class HttpCallbackI (C : Type) : Type := {
  hc_OnClose : C -> bytes -> C * bool;                         (* is the session destroyed? *)
  hc_GetHandle : C -> HttpRequest -> option nat * HttpRequest }.

Section session.
Context `{HT : TcpBaseSession T} `{HC : HttpCallbackI C} `{HQ : ByteQueue Q}.
Context (handler : nat -> HttpRequest -> list resp_op).

Record HttpSession : Type := mkHttpSession {
  callback_ : C;
  session_ptr_ : T;
  responses : list HttpResponse;
  response_ptr_ : option nat;
  header_data_ : Q;
  content_data_ : Q;
  request_ : option HttpRequest;
  content_start_ : Z;
  header_is_ready_ : bool;
  is_closed_ : bool;
  continue_flag_ : bool;
  remote_address_ : bytes;
  freed_ : bool }.

Abbreviation M := (eff HttpSession).

(** An access to a member of the session. *)
Definition this : M HttpSession := s ← get; if freed_ s then stuck else mret s.

Definition on_tcp {A} (m : eff T A) : M A :=
  this ;; zoom session_ptr_ (fun s t => s <| session_ptr_ := t |>) m.

Definition TryRead : M unit := on_tcp tb_read.
Definition Write (data : bytes) : M unit := on_tcp (tb_write data).

(** Response objects. *)
Definition resp_get (r : nat) : M HttpResponse := s ← get; deref (responses s !! r).
Definition resp_upd (r : nat) (f : HttpResponse -> HttpResponse) : M unit :=
  modify (fun s => s <| responses ::= alter f r |>).
Definition make_response : M nat :=
  s ← get; modify (fun s => s <| responses ::= fun l => l ++ [new_response] |>) ;;
  mret (length (responses s)).

Definition Close : M unit :=
  s ← this;
  if is_closed_ s then mret tt
  else
    modify (fun s => s <| is_closed_ := true |>) ;;
    match response_ptr_ s with
    | Some r => resp_upd r (fun p => p <| is_close_ := true |> <| session_ := false |>)
    | None => mret tt
    end ;;
    modify (fun s => s <| request_ := None |>) ;;
    on_tcp tb_close ;;
    modify (fun s => let '(c, destroyed) := hc_OnClose (callback_ s) (remote_address_ s) in
                     s <| callback_ := c |> <| freed_ := destroyed |>).

(** [HttpResponse::Write]; [None] is a null data pointer. *)
Definition resp_Write (r : nat) (data : option bytes) (continue_flag : bool) : M Z :=
  resp_upd r (fun p => p <| rcontinue_flag_ := continue_flag |>) ;;
  p ← resp_get r;
  if is_close_ p || negb (session_ p) then mret (-1)
  else
    let d := default [] data in
    when (negb (written_header_ p)) (
      let ss := response_head p (Zlen d) continue_flag in
      resp_upd r (fun p => p <| remain_bytes_ ::= fun n => s64 (n + Zlen ss) |>) ;;
      Write ss ;;
      resp_upd r (fun p => p <| written_header_ := true |>)) ;;
    when (0 <? Zlen d) (
      resp_upd r (fun p => p <| remain_bytes_ ::= fun n => s64 (n + Zlen d) |>) ;;
      Write d) ;;
    mret 0.

Definition resp_Close (r : nat) : M unit :=
  p ← resp_get r;
  if is_close_ p then mret tt
  else
    resp_upd r (fun p => p <| is_close_ := true |>) ;;
    (if session_ p then Close else stuck) ;;
    resp_upd r (fun p => p <| session_ := false |>).

Definition exec_op (r : nat) (op : resp_op) : M unit :=
  match op with
  | RSetStatusCode c => resp_upd r (fun p => p <| status_code_ := c |>)
  | RSetStatus st => resp_upd r (fun p => p <| status_ := st |>)
  | RAddHeader k v => resp_upd r (fun p => p <| headers_ ::= smap_set k v |>)
  | RWrite d c => resp_Write r d c ;; mret tt
  | RClose => resp_Close r
  | RThrow => raise (StreamExn [])
  end.

(** Calling the handler inside the [try] block. *)
Definition call_handle (h r : nat) : M unit :=
  s ← this;
  q ← deref (request_ s);
  try_catch (for_each (handler h q) (exec_op r)) (fun _ => mret tt).

Definition req_upd (f : HttpRequest -> HttpRequest) : M unit :=
  s ← this; q ← deref (request_ s); modify (fun s => s <| request_ := Some (f q) |>).

(** The header lines after the first. *)
Fixpoint header_loop (lines : list bytes) : M Z :=
  match lines with
  | [] => mret 0
  | info_line :: lines' =>
      let pos := find (bstr ":") info_line in
      if pos =? npos then mret (-1)
      else
        key ← lift (substr info_line 0 pos);
        value ← lift (substr_from info_line (pos + 2));
        when (beqb key (bstr "Content-Length")) (
          n ← lift (atoi value); req_upd (fun q => q <| content_length_ := n |>)) ;;
        req_upd (fun q => q <| req_headers_ ::= smap_insert key value |>) ;;
        header_loop lines'
  end.

Definition AnalyzeHeader : M Z :=
  s ← this;
  info ← lift (bq_string (header_data_ s));
  let pos := find (CRLF ++ CRLF) info in
  if pos =? npos then modify (fun s => s <| header_is_ready_ := false |>) ;; mret 0
  else
    modify (fun s => s <| content_start_ := s32 pos + 4 |> <| header_is_ready_ := true |>) ;;
    let header_str := firstn (Z.to_nat pos) info in
    match StringSplit header_str CRLF with
    | [] => mret (-1)
    | first_line :: header_vec =>
        match StringSplit first_line (bstr " ") with
        | [m; u; version_info] =>
            req_upd (fun q => q <| method_ := m |>) ;;
            s ← this; q ← deref (request_ s);
            let '(ret, uri, ps) := GetUriAndParams u (params_ q) in
            req_upd (fun q => q <| uri_ := uri |> <| params_ := ps |>) ;;
            if ret <? 0 then mret (-1)
            else
              let pos := find (bstr "HTTP") version_info in
              if pos =? npos then mret (-1)
              else
                v ← lift (substr_from version_info (pos + 5));
                req_upd (fun q => q <| version_ := v |>) ;;
                header_loop header_vec
        | _ => mret (-1)
        end
    end.

Definition append_header (data : bytes) : M unit :=
  s ← this; b ← lift (bq_append (header_data_ s) data); modify (fun s => s <| header_data_ := b |>).
Definition append_content (data : bytes) : M unit :=
  s ← this; b ← lift (bq_append (content_data_ s) data); modify (fun s => s <| content_data_ := b |>).

(** The answer to a preflight request. *)
Definition options_headers : headers :=
  [(bstr "Access-Control-Allow-Origin", bstr "*");
   (bstr "Access-Control-Allow-Methods", bstr "GET, POST, PUT");
   (bstr "Access-Control-Allow-Headers", bstr "*");
   (bstr "Access-Control-Allow-Private-Network", bstr "true");
   (bstr "Allow", bstr "GET, HEAD, POST, PUT, DELETE, TRACE, OPTIONS, PATCH")].

Definition ensure_response : M nat :=
  s ← this;
  match response_ptr_ s with
  | Some r => mret r
  | None => r ← make_response; modify (fun s => s <| response_ptr_ := Some r |>) ;; mret r
  end.

Definition HandleOptions : M Z :=
  r ← ensure_response;
  for_each options_headers (fun h => exec_op r (RAddHeader (fst h) (snd h))) ;;
  resp_Write r None false ;;
  this ;;
  modify (fun s => s <| header_is_ready_ := false |> <| continue_flag_ := true |>
                     <| header_data_ ::= bq_reset |>) ;;
  mret 0.

Definition get_handle : M (option nat) :=
  s ← this; q ← deref (request_ s);
  let '(h, q') := hc_GetHandle (callback_ s) q in
  modify (fun s => s <| request_ := Some q' |>) ;; mret h.

(** After the handler: the flag of the current response. *)
Definition take_continue : M Z :=
  s ← this; r ← deref (response_ptr_ s); p ← resp_get r;
  modify (fun s => s <| continue_flag_ := rcontinue_flag_ p |>) ;; mret 0.

Definition HandleGet : M Z :=
  h ← get_handle;
  match h with
  | None => mret (-1)
  | Some h =>
      r ← make_response; modify (fun s => s <| response_ptr_ := Some r |>) ;;
      call_handle h r ;; take_continue
  end.

Definition HandlePost : M Z :=
  s ← this; q ← deref (request_ s);
  if content_length_ q <=? s32 (bq_len (content_data_ s)) then
    h ← get_handle;
    match h with
    | None => mret (-1)
    | Some h =>
        r ← ensure_response;
        body ← lift (bq_string (content_data_ s));
        req_upd (fun q => q <| content_body_ := Some body |>) ;;
        call_handle h r ;; take_continue
    end
  else mret 0.

(** [continue_flag] is the member [continue_flag_] at the only call. *)
Definition HandleRequest (data : bytes) : M Z :=
  modify (fun s => s <| continue_flag_ := true |>) ;;
  s ← this;
  go ← (if header_is_ready_ s then append_content data ;; mret 1
        else
          append_header data ;;
          ret ← AnalyzeHeader;
          if negb (ret =? 0) then mret (-1)
          else
            s ← this;
            if negb (header_is_ready_ s) then mret 0
            else
              let len := s32 (s32 (bq_len (header_data_ s)) - content_start_ s) in
              start ← lift (bq_peek (header_data_ s) (content_start_ s) (u64 len));
              append_content start ;; mret 1);
  if go =? 1 then
    s ← this; q ← deref (request_ s);
    if beqb (method_ q) (bstr "OPTIONS") then HandleOptions
    else if beqb (method_ q) (bstr "GET") then HandleGet
    else HandlePost
  else mret go.

Definition OnRead (ret_code : Z) (data : bytes) : M unit :=
  if negb (ret_code =? 0) then Close
  else
    ret ← HandleRequest data;
    if ret <? 0 then Close
    else s ← this; when (continue_flag_ s) TryRead.

Definition OnWrite (ret_code sent_size : Z) : M unit :=
  when (negb (ret_code =? 0)) Close ;;
  s ← this;
  match response_ptr_ s with
  | None => mret tt
  | Some r =>
      resp_upd r (fun p => p <| remain_bytes_ ::= fun n => s64 (n - sent_size) |>) ;;
      p ← resp_get r;
      modify (fun s => s <| continue_flag_ := rcontinue_flag_ p |>) ;;
      when (negb (rcontinue_flag_ p) && (remain_bytes_ p <=? 0)) Close
  end.
End session.
Arguments HttpSession T C Q : clear implicits.
