(* ===== verification/HttpServer.v ===== *)
(** The HTTP server ([src/src/net/http/http_server.cpp]): routing, the table of sessions, and
    what a session does in the company of its server.

    The maps are [std::unordered_map]s used only through [find], [insert] and [erase]; they are
    modelled by the maps of [StdMap.v].  The session table holds the only reference to each
    session, so erasing an entry destroys the session. *)
From S2P Require Import Prelude Eff StdMap StdText StringEx ByteQueue TcpPub HttpCommon HttpSession.

Record HttpServer : Type := mkHttpServer {
  session_ptr_map_ : list (bytes * unit);
  get_handle_map_ : list (bytes * nat);
  post_handle_map_ : list (bytes * nat);
  ssl_enable_ : bool }.

Definition AddGetHandle (s : HttpServer) (uri : bytes) (handle_func : nat) : HttpServer :=
  s <| get_handle_map_ ::= smap_insert (GetUri uri) handle_func |>.
Definition AddPostHandle (s : HttpServer) (uri : bytes) (handle_func : nat) : HttpServer :=
  s <| post_handle_map_ ::= smap_insert (GetUri uri) handle_func |>.

(** The table of keys: the session goes under its remote endpoint; when that is already there, [insert] keeps the old entry and
    the new session is not kept.  What becomes of the two sessions then is [OnAccept] of [HttpServerTcp.v]. *)
Definition server_OnAccept (s : HttpServer) (ret_code : Z) (endpoint : bytes) : HttpServer * bool :=
  if ret_code <? 0 then (s, false)
  else (s <| session_ptr_map_ ::= smap_insert endpoint tt |>,
        match smap_find endpoint (session_ptr_map_ s) with None => true | Some _ => false end).

(** Erases the session; whether that destroyed one. *)
Definition server_OnClose (s : HttpServer) (endpoint : bytes) : HttpServer * bool :=
  match smap_find endpoint (session_ptr_map_ s) with
  | Some _ => (s <| session_ptr_map_ ::= smap_erase endpoint |>, true)
  | None => (s, false)
  end.

Definition server_GetHandle (s : HttpServer) (request : HttpRequest) : option nat * HttpRequest :=
  let request := request <| uri_ ::= GetUri |> in
  let default := match smap_find (bstr "/") (get_handle_map_ s) with
                 | Some h => Some h
                 | None => smap_find (bstr "/") (post_handle_map_ s)
                 end in
  let h := if beqb (method_ request) (bstr "GET") then smap_find (uri_ request) (get_handle_map_ s)
           else if beqb (method_ request) (bstr "POST") then smap_find (uri_ request) (post_handle_map_ s)
           else None in
  (match h with Some _ => h | None => default end, request).

#[export] Instance server_callback : HttpCallbackI HttpServer := {
  hc_OnClose := server_OnClose; hc_GetHandle := server_GetHandle }.

(** ** Routing *)

(** Two spellings of a path name the same route. *)
Definition same_route (u v : bytes) : Prop := GetUri u = GetUri v.

(** A registration: method, path, handler. *)
Inductive route : Type := RouteGet (uri : bytes) (h : nat) | RoutePost (uri : bytes) (h : nat).
Definition register (s : HttpServer) (r : route) : HttpServer :=
  match r with RouteGet u h => AddGetHandle s u h | RoutePost u h => AddPostHandle s u h end.

(** The first registration of the path for the method. *)
Fixpoint first_route (get : bool) (uri : bytes) (rs : list route) : option nat :=
  match rs with
  | [] => None
  | RouteGet u h :: rs' => if get && beqb (GetUri u) uri then Some h else first_route get uri rs'
  | RoutePost u h :: rs' => if negb get && beqb (GetUri u) uri then Some h else first_route get uri rs'
  end.

Lemma get_map_spec rs : forall s uri,
  smap_find uri (get_handle_map_ (fold_left register rs s)) =
  match smap_find uri (get_handle_map_ s) with Some h => Some h | None => first_route true uri rs end.
Proof.
  induction rs as [|[u h|u h] rs IH]; intros s uri; cbn [fold_left first_route andb negb].
  - destruct (smap_find _ _); done.
  - rewrite IH. destruct s as [a g p b]. cbn [register AddGetHandle get_handle_map_ apply_update].
    change (get_handle_map_ (AddGetHandle (mkHttpServer a g p b) u h)) with (smap_insert (GetUri u) h g).
    rewrite smap_find_insert. cbn. destruct (smap_find uri g); [done|].
    unfold beqb. destruct (bool_decide_reflect (uri = GetUri u)) as [->|Hn];
      [rewrite bool_decide_true by done|rewrite bool_decide_false by congruence]; done.
  - rewrite IH. destruct s as [a g p b]. done.
Qed.

Lemma post_map_spec rs : forall s uri,
  smap_find uri (post_handle_map_ (fold_left register rs s)) =
  match smap_find uri (post_handle_map_ s) with Some h => Some h | None => first_route false uri rs end.
Proof.
  induction rs as [|[u h|u h] rs IH]; intros s uri; cbn [fold_left first_route andb negb].
  - destruct (smap_find _ _); done.
  - rewrite IH. destruct s as [a g p b]. done.
  - rewrite IH. destruct s as [a g p b].
    change (post_handle_map_ (register (mkHttpServer a g p b) (RoutePost u h))) with (smap_insert (GetUri u) h p).
    rewrite smap_find_insert. cbn. destruct (smap_find uri p); [done|].
    unfold beqb. destruct (bool_decide_reflect (uri = GetUri u)) as [->|Hn];
      [rewrite bool_decide_true by done|rewrite bool_decide_false by congruence]; done.
Qed.

Definition empty_server : HttpServer := mkHttpServer [] [] [] false.

(** A request is routed to the handler registered first for its method and path, up to one
    leading and one trailing slash; any other request goes to the first "/" handler, those for
    GET before those for POST, whatever its method. *)
Lemma GetHandle_routes (rs : list route) (q : HttpRequest) :
  let s := fold_left register rs empty_server in
  let own := if beqb (method_ q) (bstr "GET") then first_route true (GetUri (uri_ q)) rs
             else if beqb (method_ q) (bstr "POST") then first_route false (GetUri (uri_ q)) rs
             else None in
  fst (server_GetHandle s q) =
    match own with
    | Some h => Some h
    | None => match first_route true (bstr "/") rs with
              | Some h => Some h
              | None => first_route false (bstr "/") rs
              end
    end /\
  uri_ (snd (server_GetHandle s q)) = GetUri (uri_ q).
Proof.
  intros s own. split; [|destruct q; done].
  unfold server_GetHandle. cbn [fst]. unfold s. rewrite !get_map_spec, !post_map_spec.
  destruct q as [m u ps v cb cl hs].
  change (method_ ((mkRequest m u ps v cb cl hs) <| uri_ ::= GetUri |>)) with m.
  change (uri_ ((mkRequest m u ps v cb cl hs) <| uri_ ::= GetUri |>)) with (GetUri u).
  unfold own. cbn [method_ uri_ empty_server get_handle_map_ post_handle_map_ smap_find].
  destruct (beqb m (bstr "GET")), (beqb m (bstr "POST")), (first_route true (GetUri u) rs),
    (first_route false (GetUri u) rs); done.
Qed.
