(* ===== verification/HttpRequests.v ===== *)
(** The server session receives a request: theorems about [HttpSession.v].

    A request text is built from a method, a target and header lines ([request_text]).  The
    lemmas follow the calls of the source; the first group evaluates [AnalyzeHeader] on such
    a text. *)
From S2P Require Import Prelude Eff StdMap StdText StringEx ByteQueue TcpPub HttpCommon HttpText HttpSession HttpServer.

Lemma alter_insert_eq' {A} (r : nat) (p : A) (l : list A) f : l !! r = Some p -> alter f r l = <[r := f p]> l.
Proof.
  revert r; induction l as [|x l IH]; intros [|r] H; cbn in *; [done|done|congruence|].
  rewrite <- IH by done. done.
Qed.

(** The lines of a request head. *)
Definition request_lines (m target : bytes) (hs : headers) : list bytes :=
  join (bstr " ") [m; target; bstr "HTTP/1.1"] :: map header_line hs.
Definition request_text (m target : bytes) (hs : headers) : bytes := head_text (request_lines m target hs).

(** What the header loop stores. *)
Definition store_header (q : HttpRequest) (h : bytes * bytes) : HttpRequest :=
  let q := if beqb (fst h) (bstr "Content-Length")
           then q <| content_length_ := match atoi (snd h) with Ok n => n | _ => 0 end |> else q in
  q <| req_headers_ ::= smap_insert (fst h) (snd h) |>.
Definition store_headers (q : HttpRequest) (hs : headers) : HttpRequest := fold_left store_header hs q.

(** A well-formed request head. *)
Record request_ok (m target : bytes) (hs : headers) : Prop := {
  ro_method : word m;
  ro_target : word target;
  ro_uri : 0 <= fst (fst (GetUriAndParams target []));
  ro_headers : Forall header_ok hs }.

Lemma request_lines_ok m target hs : request_ok m target hs -> Forall line_ok (request_lines m target hs).
Proof.
  intros [Hm Ht _ Hh]. constructor.
  - apply words_line; [|done]. repeat constructor; try apply Hm; try apply Ht; try done.
    all: apply absent_char; cbn; lia.
  - apply Forall_map. eapply Forall_impl; [exact Hh|]. apply header_line_ok.
Qed.

Section proofs.
Context {T C Q : Type} {HT : TcpBaseSession T} {HTL : TcpBaseLaws T} {HC : HttpCallbackI C}
  {HQ : ByteQueue Q} {HQL : ByteQueueLaws Q} {HQP : ByteQueuePacked Q}.
Context (handler : nat -> HttpRequest -> list resp_op).
Implicit Types s : HttpSession T C Q.

Lemma this_live s : freed_ s = false -> this s = Done s s.
Proof. intros H. unfold this, mbind, eff_bind, get. rewrite H. done. Qed.

Lemma req_upd_done s q f : freed_ s = false -> request_ s = Some q ->
  req_upd f s = Done (s <| request_ := Some (f q) |>) tt.
Proof.
  intros Hf Hq. unfold req_upd. rewrite (bind_done _ _ _ _ _ (this_live s Hf)), Hq. done.
Qed.

Lemma set_request_request s q : request_ (s <| request_ := q |>) = q.
Proof. destruct s; done. Qed.
Lemma set_request_freed s q : freed_ (s <| request_ := q |>) = freed_ s.
Proof. destruct s; done. Qed.
Lemma set_request_twice s q q' : s <| request_ := q |> <| request_ := q' |> = s <| request_ := q' |>.
Proof. destruct s; done. Qed.

Lemma store_header_step s q h : freed_ s = false -> request_ s = Some q -> header_ok h ->
  (when (beqb (fst h) (bstr "Content-Length")) (
     n ← lift (atoi (snd h)); req_upd (fun q => q <| content_length_ := n |>)) ;;
   req_upd (fun q => q <| req_headers_ ::= smap_insert (fst h) (snd h) |>)) s =
  Done (s <| request_ := Some (store_header q h) |>) tt.
Proof.
  intros Hf Hq (_ & _ & _ & Hc). unfold store_header, when.
  destruct (beqb (fst h) (bstr "Content-Length")) eqn:E.
  - apply beqb_true in E. destruct (Hc E) as (n & Hn & Ev). rewrite Ev.
    assert (Ea : atoi (to_string n) = Ok n).
    { rewrite <- (app_nil_r (to_string n)). apply atoi_to_string; [done|]. done. }
    rewrite Ea. erewrite bind_done; [|erewrite bind_done by reflexivity; apply req_upd_done; done].
    erewrite req_upd_done; [|rewrite set_request_freed; done|apply set_request_request].
    rewrite set_request_twice. done.
  - erewrite bind_done by reflexivity. apply req_upd_done; done.
Qed.

Lemma header_loop_app hs ls : forall s q, freed_ s = false -> request_ s = Some q ->
  Forall header_ok hs -> Forall (fun h => Zlen (header_line h) < npos) hs ->
  header_loop (map header_line hs ++ ls) s =
  header_loop ls (s <| request_ := Some (store_headers q hs) |>).
Proof.
  induction hs as [|h hs IH]; intros s q Hf Hq Hok Hl.
  - cbn [map app store_headers fold_left]. f_equal. destruct s; cbn in *; subst; done.
  - apply Forall_cons in Hok as [Hh Hok]. apply Forall_cons in Hl as [Hlh Hl].
    destruct (header_line_find h Hh Hlh) as (E1 & E2 & E3 & E4).
    cbn [map app header_loop]. rewrite E1, (proj2 (Z.eqb_neq _ _) E2), E3, E4.
    erewrite bind_done by reflexivity. erewrite bind_done by reflexivity.
    pose proof (store_header_step s q h Hf Hq Hh) as Hs.
    rewrite <- (bind_assoc _ _ (fun _ => _)).
    erewrite bind_done by exact Hs.
    rewrite (IH _ (store_header q h)); [|rewrite set_request_freed; done|apply set_request_request|done|done].
    rewrite set_request_twice. done.
Qed.

Lemma header_loop_ok hs s q : freed_ s = false -> request_ s = Some q ->
  Forall header_ok hs -> Forall (fun h => Zlen (header_line h) < npos) hs ->
  header_loop (map header_line hs) s = Done (s <| request_ := Some (store_headers q hs) |>) 0.
Proof. intros. rewrite <- (app_nil_r (map header_line hs)), (header_loop_app hs [] s q) by done. done. Qed.

Lemma find_HTTP : find (bstr "HTTP") (bstr "HTTP/1.1") = 0 /\
  substr_from (bstr "HTTP/1.1") (0 + 5) = Ok (bstr "1.1").
Proof. split; vm_compute; reflexivity. Qed.

(** The request after the first line. *)
Definition first_line_request (q : HttpRequest) (m target : bytes) : HttpRequest :=
  let '(_, uri, ps) := GetUriAndParams target (params_ q) in
  q <| method_ := m |> <| uri_ := uri |> <| params_ := ps |> <| version_ := bstr "1.1" |>.

Definition analyzed s (q : HttpRequest) (pos : Z) : HttpSession T C Q :=
  s <| content_start_ := s32 pos + 4 |> <| header_is_ready_ := true |> <| request_ := Some q |>.

Lemma request_lines_len m target hs rest h : In h hs ->
  Zlen (request_text m target hs ++ rest) < npos -> Zlen (header_line h) < npos.
Proof.
  intros Hin Hl. unfold request_text in Hl. rewrite <- end_lines_join in Hl by done.
  unfold end_lines, request_lines in Hl. cbn [map concat] in Hl. rewrite !Zlen_app in Hl.
  assert (Zlen (header_line h) <= Zlen (concat (map (fun x => x ++ CRLF) (map header_line hs)))).
  { clear Hl. induction hs as [|g hs IH]; [done|]. cbn [map concat]. rewrite !Zlen_app.
    destruct Hin as [->|Hin]; [|specialize (IH Hin)].
    - pose proof (Zlen_nonneg CRLF). pose proof (Zlen_nonneg (concat (map (fun x => x ++ CRLF) (map header_line hs)))). lia.
    - pose proof (Zlen_nonneg CRLF). pose proof (Zlen_nonneg (header_line g)). lia. }
  pose proof (Zlen_nonneg (join (bstr " ") [m; target; bstr "HTTP/1.1"])). pose proof (Zlen_nonneg CRLF).
  pose proof (Zlen_nonneg rest). lia.
Qed.

Lemma first_line_split m target hs rest : request_ok m target hs ->
  Zlen (request_text m target hs ++ rest) < npos ->
  StringSplit (join (bstr " ") [m; target; bstr "HTTP/1.1"]) (bstr " ") = [m; target; bstr "HTTP/1.1"].
Proof.
  intros [Hm Ht _ _] Hl. apply words_split; [|done|].
  - repeat constructor; try apply Hm; try apply Ht; try done. all: apply absent_char; cbn; lia.
  - unfold request_text, head_text, request_lines in Hl. rewrite !Zlen_app in Hl.
    change (Zlen CRLF) with 2 in Hl. pose proof (Zlen_nonneg rest).
    pose proof (join_head_len CRLF (join (bstr " ") [m; target; bstr "HTTP/1.1"]) (map header_line hs)). lia.
Qed.

(** The parser on a complete head: it stores the first line and goes on with the others. *)
Definition first_line (m target : bytes) : bytes := join (bstr " ") [m; target; bstr "HTTP/1.1"].

Lemma AnalyzeHeader_first s m target ls rest q : freed_ s = false -> request_ s = Some q ->
  params_ q = [] -> bq_rep (header_data_ s) (head_text (first_line m target :: ls) ++ rest) ->
  request_ok m target [] -> Forall line_ok ls ->
  AnalyzeHeader s = header_loop ls
    (analyzed s (first_line_request q m target) (Zlen (join CRLF (first_line m target :: ls)))).
Proof.
  intros Hf Hq Hps Hr Hok Hls. destruct (bq_rep_len _ _ Hr) as [_ Hlen].
  assert (Hl : Zlen (head_text (first_line m target :: ls) ++ rest) < npos) by (unfold npos; lia).
  assert (Hlok : Forall line_ok (first_line m target :: ls)).
  { constructor; [|done]. pose proof (request_lines_ok _ _ _ Hok) as H. apply Forall_cons in H. apply H. }
  unfold AnalyzeHeader.
  rewrite (bind_done _ _ _ _ _ (this_live s Hf)), (bq_string_law _ _ Hr).
  erewrite bind_done by reflexivity. rewrite (head_find _ rest Hlok ltac:(done) Hl).
  set (pos := Zlen (join CRLF _)). unfold head_text in *. rewrite !Zlen_app in Hl. change (Zlen CRLF) with 2 in Hl.
  fold pos in Hl. pose proof (Zlen_nonneg rest). rewrite <- app_assoc, firstn_Zlen_app by done.
  rewrite (proj2 (Z.eqb_neq _ _)) by lia.
  erewrite bind_done by reflexivity. rewrite head_split; [|done|done|fold pos; lia].
  unfold first_line at 1. rewrite (first_line_split m target [] []);
    [|done|unfold request_text, head_text; rewrite !Zlen_app; change (Zlen CRLF) with 2; change (Zlen []) with 0;
           pose proof (join_head_len CRLF (first_line m target) ls); fold pos in H0; cbn [request_lines map join] in *;
           unfold first_line in H0; cbn [join] in *; lia].
  set (s1 := s <| content_start_ := _ |> <| header_is_ready_ := true |>).
  assert (Hf1 : freed_ s1 = false) by (destruct s; done).
  assert (Hq1 : request_ s1 = Some q) by (destruct s; done).
  erewrite bind_done by (apply req_upd_done; done).
  erewrite bind_done by (apply this_live; rewrite set_request_freed; done).
  rewrite set_request_request. erewrite bind_done by reflexivity.
  match goal with |- context [GetUriAndParams target ?ps] =>
    replace ps with (@nil (bytes * bytes)) by (destruct q; cbn in *; congruence) end.
  destruct (GetUriAndParams target []) as [[ret uri] ps] eqn:Eu.
  erewrite bind_done by (apply req_upd_done; [rewrite set_request_freed; done|apply set_request_request]).
  rewrite set_request_twice. destruct Hok as [Hm Ht Huri Hh]. rewrite Eu in Huri. cbn [fst] in Huri.
  rewrite (proj2 (Z.ltb_ge _ _)) by lia. destruct find_HTTP as [-> ->]. change (0 =? npos) with false. cbv iota.
  erewrite bind_done by reflexivity.
  erewrite bind_done by (apply req_upd_done; [rewrite set_request_freed; done|apply set_request_request]).
  rewrite set_request_twice. unfold analyzed, first_line_request. rewrite Hps, Eu. done.
Qed.

(** With well-formed headers every part of the head ends up in the request. *)
Lemma AnalyzeHeader_ok s m target hs rest q : freed_ s = false -> request_ s = Some q ->
  params_ q = [] -> bq_rep (header_data_ s) (request_text m target hs ++ rest) -> request_ok m target hs ->
  let q' := store_headers (first_line_request q m target) hs in
  AnalyzeHeader s = Done (analyzed s q' (Zlen (join CRLF (request_lines m target hs)))) 0.
Proof.
  intros Hf Hq Hps Hr Hok q'. destruct (bq_rep_len _ _ Hr) as [_ Hlen].
  assert (Hl : Zlen (request_text m target hs ++ rest) < npos) by (unfold npos; lia).
  pose proof (request_lines_ok _ _ _ Hok) as Hlok. apply Forall_cons in Hlok as [_ Hlok].
  rewrite (AnalyzeHeader_first s m target (map header_line hs) rest q Hf Hq Hps Hr); [|destruct Hok; done|done].
  set (pos := Zlen _). erewrite header_loop_ok; [|destruct s; done|unfold analyzed; apply set_request_request|apply Hok|].
  - unfold analyzed. rewrite set_request_twice. done.
  - apply List.Forall_forall. intros h Hin. eapply request_lines_len; done.
Qed.

(** Before the head is complete the parser changes nothing. *)
Lemma AnalyzeHeader_incomplete s m target hs pre k : freed_ s = false ->
  bq_rep (header_data_ s) pre -> request_ok m target hs -> pre ++ k = request_text m target hs -> k <> [] ->
  Zlen (request_text m target hs) < npos ->
  AnalyzeHeader s = Done (s <| header_is_ready_ := false |>) 0.
Proof.
  intros Hf Hr Hok E Hk Hl. unfold AnalyzeHeader.
  rewrite (bind_done _ _ _ _ _ (this_live s Hf)), (bq_string_law _ _ Hr). erewrite bind_done by reflexivity.
  rewrite (head_incomplete _ pre k (request_lines_ok _ _ _ Hok)); done.
Qed.

(** ** What a handler writes *)

Definition write_effect (p : HttpResponse) (data : option bytes) (cont : bool) : HttpResponse * bytes :=
  let p := p <| rcontinue_flag_ := cont |> in
  if is_close_ p || negb (session_ p) then (p, [])
  else
    let d := default [] data in
    let '(p, head) :=
      if negb (written_header_ p) then
        let ss := response_head p (Zlen d) cont in
        (p <| remain_bytes_ ::= fun n => s64 (n + Zlen ss) |> <| written_header_ := true |>, ss)
      else (p, []) in
    if 0 <? Zlen d then (p <| remain_bytes_ ::= fun n => s64 (n + Zlen d) |>, head ++ d) else (p, head).

(** The response object and the bytes written after the operations, up to the first throw. *)
Fixpoint respond (ops : list resp_op) (p : HttpResponse) : HttpResponse * bytes :=
  match ops with
  | [] => (p, [])
  | RThrow :: _ => (p, [])
  | RSetStatusCode c :: ops' => respond ops' (p <| status_code_ := c |>)
  | RSetStatus st :: ops' => respond ops' (p <| status_ := st |>)
  | RAddHeader k v :: ops' => respond ops' (p <| headers_ ::= smap_set k v |>)
  | RClose :: ops' => respond ops' p
  | RWrite d c :: ops' =>
      let '(p, out) := write_effect p d c in
      let '(p, out') := respond ops' p in (p, out ++ out')
  end.

(** A session on which the operations of a response run. *)
Definition with_response s (rs : list HttpResponse) (t : T) : HttpSession T C Q :=
  s <| responses := rs |> <| session_ptr_ := t |>.
Lemma with_response_twice s rs t rs' t' :
  with_response (with_response s rs t) rs' t' = with_response s rs' t'.
Proof. destruct s; done. Qed.
Lemma with_response_self s : with_response s (responses s) (session_ptr_ s) = s.
Proof. destruct s; done. Qed.

Lemma resp_upd_done s r f :
  resp_upd r f s = Done (with_response s (alter f r (responses s)) (session_ptr_ s)) tt.
Proof. destruct s; done. Qed.
Lemma resp_get_done s r p : responses s !! r = Some p -> resp_get r s = Done s p.
Proof. intros H. unfold resp_get. erewrite bind_done by reflexivity. rewrite H. done. Qed.

Lemma Write_done s d : freed_ s = false -> tb_open (session_ptr_ s) ->
  exists t', Write d s = Done (with_response s (responses s) t') tt /\ tb_open t' /\
    tb_trace t' = tb_trace (session_ptr_ s) ++ [SWrite d].
Proof.
  intros Hf Ho. destruct (tb_write_law _ d Ho) as (t' & E & Ho' & Et). exists t'.
  unfold Write, on_tcp. rewrite (bind_done _ _ _ _ _ (this_live s Hf)). unfold zoom. rewrite E.
  split_and!; [destruct s; done|done|done].
Qed.

Lemma TryRead_done s : freed_ s = false -> tb_open (session_ptr_ s) ->
  exists t', TryRead s = Done (with_response s (responses s) t') tt /\ tb_open t' /\
    tb_trace t' = tb_trace (session_ptr_ s) ++ [SRead].
Proof.
  intros Hf Ho. destruct (tb_read_law _ Ho) as (t' & E & Ho' & Et). exists t'.
  unfold TryRead, on_tcp. rewrite (bind_done _ _ _ _ _ (this_live s Hf)). unfold zoom. rewrite E.
  split_and!; [destruct s; done|done|done].
Qed.

Lemma with_response_fields s rs t :
  freed_ (with_response s rs t) = freed_ s /\ responses (with_response s rs t) = rs /\
  session_ptr_ (with_response s rs t) = t /\ request_ (with_response s rs t) = request_ s /\
  response_ptr_ (with_response s rs t) = response_ptr_ s.
Proof. destruct s; done. Qed.

Ltac wr_fields := rewrite ?(proj1 (with_response_fields _ _ _)),
  ?(proj1 (proj2 (with_response_fields _ _ _))), ?(proj1 (proj2 (proj2 (with_response_fields _ _ _)))).

(** From [s] to [s'] the session stays with its server under its address, and [out] is what it writes. *)
Definition progress s s' (out : bytes) : Prop :=
  callback_ s' = callback_ s /\ remote_address_ s' = remote_address_ s /\
  wrote (tb_trace (session_ptr_ s)) (tb_trace (session_ptr_ s')) out.
Lemma progress_refl s : progress s s [].
Proof. split_and!; [done|done|apply wrote_refl]. Qed.
Lemma progress_trans s1 s2 s3 o1 o2 : progress s1 s2 o1 -> progress s2 s3 o2 -> progress s1 s3 (o1 ++ o2).
Proof. intros (H1 & H2 & H3) (G1 & G2 & G3). split_and!; [congruence|congruence|by eapply wrote_trans]. Qed.
Lemma progress_response s rs t out : wrote (tb_trace (session_ptr_ s)) (tb_trace t) out -> progress s (with_response s rs t) out.
Proof. intros H. destruct s. done. Qed.
Lemma progress_written s s' out : progress s s' out ->
  written (tb_trace (session_ptr_ s')) = written (tb_trace (session_ptr_ s)) ++ out.
Proof. intros (_ & _ & H). by apply wrote_written. Qed.

(** One half of [resp_Write]: book the bytes and write them. *)
Definition runs_as {A} (m : eff (HttpSession T C Q) A) s r (p' : HttpResponse) (out : bytes) (a : A) : Prop :=
  exists t', m s = Done (with_response s (<[r := p']> (responses s)) t') a /\ tb_open t' /\
    wrote (tb_trace (session_ptr_ s)) (tb_trace t') out.

Lemma runs_as_bind {A B} (m : eff (HttpSession T C Q) A) (f : A -> eff (HttpSession T C Q) B) s r p1 p2 o1 o2 a b :
  (r < length (responses s))%nat -> runs_as m s r p1 o1 a ->
  (forall s', freed_ s' = freed_ s -> tb_open (session_ptr_ s') -> responses s' !! r = Some p1 ->
     runs_as (f a) s' r p2 o2 b) -> freed_ s = false ->
  runs_as (m ≫= f) s r p2 (o1 ++ o2) b.
Proof.
  intros Hr (t1 & E1 & Ho1 & W1) H Hf. destruct (H (with_response s (<[r := p1]> (responses s)) t1)) as (t2 & E2 & Ho2 & W2).
  - apply with_response_fields.
  - wr_fields. done.
  - wr_fields. apply list_lookup_insert_eq. done.
  - exists t2. rewrite (bind_done _ _ _ _ _ E1), E2, with_response_twice. wr_fields.
    rewrite list_insert_insert_eq. split_and!; [done|done|].
    revert W2. wr_fields. by apply wrote_trans.
Qed.

Lemma runs_upd s r p f : responses s !! r = Some p -> tb_open (session_ptr_ s) ->
  runs_as (resp_upd r f) s r (f p) [] tt.
Proof.
  intros Hr Ho. exists (session_ptr_ s). rewrite resp_upd_done, (alter_insert_eq' r p) by done.
  split_and!; [done|done|apply wrote_refl].
Qed.
Lemma runs_wr s r p d : d <> [] -> freed_ s = false -> responses s !! r = Some p -> tb_open (session_ptr_ s) ->
  runs_as (Write d) s r p d tt.
Proof.
  intros Hd Hf Hr Ho. destruct (Write_done s d Hf Ho) as (t' & E & Ho' & Et). exists t'.
  rewrite E, Et, list_insert_id by done. split_and!; [done|done|by apply wrote_one].
Qed.
Lemma runs_ret {A} s r p (a : A) : responses s !! r = Some p -> tb_open (session_ptr_ s) ->
  runs_as (mret a) s r p [] a.
Proof.
  intros Hr Ho. exists (session_ptr_ s). rewrite list_insert_id, with_response_self by done. split_and!; [done|done|apply wrote_refl].
Qed.
Lemma runs_get {A} s r p (f : HttpResponse -> eff (HttpSession T C Q) A) p' out a :
  responses s !! r = Some p -> runs_as (f p) s r p' out a -> runs_as (resp_get r ≫= f) s r p' out a.
Proof. intros Hr H. unfold runs_as. rewrite (bind_done _ _ _ _ _ (resp_get_done _ _ _ Hr)). exact H. Qed.

Lemma lookup_len s r p : responses s !! r = Some p -> (r < length (responses s))%nat.
Proof. apply lookup_lt_Some. Qed.

Ltac runs_step p' := eapply (runs_as_bind _ _ _ _ p' _ _ _ tt); [eapply lookup_len; eassumption| |
  intros ? ? ? ?; cbv beta|assumption].

Lemma runs_eq {A} (m : eff (HttpSession T C Q) A) s r p o a p' o' :
  runs_as m s r p o a -> p' = p -> o' = o -> runs_as m s r p' o' a.
Proof. intros H -> ->. done. Qed.

(** A step of a sequence. *)
Lemma runs_seq (m : eff (HttpSession T C Q) unit) {B} (k : eff (HttpSession T C Q) B) s r p1 p2 o1 o2 o b :
  freed_ s = false -> (r < length (responses s))%nat -> o = o1 ++ o2 -> runs_as m s r p1 o1 tt ->
  (forall s', freed_ s' = false -> tb_open (session_ptr_ s') -> responses s' !! r = Some p1 ->
     runs_as k s' r p2 o2 b) ->
  runs_as (m ;; k) s r p2 o b.
Proof.
  intros Hf Hr -> H1 H2. apply (runs_as_bind m (fun _ => k) s r p1 p2 o1 o2 tt b); [done|done| |done].
  intros s' Hf' Ho' Hr'. apply H2; [congruence|done|done].
Qed.

Definition add_remain (n : Z) (p : HttpResponse) : HttpResponse := p <| remain_bytes_ ::= fun m => s64 (m + n) |>.

Lemma runs_body s r p d {B} (k : eff (HttpSession T C Q) B) p2 o2 b : d <> [] -> freed_ s = false ->
  responses s !! r = Some p -> tb_open (session_ptr_ s) ->
  (forall s', freed_ s' = false -> tb_open (session_ptr_ s') -> responses s' !! r = Some (add_remain (Zlen d) p) ->
     runs_as k s' r p2 o2 b) ->
  runs_as (resp_upd r (fun p => p <| remain_bytes_ ::= fun n => s64 (n + Zlen d) |>) ;; Write d ;; k) s r p2 (d ++ o2) b.
Proof.
  intros Hd Hf Hr Ho H. eapply (runs_seq _ _ s r (add_remain (Zlen d) p) p2 [] (d ++ o2)); [done|eapply lookup_lt_Some; done|done| |].
  - apply runs_upd; done.
  - intros s1 Hf1 Ho1 Hr1. eapply (runs_seq _ _ s1 r (add_remain (Zlen d) p) p2 d o2);
      [done|eapply lookup_lt_Some; done|done|apply runs_wr; done|exact H].
Qed.

(** [resp_Write] has exactly the effect [write_effect]. *)
Lemma runs_Write s r p data cont : freed_ s = false -> responses s !! r = Some p -> tb_open (session_ptr_ s) ->
  runs_as (resp_Write r data cont) s r (fst (write_effect p data cont)) (snd (write_effect p data cont))
    (if is_close_ p || negb (session_ p) then -1 else 0).
Proof.
  intros Hf Hr Ho. unfold resp_Write, write_effect. set (p0 := p <| rcontinue_flag_ := cont |>).
  assert (Hc1 : is_close_ p0 = is_close_ p) by (destruct p; done).
  assert (Hc2 : session_ p0 = session_ p) by (destruct p; done).
  eapply (runs_seq _ _ s r p0 _ []); [done|eapply lookup_lt_Some; done|reflexivity|apply runs_upd; done|].
  intros s1 Hf1 Ho1 Hr1. eapply runs_get; [done|]. rewrite Hc1, Hc2.
  destruct (is_close_ p || negb (session_ p)); [apply runs_ret; done|].
  set (d := default [] data). set (ss := response_head p0 (Zlen d) cont).
  assert (Hlast : forall s2 p2, freed_ s2 = false -> tb_open (session_ptr_ s2) -> responses s2 !! r = Some p2 ->
    runs_as (when (0 <? Zlen d) (resp_upd r (fun p => p <| remain_bytes_ ::= fun n => s64 (n + Zlen d) |>) ;; Write d) ;;
             mret 0) s2 r (if 0 <? Zlen d then add_remain (Zlen d) p2 else p2) (if 0 <? Zlen d then d else []) 0).
  { intros s2 p2 Hf2 Ho2 Hr2. unfold when. destruct (Z.ltb_spec 0 (Zlen d)) as [Hd|_].
    - eapply (runs_seq _ _ s2 r (add_remain (Zlen d) p2) _ d []);
        [done|eapply lookup_lt_Some; done|rewrite app_nil_r; done| |intros; apply runs_ret; done].
      eapply (runs_seq _ _ s2 r (add_remain (Zlen d) p2) _ [] d); [done|eapply lookup_lt_Some; done|done|apply runs_upd; done|].
      intros; apply runs_wr; try done. by intros ->.
    - eapply (runs_seq _ _ s2 r p2 _ [] []); [done|eapply lookup_lt_Some; done|done|apply runs_ret; done|].
      intros; apply runs_ret; done. }
  assert (Hss : ss <> []) by (unfold ss, response_head; by destruct (proto_ p0)).
  unfold when in *. destruct (negb (written_header_ p0)).
  - set (p1 := (add_remain (Zlen ss) p0) <| written_header_ := true |>).
    eapply runs_eq; [eapply (runs_seq _ _ s1 r p1 _ ss);
      [done|eapply lookup_lt_Some; done|reflexivity| |intros; apply Hlast; done]|..].
    + eapply runs_eq; [apply (runs_body s1 r p0 ss _ p1 [] tt); [done..|]|done|symmetry; apply app_nil_r].
      intros. apply runs_upd; done.
    + destruct (0 <? Zlen d); done.
    + destruct (0 <? Zlen d); cbn [snd]; rewrite ?app_nil_r; done.
  - eapply runs_eq; [eapply (runs_seq _ _ s1 r p0 _ [] _);
      [done|eapply lookup_lt_Some; done|reflexivity|apply runs_ret; done|intros; apply Hlast; done]|..].
    + destruct (0 <? Zlen d); done.
    + destruct (0 <? Zlen d); done.
Qed.

(** Running the operations of a handler inside [try]. *)
Lemma runs_ops ops : forall s r p, Forall (fun op => op <> RClose) ops ->
  freed_ s = false -> responses s !! r = Some p -> tb_open (session_ptr_ s) ->
  runs_as (try_catch (for_each ops (exec_op r)) (fun _ => mret tt)) s r
    (fst (respond ops p)) (snd (respond ops p)) tt.
Proof.
  induction ops as [|op ops IH]; intros s r p Hops Hf Hr Ho; [apply runs_ret; done|].
  apply Forall_cons in Hops as [Hop Hops].
  destruct (decide (op = RThrow)) as [->|Hnt].
  { apply (runs_ret (A := unit) s r p tt Hr Ho). }
  assert (Hstep : runs_as (exec_op r op) s r (fst (respond [op] p)) (snd (respond [op] p)) tt).
  { destruct op; try done; cbn [exec_op respond fst snd]; try (apply (runs_upd s r p); done).
    pose proof (runs_Write s r p data continue_flag Hf Hr Ho) as H.
    destruct (write_effect p data continue_flag) as [p1 o1]. cbn [fst snd] in *. rewrite app_nil_r.
    eapply runs_eq; [eapply (runs_as_bind _ _ s r p1 p1 o1 []);
      [eapply lookup_lt_Some; done|exact H|intros; apply runs_ret; done|done]|done|rewrite app_nil_r; done]. }
  assert (Ecomp : respond (op :: ops) p =
    (fst (respond ops (fst (respond [op] p))), snd (respond [op] p) ++ snd (respond ops (fst (respond [op] p))))).
  { destruct op; try done; cbn [respond]; try (rewrite <- surjective_pairing; done).
    destruct (write_effect p data continue_flag) as [p1 o1]. cbn [fst snd].
    destruct (respond ops p1) as [p2 o2]. rewrite app_nil_r. done. }
  rewrite Ecomp. cbn [fst snd]. set (p1 := fst (respond [op] p)) in *. set (o1 := snd (respond [op] p)) in *.
  destruct Hstep as (t1 & E1 & Ho1 & W1). set (s1 := with_response s _ t1) in *.
  destruct (IH s1 r p1 Hops) as (t2 & E2 & Ho2 & W2).
  { unfold s1. rewrite (proj1 (with_response_fields _ _ _)). done. }
  { unfold s1. wr_fields. apply list_lookup_insert_eq. eapply lookup_lt_Some; done. }
  { unfold s1. wr_fields. done. }
  exists t2. split_and!; [|done|].
  - cbn [for_each]. unfold try_catch. rewrite (bind_done _ _ _ _ _ E1). unfold try_catch in E2. rewrite E2.
    unfold s1. rewrite with_response_twice. wr_fields. rewrite list_insert_insert_eq. done.
  - revert W2. unfold s1. wr_fields. by apply wrote_trans.
Qed.

(** ** The states of a session receiving a request *)

(** A live session; [hd] and [cd] are the bytes in its two buffers. *)
Definition live s (hd cd : bytes) (q : HttpRequest) : Prop :=
  freed_ s = false /\ is_closed_ s = false /\ tb_open (session_ptr_ s) /\ response_ptr_ s = None /\
  request_ s = Some q /\ bq_rep (header_data_ s) hd /\ bq_packed (header_data_ s) /\
  bq_rep (content_data_ s) cd /\ bq_packed (content_data_ s).

Lemma live_with_response s rs t hd cd q : live s hd cd q -> tb_open t -> live (with_response s rs t) hd cd q.
Proof. intros (H1 & H2 & H3 & H4 & H5 & H6 & H7 & H8 & H9) Ho. destruct s. unfold live. done. Qed.

(** Open, on an open connection. *)
Definition opened s : Prop := freed_ s = false /\ is_closed_ s = false /\ tb_open (session_ptr_ s).
Lemma live_opened s hd cd q : live s hd cd q -> opened s.
Proof. unfold live, opened. tauto. Qed.

(** Waiting for the rest of the head. *)
Definition waiting s (pre : bytes) : Prop :=
  live s pre [] new_request /\ header_is_ready_ s = false.

Lemma append_header_done s hd cd q data : live s hd cd q -> Zlen hd + Zlen data < 2 ^ 30 ->
  exists b, append_header data s = Done (s <| header_data_ := b |>) tt /\
    live (s <| header_data_ := b |>) (hd ++ data) cd q.
Proof.
  intros (Hf & Hc & Ho & Hrp & Hq & Hh & Hhp & Hcd & Hcp) Hl.
  destruct (bq_packed_append _ _ data Hh Hhp Hl) as (b & E & Hb & Hbp). exists b.
  unfold append_header. rewrite (bind_done _ _ _ _ _ (this_live s Hf)), E.
  erewrite bind_done by reflexivity. split; [done|]. destruct s. unfold live. done.
Qed.

Lemma append_content_done s hd cd q data : live s hd cd q -> Zlen cd + Zlen data < 2 ^ 30 ->
  exists b, append_content data s = Done (s <| content_data_ := b |>) tt /\
    live (s <| content_data_ := b |>) hd (cd ++ data) q.
Proof.
  intros (Hf & Hc & Ho & Hrp & Hq & Hh & Hhp & Hcd & Hcp) Hl.
  destruct (bq_packed_append _ _ data Hcd Hcp Hl) as (b & E & Hb & Hbp). exists b.
  unfold append_content. rewrite (bind_done _ _ _ _ _ (this_live s Hf)), E.
  erewrite bind_done by reflexivity. split; [done|]. destruct s. unfold live. done.
Qed.

(** A read that leaves the head incomplete asks for more. *)
Lemma OnRead_waiting s m target hs pre data k : waiting s pre -> request_ok m target hs ->
  (pre ++ data) ++ k = request_text m target hs -> k <> [] -> Zlen (request_text m target hs) < 2 ^ 30 ->
  exists s', OnRead handler 0 data s = Done s' tt /\ waiting s' (pre ++ data) /\
    responses s' = responses s /\ progress s s' [].
Proof.
  intros [Hlive Hrdy] Hok E Hk Hl. unfold OnRead. change (negb (0 =? 0)) with false. cbv iota.
  unfold HandleRequest. rewrite !bind_assoc. erewrite bind_done by reflexivity.
  set (s0 := s <| continue_flag_ := true |>).
  assert (H0 : live s0 pre [] new_request) by (destruct s; exact Hlive).
  rewrite !bind_assoc. rewrite (bind_done _ _ _ _ _ (this_live s0 (proj1 H0))).
  replace (header_is_ready_ s0) with false by (destruct s; done).
  assert (Hle : Zlen pre + Zlen data < 2 ^ 30) by (rewrite <- E in Hl; rewrite !Zlen_app in Hl; pose proof (Zlen_nonneg k); lia).
  destruct (append_header_done s0 pre [] new_request data H0 Hle) as (b & Ea & H1).
  set (s1 := s0 <| header_data_ := b |>) in *.
  rewrite !bind_assoc, (bind_done _ _ _ _ _ Ea), !bind_assoc.
  assert (Hlt : Zlen (request_text m target hs) < npos) by (unfold npos; lia).
  pose proof (AnalyzeHeader_incomplete s1 m target hs (pre ++ data) k (proj1 H1)) as HA.
  rewrite (bind_done _ _ _ _ _ (HA ltac:(apply H1) Hok E Hk Hlt)). change (negb (0 =? 0)) with false. cbv iota.
  set (s2 := s1 <| header_is_ready_ := false |>).
  assert (H2 : live s2 (pre ++ data) [] new_request) by (unfold s2; destruct s1; exact H1).
  rewrite !bind_assoc. rewrite (bind_done _ _ _ _ _ (this_live s2 (proj1 H2))).
  replace (header_is_ready_ s2) with false by (unfold s2; destruct s1; done).
  cbn [negb]. erewrite bind_done by reflexivity. change (0 =? 1) with false. cbv iota.
  erewrite bind_done by reflexivity. change (0 <? 0) with false. cbv iota.
  rewrite (bind_done _ _ _ _ _ (this_live s2 (proj1 H2))).
  replace (continue_flag_ s2) with true by (unfold s2, s1, s0; destruct s; done).
  destruct (TryRead_done s2 (proj1 H2)) as (t' & Et & Ho' & Ett); [apply H2|].
  cbn [when]. rewrite Et. eexists. split; [done|].
  assert (Ecb : progress s s2 [] /\ responses s2 = responses s /\ header_is_ready_ s2 = false)
    by (unfold s2, s1, s0; destruct s; split; [split_and!; [done|done|apply wrote_refl]|done]).
  destruct Ecb as (Ecb & Ers & Erdy).
  split_and!; [split; [apply live_with_response; done|]|..].
  - rewrite <- Erdy. destruct s2; done.
  - rewrite <- Ers. apply with_response_fields.
  - apply (progress_trans _ _ _ _ [] Ecb), progress_response. rewrite Ett. apply wrote_read.
Qed.

(** ** Answering a complete request *)

(** The handler has run on the request [q]: [s] before, [s'] after. *)
Definition answered s s' (q : HttpRequest) (h : nat) : Prop :=
  exists r, response_ptr_ s' = Some r /\
    responses s' !! r = Some (fst (respond (handler h q) new_response)) /\
    request_ s' = Some q /\ freed_ s' = false /\ is_closed_ s' = false /\ tb_open (session_ptr_ s') /\
    progress s s' (snd (respond (handler h q) new_response)).

(** Calling the handler on a new response, and what follows in both branches of the code. *)
Lemma run_handler s q h (r := length (responses s)) :
  let s1 := s <| responses ::= (fun l => l ++ [new_response]) |> <| response_ptr_ := Some r |>
              <| request_ := Some q |> in
  freed_ s = false -> is_closed_ s = false -> tb_open (session_ptr_ s) ->
  Forall (fun op => op <> RClose) (handler h q) ->
  exists s', (call_handle handler h r ;; take_continue) s1 = Done s' 0 /\ answered s s' q h.
Proof.
  intros s1 Hf Hcl Ho Hops.
  assert (Hcl1 : is_closed_ s1 = false) by (unfold s1; destruct s; done).
  assert (Hp0 : progress s s1 []) by (unfold s1; destruct s; split_and!; [done|done|apply wrote_refl]).
  assert (Hs1 : freed_ s1 = false /\ session_ptr_ s1 = session_ptr_ s /\ request_ s1 = Some q /\
    response_ptr_ s1 = Some r /\ responses s1 = responses s ++ [new_response]) by (unfold s1; destruct s; done).
  destruct Hs1 as (Hf1 & Et1 & Hq1 & Hp1 & Er1).
  assert (Hr1 : responses s1 !! r = Some new_response).
  { rewrite Er1. apply list_lookup_middle. done. }
  destruct (runs_ops (handler h q) s1 r new_response Hops Hf1 Hr1) as (t' & E & Ho' & W); [rewrite Et1; done|].
  assert (Ec : call_handle handler h r s1 = Done (with_response s1 (<[r := fst (respond (handler h q) new_response)]> (responses s1)) t') tt).
  { unfold call_handle. rewrite (bind_done _ _ _ _ _ (this_live s1 Hf1)), Hq1.
    erewrite bind_done by reflexivity. exact E. }
  rewrite (bind_done _ _ _ _ _ Ec). set (s2 := with_response _ _ _).
  destruct (with_response_fields s1 (<[r := fst (respond (handler h q) new_response)]> (responses s1)) t')
    as (Hf2 & Er2 & Et2 & Hq2 & Hp2). fold s2 in Hf2, Er2, Et2, Hq2, Hp2.
  assert (Hlk : responses s2 !! r = Some (fst (respond (handler h q) new_response))).
  { rewrite Er2. apply list_lookup_insert_eq. eapply lookup_lt_Some. done. }
  unfold take_continue. rewrite (bind_done _ _ _ _ _ (this_live s2 (eq_trans Hf2 Hf1))), Hp2, Hp1.
  erewrite bind_done by reflexivity. rewrite (bind_done _ _ _ _ _ (resp_get_done _ _ _ Hlk)).
  assert (Hcl2 : is_closed_ s2 = false) by (rewrite <- Hcl1; unfold s2; destruct s1; done).
  eexists. split; [reflexivity|]. exists r.
  pose proof (progress_trans _ _ _ _ _ Hp0 (progress_response _ (<[r := fst (respond (handler h q) new_response)]> (responses s1)) _ _ W)) as (P1 & P2 & P3).
  fold s2 in P1, P2, P3. cbn [app] in P3. unfold progress. clearbody s2. destruct s2. split_and!; cbn in *; congruence.
Qed.

Lemma get_handle_done s q h q' : freed_ s = false -> request_ s = Some q ->
  hc_GetHandle (callback_ s) q = (h, q') -> get_handle s = Done (s <| request_ := Some q' |>) h.
Proof.
  intros Hf Hq Eh. unfold get_handle. rewrite (bind_done _ _ _ _ _ (this_live s Hf)), Hq.
  erewrite bind_done by reflexivity. rewrite Eh. done.
Qed.

Lemma ensure_new s : freed_ s = false -> response_ptr_ s = None ->
  ensure_response s = Done (s <| responses ::= (fun l => l ++ [new_response]) |>
                              <| response_ptr_ := Some (length (responses s)) |>) (length (responses s)).
Proof.
  intros Hf Hr. unfold ensure_response. rewrite (bind_done _ _ _ _ _ (this_live s Hf)), Hr.
  destruct s; done.
Qed.

(** The part of [HandleRequest] after the buffers are filled. *)
Definition dispatch_request : eff (HttpSession T C Q) Z :=
  s ← this; q ← deref (request_ s);
  if beqb (method_ q) (bstr "OPTIONS") then HandleOptions
  else if beqb (method_ q) (bstr "GET") then HandleGet handler
  else HandlePost handler.

(** The request the handler sees. *)
Definition seen (q : HttpRequest) (body : bytes) : HttpRequest :=
  if beqb (method_ q) (bstr "GET") then q else q <| content_body_ := Some body |>.

Lemma dispatch_answer s hd cd q h q' : live s hd cd q -> method_ q <> bstr "OPTIONS" ->
  method_ q' = method_ q ->
  (method_ q = bstr "GET" \/ content_length_ q <= Zlen cd) ->
  hc_GetHandle (callback_ s) q = (Some h, q') ->
  Forall (fun op => op <> RClose) (handler h (seen q' cd)) ->
  exists s', dispatch_request s = Done s' 0 /\ answered s s' (seen q' cd) h.
Proof.
  intros (Hf & Hcl & Ho & Hrp & Hq & _ & _ & Hcd & _) Hopt Hm Hready Eh Hops.
  unfold dispatch_request. rewrite (bind_done _ _ _ _ _ (this_live s Hf)), Hq.
  erewrite bind_done by reflexivity. rewrite (proj2 (beqb_false _ _) Hopt).
  destruct (run_handler s (seen q' cd) h Hf Hcl Ho Hops) as (s' & E & Ha). exists s'. split; [|exact Ha]. rewrite <- E.
  unfold seen in *. rewrite Hm in *.
  assert (Hf' : freed_ (s <| request_ := Some q' |>) = false) by (rewrite set_request_freed; done).
  destruct (beqb (method_ q) (bstr "GET")) eqn:Eg.
  - unfold HandleGet. rewrite (bind_done _ _ _ _ _ (get_handle_done s q _ _ Hf Hq Eh)).
    destruct s; done.
  - apply beqb_false in Eg. destruct Hready as [|Hready]; [done|]. unfold HandlePost.
    rewrite (bind_done _ _ _ _ _ (this_live s Hf)), Hq. erewrite bind_done by reflexivity.
    destruct (bq_rep_len _ _ Hcd) as [El Hb]. rewrite El, s32_small by zlen.
    rewrite (proj2 (Z.leb_le _ _) Hready).
    rewrite (bind_done _ _ _ _ _ (get_handle_done s q _ _ Hf Hq Eh)). 
    rewrite (bind_done _ _ _ _ _ (ensure_new _ Hf' ltac:(destruct s; done))).
    rewrite (bq_string_law _ _ Hcd). erewrite bind_done by reflexivity.
    erewrite bind_done by (apply (req_upd_done _ q'); destruct s; done).
    destruct s; done.
Qed.

Lemma dispatch_wait s hd cd q : live s hd cd q -> method_ q <> bstr "OPTIONS" -> method_ q <> bstr "GET" ->
  Zlen cd < content_length_ q -> dispatch_request s = Done s 0.
Proof.
  intros (Hf & _ & Ho & Hrp & Hq & _ & _ & Hcd & _) Hopt Hget Hless.
  unfold dispatch_request. rewrite (bind_done _ _ _ _ _ (this_live s Hf)), Hq. erewrite bind_done by reflexivity.
  rewrite (proj2 (beqb_false _ _) Hopt), (proj2 (beqb_false _ _) Hget). unfold HandlePost.
  rewrite (bind_done _ _ _ _ _ (this_live s Hf)), Hq. erewrite bind_done by reflexivity.
  destruct (bq_rep_len _ _ Hcd) as [El Hb]. rewrite El, s32_small by zlen.
  rewrite (proj2 (Z.leb_gt _ _) Hless). done.
Qed.

(** ** Reads, one after the other *)

Definition finish (ret : Z) : eff (HttpSession T C Q) unit :=
  if ret <? 0 then Close else s ← this; when (continue_flag_ s) TryRead.

(** The head is complete; [cd] is the part of the body received so far. *)
Definition receiving s (hd cd : bytes) (q : HttpRequest) : Prop := live s hd cd q /\ header_is_ready_ s = true.

(** Two states that differ in the buffers and the request only. *)
Definition same_peer s s' : Prop :=
  callback_ s' = callback_ s /\ session_ptr_ s' = session_ptr_ s /\ remote_address_ s' = remote_address_ s.
Lemma same_peer_trans s1 s2 s3 : same_peer s1 s2 -> same_peer s2 s3 -> same_peer s1 s3.
Proof. unfold same_peer. intuition congruence. Qed.
Lemma same_peer_progress s s' : same_peer s s' -> progress s s' [].
Proof. intros (H1 & H2 & H3). split_and!; [done|done|]. rewrite H2. apply wrote_refl. Qed.

Lemma OnRead_body s hd cd q data : receiving s hd cd q -> Zlen cd + Zlen data < 2 ^ 30 ->
  exists s2, OnRead handler 0 data s = (dispatch_request ≫= finish) s2 /\
    receiving s2 hd (cd ++ data) q /\ same_peer s s2.
Proof.
  intros [Hl Hrdy] Hb. unfold OnRead. change (negb (0 =? 0)) with false. cbv iota.
  unfold HandleRequest. rewrite !bind_assoc. erewrite bind_done by reflexivity.
  set (s0 := s <| continue_flag_ := true |>).
  assert (H0 : live s0 hd cd q) by (destruct s; exact Hl).
  rewrite !bind_assoc, (bind_done _ _ _ _ _ (this_live s0 (proj1 H0))).
  replace (header_is_ready_ s0) with true by (destruct s; done).
  destruct (append_content_done s0 hd cd q data H0 Hb) as (b & Ea & H1).
  rewrite !bind_assoc, (bind_done _ _ _ _ _ Ea). erewrite bind_done by reflexivity.
  change (1 =? 1) with true. cbv iota. eexists. split; [reflexivity|].
  split; [split; [exact H1|]|]; destruct s; done.
Qed.

Lemma OnRead_head s m target hs pre data b : waiting s pre -> request_ok m target hs ->
  pre ++ data = request_text m target hs ++ b -> Zlen (request_text m target hs ++ b) < 2 ^ 30 ->
  exists s2, OnRead handler 0 data s = (dispatch_request ≫= finish) s2 /\
    receiving s2 (request_text m target hs ++ b) b (store_headers (first_line_request new_request m target) hs) /\
    same_peer s s2.
Proof.
  intros [Hl Hrdy] Hok E Hb. unfold OnRead. change (negb (0 =? 0)) with false. cbv iota.
  unfold HandleRequest. rewrite !bind_assoc. erewrite bind_done by reflexivity.
  set (s0 := s <| continue_flag_ := true |>).
  assert (H0 : live s0 pre [] new_request) by (destruct s; exact Hl).
  rewrite !bind_assoc, (bind_done _ _ _ _ _ (this_live s0 (proj1 H0))).
  replace (header_is_ready_ s0) with false by (destruct s; done).
  destruct (append_header_done s0 pre [] new_request data H0) as (hb & Ea & H1); [rewrite <- E, Zlen_app in Hb; lia|].
  set (s1 := s0 <| header_data_ := hb |>) in *. rewrite E in H1.
  rewrite !bind_assoc, (bind_done _ _ _ _ _ Ea), !bind_assoc.
  destruct H1 as (Hf1 & Hc1 & Ho1 & Hrp1 & Hq1 & Hh1 & Hhp1 & Hcd1 & Hcp1).
  pose proof (AnalyzeHeader_ok s1 m target hs b new_request Hf1 Hq1 eq_refl Hh1 Hok) as HA. cbv zeta in HA.
  rewrite (bind_done _ _ _ _ _ HA). change (negb (0 =? 0)) with false. cbv iota.
  set (pos := Zlen (join CRLF (request_lines m target hs))).
  set (q := store_headers _ hs). set (s2 := analyzed s1 q pos).
  assert (H2 : live s2 (request_text m target hs ++ b) [] q).
  { unfold s2, analyzed, live. destruct s1; done. }
  rewrite !bind_assoc, (bind_done _ _ _ _ _ (this_live s2 (proj1 H2))).
  replace (header_is_ready_ s2) with true by (unfold s2, analyzed; destruct s1; done). cbn [negb].
  assert (Htl : Zlen (request_text m target hs) = pos + 4).
  { unfold request_text, head_text. rewrite !Zlen_app. change (Zlen CRLF) with 2. fold pos. lia. }
  assert (Hpos : 0 <= pos) by apply Zlen_nonneg. rewrite Zlen_app in Hb. pose proof (Zlen_nonneg b) as Hb0.
  assert (Hcs : content_start_ s2 = s32 pos + 4) by (unfold s2, analyzed; destruct s1; done).
  rewrite Hcs, (s32_small pos) by lia. rewrite <- Htl.
  destruct H2 as (Hf2 & Hc2 & Ho2 & Hrp2 & Hq2 & Hh2 & Hhp2 & Hcd2 & Hcp2).
  destruct (bq_rep_len _ _ Hh2) as [El _]. rewrite El, Zlen_app, (s32_small (_ + _)), s32_small, u64_small by lia.
  replace (Zlen (request_text m target hs) + Zlen b - Zlen (request_text m target hs)) with (Zlen b) by lia.
  rewrite (bq_peek_law _ _ _ _ Hh2) by (rewrite ?Zlen_app; lia).
  replace (slice (request_text m target hs ++ b) (Zlen (request_text m target hs)) (Zlen b)) with b.
  2: { unfold slice. rewrite skipn_Zlen_app, to_nat_Zlen, firstn_all by done. done. }
  rewrite !bind_assoc. erewrite bind_done by reflexivity.
  destruct (append_content_done s2 (request_text m target hs ++ b) [] q b) as (cb & Eb & H3); [done|rewrite Zlen_nil; lia|].
  rewrite !bind_assoc, (bind_done _ _ _ _ _ Eb). erewrite bind_done by reflexivity.
  change (1 =? 1) with true. cbv iota. eexists. split; [reflexivity|]. cbn [app] in H3.
  assert (Hsame : header_is_ready_ s2 = true /\ same_peer s s2)
    by (unfold s2, analyzed, s1, s0; destruct s; done).
  destruct Hsame as (E1 & E2 & E3 & E4). split; [split; [exact H3|]|split_and!];
    rewrite <- ?E1, <- ?E2, <- ?E3, <- ?E4; destruct s2; done.
Qed.

(** The end of a read, after an answer and after an incomplete body. *)
Lemma finish_answered s s' q h : answered s s' q h ->
  exists s'', finish 0 s' = Done s'' tt /\ answered s s'' q h.
Proof.
  intros (r & Hr & Hp & Hq & Hf & Hcl & Ho & W). unfold finish. change (0 <? 0) with false. cbv iota.
  rewrite (bind_done _ _ _ _ _ (this_live s' Hf)). unfold when. destruct (continue_flag_ s').
  - destruct (TryRead_done s' Hf Ho) as (t' & Et & Ho' & Ett). rewrite Et. eexists. split; [done|].
    destruct (with_response_fields s' (responses s') t') as (F1 & F2 & F3 & F4 & F5).
    exists r. rewrite F5, F2, F4, F1, F3. split_and!; try done.
    rewrite <- (app_nil_r (snd _)). apply (progress_trans _ _ _ _ _ W), progress_response. rewrite Ett. apply wrote_read.
  - exists s'. split; [done|]. exists r. done.
Qed.

Lemma finish_receiving s hd cd q : receiving s hd cd q ->
  exists s'', finish 0 s = Done s'' tt /\ receiving s'' hd cd q /\ progress s s'' [].
Proof.
  intros [Hl Hrdy]. pose proof Hl as (Hf & _ & Ho & _). unfold finish. change (0 <? 0) with false. cbv iota.
  rewrite (bind_done _ _ _ _ _ (this_live s Hf)). unfold when. destruct (continue_flag_ s); [|exists s; split_and!; try done; apply progress_refl].
  destruct (TryRead_done s Hf Ho) as (t' & Et & Ho' & Ett). rewrite Et. eexists. split; [done|].
  split; [split; [apply live_with_response; done|rewrite <- Hrdy; destruct s; done]|].
  apply progress_response. rewrite Ett. apply wrote_read.
Qed.

Lemma answered_from s s2 s' q h : progress s s2 [] -> answered s2 s' q h -> answered s s' q h.
Proof.
  intros E (r & H1 & H2 & H3 & H4 & H5 & H6 & H7). exists r. split_and!; try done. exact (progress_trans _ _ _ _ _ E H7).
Qed.

Lemma concat_nil_inv (l : list bytes) : Forall (fun c => c <> []) l -> concat l = [] -> l = [].
Proof.
  intros H E. destruct l as [|c l]; [done|]. apply Forall_cons in H as [Hc _].
  cbn in E. apply app_nil in E as [E _]. done.
Qed.

Section request.
Context (m target : bytes) (hs : headers) (Hok : request_ok m target hs) (body : bytes).
Context (Hlen : Zlen (request_text m target hs ++ body) < 2 ^ 30) (Hopt : m <> bstr "OPTIONS").
Let q0 := store_headers (first_line_request new_request m target) hs.
Context (Hbody : if decide (m = bstr "GET") then body = [] else content_length_ q0 = Zlen body).
Context (h : nat) (q' : HttpRequest) (c : C) (Hroute : hc_GetHandle c q0 = (Some h, q')).
Context (Hm0 : method_ q0 = m) (Hm' : method_ q' = m).
Context (Hops : Forall (fun op => op <> RClose) (handler h (seen q' body))).

(** The read that brings the last byte, and one before it. *)
Lemma last_read s hd : receiving s hd body q0 -> callback_ s = c ->
  exists s', (dispatch_request ≫= finish) s = Done s' tt /\ answered s s' (seen q' body) h.
Proof.
  intros [Hl _] Hc. destruct (dispatch_answer s hd body q0 h q' Hl) as (s1 & E1 & A1); try congruence.
  { rewrite Hm0. destruct (decide _) as [|]; [by left|right; lia]. }
  rewrite (bind_done _ _ _ _ _ E1). apply finish_answered. done.
Qed.
Lemma early_read s hd cd : receiving s hd cd q0 -> Zlen cd < Zlen body ->
  exists s', (dispatch_request ≫= finish) s = Done s' tt /\ receiving s' hd cd q0 /\ progress s s' [].
Proof.
  intros Hr Hlt. pose proof Hr as [Hl _]. pose proof (Zlen_nonneg cd).
  destruct (decide (m = bstr "GET")) as [|Hg]; [rewrite Hbody in Hlt; change (Zlen (@nil Z)) with 0 in Hlt; lia|].
  rewrite (bind_done _ _ _ _ _ (dispatch_wait s hd cd q0 Hl ltac:(congruence) ltac:(congruence) ltac:(lia))).
  apply finish_receiving. done.
Qed.

Lemma concat_pos d (chunks : list bytes) : d <> [] -> 0 < Zlen (concat (d :: chunks)).
Proof.
  intros Hd. cbn [concat]. rewrite Zlen_app. pose proof (Zlen_nonneg (concat chunks)).
  destruct d as [|x d]; [done|]. rewrite Zlen_cons. pose proof (Zlen_nonneg d). lia.
Qed.

(** From a state whose buffers are filled: dispatch, then the remaining reads. *)
Lemma feed_rest chunks : forall s hd cd, receiving s hd cd q0 -> callback_ s = c ->
  Forall (fun c => c <> []) chunks -> cd ++ concat chunks = body ->
  exists s1 s', (dispatch_request ≫= finish) s = Done s1 tt /\ opened s1 /\ ran opened (OnRead handler 0) chunks s1 s' /\
    answered s s' (seen q' body) h.
Proof.
  induction chunks as [|d chunks IH]; intros s hd cd Hr Hc Hne Eb.
  - cbn [concat] in Eb. rewrite app_nil_r in Eb. subst cd.
    destruct (last_read s hd Hr Hc) as (s' & E & A). exists s', s'. split_and!; [done| |done|done].
    destruct A as (r & _ & _ & _ & H1 & H2 & H3 & _). done.
  - apply Forall_cons in Hne as [Hd Hne]. pose proof (concat_pos d chunks Hd).
    pose proof (f_equal Zlen Eb) as El. rewrite Zlen_app in El.
    destruct (early_read s hd cd Hr) as (s3 & E3 & Hr3 & W3); [lia|]. pose proof W3 as (Hc3 & _).
    rewrite Zlen_app in Hlen. pose proof (Zlen_nonneg (request_text m target hs)).
    cbn [concat] in *. rewrite Zlen_app in *. pose proof (Zlen_nonneg (concat chunks)).
    destruct (OnRead_body s3 hd cd q0 d Hr3) as (s4 & E4 & Hr4 & W4); [lia|]. pose proof W4 as (Hc4 & _).
    rewrite app_assoc in Eb. destruct (IH s4 hd (cd ++ d) Hr4) as (s5 & s' & E5 & Hs5 & E' & A'); [congruence|done|done|].
    exists s3, s'. split_and!; [done|eapply live_opened; apply Hr3| |].
    + exists s5. by rewrite E4.
    + eapply answered_from; [|exact A']. apply (progress_trans _ _ _ _ _ W3 (same_peer_progress _ _ W4)).
Qed.

Lemma feed_head chunks : forall s pre k, waiting s pre -> callback_ s = c -> k <> [] ->
  pre ++ k = request_text m target hs ->
  Forall (fun c => c <> []) chunks -> pre ++ concat chunks = request_text m target hs ++ body ->
  exists s', ran opened (OnRead handler 0) chunks s s' /\ answered s s' (seen q' body) h.
Proof.
  induction chunks as [|data chunks IH]; intros s pre k Hw Hc Hk Ek Hne Eb.
  { exfalso. cbn [concat] in Eb. rewrite app_nil_r in Eb. rewrite Eb, <- app_assoc in Ek.
    apply (f_equal length) in Ek. rewrite !length_app in Ek. destruct k; [done|cbn [length] in Ek; lia]. }
  apply Forall_cons in Hne as [Hd Hne]. cbn [concat] in Eb. rewrite app_assoc in Eb. cbn [ran].
  pose proof Hlen as Hlen'. rewrite Zlen_app in Hlen'. pose proof (Zlen_nonneg body).
  assert (Hcase : (exists b, pre ++ data = request_text m target hs ++ b /\ body = b ++ concat chunks) \/
    (exists k', k' <> [] /\ request_text m target hs = (pre ++ data) ++ k' /\ concat chunks = k' ++ body)).
  { apply app_eq_inv in Eb as [(b & Ep & Er)|(k' & Ep & Er)]; [left; exists b; done|].
    destruct k' as [|x k']; [|right; exists (x :: k'); done]. left. exists []. rewrite app_nil_r in Ep. rewrite app_nil_r. split; [congruence|symmetry; exact Er]. }
  destruct Hcase as [(b & Ep & Er)|(k' & Hk' & Ep & Er)].
  - pose proof (f_equal Zlen Er) as El. rewrite Zlen_app in El. pose proof (Zlen_nonneg (concat chunks)).
    destruct (OnRead_head s m target hs pre data b Hw Hok Ep) as (s2 & E & Hr2 & W2); [rewrite Zlen_app; lia|]. pose proof W2 as (Hc2 & _).
    destruct (feed_rest chunks s2 _ b Hr2) as (s1 & s' & E1 & Hs1 & E' & A'); [congruence|done|done|].
    exists s'. split; [|eapply answered_from; [|exact A']; by apply same_peer_progress].
    exists s1. by rewrite E.
  - destruct (OnRead_waiting s m target hs pre data k' Hw Hok (eq_sym Ep) Hk') as (s1 & E & Hw1 & _ & W1); [lia|]. pose proof W1 as (Hc1 & _).
    destruct (IH s1 (pre ++ data) k' Hw1) as (s' & E' & A'); [congruence|done|done|done| |].
    { rewrite Er, app_assoc, <- Ep. done. }
    exists s'. split; [|eapply answered_from; [|exact A']; done]. exists s1. split_and!; [done| |done]. eapply live_opened. apply Hw1.
Qed.
End request.

(** ** Closing *)

(** The counter of unsent bytes is the number of bytes handed over. *)
Lemma write_effect_remain p data cont : 0 <= remain_bytes_ p ->
  remain_bytes_ p + Zlen (snd (write_effect p data cont)) < 2 ^ 63 ->
  remain_bytes_ (fst (write_effect p data cont)) = remain_bytes_ p + Zlen (snd (write_effect p data cont)).
Proof.
  intros H0. unfold write_effect. destruct p as [c w st sc pr rv hs se rc rm]. cbn [remain_bytes_] in *.
  change (is_close_ _) with c. change (session_ _) with se.
  destruct (c || negb se); [cbn [fst snd]; rewrite Zlen_nil; cbn; lia|].
  change (written_header_ _) with w. set (d := default [] data). set (ss := response_head _ _ _).
  destruct w; cbn [negb]; destruct (Z.ltb_spec 0 (Zlen d)); cbn [fst snd app]; rewrite ?Zlen_app, ?Zlen_nil;
    cbn -[s64 response_head]; intros Hb; pose proof (Zlen_nonneg ss); pose proof (Zlen_nonneg d);
    try rewrite (s64_small (rm + Zlen ss)) by lia; rewrite ?s64_small by lia; lia.
Qed.

Lemma respond_remain ops : forall p, 0 <= remain_bytes_ p ->
  remain_bytes_ p + Zlen (snd (respond ops p)) < 2 ^ 63 ->
  remain_bytes_ (fst (respond ops p)) = remain_bytes_ p + Zlen (snd (respond ops p)).
Proof.
  induction ops as [|op ops IH]; intros p H0 Hb; [cbn [respond fst snd] in *; rewrite Zlen_nil; lia|].
  destruct op; cbn [respond fst snd] in *.
  1: pose proof (IH (p <| status_code_ := code |>)) as E; destruct p; apply E; done.
  1: pose proof (IH (p <| status_ := status |>)) as E; destruct p; apply E; done.
  1: pose proof (IH (p <| headers_ ::= smap_set key value |>)) as E; destruct p; apply E; done.
  2: apply IH; done.
  2: rewrite Zlen_nil; lia.
  pose proof (write_effect_remain p data continue_flag H0) as Hw.
  destruct (write_effect p data continue_flag) as [p1 o1]. cbn [fst snd] in Hw.
  specialize (IH p1). destruct (respond ops p1) as [p2 o2]. cbn [fst snd] in *. rewrite Zlen_app in *.
  pose proof (Zlen_nonneg o1). pose proof (Zlen_nonneg o2). rewrite IH; lia.
Qed.

(** A session with a response in progress. *)
Definition responding s (r : nat) (p : HttpResponse) : Prop :=
  response_ptr_ s = Some r /\ responses s !! r = Some p /\ freed_ s = false /\ is_closed_ s = false /\
  tb_open (session_ptr_ s).

(** The session is closed: so is its connection, and the server has been told, which may have destroyed the session. *)
Definition closed_from s s' : Prop :=
  is_closed_ s' = true /\ tb_trace (session_ptr_ s') = tb_trace (session_ptr_ s) ++ [SClose] /\ tb_closed (session_ptr_ s') /\
  (callback_ s', freed_ s') = hc_OnClose (callback_ s) (remote_address_ s).

Lemma Close_to s t' : freed_ s = false -> is_closed_ s = false -> tb_close (session_ptr_ s) = Done t' tt ->
  exists s', Close s = Done s' tt /\ is_closed_ s' = true /\ session_ptr_ s' = t' /\
    (callback_ s', freed_ s') = hc_OnClose (callback_ s) (remote_address_ s).
Proof.
  intros Hf Hc Et. destruct s as [cb t rs rp hd cd rq cst hr icl cf ra fr]. cbn in Hf, Hc, Et. subst.
  unfold Close, this, on_tcp, this, zoom, mbind, eff_bind, get, modify, resp_upd, modify.
  cbn. destruct rp as [r|]; cbn; rewrite Et; cbn; destruct (hc_OnClose cb ra) as [c' fr'] eqn:Ec;
    (eexists; split; [reflexivity|cbn; rewrite ?Ec; done]).
Qed.
Lemma Close_done s : freed_ s = false -> is_closed_ s = false -> tb_open (session_ptr_ s) ->
  exists s', Close s = Done s' tt /\ closed_from s s'.
Proof.
  intros Hf Hc Ho. destruct (tb_close_law _ Ho) as (t' & Et & Hcl & Ett).
  destruct (Close_to s t' Hf Hc Et) as (s' & E & H1 & <- & H3). exists s'. done.
Qed.

(** A completed write is booked; then the session may close. *)
Lemma OnWrite_booked s r p n : freed_ s = false -> response_ptr_ s = Some r -> responses s !! r = Some p ->
  0 <= remain_bytes_ p < 2 ^ 63 -> 0 < n < 2 ^ 63 ->
  let p' := p <| remain_bytes_ := remain_bytes_ p - n |> in
  exists s2, OnWrite 0 n s = when (negb (rcontinue_flag_ p) && (remain_bytes_ p - n <=? 0)) Close s2 /\
    freed_ s2 = false /\ is_closed_ s2 = is_closed_ s /\ same_peer s s2 /\ response_ptr_ s2 = Some r /\ responses s2 !! r = Some p'.
Proof.
  intros Hf Hr Hp Hb Hn p'. unfold OnWrite. change (negb (0 =? 0)) with false.
  erewrite bind_done by reflexivity. rewrite (bind_done _ _ _ _ _ (this_live s Hf)), Hr.
  rewrite (bind_done _ _ _ _ _ (resp_upd_done s r _)).
  rewrite (alter_insert_eq' r p) by done.
  assert (Ep : (p <| remain_bytes_ ::= fun m => s64 (m - n) |>) = p').
  { unfold p'. destruct p as [c w st sc pr rv hs se rc rm]. cbn in *. rewrite s64_small by lia. done. }
  rewrite Ep. set (s1 := with_response _ _ _).
  destruct (with_response_fields s (<[r := p']> (responses s)) (session_ptr_ s)) as (F1 & F2 & F3 & F4 & F5).
  fold s1 in F1, F2, F3, F4, F5.
  assert (Hlk : responses s1 !! r = Some p') by (rewrite F2; apply list_lookup_insert_eq; eapply lookup_lt_Some; done).
  rewrite (bind_done _ _ _ _ _ (resp_get_done _ _ _ Hlk)). erewrite bind_done by reflexivity.
  replace (rcontinue_flag_ p') with (rcontinue_flag_ p) by (unfold p'; destruct p; done).
  replace (remain_bytes_ p') with (remain_bytes_ p - n) by (unfold p'; destruct p; done).
  set (s2 := s1 <| continue_flag_ := rcontinue_flag_ p |>). exists s2. split; [done|].
  unfold s2. split_and!; [rewrite <- Hf; destruct s1; done|unfold s1; destruct s; done|
      unfold s1; destruct s; done|rewrite <- Hr, <- F5; destruct s1; done|rewrite <- Hlk; destruct s1; done].
Qed.

Lemma OnWrite_step s r p n : responding s r p -> rcontinue_flag_ p = false -> 0 < n ->
  0 <= remain_bytes_ p < 2 ^ 63 -> n <= remain_bytes_ p ->
  let p' := p <| remain_bytes_ := remain_bytes_ p - n |> in
  if remain_bytes_ p - n <=? 0
  then exists s', OnWrite 0 n s = Done s' tt /\ closed_from s s'
  else exists s', OnWrite 0 n s = Done s' tt /\ responding s' r p' /\ same_peer s s'.
Proof.
  intros (Hr & Hp & Hf & Hc & Ho) Hcont Hn Hb Hle p'.
  destruct (OnWrite_booked s r p n Hf Hr Hp Hb ltac:(lia)) as (s2 & E & G1 & G2 & G3 & G4 & G5). rewrite E, Hcont.
  pose proof G3 as (G6 & G7 & G8). rewrite Hc in G2. cbn [negb andb]. unfold when.
  destruct (Z.leb_spec (remain_bytes_ p - n) 0).
  - rewrite <- G7 in Ho. destruct (Close_done s2 G1 G2 Ho) as (s' & E' & H1).
    exists s'. unfold closed_from in *. by rewrite E', <- G6, <- G7, <- G8.
  - exists s2. unfold responding. rewrite G7. done.
Qed.

(** Acknowledged writes, in any portions. *)
Lemma acks_done acks : forall s r p, responding s r p -> rcontinue_flag_ p = false ->
  Forall (fun n => 0 < n) acks -> foldr Z.add 0 acks < remain_bytes_ p < 2 ^ 63 ->
  exists s' p', for_each acks (OnWrite 0) s = Done s' tt /\ responding s' r p' /\
    same_peer s s' /\ rcontinue_flag_ p' = false /\
    remain_bytes_ p' = remain_bytes_ p - foldr Z.add 0 acks.
Proof.
  induction acks as [|n acks IH]; intros s r p Hs Hc Hpos Hb.
  - exists s, p. cbn [foldr] in *. split_and!; try done. lia.
  - apply Forall_cons in Hpos as [Hn Hpos]. cbn [foldr for_each] in *.
    assert (0 <= foldr Z.add 0 acks) by (clear -Hpos; induction Hpos; cbn; lia).
    pose proof (OnWrite_step s r p n Hs Hc Hn ltac:(lia) ltac:(lia)) as H1. cbv zeta in H1.
    destruct (Z.leb_spec (remain_bytes_ p - n) 0); [lia|]. destruct H1 as (s1 & E1 & Hs1 & Et1).
    set (p1 := p <| remain_bytes_ := remain_bytes_ p - n |>) in *.
    assert (Hp1 : remain_bytes_ p1 = remain_bytes_ p - n /\ rcontinue_flag_ p1 = false) by (unfold p1; destruct p; done).
    destruct (IH s1 r p1 Hs1) as (s' & p' & E & Hs' & Et & Hc' & Hr'); [apply Hp1|done|lia|].
    exists s', p'. rewrite (bind_done _ _ _ _ _ E1). split_and!; [done|done|by eapply same_peer_trans|done|lia].
Qed.

Lemma store_headers_method hs : forall q, method_ (store_headers q hs) = method_ q.
Proof.
  induction hs as [|h hs IH]; intros q; [done|]. unfold store_headers in *. cbn [fold_left]. rewrite IH.
  unfold store_header. destruct (beqb _ _); destruct q; done.
Qed.
End proofs.

Section properties.
Context {T C Q : Type} {HT : TcpBaseSession T} {HTL : TcpBaseLaws T} {HC : HttpCallbackI C}
  {HQ : ByteQueue Q} {HQL : ByteQueueLaws Q} {HQP : ByteQueuePacked Q}.
Context (handler : nat -> HttpRequest -> list resp_op).
Implicit Types s : HttpSession T C Q.

(** The request the parser builds from a well-formed text. *)
Definition parsed (m target : bytes) (hs : headers) : HttpRequest :=
  store_headers (first_line_request new_request m target) hs.

(** C5: a well-formed request is answered, whatever way its bytes are cut into reads: the handler
    of its route runs once, on the parsed request, and the bytes written to the connection are
    those of the handler's operations. *)
Theorem request_answered s (m target : bytes) (hs : headers) (body : bytes) (chunks : list bytes)
  (h : nat) (q : HttpRequest)
  (Hw : waiting s []) (Hok : request_ok m target hs) (Hopt : m <> bstr "OPTIONS")
  (Hbody : if decide (m = bstr "GET") then body = [] else content_length_ (parsed m target hs) = Zlen body)
  (Hroute : hc_GetHandle (callback_ s) (parsed m target hs) = (Some h, q)) (Hm : method_ q = m)
  (Hops : Forall (fun op => op <> RClose) (handler h (seen q body)))
  (Hne : Forall (fun c => c <> []) chunks) (Hchunks : concat chunks = request_text m target hs ++ body)
  (Hlen : Zlen (concat chunks) < 2 ^ 30) :
  exists s', for_each chunks (OnRead handler 0) s = Done s' tt /\ answered handler s s' (seen q body) h.
Proof.
  rewrite Hchunks in Hlen.
  destruct (feed_head handler m target hs Hok body Hlen Hopt Hbody h q (callback_ s) Hroute) with
    (pre := @nil Z) (k := request_text m target hs) (s := s) (chunks := chunks) as (s' & E & A); try done.
  3: { exists s'. split; [by eapply ran_for_each|done]. }
  - rewrite store_headers_method. unfold first_line_request. destruct (GetUriAndParams _ _) as [[? ?] ?]. done.
  - unfold request_text, head_text. intros E. apply app_nil in E as [_ E]. done.
Qed.

(** C7: the connection stays open until the last byte of the response is acknowledged by the
    transport, in whatever portions, and is closed then. *)
Theorem closed_after_last_byte s0 s (q : HttpRequest) (h : nat) (acks : list Z) (n : Z)
  (Ha : answered handler s0 s q h)
  (Hcont : rcontinue_flag_ (fst (respond (handler h q) new_response)) = false)
  (Hpos : Forall (fun n => 0 < n) (acks ++ [n]))
  (Hsum : foldr Z.add 0 (acks ++ [n]) = Zlen (snd (respond (handler h q) new_response)))
  (Hmax : Zlen (snd (respond (handler h q) new_response)) < 2 ^ 63) :
  exists s1 s2, for_each acks (OnWrite 0) s = Done s1 tt /\ is_closed_ s1 = false /\
    OnWrite 0 n s1 = Done s2 tt /\ is_closed_ s2 = true /\
    tb_trace (session_ptr_ s2) = tb_trace (session_ptr_ s) ++ [SClose].
Proof.
  destruct Ha as (r & Hr & Hp & Hq & Hf & Hcl & Ho & W). set (p := fst (respond _ _)) in *.
  assert (Hrem : remain_bytes_ p = Zlen (snd (respond (handler h q) new_response))).
  { unfold p. rewrite respond_remain; cbn [new_response remain_bytes_]; lia. }
  rewrite foldr_app in Hsum. cbn [foldr] in Hsum.
  assert (Hadd : forall l a, foldr Z.add a l = foldr Z.add 0 l + a) by (induction l as [|x l IH]; intros a; cbn; [lia|rewrite IH; lia]).
  rewrite Hadd in Hsum. apply Forall_app in Hpos as [Hpos Hn]. apply Forall_cons in Hn as [Hn _].
  destruct (acks_done acks s r p) as (s1 & p1 & E1 & Hs1 & Et & Hc1 & Hr1); [done|done|done|lia|].
  pose proof Hs1 as (_ & _ & _ & Hcl1 & _). assert (0 <= foldr Z.add 0 acks) by (clear -Hpos; induction Hpos; cbn; lia).
  pose proof (OnWrite_step s1 r p1 n Hs1 Hc1 Hn ltac:(lia) ltac:(lia)) as H2. cbv zeta in H2.
  rewrite (proj2 (Z.leb_le _ _)) in H2 by lia. destruct H2 as (s2 & E2 & Hcl2 & Ht2 & _).
  exists s1, s2. rewrite Ht2, (proj1 (proj2 Et)). done.
Qed.

(** A header line that ends right after its colon makes [substr] throw, and nothing on the
    way to the event loop catches it. *)
Lemma empty_header_value_throws s (m target : bytes) (hs : headers) (k : bytes)
  (Hw : waiting s []) (Hok : request_ok m target hs) (Hk : plain k) (Hcolon : absent (bstr ":") k)
  (Hlen : Zlen (head_text (first_line m target :: map header_line hs ++ [k ++ bstr ":"])) < 2 ^ 30) :
  exists s', OnRead handler 0 (head_text (first_line m target :: map header_line hs ++ [k ++ bstr ":"])) s =
    Raised s' OutOfRange.
Proof.
  set (data := head_text _) in *. destruct Hw as [Hl Hrdy].
  unfold OnRead. change (negb (0 =? 0)) with false. cbv iota.
  unfold HandleRequest. rewrite !bind_assoc. erewrite bind_done by reflexivity.
  set (s0 := s <| continue_flag_ := true |>).
  assert (H0 : live s0 [] [] new_request) by (destruct s; exact Hl).
  rewrite !bind_assoc, (bind_done _ _ _ _ _ (this_live s0 (proj1 H0))).
  replace (header_is_ready_ s0) with false by (destruct s; done).
  destruct (append_header_done s0 [] [] new_request data H0) as (hb & Ea & H1); [rewrite Zlen_nil; lia|].
  rewrite !bind_assoc, (bind_done _ _ _ _ _ Ea), !bind_assoc. cbn [app] in H1.
  destruct H1 as (Hf1 & Hc1 & Ho1 & Hrp1 & Hq1 & Hh1 & Hhp1 & Hcd1 & Hcp1).
  set (s1 := s0 <| header_data_ := hb |>) in *.
  assert (Hlines : Forall line_ok (map header_line hs ++ [k ++ bstr ":"])).
  { apply Forall_app. split; [apply Forall_map; eapply Forall_impl; [apply Hok|apply header_line_ok]|].
    repeat constructor; [|destruct k; done]. apply plain_app. split; [done|apply absent_char; cbn; lia]. }
  assert (Hbyte : Forall (fun h => Zlen (header_line h) < npos) hs).
  { apply List.Forall_forall. intros x Hx. unfold npos, data, head_text in *. rewrite !Zlen_app in Hlen.
    change (Zlen CRLF) with 2 in Hlen.
    pose proof (join_in_len CRLF (header_line x) (first_line m target :: map header_line hs ++ [k ++ bstr ":"])) as Hj.
    assert (Zlen (header_line x) <= _) by (apply Hj; right; apply in_or_app; left; apply in_map; done). lia. }
  rewrite <- (app_nil_r data) in Hh1.
  cut (exists s', AnalyzeHeader s1 = Raised s' OutOfRange).
  { intros [s' E]. exists s'. rewrite (bind_raised _ _ _ _ _ E). done. }
  rewrite (AnalyzeHeader_first s1 m target _ [] new_request Hf1 Hq1 eq_refl Hh1); [|destruct Hok; done|done].
  rewrite (header_loop_app hs _ _ (first_line_request new_request m target));
    [|rewrite <- Hf1; destruct s1; done|unfold analyzed; apply set_request_request|apply Hok|done].
  cbn [header_loop].
  assert (Hkl : Zlen k + 1 < npos).
  { unfold npos, data, head_text in *. rewrite !Zlen_app in Hlen. change (Zlen CRLF) with 2 in Hlen.
    pose proof (join_in_len CRLF (k ++ bstr ":") (first_line m target :: map header_line hs ++ [k ++ bstr ":"])) as Hj.
    rewrite Zlen_app in Hj. change (Zlen (bstr ":")) with 1 in Hj.
    assert (Zlen k + 1 <= _) by (apply Hj; right; apply in_or_app; right; left; done). lia. }
  assert (Ef : find (bstr ":") (k ++ bstr ":") = Zlen k).
  { apply (find_first (bstr ":") k []); [done|rewrite app_nil_r, Zlen_app; done|apply first_at_char; done]. }
  rewrite Ef, (proj2 (Z.eqb_neq _ _)) by (pose proof (Zlen_nonneg k); lia).
  unfold substr_from, substr. rewrite Zlen_app. change (Zlen (bstr ":")) with 1.
  rewrite (proj2 (Z.leb_le 0 _)) by (pose proof (Zlen_nonneg k); lia).
  erewrite bind_done by reflexivity. rewrite (proj2 (Z.leb_gt _ _)) by lia.
  eexists. reflexivity.
Qed.
End properties.

(** ** The session and its server *)

Section with_server.
Context {T Q : Type} {HT : TcpBaseSession T} {HTL : TcpBaseLaws T} {HQ : ByteQueue Q}.
Implicit Types s : HttpSession T HttpServer Q.

(** Closing a session that is in the server's table destroys it. *)
Lemma Close_destroys s : freed_ s = false -> is_closed_ s = false -> tb_open (session_ptr_ s) ->
  smap_find (remote_address_ s) (session_ptr_map_ (callback_ s)) = Some tt ->
  exists s', Close s = Done s' tt /\ freed_ s' = true.
Proof.
  intros Hf Hc Ho Hm. destruct (tb_close_law _ Ho) as (t' & Et & _ & Ett).
  destruct s as [cb t rs rp hd cd rq cst hr icl cf ra fr]. cbn in Hf, Hc, Ho, Hm, Et. subst.
  unfold Close, this, on_tcp, this, zoom, mbind, eff_bind, get, modify, resp_upd, modify.
  cbn. destruct rp as [r|]; cbn; rewrite Et; cbn; unfold server_OnClose; rewrite Hm; eexists; split; reflexivity.
Qed.

(** A failed write makes the session close itself, which destroys it, and then go on using
    its members: undefined behaviour. *)
Lemma write_error_use_after_free s (ret_code sent_size : Z)
  (Hf : freed_ s = false) (Hc : is_closed_ s = false) (Ho : tb_open (session_ptr_ s))
  (Hm : smap_find (remote_address_ s) (session_ptr_map_ (callback_ s)) = Some tt)
  (Hret : ret_code <> 0) : OnWrite ret_code sent_size s = Stuck.
Proof.
  destruct (Close_destroys s Hf Hc Ho Hm) as (s' & E & Hf'). unfold OnWrite.
  rewrite (proj2 (Z.eqb_neq _ _) Hret). cbn [negb when]. rewrite (bind_done _ _ _ _ _ E).
  unfold mbind, eff_bind, this, mbind, eff_bind, get. rewrite Hf'. done.
Qed.
End with_server.

(** ** Witnesses *)

Definition demo_server : HttpServer :=
  AddPostHandle (AddGetHandle (fst (server_OnAccept empty_server 0 (bstr "1.2.3.4:5"))) (bstr "/hi/") 0)
    (bstr "/echo") 1.
Definition demo_handler (h : nat) (q : HttpRequest) : list resp_op :=
  match h with
  | O => [RSetStatus (bstr "Fine"); RWrite (Some (bstr "hello")) false]
  | _ => [RAddHeader (bstr "Server") (bstr "co"); RWrite (content_body_ q) false]
  end.
Definition demo_session : HttpSession tcp_log HttpServer bytes :=
  mkHttpSession demo_server (mkLog [SRead] false) [] None [] [] (Some new_request) (-1) false false false
    (bstr "1.2.3.4:5") false.
Definition demo_headers : headers :=
  [(bstr "Host", bstr "example.org"); (bstr "Content-Length", bstr "5")].

Ltac not_in := apply absent_char; cbn; lia.

Lemma demo_word l : existsb (Z.eqb 13) l = false -> existsb (Z.eqb 32) l = false -> l <> [] -> word l.
Proof.
  intros H1 H2 Hn. split_and!; [| |done].
  all: apply absent_char; intros Hin.
  - assert (existsb (Z.eqb 13) l = true); [|congruence]. apply existsb_exists. exists 13. done.
  - assert (existsb (Z.eqb 32) l = true); [|congruence]. apply existsb_exists. exists 32. done.
Defined.

Lemma demo_request_ok : request_ok (bstr "POST") (bstr "/echo?x=1") demo_headers.
Proof.
  constructor; [apply demo_word; [reflexivity|reflexivity|discriminate]..|vm_compute; congruence|].
  repeat constructor; cbn [fst snd demo_headers]; try not_in.
  - discriminate.
  - intros _. exists 5. split; [lia|reflexivity].
Defined.

Lemma demo_waiting : waiting demo_session [].
Proof. split; [unfold live; repeat split|]; reflexivity. Defined.

Lemma request_answered_witness :
  let text := request_text (bstr "POST") (bstr "/echo?x=1") demo_headers in
  let chunks := [firstn 9 text; skipn 9 text ++ bstr "he"; bstr "llo"] in
  let q := seen (snd (server_GetHandle demo_server (parsed (bstr "POST") (bstr "/echo?x=1") demo_headers))) (bstr "hello") in
  exists s', for_each chunks (OnRead demo_handler 0) demo_session = Done s' tt /\
    answered demo_handler demo_session s' q 1.
Proof.
  apply (request_answered demo_handler demo_session (bstr "POST") (bstr "/echo?x=1") demo_headers (bstr "hello"));
    [apply demo_waiting|apply demo_request_ok|discriminate|vm_compute; reflexivity|vm_compute; reflexivity
    |vm_compute; reflexivity| |repeat constructor; discriminate|reflexivity|vm_compute; reflexivity].
  repeat constructor; discriminate.
Defined.

(** What the handler's operations write in the witness above. *)
Example demo_response : snd (respond (demo_handler 0 new_request) new_response) =
  bstr "HTTP/1.1 200 Fine" ++ CRLF ++ bstr "Content-Length: 5" ++ CRLF ++ CRLF ++ bstr "hello".
Proof. vm_compute. reflexivity. Qed.

Definition demo_answered : HttpSession tcp_log HttpServer bytes :=
  mkHttpSession demo_server (mkLog [SRead; SWrite (snd (respond (demo_handler 0 new_request) new_response))] false)
    [fst (respond (demo_handler 0 new_request) new_response)] (Some 0%nat) [] [] (Some new_request) (-1) true false
    false (bstr "1.2.3.4:5") false.

Lemma closed_after_last_byte_witness :
  exists s1 s2, for_each [20; 18] (OnWrite 0) demo_answered = Done s1 tt /\ is_closed_ s1 = false /\
    OnWrite 0 7 s1 = Done s2 tt /\ is_closed_ s2 = true /\
    tb_trace (session_ptr_ s2) = tb_trace (session_ptr_ demo_answered) ++ [SClose].
Proof.
  apply (closed_after_last_byte demo_handler demo_session demo_answered new_request 0 [20; 18] 7);
    [exists 0%nat; do 6 (split; [vm_compute; reflexivity|]); split; [reflexivity|split; [reflexivity|]];
     eexists; split; [reflexivity|split; [vm_compute; reflexivity|repeat constructor; discriminate]]|reflexivity|
     cbn [app]; repeat (apply Forall_cons; split; [lia|]); apply Forall_nil; exact I|vm_compute; reflexivity|vm_compute; reflexivity].
Defined.

Lemma empty_header_value_throws_witness :
  exists s', OnRead demo_handler 0
    (head_text (first_line (bstr "POST") (bstr "/echo?x=1") :: map header_line demo_headers ++ [bstr "X" ++ bstr ":"]))
    demo_session = Raised s' OutOfRange.
Proof.
  apply empty_header_value_throws; [apply demo_waiting|apply demo_request_ok|not_in|not_in|vm_compute; reflexivity].
Defined.

Lemma write_error_use_after_free_witness : OnWrite (-32) 0 demo_answered = Stuck.
Proof. apply write_error_use_after_free; [reflexivity..|discriminate]. Defined.
