(* ===== verification/HttpSafety.v ===== *)
(** The HTTP server session against arbitrary input ([src/src/net/http/http_session.cpp]): whatever bytes arrive, in whatever
    reads, and however the completions of its writes fall in between, no buffer is overrun, no null or dangling pointer is
    used as long as the writes succeed; what a request can do is make the session close itself, or make [std::string::substr]
    throw.  A completion that reports a failure makes the session close itself and go on using its members. *)
From S2P Require Import Prelude Eff StdMap StdText StringEx ByteQueue TcpPub HttpCommon HttpText HttpSession HttpServer HttpRequests.

(** ** Numbers in the input *)

(** Every [Content-Length] in the text is a number that fits in an [int]. *)
Definition lengths_fit (s : bytes) : Prop := forall c v, infix (bstr "Content-Length:" ++ c :: v) s -> atoi v <> Undef.
Lemma lengths_fit_infix x s : infix x s -> lengths_fit s -> lengths_fit x.
Proof. intros Hx Hs c v Hv. apply (Hs c v). by eapply infix_trans. Qed.

(** The same by search. *)
Definition number_fits (t : bytes) : bool :=
  match t with
  | [] => true
  | _ :: t => forallb (fun m => match atoi (firstn m t) with Undef => false | _ => true end) (seq 0 (S (length t)))
  end.
Definition lengths_fitb (s : bytes) : bool :=
  let key := bstr "Content-Length:" in
  forallb (fun n => negb (beqb (firstn (length key) (skipn n s)) key) || number_fits (skipn (length key) (skipn n s))) (seq 0 (S (length s))).
Lemma lengths_fitb_ok s : lengths_fitb s = true -> lengths_fit s.
Proof.
  intros H c v (a & b & ->). rewrite <- app_assoc in H. cbn [app] in H. unfold lengths_fitb in H. set (key := bstr "Content-Length:") in *.
  assert (Ha : In (length a) (seq 0 (S (length (a ++ key ++ c :: v ++ b))))) by (apply in_seq; rewrite length_app; lia).
  apply (proj1 (forallb_forall _ _) H) in Ha. rewrite skipn_app_len, firstn_app_len, skipn_app_len, beqb_refl in Ha. cbn [negb orb number_fits] in Ha.
  assert (Hv : In (length v) (seq 0 (S (length (v ++ b))))) by (apply in_seq; rewrite length_app; lia).
  apply (proj1 (forallb_forall _ _) Ha) in Hv. rewrite firstn_app_len in Hv. by destruct (atoi v).
Qed.

(** ** The session *)

(** What the environment does to an open session: a read is reported, or a write has completed. *)
Inductive http_event : Type :=
| Read (ret_code : Z) (data : bytes)
| Wrote (ret_code sent_size : Z).

Definition received (evs : list http_event) : bytes :=
  concat (map (fun x => match x with Read _ d => d | Wrote _ _ => [] end) evs).

Section safety.
Context {T C Q : Type} {HT : TcpBaseSession T} {HTL : TcpBaseLaws T} {HC : HttpCallbackI C}
  {HQ : ByteQueue Q} {HQL : ByteQueueLaws Q} {HQP : ByteQueuePacked Q}.
Context (handler : nat -> HttpRequest -> list resp_op).
Implicit Types s : HttpSession T C Q.

(** A closed session is told nothing more. *)
Definition serve (x : http_event) : eff (HttpSession T C Q) unit := fun s =>
  if is_closed_ s then Done s tt
  else match x with
       | Read ret_code data => OnRead handler ret_code data s
       | Wrote ret_code sent_size => OnWrite ret_code sent_size s
       end.

(** The open session, which has received [dn]. *)
Record alive (dn : bytes) s : Prop := {
  lv_alive : freed_ s = false;
  lv_open : is_closed_ s = false;
  lv_tcp : tb_open (session_ptr_ s);
  lv_req : exists q, request_ s = Some q;
  lv_resp : forall r, response_ptr_ s = Some r -> (r < length (responses s))%nat;
  lv_bufs : exists h c, bq_rep (header_data_ s) h /\ bq_packed (header_data_ s) /\
    bq_rep (content_data_ s) c /\ bq_packed (content_data_ s) /\
    if header_is_ready_ s then Zlen c <= Zlen dn else (exists a, dn = a ++ h) /\ Zlen c + Zlen h <= Zlen dn }.

Lemma wp_this s (R : _ -> _ -> Prop) E : freed_ s = false -> R s s -> wp this R E s.
Proof. intros Hf HR. unfold wp, this. erewrite bind_done by reflexivity. by rewrite Hf. Qed.

(** The response objects and the TCP session have changed, nothing else. *)
Definition wrote_something s s' : Prop :=
  exists t l, s' = s <| session_ptr_ := t |> <| responses := l |> /\ tb_open t /\ length l = length (responses s).

Lemma wrote_something_trans s s1 s2 : wrote_something s s1 -> wrote_something s1 s2 -> wrote_something s s2.
Proof.
  intros (t1 & l1 & -> & H1 & E1) (t2 & l2 & -> & H2 & E2). exists t2, l2. split; [by destruct s|]. split; [done|].
  rewrite E2, <- E1. by destruct s.
Qed.
Lemma wrote_something_open s s' : wrote_something s s' -> tb_open (session_ptr_ s') /\ freed_ s' = freed_ s /\
  length (responses s') = length (responses s) /\ is_closed_ s' = is_closed_ s.
Proof. intros (t & l & -> & H & E). by destruct s. Qed.

Lemma resp_upd_wp r f s (R : unit -> _ -> Prop) E : tb_open (session_ptr_ s) -> (forall s', wrote_something s s' -> R tt s') -> wp (resp_upd r f) R E s.
Proof.
  intros Ht HR. unfold wp, resp_upd, modify. apply HR. exists (session_ptr_ s), (alter f r (responses s)).
  split; [by destruct s|]. split; [done|]. apply length_alter.
Qed.
Lemma Write_wp d s (R : unit -> _ -> Prop) E : freed_ s = false -> tb_open (session_ptr_ s) ->
  (forall s', wrote_something s s' -> R tt s') -> wp (Write d) R E s.
Proof.
  intros Hf Ht HR. destruct (tb_write_law _ d Ht) as (t' & E1 & Ho & _). unfold wp, Write, on_tcp, this.
  erewrite bind_done by (erewrite bind_done by reflexivity; rewrite Hf; reflexivity). unfold zoom. rewrite E1.
  apply HR. exists t', (responses s). split; [by destruct s|]. done.
Qed.
Lemma resp_get_wp r s (R : HttpResponse -> _ -> Prop) E : (r < length (responses s))%nat -> (forall p, R p s) -> wp (resp_get r) R E s.
Proof.
  intros Hr HR. unfold wp, resp_get. erewrite bind_done by reflexivity. destruct (lookup_lt_is_Some_2 _ _ Hr) as [p ->]. apply HR.
Qed.

(** An object on which the response operations are defined. *)
Definition usable r s : Prop := freed_ s = false /\ tb_open (session_ptr_ s) /\ (r < length (responses s))%nat.
Lemma usable_step r s s' : usable r s -> wrote_something s s' -> usable r s'.
Proof. intros (H1 & H2 & H3) H. destruct (wrote_something_open _ _ H) as (G1 & G2 & G3 & _). unfold usable. by rewrite G2, G3. Qed.
Lemma wrote_nothing r s : usable r s -> wrote_something s s.
Proof. intros (_ & H & _). exists (session_ptr_ s), (responses s). by destruct s. Qed.

Lemma resp_Write_wp r d cf s (R : Z -> _ -> Prop) E : usable r s -> (forall z s', wrote_something s s' -> R z s') -> wp (resp_Write r d cf) R E s.
Proof.
  intros Hu HR. unfold resp_Write. apply wp_bind, resp_upd_wp; [apply Hu|]. intros s1 H1. pose proof (usable_step r _ _ Hu H1) as Hu1.
  apply wp_bind, resp_get_wp; [apply Hu1|]. intros p. destruct (_ || _); [by apply HR|].
  assert (Hend : forall s2, wrote_something s s2 -> usable r s2 ->
    wp (when (0 <? Zlen (default [] d)) (resp_upd r (fun p => p <| remain_bytes_ ::= fun n => s64 (n + Zlen (default [] d)) |>) ;; Write (default [] d)) ;; mret 0) R E s2).
  { intros s2 H2 Hu2. apply wp_bind. unfold when. destruct (0 <? _); [|by apply HR].
    apply wp_bind, resp_upd_wp; [apply Hu2|]. intros s3 H3. pose proof (usable_step r _ _ Hu2 H3) as Hu3.
    apply Write_wp; [apply Hu3|apply Hu3|]. intros s4 H4. apply HR. by do 2 (eapply wrote_something_trans; [|eassumption]). }
  apply wp_bind. unfold when at 1. destruct (negb _); [|by apply Hend].
  apply wp_bind, resp_upd_wp; [apply Hu1|]. intros s2 H2. pose proof (usable_step r _ _ Hu1 H2) as Hu2.
  apply wp_bind, Write_wp; [apply Hu2|apply Hu2|]. intros s3 H3. pose proof (usable_step r _ _ Hu2 H3) as Hu3.
  apply resp_upd_wp; [apply Hu3|]. intros s4 H4. apply Hend; [|by eapply usable_step].
  by do 3 (eapply wrote_something_trans; [|eassumption]).
Qed.

(** An operation of a handler that does not close the response. *)
Lemma exec_op_wp r op s (R : unit -> _ -> Prop) (E : exn -> _ -> Prop) : usable r s -> op <> RClose -> (forall s', wrote_something s s' -> R tt s') ->
  (op = RThrow -> forall e, E e s) -> wp (exec_op r op) R E s.
Proof.
  intros Hu Hop HR HE. destruct op as [c|st|k v|d cf| |]; cbn [exec_op]; [by apply resp_upd_wp; [apply Hu|]..| |done|].
  - apply wp_bind, resp_Write_wp; [done|]. intros z s'. apply HR.
  - by apply HE.
Qed.

Lemma exec_ops_wp r ops s (R : unit -> _ -> Prop) : usable r s -> ~ In RClose ops -> (forall s', wrote_something s s' -> R tt s') ->
  wp (for_each ops (exec_op r)) R (fun _ s' => R tt s') s.
Proof.
  intros Hu Hc HR. eapply wp_weaken.
  - apply (wp_for_each ops (exec_op r) (fun s' => wrote_something s s') (fun _ s' => wrote_something s s')); [|by eapply wrote_nothing].
    intros x s1 Hx H1. apply exec_op_wp; [by eapply usable_step|by intros ->|..]; [intros; by eapply wrote_something_trans|done].
  - intros [] s'. apply HR.
  - intros e s'. apply HR.
Qed.

Context (Hquiet : forall h q, ~ In RClose (handler h q)).

Lemma call_handle_wp h r s q (R : unit -> _ -> Prop) E : usable r s -> request_ s = Some q -> (forall s', wrote_something s s' -> R tt s') ->
  wp (call_handle handler h r) R E s.
Proof.
  intros Hu Hq HR. unfold call_handle. apply wp_bind, wp_this; [apply Hu|]. apply wp_bind. eapply wp_deref; [done|].
  apply wp_try. by apply exec_ops_wp.
Qed.

(** ** The head of a request *)

(** The fields the head is analysed into have changed, nothing else. *)
Definition read_head s s' : Prop :=
  exists q, s' = s <| request_ := Some q |>.
Lemma read_head_trans s s1 s2 : read_head s s1 -> read_head s1 s2 -> read_head s s2.
Proof. intros [q1 ->] [q2 ->]. exists q2. by destruct s. Qed.

Lemma req_upd_wp f s q (R : unit -> _ -> Prop) E : freed_ s = false -> request_ s = Some q -> (forall s', read_head s s' -> R tt s') -> wp (req_upd f) R E s.
Proof.
  intros Hf Hq HR. unfold req_upd. apply wp_bind, wp_this; [done|]. apply wp_bind. eapply wp_deref; [done|]. apply HR. by eexists.
Qed.

Lemma header_loop_wp lines : forall s q (R : Z -> _ -> Prop), freed_ s = false -> request_ s = Some q ->
  Forall (fun l => Zlen l < npos /\ lengths_fit l) lines -> (forall z s', read_head s s' -> R z s') ->
  wp (header_loop lines) R (fun e _ => e = OutOfRange) s.
Proof.
  induction lines as [|l lines IH]; intros s q R Hf Hq Hl HR; cbn [header_loop].
  - apply HR. exists q. rewrite <- Hq. by destruct s.
  - apply Forall_cons in Hl as [[Hn Hfit] Hl]. assert (Hnone : R (-1) s) by (apply HR; exists q; rewrite <- Hq; by destruct s).
    destruct (find_spec (bstr ":") l Hn) as [[-> _]|(a & c & El & Ef & _)]; [by rewrite Z.eqb_refl|]. rewrite Ef.
    destruct (Zlen a =? npos); [done|]. pose proof (Zlen_nonneg a). pose proof (Zlen_nonneg c).
    assert (Ell : Zlen l = Zlen a + 1 + Zlen c) by (rewrite El, !Zlen_app; change (Zlen (bstr ":")) with 1; lia).
    apply wp_bind. apply (wp_lift _ a).
    { unfold substr. rewrite (proj2 (Z.leb_le _ _)), Z.min_l by lia. change (skipn (Z.to_nat 0) l) with l. by rewrite El, firstn_Zlen_app. }
    apply wp_bind. unfold substr_from, substr. destruct (Z.leb_spec (Zlen a + 2) (Zlen l)) as [H2|H2]; [|done]. unfold wp at 1. cbn [lift].
    destruct c as [|x v]; [rewrite Zlen_nil in Ell; lia|].
    replace (skipn (Z.to_nat (Zlen a + 2)) l) with v.
    2: { rewrite El. replace (a ++ bstr ":" ++ x :: v) with ((a ++ bstr ":" ++ [x]) ++ v) by (by rewrite <- !app_assoc).
         symmetry. apply skipn_Zlen_app. rewrite !Zlen_app. change (Zlen (bstr ":")) with 1. change (Zlen [x]) with 1. lia. }
    rewrite firstn_all2 by (rewrite Zlen_cons in Ell; rewrite Z.min_id, Ell; unfold Zlen; lia).
    assert (Hrest : forall s1 q1, read_head s s1 -> freed_ s1 = false -> request_ s1 = Some q1 ->
      wp (req_upd (fun q => q <| req_headers_ ::= smap_insert a v |>) ;; header_loop lines) R (fun e _ => e = OutOfRange) s1).
    { intros s1 q1 H1 Hf1 Hq1. apply wp_bind. eapply req_upd_wp; [done..|]. intros s2 [q2 ->]. eapply (IH _ q2); [by destruct s1|by destruct s1|done|].
      intros z s' H'. apply HR. eapply read_head_trans; [exact H1|]. eapply read_head_trans; [by exists q2|done]. }
    apply wp_bind. unfold when. destruct (beqb a _) eqn:Ea.
    + apply beqb_true in Ea as ->. apply wp_bind. unfold wp at 1, lift.
      assert (Hat : atoi v <> Undef) by (apply (Hfit x); rewrite El; exists [], []; by rewrite app_nil_r).
      destruct (atoi v) as [n|e|] eqn:En; [|exfalso; by apply (atoi_throws v e)|done].
      eapply req_upd_wp; [done..|]. intros s1 [q1 ->]. apply (Hrest _ q1); [by exists q1|by destruct s..].
    + apply (Hrest s q); [exists q; rewrite <- Hq; by destruct s|done..].
Qed.

(** [content_start_] and [header_is_ready_] are set too; the body starts inside the data. *)
Definition analyzed (h : bytes) s s' : Prop :=
  exists st rdy q, s' = s <| content_start_ := st |> <| header_is_ready_ := rdy |> <| request_ := Some q |> /\ (rdy = true -> 0 <= st <= Zlen h).

Lemma analyzed_head h s st rdy s' : read_head (s <| content_start_ := st |> <| header_is_ready_ := rdy |>) s' ->
  (rdy = true -> 0 <= st <= Zlen h) -> analyzed h s s'.
Proof. intros [q ->] H. by exists st, rdy, q. Qed.

Lemma AnalyzeHeader_wp s q h (R : Z -> _ -> Prop) : freed_ s = false -> request_ s = Some q -> bq_rep (header_data_ s) h -> Zlen h < 2 ^ 30 -> lengths_fit h ->
  (forall z s', analyzed h s s' -> R z s') -> wp AnalyzeHeader R (fun e _ => e = OutOfRange) s.
Proof.
  intros Hf Hq Hh Hl Hfit HR. unfold AnalyzeHeader. apply wp_bind, wp_this; [done|]. apply wp_bind. eapply wp_lift; [by apply bq_string_law|]. destruct (find_spec (CRLF ++ CRLF) h) as [[-> _]|(a & c & Eh & Ef & _)]; [unfold npos; lia|..].
  { rewrite Z.eqb_refl. apply wp_bind, wp_modify, HR. exists (content_start_ s), false, q. split; [|done]. rewrite <- Hq. by destruct s. }
  assert (Ea : Zlen h = Zlen a + 4 + Zlen c) by (rewrite Eh, !Zlen_app; change (Zlen CRLF) with 2; lia).
  pose proof (Zlen_nonneg a). pose proof (Zlen_nonneg c). rewrite Ef, (proj2 (Z.eqb_neq _ _)) by (unfold npos; lia). rewrite s32_small by lia.
  apply wp_bind, wp_modify. set (s0 := s <| content_start_ := Zlen a + 4 |> <| header_is_ready_ := true |>).
  assert (Hf0 : freed_ s0 = false) by (by destruct s). assert (Hq0 : request_ s0 = Some q) by (by destruct s).
  assert (Hst : true = true -> 0 <= Zlen a + 4 <= Zlen h) by lia.
  assert (HR0 : forall z s', read_head s0 s' -> R z s') by (intros z s' Hs'; apply HR; by eapply analyzed_head).
  assert (Hneg : forall z, R z s0) by (intros z; apply HR0; exists q; rewrite <- Hq0; by destruct s0).
  clearbody s0. rewrite (to_nat_Zlen a), Eh, firstn_app_len.
  assert (Hlines : Forall (fun l => infix l h) (StringSplit a CRLF)).
  { apply List.Forall_forall. intros l Hin. eapply infix_trans; [apply (StringSplit_infix a CRLF); [discriminate|unfold npos; lia|exact Hin]|]. rewrite Eh. by exists [], ((CRLF ++ CRLF) ++ c). }
  destruct (StringSplit a CRLF) as [|first lines]; [apply Hneg|]. apply Forall_cons in Hlines as [Hfirst Hlines].
  destruct (StringSplit first (bstr " ")) as [|m [|u [|ver [|? ?]]]] eqn:Es; try apply Hneg.
  assert (Hver : Zlen ver < npos).
  { assert (infix ver first) as Hv by (apply (StringSplit_infix first (bstr " ")); [discriminate|pose proof (infix_len _ _ Hfirst); unfold npos; lia|rewrite Es; by right; right; left]).
    pose proof (infix_len _ _ Hv). pose proof (infix_len _ _ Hfirst). unfold npos. lia. }
  apply wp_bind. eapply req_upd_wp; [done..|]. intros s1 H1. pose proof H1 as [q1 E1]. assert (Hf1 : freed_ s1 = false) by (rewrite E1; by destruct s0).
  assert (Hq1 : request_ s1 = Some q1) by (rewrite E1; by destruct s0). clear E1. apply wp_bind, wp_this; [done|]. apply wp_bind. eapply wp_deref; [done|].
  destruct (GetUriAndParams u (params_ q1)) as [[ret uri] ps]. apply wp_bind. eapply req_upd_wp; [done..|]. intros s2 H2. pose proof H2 as [q2 E2].
  assert (Hf2 : freed_ s2 = false) by (rewrite E2; by destruct s1). assert (Hq2 : request_ s2 = Some q2) by (rewrite E2; by destruct s1). clear E2.
  pose proof (read_head_trans _ _ _ H1 H2) as H02. destruct (ret <? 0); [by apply HR0|]. destruct (find _ ver =? npos); [by apply HR0|].
  apply wp_bind. unfold substr_from, substr. destruct (_ <=? _); [|done]. eapply wp_lift; [done|].
  apply wp_bind. eapply req_upd_wp; [done..|]. intros s3 H3. pose proof H3 as [q3 E3]. eapply (header_loop_wp _ _ q3); [rewrite E3; destruct s2; exact Hf2|by rewrite E3| |].
  - eapply Forall_impl; [exact Hlines|]. intros l Hil. pose proof (infix_len _ _ Hil). split; [unfold npos; lia|exact (lengths_fit_infix _ _ Hil Hfit)].
  - intros z s' H'. apply HR0. eapply read_head_trans; [exact H02|]. by eapply read_head_trans.
Qed.

(** ** The operations on an open session *)

Lemma alive_wrote dn s s' : alive dn s -> wrote_something s s' -> alive dn s'.
Proof.
  intros [H1 H2 H3 H4 H5 H6] (t & l & -> & Ht & El). constructor; destruct s; try done.
  intros r Hr. change (r < length l)%nat. rewrite El. by apply H5.
Qed.
Lemma alive_request dn s q : alive dn s -> alive dn (s <| request_ := Some q |>).
Proof. intros [H1 H2 H3 H4 H5 H6]. constructor; destruct s; try done. by exists q. Qed.
Lemma alive_continue dn s b : alive dn s -> alive dn (s <| continue_flag_ := b |>).
Proof. intros [H1 H2 H3 H4 H5 H6]. by constructor; destruct s. Qed.
Lemma alive_usable dn s r : alive dn s -> response_ptr_ s = Some r -> usable r s.
Proof. intros [H1 H2 H3 H4 H5 H6] Hr. split; [done|]. split; [done|]. by apply H5. Qed.
Lemma alive_response dn s r : alive dn s -> (r < length (responses s))%nat -> alive dn (s <| response_ptr_ := Some r |>).
Proof. intros [H1 H2 H3 H4 H5 H6] Hr. constructor; destruct s; try done. intros r' [= <-]. exact Hr. Qed.
Lemma alive_more dn d s : alive dn s -> header_is_ready_ s = true -> alive (dn ++ d) s.
Proof.
  intros [H1 H2 H3 H4 H5 (h & c & G1 & G2 & G3 & G4 & G5)] Hr. constructor; try done. exists h, c. rewrite Hr in *.
  split_and!; try done. rewrite Zlen_app. pose proof (Zlen_nonneg d). lia.
Qed.

Lemma Close_wp s E : freed_ s = false -> tb_open (session_ptr_ s) -> wp Close (fun _ s' => is_closed_ s' = true) E s.
Proof.
  intros Hf Ht. unfold Close. apply wp_bind, wp_this; [done|]. destruct (is_closed_ s) eqn:Ec; [done|].
  apply wp_bind, wp_modify. set (s1 := s <| is_closed_ := true |>).
  assert (Hend : forall s2, freed_ s2 = false -> tb_open (session_ptr_ s2) -> is_closed_ s2 = true ->
    wp (modify (fun s => s <| request_ := None |>) ;; on_tcp tb_close ;;
        modify (fun s => let '(c, destroyed) := hc_OnClose (callback_ s) (remote_address_ s) in s <| callback_ := c |> <| freed_ := destroyed |>))
      (fun _ s' => is_closed_ s' = true) E s2).
  { intros s2 Hf2 Ht2 Hc2. apply wp_bind, wp_modify. set (s3 := s2 <| request_ := None |>).
    destruct (tb_close_law (session_ptr_ s3)) as (t' & E1 & _); [by destruct s2|].
    apply wp_bind. unfold on_tcp. apply wp_bind, wp_this; [by destruct s2|]. unfold wp at 1, zoom. rewrite E1.
    apply wp_modify. destruct (hc_OnClose _ _) as [c0 b]. by destruct s2. }
  apply wp_bind. destruct (response_ptr_ s) as [r|].
  - apply resp_upd_wp; [by destruct s|]. intros s2 H2. destruct (wrote_something_open _ _ H2) as (G1 & G2 & _ & G3).
    apply Hend; [rewrite G2; by destruct s|done|rewrite G3; by destruct s].
  - apply wp_ret. apply Hend; by destruct s.
Qed.

Lemma make_response_wp s (R : nat -> _ -> Prop) E :
  R (length (responses s)) (s <| responses ::= fun l => l ++ [new_response] |>) -> wp make_response R E s.
Proof. done. Qed.

Lemma alive_make dn s : alive dn s -> alive dn (s <| responses ::= fun l => l ++ [new_response] |>).
Proof.
  intros [H1 H2 H3 H4 H5 H6]. constructor; destruct s; try done. intros r Hr. specialize (H5 r Hr).
  change (r < length (responses ++ [new_response]))%nat. rewrite length_app. cbn in *. lia.
Qed.

Lemma ensure_response_wp dn s (R : nat -> _ -> Prop) E : alive dn s ->
  (forall r s', alive dn s' -> response_ptr_ s' = Some r -> R r s') -> wp ensure_response R E s.
Proof.
  intros Hl HR. unfold ensure_response. apply wp_bind, wp_this; [apply Hl|]. destruct (response_ptr_ s) as [r|] eqn:Er; [by apply HR|].
  apply wp_bind. apply make_response_wp. apply wp_bind, wp_modify. apply wp_ret, HR; [|by destruct s].
  apply alive_response; [by apply alive_make|]. destruct s as [? ? l ? ? ? ? ? ? ? ? ? ?]. change (length l < length (l ++ [new_response]))%nat. rewrite length_app. cbn. lia.
Qed.

Lemma take_continue_wp dn s r (R : Z -> _ -> Prop) E : alive dn s -> response_ptr_ s = Some r -> (forall z s', alive dn s' -> R z s') -> wp take_continue R E s.
Proof.
  intros Hl Hr HR. unfold take_continue. apply wp_bind, wp_this; [apply Hl|]. apply wp_bind. eapply wp_deref; [done|].
  apply wp_bind, resp_get_wp; [by apply (alive_usable dn s)|]. intros p. apply wp_bind, wp_modify, wp_ret, HR. by apply alive_continue.
Qed.

Lemma run_handler_wp dn s h r q (R : Z -> _ -> Prop) E : alive dn s -> response_ptr_ s = Some r -> request_ s = Some q ->
  (forall z s', alive dn s' -> R z s') -> wp (call_handle handler h r ;; take_continue) R E s.
Proof.
  intros Hl Hr Hq HR. apply wp_bind. eapply call_handle_wp; [by eapply alive_usable|done|]. intros s1 H1.
  eapply (take_continue_wp dn s1 r); [by eapply alive_wrote| |done]. destruct H1 as (t & l & -> & _). by destruct s.
Qed.

Lemma get_handle_wp dn s (R : option nat -> _ -> Prop) E : alive dn s -> (forall h s', alive dn s' -> R h s') -> wp get_handle R E s.
Proof.
  intros Hl HR. unfold get_handle. apply wp_bind, wp_this; [apply Hl|]. destruct (lv_req _ _ Hl) as [q Hq]. apply wp_bind. eapply wp_deref; [done|].
  destruct (hc_GetHandle _ _) as [h q']. apply wp_bind, wp_modify, wp_ret, HR. by apply alive_request.
Qed.

Lemma HandleOptions_wp dn s (R : Z -> _ -> Prop) E : alive dn s -> (forall z s', alive dn s' -> R z s') -> wp HandleOptions R E s.
Proof.
  intros Hl HR. unfold HandleOptions. apply wp_bind. apply (ensure_response_wp dn); [done|]. intros r s1 Hl1 Hr1.
  pose proof (alive_usable dn s1 r Hl1 Hr1) as Hu. apply wp_bind. eapply wp_weaken.
  { apply (wp_for_each options_headers _ (fun s' => wrote_something s1 s') E); [|by eapply wrote_nothing].
    intros [k v] s2 _ H2. apply exec_op_wp; [by eapply usable_step|done|..]; [intros; by eapply wrote_something_trans|done]. }
  2: done.
  intros ? s2 H2. apply wp_bind, resp_Write_wp; [by eapply usable_step|]. intros z s3 H3.
  pose proof (alive_wrote dn _ _ (alive_wrote dn _ _ Hl1 H2) H3) as Hl3. apply wp_bind, wp_this; [apply Hl3|]. apply wp_bind, wp_modify, wp_ret, HR.
  destruct Hl3 as [G1 G2 G3 G4 G5 (h & c & B1 & B2 & B3 & B4 & B5)]. assert (Hc : Zlen c + Zlen (@nil Z) <= Zlen dn).
  { rewrite Zlen_nil. pose proof (Zlen_nonneg h). revert B5. destruct (header_is_ready_ s3); [lia|intros [_ B5]; lia]. }
  constructor; destruct s3; try done. exists [], c. split_and!; [by eapply bq_reset_law|by eapply bq_packed_reset|done|done|].
  split; [exists dn; by rewrite app_nil_r|exact Hc].
Qed.

Lemma HandleGet_wp dn s (R : Z -> _ -> Prop) E : alive dn s -> (forall z s', alive dn s' -> R z s') -> wp (HandleGet handler) R E s.
Proof.
  intros Hl HR. unfold HandleGet. apply wp_bind. apply (get_handle_wp dn); [done|]. intros [h|] s1 Hl1; [|by apply HR].
  apply wp_bind. apply make_response_wp. pose proof (alive_make dn s1 Hl1) as Hl2. set (s2 := s1 <| responses ::= _ |>) in *.
  assert (Hlen : (length (responses s1) < length (responses s2))%nat).
  { destruct s1 as [? ? l ? ? ? ? ? ? ? ? ? ?]. change (length l < length (l ++ [new_response]))%nat. rewrite length_app. cbn. lia. }
  clearbody s2. apply wp_bind, wp_modify. pose proof (alive_response dn s2 _ Hl2 Hlen) as Hl3. destruct (lv_req _ _ Hl3) as [q Hq].
  eapply (run_handler_wp dn); [exact Hl3|by destruct s2|exact Hq|done].
Qed.

Lemma HandlePost_wp dn s (R : Z -> _ -> Prop) E : alive dn s -> (forall z s', alive dn s' -> R z s') -> wp (HandlePost handler) R E s.
Proof.
  intros Hl HR. unfold HandlePost. apply wp_bind, wp_this; [apply Hl|]. destruct (lv_req _ _ Hl) as [q Hq]. apply wp_bind. eapply wp_deref; [done|].
  destruct (_ <=? _); [|by apply HR]. apply wp_bind. apply (get_handle_wp dn); [done|]. intros [h|] s1 Hl1; [|by apply HR].
  apply wp_bind. apply (ensure_response_wp dn); [done|]. intros r s2 Hl2 Hr2. destruct (lv_bufs _ _ Hl) as (hd & c & _ & _ & B3 & _).
  apply wp_bind. eapply wp_lift; [by apply bq_string_law|]. apply wp_bind. destruct (lv_req _ _ Hl2) as [q2 Hq2].
  eapply req_upd_wp; [apply Hl2|done|]. intros s3 [q3 ->].
  eapply (run_handler_wp dn); [by apply alive_request|by destruct s2|by destruct s2|done].
Qed.

(** The data of a read is appended to the body. *)
Lemma append_content_wp d dn' s h c (R : unit -> _ -> Prop) E : freed_ s = false -> is_closed_ s = false -> tb_open (session_ptr_ s) ->
  (exists q, request_ s = Some q) -> (forall r, response_ptr_ s = Some r -> (r < length (responses s))%nat) ->
  bq_rep (header_data_ s) h -> bq_packed (header_data_ s) -> bq_rep (content_data_ s) c -> bq_packed (content_data_ s) ->
  header_is_ready_ s = true -> Zlen c + Zlen d <= Zlen dn' -> Zlen dn' < 2 ^ 30 ->
  (forall s', alive dn' s' -> R tt s') -> wp (append_content d) R E s.
Proof.
  intros Hf Hc Ht Hq Hr B1 B2 B3 B4 Hrdy Hl H30 HR. unfold append_content. apply wp_bind, wp_this; [done|].
  destruct (bq_packed_append _ _ d B3 B4) as (b & E1 & B5 & B6); [lia|]. apply wp_bind. eapply wp_lift; [done|]. apply wp_modify, HR.
  constructor; destruct s; try done. exists h, (c ++ d). split_and!; try done. cbn in Hrdy. rewrite Hrdy.
  change (Zlen (c ++ d) <= Zlen dn'). by rewrite Zlen_app.
Qed.

Lemma append_header_wp d s h (R : unit -> _ -> Prop) E : freed_ s = false -> bq_rep (header_data_ s) h -> bq_packed (header_data_ s) ->
  Zlen (h ++ d) < 2 ^ 30 ->
  (forall b, bq_rep b (h ++ d) -> bq_packed b -> R tt (s <| header_data_ := b |>)) -> wp (append_header d) R E s.
Proof.
  intros Hf B1 B2 Hl HR. rewrite Zlen_app in Hl. unfold append_header. apply wp_bind, wp_this; [done|].
  destruct (bq_packed_append _ _ d B1 B2 Hl) as (b & E1 & B5 & B6). apply wp_bind. eapply wp_lift; [done|]. by apply wp_modify, HR.
Qed.

(** ** The events *)

Definition out_of_range {S} : exn -> S -> Prop := fun e _ => e = OutOfRange.

(** What the read brings is taken: [1] and the session has read a whole head, or the session waits, or the head is refused. *)
Lemma take_data_wp dn d s (R : Z -> _ -> Prop) : alive dn s -> Zlen (dn ++ d) < 2 ^ 30 -> lengths_fit (dn ++ d) ->
  (forall z s', alive (dn ++ d) s' -> R z s') ->
  wp (if header_is_ready_ s then append_content d ;; mret 1
      else
        append_header d ;;
        ret ← AnalyzeHeader;
        if negb (ret =? 0) then mret (-1)
        else
          s ← this;
          if negb (header_is_ready_ s) then mret 0
          else
            let len := s32 (s32 (bq_len (header_data_ s)) - content_start_ s) in
            start ← lift (bq_peek (header_data_ s) (content_start_ s) (u64 len));
            append_content start ;; mret 1) R out_of_range s.
Proof.
  intros [H1 H2 H3 H4 H5 (h & c & B1 & B2 & B3 & B4 & B5)] H30 Hfit HR. destruct (header_is_ready_ s) eqn:Er.
  - apply wp_bind. eapply (append_content_wp d (dn ++ d)); [done..|rewrite Zlen_app; lia|done|]. intros s' Hl. by apply HR.
  - destruct B5 as [[a ->] Hc]. assert (Hh : Zlen (h ++ d) < 2 ^ 30) by (rewrite !Zlen_app in *; pose proof (Zlen_nonneg a); lia).
    apply wp_bind. eapply append_header_wp; [done..|]. intros b Hb Hp. set (s1 := s <| header_data_ := b |>). destruct H4 as [q Hq].
    apply wp_bind. eapply (AnalyzeHeader_wp s1 q (h ++ d)); [by destruct s|by destruct s|by destruct s|done| |].
    { eapply lengths_fit_infix; [|exact Hfit]. exists a, []. by rewrite app_nil_r, <- app_assoc. }
    intros z s2 (st & rdy & q2 & -> & Hst). set (s2 := s1 <| content_start_ := st |> <| header_is_ready_ := rdy |> <| request_ := Some q2 |>).
    assert (Hl2 : alive ((a ++ h) ++ d) s2).
    { constructor; destruct s; try done; [by exists q2|]. exists (h ++ d), c. split; [done|]. split; [done|]. split; [done|]. split; [done|].
      change (if rdy then Zlen c <= Zlen ((a ++ h) ++ d) else (exists a', (a ++ h) ++ d = a' ++ h ++ d) /\ Zlen c + Zlen (h ++ d) <= Zlen ((a ++ h) ++ d)).
      rewrite !Zlen_app in *. pose proof (Zlen_nonneg h). pose proof (Zlen_nonneg d). destruct rdy; [lia|]. split; [exists a; by rewrite app_assoc|lia]. }
    destruct (negb _); [by apply HR|]. apply wp_bind, wp_this; [apply Hl2|].
    assert (Hr2 : header_is_ready_ s2 = rdy) by (by destruct s). rewrite Hr2. destruct rdy; [|by apply HR]. cbn [negb]. specialize (Hst eq_refl).
    assert (F : header_data_ s2 = b /\ content_start_ s2 = st /\ content_data_ s2 = content_data_ s) by (by destruct s). destruct F as (F1 & F2 & F3).
    rewrite F1, F2. destruct (bq_rep_len _ _ Hb) as [-> _]. pose proof (Zlen_nonneg (h ++ d)). rewrite (s32_small (Zlen _)), s32_small, u64_small by lia.
    apply wp_bind. eapply wp_lift; [apply (bq_peek_law _ _ _ _ Hb); lia|]. pose proof (Zlen_slice (h ++ d) st (Zlen (h ++ d) - st)) as Hsl.
    apply wp_bind. eapply (append_content_wp _ ((a ++ h) ++ d) s2 (h ++ d) c); [apply Hl2..|by rewrite F1|by rewrite F1|by rewrite F3|by rewrite F3|done| |done|].
    + rewrite Hsl by lia. rewrite !Zlen_app in *. lia.
    + intros s' Hl. by apply HR.
Qed.

Lemma HandleRequest_wp dn d s (R : Z -> _ -> Prop) : alive dn s -> Zlen (dn ++ d) < 2 ^ 30 -> lengths_fit (dn ++ d) ->
  (forall z s', alive (dn ++ d) s' -> R z s') -> wp (HandleRequest handler d) R out_of_range s.
Proof.
  intros Hl H30 Hfit HR. unfold HandleRequest. apply wp_bind, wp_modify. pose proof (alive_continue dn s true Hl) as Hl0.
  set (s0 := s <| continue_flag_ := true |>) in *. clearbody s0. apply wp_bind, wp_this; [apply Hl0|]. apply wp_bind.
  eapply take_data_wp; [done..|]. intros z s1 Hl1. destruct (z =? 1); [|by apply HR].
  apply wp_bind, wp_this; [apply Hl1|]. destruct (lv_req _ _ Hl1) as [q Hq]. apply wp_bind. eapply wp_deref; [done|].
  destruct (beqb _ _); [by eapply HandleOptions_wp|]. destruct (beqb _ _); [by eapply HandleGet_wp|by eapply HandlePost_wp].
Qed.

(** Still open, or closed. *)
Definition served (dn : bytes) s : Prop := is_closed_ s = true \/ alive dn s.

Lemma OnRead_wp dn ret d s : alive dn s -> Zlen (dn ++ d) < 2 ^ 30 -> lengths_fit (dn ++ d) ->
  wp (OnRead handler ret d) (fun _ => served (dn ++ d)) out_of_range s.
Proof.
  intros Hl H30 Hfit. unfold OnRead.
  assert (Hclose : forall dn' s', alive dn' s' -> wp Close (fun _ => served (dn ++ d)) out_of_range s').
  { intros dn' s' Hl'. eapply wp_weaken; [apply Close_wp; apply Hl'|by left|done]. }
  destruct (negb _); [by eapply Hclose|]. apply wp_bind. eapply HandleRequest_wp; [done..|]. intros z s1 Hl1.
  destruct (z <? 0); [by eapply Hclose|]. apply wp_bind, wp_this; [apply Hl1|]. unfold when. destruct (continue_flag_ s1); [|by right].
  destruct (tb_read_law (session_ptr_ s1)) as (t' & E1 & Ho & _); [apply Hl1|].
  unfold TryRead, on_tcp. apply wp_bind, wp_this; [apply Hl1|]. unfold wp, zoom. rewrite E1. right.
  eapply alive_wrote; [exact Hl1|]. exists t', (responses s1). split; [by destruct s1|]. done.
Qed.

Lemma OnWrite_wp dn n s E : alive dn s -> wp (OnWrite 0 n) (fun _ => served dn) E s.
Proof.
  intros Hl. unfold OnWrite. change (negb (0 =? 0)) with false. cbn [when]. apply wp_bind, wp_ret. apply wp_bind, wp_this; [apply Hl|].
  destruct (response_ptr_ s) as [r|] eqn:Er; [|by right]. pose proof (alive_usable dn s r Hl Er) as Hu.
  apply wp_bind, resp_upd_wp; [apply Hl|]. intros s1 H1. pose proof (usable_step r _ _ Hu H1) as Hu1. pose proof (alive_wrote dn _ _ Hl H1) as Hl1.
  apply wp_bind, resp_get_wp; [apply Hu1|]. intros p. apply wp_bind, wp_modify. pose proof (alive_continue dn s1 (rcontinue_flag_ p) Hl1) as Hl2.
  unfold when. destruct (_ && _); [|by right]. eapply wp_weaken; [apply Close_wp; apply Hl2|by left|done].
Qed.

(** A failed completion closes the session; if that has destroyed it, what follows is undefined. *)
Lemma Close_closed s : freed_ s = false -> is_closed_ s = true -> Close s = Done s tt.
Proof. intros Hf Hc. unfold Close, this. erewrite bind_done by (erewrite bind_done by reflexivity; by rewrite Hf). by rewrite Hc. Qed.
Lemma OnWrite_fails dn ret n s : alive dn s -> ret <> 0 ->
  match OnWrite ret n s with Done s' _ => is_closed_ s' = true | Raised _ _ => False | Stuck => True end.
Proof.
  intros Hl Hret. unfold OnWrite. rewrite (proj2 (Z.eqb_neq _ _) Hret). cbn [negb when].
  pose proof (Close_wp s (fun _ _ => False) ltac:(apply Hl) ltac:(apply Hl)) as Hc. unfold wp in Hc.
  destruct (Close s) as [s1 []| |] eqn:Ec; [|done..]. rewrite (bind_done _ _ _ _ _ Ec).
  destruct (freed_ s1) eqn:Ef; [by unfold this, mbind, eff_bind, get; rewrite Ef|].
  erewrite bind_done by (unfold this; erewrite bind_done by reflexivity; by rewrite Ef).
  destruct (response_ptr_ s1) as [r|]; [|done]. erewrite bind_done by reflexivity. set (s2 := s1 <| responses ::= _ |>).
  unfold resp_get. rewrite bind_assoc. erewrite bind_done by reflexivity. destruct (responses s2 !! r) as [p|]; [|done].
  erewrite bind_done by reflexivity. erewrite bind_done by reflexivity. set (s3 := s2 <| continue_flag_ := _ |>).
  assert (H3 : freed_ s3 = false /\ is_closed_ s3 = true) by (by destruct s1). destruct H3 as [H3 H4].
  unfold when. destruct (_ && _); [by rewrite Close_closed|exact H4].
Qed.

(** How a run over [evs] ends, after [dn] has been received. *)
Definition run_outcome (dn : bytes) (evs : list http_event) s : Prop :=
  match for_each evs serve s with
  | Done s' _ => is_closed_ s' = true \/ alive (dn ++ received evs) s'
  | Raised _ e => e = OutOfRange
  | Stuck => exists evs1 ret_code n evs2 s1, evs = evs1 ++ Wrote ret_code n :: evs2 /\ ret_code <> 0 /\
      for_each evs1 serve s = Done s1 tt /\ is_closed_ s1 = false
  end.

Lemma serve_all evs : forall dn s, served dn s -> Zlen (dn ++ received evs) < 2 ^ 30 -> lengths_fit (dn ++ received evs) ->
  run_outcome dn evs s.
Proof.
  unfold run_outcome. induction evs as [|x evs IH]; intros dn s Hs H30 Hfit; [by rewrite app_nil_r|]. cbn [for_each].
  set (d := match x with Read _ d => d | Wrote _ _ => [] end). change (received (x :: evs)) with (d ++ received evs) in *. rewrite app_assoc in *.
  assert (Hd30 : Zlen (dn ++ d) < 2 ^ 30) by (rewrite Zlen_app in H30; pose proof (Zlen_nonneg (received evs)); lia).
  assert (Hdfit : lengths_fit (dn ++ d)) by (eapply lengths_fit_infix; [|exact Hfit]; by exists [], (received evs)).
  assert (Hx : match serve x s with
    | Done s' _ => served (dn ++ d) s'
    | Raised _ e => e = OutOfRange
    | Stuck => is_closed_ s = false /\ exists ret n, x = Wrote ret n /\ ret <> 0 end).
  { unfold serve. destruct (is_closed_ s) eqn:Ec; [by left|]. destruct Hs as [Hs|Hs]; [congruence|].
    destruct x as [ret y|ret n].
    - pose proof (OnRead_wp dn ret y s Hs Hd30 Hdfit) as H. unfold wp in H. by destruct (OnRead _ _ _ _).
    - unfold d. rewrite app_nil_r. destruct (decide (ret = 0)) as [->|Hret].
      + pose proof (OnWrite_wp dn n s (fun _ _ => False) Hs) as H. unfold wp in H. by destruct (OnWrite _ _ _).
      + pose proof (OnWrite_fails dn ret n s Hs Hret) as H. destruct (OnWrite ret n s); [by left|done|]. split; [done|]. by exists ret, n. }
  unfold mbind, eff_bind. destruct (serve x s) as [s1 []|s1 e|] eqn:Ex; [|exact Hx|].
  - specialize (IH (dn ++ d) s1 Hx H30 Hfit). destruct (for_each evs serve s1) as [| |]; [done..|].
    destruct IH as (evs1 & ret & n & evs2 & s2 & -> & Hr & E & Hc). exists (x :: evs1), ret, n, evs2, s2. split_and!; try done.
    cbn [for_each]. by rewrite (bind_done _ _ _ _ _ Ex).
  - destruct Hx as (Hc & ret & n & -> & Hr). by exists [], ret, n, evs, s.
Qed.
End safety.

(** A session that waits for its first request. *)
Lemma waiting_alive {T C Q : Type} {HT : TcpBaseSession T} {HTL : TcpBaseLaws T} {HC : HttpCallbackI C}
  {HQ : ByteQueue Q} {HQL : ByteQueueLaws Q} {HQP : ByteQueuePacked Q} (s : HttpSession T C Q) : waiting s [] -> alive [] s.
Proof.
  intros [(H1 & H2 & H3 & H4 & H5 & H6 & H7 & H8 & H9) Hr]. constructor; [done|done|done|by eexists|by rewrite H4|].
  exists [], []. rewrite Hr. split_and!; try done. by exists [].
Qed.


(** A request in three reads, a completion, another request that is refused, and an event after the end. *)
Definition hostile : list http_event :=
  [Read 0 (bstr "GET /hi HTT"); Read 0 (bstr "P/1.1" ++ CRLF ++ bstr "Content-Length: 12"); Read 0 (CRLF ++ CRLF ++ [0; 255]); Wrote 0 3;
   Read 0 (bstr "?? " ++ CRLF ++ CRLF); Read (-1) []; Wrote (-32) 100].

(** A failed completion while the answer is on its way. *)
Example failed_completion :
  for_each [Read 0 (bstr "GET /hi HTTP/1.1" ++ CRLF ++ CRLF); Wrote (-32) 3] (serve demo_handler) demo_session = Stuck.
Proof. vm_compute. reflexivity. Qed.

(** Both provisos are needed: a header line that ends at its colon makes [substr] throw, and a number of eleven digits overflows. *)
Example colon_throws : exists s', for_each [Read 0 (bstr "GET / HTTP/1.1" ++ CRLF ++ bstr "A:" ++ CRLF ++ CRLF)] (serve demo_handler) demo_session = Raised s' OutOfRange.
Proof. eexists. vm_compute. reflexivity. Qed.
Example length_overflows :
  for_each [Read 0 (bstr "GET / HTTP/1.1" ++ CRLF ++ bstr "Content-Length: 12345678901" ++ CRLF ++ CRLF)] (serve demo_handler) demo_session = Stuck.
Proof. vm_compute. reflexivity. Qed.
