(* ===== verification/HttpServerTcp.v ===== *)
(** The HTTP server on the TCP sessions it creates: the constructor and destructor of [http_session.cpp], [OnAccept] of
    [http_server.cpp], and what libuv reports, from [tcp_session.hpp] up to the table of sessions.

    A session of [HttpSession.v] is the callback object of its TCP session; the TCP session is its member.  The table maps each
    remote endpoint to its session without the server; an event finds the session, gives it the server, and puts both back.
    A session that has been destroyed is no longer in the table: an event for it is a use after free. *)
From S2P Require Import Prelude Eff StdMap StdText StringEx ByteQueue DataBuffer IpAddress TcpPub Ssl Tcp HttpCommon HttpText HttpSession HttpServer HttpRequests.

Section stack.
Context {X C Q : Type} {HX : OpenSsl X} {HC : HttpCallbackI C} {HQ : ByteQueue Q} (handler : nat -> HttpRequest -> list resp_op).
Abbreviation Session := (HttpSession (TcpSession X) C Q).

(** ** The HTTP session is the callback object of its TCP session *)

(** The session without the member [session_ptr_], and with it. *)
Definition attach (t : TcpSession X) (u : HttpSession unit C Q) : Session :=
  mkHttpSession (callback_ u) t (responses u) (response_ptr_ u) (header_data_ u) (content_data_ u) (request_ u) (content_start_ u)
    (header_is_ready_ u) (is_closed_ u) (continue_flag_ u) (remote_address_ u) (HttpSession.freed_ u).
Definition detach (s : Session) : HttpSession unit C Q :=
  mkHttpSession (callback_ s) tt (responses s) (response_ptr_ s) (header_data_ s) (content_data_ s) (request_ s) (content_start_ s)
    (header_is_ready_ s) (is_closed_ s) (continue_flag_ s) (remote_address_ s) (HttpSession.freed_ s).

(** The destructor of a session that has just been destroyed deletes the TCP session. *)
Definition release (s : Session) : outc (TcpSession X) unit :=
  if HttpSession.freed_ s then TcpSession_destroy (session_ptr_ s) else Done (session_ptr_ s) tt.
Definition as_session_callback {A} (m : eff Session A) : eff (TcpSession X * HttpSession unit C Q) A := fun '(t, u) =>
  match m (attach t u) with
  | Done s a => match release s with Done t' _ => Done (t', detach s) a | _ => Stuck end
  | Raised s e => match release s with Done t' _ => Raised (t', detach s) e | _ => Stuck end
  | Stuck => Stuck
  end.
Definition as_session {A} (m : eff (TcpSession X * HttpSession unit C Q) A) : eff Session A := fun s =>
  match m (session_ptr_ s, detach s) with
  | Done (t, u) a => Done (attach t u) a
  | Raised (t, u) e => Raised (attach t u) e
  | Stuck => Stuck
  end.

#[export] Instance http_session_callback : TcpSessionCallbackI X (HttpSession unit C Q) := {
  cb_OnWrite status n := as_session_callback (HttpSession.OnWrite status n);
  cb_OnRead ret data := as_session_callback (HttpSession.OnRead handler ret data) }.

(** What libuv reports: a read, and the end of the oldest write. *)
Definition uv_read (nread : Z) (base : bytes) : eff Session unit := as_session (session_OnUvRead nread base).
Definition uv_written (status : Z) : eff Session unit := as_session (session_OnUvWrite status).

(** The constructors; [ssl] is given for the one with key and certificate. *)
Definition HttpSession_new {I : InetLib} (callback : C) (ssl : option X) (init accept : Z) (local peer : sockaddr) (results : list Z) : res Session :=
  t ← TcpSession_new ssl init accept local peer results;
  hd ← bq_new EXTRA_LEN_default; cd ← bq_new EXTRA_LEN_default;
  match TryRead (mkHttpSession callback t [] None hd cd (Some new_request) (-1) false false false (GetRemoteEndpoint t) false) with
  | Done s _ => Ok s
  | Raised _ e => Throw e
  | Stuck => Undef
  end.

(** The destructor; an exception leaving it terminates the program. *)
Definition HttpSession_destroy : eff Session unit :=
  try_catch HttpSession.Close (fun _ => stuck) ;;
  zoom session_ptr_ (fun s t => s <| session_ptr_ := t |>) TcpSession_destroy ;;
  modify (fun s => s <| HttpSession.freed_ := true |>).
End stack.

(** ** The server and its table *)

Section server.
Context {X Q : Type} {HX : OpenSsl X} {I : InetLib} {HQ : ByteQueue Q} (handler : nat -> HttpRequest -> list resp_op).

(** A session on its own, and with its server. *)
Definition on_server (v : HttpServer) (u : HttpSession (TcpSession X) unit Q) : HttpSession (TcpSession X) HttpServer Q :=
  mkHttpSession v (session_ptr_ u) (responses u) (response_ptr_ u) (header_data_ u) (content_data_ u) (request_ u) (content_start_ u)
    (header_is_ready_ u) (is_closed_ u) (continue_flag_ u) (remote_address_ u) (HttpSession.freed_ u).
Definition off_server (s : HttpSession (TcpSession X) HttpServer Q) : HttpSession (TcpSession X) unit Q :=
  mkHttpSession tt (session_ptr_ s) (responses s) (response_ptr_ s) (header_data_ s) (content_data_ s) (request_ s) (content_start_ s)
    (header_is_ready_ s) (is_closed_ s) (continue_flag_ s) (remote_address_ s) (HttpSession.freed_ s).

(** The server and the sessions of [session_ptr_map_], whose own copy in [HttpServer] keeps the keys. *)
Abbreviation world := (HttpServer * list (bytes * HttpSession (TcpSession X) unit Q))%type.
Definition put_back (e : bytes) (s : HttpSession (TcpSession X) HttpServer Q) (table : list (bytes * HttpSession (TcpSession X) unit Q)) : world :=
  (callback_ s, if HttpSession.freed_ s then smap_erase e table else smap_set e (off_server s) table).
Definition on_table (e : bytes) (m : eff (HttpSession (TcpSession X) HttpServer Q) unit) : eff world unit := fun '(v, table) =>
  match smap_find e table with
  | None => Stuck
  | Some u =>
      match m (on_server v u) with
      | Done s _ => Done (put_back e s table) tt
      | Raised s x => Raised (put_back e s table) x
      | Stuck => Stuck
      end
  end.
Definition server_read (e : bytes) (data : bytes) : eff world unit := on_table e (uv_read handler (Zlen data) data).
Definition server_written (e : bytes) (status : Z) : eff world unit := on_table e (uv_written handler status).

(** [HttpServer::OnAccept] with the session it creates.  When the endpoint is in the table, [insert] keeps the old session and
    the new one is destroyed on return: it closes itself and tells the server, which erases, and so destroys, the old one. *)
Definition OnAccept (ret_code : Z) (ssl : X) (init accept : Z) (local peer : sockaddr) (results : list Z) : eff world unit := fun '(v, table) =>
  if ret_code <? 0 then Done (v, table) tt
  else
    match HttpSession_new v (if ssl_enable_ v then Some ssl else None) init accept local peer results with
    | Throw x => Raised (v, table) x
    | Undef => Stuck
    | Ok s =>
        let e := remote_address_ s in
        let v := fst (server_OnAccept v ret_code e) in
        match smap_find e table with
        | None => Done (v, smap_set e (off_server s) table) tt
        | Some old =>
            (modify (fun w => (fst w, smap_set e (off_server s) (snd w))) ;;
             on_table e HttpSession_destroy ;;
             modify (fun w => (fst w, smap_set e old (snd w))) ;;
             on_table e HttpSession_destroy) (v, table)
        end
    end.
End server.

(** ** Plain connections *)

Section plain_events.
Context {X C Q : Type} {HX : OpenSsl X} {HC : HttpCallbackI C} {HQ : ByteQueue Q} (handler : nat -> HttpRequest -> list resp_op).
Abbreviation Session := (HttpSession (TcpSession X) C Q).
Implicit Types s : Session.

(** What is left of the session after a callback. *)
Definition settle {A} (o : outc Session A) : outc Session A :=
  match o with
  | Done s a => match release s with Done t _ => Done (s <| session_ptr_ := t |>) a | _ => Stuck end
  | Raised s e => match release s with Done t _ => Raised (s <| session_ptr_ := t |>) e | _ => Stuck end
  | Stuck => Stuck
  end.
Lemma as_session_reaches (m : eff (TcpSession X * HttpSession unit C Q) unit) (k : eff Session unit) s t :
  m (session_ptr_ s, detach s) = as_session_callback k (t, detach s) -> as_session m s = settle (k (s <| session_ptr_ := t |>)).
Proof.
  intros E. unfold as_session. rewrite E. unfold as_session_callback.
  replace (attach t (detach s)) with (s <| session_ptr_ := t |>) by (by destruct s).
  destruct (k _) as [s' []|s' e|]; cbn [settle]; [| |done]; destruct (release s'); try done; by destruct s'.
Qed.
Lemma settle_live {A} s (a : A) : HttpSession.freed_ s = false -> settle (Done s a) = Done s a.
Proof. intros H. cbn [settle]. unfold release. rewrite H. by destruct s. Qed.

Lemma table_read_plain s d : plain_open (session_ptr_ s) -> d <> [] -> uv_read handler (Zlen d) d s = settle (OnRead handler 0 d s).
Proof.
  intros [Hf Hp Hc _ _ _] Hd. assert (0 < Zlen d) by (destruct d; [done|rewrite Zlen_cons; pose proof (Zlen_nonneg d); lia]).
  unfold uv_read. rewrite (as_session_reaches _ (OnRead handler 0 d) s (session_ptr_ s)); [f_equal; by destruct s|].
  unfold session_OnUvRead. rewrite (proj2 (Z.eqb_neq _ _)) by lia. unfold session_OnRead.
  rewrite (bind_done _ _ _ _ _ (on_session_done _ _ _ _ _ (this_done _ Hf))). erewrite bind_done by reflexivity. cbn [fst].
  rewrite Hc, Hp, (proj2 (Z.eqb_neq _ _)), (proj2 (Z.ltb_ge _ _)) by lia. reflexivity.
Qed.

(** A completed write is reported, on a plain connection and on a TLS connection in use. *)
Definition reports (t : TcpSession X) : Prop :=
  Tcp.freed_ t = false /\ close_ t = false /\
  match (if Tcp.ssl_enable_ t then ssl_ t else None) with Some o => tls_state_ o = TLS_SERVER_DATA_RECV_STATE | None => True end.
Lemma uv_written_reports s w rest : reports (session_ptr_ s) -> uv_writes_ (session_ptr_ s) = w :: rest ->
  uv_written handler 0 s = settle (OnWrite 0 (Zlen w) (s <| session_ptr_ := (session_ptr_ s) <| uv_writes_ := rest |> |>)).
Proof.
  intros H Hw. unfold uv_written. apply as_session_reaches. set (t := (session_ptr_ s) <| uv_writes_ := rest |>).
  assert (Ht : reports t) by (unfold t; by destruct (session_ptr_ s)). destruct Ht as (Ht1 & Ht2 & Ht3).
  unfold session_OnUvWrite. erewrite bind_done by reflexivity. cbn [fst]. rewrite Hw. erewrite bind_done by reflexivity.
  cbn [fst snd]. fold t. unfold session_OnWrite. rewrite (bind_done _ _ _ _ _ (on_session_done _ _ _ _ _ (this_done _ Ht1))).
  erewrite bind_done by reflexivity. cbn [fst].
  destruct (if Tcp.ssl_enable_ t then ssl_ t else None); [rewrite Ht3, bool_decide_true by done; cbn [when]|]; by rewrite Ht2.
Qed.
Lemma plain_reports (t : TcpSession X) : plain_open t -> reports t.
Proof. intros [Hf Hp Hc _ _ _]. unfold reports. by rewrite Hp. Qed.
Lemma tls_reports {HXR : OpenSslRecords X} (t : TcpSession X) : tls_serving t -> reports t.
Proof. intros [Hf Hc _ He _ (x & Ho & _)]. unfold reports. by rewrite He, Ho. Qed.

(** The last completion: the session closes, its server destroys it, and the TCP session goes with it. *)
Lemma settle_destroyed s : HttpSession.freed_ s = true -> Tcp.freed_ (session_ptr_ s) = false -> close_ (session_ptr_ s) = true ->
  settle (Done s tt) = Done (s <| session_ptr_ := (session_ptr_ s) <| Tcp.freed_ := true |> |>) tt.
Proof. intros H Hf Hc. cbn [settle]. unfold release. by rewrite H, destroy_closed. Qed.
End plain_events.

(** ** A request served *)

Section serving.
Context {X Q : Type} {HX : OpenSsl X} {I : InetLib} {HQ : ByteQueue Q} {HQL : ByteQueueLaws Q} {HQP : ByteQueuePacked Q}
  (handler : nat -> HttpRequest -> list resp_op).
Abbreviation Session := (HttpSession (TcpSession X) HttpServer Q).
Implicit Types (s : Session) (v : HttpServer) (table : list (bytes * HttpSession (TcpSession X) unit Q)).

(** The world with the session [s] in the table under [e]. *)
Definition with_session table (e : bytes) s : HttpServer * list (bytes * HttpSession (TcpSession X) unit Q) :=
  (callback_ s, smap_set e (off_server s) table).

Lemma on_server_off s : on_server (callback_ s) (off_server s) = s.
Proof. by destruct s. Qed.
Lemma on_table_live table e m s s1 : smap_find e table = None -> m s = Done s1 tt -> HttpSession.freed_ s1 = false ->
  on_table e m (with_session table e s) = Done (with_session table e s1) tt.
Proof.
  intros Ht E Hf. unfold on_table, with_session. rewrite smap_find_set, beqb_refl, on_server_off, E. unfold put_back.
  by rewrite Hf, smap_set_set.
Qed.
Lemma on_table_destroyed table e m s s1 : smap_find e table = None -> m s = Done s1 tt -> HttpSession.freed_ s1 = true ->
  on_table e m (with_session table e s) = Done (callback_ s1, table) tt.
Proof.
  intros Ht E Hf. unfold on_table, with_session. rewrite smap_find_set, beqb_refl, on_server_off, E. unfold put_back.
  by rewrite Hf, smap_erase_set, smap_erase_absent.
Qed.
(** Events that leave the session alive, on the table. *)
Lemma on_table_ran {A} table e (body : A -> eff Session unit) P l s s1 : smap_find e table = None ->
  (forall s, P s -> HttpSession.freed_ s = false) -> P s -> ran P body l s s1 ->
  for_each l (fun x => on_table e (body x)) (with_session table e s) = Done (with_session table e s1) tt.
Proof.
  intros Ht HP Hs H. apply (ran_for_each (fun _ => True)). eapply (ran_map P body); [|done|done].
  intros x s2 s3 _ _ H3 E. by apply on_table_live; [| |apply HP].
Qed.

(** An accepted plain connection. *)
Lemma HttpSession_new_plain v local peer rs (t : TcpSession X) : TcpSession_new None 0 0 local peer rs = Ok t -> all_success rs ->
  exists s : Session, HttpSession_new v None 0 0 local peer rs = Ok s /\ waiting (HTL := serving_laws) s [] /\ callback_ s = v /\
    remote_address_ s = GetRemoteEndpoint t /\ sends (uv_log_ (session_ptr_ s)) = [].
Proof.
  intros Et Hrs. destruct (bq_new_packed EXTRA_LEN_default) as (b & Eb & Hb & Hp); [unfold EXTRA_LEN_default; lia|].
  unfold HttpSession_new. rewrite Et, bind_Ok, Eb, !bind_Ok. injection Et as <-.
  set (t := mkTcpSession _ _ _ _ _ _ _ _ _ _). set (s0 := mkHttpSession v t [] None b b _ _ _ _ _ _ _).
  destruct (TryRead_done (HTL := serving_laws) s0) as (t' & E & Ho & Ett); [done|by repeat split|].
  rewrite E. eexists. split; [reflexivity|]. cbn [with_response]. split; [|split_and!; [done|done|]].
  - split; [|done]. unfold live. split_and!; done.
  - change (sends (uv_log_ t') = []). cbn in Ett. by rewrite Ett.
Qed.

Definition listed s : Prop := smap_find (remote_address_ s) (session_ptr_map_ (callback_ s)) = Some tt.

(** One completed write. *)
Lemma completion_step s r p w rest : responding (HTL := session_laws) s r p -> rcontinue_flag_ p = false -> listed s ->
  uv_writes_ (session_ptr_ s) = w :: rest -> w <> [] -> Zlen w <= remain_bytes_ p < 2 ^ 63 ->
  exists s', uv_written handler 0 s = Done s' tt /\
    if remain_bytes_ p - Zlen w <=? 0
    then HttpSession.freed_ s' = true /\ callback_ s' = fst (server_OnClose (callback_ s) (remote_address_ s))
    else responding (HTL := session_laws) s' r (p <| remain_bytes_ := remain_bytes_ p - Zlen w |>) /\
      callback_ s' = callback_ s /\ remote_address_ s' = remote_address_ s /\ uv_writes_ (session_ptr_ s') = rest.
Proof.
  intros (H1 & H2 & H3 & H4 & H5) Hc Hl Hw Hne Hb. rewrite (uv_written_reports handler s w rest (plain_reports _ H5) Hw).
  set (s1 := s <| session_ptr_ := _ |>).
  assert (Hs1 : responding (HTL := session_laws) s1 r p /\ callback_ s1 = callback_ s /\ remote_address_ s1 = remote_address_ s /\
    uv_writes_ (session_ptr_ s1) = rest).
  { unfold s1, responding. destruct s as [cb t ? ? ? ? ? ? ? ? ? ? ?]. cbn in *. split; [|by destruct t]. split_and!; try done.
    destruct H5, t. cbn in *. split; done. }
  destruct Hs1 as (Hs1 & E1 & E2 & E3).
  assert (Hpos : 0 < Zlen w) by (destruct w; [done|rewrite Zlen_cons; pose proof (Zlen_nonneg w); lia]).
  pose proof (OnWrite_step (HTL := session_laws) s1 r p (Zlen w) Hs1 Hc ltac:(lia) ltac:(lia) ltac:(lia)) as H. cbv zeta in H.
  destruct (remain_bytes_ p - Zlen w <=? 0); destruct H as (s2 & E & H); rewrite E.
  - destruct H as (G1 & G2 & G3 & G4). unfold listed in Hl. rewrite E1, E2 in G4. cbn [hc_OnClose server_callback] in G4.
    unfold server_OnClose in G4 |- *. rewrite Hl in *. injection G4 as G4 G5. cbn [tb_closed session_laws] in G3.
    rewrite settle_destroyed by (done || apply G3). eexists. split; [reflexivity|]. destruct s2. cbn in *. done.
  - destruct H as (G1 & G2 & G3 & G4). rewrite settle_live by apply G1. exists s2. rewrite G2, G3, G4. done.
Qed.

(** All writes but the last. *)
Lemma completion_steps ws : forall s r p w, responding (HTL := session_laws) s r p -> rcontinue_flag_ p = false -> listed s ->
  uv_writes_ (session_ptr_ s) = ws ++ [w] -> Forall (fun d => d <> []) (ws ++ [w]) ->
  remain_bytes_ p = Zlen (concat (ws ++ [w])) -> remain_bytes_ p < 2 ^ 63 ->
  exists s1 p1, ran (fun s => HttpSession.freed_ s = false) (fun _ => uv_written handler 0) ws s s1 /\
    responding (HTL := session_laws) s1 r p1 /\ rcontinue_flag_ p1 = false /\ remain_bytes_ p1 = Zlen w /\
    callback_ s1 = callback_ s /\ remote_address_ s1 = remote_address_ s /\ uv_writes_ (session_ptr_ s1) = [w].
Proof.
  induction ws as [|d ws IH]; intros s r p w Hs Hc Hl Hw Hne Hr Hb.
  - exists s, p. cbn [app concat] in *. rewrite app_nil_r in Hr. done.
  - cbn [app concat] in *. apply Forall_cons in Hne as [Hd Hne]. rewrite Zlen_app in Hr.
    assert (Hpos : 0 < Zlen (concat (ws ++ [w]))).
    { apply Forall_app in Hne as [_ Hn]. apply Forall_cons in Hn as [Hn _]. rewrite concat_app, Zlen_app. cbn [concat].
      rewrite app_nil_r. pose proof (Zlen_nonneg (concat ws)). destruct w; [done|]. rewrite Zlen_cons. pose proof (Zlen_nonneg w). lia. }
    pose proof (Zlen_nonneg d).
    destruct (completion_step s r p d (ws ++ [w]) Hs Hc Hl Hw Hd ltac:(lia)) as (s1 & E1 & H1).
    rewrite (proj2 (Z.leb_gt _ _)) in H1 by lia. destruct H1 as (H1 & G1 & G2 & G3).
    set (p1 := p <| remain_bytes_ := _ |>) in H1. assert (Ep : remain_bytes_ p1 = remain_bytes_ p - Zlen d) by (by destruct p).
    destruct (IH s1 r p1 w H1) as (s2 & p2 & E2 & H2 & F1 & F2 & F3 & F4 & F5);
      [by destruct p|unfold listed in *; congruence|done|done|lia|lia|].
    exists s2, p2. split_and!; try done; try congruence. exists s1. split_and!; [done|apply H1|done].
Qed.

Lemma server_GetHandle_method v (q : HttpRequest) : method_ (snd (server_GetHandle v q)) = method_ q.
Proof. by destruct q. Qed.

(** The server with the endpoint in its table, and without it again. *)
Definition listing v (e : bytes) : HttpServer := v <| session_ptr_map_ ::= smap_insert e tt |>.
Lemma listing_find v e : smap_find e (session_ptr_map_ v) = None -> smap_find e (session_ptr_map_ (listing v e)) = Some tt.
Proof. intros Hv. unfold listing. destruct v. cbn in *. by rewrite smap_find_insert, Hv, beqb_refl. Qed.
Lemma listing_closed v e : smap_find e (session_ptr_map_ v) = None -> fst (server_OnClose (listing v e) e) = v.
Proof.
  intros Hv. unfold server_OnClose. rewrite listing_find by done. unfold listing. destruct v as [tab g po b]. cbn in Hv.
  change (mkHttpServer (smap_erase e (smap_insert e tt tab)) g po b = mkHttpServer tab g po b).
  unfold smap_insert. by rewrite Hv, smap_erase_set, smap_erase_absent.
Qed.

Lemma accepted_plain v table ssl local peer rs (t : TcpSession X) (e := GetRemoteEndpoint t) :
  ssl_enable_ v = false -> TcpSession_new None 0 0 local peer rs = Ok t -> all_success rs ->
  smap_find e (session_ptr_map_ v) = None -> smap_find e table = None ->
  exists s, OnAccept 0 ssl 0 0 local peer rs (v, table) = Done (with_session table e s) tt /\
    waiting (HTL := serving_laws) s [] /\ callback_ s = listing v e /\ remote_address_ s = e /\ sends (uv_log_ (session_ptr_ s)) = [].
Proof.
  intros Hp Ht Hrs Hv Htab. destruct (HttpSession_new_plain v local peer rs t Ht Hrs) as (s0 & E0 & Hw0 & Hc0 & Hr0 & Hs0). fold e in Hr0.
  exists (on_server (listing v e) (off_server s0)). split; [|destruct s0; done].
  unfold OnAccept. change (0 <? 0) with false. cbv iota. rewrite Hp, E0, Hr0, Htab. cbn [fst]. by destruct s0.
Qed.

(** Reads on the table, as long as the session stays open. *)
Lemma reads_on_table table e chunks s s' : smap_find e table = None -> Forall (fun c => c <> []) chunks ->
  opened (HTL := serving_laws) s -> ran (opened (HTL := serving_laws)) (OnRead handler 0) chunks s s' ->
  for_each chunks (server_read handler e) (with_session table e s) = Done (with_session table e s') tt.
Proof.
  intros Ht Hne Ho Hr. apply (ran_for_each (fun _ => True)).
  apply (ran_map (opened (HTL := serving_laws)) (OnRead handler 0)); [|done|done].
  intros d s1 s2 Hd (_ & _ & Ho1 & _) (Hf & _) E. apply on_table_live; [done| |done].
  rewrite List.Forall_forall in Hne. by rewrite table_read_plain, E, settle_live; [| |apply Ho1|apply Hne].
Qed.

(** The completions of the writes libuv holds, on the table. *)
Lemma completions_on_table v table e ws w s r p : smap_find e table = None -> responding (HTL := session_laws) s r p ->
  rcontinue_flag_ p = false -> callback_ s = listing v e -> remote_address_ s = e -> smap_find e (session_ptr_map_ v) = None ->
  uv_writes_ (session_ptr_ s) = ws ++ [w] -> Forall (fun d => d <> []) (ws ++ [w]) ->
  remain_bytes_ p = Zlen (concat (ws ++ [w])) -> remain_bytes_ p < 2 ^ 63 ->
  exists s', for_each ws (fun _ => server_written handler e 0) (with_session table e s) = Done (with_session table e s') tt /\
    is_closed_ s' = false /\ uv_writes_ (session_ptr_ s') = [w] /\
    server_written handler e 0 (with_session table e s') = Done (v, table) tt.
Proof.
  intros Ht Hs Hc Hcb Hra Hv Hw Hne Hr Hb. pose proof (listing_find v e Hv) as Hlv.
  destruct (completion_steps ws s r p w Hs Hc ltac:(unfold listed; congruence) Hw Hne Hr Hb) as (s3 & p3 & E3 & H3 & F1 & F2 & F3 & F4 & F5).
  destruct (completion_step s3 r p3 w [] H3 F1 ltac:(unfold listed in *; congruence) F5) as (s4 & E4 & H4).
  { apply Forall_app in Hne as [_ Hn]. by inversion Hn. }
  { rewrite concat_app, Zlen_app in Hr. cbn [concat] in Hr. rewrite app_nil_r in Hr. pose proof (Zlen_nonneg (concat ws)). lia. }
  rewrite F2, Z.sub_diag in H4. cbn [Z.leb Z.compare] in H4. destruct H4 as [H4 H5]. exists s3.
  split; [exact (on_table_ran table e (fun _ => uv_written handler 0) _ ws s s3 Ht (fun _ H => H) (proj1 (proj2 (proj2 Hs))) E3)|].
  split; [apply H3|]. split; [done|]. unfold server_written. rewrite (on_table_destroyed table e _ s3 s4 Ht E4 H4), H5, F3, F4, Hcb, Hra.
  by rewrite listing_closed.
Qed.

(** C6: the HTTP server over its own TCP sessions, from the accepted connection to the closed one, next to any other sessions.
    A request cut into reads in any way leaves exactly the bytes of the handler's response in flight; while libuv completes
    these writes one by one the session stays in the table, and the last completion closes it: the session and its TCP session
    are destroyed with nothing in flight, and the server and its table are what they were before the connection. *)
Theorem server_serves v table (ssl : X) (local peer : sockaddr) (results : list Z) (t : TcpSession X)
  (m target : bytes) (hs : headers) (body : bytes) (chunks : list bytes) (h : nat) (q : HttpRequest)
  (Hplain : ssl_enable_ v = false) (Ht : TcpSession_new None 0 0 local peer results = Ok t) (Hresults : all_success results)
  (Hv : smap_find (GetRemoteEndpoint t) (session_ptr_map_ v) = None) (Htable : smap_find (GetRemoteEndpoint t) table = None)
  (Hok : request_ok m target hs) (Hopt : m <> bstr "OPTIONS")
  (Hbody : if decide (m = bstr "GET") then body = [] else content_length_ (parsed m target hs) = Zlen body)
  (Hroute : server_GetHandle v (parsed m target hs) = (Some h, q))
  (Hops : Forall (fun op => op <> RClose) (handler h (seen q body)))
  (Hcont : rcontinue_flag_ (fst (respond (handler h (seen q body)) new_response)) = false)
  (Hout : 0 < Zlen (snd (respond (handler h (seen q body)) new_response)) < 2 ^ 63)
  (Hne : Forall (fun c => c <> []) chunks) (Hchunks : concat chunks = request_text m target hs ++ body)
  (Hlen : Zlen (concat chunks) < 2 ^ 30) :
  let e := GetRemoteEndpoint t in
  exists w1 w2 (u1 u2 : HttpSession (TcpSession X) unit Q) ws w,
    (OnAccept 0 ssl 0 0 local peer results ;; for_each chunks (server_read handler e)) (v, table) = Done w1 tt /\
    smap_find e (snd w1) = Some u1 /\ uv_writes_ (session_ptr_ u1) = ws ++ [w] /\
    concat (ws ++ [w]) = snd (respond (handler h (seen q body)) new_response) /\
    for_each ws (fun _ => server_written handler e 0) w1 = Done w2 tt /\
    smap_find e (snd w2) = Some u2 /\ is_closed_ u2 = false /\ uv_writes_ (session_ptr_ u2) = [w] /\
    server_written handler e 0 w2 = Done (v, table) tt.
Proof.
  intros e. destruct (accepted_plain v table ssl local peer results t Hplain Ht Hresults Hv Htable) as (s1 & Ea & Hw1 & Hc1 & Hr1 & Hs1).
  fold e in Ea, Hc1, Hr1, Hv, Htable. rewrite Hchunks in Hlen.
  destruct (feed_head (HTL := serving_laws) handler m target hs Hok body Hlen Hopt Hbody h q (listing v e)) with
    (pre := @nil Z) (k := request_text m target hs) (s := s1) (chunks := chunks)
    as (s2 & Eran & r & Hr2 & Hp2 & _ & Hf2 & Hcl2 & [Ho2 Hfl] & Hc2 & Hra2 & W); try done.
  { rewrite store_headers_method. unfold first_line_request. by destruct (GetUriAndParams _ _) as [[? ?] ?]. }
  { replace q with (snd (server_GetHandle v (parsed m target hs))) by (by rewrite Hroute). rewrite server_GetHandle_method. unfold parsed.
    rewrite store_headers_method. unfold first_line_request. by destruct (GetUriAndParams _ _) as [[? ?] ?]. }
  { unfold request_text, head_text. intros E. by apply app_nil in E as [_ E]. }
  pose proof (reads_on_table table e chunks s1 s2 Htable Hne (live_opened _ _ _ _ (proj1 Hw1)) Eran) as Es2.
  destruct (wrote_sends _ _ _ W) as (ws0 & Ews & Eout & Hws). cbn [tb_trace serving_laws] in Ews. rewrite Hs1 in Ews. cbn [app] in Ews.
  set (p := fst (respond _ _)) in *. set (out := snd (respond _ _)) in *.
  destruct (exists_last (l := ws0)) as (ws & w & ->); [intros ->; rewrite <- Eout in Hout; by destruct Hout|].
  assert (Hrem : remain_bytes_ p = Zlen (concat (ws ++ [w]))).
  { rewrite Eout. unfold p, out. rewrite respond_remain; cbn [new_response remain_bytes_]; unfold out in *; lia. }
  destruct (completions_on_table v table e ws w s2 r p) as (s3 & E3 & Hcl3 & Hw3 & E4); [done|done|done|congruence|congruence|done|by rewrite Hfl|done|done|rewrite Hrem, Eout; apply Hout|].
  exists (with_session table e s2), (with_session table e s3), (off_server s2), (off_server s3), ws, w.
  split; [rewrite (bind_done _ _ _ _ _ Ea); exact Es2|]. cbn [snd with_session]. rewrite !smap_find_set, beqb_refl.
  split_and!; try done. by rewrite <- Ews.
Qed.

(** ** Two connections from one endpoint *)

Lemma destroy_plain s : HttpSession.freed_ s = false -> is_closed_ s = false -> plain_open (session_ptr_ s) ->
  exists s', HttpSession_destroy s = Done s' tt /\ HttpSession.freed_ s' = true /\
    callback_ s' = fst (server_OnClose (callback_ s) (remote_address_ s)).
Proof.
  intros Hf Hc Ho. destruct (Close_eq (session_ptr_ s)) as (rs & _ & Ec); [apply Ho..|].
  destruct (Close_to (HT := session_base) s _ Hf Hc Ec) as (s1 & E & _ & E2 & E3). unfold HttpSession_destroy, try_catch.
  assert (Ed : zoom session_ptr_ (fun (s : Session) t => s <| session_ptr_ := t |>) TcpSession_destroy s1 =
    Done (s1 <| session_ptr_ := (session_ptr_ s1) <| Tcp.freed_ := true |> |>) tt).
  { unfold zoom. rewrite destroy_closed; [done|rewrite E2; destruct Ho; by destruct (session_ptr_ s)|rewrite E2; by destruct (session_ptr_ s)]. }
  rewrite (bind_done _ _ s s1 tt) by (by rewrite E). rewrite (bind_done _ _ _ _ _ Ed).
  eexists. split; [reflexivity|]. cbn [hc_OnClose server_callback] in E3. rewrite <- E3. by destruct s1.
Qed.

(** A second connection from the endpoint of a session in the table destroys both.  The server does not look at what
    [insert] returns: the new session dies at the end of [OnAccept], and on its way out it makes the server erase, and so close
    and destroy, the old one, whatever it is doing. *)
Lemma duplicate_endpoint_drops_both v table ssl local peer rs (t : TcpSession X) old :
  let e := GetRemoteEndpoint t in
  ssl_enable_ v = false -> TcpSession_new None 0 0 local peer rs = Ok t -> all_success rs ->
  smap_find e (session_ptr_map_ v) = Some tt -> smap_find e table = Some old ->
  HttpSession.freed_ old = false -> is_closed_ old = false -> remote_address_ old = e -> plain_open (session_ptr_ old) ->
  OnAccept 0 ssl 0 0 local peer rs (v, table) = Done (v <| session_ptr_map_ ::= smap_erase e |>, smap_erase e table) tt.
Proof.
  intros e Hp Ht Hrs Hv Htab Hf Hc Hra Ho.
  assert (Habs : smap_find e (smap_erase e table) = None) by (by rewrite smap_find_erase, beqb_refl).
  destruct (HttpSession_new_plain v local peer rs t Ht Hrs) as (s0 & E0 & [Hw0 _] & Hc0 & Hr0 & _). fold e in Hr0.
  assert (Ev : fst (server_OnAccept v 0 e) = v).
  { unfold server_OnAccept. change (0 <? 0) with false. cbv iota. cbn [fst]. unfold smap_insert.
    destruct v as [tab g po b]. cbn in Hv. change (mkHttpServer (match smap_find e tab with Some _ => tab | None => smap_set e tt tab end) g po b = mkHttpServer tab g po b).
    by rewrite Hv. }
  unfold OnAccept. change (0 <? 0) with false. cbv iota. rewrite Hp, E0, Hr0, Htab, Ev. erewrite bind_done by reflexivity. cbn [fst snd].
  destruct Hw0 as (F1 & F2 & [F3 _] & _). destruct (destroy_plain s0 F1 F2 F3) as (s1 & E1 & F4 & F5).
  assert (D1 : on_table e HttpSession_destroy (v, smap_set e (off_server s0) table) = Done (callback_ s1, smap_erase e table) tt).
  { unfold on_table. rewrite smap_find_set, beqb_refl. rewrite <- Hc0 at 1. rewrite on_server_off, E1. unfold put_back. by rewrite F4, smap_erase_set. }
  rewrite (bind_done _ _ _ _ _ D1). erewrite bind_done by reflexivity. cbn [fst snd].
  assert (Ec : callback_ s1 = v <| session_ptr_map_ ::= smap_erase e |>).
  { rewrite F5, Hc0, Hr0. unfold server_OnClose. by rewrite Hv. }
  destruct (destroy_plain (on_server (callback_ s1) old)) as (s2 & E2 & F6 & F7); [by destruct old..|].
  unfold on_table. rewrite smap_find_set, beqb_refl, E2. unfold put_back. rewrite F6, smap_erase_set, smap_erase_absent by done. f_equal. f_equal.
  rewrite F7. unfold server_OnClose. cbn [callback_ remote_address_ on_server]. rewrite Hra, Ec.
  replace (smap_find e _) with (@None unit); [done|]. transitivity (smap_find e (smap_erase e (session_ptr_map_ v))); [by rewrite smap_find_erase, beqb_refl|by destruct v].
Qed.
End serving.

(** ** TLS connections *)

Section https.
Context {X Q : Type} {HX : OpenSsl X} {HXR : OpenSslRecords X} {HQ : ByteQueue Q} (handler : nat -> HttpRequest -> list resp_op).
Implicit Types (s : HttpSession (TcpSession X) HttpServer Q) (p : HttpResponse).

(** A response object in use, and where its session is. *)
Definition on_tls s (r : nat) p (flight : list bytes) : Prop :=
  HttpSession.freed_ s = false /\ is_closed_ s = false /\ response_ptr_ s = Some r /\ responses s !! r = Some p /\ listed s /\
  tls_serving (session_ptr_ s) /\ uv_writes_ (session_ptr_ s) = flight.

Lemma on_tls_upd s r p flight f : on_tls s r p flight -> exists s', resp_upd r f s = Done s' tt /\ on_tls s' r (f p) flight.
Proof.
  intros (H1 & H2 & H3 & H4 & H5 & H6 & H7). rewrite resp_upd_done, (alter_insert_eq' r p) by done. eexists. split; [reflexivity|].
  pose proof (lookup_lt_Some _ _ _ H4). destruct s. unfold on_tls in *. split_and!; try done. by apply list_lookup_insert_eq.
Qed.
Lemma on_tls_write s r p flight d : on_tls s r p flight -> 0 < Zlen d <= 16384 ->
  exists s' rec, HttpSession.Write d s = Done s' tt /\ Zlen d + overhead <= Zlen rec <= 18437 /\ on_tls s' r p (flight ++ [rec]).
Proof.
  intros (H1 & H2 & H3 & H4 & H5 & H6 & H7) Hd. destruct (AsyncWrite_record (session_ptr_ s) d H6 Hd) as (t' & rec & E & Ht & Hl & Hw).
  unfold HttpSession.Write, on_tcp. rewrite (bind_done _ _ _ _ _ (this_live s H1)). unfold zoom. cbn [tb_write session_base]. rewrite E.
  eexists _, rec. split; [reflexivity|]. split; [done|]. destruct s. unfold on_tls in *. split_and!; try done.
  change (uv_writes_ t' = flight ++ [rec]). rewrite Hw. f_equal. exact H7.
Qed.

(** The header and the body of a response, one record each. *)
Lemma resp_Write_records s r p body : on_tls s r p [] -> is_close_ p = false /\ session_ p = true /\ written_header_ p = false ->
  remain_bytes_ p = 0 -> 0 < Zlen body <= 16384 ->
  let head := response_head (p <| rcontinue_flag_ := false |>) (Zlen body) false in 0 < Zlen head <= 16384 ->
  exists s' p' rec1 rec2, resp_Write r (Some body) false s = Done s' 0 /\ on_tls s' r p' [rec1; rec2] /\
    rcontinue_flag_ p' = false /\ remain_bytes_ p' = Zlen head + Zlen body /\ Zlen head + overhead <= Zlen rec1 <= 18437.
Proof.
  intros Hs (Hc & Hse & Hw) Hr Hb head Hh. unfold resp_Write. cbv zeta. change (default [] (Some body)) with body. set (p0 := p <| rcontinue_flag_ := false |>) in *.
  destruct (on_tls_upd s r p [] (fun p => p <| rcontinue_flag_ := false |>) Hs) as (s1 & E1 & H1). rewrite (bind_done _ _ _ _ _ E1).
  fold p0 in H1. assert (Hp0 : is_close_ p0 = false /\ session_ p0 = true /\ written_header_ p0 = false /\ remain_bytes_ p0 = 0 /\ rcontinue_flag_ p0 = false)
    by (by destruct p). destruct Hp0 as (P1 & P2 & P3 & P4 & P5). pose proof H1 as (_ & _ & _ & L1 & _).
  rewrite (bind_done _ _ _ _ _ (resp_get_done s1 r p0 L1)), P1, P2, P3. cbn [orb negb when default]. fold head.
  destruct (on_tls_upd s1 r p0 [] (fun p => p <| remain_bytes_ ::= fun n => s64 (n + Zlen head) |>) H1) as (s2 & E2 & H2).
  rewrite !bind_assoc, (bind_done _ _ _ _ _ E2). set (p1 := p0 <| remain_bytes_ ::= _ |>) in H2.
  destruct (on_tls_write s2 r p1 [] head H2 Hh) as (s3 & rec1 & E3 & Hl1 & H3). rewrite !bind_assoc, (bind_done _ _ _ _ _ E3).
  destruct (on_tls_upd s3 r p1 ([] ++ [rec1]) (fun p => p <| written_header_ := true |>) H3) as (s4 & E4 & H4). rewrite (bind_done _ _ _ _ _ E4).
  rewrite (proj2 (Z.ltb_lt 0 (Zlen body))) by lia. cbn [when]. set (p2 := p1 <| written_header_ := true |>) in H4.
  destruct (on_tls_upd s4 r p2 _ (fun p => p <| remain_bytes_ ::= fun n => s64 (n + Zlen body) |>) H4) as (s5 & E5 & H5).
  rewrite !bind_assoc, (bind_done _ _ _ _ _ E5). set (p3 := p2 <| remain_bytes_ ::= _ |>) in H5.
  destruct (on_tls_write s5 r p3 _ body H5 Hb) as (s6 & rec2 & E6 & _ & H6). rewrite (bind_done _ _ _ _ _ E6).
  exists s6, p3, rec1, rec2. split_and!; [done|exact H6| | |apply Hl1|apply Hl1].
  - unfold p3, p2, p1, p0. by destruct p.
  - replace (remain_bytes_ p3) with (s64 (s64 (remain_bytes_ p0 + Zlen head) + Zlen body)) by (unfold p3, p2, p1; by destruct p0).
    rewrite P4, (s64_small (0 + Zlen head)), s64_small by lia. lia.
Qed.

(** An event for a TCP session that has been destroyed. *)
Lemma uv_written_freed s status w rest : Tcp.freed_ (session_ptr_ s) = true -> uv_writes_ (session_ptr_ s) = w :: rest ->
  uv_written handler status s = Stuck.
Proof.
  intros Hf Hw. unfold uv_written, as_session, session_OnUvWrite. erewrite bind_done by reflexivity. cbn [fst]. rewrite Hw.
  erewrite bind_done by reflexivity. cbn [fst snd]. unfold session_OnWrite, mbind, eff_bind, on_session, zoom, Tcp.this.
  unfold mbind, eff_bind, get. cbn [fst]. replace (Tcp.freed_ _) with true by (by destruct (session_ptr_ s)). done.
Qed.

(** C10: over TLS a response with a short body is cut off.  The session counts the bytes of the response and subtracts the
    bytes of the records: with a body not longer than what encryption adds to a record, the end of the first write already brings the
    count to zero.  The session closes and is destroyed while the record with the body is still in flight, and when libuv reports
    that write, whatever its status, the freed TCP session is used. *)
Theorem https_short_body_cut s (r : nat) p (body : bytes)
  (Hs : on_tls s r p []) (Hp : is_close_ p = false /\ session_ p = true /\ written_header_ p = false) (Hr : remain_bytes_ p = 0)
  (Hb : 0 < Zlen body <= 16384) (Hshort : Zlen body <= overhead)
  (Hh : 0 < Zlen (response_head (p <| rcontinue_flag_ := false |>) (Zlen body) false) <= 16384) :
  exists s1 rec1 rec2 s2, resp_Write r (Some body) false s = Done s1 0 /\ uv_writes_ (session_ptr_ s1) = [rec1; rec2] /\
    uv_written handler 0 s1 = Done s2 tt /\ is_closed_ s2 = true /\ HttpSession.freed_ s2 = true /\
    uv_writes_ (session_ptr_ s2) = [rec2] /\ forall status, uv_written handler status s2 = Stuck.
Proof.
  destruct (resp_Write_records s r p body Hs Hp Hr Hb Hh) as (s1 & p1 & rec1 & rec2 & E1 & H1 & Hc1 & Hr1 & Hl1).
  pose proof H1 as (F1 & F2 & F3 & F4 & F5 & F6 & F7). exists s1, rec1, rec2.
  rewrite (uv_written_reports handler s1 rec1 [rec2] (tls_reports _ F6) F7).
  set (s1' := s1 <| session_ptr_ := (session_ptr_ s1) <| uv_writes_ := [rec2] |> |>).
  destruct (OnWrite_booked s1' r p1 (Zlen rec1)) as (s2 & E2 & G1 & G2 & (G3 & G4 & G5) & _); [by destruct s1..|lia|lia|].
  rewrite E2, Hc1, (proj2 (Z.leb_le _ _)) by lia. cbn [negb andb when].
  set (t := (session_ptr_ s1) <| uv_writes_ := [rec2] |>) in *. replace (session_ptr_ s1') with t in G4 by (by destruct s1).
  assert (Ht : Tcp.freed_ t = false /\ close_ t = false /\ all_success (uv_results_ t) /\ uv_writes_ t = [rec2])
    by (destruct F6; unfold t; by destruct (session_ptr_ s1)).
  destruct Ht as (T1 & T2 & T3 & T4). destruct (Close_eq t T1 T2 T3) as (rs & _ & Ec). rewrite <- G4 in Ec at 1.
  destruct (Close_to s2 _ G1 ltac:(rewrite G2; by destruct s1) Ec) as (s3 & E3 & C1 & C2 & C3).
  rewrite G3, G5 in C3. replace (callback_ s1') with (callback_ s1) in C3 by (by destruct s1).
  replace (remote_address_ s1') with (remote_address_ s1) in C3 by (by destruct s1).
  cbn [hc_OnClose server_callback] in C3. unfold server_OnClose in C3. rewrite F5 in C3. injection C3 as _ C4.
  rewrite E3, settle_destroyed; [|done|rewrite C2; by destruct t|rewrite C2; by destruct t].
  eexists. split; [exact E1|]. split; [done|]. split; [reflexivity|]. split; [by destruct s3|]. split; [by destruct s3|].
  assert (Hend : forall (u : HttpSession (TcpSession X) HttpServer Q), session_ptr_ u = (session_ptr_ s3) <| Tcp.freed_ := true |> ->
    uv_writes_ (session_ptr_ u) = [rec2] /\ forall status, uv_written handler status u = Stuck); [|apply Hend; by destruct s3].
  intros u Eu. assert (Hu : Tcp.freed_ (session_ptr_ u) = true /\ uv_writes_ (session_ptr_ u) = [rec2])  by (rewrite Eu, C2; by destruct t).
  split; [apply Hu|]. intros status. apply (uv_written_freed u status rec2 []); apply Hu.
Qed.
End https.

(** ** Witnesses *)

Definition route_server : HttpServer := AddPostHandle (AddGetHandle empty_server (bstr "/hi/") 0) (bstr "/echo") 1.
Definition demo_peer : sockaddr := mkSockaddr AF_INET 5 [1; 2; 3; 4].
Definition demo_accepted : TcpSession demo_ssl := mkTcpSession false false None demo_addr demo_peer false false [] [] [].
Definition echo_text : bytes := request_text (bstr "POST") (bstr "/echo?x=1") demo_headers.

Lemma server_serves_witness :
  let e := GetRemoteEndpoint demo_accepted in
  let q := seen (snd (server_GetHandle route_server (parsed (bstr "POST") (bstr "/echo?x=1") demo_headers))) (bstr "hello") in
  exists w1 w2 (u1 u2 : HttpSession (TcpSession demo_ssl) unit DataBuffer) ws w,
    (OnAccept 0 (mkDemoSsl [] [] []) 0 0 demo_addr demo_peer [] ;;
     for_each [firstn 9 echo_text; skipn 9 echo_text ++ bstr "hello"] (server_read demo_handler e)) (route_server, []) = Done w1 tt /\
    smap_find e (snd w1) = Some u1 /\ uv_writes_ (session_ptr_ u1) = ws ++ [w] /\
    concat (ws ++ [w]) = snd (respond (demo_handler 1 q) new_response) /\
    for_each ws (fun _ => server_written demo_handler e 0) w1 = Done w2 tt /\
    smap_find e (snd w2) = Some u2 /\ is_closed_ u2 = false /\ uv_writes_ (session_ptr_ u2) = [w] /\
    server_written demo_handler e 0 w2 = Done (route_server, []) tt.
Proof.
  refine (server_serves demo_handler route_server [] (mkDemoSsl [] [] []) demo_addr demo_peer [] demo_accepted
    (bstr "POST") (bstr "/echo?x=1") demo_headers (bstr "hello") [firstn 9 echo_text; skipn 9 echo_text ++ bstr "hello"] 1
    (snd (server_GetHandle route_server (parsed (bstr "POST") (bstr "/echo?x=1") demo_headers))) _ _ _ _ _ _ _ _ _ _ _ _ _ _ _).
  - reflexivity.
  - reflexivity.
  - constructor.
  - reflexivity.
  - reflexivity.
  - apply demo_request_ok.
  - discriminate.
  - vm_compute. reflexivity.
  - vm_compute. reflexivity.
  - repeat constructor; discriminate.
  - vm_compute. reflexivity.
  - vm_compute. split; reflexivity.
  - repeat constructor; discriminate.
  - reflexivity.
  - vm_compute. reflexivity.
Defined.

Definition busy_session : HttpSession (TcpSession demo_ssl) unit bytes :=
  mkHttpSession tt (demo_accepted <| uv_log_ := [SRead; SWrite (bstr "hello")] |> <| uv_writes_ := [bstr "hello"] |>) [] None [] []
    (Some new_request) (-1) false false false (GetRemoteEndpoint demo_accepted) false.
Lemma duplicate_endpoint_drops_both_witness :
  let e := GetRemoteEndpoint demo_accepted in
  OnAccept 0 (mkDemoSsl [] [] []) 0 0 demo_addr demo_peer [] (listing route_server e, [(e, busy_session)]) =
    Done ((listing route_server e) <| session_ptr_map_ ::= smap_erase e |>, smap_erase e [(e, busy_session)]) tt.
Proof.
  refine (duplicate_endpoint_drops_both (listing route_server (GetRemoteEndpoint demo_accepted)) [(GetRemoteEndpoint demo_accepted, busy_session)]
    (mkDemoSsl [] [] []) demo_addr demo_peer [] demo_accepted busy_session _ _ _ _ _ _ _ _ _); try reflexivity; [constructor|].
  split; try reflexivity. constructor.
Defined.

(** An OpenSSL that puts 29 bytes around every record, as AES-GCM does in TLS 1.2. *)
Record sealed_ssl : Type := mkSealed { sealed_out : bytes }.
#[export] Instance sealed_openssl : OpenSsl sealed_ssl := {
  SSL_CTX_set_cipher_list x := (x, 1);
  SSL_new x := (x, true);
  BIO_new_in x := (x, true);
  BIO_new_out x := (x, true);
  SSL_use_certificate_file x := (x, 1);
  SSL_use_RSAPrivateKey_file x := (x, 1);
  SSL_check_private_key x := (x, 1);
  BIO_write d x := (x, Zlen d);
  BIO_reset_in x := (x, 1);
  BIO_reset_out x := (mkSealed [], 1);
  out_mem := sealed_out;
  SSL_do_handshake x := (x, (1, SSL_ERROR_NONE));
  SSL_read n x := (x, (-1, SSL_ERROR_WANT_READ, []));
  SSL_write t x := let k := firstn (Z.to_nat 16384) t in (mkSealed (sealed_out x ++ repeat 0 13 ++ k ++ repeat 0 16), Zlen k) }.
#[export] Instance sealed_records : OpenSslRecords sealed_ssl.
Proof.
  refine {| sealing x := sealed_out x = []; overhead := 29 |}. intros x t Hx Ht. cbn [SSL_write BIO_reset_out out_mem sealed_openssl].
  eexists _, _. split; [rewrite (firstn_all2 (n := Z.to_nat 16384)) by (unfold Zlen in Ht; lia); reflexivity|].
  cbn [sealed_out]. rewrite Hx, !Zlen_app. change (Zlen (repeat 0 13)) with 13. change (Zlen (repeat 0 16)) with 16.
  split; [|done]. rewrite Zlen_nil. lia.
Defined.

Definition https_session : HttpSession (TcpSession sealed_ssl) HttpServer bytes :=
  mkHttpSession (listing route_server (bstr "1.2.3.4:5"))
    (mkTcpSession false true (Some (mkSslServer TLS_SERVER_DATA_RECV_STATE (mkSealed []))) demo_addr demo_peer false false [] [] [])
    [new_response] (Some 0%nat) [] [] (Some new_request) (-1) true false false (bstr "1.2.3.4:5") false.

Lemma https_short_body_cut_witness :
  exists s1 rec1 rec2 s2, resp_Write 0 (Some (bstr "hello")) false https_session = Done s1 0 /\ uv_writes_ (session_ptr_ s1) = [rec1; rec2] /\
    uv_written demo_handler 0 s1 = Done s2 tt /\ is_closed_ s2 = true /\ HttpSession.freed_ s2 = true /\
    uv_writes_ (session_ptr_ s2) = [rec2] /\ forall status, uv_written demo_handler status s2 = Stuck.
Proof.
  apply (https_short_body_cut demo_handler https_session 0 new_response (bstr "hello")).
  - split_and!; try reflexivity. split; try reflexivity; [constructor|]. exists (mkSealed []). split; reflexivity.
  - split_and!; reflexivity.
  - reflexivity.
  - vm_compute. split; congruence.
  - vm_compute. congruence.
  - vm_compute. split; congruence.
Defined.
