(* ===== verification/HttpClient.v ===== *)
(** The HTTP client ([src/src/net/http/http_client.cpp]).

    The client prints its request when the connection is established and parses the response
    from whatever reads bring.  The TCP client is the interface [TcpClientI]; the callback
    object is [HttpClientCallbackI], whose method may use the TCP client, change the shared
    response object and delete the HTTP client: every use of a member after that is undefined
    behaviour, and so is an [assert] that fails. *)
From S2P Require Import Prelude Eff StdMap StdText StringEx ByteQueue TcpPub HttpCommon HttpText HttpRequests.

Record HttpClientResponse (Q : Type) : Type := mkClientResponse {
  rstatus_ : bytes;
  rstatus_code_ : Z;
  rproto_ : bytes;
  rver_ : bytes;
  rheaders_ : headers;
  rcontent_length_ : Z;
  data_ : Q;
  header_ready_ : bool;
  body_ready_ : bool }.
Arguments mkClientResponse {Q}.
Arguments rstatus_ {Q}. Arguments rstatus_code_ {Q}. Arguments rproto_ {Q}. Arguments rver_ {Q}.
Arguments rheaders_ {Q}. Arguments rcontent_length_ {Q}. Arguments data_ {Q}.
Arguments header_ready_ {Q}. Arguments body_ready_ {Q}.

(** The callback gets and returns the response object it shares with the client.  It may delete
    the client: [deleted] says of the callback object that it has. *)
Class HttpClientCallbackI (C T Q : Type) : Type := {
  OnHttpRead : Z -> option (HttpClientResponse Q) -> eff (C * T) (option (HttpClientResponse Q));
  deleted : C -> bool }.

Section client.
Context {C T Q : Type} {HTC : TcpClientI T} {HQ : ByteQueue Q} {HCB : HttpClientCallbackI C T Q}.

Record HttpClient : Type := mkHttpClient {
  client_ : T;
  host_ : bytes;
  port_ : Z;
  is_post_ : bool;                    (* method_ *)
  cheaders_ : headers;
  subpath_ : bytes;
  cb_ : C;
  post_data_ : bytes;
  resp_ptr_ : option (HttpClientResponse Q) }.

Abbreviation M := (eff HttpClient).

(** Using the members of the object. *)
Definition members : M HttpClient := s ← get; if deleted (cb_ s) then stuck else mret s.
Definition update (f : HttpClient -> HttpClient) : M unit := members ;; modify f.
Definition on_client {A} (m : eff T A) : M A := members ;; zoom client_ (fun s t => s <| client_ := t |>) m.

(** The constructor, with the TCP client it creates. *)
Definition HttpClient_new (client : T) (host : bytes) (port : Z) (cb : C) : HttpClient :=
  mkHttpClient client host port false [] [] cb [] None.

Definition Get (subpath : bytes) (hs : headers) : M Z :=
  update (fun s => s <| is_post_ := false |> <| subpath_ := subpath |> <| cheaders_ := hs |>) ;;
  s ← members; on_client (tc_connect (host_ s) (port_ s)) ;; mret 0.
Definition Post (subpath : bytes) (hs : headers) (data : bytes) : M Z :=
  update (fun s => s <| is_post_ := true |> <| subpath_ := subpath |> <| post_data_ := data |>
                     <| cheaders_ := hs |>) ;;
  s ← members; on_client (tc_connect (host_ s) (port_ s)) ;; mret 0.
Definition client_Close : M unit := on_client tc_close.

(** Calling back, and calling back with the shared response object. *)
Definition notify (ret : Z) (resp_ptr : option (HttpClientResponse Q)) : M (option (HttpClientResponse Q)) := fun s =>
  match OnHttpRead ret resp_ptr (cb_ s, client_ s) with
  | Done (c, t) r => Done (s <| cb_ := c |> <| client_ := t |>) r
  | Raised (c, t) e => Raised (s <| cb_ := c |> <| client_ := t |>) e
  | Stuck => Stuck
  end.
Definition call_back (ret : Z) : M unit :=
  s ← members;
  r ← notify ret (resp_ptr_ s);
  modify (fun s => s <| resp_ptr_ := r |>).

(** The request text. *)
Definition http_stream (s : HttpClient) : bytes :=
  (if is_post_ s then bstr "POST " else bstr "GET ") ++ subpath_ s ++ bstr " HTTP/1.1" ++ CRLF ++
  bstr "Accept: */*" ++ CRLF ++ bstr "Host: " ++ host_ s ++ CRLF ++ header_lines (cheaders_ s) ++
  (if is_post_ s then bstr "Content-Length: " ++ to_string (Zlen (post_data_ s)) ++ CRLF else []) ++
  CRLF ++ (if is_post_ s then post_data_ s else []).

Definition OnConnect (ret_code : Z) : M unit :=
  members ;;
  if ret_code <? 0 then notify ret_code None ;; mret tt
  else s ← members; on_client (tc_send (http_stream s)).

Definition client_OnWrite (ret_code sent_size : Z) : M unit :=
  if ret_code =? 0 then on_client tc_read else mret tt.

Definition rupd (f : HttpClientResponse Q -> HttpClientResponse Q) : M unit :=
  s ← members; r ← deref (resp_ptr_ s); modify (fun s => s <| resp_ptr_ := Some (f r) |>).

Definition assert_ (b : bool) : M unit := if b then mret tt else stuck.

Definition status_line (line : bytes) : M unit :=
  let item_vec := StringSplit line (bstr " ") in
  match item_vec with
  | item0 :: item1 :: rest =>
      assert_ (match rest with [] => false | _ => true end) ;;
      let pos := find (bstr "/") item0 in
      assert_ (negb (pos =? npos)) ;;
      pr ← lift (substr item0 0 pos);
      v ← lift (substr_from item0 (pos + 1));
      code ← lift (atoi item1);
      rupd (fun r => r <| rproto_ := pr |> <| rver_ := v |> <| rstatus_code_ := code |>
                       <| rstatus_ := concat rest |>)
  | _ => assert_ false
  end.

Definition client_header_line (line : bytes) : M unit :=
  let pos := find (bstr ":") line in
  assert_ (negb (pos =? npos)) ;;
  key ← lift (substr line 0 pos);
  value ← lift (substr_from line (pos + 2));
  when (beqb key (bstr "Content-Length")) (
    n ← lift (atoi value); rupd (fun r => r <| rcontent_length_ := n |>)) ;;
  rupd (fun r => r <| rheaders_ ::= smap_set key value |>).

(** Parses the head when it is complete; [false]: more bytes are needed. *)
Definition client_head : M bool :=
  s ← members; r ← deref (resp_ptr_ s);
  header_str ← lift (bq_string (data_ r));
  let pos := find (CRLF ++ CRLF) header_str in
  if negb (pos =? npos) then
    rupd (fun r => r <| header_ready_ := true |>) ;;
    b ← lift (bq_consume (data_ r) (s32 (pos + 4)));
    rupd (fun r => r <| data_ := b |>) ;;
    match StringSplit (firstn (Z.to_nat pos) header_str) CRLF with
    | [] => mret true
    | first :: lines => status_line first ;; for_each lines client_header_line ;; mret true
    end
  else mret false.

Definition client_OnRead (ret_code : Z) (data : bytes) : M unit :=
  if ret_code <? 0 then call_back ret_code
  else if Zlen data =? 0 then call_back (-2)
  else
    s ← members;
    match resp_ptr_ s with
    | Some _ => mret tt
    | None =>
        b ← lift (bq_new EXTRA_LEN_default);
        modify (fun s => s <| resp_ptr_ := Some (mkClientResponse (bstr "OK") 200 (bstr "HTTP") (bstr "1.1")
                                                   [] 0 b false false) |>)
    end ;;
    s ← members; r ← deref (resp_ptr_ s);
    b ← lift (bq_append (data_ r) data); rupd (fun r => r <| data_ := b |>) ;;
    go ← (if header_ready_ r then mret true else client_head);
    if negb go then on_client tc_read
    else
      s ← members; r ← deref (resp_ptr_ s);
      if 0 <? rcontent_length_ r then
        if rcontent_length_ r <=? s32 (bq_len (data_ r)) then
          rupd (fun r => r <| body_ready_ := true |>) ;; call_back 0
        else on_client tc_read
      else call_back 0 ;; on_client tc_read.
End client.
Arguments HttpClient C T Q : clear implicits.

(** ** The text of the request *)

Lemma http_stream_text {C T Q} (s : HttpClient C T Q) :
  http_stream s = request_text (if is_post_ s then bstr "POST" else bstr "GET") (subpath_ s)
    ((bstr "Accept", bstr "*/*") :: (bstr "Host", host_ s) :: cheaders_ s ++
     (if is_post_ s then [(bstr "Content-Length", to_string (Zlen (post_data_ s)))] else [])) ++
    (if is_post_ s then post_data_ s else []).
Proof.
  unfold http_stream, request_text. rewrite <- end_lines_join by done.
  unfold request_lines. cbn [map]. rewrite map_app. unfold end_lines at 1. cbn [map concat].
  rewrite map_app, concat_app. change (concat (map (fun x => x ++ CRLF) (map header_line (cheaders_ s))))
    with (end_lines (map header_line (cheaders_ s))). rewrite <- header_lines_end.
  destruct (is_post_ s); unfold header_line; cbn [join map concat fst snd];
    repeat (rewrite <- ?app_assoc; cbn [app bstr map]); rewrite ?app_nil_r; try done.
Qed.

(** ** Parsing a response *)

Definition store_client_header {Q} (r : HttpClientResponse Q) (h : bytes * bytes) : HttpClientResponse Q :=
  let r := if beqb (fst h) (bstr "Content-Length")
           then r <| rcontent_length_ := match atoi (snd h) with Ok n => n | _ => 0 end |> else r in
  r <| rheaders_ ::= smap_set (fst h) (snd h) |>.

(** The status line: protocol, version, code, and the words of the reason phrase. *)
Definition status_words (proto ver : bytes) (code : Z) (ws : list bytes) : list bytes :=
  (proto ++ bstr "/" ++ ver) :: to_string code :: ws.
Record status_ok (proto ver : bytes) (code : Z) (ws : list bytes) : Prop := {
  so_proto : word proto; so_ver : word ver; so_slash : absent (bstr "/") proto;
  so_code : 0 <= code < 2 ^ 31; so_words : Forall word ws; so_some : ws <> [] }.

Lemma to_string_word n : 0 <= n < 2 ^ 64 -> word (to_string n).
Proof.
  intros H. destruct (to_string_spec n H) as (Hn & _). split_and!; [apply (absent_char 13)|apply (absent_char 32)|done].
  all: intros Hin; apply list_elem_of_In, (to_string_chars n _ H) in Hin; lia.
Qed.

Lemma status_words_ok proto ver code ws : status_ok proto ver code ws -> Forall word (status_words proto ver code ws).
Proof.
  intros [(P1 & P2 & P3) (V1 & V2 & V3) Hs Hc Hw Hn]. constructor; [|constructor; [apply to_string_word; lia|done]].
  split_and!.
  - apply plain_app. split; [done|]. apply plain_app. split; [apply absent_char; cbn; lia|done].
  - apply (absent_char_app 32). split; [done|]. apply (absent_char_app 32). split; [apply absent_char; cbn; lia|done].
  - destruct proto; done.
Qed.

Section parse.
Context {C T Q : Type} {HTC : TcpClientI T} {HQ : ByteQueue Q} {HQL : ByteQueueLaws Q}
  {HCB : HttpClientCallbackI C T Q}.
Implicit Types s : HttpClient C T Q.

Definition with_resp s (r : HttpClientResponse Q) : HttpClient C T Q := s <| resp_ptr_ := Some r |>.
Lemma with_resp_twice s r r' : with_resp (with_resp s r) r' = with_resp s r'.
Proof. destruct s; done. Qed.
Lemma with_resp_resp s r : resp_ptr_ (with_resp s r) = Some r.
Proof. destruct s; done. Qed.

(** The callback object has not deleted the client. *)
Definition live s : Prop := deleted (cb_ s) = false.
Lemma members_done s : live s -> members s = Done s s.
Proof. intros H. unfold members. erewrite bind_done by reflexivity. by rewrite H. Qed.
Lemma with_resp_live s r : live s -> live (with_resp s r).
Proof. by destruct s. Qed.

Lemma rupd_done s r f : live s -> resp_ptr_ s = Some r -> rupd f s = Done (with_resp s (f r)) tt.
Proof. intros Hl H. unfold rupd. rewrite (bind_done _ _ _ _ _ (members_done s Hl)), H. done. Qed.

Lemma status_line_done s r proto ver code ws : live s -> resp_ptr_ s = Some r -> status_ok proto ver code ws ->
  Zlen (join (bstr " ") (status_words proto ver code ws)) < npos ->
  status_line (join (bstr " ") (status_words proto ver code ws)) s =
  Done (with_resp s (r <| rproto_ := proto |> <| rver_ := ver |> <| rstatus_code_ := code |>
                       <| rstatus_ := concat ws |>)) tt.
Proof.
  intros Hv Hr Hok Hl. unfold status_line. rewrite words_split; [|apply status_words_ok; done|done|done].
  destruct Hok as [HP HV Hs Hc Hw Hn]. unfold status_words in *. cbv iota. destruct ws as [|w ws]; [done|].
  pose proof (join_head_len (bstr " ") (proto ++ bstr "/" ++ ver) (to_string code :: w :: ws)) as Hj.
  assert (Hl' : Zlen (proto ++ bstr "/" ++ ver) < npos) by lia. clear Hj Hl.
  rewrite (find_first (bstr "/") proto ver) by (done || (apply first_at_char; done)).
  rewrite !Zlen_app in Hl'. change (Zlen (bstr "/")) with 1 in Hl'.
  pose proof (Zlen_nonneg proto). pose proof (Zlen_nonneg ver).
  rewrite (proj2 (Z.eqb_neq _ _)) by lia. cbn [negb assert_]. erewrite bind_done by reflexivity.
  erewrite bind_done by reflexivity. unfold substr_from, substr. rewrite !Zlen_app. change (Zlen (bstr "/")) with 1.
  rewrite !(proj2 (Z.leb_le _ _)) by lia. rewrite !Z.min_l by lia. change (Z.to_nat 0) with 0%nat. rewrite drop_0.
  rewrite firstn_Zlen_app by done. erewrite bind_done by reflexivity.
  rewrite (app_assoc proto (bstr "/") ver), skipn_Zlen_app by (rewrite Zlen_app; done).
  rewrite firstn_all2 by (unfold Zlen in *; lia). erewrite bind_done by reflexivity.
  rewrite <- (app_nil_r (to_string code)), atoi_to_string by done. erewrite bind_done by reflexivity.
  rewrite (rupd_done s r _ Hv Hr). done.
Qed.

Lemma client_header_done s r h : live s -> resp_ptr_ s = Some r -> header_ok h -> Zlen (header_line h) < npos ->
  client_header_line (header_line h) s = Done (with_resp s (store_client_header r h)) tt.
Proof.
  intros Hv Hr Hh Hl. destruct (header_line_find h Hh Hl) as (E1 & E2 & E3 & E4).
  unfold client_header_line. rewrite E1, (proj2 (Z.eqb_neq _ _) E2), E3, E4. cbn [negb assert_].
  erewrite bind_done by reflexivity. erewrite bind_done by reflexivity. erewrite bind_done by reflexivity.
  unfold store_client_header, when. destruct (beqb (fst h) (bstr "Content-Length")) eqn:E.
  - apply beqb_true in E. destruct Hh as (_ & _ & _ & Hc). destruct (Hc E) as (n & Hn & Ev). rewrite Ev.
    rewrite <- (app_nil_r (to_string n)), atoi_to_string by done. rewrite app_nil_r.
    erewrite bind_done; [|erewrite bind_done by reflexivity; exact (rupd_done s r _ Hv Hr)].
    rewrite (rupd_done _ _ _ (with_resp_live _ _ Hv) (with_resp_resp _ _)), with_resp_twice. done.
  - erewrite bind_done by reflexivity. rewrite (rupd_done s r _ Hv Hr). done.
Qed.

Lemma client_headers_done hs : forall s r, live s -> resp_ptr_ s = Some r -> Forall header_ok hs ->
  Forall (fun h => Zlen (header_line h) < npos) hs ->
  for_each (map header_line hs) client_header_line s = Done (with_resp s (fold_left store_client_header hs r)) tt.
Proof.
  induction hs as [|h hs IH]; intros s r Hv Hr Hok Hl; [cbn; destruct s; cbn in *; subst; done|].
  apply Forall_cons in Hok as [Hh Hok]. apply Forall_cons in Hl as [Hlh Hl]. cbn [map for_each fold_left].
  rewrite (bind_done _ _ _ _ _ (client_header_done s r h Hv Hr Hh Hlh)).
  rewrite (IH _ _ (with_resp_live _ _ Hv) (with_resp_resp _ _)), with_resp_twice by done. done.
Qed.

(** A complete head. *)
Definition response_lines (proto ver : bytes) (code : Z) (ws : list bytes) (hs : headers) : list bytes :=
  join (bstr " ") (status_words proto ver code ws) :: map header_line hs.

Lemma response_lines_ok proto ver code ws hs : status_ok proto ver code ws -> Forall header_ok hs ->
  Forall line_ok (response_lines proto ver code ws hs).
Proof.
  intros Hs Hh. constructor; [apply words_line; [apply status_words_ok; done|done]|].
  apply Forall_map. eapply Forall_impl; [exact Hh|apply header_line_ok].
Qed.

(** The response object after the head. *)
Definition head_response (r : HttpClientResponse Q) (b : Q) proto ver code ws hs : HttpClientResponse Q :=
  fold_left store_client_header hs
    (r <| header_ready_ := true |> <| data_ := b |> <| rproto_ := proto |> <| rver_ := ver |>
       <| rstatus_code_ := code |> <| rstatus_ := concat ws |>).

Lemma client_head_done s r proto ver code ws hs rest : live s -> resp_ptr_ s = Some r ->
  status_ok proto ver code ws -> Forall header_ok hs ->
  bq_rep (data_ r) (head_text (response_lines proto ver code ws hs) ++ rest) ->
  exists b, client_head s = Done (with_resp s (head_response r b proto ver code ws hs)) true /\ bq_rep b rest /\
    exists n, bq_consume (data_ r) n = Ok b.
Proof.
  intros Hv Hr Hs Hh Hrep. destruct (bq_rep_len _ _ Hrep) as [_ Hlen].
  pose proof (response_lines_ok _ _ _ _ _ Hs Hh) as Hlok. set (lines := response_lines proto ver code ws hs) in *.
  assert (Hl : Zlen (head_text lines ++ rest) < npos) by (unfold npos; lia).
  unfold client_head. rewrite (bind_done _ _ _ _ _ (members_done s Hv)), Hr. erewrite bind_done by reflexivity.
  rewrite (bq_string_law _ _ Hrep). erewrite bind_done by reflexivity.
  rewrite (head_find lines rest Hlok ltac:(done) Hl). set (pos := Zlen (join CRLF lines)).
  assert (Hhl : Zlen (head_text lines) = pos + 4).
  { unfold head_text. rewrite !Zlen_app. change (Zlen CRLF) with 2. fold pos. lia. }
  rewrite Zlen_app, Hhl in Hl, Hlen. pose proof (Zlen_nonneg rest). pose proof (Zlen_nonneg (join CRLF lines)) as Hp0. fold pos in Hp0.
  rewrite (proj2 (Z.eqb_neq _ _)) by lia. cbn [negb].
  rewrite (bind_done _ _ _ _ _ (rupd_done _ _ _ Hv Hr)). rewrite s32_small by lia.
  destruct (bq_consume_law _ _ (pos + 4) Hrep) as (b & Eb & Hb); [rewrite Zlen_app; lia|].
  rewrite Eb. erewrite bind_done by reflexivity.
  rewrite (bind_done _ _ _ _ _ (rupd_done _ _ _ (with_resp_live _ _ Hv) (with_resp_resp _ _))), with_resp_twice.
  unfold head_text at 1. rewrite <- app_assoc, firstn_Zlen_app by done.
  rewrite head_split; [|done|done|fold pos; lia]. unfold lines, response_lines at 1.
  assert (Hwl : forall x, In x lines -> Zlen x < npos).
  { intros x Hx. apply (join_in_len CRLF) in Hx. fold pos in Hx. lia. }
  rewrite (bind_done _ _ _ _ _ (status_line_done _ _ _ _ _ _ (with_resp_live _ _ Hv) (with_resp_resp _ _) Hs (Hwl _ (or_introl eq_refl)))).
  rewrite with_resp_twice. erewrite bind_done.
  2: { apply client_headers_done; [by apply with_resp_live|apply with_resp_resp|done|].
       apply List.Forall_forall. intros h Hin. apply Hwl. right. apply in_map. done. }
  rewrite with_resp_twice. exists b. split; [done|]. split; [|by eexists].
  replace (pos + 4) with (Zlen (head_text lines)) in Hb by lia. rewrite skipn_Zlen_app in Hb by done. exact Hb.
Qed.

Lemma client_head_wait s r lines pre k : live s -> resp_ptr_ s = Some r -> Forall line_ok lines -> lines <> [] ->
  bq_rep (data_ r) pre -> pre ++ k = head_text lines -> k <> [] -> Zlen (head_text lines) < npos ->
  client_head s = Done s false.
Proof.
  intros Hv Hr Hok Hn Hrep E Hk Hl. unfold client_head. rewrite (bind_done _ _ _ _ _ (members_done s Hv)).
  rewrite Hr. erewrite bind_done by reflexivity. rewrite (bq_string_law _ _ Hrep). erewrite bind_done by reflexivity.
  rewrite (head_incomplete lines pre k) by done. done.
Qed.
End parse.

(** ** Reads *)

(** What the client relies on: reading may be requested while the connection is open. *)
(** A callback that records its calls. *)
Definition resp_log (Q : Type) : Type := list (Z * option (HttpClientResponse Q)).
#[export] Instance log_callback {T Q} : HttpClientCallbackI (resp_log Q) T Q := {
  OnHttpRead ret r := fun '(c, t) => Done (c ++ [(ret, r)], t) r;
  deleted _ := false }.

Definition fresh_response {Q} (b : Q) : HttpClientResponse Q :=
  mkClientResponse (bstr "OK") 200 (bstr "HTTP") (bstr "1.1") [] 0 b false false.

Lemma store_data {Q} (r : HttpClientResponse Q) b h :
  store_client_header (r <| data_ := b |>) h = (store_client_header r h) <| data_ := b |>.
Proof. unfold store_client_header. destruct (beqb _ _); destruct r; done. Qed.
Lemma fold_store_data {Q} hs : forall (r : HttpClientResponse Q) b,
  fold_left store_client_header hs (r <| data_ := b |>) = (fold_left store_client_header hs r) <| data_ := b |>.
Proof. induction hs as [|h hs IH]; intros r b; [done|]. cbn [fold_left]. rewrite store_data. apply IH. Qed.
Lemma head_response_data {Q} (r : HttpClientResponse Q) b b' proto ver code ws hs :
  (head_response r b proto ver code ws hs) <| data_ := b' |> = head_response r b' proto ver code ws hs /\
  head_response (r <| data_ := b' |>) b proto ver code ws hs = head_response r b proto ver code ws hs.
Proof.
  unfold head_response. split.
  - rewrite <- fold_store_data. destruct r; done.
  - destruct r; done.
Qed.
Lemma fold_store_ready {Q} hs : forall (r : HttpClientResponse Q),
  header_ready_ (fold_left store_client_header hs r) = header_ready_ r /\
  data_ (fold_left store_client_header hs r) = data_ r.
Proof.
  induction hs as [|h hs IH]; intros r; [done|]. cbn [fold_left]. destruct (IH (store_client_header r h)) as [-> ->].
  unfold store_client_header. destruct (beqb _ _); destruct r; done.
Qed.
Lemma head_response_ready {Q} (r : HttpClientResponse Q) b proto ver code ws hs :
  header_ready_ (head_response r b proto ver code ws hs) = true /\ data_ (head_response r b proto ver code ws hs) = b.
Proof. unfold head_response. destruct (fold_store_ready hs (r <| header_ready_ := true |> <| data_ := b |> <| rproto_ := proto |>
  <| rver_ := ver |> <| rstatus_code_ := code |> <| rstatus_ := concat ws |>)) as [-> ->]. destruct r; done. Qed.

Section reads.
Context {C T Q : Type} {HTC : TcpClientI T} {HTL : TcpClientLaws T} {HQ : ByteQueue Q} {HQL : ByteQueueLaws Q}
  {HQP : ByteQueuePacked Q} {HQS : ByteQueueSized Q} {HCB : HttpClientCallbackI C T Q}.
Implicit Types s : HttpClient C T Q.

(** How much the buffer of a response takes before its contents would have to be moved. *)
Definition client_slack : Z := bq_slack_of EXTRA_LEN_default.
Definition has_slack (b : Q) (n : Z) : Prop := bq_sized b /\ (n <= client_slack -> bq_slack b (client_slack - n)).

(** Waiting for the rest of the head. *)
Definition cwaiting s (pre : bytes) : Prop :=
  tcl_open (client_ s) /\ live s /\
  match resp_ptr_ s with
  | None => pre = []
  | Some r => exists b, r = fresh_response b /\ bq_rep b pre /\ bq_packed b /\ has_slack b (Zlen pre)
  end.

Definition read_step (header_ready : bool) : eff (HttpClient C T Q) unit :=
  go ← (if header_ready then mret true else client_head);
  if negb go then on_client tc_read
  else
    s ← members; r ← deref (resp_ptr_ s);
    if 0 <? rcontent_length_ r then
      if rcontent_length_ r <=? s32 (bq_len (data_ r)) then
        rupd (fun r => r <| body_ready_ := true |>) ;; call_back 0
      else on_client tc_read
    else call_back 0 ;; on_client tc_read.

(** The first part of [client_OnRead]: the data is appended. *)
Lemma client_OnRead_wait s pre data : cwaiting s pre -> data <> [] -> Zlen pre + Zlen data < 2 ^ 30 ->
  exists s1 b, client_OnRead 0 data s = read_step false s1 /\ resp_ptr_ s1 = Some (fresh_response b) /\
    bq_rep b (pre ++ data) /\ bq_packed b /\ has_slack b (Zlen (pre ++ data)) /\ client_ s1 = client_ s /\ cb_ s1 = cb_ s.
Proof.
  intros (Ho & Hv & Hr) Hd Hl. unfold client_OnRead. change (0 <? 0) with false. cbv iota.
  rewrite (proj2 (Z.eqb_neq _ _)) by (intros E; apply Zlen_0_nil in E; done).
  rewrite (bind_done _ _ _ _ _ (members_done s Hv)).
  assert (Hstart : exists s0 b0, (match resp_ptr_ s with
    | Some _ => mret tt
    | None => b ← lift (bq_new EXTRA_LEN_default); modify (fun s => s <| resp_ptr_ := Some (mkClientResponse (bstr "OK") 200 (bstr "HTTP") (bstr "1.1") [] 0 b false false) |>)
    end) s = Done s0 tt /\ resp_ptr_ s0 = Some (fresh_response b0) /\ bq_rep b0 pre /\ (bq_packed b0 /\ has_slack b0 (Zlen pre)) /\
    client_ s0 = client_ s /\ cb_ s0 = cb_ s).
  { destruct (resp_ptr_ s) as [r|] eqn:Er.
    - destruct Hr as (b & -> & Hb & Hps). exists s, b. done.
    - subst pre. destruct (bq_new_packed EXTRA_LEN_default) as (b & E & Hb & Hpk); [unfold EXTRA_LEN_default; lia|].
      assert (Hsl : has_slack b 0).
      { destruct (bq_new_sized EXTRA_LEN_default) as (b' & E' & _ & Hsz & Hsl & _); [unfold EXTRA_LEN_default; lia|].
        rewrite E in E'. injection E' as <-. split; [done|]. intros _. rewrite Z.sub_0_r. exact Hsl. }
      rewrite E.
      erewrite bind_done by reflexivity. eexists _, b. split; [reflexivity|]. destruct s; done. }
  destruct Hstart as (s0 & b0 & E0 & Hr0 & Hb0 & [Hp0 Hsl0] & Hc0 & Hl0). rewrite (bind_done _ _ _ _ _ E0).
  assert (Hv0 : live s0) by (unfold live; rewrite Hl0; exact Hv).
  rewrite (bind_done _ _ _ _ _ (members_done s0 Hv0)), Hr0. erewrite bind_done by reflexivity.
  change (data_ (fresh_response b0)) with b0.
  destruct (bq_packed_append b0 pre data Hb0 Hp0) as (b1 & E1 & Hb1 & Hp1); [lia|].
  assert (Hsl1 : has_slack b1 (Zlen (pre ++ data))).
  { split; [eapply bq_sized_append; [exact E1|apply Hsl0]|]. rewrite Zlen_app. intros Hle. pose proof (Zlen_nonneg data).
    replace (client_slack - (Zlen pre + Zlen data)) with (client_slack - Zlen pre - Zlen data) by lia.
    eapply bq_slack_append; [exact E1|apply Hsl0; lia|lia]. }
  rewrite E1. erewrite bind_done by reflexivity.
  rewrite (bind_done _ _ _ _ _ (rupd_done s0 _ _ Hv0 Hr0)).
  exists (with_resp s0 (fresh_response b1)), b1. split_and!; [done|apply with_resp_resp|done|done|done|destruct s0; done..].
Qed.

Lemma on_client_done {A} (m : eff T A) s : live s ->
  on_client m s = zoom client_ (fun s t => s <| client_ := t |>) m s.
Proof. intros H. unfold on_client. by rewrite (bind_done _ _ _ _ _ (members_done s H)). Qed.
Lemma on_client_read s : live s -> tcl_open (client_ s) ->
  exists s', on_client tc_read s = Done s' tt /\ tcl_open (client_ s') /\ resp_ptr_ s' = resp_ptr_ s /\ cb_ s' = cb_ s.
Proof.
  intros Hv Ho. destruct (tcl_read_law _ Ho) as (t' & E & Ho'). rewrite on_client_done by done. unfold zoom. rewrite E.
  eexists. split; [done|]. destruct s; done.
Qed.
Lemma on_client_read_only s s' : on_client tc_read s = Done s' tt -> tc_read (client_ s) = Done (client_ s') tt.
Proof.
  unfold on_client, members, zoom, mbind, eff_bind, get. destruct (deleted _); [done|]. cbn. destruct (tc_read _) as [t []| |]; [|done..]. injection 1 as <-. by destruct s.
Qed.

(** The TCP client has been asked to read, and nothing else. *)
Definition only_reads (t t' : T) : Prop := exists n, for_each (replicate n tt) (fun _ => tc_read) t = Done t' tt.
Lemma only_reads_one t t' : tc_read t = Done t' tt -> only_reads t t'.
Proof. intros E. exists 1%nat. cbn [replicate for_each]. by rewrite (bind_done _ _ _ _ _ E). Qed.
Lemma only_reads_trans t1 t2 t3 : only_reads t1 t2 -> only_reads t2 t3 -> only_reads t1 t3.
Proof.
  intros [n E1] [m E2]. exists (n + m)%nat. by rewrite replicate_add, for_each_app, (bind_done _ _ _ _ _ E1).
Qed.

End reads.

(** A callback object that takes a complete response, keeps [given c r], and leaves the client, the connection and the response alone. *)
Class HttpClientCallbackLaws (C T Q : Type) `{HttpClientCallbackI C T Q} `{ByteQueueLaws Q} : Type := {
  given : C -> HttpClientResponse Q -> C;
  given_law : forall c t r l, bq_rep (data_ r) l -> OnHttpRead 0 (Some r) (c, t) = Done (given c r, t) (Some r) }.
#[export] Instance log_callback_laws {T Q} `{ByteQueueLaws Q} : HttpClientCallbackLaws (resp_log Q) T Q.
Proof. refine {| given c r := c ++ [(0, Some r)] |}. done. Defined.

Section response.
Context {C T Q : Type} {HTC : TcpClientI T} {HTL : TcpClientLaws T} {HQ : ByteQueue Q} {HQL : ByteQueueLaws Q}
  {HQP : ByteQueuePacked Q} {HQS : ByteQueueSized Q} {HCB : HttpClientCallbackI C T Q} {HCL : HttpClientCallbackLaws C T Q}.
Implicit Types s : HttpClient C T Q.
(** How a read of the connection reaches [OnRead] while the connection is open. *)
Context (feed : bytes -> eff (HttpClient C T Q) unit)
  (Hfeed : forall s data, tcl_open (client_ s) -> data <> [] -> feed data s = client_OnRead 0 data s).
Context (proto ver : bytes) (code : Z) (ws : list bytes) (hs : headers) (body : bytes).
Context (Hst : status_ok proto ver code ws) (Hhs : Forall header_ok hs).
Let head := head_text (response_lines proto ver code ws hs).
Context (Hlen : Zlen (head ++ body) < 2 ^ 30) (Hslack : Zlen (head ++ body) <= client_slack).
(** What the buffer still takes when [cd] of the body has been received. *)
Let left (cd : bytes) : Z := client_slack - (Zlen head + Zlen cd).
Let result (b : Q) := head_response (fresh_response b) b proto ver code ws hs.
Context (Hcl : forall b, rcontent_length_ (result b) = Zlen body) (Hbody : body <> []).

(** The head has been parsed; [cd] is the part of the body received so far. *)
Definition creceiving s (cd : bytes) : Prop :=
  (live s /\ tcl_open (client_ s)) /\ exists b, resp_ptr_ s = Some (result b) /\ bq_rep b cd /\ bq_slack b (left cd).

(** The callback was called once, with the complete response. *)
Definition delivered s s' : Prop :=
  exists b, bq_rep b body /\ cb_ s' = given (cb_ s) ((result b) <| body_ready_ := true |>) /\ tcl_open (client_ s').

Lemma result_len b : 0 < rcontent_length_ (result b) /\ rcontent_length_ (result b) = Zlen body.
Proof. rewrite Hcl. destruct body as [|x l]; [done|]. rewrite Zlen_cons. pose proof (Zlen_nonneg l). lia. Qed.

Lemma step_body s b cd : live s -> tcl_open (client_ s) -> resp_ptr_ s = Some (result b) -> bq_rep b cd -> bq_slack b (left cd) ->
  Zlen cd <= Zlen body ->
  exists s', read_step true s = Done s' tt /\
    (if decide (Zlen cd = Zlen body) then cb_ s' = given (cb_ s) ((result b) <| body_ready_ := true |>) /\ tcl_open (client_ s')
     else creceiving s' cd /\ cb_ s' = cb_ s).
Proof.
  intros Hv Ho Hr Hb Hsl Hle. unfold read_step. erewrite bind_done by reflexivity. cbn [negb].
  rewrite (bind_done _ _ _ _ _ (members_done s Hv)), Hr. erewrite bind_done by reflexivity.
  destruct (result_len b) as [H0 H1]. rewrite (proj2 (Z.ltb_lt _ _) H0), H1.
  assert (Ed : data_ (result b) = b) by apply head_response_ready. rewrite Ed.
  destruct (bq_rep_len _ _ Hb) as [-> Hbl]. rewrite s32_small by zlen.
  destruct (decide (Zlen cd = Zlen body)) as [E|E].
  - rewrite (proj2 (Z.leb_le _ _)) by lia. rewrite (bind_done _ _ _ _ _ (rupd_done s _ _ Hv Hr)).
    unfold call_back. rewrite (bind_done _ _ _ _ _ (members_done _ (with_resp_live _ _ Hv))), with_resp_resp.
    unfold notify, mbind, eff_bind. rewrite (given_law _ _ _ cd); [|destruct (result b); cbn in *; by rewrite Ed].
    eexists. split; [reflexivity|]. destruct s; done.
  - rewrite (proj2 (Z.leb_gt _ _)) by lia. destruct (on_client_read s Hv Ho) as (s' & Es & Ho' & Hr' & Hc').
    exists s'. split; [done|]. split; [|done]. split; [split; [unfold live; by rewrite Hc'|done]|]. exists b. rewrite Hr'. done.
Qed.

Lemma client_OnRead_body s cd data : creceiving s cd -> data <> [] -> Zlen cd + Zlen data <= Zlen body ->
  exists s1 b, client_OnRead 0 data s = read_step true s1 /\ resp_ptr_ s1 = Some (result b) /\
    bq_rep b (cd ++ data) /\ bq_slack b (left (cd ++ data)) /\ client_ s1 = client_ s /\ cb_ s1 = cb_ s.
Proof.
  intros ([Hv Ho] & b & Hr & Hb & Hsl) Hd Hl. pose proof Hslack as Hs0. rewrite Zlen_app in Hs0.
  pose proof (Zlen_nonneg data) as Hd0. unfold client_OnRead. change (0 <? 0) with false. cbv iota.
  rewrite (proj2 (Z.eqb_neq _ _)) by (intros E; apply Zlen_0_nil in E; done).
  rewrite (bind_done _ _ _ _ _ (members_done s Hv)), Hr. erewrite bind_done by reflexivity.
  rewrite (bind_done _ _ _ _ _ (members_done s Hv)), Hr. erewrite bind_done by reflexivity.
  destruct (head_response_ready (fresh_response b) b proto ver code ws hs) as [Eh Ed]. fold (result b) in Eh, Ed.
  rewrite Ed, Eh. destruct (bq_append_law b cd data Hb) as (b1 & E1 & Hb1);
    [eapply bq_slack_room; [exact Hsl|exact Hb|unfold left; lia]|].
  assert (Hsl1 : bq_slack b1 (left (cd ++ data))).
  { unfold left. rewrite Zlen_app. replace (client_slack - _) with (client_slack - (Zlen head + Zlen cd) - Zlen data) by lia.
    eapply bq_slack_append; [exact E1|exact Hsl|lia]. }
  rewrite E1. erewrite bind_done by reflexivity. rewrite (bind_done _ _ _ _ _ (rupd_done s _ _ Hv Hr)).
  exists (with_resp s (result b1)), b1. split_and!; [|apply with_resp_resp|done|done|destruct s; done..].
  assert (Eres : (result b) <| data_ := b1 |> = result b1).
  { unfold result. rewrite (proj1 (head_response_data _ _ b1 _ _ _ _ _)).
    change (fresh_response b) with ((fresh_response b1) <| data_ := b |>). apply head_response_data. }
  rewrite Eres. done.
Qed.

Lemma cfeed_rest chunks : forall s b cd, live s -> tcl_open (client_ s) -> resp_ptr_ s = Some (result b) -> bq_rep b cd -> bq_slack b (left cd) ->
  Forall (fun c => c <> []) chunks -> cd ++ concat chunks = body ->
  exists s', (read_step true ;; for_each chunks feed) s = Done s' tt /\ delivered s s'.
Proof.
  induction chunks as [|d chunks IH]; intros s b cd Hv Ho Hr Hb Hsl Hne Eb.
  - cbn [concat] in Eb. rewrite app_nil_r in Eb. subst cd.
    destruct (step_body s b body Hv Ho Hr Hb Hsl) as (s' & E & H); [lia|]. rewrite decide_True in H by done.
    exists s'. rewrite (bind_done _ _ _ _ _ E). split; [done|]. exists b. destruct H. done.
  - apply Forall_cons in Hne as [Hd Hne]. pose proof (concat_pos d chunks Hd) as Hpos.
    pose proof (f_equal Zlen Eb) as El. rewrite Zlen_app in El.
    destruct (step_body s b cd Hv Ho Hr Hb Hsl) as (s3 & E3 & H); [lia|]. rewrite decide_False in H by lia.
    destruct H as [Hr3 Hc3]. pose proof Hlen as Hl. rewrite Zlen_app in Hl. pose proof (Zlen_nonneg head).
    cbn [concat] in *. rewrite Zlen_app in El. pose proof (Zlen_nonneg (concat chunks)).
    destruct (client_OnRead_body s3 cd d Hr3 Hd) as (s4 & b4 & E4 & Hr4 & Hb4 & Hsl4 & Ho4 & Hc4); [lia|].
    rewrite app_assoc in Eb. destruct Hr3 as [[Hv3 Ho3] _]. rewrite <- Ho4 in Ho3.
    assert (Hv4 : live s4) by (unfold live; rewrite Hc4; exact Hv3).
    destruct (IH s4 b4 (cd ++ d) Hv4 Ho3 Hr4 Hb4 Hsl4 Hne Eb) as (s' & E' & b' & Hb' & D' & Ho').
    exists s'. rewrite (bind_done _ _ _ _ _ E3). cbn [for_each]. split; [|exists b'; rewrite D', Hc4, Hc3; done].
    rewrite <- E'. unfold mbind at 1 2, eff_bind at 1 2. rewrite Hfeed, E4 by (done || congruence). done.
Qed.

Lemma cfeed_head chunks : forall s pre k, cwaiting s pre -> k <> [] -> pre ++ k = head ->
  Forall (fun c => c <> []) chunks -> pre ++ concat chunks = head ++ body ->
  exists s', for_each chunks feed s = Done s' tt /\ delivered s s'.
Proof.
  induction chunks as [|data chunks IH]; intros s pre k Hw Hk Ek Hne Eb.
  { exfalso. cbn [concat] in Eb. rewrite app_nil_r in Eb. rewrite Eb, <- app_assoc in Ek.
    apply (f_equal length) in Ek. rewrite !length_app in Ek. destruct k; [done|cbn [length] in Ek; lia]. }
  apply Forall_cons in Hne as [Hd Hne]. cbn [concat] in Eb.
  pose proof (f_equal Zlen Eb) as El. rewrite !Zlen_app in El. pose proof Hlen as Hl. rewrite Zlen_app in Hl.
  pose proof (Zlen_nonneg body). pose proof (Zlen_nonneg (concat chunks)).
  destruct (client_OnRead_wait s pre data Hw Hd) as (s1 & b1 & E1 & Hr1 & Hb1 & Hp1 & Hsl1 & Ho1 & Hc1); [lia|].
  pose proof Hw as (Ho & Hv & _). rewrite <- Ho1 in Ho. assert (Hv1 : live s1) by (unfold live; rewrite Hc1; exact Hv). rewrite app_assoc in Eb. cbn [for_each].
  pose proof (response_lines_ok _ _ _ _ hs Hst Hhs) as Hlok.
  assert (Hcase : (exists b, pre ++ data = head ++ b /\ body = b ++ concat chunks) \/
    (exists k', k' <> [] /\ head = (pre ++ data) ++ k' /\ concat chunks = k' ++ body)).
  { apply app_eq_inv in Eb as [(b & Ep & Er)|(k' & Ep & Er)]; [left; exists b; done|].
    destruct k' as [|x k']; [|right; exists (x :: k'); done]. left. exists []. rewrite app_nil_r in Ep.
    rewrite app_nil_r. split; [congruence|symmetry; exact Er]. }
  destruct Hcase as [(b & Ep & Er)|(k' & Hk' & Ep & Er)].
  - rewrite Ep in Hb1. destruct (client_head_done s1 _ proto ver code ws hs b Hv1 Hr1 Hst Hhs Hb1) as (b2 & E2 & Hb2 & n & Ec).
    change (data_ (fresh_response b1)) with b1 in Ec.
    assert (Hsl2 : bq_slack b2 (left b)).
    { eapply bq_slack_consume; [exact Ec|]. unfold left. rewrite <- Zlen_app, <- Ep. apply Hsl1.
      pose proof Hslack as Hs0. rewrite Er, !Zlen_app in Hs0. rewrite Ep, Zlen_app. lia. }
    set (s2 := with_resp s1 _) in E2.
    assert (Hr2 : resp_ptr_ s2 = Some (result b2)).
    { unfold s2. rewrite with_resp_resp. done. }
    destruct (cfeed_rest chunks s2 b2 b) as (s' & E' & b' & Hb' & D' & Ho'); [by apply with_resp_live|destruct s1; done|done|done|done|done|done|].
    exists s'. split; [|exists b'; split_and!; [done|rewrite D'; f_equal; rewrite <- Hc1; destruct s1; done|done]].
    rewrite <- E'. unfold mbind at 1 2, eff_bind at 1 2. rewrite Hfeed, E1 by (done || congruence).
    unfold read_step at 1 2. rewrite (bind_done _ _ _ _ _ E2). erewrite bind_done by reflexivity. done.
  - assert (Hwait : read_step false s1 = on_client tc_read s1).
    { assert (Hcw : client_head s1 = Done s1 false).
      { eapply (client_head_wait s1 _ (response_lines proto ver code ws hs) (pre ++ data) k' Hv1 Hr1 Hlok); try done.
        fold head. unfold npos. lia. }
      unfold read_step. rewrite (bind_done _ _ _ _ _ Hcw). done. }
    destruct (on_client_read s1 Hv1 Ho) as (s2 & E2 & Ho2 & Hr2 & Hc2).
    destruct (IH s2 (pre ++ data) k') as (s' & E' & b' & Hb' & D' & Ho').
    + split; [done|]. split; [unfold live; by rewrite Hc2|]. rewrite Hr2, Hr1. exists b1. done.
    + done.
    + done.
    + done.
    + rewrite Er, app_assoc, <- Ep. done.
    + exists s'. rewrite Hwait, E2 in E1. rewrite <- Hfeed in E1 by (done || congruence). rewrite (bind_done _ _ _ _ _ E1). split; [done|].
      exists b'. rewrite D', Hc2, Hc1. done.
Qed.
End response.

(** ** Server to client *)

(** The head of a response, as lines. *)
Lemma response_head_lines (p : HttpResponse) (len : Z) ws : status_ p = join (bstr " ") ws -> ws <> [] ->
  0 <= status_code_ p ->
  response_head p len false = head_text (response_lines (proto_ p) (rversion_ p) (status_code_ p) ws
    ((bstr "Content-Length", to_string len) :: headers_ p)).
Proof.
  intros Hs Hn Hc. rewrite <- end_lines_join by done. unfold response_lines, response_head, status_words.
  rewrite header_lines_end. unfold end_lines at 2. cbn [map concat]. fold (end_lines (map header_line (headers_ p))).
  unfold to_string_int. rewrite (proj2 (Z.ltb_ge _ _)) by done. rewrite !join_cons by done.
  unfold header_line at 2. cbn [fst snd negb]. rewrite Hs, <- !app_assoc. done.
Qed.

Lemma fold_store_fields {Q} hs : forall (r : HttpClientResponse Q),
  let r' := fold_left store_client_header hs r in
  rheaders_ r' = fold_left (fun m h => smap_set (fst h) (snd h) m) hs (rheaders_ r) /\
  rstatus_code_ r' = rstatus_code_ r /\ rstatus_ r' = rstatus_ r /\
  (Forall (fun h => fst h <> bstr "Content-Length") hs -> rcontent_length_ r' = rcontent_length_ r).
Proof.
  induction hs as [|h hs IH]; intros r; [done|]. cbn [fold_left].
  destruct (IH (store_client_header r h)) as (-> & -> & -> & H4). unfold store_client_header in *.
  destruct (beqb (fst h) (bstr "Content-Length")) eqn:E.
  - apply beqb_true in E. split_and!; try (destruct r; done). intros Hf. apply Forall_cons in Hf as [Hf _]. done.
  - split_and!; try (destruct r; done). intros Hf. apply Forall_cons in Hf as [_ Hf]. rewrite (H4 Hf). destruct r; done.
Qed.

(** The first write of a response is its head and the data. *)
Lemma write_effect_first (p : HttpResponse) (body : bytes) : is_close_ p = false -> session_ p = true ->
  written_header_ p = false -> body <> [] ->
  snd (write_effect p (Some body) false) = response_head p (Zlen body) false ++ body.
Proof.
  intros Hc Hs Hw Hb. unfold write_effect. destruct p as [c w st sc pr rv h0 se rc rm]. cbn in Hc, Hs, Hw. subst.
  change (is_close_ _) with false. change (session_ _) with true. change (written_header_ _) with false.
  cbn [negb orb]. change (default [] (Some body)) with body. rewrite (proj2 (Z.ltb_lt 0 (Zlen body))); [done|].
  destruct body as [|x body]; [done|]. rewrite Zlen_cons. pose proof (Zlen_nonneg body). lia.
Qed.

Lemma content_length_ok (n : Z) : 0 <= n < 2 ^ 31 -> header_ok (bstr "Content-Length", to_string n).
Proof.
  intros H. split_and!; cbn [fst snd].
  - apply (absent_char 13). cbn. lia.
  - apply (absent_char 58). cbn. lia.
  - apply (to_string_word n). lia.
  - intros _. exists n. done.
Qed.

Lemma content_length_stored {Q} (r : HttpClientResponse Q) b proto ver code ws n hs : 0 <= n < 2 ^ 31 ->
  Forall (fun h => fst h <> bstr "Content-Length") hs ->
  rcontent_length_ (head_response r b proto ver code ws ((bstr "Content-Length", to_string n) :: hs)) = n.
Proof.
  intros Hn Hh. unfold head_response. cbn [fold_left]. rewrite (proj2 (proj2 (proj2 (fold_store_fields hs _))) Hh).
  unfold store_client_header. cbn [fst snd]. rewrite <- (app_nil_r (to_string n)), atoi_to_string by done.
  destruct r; done.
Qed.

(** What a response object writes for a body, arriving in any portions at a client whose reads reach [OnRead] by [feed]. *)
Definition intact (p : HttpResponse) (ws : list bytes) (body : bytes) {Q} `{ByteQueueLaws Q} (r : HttpClientResponse Q) : Prop :=
  rstatus_code_ r = status_code_ p /\ rstatus_ r = concat ws /\ body_ready_ r = true /\
  rcontent_length_ r = Zlen body /\
  rheaders_ r = fold_left (fun m h => smap_set (fst h) (snd h) m)
                  ((bstr "Content-Length", to_string (Zlen body)) :: headers_ p) [] /\
  bq_rep (data_ r) body.
Lemma response_fed {C T Q : Type} {HTC : TcpClientI T} {HTL : TcpClientLaws T} {HQ : ByteQueue Q}
  {HQL : ByteQueueLaws Q} {HQP : ByteQueuePacked Q} {HQS : ByteQueueSized Q} {HCB : HttpClientCallbackI C T Q}
  {HCL : HttpClientCallbackLaws C T Q} (feed : bytes -> eff (HttpClient C T Q) unit) (s : HttpClient C T Q)
  (p : HttpResponse) (ws : list bytes) (body : bytes) (chunks : list bytes) :
  (forall s data, tcl_open (client_ s) -> data <> [] -> feed data s = client_OnRead 0 data s) ->
  cwaiting s [] -> is_close_ p = false /\ session_ p = true /\ written_header_ p = false ->
  status_ok (proto_ p) (rversion_ p) (status_code_ p) ws -> status_ p = join (bstr " ") ws ->
  Forall header_ok (headers_ p) -> Forall (fun h => fst h <> bstr "Content-Length") (headers_ p) ->
  body <> [] -> Forall (fun c => c <> []) chunks -> concat chunks = snd (write_effect p (Some body) false) ->
  Zlen (concat chunks) < 2 ^ 30 -> Zlen (concat chunks) <= bq_slack_of (Q := Q) EXTRA_LEN_default ->
  exists s' r, for_each chunks feed s = Done s' tt /\ cb_ s' = given (cb_ s) r /\ tcl_open (client_ s') /\ intact p ws body r.
Proof.
  intros Hfeed Hw (Hc & Hse & Hwh) Hst Hs Hhs Hnocl Hbody Hne Hchunks Hlen Hslack. set (hs := (bstr "Content-Length", to_string (Zlen body)) :: headers_ p).
  pose proof Hst as [HP HV Hsl Hcode Hws Hn]. rewrite write_effect_first in Hchunks by done.
  rewrite (response_head_lines p _ ws Hs Hn) in Hchunks by lia. fold hs in Hchunks.
  pose proof Hlen as Hlen'. rewrite Hchunks in Hlen', Hslack. pose proof Hlen' as Hl2. rewrite Zlen_app in Hl2.
  set (head := head_text _) in *. pose proof (Zlen_nonneg head). pose proof (Zlen_nonneg body).
  assert (Hbl : 0 <= Zlen body < 2 ^ 31) by lia.
  assert (Hh : Forall header_ok hs) by (constructor; [apply content_length_ok; lia|done]).
  destruct (cfeed_head feed Hfeed _ _ _ ws hs body Hst Hh Hlen' Hslack
    (fun b => content_length_stored _ b _ _ _ ws (Zlen body) _ Hbl Hnocl) Hbody chunks s [] head Hw)
    as (s' & E & b & Hb & D & Ho); [|done|done|exact Hchunks|].
  { unfold head, head_text. intros E. apply app_nil in E as [_ E]. done. }
  eexists s', _. split; [exact E|]. split; [exact D|]. split; [exact Ho|].
  assert (Hcl := content_length_stored (fresh_response b) b (proto_ p) (rversion_ p) (status_code_ p) ws (Zlen body) _ Hbl Hnocl).
  unfold intact. fold hs in Hcl |- *. split_and!.
  all: destruct (fold_store_fields hs ((fresh_response b) <| header_ready_ := true |> <| data_ := b |>
    <| rproto_ := proto_ p |> <| rver_ := rversion_ p |> <| rstatus_code_ := status_code_ p |>
    <| rstatus_ := concat ws |>)) as (F1 & F2 & F3 & _).
  all: fold (head_response (fresh_response b) b (proto_ p) (rversion_ p) (status_code_ p) ws hs) in F1, F2, F3.
  all: destruct (head_response_ready (fresh_response b) b (proto_ p) (rversion_ p) (status_code_ p) ws hs) as [_ F4].
  all: destruct (head_response _ _ _ _ _ _ _) as [a1 a2 a3 a4 a5 a6 a7 a8 a9]; cbn in F1, F2, F3, F4, Hcl; subst; done.
Qed.

(** C11: what the server's response object writes for a body, received by the client in arbitrary
    portions, is delivered to the callback exactly once: status code and headers as set, the
    body unchanged, the words of the reason phrase run together.  The response is bounded by what
    the response's buffer takes without moving its contents (9840 bytes for [DataBuffer]). *)
Theorem response_delivered (T Q : Type) (HTC : TcpClientI T) (HTL : TcpClientLaws T) (HQ : ByteQueue Q)
  (HQL : ByteQueueLaws Q) (HQP : ByteQueuePacked Q) (HQS : ByteQueueSized Q) (s : HttpClient (resp_log Q) T Q)
  (p : HttpResponse) (ws : list bytes) (body : bytes) (chunks : list bytes)
  (Hw : cwaiting s []) (Hp : is_close_ p = false /\ session_ p = true /\ written_header_ p = false)
  (Hst : status_ok (proto_ p) (rversion_ p) (status_code_ p) ws) (Hs : status_ p = join (bstr " ") ws)
  (Hhs : Forall header_ok (headers_ p)) (Hnocl : Forall (fun h => fst h <> bstr "Content-Length") (headers_ p))
  (Hbody : body <> []) (Hne : Forall (fun c => c <> []) chunks)
  (Hchunks : concat chunks = snd (write_effect p (Some body) false))
  (Hlen : Zlen (concat chunks) < 2 ^ 30) (Hslack : Zlen (concat chunks) <= bq_slack_of (Q := Q) EXTRA_LEN_default) :
  exists s' r, for_each chunks (client_OnRead 0) s = Done s' tt /\ cb_ s' = cb_ s ++ [(0, Some r)] /\
    rstatus_code_ r = status_code_ p /\ rstatus_ r = concat ws /\ body_ready_ r = true /\
    rheaders_ r = fold_left (fun m h => smap_set (fst h) (snd h) m)
                    ((bstr "Content-Length", to_string (Zlen body)) :: headers_ p) [] /\
    bq_rep (data_ r) body.
Proof.
  destruct (response_fed (client_OnRead 0) s p ws body chunks ltac:(done) Hw Hp Hst Hs Hhs Hnocl Hbody Hne Hchunks Hlen Hslack)
    as (s' & r & E & Ec & _ & Hi1 & Hi2 & Hi3 & _ & Hi). exists s', r. done.
Qed.

(** ** Witness: an in-memory TCP client *)

#[export] Instance request_log_client : TcpClientI (list tcp_request) := {
  tc_connect _ _ := fun t => Done t tt;
  tc_send d := fun t => Done (t ++ [SWrite d]) tt;
  tc_read := fun t => Done (t ++ [SRead]) tt;
  tc_close := fun t => Done (t ++ [SClose]) tt }.
#[export] Instance request_log_laws : TcpClientLaws (list tcp_request).
Proof. refine {| tcl_open := fun _ => True |}. intros t _. eexists. done. Defined.

Definition demo_client : HttpClient (resp_log bytes) (list tcp_request) bytes :=
  mkHttpClient [] (bstr "127.0.0.1") 80 false [] (bstr "/") [] [] None.

(** A callback object that deletes the client when it gets its response.  With a body the client
    is not used again; without one [OnRead] asks for more through the deleted client. *)
Definition deleting_callback : HttpClientCallbackI bool (list tcp_request) bytes := {|
  OnHttpRead ret r := fun '(_, t) => Done (true, t) r; deleted c := c |}.
Definition deleting_client : HttpClient bool (list tcp_request) bytes :=
  mkHttpClient [] (bstr "127.0.0.1") 80 false [] (bstr "/") false [] None.
Example deleted_after_body :
  exists s', client_OnRead (HCB := deleting_callback) 0
    (bstr "HTTP/1.1 200 OK" ++ CRLF ++ bstr "Content-Length: 2" ++ CRLF ++ CRLF ++ bstr "hi") deleting_client = Done s' tt /\ cb_ s' = true.
Proof. eexists. split; [vm_compute; reflexivity|reflexivity]. Qed.
Example deleted_without_body :
  client_OnRead (HCB := deleting_callback) 0 (bstr "HTTP/1.1 200 OK" ++ CRLF ++ CRLF) deleting_client = Stuck.
Proof. vm_compute. reflexivity. Qed.

Lemma response_delivered_witness :
  let p := new_response <| status_code_ := 404 |> <| status_ := bstr "Not Found" |>
             <| headers_ := [(bstr "Server", bstr "co")] |> in
  let text := snd (write_effect p (Some (bstr "sorry")) false) in
  exists s' r, for_each [firstn 20 text; skipn 20 text] (client_OnRead 0) demo_client = Done s' tt /\
    cb_ s' = cb_ demo_client ++ [(0, Some r)] /\
    rstatus_code_ r = status_code_ p /\ rstatus_ r = concat [bstr "Not"; bstr "Found"] /\ body_ready_ r = true /\
    rheaders_ r = fold_left (fun m h => smap_set (fst h) (snd h) m)
                    ((bstr "Content-Length", to_string (Zlen (bstr "sorry"))) :: headers_ p) [] /\
    bq_rep (data_ r) (bstr "sorry").
Proof.
  apply (response_delivered (list tcp_request) bytes _ _ _ _ _ _ demo_client
    (new_response <| status_code_ := 404 |> <| status_ := bstr "Not Found" |> <| headers_ := [(bstr "Server", bstr "co")] |>)
    [bstr "Not"; bstr "Found"] (bstr "sorry")).
  - split; [exact I|split; reflexivity].
  - repeat split.
  - constructor; [apply demo_word; [reflexivity|reflexivity|discriminate]..|not_in| | |discriminate].
    + vm_compute. split; congruence.
    + repeat (apply Forall_cons; split; [apply demo_word; [reflexivity|reflexivity|discriminate]|]). apply Forall_nil. exact I.
  - reflexivity.
  - repeat constructor; cbn [fst snd]; try not_in; try discriminate.
  - repeat constructor; discriminate.
  - discriminate.
  - repeat constructor; discriminate.
  - reflexivity.
  - vm_compute. reflexivity.
  - vm_compute. discriminate.
Defined.
