(* ===== verification/HttpClientDemo.v ===== *)
(** The HTTP client on the TCP client it creates (http_client.cpp over tcp_client.hpp), and the demo program
    http_client_demo.cpp, whose callback object closes and deletes the client inside the client's own callback:
    [hc_] is its pointer to the client, null once it has deleted it.
    The [main] function's loop is left out. *)
From S2P Require Import Prelude Eff StdMap StdText StringEx ByteQueue DataBuffer IpAddress Double JsonUtf8 Json TcpPub Ssl Tcp TcpClient HttpCommon HttpText HttpRequests HttpClient.

Section stack.
Context {X C Q : Type} {HX : OpenSsl X} {I : InetLib} {HQ : ByteQueue Q} (getaddrinfo : bytes -> Z -> option sockaddr).
#[local] Instance tcp : TcpClientI (TcpClient X) := tcp_client getaddrinfo.
Context {HCB : HttpClientCallbackI C (TcpClient X) Q}.
Abbreviation Http := (HttpClient C (TcpClient X) Q).

(** ** The HTTP client is the callback object of its TCP client *)

(** The client without the member [client_], and with it. *)
Definition plug (t : TcpClient X) (u : HttpClient C unit Q) : Http :=
  mkHttpClient t (host_ u) (port_ u) (is_post_ u) (cheaders_ u) (subpath_ u) (cb_ u) (post_data_ u) (resp_ptr_ u).
Definition unplug (h : Http) : HttpClient C unit Q :=
  mkHttpClient tt (host_ h) (port_ h) (is_post_ h) (cheaders_ h) (subpath_ h) (cb_ h) (post_data_ h) (resp_ptr_ h).

Definition as_callback {A} (m : eff Http A) : eff (TcpClient X * HttpClient C unit Q) A := fun '(t, u) =>
  match m (plug t u) with
  | Done h a => Done (client_ h, unplug h) a
  | Raised h e => Raised (client_ h, unplug h) e
  | Stuck => Stuck
  end.
Definition as_http {A} (m : eff (TcpClient X * HttpClient C unit Q) A) : eff Http A := fun h =>
  match m (client_ h, unplug h) with
  | Done (t, u) a => Done (plug t u) a
  | Raised (t, u) e => Raised (plug t u) e
  | Stuck => Stuck
  end.
Lemma as_http_callback {A} (m : eff Http A) h : as_http (as_callback m) h = m h.
Proof.
  unfold as_http, as_callback. replace (plug (client_ h) (unplug h)) with h by (destruct h; done).
  destruct (m h) as [[] a|[] e|]; done.
Qed.
(** An event that ends in a callback. *)
Lemma as_http_reaches {A} (m : eff (TcpClient X * HttpClient C unit Q) A) (k : eff Http A) t h :
  m (client_ h, unplug h) = as_callback k (t, unplug h) -> as_http m h = k (plug t (unplug h)).
Proof. intros E. rewrite <- (as_http_callback k). unfold as_http. rewrite E. destruct h; done. Qed.

#[export] Instance http_callback : TcpClientCallback X (HttpClient C unit Q) := {
  ccb_OnConnect ret := as_callback (OnConnect ret);
  ccb_OnWrite ret n := as_callback (HttpClient.client_OnWrite ret n);
  ccb_OnRead ret data := as_callback (HttpClient.client_OnRead ret data) }.

(** What libuv reports. *)
Definition uv_connected (status : Z) : eff Http unit := as_http (TcpClient.client_OnConnect status).
Definition uv_written (status : Z) : eff Http unit := as_http (OnUVClientWrite status).
Definition uv_read (fuel : nat) (nread : Z) (base : bytes) : eff Http unit := as_http (OnUVClientRead fuel nread base).

(** The destructor deletes the TCP client. *)
Definition HttpClient_destroy : eff Http unit := HttpClient.on_client TcpClient_destroy.
End stack.

(** ** The demo program *)

(** The members of class [client]; [hc_] says whether there is an HTTP client, [shown_] is what has been logged of the
    responses: status code, status, content length, data. *)
Record client : Type := mkClient {
  schema_ : bytes;
  demo_host_ : bytes;
  demo_port_ : Z;
  hc_ : bool;
  shown_ : list (Z * bytes * Z * bytes) }.

Section demo.
Context {X Q : Type} {HX : OpenSsl X} {I : InetLib} {HQ : ByteQueue Q} (getaddrinfo : bytes -> Z -> option sockaddr).
#[local] Instance demo_tcp : TcpClientI (TcpClient X) := tcp_client getaddrinfo.

#[export] Instance demo_callback : HttpClientCallbackI client (TcpClient X) Q := {
  OnHttpRead ret resp_ptr :=
    if ret <? 0 then
      w ← get;
      when (hc_ (fst w)) (
        zoom snd (fun w t => (fst w, t)) (tc_close ;; TcpClient_destroy) ;;
        modify (fun w => ((fst w) <| hc_ := false |>, snd w))) ;;
      mret resp_ptr
    else
      r ← deref resp_ptr; resp_data ← lift (bq_string (data_ r));
      modify (fun w => ((fst w) <| shown_ ::= fun l => l ++ [(rstatus_code_ r, rstatus_ r, rcontent_length_ r, resp_data)] |>, snd w)) ;;
      mret resp_ptr;
  deleted c := negb (hc_ c) }.

(** The program before the first request and after [delete hc_], or with an HTTP client, which holds the callback object. *)
Abbreviation program := (client + HttpClient client (TcpClient X) Q)%type.
Definition self (p : program) : client := match p with inl c => c | inr h => cb_ h end.

Definition delete_hc : eff program unit := fun p =>
  match p with
  | inr h =>
      if hc_ (cb_ h) then
        match HttpClient_destroy h with
        | Done h' _ => Done (inl ((cb_ h') <| hc_ := false |>)) tt
        | Raised h' e => Raised (inr h') e
        | Stuck => Stuck
        end
      else Done (inl (cb_ h)) tt
  | inl c => Done p tt
  end.

(** [new HttpClient] and the request. *)
Definition create (c : client) (ssl : option X) (addr : sockaddr) (results : list Z) (m : eff (HttpClient client (TcpClient X) Q) Z) : eff program unit :=
  fun _ =>
    match m (HttpClient_new (TcpClient_new ssl addr results) (demo_host_ c) (demo_port_ c) (c <| hc_ := true |>)) with
    | Done h _ => Done (inr h) tt
    | Raised h e => Raised (inr h) e
    | Stuck => Stuck
    end.
(** [Get] and [Post], with the SSL object, the uninitialised address and the results of the libuv calls of the new client. *)
Definition start_request (x : X) (addr : sockaddr) (results : list Z) (m : eff (HttpClient client (TcpClient X) Q) Z) : eff program unit :=
  delete_hc ;;
  p ← get;
  if beqb (schema_ (self p)) (bstr "http") then create (self p) None addr results m
  else if beqb (schema_ (self p)) (bstr "https") then create (self p) (Some x) addr results m
  else raise (StreamExn (until_zero (bstr "the schema error:" ++ schema_ (self p)))).
Definition client_Get (x : X) (addr : sockaddr) (results : list Z) (subpath : bytes) : eff program unit :=
  start_request x addr results (Get subpath []).
Definition client_Post (x : X) (addr : sockaddr) (results : list Z) (subpath data : bytes) : eff program unit :=
  start_request x addr results (Post subpath [] data).

Definition main_client : client := mkClient (bstr "https") (bstr "127.0.0.1") 4443 false [].
Definition main_Get (x : X) (addr : sockaddr) (results : list Z) : eff program unit :=
  client_Get x addr results (bstr "/api/v1/producers/stat").
End demo.

(** ** An exchange over a plain connection *)

Section plain_exchange.
Context {X Q : Type} {HX : OpenSsl X} {I : InetLib} {HQ : ByteQueue Q} {HQL : ByteQueueLaws Q} {HQP : ByteQueuePacked Q}
  {HQS : ByteQueueSized Q} (getaddrinfo : bytes -> Z -> option sockaddr).
#[local] Instance plain_tcp : TcpClientI (TcpClient X) := tcp_client getaddrinfo.
#[local] Instance plain_callback : HttpClientCallbackI client (TcpClient X) Q := demo_callback getaddrinfo.
Abbreviation Http := (HttpClient client (TcpClient X) Q).

(** A plain TCP client whose libuv calls succeed. *)
Definition plain_client (connected started : bool) (a : sockaddr) (writes : list bytes) (rs : list Z) (log : list client_request) : TcpClient X :=
  mkTcpClient connected started false None a true false writes rs log [].

Lemma plain_result conn st a ws rs log : all_success rs ->
  exists rs', cuv_result (plain_client conn st a ws rs log) = Done (plain_client conn st a ws rs' log) 0 /\ all_success rs'.
Proof. intros H. destruct H as [|r rs -> H]; [exists []; split; [reflexivity|constructor]|]. by exists rs. Qed.

Lemma Connect_plain host port addr rs : IsIPv4 host = true -> all_success rs ->
  let a := GetIpv4Sockaddr host (htons port) addr in
  exists rs', Connect getaddrinfo host port (TcpClient_new None addr rs) = Done (plain_client false false a [] rs' [CConnect a]) tt /\ all_success rs'.
Proof.
  intros Hip H a. unfold Connect. erewrite bind_done by reflexivity. rewrite Hip. cbn [negb].
  erewrite bind_done by reflexivity. destruct H as [|r rs -> H]; [exists []; split; [reflexivity|constructor]|]. by exists rs.
Qed.

Lemma Send_plain a rs log text : all_success rs ->
  exists rs', Send text (plain_client true false a [] rs log) = Done (plain_client true false a [text] rs' (log ++ [CWrite text])) tt /\ all_success rs'.
Proof.
  intros H. unfold Send. do 2 erewrite bind_done by reflexivity. cbn [cssl_enable_ plain_client]. unfold client_write. do 2 erewrite bind_done by reflexivity.
  destruct (plain_result true false a [] rs log H) as (rs' & E & H'). exists rs'. by rewrite (bind_done _ _ _ _ _ E).
Qed.

Lemma AsyncRead_plain a ws rs log : all_success rs ->
  exists rs', client_AsyncRead (plain_client true false a ws rs log) = Done (plain_client true true a ws rs' (log ++ [CReadStart])) tt /\ all_success rs'.
Proof.
  intros H. unfold client_AsyncRead. do 2 erewrite bind_done by reflexivity. cbn [negb is_connect_ plain_client read_start_].
  do 2 erewrite bind_done by reflexivity.
  destruct (plain_result true true a ws rs log H) as (rs' & E & H'). exists rs'. by erewrite (bind_done _ _ _ _ _ E).
Qed.

(** Once reading, the client asks for nothing more. *)
Definition steady (a : sockaddr) (rs : list Z) (log : list client_request) : TcpClientLaws (TcpClient X).
Proof. refine {| tcl_open := fun t => t = plain_client true true a [] rs log |}. intros t ->. eexists. split; reflexivity. Defined.

Definition shown (r : HttpClientResponse Q) : Z * bytes * Z * bytes :=
  (rstatus_code_ r, rstatus_ r, rcontent_length_ r, match bq_string (data_ r) with Ok l => l | _ => [] end).
#[export] Instance demo_callback_laws : HttpClientCallbackLaws client (TcpClient X) Q.
Proof.
  refine {| given c r := c <| shown_ ::= fun l => l ++ [shown r] |> |}.
  intros c t r l Hr. cbn [OnHttpRead plain_callback demo_callback]. change (0 <? 0) with false. cbv iota.
  erewrite bind_done by reflexivity. unfold shown. rewrite (bq_string_law _ _ Hr). done.
Defined.

Lemma uv_read_plain fuel a rs log (h : Http) data : client_ h = plain_client true true a [] rs log -> data <> [] ->
  uv_read getaddrinfo fuel (Zlen data) data h = HttpClient.client_OnRead 0 data h.
Proof.
  intros Hc Hd. assert (0 < Zlen data) by (destruct data; [done|rewrite Zlen_cons; pose proof (Zlen_nonneg data); lia]).
  unfold uv_read. rewrite (as_http_reaches _ (HttpClient.client_OnRead 0 data) (client_ h)); [f_equal; by destruct h|].
  rewrite Hc. unfold OnUVClientRead. do 2 erewrite bind_done by reflexivity. cbn [is_connect_ fst plain_client when].
  unfold TcpClient.client_OnRead. erewrite bind_done by reflexivity.
  rewrite (proj2 (Z.ltb_ge _ _)), (proj2 (Z.eqb_neq _ _)) by lia. reflexivity.
Qed.

(** As long as the callback object has its pointer, the client has not been deleted. *)
Lemma plug_live t (h : Http) : hc_ (cb_ h) = true -> live (plug t (unplug h)).
Proof. intros H. unfold live. cbn. by rewrite H. Qed.

Lemma uv_connected_plain a rs log (h : Http) : hc_ (cb_ h) = true -> client_ h = plain_client false false a [] rs log -> all_success rs ->
  exists rs', uv_connected getaddrinfo 0 h = Done (h <| client_ := plain_client true false a [http_stream h] rs' (log ++ [CWrite (http_stream h)]) |>) tt /\
    all_success rs'.
Proof.
  intros Hh Hc H. unfold uv_connected.
  rewrite (as_http_reaches _ (OnConnect 0) (plain_client true false a [] rs log)) by (rewrite Hc; reflexivity).
  destruct (Send_plain a rs log (http_stream h) H) as (rs' & E & H'). exists rs'. split; [|done].
  unfold OnConnect. rewrite (bind_done _ _ _ _ _ (members_done _ (plug_live _ h Hh))). change (0 <? 0) with false. cbv iota.
  rewrite (bind_done _ _ _ _ _ (members_done _ (plug_live _ h Hh))), on_client_done by (by apply plug_live).
  unfold zoom. cbn [client_ plug tc_send plain_tcp tcp tcp_client].
  change (http_stream (plug _ _)) with (http_stream h). rewrite E. destruct h; reflexivity.
Qed.

Lemma uv_written_plain a text rs log (h : Http) : hc_ (cb_ h) = true -> client_ h = plain_client true false a [text] rs log -> all_success rs ->
  exists rs', uv_written getaddrinfo 0 h = Done (h <| client_ := plain_client true true a [] rs' (log ++ [CReadStart]) |>) tt /\ all_success rs'.
Proof.
  intros Hh Hc H. unfold uv_written.
  rewrite (as_http_reaches _ (HttpClient.client_OnWrite 0 (Zlen text)) (plain_client true false a [] rs log)) by (rewrite Hc; reflexivity).
  destruct (AsyncRead_plain a [] rs log H) as (rs' & E & H'). exists rs'. split; [|done].
  unfold HttpClient.client_OnWrite. change (0 =? 0) with true. cbv iota. rewrite on_client_done by (by apply plug_live). unfold zoom.
  cbn [client_ plug tc_read plain_tcp tcp tcp_client]. rewrite E. destruct h; reflexivity.
Qed.

(** The end of the stream, or an error: the callback object closes and deletes the client, and nothing uses it afterwards. *)
Lemma uv_read_end fuel nread a rs log (h : Http) : client_ h = plain_client true true a [] rs log -> hc_ (cb_ h) = true -> nread < 0 ->
  uv_read getaddrinfo fuel nread [] h =
    Done (h <| client_ := (plain_client false true a [] rs (((log ++ [CReadStop]) ++ [CReadStop]) ++ [CClose])) <| cfreed_ := true |> |>
            <| cb_ := (cb_ h) <| hc_ := false |> |>) tt.
Proof.
  intros Hc Hh Hn. unfold uv_read, as_http, OnUVClientRead. rewrite Hc. do 2 erewrite bind_done by reflexivity.
  cbn [is_connect_ fst plain_client when]. unfold TcpClient.client_OnRead. erewrite bind_done by reflexivity.
  rewrite (proj2 (Z.ltb_lt _ _)) by done. cbn [ccb_OnRead http_callback]. unfold as_callback, HttpClient.client_OnRead.
  rewrite (proj2 (Z.ltb_lt _ _)) by done. unfold call_back. rewrite (bind_done _ _ _ _ _ (members_done _ (plug_live _ h Hh))).
  unfold mbind at 1, eff_bind at 1. unfold notify. cbn [cb_ plug unplug client_ resp_ptr_ snd OnHttpRead plain_callback demo_callback].
  rewrite (proj2 (Z.ltb_lt _ _)) by done. erewrite bind_done by reflexivity. cbn [fst]. rewrite Hh. cbn [when].
  destruct h. cbn in *. reflexivity.
Qed.

(** The program's request: [Get] or, with data, [Post]. *)
Definition request (x : X) (addr : sockaddr) (rs : list Z) (subpath : bytes) (post : option bytes) : eff (client + Http) unit :=
  match post with
  | None => client_Get getaddrinfo x addr rs subpath
  | Some data => client_Post getaddrinfo x addr rs subpath data
  end.
Definition request_bytes (c : client) (subpath : bytes) (post : option bytes) : bytes :=
  request_text (if post is Some _ then bstr "POST" else bstr "GET") subpath
    ((bstr "Accept", bstr "*/*") :: (bstr "Host", demo_host_ c) ::
     match post with Some data => [(bstr "Content-Length", to_string (Zlen data))] | None => [] end) ++ default [] post.

Lemma request_plain c x addr rs subpath post : schema_ c = bstr "http" -> IsIPv4 (demo_host_ c) = true -> all_success rs ->
  exists h rs', request x addr rs subpath post (inl c) = Done (inr h) tt /\ all_success rs' /\
    client_ h = plain_client false false (GetIpv4Sockaddr (demo_host_ c) (htons (demo_port_ c)) addr) [] rs'
                  [CConnect (GetIpv4Sockaddr (demo_host_ c) (htons (demo_port_ c)) addr)] /\
    http_stream h = request_bytes c subpath post /\ cb_ h = c <| hc_ := true |> /\ resp_ptr_ h = None.
Proof.
  intros Hs Hip Hrs. destruct (Connect_plain (demo_host_ c) (demo_port_ c) addr rs Hip Hrs) as (rs' & E & Hrs').
  set (a := GetIpv4Sockaddr _ _ _) in *.
  assert (Hn : forall m : eff Http Z, start_request getaddrinfo x addr rs m (inl c) = create c None addr rs m (inl c)).
  { intros m. unfold start_request. do 2 erewrite bind_done by reflexivity. change (self (inl c)) with c. by rewrite Hs. }
  assert (Hc : forall h : Http, client_ h = TcpClient_new None addr rs -> host_ h = demo_host_ c -> port_ h = demo_port_ c -> live h ->
    HttpClient.on_client (@tc_connect _ (demo_tcp getaddrinfo) (host_ h) (port_ h)) h = Done (h <| client_ := plain_client false false a [] rs' [CConnect a] |>) tt).
  { intros h Ec Eh Ep Hv. rewrite on_client_done by done. unfold zoom. rewrite Ec, Eh, Ep. cbn [tc_connect demo_tcp tcp_client]. rewrite E. done. }
  destruct post as [data|]; cbn [request]; unfold client_Get, client_Post; rewrite Hn; unfold create, Get, Post;
    do 2 erewrite bind_done by reflexivity; erewrite bind_done by (apply Hc; reflexivity).
  all: eexists _, rs'; split_and!; [reflexivity|done|reflexivity| |reflexivity..].
  all: rewrite http_stream_text; reflexivity.
Qed.

(** From the request to the response. *)
Lemma exchange_shown c x addr rs subpath post p ws body chunks fuel :
  schema_ c = bstr "http" -> IsIPv4 (demo_host_ c) = true -> all_success rs ->
  is_close_ p = false /\ session_ p = true /\ written_header_ p = false ->
  status_ok (proto_ p) (rversion_ p) (status_code_ p) ws -> status_ p = join (bstr " ") ws ->
  Forall header_ok (headers_ p) -> Forall (fun h => fst h <> bstr "Content-Length") (headers_ p) ->
  body <> [] -> Forall (fun c => c <> []) chunks -> concat chunks = snd (write_effect p (Some body) false) ->
  Zlen (concat chunks) < 2 ^ 30 -> Zlen (concat chunks) <= bq_slack_of (Q := Q) EXTRA_LEN_default ->
  let a := GetIpv4Sockaddr (demo_host_ c) (htons (demo_port_ c)) addr in
  exists (h0 h1 h2 : Http) rs',
    request x addr rs subpath post (inl c) = Done (inr h0) tt /\
    (uv_connected getaddrinfo 0 ;; uv_written getaddrinfo 0) h0 = Done h1 tt /\
    client_ h1 = plain_client true true a [] rs' [CConnect a; CWrite (request_bytes c subpath post); CReadStart] /\
    for_each chunks (fun d => uv_read getaddrinfo fuel (Zlen d) d) h1 = Done h2 tt /\
    client_ h2 = client_ h1 /\
    cb_ h2 = (c <| hc_ := true |>) <| shown_ ::= fun l => l ++ [(status_code_ p, concat ws, Zlen body, body)] |>.
Proof.
  intros Hs Hip Hrs Hp Hst Hsp Hhs Hnocl Hbody Hne Hchunks Hlen Hslack a.
  destruct (request_plain c x addr rs subpath post Hs Hip Hrs) as (h0 & rs0 & E0 & Hrs0 & Hc0 & Ht & Hcb & Hr0).
  fold a in Hc0. destruct (uv_connected_plain a rs0 _ h0 ltac:(by rewrite Hcb) Hc0 Hrs0) as (rs1 & E1 & Hrs1). rewrite Ht in E1.
  set (h1 := h0 <| client_ := _ |>) in E1.
  destruct (uv_written_plain a _ rs1 _ h1 ltac:(destruct h0; cbn in *; by subst) ltac:(destruct h0; reflexivity) Hrs1) as (rs2 & E2 & Hrs2).
  set (h2 := h1 <| client_ := _ |>) in E2. cbn [app] in h2.
  assert (Hc2 : client_ h2 = plain_client true true a [] rs2 [CConnect a; CWrite (request_bytes c subpath post); CReadStart]) by (destruct h0; done).
  destruct (response_fed (HTL := steady a rs2 [CConnect a; CWrite (request_bytes c subpath post); CReadStart])
    (fun d => uv_read getaddrinfo fuel (Zlen d) d) h2 p ws body chunks) as (h3 & r & E3 & Hcb3 & Hc3 & Hr); try done.
  - intros h data Hc Hd. exact (uv_read_plain fuel a rs2 _ h data Hc Hd).
  - split; [exact Hc2|]. split; [unfold live; replace (cb_ h2) with (cb_ h0) by (destruct h0; done); by rewrite Hcb|]. replace (resp_ptr_ h2) with (resp_ptr_ h0) by (destruct h0; done). by rewrite Hr0.
  - exists h0, h2, h3, rs2. split; [exact E0|]. split; [by rewrite (bind_done _ _ _ _ _ E1)|]. split; [exact Hc2|].
    split; [exact E3|]. split; [rewrite Hc2; exact Hc3|].
    rewrite Hcb3. replace (cb_ h2) with (cb_ h0) by (destruct h0; done). rewrite Hcb. cbn [given demo_callback_laws].
    destruct Hr as (R1 & R2 & _ & R4 & _ & R6). unfold shown. by rewrite R1, R2, R4, (bq_string_law _ _ R6).
Qed.

(** C32: the demo program over http fetches a page.  For a server given by its IPv4 address and with libuv's calls succeeding, whatever kind of request and however
    the response that the server's response object writes for a body that is not empty is cut into reads - a response the
    client's buffer takes without moving its contents (9840 bytes for [DataBuffer]) - : the request is sent once, the response
    is shown exactly once, with its body complete and the words of its reason phrase run together, and when the stream ends
    (or fails) the callback object closes and deletes the client inside the client's own callback, with no use of a member of
    the deleted HTTP client or TCP client afterwards. *)
Theorem page_fetched (c : client) (x : X) (addr : sockaddr) (rs : list Z)
  (subpath : bytes) (post : option bytes) (p : HttpResponse) (ws : list bytes) (body : bytes) (chunks : list bytes) (fuel : nat) (eof : Z)
  (Hs : schema_ c = bstr "http") (Hip : IsIPv4 (demo_host_ c) = true) (Hrs : all_success rs)
  (Hp : is_close_ p = false /\ session_ p = true /\ written_header_ p = false)
  (Hst : status_ok (proto_ p) (rversion_ p) (status_code_ p) ws) (Hsp : status_ p = join (bstr " ") ws)
  (Hhs : Forall header_ok (headers_ p)) (Hnocl : Forall (fun h => fst h <> bstr "Content-Length") (headers_ p))
  (Hbody : body <> []) (Hne : Forall (fun c => c <> []) chunks) (Hchunks : concat chunks = snd (write_effect p (Some body) false))
  (Hlen : Zlen (concat chunks) < 2 ^ 30) (Hslack : Zlen (concat chunks) <= bq_slack_of (Q := Q) EXTRA_LEN_default) (Heof : eof < 0) :
  let a := GetIpv4Sockaddr (demo_host_ c) (htons (demo_port_ c)) addr in
  exists (h0 h1 h2 : Http),
    request x addr rs subpath post (inl c) = Done (inr h0) tt /\
    (uv_connected getaddrinfo 0 ;; uv_written getaddrinfo 0 ;;
     for_each chunks (fun d => uv_read getaddrinfo fuel (Zlen d) d)) h0 = Done h1 tt /\
    cuv_log_ (client_ h1) = [CConnect a; CWrite (request_bytes c subpath post); CReadStart] /\
    shown_ (cb_ h1) = shown_ c ++ [(status_code_ p, concat ws, Zlen body, body)] /\
    uv_read getaddrinfo fuel eof [] h1 = Done h2 tt /\
    cuv_log_ (client_ h2) = cuv_log_ (client_ h1) ++ [CReadStop; CReadStop; CClose] /\ cfreed_ (client_ h2) = true /\
    shown_ (cb_ h2) = shown_ (cb_ h1) /\ hc_ (cb_ h2) = false.
Proof.
  destruct (exchange_shown c x addr rs subpath post p ws body chunks fuel Hs Hip Hrs Hp Hst Hsp Hhs Hnocl Hbody Hne
    Hchunks Hlen Hslack) as (h0 & h' & h1 & rs' & E0 & Ec & Hc' & E1 & Hc1 & Hcb1). intros a. fold a in Hc'. rewrite Hc' in Hc1.
  pose proof (uv_read_end fuel eof a rs' _ h1 Hc1 ltac:(by rewrite Hcb1; destruct c) Heof) as E2.
  eexists h0, h1, _. split; [exact E0|].
  split; [rewrite <- bind_assoc, (bind_done _ _ _ _ _ Ec); exact E1|]. rewrite Hc1, Hcb1. split; [reflexivity|]. split; [by destruct c|].
  split; [exact E2|]. destruct h1. cbn in Hc1, Hcb1. subst. by destruct c.
Qed.
End plain_exchange.

(** A page in two reads, on the program's own buffers. *)
Definition demo_getaddrinfo (host : bytes) (port : Z) : option sockaddr := None.
#[local] Instance witness_callback : HttpClientCallbackI client (TcpClient demo_ssl) DataBuffer := demo_callback demo_getaddrinfo.
Definition demo_page_client : client := mkClient (bstr "http") (bstr "127.0.0.1") 8080 false [].
Definition demo_page : HttpResponse := new_response <| headers_ := [(bstr "Server", bstr "co")] |>.
Definition demo_page_text : bytes := snd (write_effect demo_page (Some (bstr "hello")) false).

Lemma page_fetched_witness :
  let a := mkSockaddr AF_INET (htons 8080) [127; 0; 0; 1] in
  exists (h0 h1 h2 : HttpClient client (TcpClient demo_ssl) DataBuffer),
    request demo_getaddrinfo (mkDemoSsl [] [] []) (mkSockaddr 0 0 []) [0; 0; 0] (bstr "/index.html") None (inl demo_page_client) = Done (inr h0) tt /\
    (uv_connected demo_getaddrinfo 0 ;; uv_written demo_getaddrinfo 0 ;;
     for_each [firstn 30 demo_page_text; skipn 30 demo_page_text] (fun d => uv_read demo_getaddrinfo 1 (Zlen d) d)) h0 = Done h1 tt /\
    cuv_log_ (client_ h1) = [CConnect a; CWrite (request_bytes demo_page_client (bstr "/index.html") None); CReadStart] /\
    shown_ (cb_ h1) = [] ++ [(200, concat [bstr "OK"], Zlen (bstr "hello"), bstr "hello")] /\
    uv_read demo_getaddrinfo 1 (-4095) [] h1 = Done h2 tt /\
    cuv_log_ (client_ h2) = cuv_log_ (client_ h1) ++ [CReadStop; CReadStop; CClose] /\ cfreed_ (client_ h2) = true /\
    shown_ (cb_ h2) = shown_ (cb_ h1) /\ hc_ (cb_ h2) = false.
Proof.
  intros a. refine (page_fetched demo_getaddrinfo demo_page_client (mkDemoSsl [] [] []) (mkSockaddr 0 0 []) [0; 0; 0] (bstr "/index.html") None
    demo_page [bstr "OK"] (bstr "hello") [firstn 30 demo_page_text; skipn 30 demo_page_text] 1 (-4095)
    _ _ _ _ _ _ _ _ _ _ _ _ _ _).
  - reflexivity.
  - reflexivity.
  - repeat constructor.
  - repeat split.
  - constructor; [apply demo_word; [reflexivity|reflexivity|discriminate]..|not_in| | |discriminate].
    + vm_compute. split; congruence.
    + repeat (apply Forall_cons; split; [apply demo_word; [reflexivity|reflexivity|discriminate]|]). apply Forall_nil. exact I.
  - reflexivity.
  - repeat constructor; cbn [fst snd]; try not_in; try discriminate.
  - repeat constructor; discriminate.
  - discriminate.
  - repeat constructor; discriminate.
  - reflexivity.
  - vm_compute. reflexivity.
  - vm_compute. discriminate.
  - reflexivity.
Defined.
