(* ===== verification/HttpEndToEnd.v ===== *)
(** A request of the demo client to an HTTP session of the server and its response back: http_client.cpp on
    tcp_client.hpp, and http_session.cpp on any connection. *)
From S2P Require Import Prelude Eff StdMap StdText StringEx ByteQueue DataBuffer IpAddress TcpPub Ssl Tcp TcpClient HttpCommon HttpText HttpSession HttpServer HttpRequests HttpClient HttpClientDemo.

(** ** The request of the client, read by the server *)

Definition request_method (post : option bytes) : bytes := if post is Some _ then bstr "POST" else bstr "GET".
Definition request_headers (c : client) (post : option bytes) : headers :=
  (bstr "Accept", bstr "*/*") :: (bstr "Host", demo_host_ c) ::
  match post with Some data => [(bstr "Content-Length", to_string (Zlen data))] | None => [] end.

Lemma request_bytes_text c subpath post :
  request_bytes c subpath post = request_text (request_method post) subpath (request_headers c post) ++ default [] post.
Proof. reflexivity. Qed.

Lemma dotted_plain IP : IsIPv4 IP = true -> plain IP.
Proof.
  intros H. destruct (IsIPv4_accepts IP H) as (a & b & c & d & Ha & Hb & Hc & Hd & ->). unfold dotted, byte_ok in *.
  assert (Hn : forall n, 0 <= n < 256 -> ~ In 13 (to_string n)).
  { intros n Hn E. apply list_elem_of_In, to_string_chars in E; lia. }
  apply absent_char. intros Hin. repeat (apply in_app_iff in Hin as [Hin|[Hin|Hin]]; [by apply Hn in Hin|done|]). by apply Hn in Hin.
Qed.

Lemma client_request_ok c subpath post : IsIPv4 (demo_host_ c) = true -> word subpath ->
  0 <= fst (fst (GetUriAndParams subpath [])) -> Zlen (default [] post) < 2 ^ 31 ->
  request_ok (request_method post) subpath (request_headers c post).
Proof.
  intros Hip Hw Hu Hl. constructor; [|done|done|].
  - destruct post; (apply demo_word; [reflexivity|reflexivity|discriminate]).
  - repeat (apply Forall_cons; split).
    + split_and!; cbn [fst snd]; try not_in. discriminate.
    + split_and!; cbn [fst snd]; try not_in; [by apply dotted_plain|discriminate].
    + destruct post as [data|]; [|constructor]. apply Forall_cons. split; [|constructor].
      apply content_length_ok. cbn in Hl. pose proof (Zlen_nonneg data). lia.
Qed.

Lemma client_content_length c subpath data : Zlen data < 2 ^ 31 ->
  content_length_ (parsed (bstr "POST") subpath (request_headers c (Some data))) = Zlen data.
Proof.
  intros Hl. pose proof (Zlen_nonneg data). unfold parsed, store_headers, request_headers. cbn [fold_left].
  unfold store_header. cbn [fst snd]. change (beqb (bstr "Content-Length") (bstr "Content-Length")) with true. cbv iota.
  rewrite <- (app_nil_r (to_string (Zlen data))), atoi_to_string by (done || lia). unfold first_line_request.
  destruct (GetUriAndParams _ _) as [[? ?] ?]. done.
Qed.

(** ** The handler: it sets up its response and writes a body *)

Definition sets_up (op : resp_op) : Prop :=
  match op with RSetStatusCode _ | RSetStatus _ | RAddHeader _ _ => True | _ => False end.

Lemma respond_sets_up ops body : Forall sets_up ops -> forall p,
  let p' := fst (respond ops p) in
  respond (ops ++ [RWrite (Some body) false]) p = (fst (write_effect p' (Some body) false), snd (write_effect p' (Some body) false)) /\
  is_close_ p' = is_close_ p /\ session_ p' = session_ p /\ written_header_ p' = written_header_ p.
Proof.
  induction 1 as [|op ops Hop _ IH]; intros p.
  - cbn [app respond fst]. destruct (write_effect p (Some body) false) as [p1 o1]. cbn. by rewrite app_nil_r.
  - destruct op; try done; cbn [app respond].
    all: match goal with |- context [respond _ ?p'] => destruct (IH p') as (-> & -> & -> & ->) end; by destruct p.
Qed.

(** ** There and back *)

Section exchange.
Context {X Q T C QS : Type} {HX : OpenSsl X} {I : InetLib} {HQ : ByteQueue Q} {HQL : ByteQueueLaws Q} {HQP : ByteQueuePacked Q}
  {HQS : ByteQueueSized Q} (getaddrinfo : bytes -> Z -> option sockaddr).
Context {HT : TcpBaseSession T} {HTL : TcpBaseLaws T} {HC : HttpCallbackI C} {HQ' : ByteQueue QS} {HQL' : ByteQueueLaws QS}
  {HQP' : ByteQueuePacked QS} (handler : nat -> HttpRequest -> list resp_op).
#[local] Instance http_callback_demo : HttpClientCallbackI client (TcpClient X) Q := demo_callback getaddrinfo.

(** C9: a request and its response, from the client program through its TCP client to a session of the server and back, for a
    handler that sets status and headers and then writes one body that is not empty and not chunked, and a response that
    fits in the client's receive buffer without moving its contents; over http, to an IPv4 address, with the client's libuv
    calls succeeding.  The bytes the client gives to its connection, cut into
    reads in any way, make the session run the handler of the route once, on the parsed request with its body; the bytes the
    session has then written, cut into reads in any way, are shown by the client exactly once, with the status code and the
    body the handler has set and, for the reason phrase, its words run together: the client does not keep the blanks. *)
Theorem http_end_to_end (c : client) (x : X) (addr : sockaddr) (rs : list Z) (subpath : bytes) (post : option bytes)
  (s : HttpSession T C QS) (h : nat) (q : HttpRequest) (sets : list resp_op) (ws : list bytes) (body : bytes)
  (requests responses : list bytes) (fuel : nat)
  (Hs : schema_ c = bstr "http") (Hip : IsIPv4 (demo_host_ c) = true) (Hrs : all_success rs)
  (Hpath : word subpath) (Huri : 0 <= fst (fst (GetUriAndParams subpath [])))
  (Hw : waiting s [])
  (Hroute : hc_GetHandle (callback_ s) (parsed (request_method post) subpath (request_headers c post)) = (Some h, q))
  (Hm : method_ q = request_method post)
  (Hhandler : handler h (seen q (default [] post)) = sets ++ [RWrite (Some body) false]) (Hsets : Forall sets_up sets) :
  let p := fst (respond sets new_response) in
  status_ok (proto_ p) (rversion_ p) (status_code_ p) ws -> status_ p = join (bstr " ") ws ->
  Forall header_ok (headers_ p) -> Forall (fun h => fst h <> bstr "Content-Length") (headers_ p) -> body <> [] ->
  Forall (fun d => d <> []) (requests ++ responses) ->
  concat requests = request_bytes c subpath post -> Zlen (concat requests) < 2 ^ 30 ->
  concat responses = response_head p (Zlen body) false ++ body ->
  Zlen (concat responses) < 2 ^ 30 -> Zlen (concat responses) <= bq_slack_of (Q := Q) EXTRA_LEN_default ->
  let a := GetIpv4Sockaddr (demo_host_ c) (htons (demo_port_ c)) addr in
  exists (h0 h1 : HttpClient client (TcpClient X) Q) s' (h2 : HttpClient client (TcpClient X) Q),
    request getaddrinfo x addr rs subpath post (inl c) = Done (inr h0) tt /\
    (uv_connected getaddrinfo 0 ;; uv_written getaddrinfo 0) h0 = Done h1 tt /\
    cuv_log_ (client_ h1) = [CConnect a; CWrite (concat requests); CReadStart] /\
    for_each requests (HttpSession.OnRead handler 0) s = Done s' tt /\
    answered handler s s' (seen q (default [] post)) h /\
    written (tb_trace (session_ptr_ s')) = written (tb_trace (session_ptr_ s)) ++ concat responses /\
    for_each responses (fun d => uv_read getaddrinfo fuel (Zlen d) d) h1 = Done h2 tt /\
    shown_ (cb_ h2) = shown_ c ++ [(status_code_ p, concat ws, Zlen body, body)].
Proof.
  intros p Hst Hsp Hhs Hnocl Hbody Hne Hreq Hl1 Hresp Hl2 Hslack a. apply Forall_app in Hne as [Hne1 Hne2].
  destruct (respond_sets_up sets body Hsets new_response) as (Er & Hp1 & Hp2 & Hp3). fold p in Er, Hp1, Hp2, Hp3.
  assert (Eo : snd (write_effect p (Some body) false) = concat responses) by (rewrite Hresp; by apply write_effect_first).
  destruct (exchange_shown getaddrinfo c x addr rs subpath post p ws body responses fuel Hs Hip Hrs ltac:(done) Hst Hsp Hhs
    Hnocl Hbody Hne2 ltac:(done) Hl2 Hslack) as (h0 & h1 & h2 & rs' & E0 & E1 & Hc1 & E2 & _ & Hcb).
  assert (Hopt : request_method post <> bstr "OPTIONS") by (by destruct post).
  assert (Hb : Zlen (default [] post) < 2 ^ 31) by (rewrite Hreq, request_bytes_text, Zlen_app in Hl1; zlen).
  assert (Hcl : if decide (request_method post = bstr "GET") then default [] post = []
                else content_length_ (parsed (request_method post) subpath (request_headers c post)) = Zlen (default [] post)).
  { destruct post as [data|]; [|by rewrite decide_True]. rewrite decide_False by done. by apply client_content_length. }
  destruct (feed_head handler (request_method post) subpath (request_headers c post)
    (client_request_ok c subpath post Hip Hpath Huri Hb) (default [] post)) with (h := h) (q' := q) (c := callback_ s)
    (chunks := requests) (s := s) (pre := @nil Z) (k := request_text (request_method post) subpath (request_headers c post))
    as (s' & E & Ha); try done.
  - rewrite <- request_bytes_text, <- Hreq. exact Hl1.
  - unfold parsed. rewrite store_headers_method. unfold first_line_request. by destruct (GetUriAndParams _ _) as [[? ?] ?].
  - rewrite Hhandler. apply Forall_app. split; [|by repeat constructor]. eapply Forall_impl; [exact Hsets|]. by intros [] H.
  - unfold request_text, head_text. intros E. by apply app_nil in E as [_ E].
  - apply ran_for_each in E. exists h0, h1, s', h2. rewrite Hc1, Hcb, Hreq. split_and!; try done.
    destruct Ha as (r & _ & _ & _ & _ & _ & _ & W). apply progress_written in W. by rewrite W, Hhandler, Er, <- Eo.
Qed.
End exchange.

(** The page of the server's demo handler, for the client's own buffers. *)
#[local] Instance witness_callback : HttpClientCallbackI client (TcpClient demo_ssl) DataBuffer := demo_callback demo_getaddrinfo.
Definition hi_request : bytes := request_bytes demo_page_client (bstr "/hi") None.
Definition hi_response : bytes := response_head (new_response <| status_ := bstr "Fine" |>) 5 false ++ bstr "hello".

Lemma http_end_to_end_witness :
  let a := mkSockaddr AF_INET (htons 8080) [127; 0; 0; 1] in
  let q := seen (snd (server_GetHandle demo_server (parsed (bstr "GET") (bstr "/hi") (request_headers demo_page_client None)))) [] in
  exists (h0 h1 : HttpClient client (TcpClient demo_ssl) DataBuffer) s' (h2 : HttpClient client (TcpClient demo_ssl) DataBuffer),
    request demo_getaddrinfo (mkDemoSsl [] [] []) (mkSockaddr 0 0 []) [] (bstr "/hi") None (inl demo_page_client) = Done (inr h0) tt /\
    (uv_connected demo_getaddrinfo 0 ;; uv_written demo_getaddrinfo 0) h0 = Done h1 tt /\
    cuv_log_ (client_ h1) = [CConnect a; CWrite (concat [firstn 5 hi_request; skipn 5 hi_request]); CReadStart] /\
    for_each [firstn 5 hi_request; skipn 5 hi_request] (HttpSession.OnRead demo_handler 0) demo_session = Done s' tt /\
    answered demo_handler demo_session s' q 0 /\
    written (tb_trace (session_ptr_ s')) = written (tb_trace (session_ptr_ demo_session)) ++ concat [hi_response] /\
    for_each [hi_response] (fun d => uv_read demo_getaddrinfo 1 (Zlen d) d) h1 = Done h2 tt /\
    shown_ (cb_ h2) = [] ++ [(200, concat [bstr "Fine"], Zlen (bstr "hello"), bstr "hello")].
Proof.
  intros a q. refine (http_end_to_end demo_getaddrinfo demo_handler demo_page_client (mkDemoSsl [] [] []) (mkSockaddr 0 0 []) [] (bstr "/hi") None
    demo_session 0 _ [RSetStatus (bstr "Fine")] [bstr "Fine"] (bstr "hello") [firstn 5 hi_request; skipn 5 hi_request] [hi_response] 1
    _ _ _ _ _ _ _ _ _ _ _ _ _ _ _ _ _ _ _ _ _).
  - reflexivity.
  - reflexivity.
  - constructor.
  - apply demo_word; [reflexivity|reflexivity|discriminate].
  - vm_compute. discriminate.
  - apply demo_waiting.
  - vm_compute. reflexivity.
  - vm_compute. reflexivity.
  - reflexivity.
  - repeat constructor.
  - constructor; [apply demo_word; [reflexivity|reflexivity|discriminate]..|not_in| | |discriminate].
    + vm_compute. split; congruence.
    + repeat (apply Forall_cons; split; [apply demo_word; [reflexivity|reflexivity|discriminate]|]). apply Forall_nil. exact I.
  - reflexivity.
  - constructor.
  - constructor.
  - discriminate.
  - repeat constructor; discriminate.
  - reflexivity.
  - vm_compute. reflexivity.
  - reflexivity.
  - vm_compute. reflexivity.
  - vm_compute. discriminate.
Defined.
