(* ===== verification/WsSession.v ===== *)
(** The WebSocket server session and server
    ([src/src/net/http/websocket/websocket_session.cpp], [websocket_server.cpp],
    [websocket_pub.cpp]).

    The session collects the HTTP upgrade request, answers it, and then hands every read to the
    frame loop of [WsBase.v].  Requests on the TCP session are recorded in [out_] of the
    session's [Env], in order; a write on a connection that has been closed throws, one on a
    deleted handle is undefined.  SHA-1 is OpenSSL's: [SHA1] is a parameter.  A registered
    handler is code of the user: [on_handle] says what it does to the session (it may set the
    callback object and write frames on the connection, which is open when it is called).  [now] is the clock of the call. *)
From S2P Require Import Prelude Eff StdMap StdText StringEx Base64 ByteStream ByteQueue HttpCommon HttpText WsFrame WsBase.

Definition GUID : bytes := bstr "258EAFA5-E914-47DA-95CA-C5AB0DC85B11".

Section session.
Context {Q : Type} {HQ : ByteQueue Q}.
Context (SHA1 : bytes -> bytes) (random : nat -> Z) (on_handle : nat -> bytes -> Env -> Env).

(** [GenWebSocketHashcode] of [websocket_pub.cpp]. *)
Definition GenWebSocketHashcode (key : bytes) : bytes := Base64Encode (SHA1 (key ++ GUID)).

Record WsSession : Type := mkWsSession {
  base_ : WsBase Q;
  http_request_ready_ : bool;
  http_recv_buffer_ : Q;
  wmethod_ : bytes;
  path_ : bytes;
  wheaders_ : headers;
  sec_ws_ver_ : Z;
  sec_ws_key_ : bytes;
  sec_ws_protocol_ : bytes;
  hash_code_ : bytes;
  uri_handles_ : list (bytes * nat) }.           (* of the server *)

Abbreviation M := (eff WsSession).

Definition upd_env (f : Env -> Env) : M unit :=
  modify (fun s => s <| base_ ::= fun w => mkBase (frame_ w) (recv_buffer_vec_ w) (f (env_ w)) |>).
Definition on_base {A} (m : eff (WsBase Q) A) : M A := zoom base_ (fun s w => s <| base_ := w |>) m.
Definition on_session {A} (m : eff Env A) : M A := on_base (on_env m).

Definition Init (now : Z) : M unit :=
  on_session AsyncRead ;; upd_env (fun e => set_pong (set_connected e true) now).

Definition OnTimer (now : Z) : M unit :=
  s ← get;
  let e := env_ (base_ s) in
  if negb (is_connected_ e) then mret tt
  else if 2000 <? now - last_send_ping_ms_ e then
    upd_env (fun e => set_ping e now) ;; on_session (SendPingFrame (EP := session_endpoint) random now)
  else mret tt.

Definition ws_OnWrite (ret_code : Z) : M unit :=
  if ret_code <? 0 then upd_env (fun e => set_connected e false) else mret tt.

(** [GenHashcode]. *)
Definition GenHashcode : M bytes :=
  s ← get;
  let h := GenWebSocketHashcode (sec_ws_key_ s) in
  modify (fun s => s <| hash_code_ := h |>) ;; mret h.

Definition switching_response (hash_code : bytes) : bytes :=
  bstr "HTTP/1.1 101 Switching Protocols" ++ CRLF ++ bstr "Upgrade: websocket" ++ CRLF ++
  bstr "Connection: Upgrade" ++ CRLF ++ bstr "Sec-WebSocket-Accept: " ++ hash_code ++ CRLF ++ CRLF.

Definition SendHttpResponse : M unit := h ← GenHashcode; on_session (AsyncWrite (switching_response h)).
Definition SendErrorResponse : M unit :=
  on_session (AsyncWrite (bstr "HTTP/1.1 400 Bad Request" ++ CRLF ++ CRLF)).

Definition throw_error {A} (msg : String.string) : M A := raise (StreamExn (bstr msg)).

(** The loop over the header lines. *)
Definition ws_header_line (line : bytes) : M unit :=
  let pos := find (bstr " ") line in
  if pos =? npos then mret tt
  else
    key ← lift (substr line 0 (u64 (pos - 1)));
    value ← lift (substr_from line (pos + 1));
    modify (fun s => s <| wheaders_ ::= smap_set (String2Lower key) value |>).

(** A header that must have the given value, compared and stored in lower case. *)
Definition check_header (key : String.string) (value : String.string) (missing wrong : String.string) : M unit :=
  s ← get;
  match smap_find (bstr key) (wheaders_ s) with
  | None => throw_error missing
  | Some v =>
      modify (fun s => s <| wheaders_ ::= smap_set (bstr key) (String2Lower v) |>) ;;
      if beqb (String2Lower v) (bstr value) then mret tt else throw_error wrong
  end.

Definition OnHandleHttpRequest : M Z :=
  s ← get;
  content ← lift (bq_string (http_recv_buffer_ s));
  let pos := find (CRLF ++ CRLF) content in
  if pos =? npos then mret 1
  else
    modify (fun s => s <| http_request_ready_ := true |>) ;;
    match StringSplit (firstn (Z.to_nat pos) content) CRLF with
    | [] => throw_error "websocket http header error"
    | first :: lines =>
        match StringSplit first (bstr " ") with
        | [m; p; _] =>
            modify (fun s => s <| wmethod_ := m |> <| path_ := p |>) ;;
            match smap_find p (uri_handles_ s) with
            | None => throw_error "fail to find subpath"
            | Some callback_func =>
                modify (fun s => s <| wmethod_ ::= String2Lower |>) ;;
                for_each lines ws_header_line ;;
                check_header "connection" "upgrade"
                  "websocket http header error: Connection not exist"
                  "websocket http header error: Connection is not upgrade" ;;
                check_header "upgrade" "websocket"
                  "websocket http header error: Upgrade not exist"
                  "websocket http header error: upgrade is not websocket" ;;
                s ← get;
                ver ← lift (match smap_find (bstr "sec-websocket-version") (wheaders_ s) with
                            | Some v => atoi v | None => Ok 13 end);
                modify (fun s => s <| sec_ws_ver_ := ver |>) ;;
                match smap_find (bstr "sec-websocket-key") (wheaders_ s) with
                | None => throw_error "websocket http header error: Sec-WebSocket-Key not exist"
                | Some k =>
                    modify (fun s => s <| sec_ws_key_ := k |>) ;;
                    match smap_find (bstr "sec-webSocket-protocol") (wheaders_ s) with
                    | Some v => modify (fun s => s <| sec_ws_protocol_ := v |>)
                    | None => mret tt
                    end ;;
                    upd_env (on_handle callback_func p) ;;
                    mret 0
                end
            end
        | _ => throw_error "websocket http header error"
        end
    end.

(** The frame loop on the session's base object. *)
Definition run_frames (now : Z) (data : bytes) : M Z := on_base (HandleFrame (EP := session_endpoint) random now data).

Definition OnRead (now ret_code : Z) (data : bytes) : M unit :=
  if ret_code <? 0 then upd_env (fun e => set_connected e false)
  else
    s ← get;
    if negb (http_request_ready_ s) then
      b ← lift (bq_append (http_recv_buffer_ s) data);
      modify (fun s => s <| http_recv_buffer_ := b |>) ;;
      try_catch (
        ret ← OnHandleHttpRequest;
        if ret =? 1 then on_session AsyncRead
        else if ret =? 0 then
          SendHttpResponse ;; modify (fun s => s <| http_recv_buffer_ ::= bq_reset |>) ;; on_session AsyncRead
        else SendErrorResponse)
        (fun _ => upd_env (fun e => set_connected e false))
    else
      recv_data ← lift (bq_new (Zlen data));
      recv_data ← lift (bq_append recv_data data);
      d ← lift (bq_string recv_data);
      run_frames now d ;; on_session AsyncRead.

(** ** The server *)

Record WebSocketServer : Type := mkWsServer {
  server_handles_ : list (bytes * nat);
  sessions_ : list (bytes * WsSession) }.

Definition AddHandle (s : WebSocketServer) (uri : bytes) (handle_ptr : nat) : WebSocketServer :=
  s <| server_handles_ ::= smap_set uri handle_ptr |>.
Definition GetHandle (s : WebSocketServer) (uri : bytes) : option nat := smap_find uri (server_handles_ s).
(** Stores the accepted session under its remote address; an older session is destroyed. *)
Definition ws_OnAccept (s : WebSocketServer) (ret_code : Z) (address : bytes) (session : WsSession) : WebSocketServer :=
  if ret_code <? 0 then s else s <| sessions_ ::= smap_set address session |>.
(** Sessions without a pong for more than 15 seconds are destroyed. *)
Definition expired (now : Z) (session : WsSession) : bool :=
  15 * 1000 <? now - last_recv_pong_ms_ (env_ (base_ session)).
Definition server_OnTimer (now : Z) (s : WebSocketServer) : WebSocketServer :=
  s <| sessions_ ::= List.filter (fun e => negb (expired now (snd e))) |>.
End session.
Arguments WsSession Q : clear implicits.
Arguments WebSocketServer Q : clear implicits.

(** ** Every request is accepted, left incomplete or rejected by an exception *)

Section theorems.
Context {Q : Type} {HQ : ByteQueue Q}.
Context (SHA1 : bytes -> bytes) (random : nat -> Z) (on_handle : nat -> bytes -> Env -> Env).
Implicit Types s : WsSession Q.

(** What a virtual call, a read or a write does to the session. *)
Definition with_env s (f : Env -> Env) : WsSession Q :=
  s <| base_ ::= fun w => mkBase (frame_ w) (recv_buffer_vec_ w) (f (env_ w)) |>.
Lemma on_session_env_done {A} (m : eff Env A) s e' (a : A) : m (env_ (base_ s)) = Done e' a ->
  on_session m s = Done (with_env s (fun _ => e')) a.
Proof. intros E. unfold on_session, on_base, on_env, zoom. rewrite E. by destruct s. Qed.
Lemma read_open s : is_open (env_ (base_ s)) = true -> on_session AsyncRead s = Done (with_env s (fun e => emit e [TcpRead])) tt.
Proof.
  intros Ho. erewrite on_session_env_done; [by destruct s|]. unfold AsyncRead. erewrite bind_done by reflexivity. by rewrite Ho.
Qed.
Lemma write_open d s : is_open (env_ (base_ s)) = true -> on_session (AsyncWrite d) s = Done (with_env s (fun e => emit e [TcpWrite d])) tt.
Proof. intros Ho. erewrite on_session_env_done by (by apply AsyncWrite_open). by destruct s. Qed.
Lemma with_env_env s f : env_ (base_ (with_env s f)) = f (env_ (base_ s)).
Proof. by destruct s. Qed.

(** All values a computation can return. *)
Definition returns {A} (P : A -> Prop) (m : eff (WsSession Q) A) : Prop := forall s s' a, m s = Done s' a -> P a.

Lemma returns_bind {A B} (P : B -> Prop) (m : eff (WsSession Q) A) (f : A -> eff (WsSession Q) B) :
  (forall a, returns P (f a)) -> returns P (m ≫= f).
Proof.
  intros H s s' b. unfold mbind, eff_bind. destruct (m s) as [s1 a| |] eqn:E; [|done..]. apply H.
Qed.
Lemma returns_ret {A} (P : A -> Prop) (a : A) : P a -> returns P (mret a).
Proof. intros Ha s s' b H. injection H as _ <-. done. Qed.
Lemma returns_raise {A} (P : A -> Prop) msg : returns P (throw_error (A := A) msg).
Proof. intros s s' b H. discriminate H. Qed.

Lemma OnHandleHttpRequest_returns : returns (fun r => r = 0 \/ r = 1) (OnHandleHttpRequest on_handle).
Proof.
  unfold OnHandleHttpRequest.
  repeat first [apply returns_bind; intros ?|apply returns_raise|apply returns_ret; tauto|case_match].
Qed.

(** Computations that write nothing, and computations that write nothing when they throw. *)
Definition quiet s s' : Prop :=
  out_ (env_ (base_ s')) = out_ (env_ (base_ s)) /\ http_request_ready_ s' = http_request_ready_ s.
Definition keeps {A} (m : eff (WsSession Q) A) : Prop := forall s,
  match m s with Done s' _ => quiet s s' | Raised s' _ => quiet s s' | Stuck => True end.
Definition throws_quietly {A} (m : eff (WsSession Q) A) : Prop := forall s s' e, m s = Raised s' e -> quiet s s'.

Lemma quiet_trans s1 s2 s3 : quiet s1 s2 -> quiet s2 s3 -> quiet s1 s3.
Proof. unfold quiet. intros [? ?] [? ?]. split; congruence. Qed.
Lemma keeps_bind {A B} (m : eff (WsSession Q) A) (f : A -> eff (WsSession Q) B) :
  keeps m -> (forall a, keeps (f a)) -> keeps (m ≫= f).
Proof.
  intros Hm Hf s. specialize (Hm s). unfold mbind, eff_bind. destruct (m s) as [s1 a|s1 e|]; [|done..].
  specialize (Hf a s1). destruct (f a s1); try done; eapply quiet_trans; done.
Qed.
Lemma throws_bind {A B} (m : eff (WsSession Q) A) (f : A -> eff (WsSession Q) B) :
  keeps m -> (forall a, throws_quietly (f a)) -> throws_quietly (m ≫= f).
Proof.
  intros Hm Hf s s' e. specialize (Hm s). unfold mbind, eff_bind. destruct (m s) as [s1 a|s1 e1|]; [| |done].
  - intros H. eapply quiet_trans; [exact Hm|]. eapply Hf. exact H.
  - intros [= <- <-]. exact Hm.
Qed.
Lemma keeps_ret {A} (a : A) : keeps (mret a).
Proof. intros s. done. Qed.
Lemma keeps_get : keeps get.
Proof. intros s. done. Qed.
Lemma keeps_raise {A} msg : keeps (throw_error (A := A) msg).
Proof. intros s. done. Qed.
Lemma keeps_lift {A} (r : res A) : keeps (lift r).
Proof. intros s. unfold lift. destruct r; done. Qed.
Lemma keeps_modify f : (forall s, quiet s (f s)) -> keeps (modify f).
Proof. intros H s. apply H. Qed.
Lemma keeps_throws {A} (m : eff (WsSession Q) A) : keeps m -> throws_quietly m.
Proof. intros H s s' e E. specialize (H s). rewrite E in H. exact H. Qed.
Lemma throws_upd_env f : throws_quietly (upd_env f).
Proof. intros s s' e E. discriminate E. Qed.
Lemma keeps_for_each {A} (l : list A) f : (forall x, keeps (f x)) -> keeps (for_each l f).
Proof. intros H. induction l as [|x l IH]; [apply keeps_ret|]. apply keeps_bind; auto. Qed.

Lemma keeps_header line : keeps (ws_header_line line).
Proof.
  unfold ws_header_line. case_match; [apply keeps_ret|].
  repeat (apply keeps_bind; [apply keeps_lift|intros ?]). apply keeps_modify. intros []; done.
Qed.
Lemma keeps_check a b c d : keeps (check_header a b c d).
Proof.
  unfold check_header. apply keeps_bind; [apply keeps_get|intros x]. case_match; [|apply keeps_raise].
  apply keeps_bind; [apply keeps_modify; intros []; done|intros _]. case_match; [apply keeps_ret|apply keeps_raise].
Qed.

(** A malformed upgrade request never gets an answer: the error response is sent for a
    result that [OnHandleHttpRequest] never returns.  The read of a request that is rejected
    writes nothing and does not close the connection, and the session takes the next bytes for
    WebSocket frames. *)
Lemma rejected_request_unanswered s s1 s2 (now : Z) (data content : bytes) (b : Q) (e : exn)
  (Hready : http_request_ready_ s = false)
  (Happ : bq_append (http_recv_buffer_ s) data = Ok b) (Hstr : bq_string b = Ok content)
  (Hs1 : s1 = s <| http_recv_buffer_ := b |>)
  (Hrej : OnHandleHttpRequest on_handle s1 = Raised s2 e) :
  OnRead SHA1 random on_handle now 0 data s =
    Done (s2 <| base_ ::= fun w => mkBase (frame_ w) (recv_buffer_vec_ w) (set_connected (env_ w) false) |>) tt /\
  (forall s3 s4 r, OnHandleHttpRequest on_handle s3 = Done s4 r -> r = 0 \/ r = 1) /\
  out_ (env_ (base_ s2)) = out_ (env_ (base_ s)) /\ http_request_ready_ s2 = true.
Proof.
  split; [|split].
  - unfold OnRead. change (0 <? 0) with false. cbv iota. erewrite bind_done by reflexivity. rewrite Hready. cbn [negb].
    rewrite Happ. erewrite bind_done by reflexivity. erewrite bind_done by reflexivity. rewrite <- Hs1.
    unfold try_catch. rewrite (bind_raised _ _ _ _ _ Hrej). done.
  - intros s3 s4 r H. eapply OnHandleHttpRequest_returns. exact H.
  - unfold OnHandleHttpRequest in Hrej. erewrite bind_done in Hrej by reflexivity.
    replace (http_recv_buffer_ s1) with b in Hrej by (subst; destruct s; done). rewrite Hstr in Hrej.
    erewrite bind_done in Hrej by reflexivity. destruct (_ =? npos); [discriminate|].
    erewrite bind_done in Hrej by reflexivity. set (sr := s1 <| http_request_ready_ := true |>) in Hrej.
    assert (Hq : quiet sr s2).
    { revert Hrej. match goal with |- ?m sr = _ -> _ => assert (Ht : throws_quietly m) end; [|apply Ht].
      repeat first [case_match | apply keeps_throws, keeps_raise
        | apply throws_bind; [solve [apply keeps_get | apply keeps_modify; intros []; done | apply keeps_check
            | apply keeps_for_each; intros; apply keeps_header | apply keeps_lift | apply keeps_ret]|intros ?]
        | apply throws_upd_env ].
      all: try (intros s3 s4 e4 E4; discriminate E4).
      }
    destruct Hq as [Hq1 Hq2]. split; [rewrite Hq1|rewrite Hq2]; subst; destruct s; done.
Qed.

(** ** A well-formed upgrade request *)

(** A header the session reads back: the name ends at the first blank, less one character. *)
Definition ws_header_ok (h : bytes * bytes) : Prop := header_ok h /\ absent (bstr " ") (fst h).
Definition store_ws_header (m : headers) (h : bytes * bytes) : headers :=
  smap_set (String2Lower (fst h)) (snd h) m.

Lemma ws_header_line_done s h : ws_header_ok h -> Zlen (header_line h) < npos ->
  ws_header_line (header_line h) s = Done (s <| wheaders_ ::= fun m => store_ws_header m h |>) tt.
Proof.
  intros [_ Hb] Hl. unfold ws_header_line, header_line in *.
  assert (E : fst h ++ bstr ": " ++ snd h = (fst h ++ bstr ":") ++ bstr " " ++ snd h) by (rewrite <- app_assoc; done).
  rewrite E in *. assert (Hab : absent (bstr " ") (fst h ++ bstr ":")).
  { apply (absent_char_app 32). split; [done|]. apply absent_char. cbn. lia. }
  rewrite (find_first (bstr " ")) by (done || (apply first_at_char; done)).
  rewrite !Zlen_app in Hl. rewrite !Zlen_app. change (Zlen (bstr ":")) with 1 in *. change (Zlen (bstr " ")) with 1 in *.
  pose proof (Zlen_nonneg (fst h)). pose proof (Zlen_nonneg (snd h)). unfold npos in Hl.
  rewrite (proj2 (Z.eqb_neq _ _)) by (unfold npos; lia).
  rewrite u64_small by lia. replace (Zlen (fst h) + 1 - 1) with (Zlen (fst h)) by lia.
  unfold substr_from, substr. rewrite !Zlen_app. change (Zlen (bstr ":")) with 1. change (Zlen (bstr " ")) with 1.
  rewrite !(proj2 (Z.leb_le _ _)) by lia. rewrite !Z.min_l by lia. change (Z.to_nat 0) with 0%nat.
  rewrite drop_0, <- app_assoc, firstn_Zlen_app by done. erewrite bind_done by reflexivity.
  rewrite app_assoc, (app_assoc _ (bstr " ")), skipn_Zlen_app by (rewrite !Zlen_app; done).
  rewrite firstn_all2 by (unfold Zlen in *; lia). erewrite bind_done by reflexivity. done.
Qed.

Lemma ws_headers_done hs : forall s, Forall ws_header_ok hs -> Forall (fun h => Zlen (header_line h) < npos) hs ->
  for_each (map header_line hs) ws_header_line s = Done (s <| wheaders_ ::= fun m => fold_left store_ws_header hs m |>) tt.
Proof.
  induction hs as [|h hs IH]; intros s Hok Hl; [cbn; destruct s; done|].
  apply Forall_cons in Hok as [Hh Hok]. apply Forall_cons in Hl as [Hlh Hl]. cbn [map for_each].
  rewrite (bind_done _ _ _ _ _ (ws_header_line_done s h Hh Hlh)), IH by done. destruct s; done.
Qed.

(** The headers that make a request acceptable. *)
Record upgrade_headers (m : headers) (key : bytes) : Prop := {
  uh_connection : exists v, smap_find (bstr "connection") m = Some v /\ String2Lower v = bstr "upgrade";
  uh_upgrade : exists v, smap_find (bstr "upgrade") m = Some v /\ String2Lower v = bstr "websocket";
  uh_version : forall v, smap_find (bstr "sec-websocket-version") m = Some v -> exists n, atoi v = Ok n;
  uh_key : smap_find (bstr "sec-websocket-key") m = Some key }.

Lemma check_header_done s key value e1 e2 v : smap_find (bstr key) (wheaders_ s) = Some v ->
  String2Lower v = bstr value ->
  check_header key value e1 e2 s = Done (s <| wheaders_ ::= smap_set (bstr key) (String2Lower v) |>) tt.
Proof.
  intros Hf Hv. unfold check_header. erewrite bind_done by reflexivity. rewrite Hf.
  erewrite bind_done by reflexivity. rewrite Hv, beqb_refl. done.
Qed.

(** [OnHandleHttpRequest] on a complete, acceptable request. *)
Lemma OnHandleHttpRequest_done s m path w hs key h rest : word m -> word path -> word w ->
  bq_string (http_recv_buffer_ s) = Ok (head_text (join (bstr " ") [m; path; w] :: map header_line hs) ++ rest) ->
  Zlen (head_text (join (bstr " ") [m; path; w] :: map header_line hs) ++ rest) < npos ->
  Forall ws_header_ok hs -> upgrade_headers (fold_left store_ws_header hs (wheaders_ s)) key ->
  smap_find path (uri_handles_ s) = Some h ->
  exists s', OnHandleHttpRequest on_handle s = Done s' 0 /\ http_request_ready_ s' = true /\
    sec_ws_key_ s' = key /\ env_ (base_ s') = on_handle h path (env_ (base_ s)) /\
    frame_ (base_ s') = frame_ (base_ s) /\ recv_buffer_vec_ (base_ s') = recv_buffer_vec_ (base_ s) /\
    http_recv_buffer_ s' = http_recv_buffer_ s.
Proof.
  intros Hm Hp Hw Hstr Hl Hhs [(vc & Hc & Evc) (vu & Hu & Evu) Hv Hk] Hh.
  assert (Hwl : Forall word [m; path; w]) by (repeat constructor; try apply Hm; try apply Hp; apply Hw).
  set (line := join (bstr " ") [m; path; w]) in *. set (ls := map header_line hs) in *.
  assert (Hlok : Forall line_ok (line :: ls)).
  { constructor; [apply words_line; done|]. apply Forall_map. eapply Forall_impl; [exact Hhs|].
    intros x [Hx _]. apply header_line_ok. done. }
  assert (Hj : Zlen (join CRLF (line :: ls)) < npos).
  { unfold head_text in Hl. rewrite !Zlen_app in Hl. change (Zlen CRLF) with 2 in Hl. pose proof (Zlen_nonneg rest). lia. }
  assert (Hin : forall x, In x (line :: ls) -> Zlen x < npos) by (intros x Hx; apply (join_in_len CRLF) in Hx; lia).
  unfold OnHandleHttpRequest. erewrite bind_done by reflexivity. rewrite Hstr. erewrite bind_done by reflexivity.
  rewrite (head_find (line :: ls) rest Hlok ltac:(done) Hl).
  rewrite (proj2 (Z.eqb_neq _ _)) by lia. erewrite bind_done by reflexivity.
  unfold head_text at 1. rewrite <- app_assoc, firstn_Zlen_app by done. rewrite head_split by done.
  unfold line at 1. rewrite words_split; [|done|done|apply Hin; left; done].
  erewrite bind_done by reflexivity. rewrite Hh. erewrite bind_done by reflexivity.
  erewrite bind_done.
  2: { apply ws_headers_done; [done|]. apply List.Forall_forall. intros x Hx. apply Hin. right. apply in_map. done. }
  set (mh := fold_left store_ws_header hs (wheaders_ s)) in *.
  erewrite bind_done; [|apply check_header_done with (v := vc); [destruct s; exact Hc|done]].
  assert (Hne : forall a b : String.string, beqb (bstr a) (bstr b) = false -> forall v, smap_find (bstr a) (smap_set (bstr b) v mh) = smap_find (bstr a) mh)
    by (intros a b E v; rewrite smap_find_set, E; done).
  erewrite bind_done; [|apply check_header_done with (v := vu); [destruct s; cbn [wheaders_ apply_update]; exact (eq_trans (Hne "upgrade"%string "connection"%string eq_refl _) Hu)|done]].
  erewrite bind_done by reflexivity.
  set (m2 := smap_set (bstr "upgrade") (String2Lower vu) (smap_set (bstr "connection") (String2Lower vc) mh)).
  assert (Hm2 : forall a, beqb (bstr a) (bstr "upgrade") = false -> beqb (bstr a) (bstr "connection") = false ->
    smap_find (bstr a) m2 = smap_find (bstr a) mh) by (intros a E1 E2; unfold m2; rewrite !smap_find_set, E1, E2; done).
  match goal with |- context [wheaders_ ?x] => replace (wheaders_ x) with m2 by (destruct s; done) end.
  rewrite !Hm2 by reflexivity.
  assert (Hver : exists n, match smap_find (bstr "sec-websocket-version") mh with Some v => atoi v | None => Ok 13 end = Ok n).
  { destruct (smap_find (bstr "sec-websocket-version") mh) as [v|] eqn:E; [apply Hv; done|eauto]. }
  destruct Hver as [n ->]. erewrite bind_done by reflexivity. erewrite bind_done by reflexivity. rewrite Hk.
  erewrite bind_done by reflexivity.
  destruct (smap_find (bstr "sec-webSocket-protocol") mh); (erewrite bind_done by reflexivity);
    (erewrite bind_done by reflexivity); (eexists; split; [reflexivity|]; destruct s as [[] ]; cbn; done).
Qed.
End theorems.

Definition reject_session : WsSession bytes :=
  mkWsSession (mkBase (mkFrame [] 0 0 0 false false false [0; 0; 0; 0]) [] initial_env) false [] [] [] [] 0 [] [] [] [].
Definition reject_data : bytes := bstr "GET /none HTTP/1.1" ++ CRLF ++ CRLF.
Definition rejected_state : WsSession bytes :=
  mkWsSession (mkBase (mkFrame [] 0 0 0 false false false [0; 0; 0; 0]) [] initial_env) true reject_data (bstr "GET")
    (bstr "/none") [] 0 [] [] [] [].

Lemma rejected_request_unanswered_witness :
  OnRead (fun x => x) (fun _ => 0) (fun _ _ e => e) 0 0 reject_data reject_session =
    Done (rejected_state <| base_ ::= fun w => mkBase (frame_ w) (recv_buffer_vec_ w) (set_connected (env_ w) false) |>) tt /\
  (forall (s3 s4 : WsSession bytes) r, OnHandleHttpRequest (fun _ _ e => e) s3 = Done s4 r -> r = 0 \/ r = 1) /\
  out_ (env_ (base_ rejected_state)) = out_ (env_ (base_ reject_session)) /\ http_request_ready_ rejected_state = true.
Proof.
  apply (rejected_request_unanswered (fun x => x) (fun _ => 0) (fun _ _ e => e) reject_session
    (reject_session <| http_recv_buffer_ := reject_data |>) rejected_state 0 reject_data reject_data reject_data
    (StreamExn (bstr "fail to find subpath"))); try reflexivity.
Defined.
