(* ===== verification/WsClient.v ===== *)
(** The WebSocket client ([src/src/net/http/websocket/websocket_client.cpp]) and the opening
    handshake between it and the server session.

    The client is the callback object of an [HttpClient]: [ws_callback] is its instance of
    [HttpClientCallbackI].  What the client does is recorded in [out_] of its [Env]; the writes
    and closes it asks of the TCP client are passed on to it in the same order
    ([flush_tcp]). *)
From S2P Require Import Prelude Eff StdMap StdText StringEx Base64 ByteStream ByteQueue TcpPub HttpCommon HttpText HttpRequests HttpClient WsFrame WsBase WsSession.

Definition WebSocket_Key_Len : Z := 16.
Definition Websocket_Response_Code : Z := 101.
Definition kWebSocketPongTimeout : Z := 15 * 1000.

Section client.
Context {Q T : Type} {HQ : ByteQueue Q} {HTC : TcpClientI T}.
Context (SHA1 : bytes -> bytes) (random : nat -> Z) (now : Z).

Record WsClient : Type := mkWsClient {
  wbase_ : WsBase Q;
  key_ : bytes;
  http_ready_ : bool }.

Abbreviation M := (eff WsClient).

Definition cl_upd_env (f : Env -> Env) : M unit :=
  modify (fun s => s <| wbase_ ::= fun w => mkBase (frame_ w) (recv_buffer_vec_ w) (f (env_ w)) |>).

Definition cl_base {A} (m : eff (WsBase Q) A) : M A := zoom wbase_ (fun s w => s <| wbase_ := w |>) m.
Definition cl_env {A} (m : eff Env A) : M A := cl_base (on_env m).

(** [AsyncConnect]: the headers passed to [HttpClient::Get], in the order of the map. *)
Definition connect_headers (key : bytes) : headers :=
  smap_set (bstr "Sec-WebSocket-Version") (to_string 13)
    (smap_set (bstr "Sec-WebSocket-Key") (Base64Encode (firstn (Z.to_nat WebSocket_Key_Len) key))
      (smap_set (bstr "Connection") (bstr "Upgrade")
        (smap_set (bstr "Upgrade") (bstr "websocket") []))).

Definition client_OnTimer : M unit :=
  s ← get;
  if negb (is_connected_ (env_ (wbase_ s))) then mret tt
  else
    when (2000 <? now - last_send_ping_ms_ (env_ (wbase_ s))) (
      cl_upd_env (fun e => set_ping e now) ;; cl_env (SendPingFrame (EP := client_endpoint) random now)) ;;
    s ← get;
    let pong := last_recv_pong_ms_ (env_ (wbase_ s)) in
    if pong <=? 0 then cl_upd_env (fun e => set_pong e now)
    else when (kWebSocketPongTimeout <? now - pong) (
      cl_upd_env (fun e => set_connected e false) ;; cl_env (tcp_Close HandleStopped) ;;
      cl_upd_env (fun e => emit e [OnClose (-1) (bstr "ping/pong timeout")])).

(** The text collected in [ss] before the checks; [ss.clear()] does not remove it. *)
Definition headers_dump (hs : headers) : bytes :=
  bstr "{" ++ concat (map (fun h => bstr " " ++ fst h ++ bstr ":" ++ snd h) hs) ++ bstr "}".

Definition reject (desc : bytes) : M unit :=
  cl_upd_env (fun e => emit (set_connected e false) [OnClose (-1) desc]).

(** [headers_[key]] inserts an empty value for a missing key; the response object is returned. *)
Definition HandleHttpRespone (r : HttpClientResponse Q) : M (HttpClientResponse Q) :=
  s ← get;
  let ss := headers_dump (rheaders_ r) in
  if negb (rstatus_code_ r =? Websocket_Response_Code) then
    reject (ss ++ bstr "websocket http response code error:" ++ to_string_int (rstatus_code_ r)) ;; mret r
  else
    let '(connection_desc, hs) := smap_index (bstr "Connection") (rheaders_ r) in
    let r := r <| rheaders_ := hs |> in
    if negb (beqb connection_desc (bstr "Upgrade")) then
      reject (ss ++ bstr "websocket http response Connection error:" ++ connection_desc) ;; mret r
    else
      let '(upgrade_desc, hs) := smap_index (bstr "Upgrade") (rheaders_ r) in
      let r := r <| rheaders_ := hs |> in
      if negb (beqb upgrade_desc (bstr "websocket")) then
        reject (ss ++ bstr "websocket http response Upgrade error:" ++ connection_desc) ;; mret r
      else
        let hash_code := GenWebSocketHashcode SHA1 (Base64Encode (key_ s)) in
        let '(accept_hash, hs) := smap_index (bstr "Sec-WebSocket-Accept") (rheaders_ r) in
        let r := r <| rheaders_ := hs |> in
        if negb (beqb hash_code accept_hash) then
          reject (ss ++ bstr "websocket http response Sec-WebSocket-Accept error, response:" ++ accept_hash ++
                  bstr ", local hash:" ++ hash_code) ;; mret r
        else
          cl_upd_env (fun e => set_connected (emit e [OnConnection]) true) ;;
          modify (fun s => s <| http_ready_ := true |>) ;;
          mret (r <| data_ ::= bq_reset |>).

Definition client_frames (d : bytes) : M Z := cl_base (HandleFrame (EP := client_endpoint) random now d).

(** [OnHttpRead]; a null response is dereferenced only on success. *)
Definition client_OnHttpRead (ret : Z) (resp : option (HttpClientResponse Q)) : M (option (HttpClientResponse Q)) :=
  if ret <? 0 then reject (bstr "http read error") ;; mret resp
  else
    s ← get;
    r ← deref resp;
    if negb (http_ready_ s) then r ← HandleHttpRespone r; mret (Some r)
    else
      d ← lift (bq_string (data_ r));
      client_frames d ;;
      mret (Some (r <| data_ ::= bq_reset |>)).

(** The TCP requests among the recorded actions. *)
Definition tcp_do (a : ws_action) : eff T unit :=
  match a with
  | TcpWrite d => tc_send d
  | TcpClose => tc_close
  | _ => mret tt
  end.
Definition flush_tcp (old new : list ws_action) : eff T unit := for_each (skipn (length old) new) tcp_do.

(** The client as the callback object of its HTTP client. *)
Definition ws_OnHttpRead (ret : Z) (resp : option (HttpClientResponse Q)) :
  eff (WsClient * T) (option (HttpClientResponse Q)) := fun '(c, t) =>
  match client_OnHttpRead ret resp c with
  | Done c' r =>
      match flush_tcp (out_ (env_ (wbase_ c))) (out_ (env_ (wbase_ c'))) t with
      | Done t' _ => Done (c', t') r
      | Raised t' e => Raised (c', t') e
      | Stuck => Stuck
      end
  | Raised c' e => Raised (c', t) e
  | Stuck => Stuck
  end.
#[local] Instance ws_callback : HttpClientCallbackI WsClient T Q := { OnHttpRead := ws_OnHttpRead; deleted _ := false }.

(** [AsyncConnect] on the HTTP client whose callback this is. *)
Definition AsyncConnect (subpath : bytes) : eff (HttpClient WsClient T Q) Z :=
  s ← get; Get subpath (connect_headers (key_ (cb_ s))).
End client.
Arguments WsClient Q : clear implicits.
