(* ===== verification/WsHandshake.v ===== *)
(** The WebSocket opening handshake, from the client's request to the server's answer and back.

    [server_reads] describes the session fed with an acceptable request in arbitrary portions,
    [client_reads] the client fed with the answer; the theorems put them together.  The TCP
    connection of the client is the in-memory one of [HttpClient.v]. *)
From S2P Require Import Prelude Eff StdMap StdText StringEx Base64 ByteStream ByteQueue TcpPub HttpCommon HttpText HttpRequests WsFrame WsBase HttpClient WsSession WsClient.

(** ** Base64 text is a word *)

Definition b64_text (l : bytes) : Prop := Forall (fun c => is_base64 c || (c =? 61) = true) l.

Lemma b64_char_text k : sextet k -> is_base64 (b64_char k) || (b64_char k =? 61) = true.
Proof. intros H. apply b64_char_ok in H as [_ H]. apply andb_true_iff in H as [_ ->]. done. Qed.

Lemma Base64Encode_text l : bytes_ok l -> b64_text (Base64Encode l).
Proof.
  rewrite Base64Encode_spec. assert (B0 : byte_ok 0) by (unfold byte_ok; lia).
  induction l as [|a|a b|a b c l IH] using three_ind; intros H; [apply Forall_nil; done|..].
  - inv H as [|? ? Ha _]. destruct (sextets a 0 0 Ha B0 B0) as (S0 & S1 & _).
    repeat (apply Forall_cons; split; [by first [apply b64_char_text|reflexivity]|]). apply Forall_nil. done.
  - inv H as [|? ? Ha H1]. inv H1 as [|? ? Hb _]. destruct (sextets a b 0 Ha Hb B0) as (S0 & S1 & S2 & _).
    repeat (apply Forall_cons; split; [by first [apply b64_char_text|reflexivity]|]). apply Forall_nil. done.
  - inv H as [|? ? Ha H1]. inv H1 as [|? ? Hb H2]. inv H2 as [|? ? Hc H3].
    destruct (sextets a b c Ha Hb Hc) as (S0 & S1 & S2 & S3).
    repeat (apply Forall_cons; split; [by apply b64_char_text|]). apply IH. done.
Qed.

Lemma b64_plain l : b64_text l -> plain l.
Proof.
  intros H. apply (absent_char 13). intros Hin. apply (proj1 (List.Forall_forall _ _) H 13) in Hin. done.
Qed.

(** ** The server's side *)

Section server.
Context {Q : Type} {HQ : ByteQueue Q} {HQL : ByteQueueLaws Q} {HQP : ByteQueuePacked Q}.
Context (SHA1 : bytes -> bytes) (random : nat -> Z) (on_handle : nat -> bytes -> Env -> Env) (now : Z).
Implicit Types s : WsSession Q.

(** Waiting for the rest of the request. *)
Definition sw_waiting s (pre : bytes) : Prop :=
  http_request_ready_ s = false /\ bq_rep (http_recv_buffer_ s) pre /\ bq_packed (http_recv_buffer_ s) /\
  is_open (env_ (base_ s)) = true.

(** The body of [OnRead] after the data has been appended. *)
Definition answer : eff (WsSession Q) unit :=
  ret ← OnHandleHttpRequest on_handle;
  if ret =? 1 then on_session AsyncRead
  else if ret =? 0 then
    SendHttpResponse SHA1 ;; modify (fun s => s <| http_recv_buffer_ ::= bq_reset |>) ;; on_session AsyncRead
  else SendErrorResponse.

Lemma OnRead_append s pre data : sw_waiting s pre -> Zlen pre + Zlen data < 2 ^ 30 ->
  exists b, bq_rep b (pre ++ data) /\ bq_packed b /\
    OnRead SHA1 random on_handle now 0 data s =
    try_catch answer (fun _ => upd_env (fun e => set_connected e false)) (s <| http_recv_buffer_ := b |>).
Proof.
  intros (Hr & Hb & Hp & _) Hl. destruct (bq_packed_append _ _ data Hb Hp Hl) as (b & E & Hb' & Hp').
  exists b. split; [done|]. split; [done|]. unfold OnRead. change (0 <? 0) with false. cbv iota.
  erewrite bind_done by reflexivity. rewrite Hr. cbn [negb]. rewrite E.
  erewrite bind_done by reflexivity. erewrite bind_done by reflexivity. done.
Qed.

Lemma OnRead_more s pre data lines k : sw_waiting s pre -> Forall line_ok lines -> lines <> [] -> k <> [] ->
  (pre ++ data) ++ k = head_text lines -> Zlen (head_text lines) < 2 ^ 30 ->
  exists b, OnRead SHA1 random on_handle now 0 data s =
      Done (with_env (s <| http_recv_buffer_ := b |>) (fun e => emit e [TcpRead])) tt /\
    bq_rep b (pre ++ data) /\ bq_packed b.
Proof.
  intros Hw Hok Hn Hk E Hl. assert (Hl' : Zlen pre + Zlen data < 2 ^ 30).
  { rewrite <- E, !Zlen_app in Hl. pose proof (Zlen_nonneg k). lia. }
  destruct (OnRead_append s pre data Hw Hl') as (b & Hb & Hp & ->). exists b. split; [|done].
  unfold try_catch. set (s1 := s <| http_recv_buffer_ := b |>).
  assert (Ew : OnHandleHttpRequest on_handle s1 = Done s1 1).
  { unfold OnHandleHttpRequest. erewrite bind_done by reflexivity.
    replace (http_recv_buffer_ s1) with b by (destruct s; done). rewrite (bq_string_law _ _ Hb).
    erewrite bind_done by reflexivity.
    rewrite (head_incomplete lines (pre ++ data) k) by (done || (unfold npos; lia)). done. }
  unfold answer. rewrite (bind_done _ _ _ _ _ Ew). change (1 =? 1) with true. cbv iota.
  rewrite read_open; [done|]. unfold s1. destruct Hw as (_ & _ & _ & Ho). by destruct s.
Qed.

(** A request the server accepts: its target has a handler, its headers ask for the upgrade. *)
Record acceptable s (path key : bytes) (hs : headers) (h : nat) : Prop := {
  ac_path : word path;
  ac_handle : smap_find path (uri_handles_ s) = Some h;
  ac_headers : Forall ws_header_ok hs;
  ac_upgrade : upgrade_headers (fold_left store_ws_header hs (wheaders_ s)) key }.

Definition get_text (path : bytes) (hs : headers) : bytes := request_text (bstr "GET") path hs.

Lemma get_words path : word path -> Forall word [bstr "GET"; path; bstr "HTTP/1.1"].
Proof. intros H. repeat (apply Forall_cons; split; [done || (apply demo_word; (reflexivity || discriminate))|]). apply Forall_nil. done. Qed.

Lemma get_lines path hs : word path -> Forall ws_header_ok hs ->
  Forall line_ok (request_lines (bstr "GET") path hs) /\ request_lines (bstr "GET") path hs <> [].
Proof.
  intros Hp Hh. split; [|done]. constructor; [apply words_line; [apply get_words; done|done]|].
  apply Forall_map. eapply Forall_impl; [exact Hh|]. intros x [Hx _]. apply header_line_ok. done.
Qed.

(** The session after the request: the answer is written, the buffer is empty, the frame
    parser has seen nothing. *)
Definition upgraded s s' (path key : bytes) (h n : nat) : Prop :=
  env_ (base_ s') = emit (on_handle h path (emit (env_ (base_ s)) (replicate n TcpRead)))
    [TcpWrite (switching_response (GenWebSocketHashcode SHA1 key)); TcpRead] /\
  http_request_ready_ s' = true /\ bq_rep (http_recv_buffer_ s') [] /\
  frame_ (base_ s') = frame_ (base_ s) /\ recv_buffer_vec_ (base_ s') = recv_buffer_vec_ (base_ s).

(** The answer on an open connection. *)
Lemma answer_open s : is_open (env_ (base_ s)) = true ->
  (SendHttpResponse SHA1 ;; modify (fun s => s <| http_recv_buffer_ ::= bq_reset |>) ;; on_session AsyncRead) s =
  Done (with_env (s <| hash_code_ := GenWebSocketHashcode SHA1 (sec_ws_key_ s) |> <| http_recv_buffer_ ::= bq_reset |>)
    (fun e => emit e [TcpWrite (switching_response (GenWebSocketHashcode SHA1 (sec_ws_key_ s))); TcpRead])) tt.
Proof.
  intros Ho. unfold SendHttpResponse, GenHashcode. rewrite !bind_assoc.
  erewrite bind_done by reflexivity. rewrite !bind_assoc. erewrite bind_done by reflexivity. erewrite bind_done by reflexivity.
  erewrite bind_done by (apply write_open; by destruct s). erewrite bind_done by reflexivity.
  rewrite read_open by (by destruct s as [[]]). destruct s as [[f v e] ]. unfold with_env. cbn. by rewrite emit_emit.
Qed.

(** The read that completes the head; [rest] is what it carries beyond it. *)
Lemma OnRead_last s pre data path key hs h rest : (forall e, is_open e = true -> is_open (on_handle h path e) = true) ->
  sw_waiting s pre -> acceptable s path key hs h ->
  pre ++ data = get_text path hs ++ rest -> Zlen (pre ++ data) < 2 ^ 30 ->
  exists s', OnRead SHA1 random on_handle now 0 data s = Done s' tt /\ upgraded s s' path key h 0.
Proof.
  intros Hho Hw [Hp Hh Hhs Hup] E Hl. assert (Hl' : Zlen pre + Zlen data < 2 ^ 30) by (rewrite Zlen_app in Hl; lia).
  destruct (OnRead_append s pre data Hw Hl') as (b & Hb & _ & ->). unfold try_catch.
  set (s1 := s <| http_recv_buffer_ := b |>). assert (Hb1 : bq_string (http_recv_buffer_ s1) = Ok (pre ++ data)).
  { replace (http_recv_buffer_ s1) with b by (destruct s; done). apply bq_string_law. done. }
  rewrite E in Hb1, Hl. unfold get_text, request_text, request_lines in Hb1, Hl.
  pose proof (get_words path Hp) as Hwd. inv Hwd as [|? ? W1 Hwd']. inv Hwd' as [|? ? W2 Hwd2]. inv Hwd2 as [|? ? W3 _].
  destruct (OnHandleHttpRequest_done on_handle s1 (bstr "GET") path (bstr "HTTP/1.1") hs key h rest)
    as (s2 & E2 & R1 & R2 & R3 & R4 & R5 & R6); try done.
  { unfold npos. lia. }
  unfold answer. rewrite (bind_done _ _ _ _ _ E2). change (0 =? 1) with false. change (0 =? 0) with true. cbv iota.
  assert (Ho2 : is_open (env_ (base_ s2)) = true) by (rewrite R3; apply Hho; destruct Hw as (_ & _ & _ & Ho); by destruct s).
  rewrite (answer_open s2 Ho2). eexists. split; [reflexivity|].
  assert (Hb2 : bq_rep (bq_reset b) []) by (eapply bq_reset_law; exact Hb).
  unfold upgraded. cbn [replicate]. rewrite emit_nil.
  replace (env_ (base_ s1)) with (env_ (base_ s)) in R3 by (destruct s; done).
  replace (frame_ (base_ s1)) with (frame_ (base_ s)) in R4 by (destruct s; done).
  replace (recv_buffer_vec_ (base_ s1)) with (recv_buffer_vec_ (base_ s)) in R5 by (destruct s; done).
  replace (http_recv_buffer_ s1) with b in R6 by (destruct s; done).
  destruct s2 as [[f2 v2 e2] ? b2 ? ? ? ? k2 ? ? ?]. cbn in R1, R2, R3, R4, R5, R6. subst.
  split_and!; done.
Qed.
End server.

(** Any portions: [chunks] stop before the end of the head, [last] completes it. *)
Lemma server_reads {Q : Type} {HQ : ByteQueue Q} {HQL : ByteQueueLaws Q} {HQP : ByteQueuePacked Q}
  SHA1 random on_handle now path key hs h rest last chunks : (forall e, is_open e = true -> is_open (on_handle h path e) = true) ->
  forall (s : WsSession Q) pre, sw_waiting s pre -> acceptable s path key hs h ->
  pre ++ concat chunks ++ last = get_text path hs ++ rest ->
  (exists k, k <> [] /\ pre ++ concat chunks ++ k = get_text path hs) ->
  Zlen (get_text path hs ++ rest) < 2 ^ 30 ->
  exists s', for_each (chunks ++ [last]) (OnRead SHA1 random on_handle now 0) s = Done s' tt /\
    upgraded SHA1 on_handle s s' path key h (length chunks).
Proof.
  intros Hho. induction chunks as [|d chunks IH]; intros s pre Hw Ha E (k & Hk & Ek) Hl.
  - cbn [concat app] in *. destruct (OnRead_last SHA1 random on_handle now s pre last path key hs h rest Hho Hw Ha E)
      as (s' & Es & Hs'); [rewrite E; done|].
    exists s'. cbn [for_each]. rewrite (bind_done _ _ _ _ _ Es). done.
  - cbn [concat app for_each] in *. rewrite <- !app_assoc in *. rewrite app_assoc in E, Ek.
    assert (Hlk : Zlen (get_text path hs) < 2 ^ 30).
    { rewrite Zlen_app in Hl. pose proof (Zlen_nonneg rest). lia. }
    destruct (get_lines path hs) as [Hok Hn]; [apply Ha..|].
    destruct (OnRead_more SHA1 random on_handle now s pre d (request_lines (bstr "GET") path hs)
      (concat chunks ++ k) Hw Hok Hn) as (b & Es & Hb & Hp); [destruct (concat chunks); done|exact Ek|exact Hlk|].
    set (s1 := with_env _ _) in Es. rewrite (bind_done _ _ _ _ _ Es).
    destruct (IH s1 (pre ++ d)) as (s' & Es' & U1 & U2 & U3 & U4 & U5); [|destruct Ha; destruct s; done|done|eauto|done|].
    + destruct Hw as (Hw & _ & _ & Ho). destruct s; done.
    + exists s'. split; [exact Es'|]. split_and!; [|done..|rewrite U4; destruct s; done|rewrite U5; destruct s; done].
      rewrite U1. replace (env_ (base_ s1)) with (emit (env_ (base_ s)) [TcpRead]) by (destruct s; done).
      rewrite emit_emit. done.
Qed.

(** ** The client's side *)

Definition switching_headers (hash : bytes) : headers :=
  [(bstr "Upgrade", bstr "websocket"); (bstr "Connection", bstr "Upgrade"); (bstr "Sec-WebSocket-Accept", hash)].
Definition switching_words : list bytes := [bstr "Switching"; bstr "Protocols"].
Definition switching_lines (hash : bytes) : list bytes :=
  response_lines (bstr "HTTP") (bstr "1.1") 101 switching_words (switching_headers hash).

Lemma switching_text hash : switching_response hash = head_text (switching_lines hash).
Proof. unfold switching_response, head_text, switching_lines. cbn. rewrite <- !app_assoc. done. Qed.

Lemma switching_status : status_ok (bstr "HTTP") (bstr "1.1") 101 switching_words.
Proof.
  constructor; [apply demo_word; (reflexivity || discriminate)..|not_in|lia| |done].
  repeat (apply Forall_cons; split; [apply demo_word; (reflexivity || discriminate)|]). apply Forall_nil. done.
Qed.
Lemma switching_headers_ok hash : plain hash -> Forall header_ok (switching_headers hash).
Proof. intros H. repeat (apply Forall_cons; split; [split_and!; cbn [fst snd]; try not_in; try done|]). apply Forall_nil. done. Qed.

Section client.
Context {Q T : Type} {HTC : TcpClientI T} {HTL : TcpClientLaws T} {HQ : ByteQueue Q} {HQL : ByteQueueLaws Q}
  {HQP : ByteQueuePacked Q} {HQS : ByteQueueSized Q}.
Context (SHA1 : bytes -> bytes) (random : nat -> Z) (now : Z).
#[local] Instance callback : HttpClientCallbackI (WsClient Q) T Q := ws_callback SHA1 random now.
Implicit Types (c : WsClient Q) (s : HttpClient (WsClient Q) T Q).

(** The client once the connection is established. *)
Definition opened c : WsClient Q :=
  (c <| wbase_ ::= fun w => mkBase (frame_ w) (recv_buffer_vec_ w) (set_connected (emit (env_ w) [OnConnection]) true) |>)
    <| http_ready_ := true |>.
Definition accept_hash c : bytes := GenWebSocketHashcode SHA1 (Base64Encode (key_ c)).

Lemma smap_index_found k v (m : headers) : smap_find k m = Some v -> smap_index k m = (v, m).
Proof. intros H. unfold smap_index. rewrite H. done. Qed.

Lemma HandleHttpRespone_done c (r : HttpClientResponse Q) : rstatus_code_ r = 101 ->
  smap_find (bstr "Connection") (rheaders_ r) = Some (bstr "Upgrade") ->
  smap_find (bstr "Upgrade") (rheaders_ r) = Some (bstr "websocket") ->
  smap_find (bstr "Sec-WebSocket-Accept") (rheaders_ r) = Some (accept_hash c) ->
  HandleHttpRespone SHA1 r c = Done (opened c) (r <| data_ ::= bq_reset |>).
Proof.
  destruct r as [st code pr ver m cl d hr br]. cbn [rstatus_code_ rheaders_]. intros -> H1 H2 H3.
  unfold HandleHttpRespone. erewrite bind_done by reflexivity. cbn [rstatus_code_ rheaders_].
  change (negb (101 =? Websocket_Response_Code)) with false. cbv iota.
  rewrite (smap_index_found _ _ _ H1). cbv iota zeta. change (negb (beqb (bstr "Upgrade") (bstr "Upgrade"))) with false. cbv iota.
  match goal with |- context [rheaders_ ?x] => change (rheaders_ x) with m end.
  rewrite (smap_index_found _ _ _ H2). cbv iota zeta.
  change (negb (beqb (bstr "websocket") (bstr "websocket"))) with false. cbv iota.
  match goal with |- context [rheaders_ ?x] => change (rheaders_ x) with m end.
  rewrite (smap_index_found _ _ _ H3). cbv iota zeta. fold (accept_hash c). rewrite beqb_refl. cbn [negb].
  erewrite bind_done by reflexivity. erewrite bind_done by reflexivity. destruct c; done.
Qed.

(** The callback on the answer: nothing is asked of the TCP client. *)
Lemma callback_done c (t : T) (r : HttpClientResponse Q) : http_ready_ c = false -> rstatus_code_ r = 101 ->
  smap_find (bstr "Connection") (rheaders_ r) = Some (bstr "Upgrade") ->
  smap_find (bstr "Upgrade") (rheaders_ r) = Some (bstr "websocket") ->
  smap_find (bstr "Sec-WebSocket-Accept") (rheaders_ r) = Some (accept_hash c) ->
  OnHttpRead 0 (Some r) (c, t) = Done (opened c, t) (Some (r <| data_ ::= bq_reset |>)).
Proof.
  intros Hn Hc H1 H2 H3. change (ws_OnHttpRead SHA1 random now 0 (Some r) (c, t) = Done (opened c, t) (Some (r <| data_ ::= bq_reset |>))).
  unfold ws_OnHttpRead, client_OnHttpRead. change (0 <? 0) with false. cbv iota.
  erewrite bind_done by reflexivity. erewrite bind_done by reflexivity. rewrite Hn. cbn [negb].
  erewrite bind_done by (apply HandleHttpRespone_done; done). unfold mret at 1, eff_ret at 1. cbv beta iota.
  replace (out_ (env_ (wbase_ (opened c)))) with (out_ (env_ (wbase_ c)) ++ [OnConnection]) by (destruct c as [[]]; done).
  unfold flush_tcp. rewrite skipn_app_len. done.
Qed.

(** The client after the answer: the response object is empty and takes the frames. *)
Definition client_ready s (r : HttpClientResponse Q) : Prop :=
  resp_ptr_ s = Some r /\ header_ready_ r = true /\ rcontent_length_ r = 0 /\ bq_rep (data_ r) [] /\ bq_sized (data_ r) /\
  tcl_open (client_ s).

Lemma ws_live s : live s.
Proof. reflexivity. Qed.

(** The portion that completes the head of the answer; [rest] is what it carries beyond it. *)
Lemma client_last s pre data rest : cwaiting s pre -> http_ready_ (cb_ s) = false -> data <> [] ->
  plain (accept_hash (cb_ s)) -> pre ++ data = switching_response (accept_hash (cb_ s)) ++ rest ->
  Zlen (pre ++ data) < 2 ^ 30 ->
  exists s' r, client_OnRead 0 data s = Done s' tt /\ cb_ s' = opened (cb_ s) /\ client_ready s' r /\
    only_reads (client_ s) (client_ s').
Proof.
  intros Hw Hn Hd Hpl E Hl. rewrite Zlen_app in Hl. set (hash := accept_hash (cb_ s)) in *.
  destruct (client_OnRead_wait s pre data Hw Hd Hl) as (s1 & b & E1 & Hr1 & Hb1 & Hp1 & Hsl1 & Ho1 & Hc1).
  rewrite E, switching_text in Hb1.
  destruct (client_head_done s1 (fresh_response b) (bstr "HTTP") (bstr "1.1") 101 switching_words
    (switching_headers hash) rest (ws_live s1) Hr1 switching_status (switching_headers_ok hash Hpl) Hb1) as (b2 & E2 & Hb2 & k2 & Ek2).
  assert (Hsz : bq_sized b2) by (eapply bq_sized_consume; [exact Ek2|apply Hsl1]).
  rewrite E1. unfold read_step. rewrite (bind_done _ _ _ _ _ E2). cbn [negb].
  set (r2 := head_response _ _ _ _ _ _ _). erewrite bind_done by reflexivity. rewrite with_resp_resp.
  erewrite bind_done by reflexivity. assert (F : r2 = mkClientResponse (bstr "SwitchingProtocols") 101 (bstr "HTTP") (bstr "1.1")
    [(bstr "Connection", bstr "Upgrade"); (bstr "Sec-WebSocket-Accept", hash); (bstr "Upgrade", bstr "websocket")] 0 b2 true false) by done.
  rewrite F. change (0 <? rcontent_length_ _) with false. cbv iota. clear F E2.
  set (r3 := mkClientResponse _ _ _ _ _ _ _ _ _). set (s2 := with_resp s1 r3).
  assert (Ecb : call_back 0 s2 = Done ((s2 <| cb_ := opened (cb_ s) |>) <| resp_ptr_ := Some (r3 <| data_ ::= bq_reset |>) |>) tt).
  { unfold call_back. erewrite bind_done by reflexivity. unfold s2 at 1. rewrite with_resp_resp. unfold notify, mbind, eff_bind. replace (cb_ s2) with (cb_ s) by (rewrite <- Hc1; unfold s2; destruct s1; done).
    rewrite callback_done; [destruct s2; done|done..]. }
  unfold r2. fold s2. rewrite (bind_done _ _ _ _ _ Ecb).
  set (s3 := _ <| resp_ptr_ := _ |>). assert (Ho3 : tcl_open (client_ s3)).
  { replace (client_ s3) with (client_ s) by (rewrite <- Ho1; unfold s3, s2; destruct s1; done). apply Hw. }
  destruct (on_client_read s3 (ws_live s3) Ho3) as (s' & Es & Ho' & Hr' & Hc').
  exists s', (r3 <| data_ ::= bq_reset |>). unfold client_ready.
  split_and!; [exact Es|rewrite Hc'; done|rewrite Hr'; done|done|done| | |done|].
  - eapply bq_reset_law. exact Hb2.
  - apply bq_sized_reset. exact Hsz.
  - apply only_reads_one. replace (client_ s) with (client_ s3) by (rewrite <- Ho1; unfold s3, s2; destruct s1; done).
    exact (on_client_read_only _ _ Es).
Qed.
End client.

Section client_reads.
Context {Q T : Type} {HTC : TcpClientI T} {HTL : TcpClientLaws T} {HQ : ByteQueue Q} {HQL : ByteQueueLaws Q}
  {HQP : ByteQueuePacked Q} {HQS : ByteQueueSized Q}.
Context (SHA1 : bytes -> bytes) (random : nat -> Z) (now : Z).
#[local] Instance callback' : HttpClientCallbackI (WsClient Q) T Q := ws_callback SHA1 random now.

(** Any portions: [chunks] stop before the end of the head, [last] completes it. *)
Lemma client_reads hash rest last chunks : forall (s : HttpClient (WsClient Q) T Q) pre,
  cwaiting s pre -> http_ready_ (cb_ s) = false -> hash = accept_hash SHA1 (cb_ s) -> plain hash ->
  Forall (fun d => d <> []) chunks -> last <> [] ->
  pre ++ concat chunks ++ last = switching_response hash ++ rest ->
  (exists k, k <> [] /\ pre ++ concat chunks ++ k = switching_response hash) ->
  Zlen (switching_response hash ++ rest) < 2 ^ 30 ->
  exists s' r, for_each (chunks ++ [last]) (client_OnRead 0) s = Done s' tt /\ cb_ s' = opened (cb_ s) /\ client_ready s' r /\
    only_reads (client_ s) (client_ s').
Proof.
  induction chunks as [|d chunks IH]; intros s pre Hw Hn Eh Hpl Hne Hla E (k & Hk & Ek) Hl.
  - cbn [concat app] in *. rewrite Eh in E, Hpl.
    destruct (client_last SHA1 random now s pre last rest Hw Hn Hla Hpl E)
      as (s' & r & Es & R); [rewrite E, <- Eh; done|].
    exists s', r. cbn [for_each]. rewrite (bind_done _ _ _ _ _ Es). done.
  - apply Forall_cons in Hne as [Hd Hne]. cbn [concat app for_each] in *. rewrite <- !app_assoc in *. rewrite app_assoc in E, Ek.
    assert (Hlk : Zlen (switching_response hash) < 2 ^ 30).
    { rewrite Zlen_app in Hl. pose proof (Zlen_nonneg rest). lia. }
    assert (Hld : Zlen pre + Zlen d < 2 ^ 30).
    { rewrite <- Ek, !Zlen_app in Hlk. pose proof (Zlen_nonneg k). pose proof (Zlen_nonneg (concat chunks)). lia. }
    destruct (client_OnRead_wait s pre d Hw Hd Hld) as (s1 & b & E1 & Hr1 & Hb1 & Hp1 & Hsl1 & Ho1 & Hc1).
    assert (Hcw : client_head s1 = Done s1 false).
    { rewrite switching_text in Ek, Hlk. eapply (client_head_wait s1 _ (switching_lines hash) (pre ++ d) (concat chunks ++ k) (ws_live SHA1 random now s1) Hr1).
      - apply response_lines_ok; [apply switching_status|apply switching_headers_ok; done].
      - done.
      - exact Hb1.
      - exact Ek.
      - destruct (concat chunks); done.
      - unfold npos. lia. }
    assert (Ho1' : tcl_open (client_ s1)) by (rewrite Ho1; apply Hw).
    destruct (on_client_read s1 (ws_live SHA1 random now s1) Ho1') as (s2 & E2 & Ho2 & Hr2 & Hc2).
    assert (E3 : client_OnRead 0 d s = Done s2 tt).
    { rewrite E1. unfold read_step. rewrite (bind_done _ _ _ _ _ Hcw). exact E2. }
    rewrite (bind_done _ _ _ _ _ E3). rewrite <- Hc1, <- Hc2 in *.
    destruct (IH s2 (pre ++ d)) as (s' & r & Es & Hcb & Hrdy & Hor); try done.
    + split; [done|]. split; [reflexivity|]. rewrite Hr2, Hr1. exists b. done.
    + eauto.
    + exists s', r. split_and!; try done. eapply only_reads_trans; [|exact Hor].
      apply only_reads_one. rewrite <- Ho1. exact (on_client_read_only _ _ E2).
Qed.
End client_reads.

(** ** The request the client sends *)

(** The headers of the upgrade request, in the order of the map. *)
Definition upgrade_request (host key64 : bytes) : headers :=
  [(bstr "Accept", bstr "*/*"); (bstr "Host", host); (bstr "Connection", bstr "Upgrade");
   (bstr "Sec-WebSocket-Key", key64); (bstr "Sec-WebSocket-Version", bstr "13"); (bstr "Upgrade", bstr "websocket")].

Lemma connect_headers_eq key : connect_headers key =
  [(bstr "Connection", bstr "Upgrade"); (bstr "Sec-WebSocket-Key", Base64Encode (firstn 16 key));
   (bstr "Sec-WebSocket-Version", bstr "13"); (bstr "Upgrade", bstr "websocket")].
Proof.
  unfold connect_headers. change (Z.to_nat WebSocket_Key_Len) with 16%nat. set (k := Base64Encode _).
  change (to_string 13) with (bstr "13"). clearbody k. reflexivity.
Qed.

Lemma ws_header_intro (k v : bytes) : plain k -> absent (bstr ":") k -> absent (bstr " ") k -> plain v ->
  k <> bstr "Content-Length" -> ws_header_ok (k, v).
Proof. intros. split; [|done]. split_and!; try done. Qed.
Lemma upgrade_request_ok host key64 : plain host -> plain key64 -> Forall ws_header_ok (upgrade_request host key64).
Proof.
  intros Hh Hk. repeat (apply Forall_cons; split; [apply ws_header_intro; try not_in; done|]). apply Forall_nil. done.
Qed.
Lemma upgrade_request_headers host key64 :
  upgrade_headers (fold_left store_ws_header (upgrade_request host key64) []) key64.
Proof.
  assert (E : fold_left store_ws_header (upgrade_request host key64) [] =
    [(bstr "accept", bstr "*/*"); (bstr "connection", bstr "Upgrade"); (bstr "host", host);
     (bstr "sec-websocket-key", key64); (bstr "sec-websocket-version", bstr "13"); (bstr "upgrade", bstr "websocket")]).
  { reflexivity. }
  rewrite E. constructor.
  - exists (bstr "Upgrade"). split; reflexivity.
  - exists (bstr "websocket"). split; reflexivity.
  - intros v Hv. exists 13. assert (Some (bstr "13") = Some v) as [= <-] by exact Hv. reflexivity.
  - reflexivity.
Qed.

(** ** The handshake *)

Definition nonempty (chunks : list bytes) : Prop := Forall (fun d => d <> []) chunks.

(** [reads] cuts [text] into portions; the last one may carry [rest] beyond it. *)
Definition portions (reads : list bytes) (text rest : bytes) : Prop :=
  exists chunks last k, reads = chunks ++ [last] /\ nonempty reads /\ k <> [] /\
    concat chunks ++ k = text /\ concat chunks ++ last = text ++ rest.

Lemma portions_exact reads text : nonempty reads -> text <> [] -> concat reads = text -> portions reads text [].
Proof.
  intros Hne Ht E. destruct reads as [|d reads _] using rev_ind; [subst; done|].
  rewrite concat_app in E. cbn [concat] in E. rewrite app_nil_r in E.
  exists reads, d, d. split_and!; try done; [|rewrite app_nil_r; done].
  apply Forall_app in Hne as [_ Hne]. apply Forall_cons in Hne as [Hd _]. done.
Qed.

(** A session that has read nothing, and a client that has not connected yet. *)
Definition session_fresh {Q} `{ByteQueuePacked Q} (s : WsSession Q) : Prop :=
  http_request_ready_ s = false /\ wheaders_ s = [] /\ bq_rep (http_recv_buffer_ s) [] /\ bq_packed (http_recv_buffer_ s) /\
  is_open (env_ (base_ s)) = true.
Abbreviation ws_http_client Q := (HttpClient (WsClient Q) (list tcp_request) Q).
Definition client_fresh {Q} (s : ws_http_client Q) : Prop :=
  client_ s = [] /\ resp_ptr_ s = None /\ http_ready_ (cb_ s) = false /\ Zlen (key_ (cb_ s)) = WebSocket_Key_Len /\
  bytes_ok (key_ (cb_ s)) /\ plain (host_ s).

(** The text the client sends once connected. *)
Definition connected_client {Q} (s : ws_http_client Q) (path : bytes) : ws_http_client Q :=
  s <| is_post_ := false |> <| subpath_ := path |> <| cheaders_ := connect_headers (key_ (cb_ s)) |>.
Lemma upgrade_text {Q} (s : ws_http_client Q) path :
  http_stream (connected_client s path) =
  get_text path (upgrade_request (host_ s) (Base64Encode (firstn 16 (key_ (cb_ s))))).
Proof.
  rewrite http_stream_text. replace (is_post_ (connected_client s path)) with false by (destruct s; done).
  rewrite !app_nil_r. replace (subpath_ (connected_client s path)) with path by (destruct s; done).
  replace (host_ (connected_client s path)) with (host_ s) by (destruct s; done).
  replace (cheaders_ (connected_client s path)) with (connect_headers (key_ (cb_ s))) by (destruct s; done).
  rewrite connect_headers_eq. done.
Qed.

Lemma portions_server reads text rest : portions reads text rest ->
  exists chunks last, reads = chunks ++ [last] /\ concat chunks ++ last = text ++ rest /\
    exists k, k <> [] /\ concat chunks ++ k = text.
Proof. intros (ch & la & k & -> & _ & Hk & E1 & E2). exists ch, la. split_and!; [done..|]. exists k. done. Qed.

(** The opening handshake completes.  The client's connection writes one request; the server
    session that reads it in any portions calls the handler of the path once, answers 101 and
    goes over to frames; the client that reads the answer in any portions checks the hash and
    reports the connection.  Bytes that arrive in the same read after the request or after the
    answer ([rest1], [rest2]) leave no trace on either side. *)
Lemma handshake_completes {Q : Type} {HQ : ByteQueue Q} {HQL : ByteQueueLaws Q} {HQP : ByteQueuePacked Q} {HQS : ByteQueueSized Q}
  (SHA1 : bytes -> bytes) (crandom srandom : nat -> Z) (on_handle : nat -> bytes -> Env -> Env) (cnow snow : Z)
  (c : ws_http_client Q) (s : WsSession Q) (path : bytes) (h : nat) (key64 hash rest1 : bytes) (reads1 : list bytes)
  (Hsha : forall x, bytes_ok (SHA1 x)) (Hc : client_fresh c) (Hs : session_fresh s)
  (Hpath : word path) (Hh : smap_find path (uri_handles_ s) = Some h)
  (Hho : forall e, is_open e = true -> is_open (on_handle h path e) = true)
  (Hkey : key64 = Base64Encode (key_ (cb_ c))) (Hhash : hash = GenWebSocketHashcode SHA1 key64)
  (Hreads1 : portions reads1 (get_text path (upgrade_request (host_ c) key64)) rest1)
  (Hl1 : Zlen (get_text path (upgrade_request (host_ c) key64) ++ rest1) < 2 ^ 30) :
  exists c1 s',
    (AsyncConnect SHA1 crandom cnow path ;; OnConnect (HCB := ws_callback SHA1 crandom cnow) 0) c = Done c1 tt /\
    client_ c1 = [SWrite (get_text path (upgrade_request (host_ c) key64))] /\
    for_each reads1 (OnRead SHA1 srandom on_handle snow 0) s = Done s' tt /\
    upgraded SHA1 on_handle s s' path key64 h (length reads1 - 1) /\
    forall reads2 rest2, portions reads2 (switching_response hash) rest2 ->
      Zlen (switching_response hash ++ rest2) < 2 ^ 30 ->
      exists c2 r, for_each reads2 (client_OnRead (HCB := ws_callback SHA1 crandom cnow) 0) c1 = Done c2 tt /\
        cb_ c2 = opened (cb_ c) /\ client_ready c2 r /\ only_reads (client_ c1) (client_ c2).
Proof.
  destruct Hc as (Hlog & Hresp & Hready & Hkl & Hkb & Hhost). destruct Hs as (Hs1 & Hs2 & Hs3 & Hs4 & Hs5).
  assert (Hk16 : firstn 16 (key_ (cb_ c)) = key_ (cb_ c)) by (apply firstn_all2; unfold Zlen, WebSocket_Key_Len in Hkl; lia).
  set (c1 := (connected_client c path) <| client_ := [SWrite (http_stream (connected_client c path))] |>).
  assert (Ec1 : client_ c1 = [SWrite (get_text path (upgrade_request (host_ c) key64))]).
  { unfold c1. rewrite upgrade_text, Hk16, <- Hkey. destruct c; done. }
  assert (Hplain : plain key64) by (subst key64; apply b64_plain, Base64Encode_text; done).
  assert (Ha : acceptable s path key64 (upgrade_request (host_ c) key64) h).
  { constructor; [done|done|apply upgrade_request_ok; done|rewrite Hs2; apply upgrade_request_headers]. }
  apply portions_server in Hreads1 as (ch & la & -> & E1 & k & Hk & Ek).
  destruct (server_reads SHA1 srandom on_handle snow path key64
    (upgrade_request (host_ c) key64) h rest1 la ch Hho s []) as (s' & Es' & Hup); [done|done|done|eauto|done|].
  exists c1, s'. split_and!; [|exact Ec1|exact Es'|rewrite length_app; cbn [length]; replace (length ch + 1 - 1)%nat with (length ch) by lia; exact Hup|].
  - assert (Eg : AsyncConnect SHA1 crandom cnow path c = Done (connected_client c path) 0) by (destruct c; done).
    rewrite (bind_done _ _ _ _ _ Eg). unfold OnConnect. erewrite bind_done by reflexivity. change (0 <? 0) with false. cbv iota.
    erewrite bind_done by reflexivity. rewrite on_client_done by reflexivity. unfold c1, zoom.
    replace (client_ (connected_client c path)) with (@nil tcp_request) by (destruct c; done). done.
  - intros reads2 rest2 (ch2 & la2 & k2 & -> & Hne2 & Hk2 & Ek2 & E2) Hl2. apply Forall_app in Hne2 as [Hne2 Hla2].
    apply Forall_cons in Hla2 as [Hla2 _]. replace (cb_ c) with (cb_ c1) by (destruct c; done).
    apply (client_reads SHA1 crandom cnow hash rest2 la2 ch2 c1 []); [|destruct c; done| | |done|done|done|eauto|done].
    + split; [exact I|]. split; [reflexivity|]. replace (resp_ptr_ c1) with (resp_ptr_ c) by (destruct c; done). rewrite Hresp. done.
    + replace (cb_ c1) with (cb_ c) by (destruct c; done). rewrite Hhash, Hkey. done.
    + rewrite Hhash. apply b64_plain, Base64Encode_text, Hsha.
Qed.

Definition demo_key : bytes := bstr "0123456789abcdef".
Definition demo_ws_client : ws_http_client bytes :=
  mkHttpClient [] (bstr "127.0.0.1") 80 false [] [] (mkWsClient (mkBase fresh_frame [] initial_env) demo_key false) [] None.
Definition demo_ws_session : WsSession bytes :=
  mkWsSession (mkBase fresh_frame [] initial_env) false [] [] [] [] 0 [] [] [] [(bstr "/chat", 7%nat)].
Definition demo_SHA1 (x : bytes) : bytes := map (fun c => c mod 256) (firstn 20 x).
Definition demo_text : bytes := get_text (bstr "/chat") (upgrade_request (bstr "127.0.0.1") (Base64Encode demo_key)).

Lemma handshake_completes_witness :
  exists c1 s',
    (AsyncConnect demo_SHA1 (fun _ => 0) 5 (bstr "/chat") ;; OnConnect (HCB := ws_callback demo_SHA1 (fun _ => 0) 5) 0) demo_ws_client = Done c1 tt /\
    client_ c1 = [SWrite demo_text] /\
    for_each [firstn 30 demo_text; skipn 30 demo_text] (OnRead demo_SHA1 (fun _ => 0) (fun _ _ e => e) 5 0) demo_ws_session = Done s' tt /\
    upgraded demo_SHA1 (fun _ _ e => e) demo_ws_session s' (bstr "/chat") (Base64Encode demo_key) 7 1 /\
    forall reads2 rest2, portions reads2 (switching_response (GenWebSocketHashcode demo_SHA1 (Base64Encode demo_key))) rest2 ->
      Zlen (switching_response (GenWebSocketHashcode demo_SHA1 (Base64Encode demo_key)) ++ rest2) < 2 ^ 30 ->
      exists c2 r, for_each reads2 (client_OnRead (HCB := ws_callback demo_SHA1 (fun _ => 0) 5) 0) c1 = Done c2 tt /\
        cb_ c2 = opened (cb_ demo_ws_client) /\ client_ready c2 r /\ only_reads (client_ c1) (client_ c2).
Proof.
  apply (handshake_completes demo_SHA1 (fun _ => 0) (fun _ => 0) (fun _ _ e => e) 5 5 demo_ws_client demo_ws_session (bstr "/chat") 7
    (Base64Encode demo_key) (GenWebSocketHashcode demo_SHA1 (Base64Encode demo_key)) []
    [firstn 30 demo_text; skipn 30 demo_text]).
  - intros x. unfold demo_SHA1, bytes_ok. apply Forall_map. apply List.Forall_forall. intros a _. apply Z.mod_pos_bound. lia.
  - split_and!; [done..| |]; [unfold bytes_ok; repeat constructor; vm_compute; congruence|not_in].
  - split_and!; [done..|split; done|done|done].
  - apply demo_word; (reflexivity || discriminate).
  - reflexivity.
  - done.
  - reflexivity.
  - reflexivity.
  - apply portions_exact; [repeat constructor; discriminate|discriminate|reflexivity].
  - reflexivity.
Defined.
