(* ===== verification/WsConversation.v ===== *)
(** A WebSocket conversation from the opening handshake on: websocket_client.cpp over http_client.cpp and the session of
    websocket_session.cpp exchange the handshake of [WsHandshake.v], and then messages in both directions, each side reading
    what the other has written in any portions. *)
From S2P Require Import Prelude Eff StdMap StdText StringEx Base64 ByteStream ByteQueue TcpPub HttpCommon HttpText HttpRequests WsFrame WsBase HttpClient WsSession WsClient WsHandshake.

(** ** Reading messages in portions *)

Definition frames_of (msgs : list (Z * bytes)) : list ws_frame := map (fun m => mkWsFrame true (fst m) (snd m)) msgs.
(** The bytes pending in the buffer and those still to come are the frames of the messages; when nothing is to come, no
    message is pending. *)
Definition carries (pend more : bytes) (msgs : list (Z * bytes)) : Prop :=
  stream_ok (pend ++ more) = true /\ decode_frames (pend ++ more) = (frames_of msgs, []) /\ (more = [] -> msgs = [] /\ pend = []).
(** The callbacks for messages. *)
Definition heard (l : list ws_action) : list ws_action :=
  List.filter (fun a => match a with OnReadText _ | OnReadData _ => true | _ => false end) l.

Lemma heard_app l k : heard (l ++ k) = heard l ++ heard k.
Proof. apply List.filter_app. Qed.
Lemma heard_deliver msgs : heard (map deliver msgs) = map deliver msgs.
Proof. induction msgs as [|m msgs IH]; [done|]. cbn [map]. unfold heard in *. cbn [map List.filter]. destruct (deliver m) eqn:E; try (unfold deliver in E; by destruct (_ =? _)); by rewrite IH. Qed.
Lemma tcp_bytes_deliver msgs : tcp_bytes (map deliver msgs) = [].
Proof. induction msgs as [|m msgs IH]; [done|]. unfold tcp_bytes in *. cbn [map concat]. rewrite IH. unfold deliver. by destruct (_ =? _). Qed.

Lemma carries_nil : carries [] [] [].
Proof. split_and!; done. Qed.
(** One more message is written. *)
Lemma carries_snoc pend more msgs m key : carries pend more msgs -> message_ok m -> Zlen key = 4 ->
  carries pend (more ++ ws_encode (snd m) (fst m) key) (msgs ++ [m]).
Proof.
  intros (Hok & Hd & _) Hm Hk. destruct (decode_messages [m] [key]) as [H1 H2]; [by apply Forall_singleton..|done|].
  cbn [zip_with concat map] in H1, H2. rewrite app_nil_r in H1, H2. unfold carries. rewrite app_assoc.
  destruct (stream_ok_app _ _ _ Hok Hd H1) as [G1 G2]. rewrite H2 in G2. split_and!; [done| |].
  - rewrite G2. unfold frames_of. by rewrite map_app.
  - intros E. apply app_eq_nil in E as [_ E]. apply (f_equal Zlen) in E. unfold ws_encode in E.
    rewrite !Zlen_app, Hk, Zlen_nil in E. pose proof (Zlen_nonneg (ws_header (Zlen (snd m)) (fst m))).
    pose proof (Zlen_nonneg (mask_bytes key (snd m))). lia.
Qed.

(** ** Messages on their way *)

(** The size of a frame. *)
Definition frame_len (m : Z * bytes) : Z := Zlen (ws_header (Zlen (snd m)) (fst m)) + 4 + Zlen (snd m).
Lemma ws_encode_len m key : Zlen key = 4 -> Zlen (ws_encode (snd m) (fst m) key) = frame_len m.
Proof. intros Hk. unfold ws_encode, frame_len. rewrite !Zlen_app, Hk, mask_bytes_length by done. lia. Qed.

(** [said] has been written, [got] has been delivered; of the capacity [c], [used] bytes have been received since the
    reader last had everything. *)
Definition flow (pend fl : bytes) (c k used : Z) (said : list (Z * bytes)) (got : list ws_action) : Prop :=
  exists said1 said2, said = said1 ++ said2 /\ got = map deliver said1 /\ Forall message_ok said2 /\
    carries pend fl said2 /\ c - used <= k /\ 0 <= used /\ used + Zlen fl <= c < 2 ^ 30.

Lemma flow_say pend fl c k used said got m key : flow pend fl c k used said got -> message_ok m -> Zlen key = 4 ->
  used + (Zlen fl + frame_len m) <= c -> flow pend (fl ++ ws_encode (snd m) (fst m) key) c k used (said ++ [m]) got.
Proof.
  intros (s1 & s2 & -> & -> & Hm2 & Hc & Hk & H0 & H1) Hm Hkey Hfit. exists s1, (s2 ++ [m]). rewrite Zlen_app, ws_encode_len by done.
  split_and!; [by rewrite app_assoc|done|by apply Forall_app; split; [|apply Forall_singleton]|by apply carries_snoc|lia..].
Qed.

(** What one direction of the connection sees of a script. *)
Inductive traffic : Type :=
| Put (m : Z * bytes)
| Take (n : nat).

(** With [fl] bytes in flight and [used] bytes received since the reader last had everything, what is received until it has
    everything again fits in [c] bytes. *)
Fixpoint bursts_fit (c used fl : Z) (l : list traffic) : bool :=
  match l with
  | [] => true
  | Put m :: l => (used + (fl + frame_len m) <=? c) && bursts_fit c used (fl + frame_len m) l
  | Take n :: l =>
      let took := Z.min (Z.of_nat n) fl in
      if took =? 0 then bursts_fit c used fl l
      else bursts_fit c (if fl - took =? 0 then 0 else used + took) (fl - took) l
  end.

Section hearing.
Context {RECV : WsEndpoint} (random : nat -> Z) (now : Z) {Q : Type} {HQ : ByteQueue Q} {HQL : ByteQueueLaws Q} {HQS : ByteQueueSized Q}.
Implicit Types w : WsBase Q.

(** Between two reads: [pend] is buffered, [k] more bytes fit, the connection is open and somebody listens; [c] is the capacity of the buffer. *)
Definition hearing w (pend : bytes) (c k : Z) : Prop :=
  base_inv w pend [] /\ (has_cb_ (env_ w) = true /\ is_open (env_ w) = true) /\ bq_elastic c (fbuffer_ (frame_ w)) k.
(** The room after a read of [d] that leaves [pend]. *)
Definition room_left (c k : Z) (d pend : bytes) : Z := match pend with [] => c | _ => k - Zlen d end.

(** One read of the frame loop. *)
Lemma HandleFrame_hears w pend d more msgs c k : hearing w pend c k -> Zlen d <= k -> Forall message_ok msgs -> carries pend (d ++ more) msgs ->
  exists w' ret r msgs1 msgs2, HandleFrame random now d w = Done w' ret /\ msgs = msgs1 ++ msgs2 /\ hearing w' r c (room_left c k d r) /\
    carries r more msgs2 /\ out_ (env_ w') = out_ (env_ w) ++ map deliver msgs1.
Proof.
  intros (Hi & (Hcb & Hop) & Hk) Hd Hm (Hok & Hdec & _). unfold carries in *. rewrite app_assoc in Hok, Hdec.
  destruct (decode_frames_app _ _ Hok) as (Ok1 & Ok2 & E). rewrite Hdec in E. injection E as E1 E2.
  assert (Hroom : bq_room (fbuffer_ (frame_ w)) (Zlen d)) by (eapply bq_slack_room; [eapply bq_elastic_slack; exact Hk|apply Hi|zlen]).
  pose proof (HandleFrame_spec random now w pend [] d Hi (or_intror Hroom) Ok1) as Hs.
  destruct (decode_frames (pend ++ d)) as [frs r] eqn:Ef. cbn [fst snd] in *. unfold frames_of in E1.
  apply map_eq_app in E1 as (msgs1 & msgs2 & -> & <- & F2). apply Forall_app in Hm as [Hm1 Hm2].
  destruct (on_messages random now msgs1 (env_ w) Hm1 Hcb) as (e' & Ee & G2 & G3 & G4). rewrite Ee in Hs.
  destruct Hs as (w' & Ew & Hi' & He).
  eexists w', _, r, msgs1, msgs2. split; [exact Ew|]. split; [done|]. split; [|split].
  - split; [done|]. split; [rewrite He; unfold is_open; by rewrite G4|].
    pose proof (HandleFrame_elastic random now c _ _ _ _ _ Ew Hk Hd) as Hl. destruct r; [|exact Hl]. eapply bq_elastic_renewed; [exact Hl|apply Hi'].
  - split; [done|]. split; [|intros ->; rewrite app_nil_r in Hdec; rewrite Hdec in Ef; injection Ef as Ef <-; split; [|done];
      apply (f_equal length) in Ef; unfold frames_of in Ef; rewrite map_app, length_app, !length_map in Ef; destruct msgs2; [done|cbn in Ef; lia]].
    rewrite (surjective_pairing (decode_frames (r ++ more))), <- E2. unfold frames_of. by rewrite F2.
  - by rewrite He, G2.
Qed.

End hearing.

(** ** The session reads *)

Section session.
Context {Q : Type} {HQ : ByteQueue Q} {HQL : ByteQueueLaws Q} {HQS : ByteQueueSized Q}.
Context (SHA1 : bytes -> bytes) (random : nat -> Z) (on_handle : nat -> bytes -> Env -> Env) (now : Z).
Implicit Types s : WsSession Q.

Definition session_hearing s (pend : bytes) (c k : Z) : Prop := http_request_ready_ s = true /\ hearing (base_ s) pend c k.

Lemma session_read s pend d more msgs c k : session_hearing s pend c k -> Zlen d <= k -> Zlen d < 2 ^ 30 ->
  Forall message_ok msgs -> carries pend (d ++ more) msgs ->
  exists s' r msgs1 msgs2, OnRead SHA1 random on_handle now 0 d s = Done s' tt /\ msgs = msgs1 ++ msgs2 /\
    session_hearing s' r c (room_left c k d r) /\ carries r more msgs2 /\
    out_ (env_ (base_ s')) = out_ (env_ (base_ s)) ++ map deliver msgs1 ++ [TcpRead].
Proof.
  intros [Hr Hh] Hd H30 Hm Hc.
  destruct (HandleFrame_hears (RECV := session_endpoint) random now (base_ s) pend d more msgs c k Hh Hd Hm Hc)
    as (w' & ret & r & msgs1 & msgs2 & Ew & -> & Hh' & Hc' & Eo).
  destruct (bq_fill_law (Zlen d) d) as (q & q' & E1 & E2 & Hq); [pose proof (Zlen_nonneg d); lia|lia|].
  set (s1 := s <| base_ := w' |>). set (s2 := s1 <| base_ ::= fun w => mkBase (frame_ w) (recv_buffer_vec_ w) (emit (env_ w) [TcpRead]) |>).
  exists s2, r, msgs1, msgs2. split; [|split; [done|split; [|split; [done|]]]].
  - unfold OnRead. change (0 <? 0) with false. cbv iota. erewrite bind_done by reflexivity. rewrite Hr. cbn [negb].
    rewrite E1. erewrite bind_done by reflexivity. rewrite E2. erewrite bind_done by reflexivity.
    rewrite (bq_string_law _ _ Hq). erewrite bind_done by reflexivity.
    assert (Er : run_frames random now d s = Done s1 ret) by (unfold run_frames, on_base, zoom; by rewrite Ew).
    rewrite (bind_done _ _ _ _ _ Er). apply read_open. unfold s1. destruct s. apply Hh'.
  - unfold s2, s1. destruct Hh' as (G1 & G2 & G3), s. done.
  - replace (out_ (env_ (base_ s2))) with (out_ (env_ w') ++ [TcpRead]) by (by destruct s). by rewrite Eo, <- app_assoc.
Qed.

End session.

(** ** The client reads *)

Section client.
Context {Q T : Type} {HTC : TcpClientI T} {HTL : TcpClientLaws T} {HQ : ByteQueue Q} {HQL : ByteQueueLaws Q}
  {HQP : ByteQueuePacked Q} {HQS : ByteQueueSized Q}.
Context (SHA1 : bytes -> bytes) (random : nat -> Z) (now : Z).
#[local] Instance talking_callback : HttpClientCallbackI (WsClient Q) T Q := ws_callback SHA1 random now.
Implicit Types s : HttpClient (WsClient Q) T Q.

Definition client_hearing s (r : HttpClientResponse Q) (pend : bytes) (c k : Z) : Prop :=
  client_ready s r /\ http_ready_ (cb_ s) = true /\ hearing (wbase_ (cb_ s)) pend c k.

Lemma flush_deliver old msgs (t : T) : flush_tcp old (old ++ map deliver msgs) t = Done t tt.
Proof.
  unfold flush_tcp. rewrite skipn_app_len. induction msgs as [|m msgs IH]; [done|]. cbn [map for_each].
  erewrite bind_done; [exact IH|]. unfold deliver. by destruct (_ =? _).
Qed.

Lemma client_read s r pend d more msgs c k : client_hearing s r pend c k -> d <> [] -> Zlen d <= k -> Zlen d < 2 ^ 30 ->
  Forall message_ok msgs -> carries pend (d ++ more) msgs ->
  exists s' r' p msgs1 msgs2, client_OnRead 0 d s = Done s' tt /\ msgs = msgs1 ++ msgs2 /\
    client_hearing s' r' p c (room_left c k d p) /\ carries p more msgs2 /\
    out_ (env_ (wbase_ (cb_ s'))) = out_ (env_ (wbase_ (cb_ s))) ++ map deliver msgs1 /\
    tc_read (client_ s) = Done (client_ s') tt.
Proof.
  intros ((Hr & Hrdy & Hcl & Hb & Hsz & Ho) & Hn & Hh) Hd Hk H30 Hm Hc.
  destruct (HandleFrame_hears (RECV := client_endpoint) random now (wbase_ (cb_ s)) pend d more msgs c k Hh Hk Hm Hc)
    as (w' & ret & p & msgs1 & msgs2 & Ew & -> & Hh' & Hc' & Eo).
  destruct (bq_append_law (data_ r) [] d Hb) as (b1 & E1 & Hb1); [by apply bq_sized_empty|]. cbn [app] in Hb1.
  pose proof (bq_sized_append _ _ _ E1 Hsz) as Hsz1. set (r1 := r <| data_ := b1 |>). set (c1 := (cb_ s) <| wbase_ := w' |>).
  assert (Er1 : data_ r1 = b1 /\ header_ready_ r1 = true /\ rcontent_length_ r1 = 0) by (by destruct r). destruct Er1 as (R1 & R2 & R3).
  set (s2 := (with_resp s r1) <| cb_ := c1 |> <| resp_ptr_ := Some (r1 <| data_ ::= bq_reset |>) |>).
  assert (Ecb : call_back 0 (with_resp s r1) = Done s2 tt).
  { unfold call_back. erewrite bind_done by reflexivity. rewrite with_resp_resp. unfold notify, mbind at 1, eff_bind at 1. replace (cb_ (with_resp s r1)) with (cb_ s) by (by destruct s).
    enough (E : OnHttpRead 0 (Some r1) (cb_ s, client_ (with_resp s r1)) = Done (c1, client_ (with_resp s r1)) (Some (r1 <| data_ ::= bq_reset |>)))
      by (rewrite E; by destruct s).
    change (ws_OnHttpRead SHA1 random now 0 (Some r1) (cb_ s, client_ (with_resp s r1)) = Done (c1, client_ (with_resp s r1)) (Some (r1 <| data_ ::= bq_reset |>))).
    unfold ws_OnHttpRead, client_OnHttpRead. change (0 <? 0) with false. cbv iota. erewrite bind_done by reflexivity. erewrite bind_done by reflexivity.
    rewrite Hn. cbn [negb]. rewrite R1, (bq_string_law _ _ Hb1). erewrite bind_done by reflexivity.
    assert (Ef : client_frames random now d (cb_ s) = Done c1 ret) by (unfold client_frames, cl_base, zoom; by rewrite Ew). rewrite (bind_done _ _ _ _ _ Ef).
    unfold mret at 1, eff_ret at 1. replace (out_ (env_ (wbase_ c1))) with (out_ (env_ w')) by (unfold c1; by destruct (cb_ s)).
    by rewrite Eo, flush_deliver. }
  assert (Hs2 : client_ s2 = client_ s /\ cb_ s2 = c1 /\ resp_ptr_ s2 = Some (r1 <| data_ ::= bq_reset |>)) by (by destruct s).
  destruct Hs2 as (S1 & S2 & S3). destruct (on_client_read (HCB := talking_callback) s2 eq_refl ltac:(by rewrite S1)) as (s3 & E3 & Ho3 & Hr3 & Hc3).
  exists s3, (r1 <| data_ ::= bq_reset |>), p, msgs1, msgs2. split; [|split; [done|split; [|split; [done|split]]]].
  - unfold client_OnRead. change (0 <? 0) with false. cbv iota. rewrite (proj2 (Z.eqb_neq _ _)) by (intros E; by apply Zlen_0_nil in E).
    erewrite bind_done by reflexivity. rewrite Hr. erewrite bind_done by reflexivity. erewrite bind_done by reflexivity. rewrite Hr.
    erewrite bind_done by reflexivity. rewrite E1. erewrite bind_done by reflexivity. rewrite (bind_done _ _ _ _ _ (rupd_done (HCB := talking_callback) s _ _ eq_refl Hr)).
    rewrite Hrdy. erewrite bind_done by reflexivity. cbn [negb]. fold r1. erewrite bind_done by reflexivity. rewrite with_resp_resp.
    erewrite bind_done by reflexivity. rewrite R3. change (0 <? 0) with false. cbv iota. by rewrite (bind_done _ _ _ _ _ Ecb).
  - unfold client_hearing, client_ready. rewrite Hc3, S2, Hr3, S3. split.
    + replace (data_ (r1 <| data_ ::= bq_reset |>)) with (bq_reset b1) by (by destruct r).
      split_and!; [done|by destruct r|by destruct r|by eapply bq_reset_law|by apply bq_sized_reset|done].
    + unfold c1. destruct (cb_ s). done.
  - rewrite Hc3, S2. unfold c1. destruct (cb_ s). exact Eo.
  - rewrite <- S1. exact (on_client_read_only _ _ E3).
Qed.

End client.

(** ** The two ends and the connection between them *)

(** [AsyncWriteText] or [AsyncWriteData], by the kind of the message. *)
Definition AsyncWriteMessage {EP : WsEndpoint} (random : nat -> Z) (m : Z * bytes) : eff Env unit :=
  if fst m =? WS_OP_TEXT_TYPE then AsyncWriteText random (snd m) else AsyncWriteData random (snd m).
Lemma AsyncWriteMessage_ok {EP : WsEndpoint} random m : message_ok m -> AsyncWriteMessage random m = ep_send random (snd m) (fst m).
Proof. destruct m as [op p]. intros [[E | E] _]; cbn [fst snd] in *; by subst op. Qed.

(** [SendWsFrame] of the client hands its buffer to the TCP client. *)
Definition client_AsyncWrite {Q T : Type} {HTC : TcpClientI T} (random : nat -> Z) (m : Z * bytes) : eff (HttpClient (WsClient Q) T Q) unit :=
  s ← get;
  zoom cb_ (fun s c => s <| cb_ := c |>) (cl_env (AsyncWriteMessage (EP := client_endpoint) random m)) ;;
  s' ← get;
  zoom client_ (fun s t => s <| client_ := t |>) (flush_tcp (out_ (env_ (wbase_ (cb_ s)))) (out_ (env_ (wbase_ (cb_ s'))))).
Definition session_AsyncWrite {Q : Type} (random : nat -> Z) (m : Z * bytes) : eff (WsSession Q) unit :=
  on_session (AsyncWriteMessage (EP := session_endpoint) random m).

(** The client, the session, and how much of what each has written the other has read. *)
Record Dialogue (Q : Type) : Type := mkDialogue {
  talker : ws_http_client Q;
  peer : WsSession Q;
  up_read : nat;
  down_read : nat }.
Arguments mkDialogue {Q}. Arguments talker {Q}. Arguments peer {Q}. Arguments up_read {Q}. Arguments down_read {Q}.

Definition in_flight_up {Q} (d : Dialogue Q) : bytes := skipn (up_read d) (written (client_ (talker d))).
Definition in_flight_down {Q} (d : Dialogue Q) : bytes := skipn (down_read d) (tcp_bytes (out_ (env_ (base_ (peer d))))).

(** A message is written, or at most [n] bytes of what is in flight arrive. *)
Inductive happening : Type :=
| ClientSays (m : Z * bytes)
| SessionSays (m : Z * bytes)
| SessionReads (n : nat)
| ClientReads (n : nat).

Definition client_said (script : list happening) : list (Z * bytes) :=
  omap (fun x => match x with ClientSays m => Some m | _ => None end) script.
Definition session_said (script : list happening) : list (Z * bytes) :=
  omap (fun x => match x with SessionSays m => Some m | _ => None end) script.

Definition up_traffic (script : list happening) : list traffic :=
  omap (fun x => match x with ClientSays m => Some (Put m) | SessionReads n => Some (Take n) | _ => None end) script.
Definition down_traffic (script : list happening) : list traffic :=
  omap (fun x => match x with SessionSays m => Some (Put m) | ClientReads n => Some (Take n) | _ => None end) script.

Section dialogue.
Context {Q : Type} {HQ : ByteQueue Q} {HQL : ByteQueueLaws Q} {HQP : ByteQueuePacked Q} {HQS : ByteQueueSized Q}.
Context (SHA1 : bytes -> bytes) (crandom srandom : nat -> Z) (on_handle : nat -> bytes -> Env -> Env) (cnow snow : Z).
#[local] Instance dialogue_callback : HttpClientCallbackI (WsClient Q) (list tcp_request) Q := ws_callback SHA1 crandom cnow.
Implicit Types d : Dialogue Q.

Definition on_talker (m : eff (ws_http_client Q) unit) : eff (Dialogue Q) unit :=
  zoom talker (fun d c => mkDialogue c (peer d) (up_read d) (down_read d)) m.
Definition on_peer (m : eff (WsSession Q) unit) : eff (Dialogue Q) unit :=
  zoom peer (fun d s => mkDialogue (talker d) s (up_read d) (down_read d)) m.

Definition happen (x : happening) : eff (Dialogue Q) unit :=
  match x with
  | ClientSays m => on_talker (client_AsyncWrite crandom m)
  | SessionSays m => on_peer (session_AsyncWrite srandom m)
  | SessionReads n =>
      d ← get;
      match firstn n (in_flight_up d) with
      | [] => mret tt
      | b => on_peer (OnRead SHA1 srandom on_handle snow 0 b) ;;
             modify (fun d => mkDialogue (talker d) (peer d) (up_read d + length b) (down_read d))
      end
  | ClientReads n =>
      d ← get;
      match firstn n (in_flight_down d) with
      | [] => mret tt
      | b => on_talker (client_OnRead 0 b) ;;
             modify (fun d => mkDialogue (talker d) (peer d) (up_read d) (down_read d + length b))
      end
  end.

(** ** What a step leaves in place *)

(** [fl] bytes in flight, [used] bytes received since the reader last had everything. *)
Definition up_ok d (c : Z) (said : list (Z * bytes)) (used fl : Z) : Prop :=
  exists pend k, session_hearing (peer d) pend c k /\ (up_read d <= length (written (client_ (talker d))))%nat /\
    fl = Zlen (in_flight_up d) /\ flow pend (in_flight_up d) c k used said (heard (out_ (env_ (base_ (peer d))))).
Definition down_ok d (c : Z) (said : list (Z * bytes)) (used fl : Z) : Prop :=
  exists r pend k, client_hearing (talker d) r pend c k /\ (down_read d <= length (tcp_bytes (out_ (env_ (base_ (peer d))))))%nat /\
    fl = Zlen (in_flight_down d) /\ flow pend (in_flight_down d) c k used said (heard (out_ (env_ (wbase_ (cb_ (talker d)))))).
(** The client was told of the connection first. *)
Definition told_first d : Prop := exists l, out_ (env_ (wbase_ (cb_ (talker d)))) = OnConnection :: l.

(** The client writes. *)
Lemma client_AsyncWrite_done (c : ws_http_client Q) m : message_ok m -> is_open (env_ (wbase_ (cb_ c))) = true ->
  exists c' key, client_AsyncWrite crandom m c = Done c' tt /\ Zlen key = 4 /\
    client_ c' = client_ c ++ [SWrite (ws_encode (snd m) (fst m) key)] /\
    out_ (env_ (wbase_ (cb_ c'))) = out_ (env_ (wbase_ (cb_ c))) ++ [TcpWrite (ws_encode (snd m) (fst m) key)] /\
    (forall r pend b k, client_hearing c r pend b k -> client_hearing c' r pend b k).
Proof.
  intros Hm Ho. set (e := env_ (wbase_ (cb_ c))) in *. pose proof (client_SendWsFrame_open crandom e (snd m) (fst m) Ho) as Es.
  cbv zeta in Es. set (key := [_; _; _; _]) in Es. set (e' := emit _ _) in Es.
  assert (Eo : out_ e' = out_ e ++ [TcpWrite (ws_encode (snd m) (fst m) key)]) by done.
  set (c1 := c <| cb_ := (cb_ c) <| wbase_ := set_env (wbase_ (cb_ c)) e' |> |>).
  exists (c1 <| client_ := client_ c ++ [SWrite (ws_encode (snd m) (fst m) key)] |>), key. split; [|split; [done|split; [by destruct c|split]]].
  - unfold client_AsyncWrite. erewrite bind_done by reflexivity. rewrite (AsyncWriteMessage_ok (EP := client_endpoint)) by done. fold e.
    erewrite bind_done; [|unfold zoom, cl_env, cl_base, on_env, zoom; fold e; cbn [ep_send client_endpoint]; rewrite Es; reflexivity]. fold c1.
    erewrite bind_done by reflexivity. replace (out_ (env_ (wbase_ (cb_ c1)))) with (out_ e') by (unfold c1; by destruct c as [? ? ? ? ? ? [[]] ? ?]).
    unfold zoom, flush_tcp. rewrite Eo, skipn_app_len. replace (client_ c1) with (client_ c) by (by destruct c). done.
  - unfold c1. destruct c as [? ? ? ? ? ? [[]] ? ?]. exact Eo.
  - unfold c1, client_hearing, client_ready, hearing, base_inv. destruct c as [? ? ? ? ? ? [[]] ? ?]. done.
Qed.

Lemma session_AsyncWrite_done (s : WsSession Q) m : message_ok m -> is_open (env_ (base_ s)) = true ->
  exists s' key, session_AsyncWrite srandom m s = Done s' tt /\ Zlen key = 4 /\
    tcp_bytes (out_ (env_ (base_ s'))) = tcp_bytes (out_ (env_ (base_ s))) ++ ws_encode (snd m) (fst m) key /\
    heard (out_ (env_ (base_ s'))) = heard (out_ (env_ (base_ s))) /\
    (forall pend c k, session_hearing s pend c k -> session_hearing s' pend c k).
Proof.
  intros Hm Ho. set (e := env_ (base_ s)) in *. pose proof (session_SendWsFrame_open srandom e (snd m) (fst m) Ho) as Es.
  cbv zeta in Es. set (key := [_; _; _; _]) in Es. set (e' := emit _ _) in Es. exists (with_env s (fun _ => e')), key.
  rewrite with_env_env. split; [|split; [done|split; [|split]]].
  - unfold session_AsyncWrite. rewrite (AsyncWriteMessage_ok (EP := session_endpoint)) by done. by apply on_session_env_done.
  - unfold e'. cbn [emit out_]. rewrite tcp_bytes_app. unfold tcp_bytes at 2, ws_encode. cbn [map concat]. by rewrite app_nil_r.
  - unfold e'. cbn [emit out_]. rewrite heard_app. apply app_nil_r.
  - unfold session_hearing, hearing, base_inv. destruct s as [[]]. done.
Qed.

Lemma flow_read b rest c k used said got said1 said2 u1 p' : got = map deliver u1 -> said = u1 ++ said1 ++ said2 ->
  Forall message_ok (said1 ++ said2) -> c - used <= k -> 0 <= used -> used + Zlen (b ++ rest) <= c < 2 ^ 30 -> carries p' rest said2 ->
  flow p' rest c (room_left c k b p') (if Zlen rest =? 0 then 0 else used + Zlen b) said (got ++ map deliver said1).
Proof.
  intros -> -> Hm Hk H0 Hc Hcar. rewrite Zlen_app in Hc. pose proof (Zlen_nonneg b). pose proof (Zlen_nonneg rest). apply Forall_app in Hm as [_ Hm].
  exists (u1 ++ said1), said2. rewrite map_app, <- app_assoc. split; [done|]. split; [done|]. split; [done|]. split; [done|].
  destruct (Z.eqb_spec (Zlen rest) 0) as [E|E].
  - destruct Hcar as (_ & _ & He). apply Zlen_0_nil in E. destruct (He E) as [_ ->]. unfold room_left. subst rest. change (Zlen []) with 0 in *. lia.
  - unfold room_left. destruct p'; lia.
Qed.

Lemma in_flight_took {A} (i n : nat) (l : list A) : (i <= length l)%nat ->
  exists rest, skipn i l = firstn n (skipn i l) ++ rest /\ skipn (i + length (firstn n (skipn i l))) l = rest /\
    (i + length (firstn n (skipn i l)) <= length l)%nat /\ Zlen (firstn n (skipn i l)) = Z.min (Z.of_nat n) (Zlen (skipn i l)).
Proof.
  intros Hi. set (b := firstn n (skipn i l)). exists (skipn n (skipn i l)). split; [symmetry; apply firstn_skipn|].
  assert (E : length b = Nat.min n (length l - i)) by (unfold b; rewrite length_firstn, length_skipn; done).
  split; [|unfold Zlen; rewrite length_skipn; lia]. rewrite skipn_skipn, E. destruct (decide (n <= length l - i)%nat).
  - f_equal. lia.
  - rewrite !skipn_all2 by lia. done.
Qed.

Lemma client_says d m cu cd us ds U L U' L' : message_ok m -> up_ok d cu us U L -> U + (L + frame_len m) <= cu -> down_ok d cd ds U' L' -> told_first d ->
  exists d', happen (ClientSays m) d = Done d' tt /\ up_ok d' cu (us ++ [m]) U (L + frame_len m) /\ down_ok d' cd ds U' L' /\ told_first d'.
Proof.
  intros Hm (pu & ku & Hs & Hu & El & Hf) Hfit (r & pd & kd & Hc & Hd & El' & Hg) [l Ht].
  destruct (client_AsyncWrite_done (talker d) m Hm ltac:(apply Hc)) as (c' & key & E & Hk & Ecl & Eo & Hkeep).
  exists (mkDialogue c' (peer d) (up_read d) (down_read d)). unfold happen, on_talker, zoom. rewrite E.
  split; [done|]. unfold up_ok, down_ok, told_first, in_flight_up, in_flight_down in *. cbn [talker peer up_read down_read].
  rewrite Ecl, Eo, written_app, written_one, skipn_app, length_app, heard_app. replace (up_read d - _)%nat with 0%nat by lia. rewrite drop_0.
  split; [|split].
  - exists pu, ku. split; [done|]. split; [lia|]. split; [by rewrite Zlen_app, ws_encode_len, El|]. apply flow_say; [done..|]. by rewrite <- El.
  - exists r, pd, kd. split; [by apply Hkeep|]. split; [done|]. split; [done|]. change (heard [TcpWrite _]) with (@nil ws_action). by rewrite app_nil_r.
  - rewrite Ht. by eexists.
Qed.

Lemma session_says d m cu cd us ds U L U' L' : message_ok m -> up_ok d cu us U L -> down_ok d cd ds U' L' -> U' + (L' + frame_len m) <= cd -> told_first d ->
  exists d', happen (SessionSays m) d = Done d' tt /\ up_ok d' cu us U L /\ down_ok d' cd (ds ++ [m]) U' (L' + frame_len m) /\ told_first d'.
Proof.
  intros Hm (pu & ku & Hs & Hu & El & Hf) (r & pd & kd & Hc & Hd & El' & Hg) Hfit Ht.
  destruct (session_AsyncWrite_done (peer d) m Hm ltac:(apply Hs)) as (s' & key & E & Hk & Eb & Eh & Hkeep).
  exists (mkDialogue (talker d) s' (up_read d) (down_read d)). unfold happen, on_peer, zoom. rewrite E.
  split; [done|]. unfold up_ok, down_ok, told_first, in_flight_up, in_flight_down in *. cbn [talker peer up_read down_read].
  rewrite Eb, Eh, skipn_app, length_app. replace (down_read d - _)%nat with 0%nat by lia. rewrite drop_0. split; [|split; [|done]].
  - exists pu, ku. split; [by apply Hkeep|]. done.
  - exists r, pd, kd. split; [done|]. split; [lia|]. split; [by rewrite Zlen_app, ws_encode_len, El'|]. apply flow_say; [done..|]. by rewrite <- El'.
Qed.

(** A read takes what there is, at most [n] bytes. *)
Definition after_take (n : nat) (U L : Z) : Z * Z :=
  let took := Z.min (Z.of_nat n) L in if took =? 0 then (U, L) else (if L - took =? 0 then 0 else U + took, L - took).

Lemma firstn_none (n : nat) (l : bytes) : firstn n l = [] -> Z.min (Z.of_nat n) (Zlen l) = 0.
Proof. intros E. apply (f_equal length) in E. rewrite length_firstn in E. unfold Zlen. cbn in E. lia. Qed.
Lemma after_take_some n U (l b rest : bytes) : l = b ++ rest -> b <> [] -> Zlen b = Z.min (Z.of_nat n) (Zlen l) ->
  after_take n U (Zlen l) = (if Zlen rest =? 0 then 0 else U + Zlen b, Zlen rest).
Proof.
  intros El Hb E. unfold after_take. rewrite <- E. rewrite El, Zlen_app. replace (Zlen b + Zlen rest - Zlen b) with (Zlen rest) by lia.
  rewrite (proj2 (Z.eqb_neq _ _)); [done|]. intros E0. by apply Zlen_0_nil in E0.
Qed.

Lemma session_takes d n cu cd us ds U L U' L' : up_ok d cu us U L -> down_ok d cd ds U' L' -> told_first d ->
  exists d', happen (SessionReads n) d = Done d' tt /\ up_ok d' cu us (fst (after_take n U L)) (snd (after_take n U L)) /\
    down_ok d' cd ds U' L' /\ told_first d'.
Proof.
  intros Hup Hdn Ht. unfold happen. erewrite bind_done by reflexivity.
  destruct (firstn n (in_flight_up d)) as [|x b0] eqn:Eb.
  { exists d. pose proof Hup as (_ & _ & _ & _ & El & _). unfold after_take. rewrite El, firstn_none, <- El by done. done. }
  rewrite <- Eb. set (b := firstn n (in_flight_up d)) in *. assert (Hne : b <> []) by (by rewrite Eb). clear Eb x b0.
  destruct Hup as (pu & ku & Hs & Hu & El & u1 & u2 & -> & Hgot & Hm & Hc & Hk & H0 & H30).
  destruct (in_flight_took (up_read d) n _ Hu) as (rest & E1 & E2 & E3 & E4). fold (in_flight_up d) in E1, E2, E3, E4. fold b in E1, E2, E3, E4.
  rewrite El, (after_take_some n U _ b rest E1 Hne E4). cbn [fst snd]. rewrite E1 in Hc, H30. pose proof H30 as H30'. rewrite Zlen_app in H30'.
  pose proof (Zlen_nonneg b). pose proof (Zlen_nonneg rest).
  destruct (session_read SHA1 srandom on_handle snow (peer d) pu b rest u2 cu ku Hs ltac:(lia) ltac:(lia) Hm Hc)
    as (s' & r & m1 & m2 & Er & -> & Hs' & Hc' & Eo).
  exists (mkDialogue (talker d) s' (up_read d + length b) (down_read d)). unfold on_peer, zoom.
  split; [by erewrite bind_done by (rewrite Er; reflexivity)|].
  unfold down_ok, told_first, in_flight_down in *. cbn [talker peer up_read down_read]. rewrite Eo, !tcp_bytes_app, tcp_bytes_deliver.
  split; [|split; [by rewrite app_nil_r|done]]. exists r, (room_left cu ku b r). unfold in_flight_up. cbn [talker peer up_read].
  rewrite E2, Eo, !heard_app, heard_deliver. change (heard [TcpRead]) with (@nil ws_action). rewrite app_nil_r.
  split; [done|]. split; [done|]. split; [done|]. by eapply flow_read.
Qed.

Lemma client_takes d n cu cd us ds U L U' L' : up_ok d cu us U L -> down_ok d cd ds U' L' -> told_first d ->
  exists d', happen (ClientReads n) d = Done d' tt /\ up_ok d' cu us U L /\
    down_ok d' cd ds (fst (after_take n U' L')) (snd (after_take n U' L')) /\ told_first d'.
Proof.
  intros Hup Hdn [l Ht]. unfold happen. erewrite bind_done by reflexivity.
  destruct (firstn n (in_flight_down d)) as [|x b0] eqn:Eb.
  { exists d. pose proof Hdn as (_ & _ & _ & _ & _ & El & _). unfold after_take. rewrite El, firstn_none, <- El by done. split_and!; try done. by exists l. }
  rewrite <- Eb. set (b := firstn n (in_flight_down d)) in *. assert (Hne : b <> []) by (by rewrite Eb). clear Eb x b0.
  destruct Hdn as (r & pd & kd & Hs & Hd & El & u1 & u2 & -> & Hgot & Hm & Hc & Hk & H0 & H30).
  destruct (in_flight_took (down_read d) n _ Hd) as (rest & E1 & E2 & E3 & E4). fold (in_flight_down d) in E1, E2, E3, E4. fold b in E1, E2, E3, E4.
  rewrite El, (after_take_some n U' _ b rest E1 Hne E4). cbn [fst snd]. rewrite E1 in Hc, H30. pose proof H30 as H30'. rewrite Zlen_app in H30'.
  pose proof (Zlen_nonneg b). pose proof (Zlen_nonneg rest).
  destruct (client_read SHA1 crandom cnow (talker d) r pd b rest u2 cd kd Hs Hne ltac:(lia) ltac:(lia) Hm Hc)
    as (c' & r' & p & m1 & m2 & Er & -> & Hs' & Hc' & Eo & Ecl).
  exists (mkDialogue c' (peer d) (up_read d) (down_read d + length b)). unfold on_talker, zoom.
  split; [by erewrite bind_done by (setoid_rewrite Er; reflexivity)|].
  unfold up_ok, told_first, in_flight_up in *. cbn [talker peer up_read down_read]. injection Ecl as <-.
  rewrite written_app, app_nil_r. split; [done|]. split; [|rewrite Eo, Ht; by eexists].
  exists r', p, (room_left cd kd b p). unfold in_flight_down. cbn [talker peer down_read].
  rewrite E2, Eo, !heard_app, heard_deliver. split; [done|]. split; [done|]. split; [done|]. by eapply flow_read.
Qed.

Lemma bursts_take c U L n l : bursts_fit c U L (Take n :: l) = bursts_fit c (fst (after_take n U L)) (snd (after_take n U L)) l.
Proof. cbn [bursts_fit]. unfold after_take. by destruct (_ =? 0). Qed.

(** Any script. *)
Lemma happens cu cd script : forall d us ds U L U' L', Forall message_ok (client_said script) -> Forall message_ok (session_said script) ->
  bursts_fit cu U L (up_traffic script) = true -> bursts_fit cd U' L' (down_traffic script) = true ->
  up_ok d cu us U L -> down_ok d cd ds U' L' -> told_first d ->
  exists d', for_each script happen d = Done d' tt /\ (exists U L, up_ok d' cu (us ++ client_said script) U L) /\
    (exists U L, down_ok d' cd (ds ++ session_said script) U L) /\ told_first d'.
Proof.
  induction script as [|x script IH]; intros d us ds U L U' L' Hcm Hsm Fu Fd Hu Hd Ht.
  { exists d. rewrite !app_nil_r. split_and!; eauto. }
  cbn [for_each]. destruct x as [m|m|n|n].
  - change (client_said (ClientSays m :: script)) with (m :: client_said script) in *. change (up_traffic (ClientSays m :: script)) with (Put m :: up_traffic script) in Fu.
    apply Forall_cons in Hcm as [Hm Hcm]. cbn [bursts_fit] in Fu. apply andb_true_iff in Fu as [F1 Fu]. apply Z.leb_le in F1.
    destruct (client_says d m cu cd us ds _ _ _ _ Hm Hu F1 Hd Ht) as (d1 & E & Hu1 & Hd1 & Ht1). rewrite (bind_done _ _ _ _ _ E).
    destruct (IH d1 _ _ _ _ _ _ Hcm Hsm Fu Fd Hu1 Hd1 Ht1) as (d' & E' & Hu' & R). exists d'. rewrite <- app_assoc in Hu'. done.
  - change (session_said (SessionSays m :: script)) with (m :: session_said script) in *. change (down_traffic (SessionSays m :: script)) with (Put m :: down_traffic script) in Fd.
    apply Forall_cons in Hsm as [Hm Hsm]. cbn [bursts_fit] in Fd. apply andb_true_iff in Fd as [F1 Fd]. apply Z.leb_le in F1.
    destruct (session_says d m cu cd us ds _ _ _ _ Hm Hu Hd F1 Ht) as (d1 & E & Hu1 & Hd1 & Ht1). rewrite (bind_done _ _ _ _ _ E).
    destruct (IH d1 _ _ _ _ _ _ Hcm Hsm Fu Fd Hu1 Hd1 Ht1) as (d' & E' & Hu' & Hd' & R). exists d'. rewrite <- app_assoc in Hd'. done.
  - change (up_traffic (SessionReads n :: script)) with (Take n :: up_traffic script) in Fu. rewrite bursts_take in Fu.
    destruct (session_takes d n cu cd us ds _ _ _ _ Hu Hd Ht) as (d1 & E & Hu1 & Hd1 & Ht1). rewrite (bind_done _ _ _ _ _ E). by eapply IH.
  - change (down_traffic (ClientReads n :: script)) with (Take n :: down_traffic script) in Fd. rewrite bursts_take in Fd.
    destruct (client_takes d n cu cd us ds _ _ _ _ Hu Hd Ht) as (d1 & E & Hu1 & Hd1 & Ht1). rewrite (bind_done _ _ _ _ _ E). by eapply IH.
Qed.

(** ** The handshake as part of the script *)

(** What reads of at most the given sizes take of [b]. *)
Fixpoint pieces (ns : list nat) (b : bytes) : list bytes :=
  match ns with
  | [] => []
  | n :: ns' => match firstn n b with [] => pieces ns' b | x => x :: pieces ns' (skipn (length x) b) end
  end.
Lemma pieces_nonempty ns : forall b, nonempty (pieces ns b).
Proof.
  unfold nonempty. induction ns as [|n ns IH]; intros b; [by apply Forall_nil|]. cbn [pieces].
  destruct (firstn n b) as [|x l]; [done|]. by apply Forall_cons.
Qed.
Lemma concat_pieces ns : forall b, (length b <= list_sum ns)%nat -> concat (pieces ns b) = b.
Proof.
  induction ns as [|n ns IH]; intros b H; cbn [pieces list_sum fold_right] in *; [by destruct b; [|cbn in H; lia]|].
  change (fold_right Nat.add 0%nat ns) with (list_sum ns) in H. pose proof (length_firstn n b) as El.
  destruct (firstn n b) as [|x l] eqn:E.
  - apply IH. destruct b; [cbn; lia|]. cbn [length] in *. lia.
  - cbn [concat]. rewrite IH by (rewrite length_skipn; lia). rewrite <- E. rewrite <- E in El. rewrite El.
    destruct (decide (n <= length b)%nat); [rewrite Nat.min_l by lia; apply firstn_skipn|].
    rewrite Nat.min_r, skipn_all, firstn_all2 by lia. apply app_nil_r.
Qed.

Lemma session_phase ns : forall d p, for_each (pieces ns (in_flight_up d)) (OnRead SHA1 srandom on_handle snow 0) (peer d) = Done p tt ->
  for_each (map SessionReads ns) happen d =
  Done (mkDialogue (talker d) p (up_read d + length (concat (pieces ns (in_flight_up d)))) (down_read d)) tt.
Proof.
  induction ns as [|n ns IH]; intros d p E; cbn [pieces map for_each] in *.
  - injection E as <-. cbn. rewrite Nat.add_0_r. by destruct d.
  - cbn [happen]. rewrite bind_assoc. erewrite bind_done by reflexivity. destruct (firstn n (in_flight_up d)) as [|x l]; [by apply IH|].
    cbn [for_each] in E. unfold mbind at 1, eff_bind at 1 in E. destruct (OnRead _ _ _ _ _ _ _) as [p1 []| |] eqn:E1; [|done..].
    set (d1 := mkDialogue (talker d) p1 (up_read d + length (x :: l)) (down_read d)).
    assert (Ef : in_flight_up d1 = skipn (length (x :: l)) (in_flight_up d)) by (unfold in_flight_up; rewrite skipn_skipn, Nat.add_comm; done).
    rewrite bind_assoc. erewrite bind_done by (unfold on_peer, zoom; rewrite E1; reflexivity). erewrite bind_done by reflexivity.
    cbn [talker peer up_read down_read]. fold d1. rewrite <- Ef in E |- *. rewrite (IH d1 p E). cbn [d1 talker up_read down_read concat].
    by rewrite length_app, Nat.add_assoc.
Qed.
Lemma client_phase ns : forall d c, for_each (pieces ns (in_flight_down d)) (client_OnRead 0) (talker d) = Done c tt ->
  for_each (map ClientReads ns) happen d =
  Done (mkDialogue c (peer d) (up_read d) (down_read d + length (concat (pieces ns (in_flight_down d))))) tt.
Proof.
  induction ns as [|n ns IH]; intros d c E; cbn [pieces map for_each] in *.
  - injection E as <-. cbn. rewrite Nat.add_0_r. by destruct d.
  - cbn [happen]. rewrite bind_assoc. erewrite bind_done by reflexivity. destruct (firstn n (in_flight_down d)) as [|x l]; [by apply IH|].
    cbn [for_each] in E. unfold mbind at 1, eff_bind at 1 in E. destruct (client_OnRead _ _ _) as [c1 []| |] eqn:E1; [|done..].
    set (d1 := mkDialogue c1 (peer d) (up_read d) (down_read d + length (x :: l))).
    assert (Ef : in_flight_down d1 = skipn (length (x :: l)) (in_flight_down d)) by (unfold in_flight_down; rewrite skipn_skipn, Nat.add_comm; done).
    rewrite bind_assoc. erewrite bind_done by (unfold on_talker, zoom; rewrite E1; reflexivity). erewrite bind_done by reflexivity.
    cbn [talker peer up_read down_read]. fold d1. rewrite <- Ef in E |- *. rewrite (IH d1 c E). cbn [d1 peer up_read down_read concat].
    by rewrite length_app, Nat.add_assoc.
Qed.
End dialogue.

Lemma only_reads_written (l l' : list tcp_request) : only_reads l l' -> written l' = written l.
Proof.
  intros [n E]. revert l E; induction n as [|n IH]; intros l E; cbn [replicate for_each] in E; [by injection E as <-|].
  erewrite bind_done in E by reflexivity. rewrite (IH _ E), written_app. apply app_nil_r.
Qed.
Lemma heard_reads n : heard (replicate n TcpRead) = [].
Proof. by induction n. Qed.
Lemma tcp_bytes_reads n : tcp_bytes (replicate n TcpRead) = [].
Proof. by induction n. Qed.

(** ** The conversation *)

(** Of what was said, a prefix has been delivered, in order and once; all of it when nothing is in flight. *)
Definition delivered (said : list (Z * bytes)) (fl : bytes) (got : list ws_action) : Prop :=
  exists said1 said2, said = said1 ++ said2 /\ got = map deliver said1 /\ (fl = [] -> said2 = []).
Lemma flow_delivered pend fl c k used said got : flow pend fl c k used said got -> delivered said fl got.
Proof.
  intros (s1 & s2 & E1 & E2 & _ & (_ & _ & Hc) & _). exists s1, s2. split_and!; [done|done|]. intros E. by apply Hc.
Qed.

(** Somebody listens at both ends, neither has written or heard anything, and the frame parsers' buffers have so many bytes. *)
Record attentive {Q} `{ByteQueueSized Q} (c : ws_http_client Q) (s : WsSession Q) (on_handler : Env -> Env) (ku kd : Z) : Prop := {
  at_client : hearing (wbase_ (cb_ c)) [] kd kd;
  at_client_out : out_ (env_ (wbase_ (cb_ c))) = [];
  at_session : base_inv (base_ s) [] [];
  at_session_room : bq_elastic ku (fbuffer_ (frame_ (base_ s))) ku;
  at_session_out : out_ (env_ (base_ s)) = [];
  (* the handler of the path installs a callback and leaves it at that *)
  at_handler : forall e, has_cb_ (on_handler e) = true /\ tcp_ (on_handler e) = tcp_ e /\ out_ (on_handler e) = out_ e }.

(** After the handshake both ends are ready, and nothing is in flight. *)
Lemma shaken {Q : Type} {HQ : ByteQueue Q} {HQL : ByteQueueLaws Q} {HQP : ByteQueuePacked Q} {HQS : ByteQueueSized Q}
  SHA1 on_handle (c c1 c2 : ws_http_client Q) (s s' : WsSession Q) r path key64 hash h n ku kd req :
  attentive c s (on_handle h path) ku kd -> is_open (env_ (base_ s)) = true -> upgraded SHA1 on_handle s s' path key64 h n -> hash = GenWebSocketHashcode SHA1 key64 ->
  client_ c1 = [SWrite req] -> cb_ c2 = opened (cb_ c) -> client_ready c2 r -> only_reads (client_ c1) (client_ c2) ->
  0 <= ku < 2 ^ 30 -> 0 <= kd < 2 ^ 30 ->
  let d := mkDialogue c2 s' (length req) (length (switching_response hash)) in
  tcp_bytes (out_ (env_ (base_ s'))) = switching_response hash /\ up_ok d ku [] 0 0 /\ down_ok d kd [] 0 0 /\ told_first d.
Proof.
  intros [Hcl Hco Hsi Hss Hso Hh] Hopn (Ue & Ur & _ & Uf & Uv) -> Ec1 Ec2 Hr Hor Hku Hkd. cbv zeta.
  set (e := emit (env_ (base_ s)) (replicate n TcpRead)) in *. destruct (Hh e) as (Hcb & Htcp & Ho).
  assert (Eo : out_ (env_ (base_ s')) = replicate n TcpRead ++ [TcpWrite (switching_response (GenWebSocketHashcode SHA1 key64)); TcpRead]).
  { rewrite Ue. cbn [emit out_]. by rewrite Ho; unfold e; cbn [emit out_]; rewrite Hso. }
  assert (Eb : tcp_bytes (out_ (env_ (base_ s'))) = switching_response (GenWebSocketHashcode SHA1 key64)).
  { rewrite Eo, tcp_bytes_app, tcp_bytes_reads. unfold tcp_bytes. cbn [map concat]. by rewrite !app_nil_r. }
  assert (Ew : written (client_ c2) = req) by (rewrite (only_reads_written _ _ Hor), Ec1; apply written_one).
  split; [exact Eb|]. unfold up_ok, down_ok, told_first, in_flight_up, in_flight_down. cbn [talker peer up_read down_read].
  rewrite Eb, Ew, !skipn_all, Ec2. split_and!.
  - exists [], ku. split; [|split; [done|split; [done|]]].
    + split; [done|]. split; [unfold base_inv; rewrite Uf, Uv; exact Hsi|]. split; [rewrite Ue; split; [done|]; unfold is_open; cbn [emit tcp_]; rewrite Htcp; exact Hopn|by rewrite Uf].
    + exists [], []. rewrite Eo, heard_app, heard_reads. change (Zlen (@nil Z)) with 0. split_and!; try done; lia.
  - exists r, [], kd. split; [|split; [done|split; [done|]]].
    + split; [done|]. rewrite Ec2. destruct (cb_ c) as [[]]. done.
    + exists [], []. change (Zlen (@nil Z)) with 0. split_and!; try done; try lia. cbn. destruct (cb_ c) as [[]]; cbn in *. by rewrite Hco.
  - exists []. destruct (cb_ c) as [[]]; cbn in *. by rewrite Hco.
Qed.

(** C12: a WebSocket conversation, from the opening handshake on.  The client connects and writes its request; the session
    reads it, the client reads the answer, each in reads of any sizes; then either side writes text and binary messages
    and reads what has arrived, in any order and in reads of any sizes.  Nothing throws and nothing is undefined; the
    client is told of the connection before anything else; at any moment each side has been given a prefix of the
    messages the other one has written, each once, complete and in order, and all of them when nothing is in flight.  There is
    no bound on the whole conversation: what a side receives from one moment at which nothing is in flight to it to the
    next fits in the buffer of its frame parser, for the real one its size less the reserved header twice. *)
Theorem conversation {Q : Type} {HQ : ByteQueue Q} {HQL : ByteQueueLaws Q} {HQP : ByteQueuePacked Q} {HQS : ByteQueueSized Q}
  (SHA1 : bytes -> bytes) (crandom srandom : nat -> Z) (on_handle : nat -> bytes -> Env -> Env) (cnow snow : Z)
  (c : ws_http_client Q) (s : WsSession Q) (path key64 req resp : bytes) (h : nat) (ku kd : Z)
  (ns1 ns2 : list nat) (script : list happening)
  (Hsha : forall x, bytes_ok (SHA1 x)) (Hc : client_fresh c) (Hs : session_fresh s)
  (Hat : attentive c s (on_handle h path) ku kd) (Hpath : word path) (Hh : smap_find path (uri_handles_ s) = Some h)
  (Hkey : key64 = Base64Encode (key_ (cb_ c)))
  (Hreq : req = get_text path (upgrade_request (host_ c) key64)) (Hresp : resp = switching_response (GenWebSocketHashcode SHA1 key64))
  (Hreql : Zlen req < 2 ^ 30) (Hrespl : Zlen resp < 2 ^ 30)
  (Hns1 : (length req <= list_sum ns1)%nat) (Hns2 : (length resp <= list_sum ns2)%nat)
  (Hcm : Forall message_ok (client_said script)) (Hsm : Forall message_ok (session_said script))
  (Hku : 0 <= ku < 2 ^ 30) (Hkd : 0 <= kd < 2 ^ 30)
  (Hup : bursts_fit ku 0 0 (up_traffic script) = true) (Hdown : bursts_fit kd 0 0 (down_traffic script) = true) :
  exists c1 d,
    (AsyncConnect SHA1 crandom cnow path ;; OnConnect (HCB := ws_callback SHA1 crandom cnow) 0) c = Done c1 tt /\
    for_each (map SessionReads ns1 ++ map ClientReads ns2 ++ script)
      (happen SHA1 crandom srandom on_handle cnow snow) (mkDialogue c1 s 0 0) = Done d tt /\
    told_first d /\
    delivered (client_said script) (in_flight_up d) (heard (out_ (env_ (base_ (peer d))))) /\
    delivered (session_said script) (in_flight_down d) (heard (out_ (env_ (wbase_ (cb_ (talker d)))))).
Proof.
  assert (Hho : forall e, is_open e = true -> is_open (on_handle h path e) = true).
  { intros e He. destruct Hat as [_ _ _ _ _ Hhd]. destruct (Hhd e) as (_ & Ht & _). unfold is_open. by rewrite Ht. }
  assert (Hr1 : portions (pieces ns1 req) (get_text path (upgrade_request (host_ c) key64)) []).
  { rewrite <- Hreq. apply portions_exact; [apply pieces_nonempty|by rewrite Hreq|by apply concat_pieces]. }
  destruct (handshake_completes SHA1 crandom srandom on_handle cnow snow c s path h key64 _ [] (pieces ns1 req) Hsha Hc Hs Hpath Hh Hho Hkey
    eq_refl Hr1 ltac:(by rewrite app_nil_r, <- Hreq)) as (c1 & s' & E1 & Ec1 & E2 & Hshk & Hans). rewrite <- Hreq in Ec1.
  assert (Hr2 : portions (pieces ns2 resp) (switching_response (GenWebSocketHashcode SHA1 key64)) []).
  { rewrite <- Hresp. apply portions_exact; [apply pieces_nonempty|by rewrite Hresp|by apply concat_pieces]. }
  destruct (Hans _ _ Hr2 ltac:(by rewrite app_nil_r, <- Hresp)) as (c2 & r & E3 & Ec2 & Hrdy & Hor).
  destruct (shaken SHA1 on_handle c c1 c2 s s' r path key64 _ h _ ku kd req
    Hat ltac:(apply Hs) Hshk eq_refl Ec1 Ec2 Hrdy Hor Hku Hkd) as (Eb & Hu & Hd & Ht).
  destruct (happens SHA1 crandom srandom on_handle cnow snow ku kd script _ [] [] _ _ _ _ Hcm Hsm Hup Hdown Hu Hd Ht)
    as (d & Ed & (U & L & p & k & _ & _ & _ & F1) & (U' & L' & r' & p' & k' & _ & _ & _ & F2) & Ht').
  exists c1, d. split; [done|]. split; [|split; [done|split; by eapply flow_delivered]]. rewrite <- Hresp in *.
  assert (Eu : in_flight_up (mkDialogue c1 s 0 0) = req) by (unfold in_flight_up; cbn [talker up_read skipn]; rewrite Ec1; apply written_one).
  rewrite for_each_app, (bind_done _ _ _ _ _ (session_phase SHA1 crandom srandom on_handle cnow snow ns1 (mkDialogue c1 s 0 0) s' ltac:(by rewrite Eu))).
  rewrite Eu, concat_pieces by done. cbn [talker up_read down_read]. set (d1 := mkDialogue c1 s' _ 0).
  assert (Edn : in_flight_down d1 = resp) by (unfold in_flight_down; cbn [d1 peer down_read skipn]; exact Eb).
  rewrite for_each_app, (bind_done _ _ _ _ _ (client_phase SHA1 crandom srandom on_handle cnow snow ns2 d1 c2 ltac:(by rewrite Edn))).
  rewrite Edn, concat_pieces by done. exact Ed.
Qed.

(** Both ends say something before either has read, then the reads come in small pieces. *)
Definition listening_client : ws_http_client bytes :=
  mkHttpClient [] (bstr "127.0.0.1") 80 false [] [] (mkWsClient (mkBase fresh_frame [] (set_cb initial_env)) demo_key false) [] None.
Definition demo_answer : bytes := switching_response (GenWebSocketHashcode demo_SHA1 (Base64Encode demo_key)).
Definition demo_script : list happening :=
  [ClientSays (1, bstr "hello"); SessionSays (2, [1; 2; 3]); SessionReads 3; ClientSays (1, bstr "you"); ClientReads 100; SessionReads 100].

Lemma conversation_witness :
  exists c1 d,
    (AsyncConnect demo_SHA1 (fun _ => 5) 5 (bstr "/chat") ;; OnConnect (HCB := ws_callback demo_SHA1 (fun _ => 5) 5) 0) listening_client = Done c1 tt /\
    for_each (map SessionReads [30; 300]%nat ++ map ClientReads [7; 200]%nat ++ demo_script)
      (happen demo_SHA1 (fun _ => 5) (fun _ => 9) (fun _ _ e => set_cb e) 5 6) (mkDialogue c1 demo_ws_session 0 0) = Done d tt /\
    told_first d /\
    delivered (client_said demo_script) (in_flight_up d) (heard (out_ (env_ (base_ (peer d))))) /\
    delivered (session_said demo_script) (in_flight_down d) (heard (out_ (env_ (wbase_ (cb_ (talker d)))))).
Proof.
  refine (conversation demo_SHA1 (fun _ => 5) (fun _ => 9) (fun _ _ e => set_cb e) 5 6 listening_client demo_ws_session (bstr "/chat")
    (Base64Encode demo_key) demo_text demo_answer 7 20 20 [30; 300]%nat [7; 200]%nat demo_script _ _ _ _ _ _ _ _ _ _ _ _ _ _ _ _ _ _ _).
  - intros x. unfold demo_SHA1, bytes_ok. apply Forall_map. apply List.Forall_forall. intros a _. apply Z.mod_pos_bound. lia.
  - split_and!; [done..| |]; [unfold bytes_ok; repeat constructor; vm_compute; congruence|not_in].
  - split_and!; [done..|split; done|done|done].
  - by constructor.
  - apply demo_word; (reflexivity || discriminate).
  - reflexivity.
  - reflexivity.
  - reflexivity.
  - reflexivity.
  - reflexivity.
  - reflexivity.
  - vm_compute. lia.
  - vm_compute. lia.
  - repeat (apply Forall_cons; split; [split; [auto|reflexivity]|]). by apply Forall_nil.
  - repeat (apply Forall_cons; split; [split; [auto|reflexivity]|]). by apply Forall_nil.
  - lia.
  - lia.
  - reflexivity.
  - reflexivity.
Defined.
