(* ===== verification/WsSafety.v ===== *)
(** The WebSocket server session against arbitrary input ([src/src/net/http/websocket/websocket_session.cpp] over
    [ws_session_base.cpp] and [tcp_session.hpp]): whatever arrives before, during and after the opening handshake, every
    callback returns, as long as the session has not answered a Close.  After that the reply to a frame in the same read
    throws, and a timer tick after the handle has been deleted writes to it. *)
From S2P Require Import Prelude Eff StdMap StdText StringEx ByteStream ByteQueue TcpPub HttpCommon HttpText WsFrame WsBase WsSession WsHandshake.

(** ** Numbers in the input *)

(** Every [Sec-WebSocket-Version] in the text, in any case, is a number that fits in an [int]. *)
Definition versions_fit (s : bytes) : Prop :=
  forall k c v, String2Lower k = bstr "sec-websocket-version" -> infix (k ++ c :: 32 :: v) s -> atoi v <> Undef.
Lemma versions_fit_infix x s : infix x s -> versions_fit s -> versions_fit x.
Proof. intros Hx Hs k c v Hk Hv. apply (Hs k c v Hk). by eapply infix_trans. Qed.

(** The same by search. *)
Definition versions_fitb (s : bytes) : bool :=
  forallb (fun n =>
    let t := skipn n s in
    negb (beqb (String2Lower (firstn 21 t)) (bstr "sec-websocket-version")) ||
    let t := skipn 23 t in
    forallb (fun m => match atoi (firstn m t) with Undef => false | _ => true end) (seq 0 (S (length t)))) (seq 0 (S (length s))).
Lemma versions_fitb_ok s : versions_fitb s = true -> versions_fit s.
Proof.
  intros H k c v Hk (a & b & ->). unfold versions_fitb in H. rewrite <- app_assoc in H.
  assert (Ek : length k = 21%nat) by (apply (f_equal length) in Hk; unfold String2Lower in Hk; rewrite length_map in Hk; exact Hk).
  assert (Ha : In (length a) (seq 0 (S (length (a ++ k ++ (c :: 32 :: v) ++ b))))) by (apply in_seq; rewrite length_app; lia).
  apply (proj1 (forallb_forall _ _) H) in Ha. cbv zeta in Ha. rewrite skipn_app_len in Ha.
  replace (firstn 21 (k ++ (c :: 32 :: v) ++ b)) with k in Ha by (rewrite <- Ek; symmetry; apply firstn_app_len).
  replace (skipn 23 (k ++ (c :: 32 :: v) ++ b)) with (v ++ b) in Ha.
  2: { replace (k ++ (c :: 32 :: v) ++ b) with ((k ++ [c; 32]) ++ v ++ b) by (by rewrite <- !app_assoc).
       replace 23%nat with (length (k ++ [c; 32])) by (rewrite length_app, Ek; done). symmetry. apply skipn_app_len. }
  rewrite Hk, beqb_refl in Ha. cbn [negb orb] in Ha.
  assert (Hv : In (length v) (seq 0 (S (length (v ++ b))))) by (apply in_seq; rewrite length_app; lia).
  apply (proj1 (forallb_forall _ _) Ha) in Hv. rewrite firstn_app_len in Hv. by destruct (atoi v).
Qed.

(** ** Frames in the input *)

(** With [pend] buffered and [used] bytes received since the buffer was last empty, what is received until it is empty again
    fits in [c] bytes. *)
Fixpoint reads_fit (c used : Z) (pend : bytes) (reads : list bytes) : bool :=
  match reads with
  | [] => true
  | d :: reads =>
      let r := snd (decode_frames (pend ++ d)) in
      (used + Zlen d <=? c) && reads_fit c (match r with [] => 0 | _ => used + Zlen d end) r reads
  end.

(** The input may be taken for frames from any read on: the announced lengths are below 2^29, the buffer is large enough. *)
Definition frames_fit (c : Z) (reads : list bytes) : Prop :=
  forall i, stream_ok (concat (skipn i reads)) = true /\ reads_fit c 0 [] (skipn i reads) = true.
Lemma frames_fit_more c d reads : frames_fit c (d :: reads) -> frames_fit c reads.
Proof. intros H i. apply (H (S i)). Qed.
(** It is enough to look at the reads there are. *)
Lemma frames_fit_all c reads : Forall (fun i => stream_ok (concat (skipn i reads)) = true /\ reads_fit c 0 [] (skipn i reads) = true) (seq 0 (S (length reads))) ->
  frames_fit c reads.
Proof.
  intros H i. destruct (decide (i <= length reads)%nat) as [Hi|Hi]; [apply (proj1 (List.Forall_forall _ _) H), in_seq; lia|].
  rewrite skipn_all2 by lia. done.
Qed.

(** ** The opening request *)

Section request.
Context {Q : Type} {HQ : ByteQueue Q} {HQL : ByteQueueLaws Q} {HQP : ByteQueuePacked Q} {HQS : ByteQueueSized Q}.
Context (SHA1 : bytes -> bytes) (random : nat -> Z) (on_handle : nat -> bytes -> Env -> Env).
(* a handler cannot close the connection *)
Context (Hhandle : forall h p e, is_open e = true -> is_open (on_handle h p e) = true).
Implicit Types s : WsSession Q.

(** The frame parser has not been touched, and the stored version is a number. *)
Definition version_ok s : Prop := forall v, smap_find (bstr "sec-websocket-version") (wheaders_ s) = Some v -> atoi v <> Undef.
Definition same_frames s s' : Prop :=
  frame_ (base_ s') = frame_ (base_ s) /\ recv_buffer_vec_ (base_ s') = recv_buffer_vec_ (base_ s) /\
  http_request_ready_ s' = http_request_ready_ s /\ tcp_ (env_ (base_ s')) = tcp_ (env_ (base_ s)).

Lemma same_frames_trans s s1 s2 : same_frames s s1 -> same_frames s1 s2 -> same_frames s s2.
Proof. unfold same_frames. intros (A1 & A2 & A3 & A4) (B1 & B2 & B3 & B4). by rewrite B1, B2, B3, B4. Qed.

Definition reading s s' : Prop := same_frames s s' /\ version_ok s'.

Lemma version_set s k v : version_ok s -> (k = bstr "sec-websocket-version" -> atoi v <> Undef) ->
  forall x, smap_find (bstr "sec-websocket-version") (smap_set k v (wheaders_ s)) = Some x -> atoi x <> Undef.
Proof.
  intros Hs Hv x. rewrite smap_find_set. destruct (beqb _ _) eqn:E; [|apply Hs]. intros [= <-]. apply Hv. apply beqb_true in E. congruence.
Qed.

Lemma ws_header_line_wp l s (E : exn -> _ -> Prop) : Zlen l < npos -> versions_fit l -> version_ok s ->
  wp (ws_header_line l) (fun _ s' => reading s s') E s.
Proof.
  intros Hn Hfit Hs. unfold ws_header_line. destruct (find_spec (bstr " ") l Hn) as [[-> _]|(a & c & El & Ef & Hfirst)].
  { rewrite Z.eqb_refl. split; [|done]. by unfold same_frames. }
  rewrite Ef. destruct (Zlen a =? npos); [split; [by unfold same_frames|done]|]. pose proof (Zlen_nonneg a). pose proof (Zlen_nonneg c).
  assert (Ell : Zlen l = Zlen a + 1 + Zlen c) by (rewrite El, !Zlen_app; change (Zlen (bstr " ")) with 1; lia).
  apply wp_bind. eapply wp_lift; [unfold substr; rewrite (proj2 (Z.leb_le _ _)) by lia; done|].
  apply wp_bind. apply (wp_lift _ c).
  { unfold substr_from, substr. rewrite (proj2 (Z.leb_le _ _)) by lia. f_equal.
    replace (skipn (Z.to_nat (Zlen a + 1)) l) with c; [apply firstn_all2; unfold Zlen in *; lia|].
    rewrite El, app_assoc. symmetry. apply skipn_Zlen_app. rewrite Zlen_app. done. }
  apply wp_modify. split; [by destruct s|]. unfold version_ok. intros x Hx.
  match type of Hx with smap_find _ (wheaders_ ?t) = _ => replace (wheaders_ t) with (smap_set (String2Lower (firstn (Z.to_nat (Z.min (u64 (Zlen a - 1)) (Zlen l))) (skipn (Z.to_nat 0) l))) c (wheaders_ s)) in Hx by (by destruct s) end.
  revert Hx. apply version_set; [done|]. change (skipn (Z.to_nat 0) l) with l. intros Hk.
  destruct (decide (a = [])) as [->|Hne].
  { exfalso. change (u64 (Zlen [] - 1)) with npos in Hk. rewrite Z.min_r, firstn_all2 in Hk by (unfold Zlen in *; lia).
    rewrite El in Hk. discriminate Hk. }
  destruct a as [|x0 a0] using rev_ind; [done|]. rewrite Zlen_app in *. change (Zlen [x0]) with 1 in *. pose proof (Zlen_nonneg a0).
  rewrite Z.add_simpl_r, u64_small, Z.min_l in Hk by (unfold npos in *; lia).
  replace (firstn (Z.to_nat (Zlen a0)) l) with a0 in Hk by (rewrite El, <- !app_assoc; symmetry; by apply firstn_Zlen_app).
  apply (Hfit a0 x0 c Hk). rewrite El. exists [], []. rewrite app_nil_r, <- !app_assoc. done.
Qed.

Lemma reading_trans s s1 s2 : reading s s1 -> reading s1 s2 -> reading s s2.
Proof. intros [H1 _] [H2 H]. split; [by eapply same_frames_trans|done]. Qed.

Lemma ws_header_lines_wp ls s (E : exn -> _ -> Prop) : Forall (fun l => Zlen l < npos /\ versions_fit l) ls -> version_ok s ->
  wp (for_each ls ws_header_line) (fun _ s' => reading s s') E s.
Proof.
  intros Hl Hs. apply (wp_for_each ls ws_header_line (fun s' => reading s s') E).
  - intros l s1 Hin H1. apply (proj1 (List.Forall_forall _ _) Hl) in Hin as [Hn Hf]. eapply wp_weaken; [apply ws_header_line_wp; [done|done|apply H1]| |done].
    intros [] s2 H2. by eapply reading_trans.
  - split; [by unfold same_frames|done].
Qed.

Lemma check_header_wp key value m1 m2 s : version_ok s -> bstr key <> bstr "sec-websocket-version" ->
  wp (check_header key value m1 m2) (fun _ s' => reading s s') (fun _ s' => reading s s') s.
Proof.
  intros Hs Hk. unfold check_header. apply wp_bind, wp_get. destruct (smap_find _ _) as [v|]; [|split; [by unfold same_frames|done]].
  apply wp_bind, wp_modify. set (s1 := s <| wheaders_ ::= smap_set (bstr key) (String2Lower v) |>).
  assert (H1 : reading s s1).
  { split; [by destruct s|]. intros x Hx. replace (wheaders_ s1) with (smap_set (bstr key) (String2Lower v) (wheaders_ s)) in Hx by (by destruct s).
    revert Hx. by apply version_set. }
  by destruct (beqb _ _).
Qed.

(** The head has been handled, whatever came of it. *)
Definition handled s s' : Prop :=
  http_request_ready_ s' = true /\ frame_ (base_ s') = frame_ (base_ s) /\ recv_buffer_vec_ (base_ s') = recv_buffer_vec_ (base_ s) /\
  is_open (env_ (base_ s')) = true.

Lemma OnHandleHttpRequest_wp s content : bq_rep (http_recv_buffer_ s) content -> Zlen content < 2 ^ 30 -> versions_fit content -> version_ok s ->
  is_open (env_ (base_ s)) = true ->
  wp (OnHandleHttpRequest on_handle) (fun z s' => z = 1 /\ s' = s \/ z = 0 /\ handled s s') (fun _ s' => handled s s') s.
Proof.
  intros Hb Hl Hfit Hv Hopn. unfold OnHandleHttpRequest. apply wp_bind, wp_get.
  apply wp_bind. eapply wp_lift; [by apply bq_string_law|].
  destruct (find_spec (CRLF ++ CRLF) content) as [[-> _]|(a & c & Ec & Ef & _)]; [unfold npos; lia|rewrite Z.eqb_refl; by left|].
  assert (Ea : Zlen content = Zlen a + 4 + Zlen c) by (rewrite Ec, !Zlen_app; change (Zlen CRLF) with 2; lia).
  pose proof (Zlen_nonneg a). pose proof (Zlen_nonneg c). rewrite Ef, (proj2 (Z.eqb_neq _ _)) by (unfold npos; lia).
  apply wp_bind, wp_modify. set (s1 := s <| http_request_ready_ := true |>).
  assert (Hh : forall s', same_frames s1 s' -> handled s s') by (intros s' (G1 & G2 & G3 & G4); unfold handled, is_open; rewrite G1, G2, G3, G4; by destruct s).
  assert (Hv1 : version_ok s1) by (by destruct s). assert (Hself : handled s s1) by (apply Hh; by unfold same_frames). clearbody s1.
  rewrite to_nat_Zlen, Ec, firstn_app_len.
  assert (Hlines : Forall (fun l => Zlen l < npos /\ versions_fit l) (StringSplit a CRLF)).
  { apply List.Forall_forall. intros l Hin. assert (Hil : infix l content).
    { eapply infix_trans; [apply (StringSplit_infix a CRLF); [discriminate|unfold npos; lia|exact Hin]|]. rewrite Ec. by exists [], ((CRLF ++ CRLF) ++ c). }
    pose proof (infix_len _ _ Hil). split; [unfold npos; lia|exact (versions_fit_infix _ _ Hil Hfit)]. }
  destruct (StringSplit a CRLF) as [|first lines]; [exact Hself|]. apply Forall_cons in Hlines as [_ Hlines].
  destruct (StringSplit first (bstr " ")) as [|m [|p [|w [|? ?]]]]; try exact Hself.
  apply wp_bind, wp_modify. set (s2 := s1 <| wmethod_ := m |> <| path_ := p |>).
  assert (H2 : reading s1 s2) by (by destruct s1). destruct (smap_find p _) as [h|]; [|by apply Hh, H2].
  apply wp_bind, wp_modify. set (s3 := s2 <| wmethod_ ::= String2Lower |>).
  assert (H3 : reading s1 s3) by (by destruct s1). clearbody s3. clear s2 H2.
  assert (Hread : forall s', reading s1 s' -> handled s s') by (intros s' [Hs' _]; by apply Hh).
  apply wp_bind. eapply wp_weaken; [apply (ws_header_lines_wp lines s3 (fun _ _ => False)); [exact Hlines|apply H3]| |done]. intros [] s4 H4.
  pose proof (reading_trans _ _ _ H3 H4) as H14.
  apply wp_bind. eapply wp_weaken; [apply check_header_wp; [apply H4|discriminate]| |intros e s' Hs'; apply Hread; by eapply reading_trans]. intros [] s5 H5.
  pose proof (reading_trans _ _ _ H14 H5) as H15.
  apply wp_bind. eapply wp_weaken; [apply check_header_wp; [apply H5|discriminate]| |intros e s' Hs'; apply Hread; by eapply reading_trans]. intros [] s6 H6.
  pose proof (reading_trans _ _ _ H15 H6) as H16.
  apply wp_bind, wp_get, wp_bind. pose proof (proj2 H6) as Hver. unfold version_ok in Hver.
  assert (Hat : exists n, match smap_find (bstr "sec-websocket-version") (wheaders_ s6) with Some v => atoi v | None => Ok 13 end = Ok n).
  { destruct (smap_find _ (wheaders_ s6)) as [v|]; [|by eexists]. specialize (Hver v eq_refl).
    destruct (atoi v) as [n|e|] eqn:En; [by eexists|exfalso; by apply (atoi_throws v e)|done]. }
  destruct Hat as [n En]. eapply wp_lift; [exact En|]. apply wp_bind, wp_modify.
  destruct (smap_find (bstr "sec-websocket-key") _) as [k|]; [|apply Hread; eapply reading_trans; [exact H16|]; by destruct s6].
  apply wp_bind, wp_modify. set (s7 := _ <| sec_ws_key_ := k |>).
  assert (H7 : reading s1 s7) by (eapply reading_trans; [exact H16|]; by destruct s6). clearbody s7.
  apply wp_bind. assert (Hproto : wp (match smap_find (bstr "sec-webSocket-protocol") (wheaders_ s6) with
      | Some v => modify (fun s => s <| sec_ws_protocol_ := v |>) | None => mret tt end) (fun _ s' => reading s1 s') (fun _ s' => handled s s') s7).
  { destruct (smap_find (bstr "sec-webSocket-protocol") _) as [v|]; [|exact H7]. apply wp_modify. eapply reading_trans; [exact H7|]. destruct H7 as [_ H7]. by destruct s7. }
  eapply wp_weaken; [exact Hproto| |done]. intros [] s8 H8. apply wp_bind, wp_modify, wp_ret. right. split; [done|].
  destruct (Hread s8 H8) as (G1 & G2 & G3 & G4). unfold handled. destruct s8 as [[]]. split_and!; [done..|]. by apply Hhandle.
Qed.

(** ** The session *)

(** What the loop does with a session: [TcpSession::OnRead] and [OnWrite] pass nothing on when [close_] is set;
    [OnTcpClose] deletes the handle some time after [uv_close]; the timer is not stopped by either. *)
Inductive ws_event : Type :=
| WsData (now ret_code : Z) (data : bytes)
| WsWritten (ret_code : Z)
| WsTick (now : Z)
| WsTcpClosed.
Definition OnTcpClose (e : Env) : Env := match tcp_ e with HandleClosed => set_tcp e HandleDeleted | _ => e end.
Definition unless_closed (m : eff (WsSession Q) unit) : eff (WsSession Q) unit :=
  s ← get; if is_open (env_ (base_ s)) then m else mret tt.
Definition ws_serve (x : ws_event) : eff (WsSession Q) unit :=
  match x with
  | WsData now ret_code data => unless_closed (OnRead SHA1 random on_handle now ret_code data)
  | WsWritten ret_code => unless_closed (ws_OnWrite ret_code)
  | WsTick now => OnTimer random now
  | WsTcpClosed => upd_env OnTcpClose
  end.
(** The reads that bring data. *)
Definition ws_reads (evs : list ws_event) : list bytes :=
  omap (fun x => match x with WsData _ ret_code data => if ret_code <? 0 then None else Some data | _ => None end) evs.

(** Ready for the reads to come: before the head is complete [pre] has been read; after it, [pend] is buffered and [vec] are
    the fragments so far. *)
Definition ready_for (c : Z) s (rest : list bytes) : Prop :=
  Zlen (concat rest) < 2 ^ 30 /\ c < 2 ^ 30 /\
  if http_request_ready_ s then exists pend vec k used, base_inv (base_ s) pend vec /\ stream_ok (pend ++ concat rest) = true /\
    bq_elastic c (fbuffer_ (frame_ (base_ s))) k /\ c - used <= k /\ 0 <= used /\ reads_fit c used pend rest = true
  else exists pre, bq_rep (http_recv_buffer_ s) pre /\ bq_packed (http_recv_buffer_ s) /\ Zlen (pre ++ concat rest) < 2 ^ 30 /\
    versions_fit (pre ++ concat rest) /\ version_ok s /\ base_inv (base_ s) [] [] /\ bq_elastic c (fbuffer_ (frame_ (base_ s))) c /\ frames_fit c rest.

(** The connection is open, or has been closed after a Close. *)
Definition shut (e : Env) : Prop := tcp_ e = HandleClosed /\ close_ e = true.
Definition deleted (e : Env) : Prop := tcp_ e = HandleDeleted /\ close_ e = true.
Definition frames_known s : Prop := exists pend vec, base_inv (base_ s) pend vec.
Definition live (c : Z) s (rest : list bytes) : Prop :=
  is_open (env_ (base_ s)) = true /\ ready_for c s rest \/
  (shut (env_ (base_ s)) \/ deleted (env_ (base_ s))) /\ frames_known s.
(** An exception leaves a session only after it has closed its connection. *)
Definition write_fails (x : exn) s : Prop := x = write_error /\ shut (env_ (base_ s)).

(** What happens to the environment is no matter. *)
Lemma ready_env c s rest f : ready_for c s rest -> ready_for c (with_env s f) rest.
Proof. unfold ready_for, base_inv, version_ok. by destruct s as [[]]. Qed.
Lemma live_open c f s rest E : ready_for c s rest -> is_open (f (env_ (base_ s))) = true ->
  wp (upd_env f) (fun _ s' => live c s' rest) E s.
Proof. intros H Ho. left. change (is_open (env_ (base_ (with_env s f))) = true /\ ready_for c (with_env s f) rest). rewrite with_env_env. split; [done|by apply ready_env]. Qed.
Lemma live_read c s rest E : ready_for c s rest -> is_open (env_ (base_ s)) = true ->
  wp (on_session AsyncRead) (fun _ s' => live c s' rest) E s.
Proof. intros H Ho. unfold wp. rewrite read_open by done. left. rewrite with_env_env. split; [done|by apply ready_env]. Qed.

(** *** The replies to frames *)

Definition env_ok (e : Env) : Prop := is_open e = true \/ shut e.
Definition env_throws (x : exn) (e : Env) : Prop := x = write_error /\ shut e.

Lemma AsyncWrite_wp d e : env_ok e -> wp (AsyncWrite d) (fun _ => env_ok) env_throws e.
Proof.
  intros [Ho|Hs]; [unfold wp; rewrite AsyncWrite_open by done; by left|].
  unfold AsyncWrite. apply wp_bind, wp_get. destruct Hs as [Ht Hc]. rewrite Ht. done.
Qed.
Lemma session_SendWsFrame_wp d op e : env_ok e -> wp (session_SendWsFrame random d op) (fun _ => env_ok) env_throws e.
Proof.
  intros He. unfold session_SendWsFrame. apply wp_bind. unfold wp at 1. cbn [draw_key]. set (e1 := set_rand _ _).
  assert (H1 : env_ok e1) by exact He.
  apply wp_bind. eapply wp_weaken; [by apply AsyncWrite_wp| |done]. intros [] e2 H2.
  apply wp_bind. eapply wp_weaken; [by apply AsyncWrite_wp| |done]. intros [] e3 H3. by apply AsyncWrite_wp.
Qed.
Lemma session_HandleWsClose_wp d e : env_ok e -> wp (session_HandleWsClose random d) (fun _ => env_ok) env_throws e.
Proof.
  intros He. destruct (close_ e) eqn:Ec; [unfold session_HandleWsClose; apply wp_bind, wp_get; by rewrite Ec|].
  destruct He as [Ho|[_ Hc]]; [|congruence]. destruct (session_HandleWsClose_closes random e d Ec Ho) as (e' & E & H).
  unfold wp. rewrite E. by right.
Qed.
Lemma dispatch_wp now op items e : env_ok e -> wp (dispatch (EP := session_endpoint) random now op items) (fun _ => env_ok) env_throws e.
Proof.
  intros He. unfold dispatch, HandleWsPing.
  repeat (match goal with |- context [if ?b then _ else _] => destruct b end); try exact He.
  - apply wp_for_each; [|done]. intros x s1 _ H1. by apply session_SendWsFrame_wp.
  - apply wp_for_each; [|done]. intros x s1 _ H1. by apply session_HandleWsClose_wp.
  - apply wp_for_each; [|done]. intros x s1 _ H1. apply wp_modify. unfold HandleWsData. by repeat case_match.
  - apply wp_for_each; [|done]. intros x s1 _ H1. apply wp_modify. unfold HandleWsData. by repeat case_match.
Qed.
Lemma on_frames_wp now frs st : env_ok (snd st) ->
  wp (on_frames (EP := session_endpoint) random now frs) (fun _ st => env_ok (snd st)) (fun x st => env_throws x (snd st)) st.
Proof.
  intros H. apply (wp_for_each frs _ (fun st => env_ok (snd st))); [|done]. intros fr [v e] _ He. unfold wp, on_frame. cbn [snd] in He.
  set (e1 := if is_data_op _ then _ else _). assert (H1 : env_ok (set_die e1 0)) by (unfold e1; by destruct (is_data_op _)).
  destruct (wf_fin fr); [|unfold e1; by destruct (is_data_op _)].
  pose proof (dispatch_wp now (wf_op fr) (v ++ [wf_payload fr]) _ H1) as Hd. unfold wp in Hd. by destruct (dispatch _ _ _ _ _).
Qed.

(** The read that ends the head. *)
Lemma ready_handled c s s' rest : handled s s' -> base_inv (base_ s) [] [] -> bq_elastic c (fbuffer_ (frame_ (base_ s))) c -> frames_fit c rest ->
  Zlen (concat rest) < 2 ^ 30 -> c < 2 ^ 30 -> ready_for c s' rest.
Proof.
  intros (H1 & H2 & H3 & _) Hi Hk Hf H30 Hc. destruct (Hf 0%nat) as [F1 F2]. unfold ready_for. rewrite H1. split; [done|]. split; [done|].
  exists [], [], c, 0. unfold base_inv. rewrite H2, H3. split; [done|]. split; [exact F1|]. split; [done|]. split; [lia|]. split; [lia|exact F2].
Qed.

Lemma SendHttpResponse_handled s1 s : handled s1 s -> exists s2, SendHttpResponse SHA1 s = Done s2 tt /\ handled s1 s2.
Proof.
  intros H. set (h := GenWebSocketHashcode SHA1 (sec_ws_key_ s)).
  exists (with_env (s <| hash_code_ := h |>) (fun e => emit e [TcpWrite (switching_response h)])). split.
  - unfold SendHttpResponse, GenHashcode. rewrite bind_assoc. erewrite bind_done by reflexivity. rewrite bind_assoc.
    erewrite bind_done by reflexivity. erewrite bind_done by reflexivity. apply write_open. destruct H as (_ & _ & _ & Ho). by destruct s.
  - unfold handled in *. by destruct s as [[]].
Qed.

Lemma read_head c s now d rest : http_request_ready_ s = false -> is_open (env_ (base_ s)) = true -> ready_for c s (d :: rest) ->
  wp (OnRead SHA1 random on_handle now 0 d) (fun _ s' => live c s' rest) write_fails s.
Proof.
  intros Hr Hopn (H30 & Hc & H). rewrite Hr in H. destruct H as (pre & Hb & Hp & Hpl & Hfit & Hver & Hi & Hk & Hok). cbn [concat] in *.
  rewrite app_assoc in Hpl, Hfit. pose proof (Zlen_nonneg d). pose proof (Zlen_nonneg (concat rest)). rewrite Zlen_app in H30.
  assert (Hl : Zlen (pre ++ d) < 2 ^ 30) by (rewrite Zlen_app in Hpl; lia). pose proof (frames_fit_more _ _ _ Hok) as Hok'.
  assert (Hf1 : versions_fit (pre ++ d)) by (eapply versions_fit_infix; [|exact Hfit]; by exists [], (concat rest)).
  destruct (bq_packed_append _ _ d Hb Hp) as (b & E & Hb' & Hp'); [by rewrite <- Zlen_app|].
  unfold OnRead. change (0 <? 0) with false. cbv iota. apply wp_bind, wp_get. rewrite Hr. cbn [negb]. apply wp_bind. eapply wp_lift; [exact E|].
  apply wp_bind, wp_modify. set (s1 := s <| http_recv_buffer_ := b |>).
  assert (Hend : forall s', handled s1 s' -> ready_for c s' rest).
  { intros s' Hh. apply (ready_handled c s1 s' rest); [done|by destruct s|by destruct s|done|lia|lia]. }
  assert (Hopn1 : is_open (env_ (base_ s1)) = true) by (by destruct s).
  apply wp_try, wp_bind. eapply wp_weaken.
  - apply (OnHandleHttpRequest_wp s1 (pre ++ d)); [by destruct s|done|done|by destruct s|done].
  - intros z s' [[-> ->]|[-> Hh]].
    + change (1 =? 1) with true. cbv iota. apply live_read; [|done]. unfold ready_for. replace (http_request_ready_ s1) with false by (destruct s; done).
      split; [lia|]. split; [lia|]. exists (pre ++ d).
      split; [by destruct s|]. split; [by destruct s|]. split; [done|]. split; [done|]. split; [by destruct s|]. split; [by destruct s|].
      split; [by destruct s|done].
    + change (0 =? 1) with false. change (0 =? 0) with true. cbv iota. destruct (SendHttpResponse_handled s1 s' Hh) as (s2 & E2 & H2).
      apply wp_bind. unfold wp at 1. rewrite E2. apply wp_bind, wp_modify.
      assert (H3 : handled s1 (s2 <| http_recv_buffer_ ::= bq_reset |>)) by (unfold handled in *; by destruct s2 as [[]]).
      apply live_read; [by apply Hend|apply H3].
  - intros e s' Hh. apply live_open; [by apply Hend|]. destruct Hh as (_ & _ & _ & Ho). exact Ho.
Qed.

Lemma read_frames c s now d rest : http_request_ready_ s = true -> is_open (env_ (base_ s)) = true -> ready_for c s (d :: rest) ->
  wp (OnRead SHA1 random on_handle now 0 d) (fun _ s' => live c s' rest) write_fails s.
Proof.
  intros Hr Hopn (H30 & Hc & H). rewrite Hr in H. destruct H as (pend & vec & k & used & Hi & Hok & Hk & Hku & Hu0 & Hfit).
  cbn [concat reads_fit] in *. rewrite app_assoc in Hok. apply andb_true_iff in Hfit as [Hfit Hrest]. apply Z.leb_le in Hfit.
  rewrite Zlen_app in H30. pose proof (Zlen_nonneg d). pose proof (Zlen_nonneg (concat rest)).
  destruct (bq_fill_law (Zlen d) d) as (q & q' & E1 & E2 & Hq); [lia|lia|].
  destruct (decode_frames_app _ _ Hok) as (Ok1 & Ok2 & _).
  assert (Hroom : bq_room (fbuffer_ (frame_ (base_ s))) (Zlen d)) by (eapply bq_slack_room; [eapply bq_elastic_slack; exact Hk|apply Hi|lia]).
  pose proof (HandleFrame_spec (EP := session_endpoint) random now (base_ s) pend vec d Hi (or_intror Hroom) Ok1) as Hs.
  destruct (decode_frames (pend ++ d)) as [frs r]. cbn [snd] in Ok2, Hrest.
  pose proof (on_frames_wp now frs (vec, env_ (base_ s)) (or_introl Hopn)) as Hw. unfold wp in Hw.
  unfold OnRead. change (0 <? 0) with false. cbv iota. apply wp_bind, wp_get. rewrite Hr. cbn [negb].
  apply wp_bind. eapply wp_lift; [exact E1|]. apply wp_bind. eapply wp_lift; [exact E2|]. apply wp_bind. eapply wp_lift; [by apply bq_string_law|].
  apply wp_bind. unfold wp at 1, run_frames, on_base, zoom.
  destruct (on_frames random now frs (vec, env_ (base_ s))) as [[v e] []|[v e] x|]; cbn [ends_as snd] in Hs, Hw; [| |done].
  2: { destruct Hs as (w' & r' & -> & _ & <-). unfold write_fails. by destruct s. }
  destruct Hs as (w' & Ew & Hi' & He). rewrite Ew. set (s' := s <| base_ := w' |>).
  pose proof (HandleFrame_elastic (EP := session_endpoint) random now c _ _ _ _ _ Ew Hk ltac:(lia)) as Hsl.
  assert (Es : base_ s' = w') by (by destruct s). rewrite <- He in Hw. destruct Hw as [Ho|Hsh].
  2: { unfold wp, on_session, on_base, on_env, zoom, AsyncRead. erewrite bind_done by reflexivity. rewrite Es. unfold is_open at 1.
       destruct Hsh as [Ht Hcl]. rewrite Ht. right. unfold frames_known, base_inv. split; [left; by destruct s, w'|].
       exists r, v. destruct s, w'. exact Hi'. }
  apply live_read; [|by rewrite Es]. unfold ready_for. replace (http_request_ready_ s') with true by (by destruct s).
  rewrite Es. split; [lia|]. split; [lia|].
  exists r, v, (match r with [] => c | _ => k - Zlen d end), (match r with [] => 0 | _ => used + Zlen d end).
  split; [done|]. split; [done|]. split; [|destruct r; (split; [lia|]); (split; [lia|]); exact Hrest].
  destruct r; [|exact Hsl]. eapply bq_elastic_renewed; [exact Hsl|apply Hi'].
Qed.

(** One event: the session lives on, a write to the closed connection throws, or a tick finds the handle deleted. *)
Lemma ws_serve_step c x evs s : live c s (ws_reads (x :: evs)) ->
  match ws_serve x s with
  | Done s' _ => live c s' (ws_reads evs)
  | Raised s' e => write_fails e s'
  | Stuck => (exists now, x = WsTick now) /\ deleted (env_ (base_ s))
  end.
Proof.
  intros Hl. assert (Hwp : forall m : eff (WsSession Q) unit, wp m (fun _ s' => live c s' (ws_reads evs)) write_fails s ->
    match m s with Done s' _ => live c s' (ws_reads evs) | Raised s' e => write_fails e s'
    | Stuck => (exists now, x = WsTick now) /\ deleted (env_ (base_ s)) end).
  { intros m Hm. unfold wp in Hm. by destruct (m s). }
  assert (Hshut : (shut (env_ (base_ s)) \/ deleted (env_ (base_ s))) /\ frames_known s -> forall m, ws_serve x = unless_closed m ->
    wp (ws_serve x) (fun _ s' => live c s' (ws_reads evs)) write_fails s).
  { intros [Hc Hk] m ->. unfold unless_closed. apply wp_bind, wp_get.
    replace (is_open _) with false by (unfold is_open; by destruct Hc as [[-> _]|[-> _]]). by right. }
  destruct x as [now ret d|ret|now|]; cbn [ws_serve] in *.
  - apply Hwp. destruct Hl as [[Ho Hl]|Hc]; [|by eapply Hshut]. unfold unless_closed. apply wp_bind, wp_get. rewrite Ho.
    unfold ws_reads in Hl. cbn [omap list_omap] in Hl. fold (ws_reads evs) in Hl. destruct (ret <? 0) eqn:Er.
    + unfold OnRead. rewrite Er. by apply live_open.
    + assert (Eo : OnRead SHA1 random on_handle now ret d = OnRead SHA1 random on_handle now 0 d) by (unfold OnRead; by rewrite Er).
      rewrite Eo. destruct (http_request_ready_ s) eqn:Ehr; [by apply read_frames|by apply read_head].
  - apply Hwp. destruct Hl as [[Ho Hl]|Hc]; [|by eapply Hshut]. unfold unless_closed. apply wp_bind, wp_get. rewrite Ho.
    unfold ws_OnWrite. destruct (ret <? 0); [by apply live_open|by left].
  - unfold OnTimer. erewrite bind_done by reflexivity. destruct (negb _); [exact Hl|]. destruct (2000 <? _); [|exact Hl].
    erewrite bind_done by reflexivity. set (s1 := s <| base_ ::= _ |>).
    assert (Es : env_ (base_ s1) = set_ping (env_ (base_ s)) now) by (by destruct s).
    unfold on_session, on_base, on_env, zoom. rewrite Es. unfold SendPingFrame. cbv zeta. cbn [ep_send session_endpoint].
    set (e1 := set_ping _ _). set (data := [_; _; _; _]).
    destruct Hl as [[Ho Hl]|[[Hsh|[Hd Hcl]] Hk]].
    + rewrite session_SendWsFrame_open by done. left. split; [by destruct s|]. by destruct s as [[]].
    + pose proof (session_SendWsFrame_wp data WS_OP_PING_TYPE e1 (or_intror Hsh)) as Hw. unfold wp in Hw.
      destruct (session_SendWsFrame _ _ _ _) as [e2 []|e2 y|] eqn:E2; [| |done].
      * exfalso. destruct Hsh as [Ht _]. unfold session_SendWsFrame in E2. erewrite bind_done in E2 by reflexivity.
        unfold AsyncWrite in E2. unfold mbind, eff_bind in E2. cbn [get set_rand tcp_] in E2.
        change (tcp_ e1) with (tcp_ (env_ (base_ s))) in E2. by rewrite Ht in E2.
      * unfold write_fails. destruct s as [[]]. exact Hw.
    + unfold session_SendWsFrame. erewrite bind_done by reflexivity. unfold mbind at 1, eff_bind at 1, AsyncWrite.
      erewrite bind_done by reflexivity. cbn [set_rand tcp_]. change (tcp_ e1) with (tcp_ (env_ (base_ s))). rewrite Hd. cbn.
      split; [by eexists|by split].
  - change (live c (with_env s OnTcpClose) (ws_reads evs)). destruct Hl as [[Ho Hl]|[Hc Hk]].
    + left. rewrite with_env_env. unfold is_open, OnTcpClose in *. destruct (tcp_ (env_ (base_ s))) eqn:Et; try discriminate.
      rewrite Et. split; [done|]. by apply ready_env.
    + right. rewrite with_env_env. split; [right|unfold frames_known, base_inv in *; by destruct s as [[]]].
      unfold OnTcpClose, deleted. destruct Hc as [[Ht Hcl]|[Ht Hcl]]; rewrite Ht; done.
Qed.

Lemma ws_serve_all c evs : forall s, live c s (ws_reads evs) ->
  match for_each evs ws_serve s with
  | Done s' _ => live c s' []
  | Raised s' e => write_fails e s'
  | Stuck => exists evs1 now evs2 s1, evs = evs1 ++ WsTick now :: evs2 /\ for_each evs1 ws_serve s = Done s1 tt /\ deleted (env_ (base_ s1))
  end.
Proof.
  induction evs as [|x evs IH]; intros s Hs; [exact Hs|]. cbn [for_each]. pose proof (ws_serve_step c x evs s Hs) as Hx.
  unfold mbind, eff_bind. destruct (ws_serve x s) as [s1 []|s1 e|] eqn:Ex; [|exact Hx|].
  - specialize (IH s1 Hx). destruct (for_each evs ws_serve s1) as [| |]; [done..|].
    destruct IH as (evs1 & now & evs2 & s2 & -> & E & Hd). exists (x :: evs1), now, evs2, s2. split; [done|]. split; [|done].
    cbn [for_each]. by rewrite (bind_done _ _ _ _ _ Ex).
  - destruct Hx as [[now ->] Hd]. by exists [], now, evs, s.
Qed.
End request.

(** A session that has read nothing. *)
Lemma fresh_ready {Q : Type} {HQ : ByteQueue Q} {HQL : ByteQueueLaws Q} {HQP : ByteQueuePacked Q} {HQS : ByteQueueSized Q}
  c (s : WsSession Q) reads : session_fresh s -> base_inv (base_ s) [] [] -> bq_elastic c (fbuffer_ (frame_ (base_ s))) c -> c < 2 ^ 30 ->
  Zlen (concat reads) < 2 ^ 30 -> versions_fit (concat reads) -> frames_fit c reads -> ready_for c s reads.
Proof.
  intros (H1 & H2 & H3 & H4 & _) Hi Hk Hc Hl Hv Hf. split; [done|]. split; [done|]. rewrite H1. exists []. split; [done|]. split; [done|].
  split; [done|]. split; [done|]. split; [intros v E; by rewrite H2 in E|]. done.
Qed.


(** A request in two reads that is refused, a timer tick, a ping with a frame behind it that is cut, an error, and the rest. *)
Definition rude : list ws_event :=
  [WsData 1 0 (bstr "GET /nowhere"); WsData 2 0 (bstr " HTTP/1.1" ++ CRLF ++ bstr "Sec-WebSocket-Version: 7" ++ CRLF ++ CRLF); WsTick 4000;
   WsData 5 0 [137; 128; 1; 2; 3; 4; 129; 5; 104]; WsData 6 (-5) []; WsWritten (-1); WsData 7 0 (bstr "ello")].

(** It returns, with an open connection. *)
Example rude_done :
  match for_each rude (ws_serve demo_SHA1 (fun _ => 7) (fun _ _ e => set_cb e)) demo_ws_session with Done s _ => is_open (env_ (base_ s)) | _ => false end = true.
Proof. vm_compute. reflexivity. Qed.

(** Without the proviso: the answer to a version that does not fit is undefined. *)
Example version_overflows :
  for_each [WsData 1 0 (bstr "GET /chat HTTP/1.1" ++ CRLF ++ bstr "Connection: Upgrade" ++ CRLF ++ bstr "Upgrade: websocket" ++ CRLF ++
                        bstr "Sec-WebSocket-Version: 99999999999" ++ CRLF ++ CRLF)]
    (ws_serve demo_SHA1 (fun _ => 7) (fun _ _ e => e)) demo_ws_session = Stuck.
Proof. vm_compute. reflexivity. Qed.

(** Both failures after a Close, for a session that is reading frames: a Ping in the same read; a tick before and a tick after
    the handle has been deleted. *)
Definition talking_session : WsSession bytes :=
  demo_ws_session <| http_request_ready_ := true |> <| base_ ::= fun w => set_env w (set_connected (env_ w) true) |>.
Definition close_frame : bytes := ws_encode [3; 232] WS_OP_CLOSE_TYPE key1.
Definition talk (evs : list ws_event) : outc (WsSession bytes) unit :=
  for_each evs (ws_serve demo_SHA1 (fun _ => 7) (fun _ _ e => e)) talking_session.
Example ping_behind_close : match talk [WsData 1 0 (close_frame ++ ws_encode [9] WS_OP_PING_TYPE key1)] with Raised _ x => x = write_error | _ => False end.
Proof. vm_compute. done. Qed.
Example ping_after_close : match talk [WsData 1 0 close_frame; WsData 2 0 (ws_encode [9] WS_OP_PING_TYPE key1)] with Done s _ => close_ (env_ (base_ s)) = true | _ => False end.
Proof. vm_compute. done. Qed.
Example tick_after_close : match talk [WsData 1 0 close_frame; WsTick 4000] with Raised _ x => x = write_error | _ => False end.
Proof. vm_compute. done. Qed.
Example tick_after_delete : talk [WsData 1 0 close_frame; WsTcpClosed; WsTick 4000] = Stuck.
Proof. vm_compute. done. Qed.
