(* ===== verification/RtmpHandshake.v ===== *)
(** The RTMP handshake ([src/src/net/rtmp/co_rtmp/co_rtmp_handshake.cpp], [.hpp]).

    HMAC-SHA256 and Diffie-Hellman are OpenSSL's: [hmac] is the digest function and [dh] the
    shared-key computation, with what is used of them as hypotheses of the theorems.  [random]
    is the sequence of results of [random()]; functions that draw from it take and return the
    position in it.

    A [char*] to a heap block with its size field is [option bytes].  Text written through a
    moving pointer is the concatenation of the pieces; the final [assert] on the pointer is a
    test on its length.  Failing asserts and accesses outside a block are [Undef]. *)
From S2P Require Import Prelude Eff ByteStream ByteQueue.

Definition RTMP_HANDSHAKE_VERSION : Z := 3.
Definition RTMP_OK : Z := 0.
Definition RTMP_NEED_READ_MORE : Z := 1.
Definition RTMP_SIMPLE_HANDSHAKE : Z := 2.
Definition SCHEMA_INIT : Z := -1.
Definition SCHEMA0 : Z := 0.
Definition SCHEMA1 : Z := 1.

Definition GENUINE_FLASH_PLAYER_KEY : bytes :=
  [ 0x47; 0x65; 0x6E; 0x75; 0x69; 0x6E; 0x65; 0x20;
    0x41; 0x64; 0x6F; 0x62; 0x65; 0x20; 0x46; 0x6C;
    0x61; 0x73; 0x68; 0x20; 0x50; 0x6C; 0x61; 0x79;
    0x65; 0x72; 0x20; 0x30; 0x30; 0x31;
    0xF0; 0xEE; 0xC2; 0x4A; 0x80; 0x68; 0xBE; 0xE8;
    0x2E; 0x00; 0xD0; 0xD1; 0x02; 0x9E; 0x7E; 0x57;
    0x6E; 0xEC; 0x5D; 0x2D; 0x29; 0x80; 0x6F; 0xAB;
    0x93; 0xB8; 0xE6; 0x36; 0xCF; 0xEB; 0x31; 0xAE ].

(** [memcpy] out of and into a block. *)
Definition memcpy_from (data : bytes) (off n : Z) : res bytes :=
  if (0 <=? off) && (0 <=? n) && (off + n <=? Zlen data) then Ok (slice data off n) else Undef.
Definition memcpy_to (data : bytes) (off : Z) (x : bytes) : res bytes :=
  if (0 <=? off) && (off + Zlen x <=? Zlen data) then Ok (splice data off x) else Undef.
(** The four bytes [Write4Bytes] stores. *)
Definition put4 (v : Z) : bytes := [byte_at v 3; byte_at v 2; byte_at v 1; byte_at v 0].

(** [CalcValidDigestOffset], [CalcValidKeyOffset]: the sum of the bytes of the offset. *)
Definition sum4 (offset : Z) : Z := byte_at offset 0 + byte_at offset 1 + byte_at offset 2 + byte_at offset 3.
Definition CalcValidDigestOffset (offset : Z) : Z := sum4 offset mod (764 - 32 - 4).
Definition CalcValidKeyOffset (offset : Z) : Z := sum4 offset mod (764 - 128 - 4).

Record C1S1Handle : Type := mkC1S1 {
  schema_ : Z;
  c1_data_ : bytes;
  c1_time_ : Z;
  c1_version_ : Z;
  key_random0_ : option bytes;        (* with key_random0_size_ *)
  key_random1_ : option bytes;
  c1_key_offset_ : Z;
  c1_key_data_ : bytes;
  c1_digest_offset_ : Z;
  digest_random0_ : option bytes;     (* with digest_random0_size_ *)
  digest_random1_ : option bytes;
  digest_data_ : bytes;
  s1_time_sec_ : Z;
  s1_version_ : Z;
  s1_key_data_ : bytes;
  s1_digest_data_ : bytes }.

Record C2S2Handle : Type := mkC2S2 { random_ : bytes; digest_ : bytes }.

Record RtmpServerHandshake : Type := mkServerHandshake {
  c0_version_ : Z;
  c1s1_ : C1S1Handle;
  c2s2_ : C2S2Handle;
  s1_body_ : bytes;
  s2_body_ : bytes }.

Definition block (o : option bytes) : res bytes := match o with Some b => Ok b | None => Undef end.
Definition block_size (o : option bytes) : Z := match o with Some b => Zlen b | None => 0 end.

Section handshake.
Context (hmac : bytes -> bytes -> bytes) (dh : bytes -> option bytes) (dh_init : Z).
Context (random : nat -> Z) (now_ms : Z).

(** [RtmpRandomGenerate]. *)
Definition RtmpRandomGenerate (size : nat) (pos : nat) : bytes * nat :=
  (map (fun i => u8 (0x0f + random (pos + i)%nat mod (256 - 0x0f - 0x0f))) (seq 0 size), (pos + size)%nat).

(** [HmacSha256]; [None] is the error result. *)
Definition HmacSha256 (key data : bytes) : option bytes :=
  let digest := hmac key data in if Zlen digest =? 32 then Some digest else None.
(** The [n] bytes at [GENUINE_FLASH_PLAYER_KEY] that are hashed: the array has 62. *)
Definition player_key (n : Z) : res bytes := memcpy_from GENUINE_FLASH_PLAYER_KEY 0 n.

(** ** Parsing C1 *)

Definition ParseKey (h : C1S1Handle) (data : bytes) : res C1S1Handle :=
  o ← memcpy_from data (764 - 4) 4; off ← Read4Bytes o;
  let real_offset := CalcValidKeyOffset off in
  guard_res (real_offset <? 764 - 4) ;;
  k0 ← memcpy_from data 0 real_offset;
  key ← memcpy_from data real_offset 128;
  let size1 := u32 (764 - real_offset - 128 - 4) in
  guard_res (size1 <? 764 - 4) ;;
  k1 ← memcpy_from data (real_offset + 128) size1;
  guard_res (real_offset + 128 + size1 + 4 =? 764) ;;
  Ok (h <| c1_key_offset_ := off |> <| key_random0_ := Some k0 |> <| c1_key_data_ := key |>
        <| key_random1_ := Some k1 |>).

Definition ParseDigest (h : C1S1Handle) (data : bytes) : res C1S1Handle :=
  o ← memcpy_from data 0 4; off ← Read4Bytes o;
  let real_offset := CalcValidDigestOffset off in
  guard_res (real_offset <? 764 - 4) ;;
  r0 ← memcpy_from data 4 real_offset;
  d ← memcpy_from data (4 + real_offset) 32;
  let size1 := u32 (764 - 4 - real_offset - 32) in
  guard_res (size1 <? 764 - 4) ;;
  r1 ← memcpy_from data (4 + real_offset + 32) size1;
  guard_res (4 + real_offset + 32 + size1 =? 764) ;;
  Ok (h <| c1_digest_offset_ := off |> <| digest_random0_ := Some r0 |> <| digest_data_ := d |>
        <| digest_random1_ := Some r1 |>).

Definition TrySchema0 (h : C1S1Handle) (data : bytes) : res C1S1Handle :=
  h ← ParseKey h data; ParseDigest h (skipn 764 data).
Definition TrySchema1 (h : C1S1Handle) (data : bytes) : res C1S1Handle :=
  h ← ParseDigest h data; ParseKey h (skipn 764 data).

(** The error results of the hash functions are converted to [true]. *)
Definition CheckDigestValid (h : C1S1Handle) (schema : Z) : res bool :=
  if negb ((schema =? SCHEMA0) || (schema =? SCHEMA1)) then Ok true
  else
    let first_part_len :=
      if schema =? SCHEMA0 then 8 + 764 + 4 + block_size (digest_random0_ h)
      else 8 + 4 + block_size (digest_random0_ h) in
    let second_part_len := u64 (1536 - first_part_len - 32) in
    a ← memcpy_from (c1_data_ h) 0 first_part_len;
    b ← memcpy_from (c1_data_ h) (first_part_len + 32) second_part_len;
    guard_res (first_part_len + second_part_len =? 1536 - 32) ;;
    key ← player_key 30;
    let c1_digest := hmac key (a ++ b) in
    guard_res (Zlen c1_digest =? 32) ;;
    BytesIsEqual (digest_data_ h) c1_digest 32.

Definition ParseC1 (h : C1S1Handle) (c1 : bytes) : res (C1S1Handle * Z) :=
  d ← memcpy_from c1 0 1536;
  t ← Read4Bytes c1;
  v ← Read4Bytes (skipn 4 c1);
  let h := h <| c1_data_ := d |> <| c1_time_ := t |> <| c1_version_ := v |> in
  let p := skipn 8 c1 in
  h ← TrySchema1 h p;
  is_valid ← CheckDigestValid h SCHEMA1;
  if negb is_valid then
    h ← TrySchema0 h p;
    is_valid ← CheckDigestValid h SCHEMA0;
    if negb is_valid then Ok (h <| schema_ := SCHEMA0 |>, RTMP_SIMPLE_HANDSHAKE)
    else Ok (h <| schema_ := SCHEMA0 |>, 0)
  else Ok (h <| schema_ := SCHEMA1 |>, 0).

(** ** Making S1 *)

Definition MakeS1Digest (h : C1S1Handle) : res (option bytes) :=
  k0 ← block (key_random0_ h); k1 ← block (key_random1_ h);
  r0 ← block (digest_random0_ h); r1 ← block (digest_random1_ h);
  let joined_bytes := put4 (s1_time_sec_ h) ++ put4 (s1_version_ h) ++
    k0 ++ c1_key_data_ h ++ k1 ++ put4 (c1_key_offset_ h) ++
    put4 (c1_digest_offset_ h) ++ r0 ++ r1 in
  guard_res (Zlen joined_bytes =? 1536 - 32) ;;
  key ← player_key 36;
  Ok (HmacSha256 key joined_bytes).

Definition MakeKey (h : C1S1Handle) : res bytes :=
  k0 ← block (key_random0_ h); k1 ← block (key_random1_ h);
  Ok (k0 ++ s1_key_data_ h ++ k1 ++ put4 (c1_key_offset_ h)).
Definition MakeDigest (h : C1S1Handle) : res bytes :=
  r0 ← block (digest_random0_ h); r1 ← block (digest_random1_ h);
  Ok (put4 (c1_digest_offset_ h) ++ r0 ++ s1_digest_data_ h ++ r1).

Definition MakeSchema0 (h : C1S1Handle) (buf : bytes) (off : Z) : res bytes :=
  k ← MakeKey h; buf ← memcpy_to buf off k;
  d ← MakeDigest h; memcpy_to buf (off + 764) d.
Definition MakeSchema1 (h : C1S1Handle) (buf : bytes) (off : Z) : res bytes :=
  d ← MakeDigest h; buf ← memcpy_to buf off d;
  k ← MakeKey h; memcpy_to buf (off + 764) k.

(** [DHGenKey::CopySharedKey] with 128-byte keys. *)
Definition CopySharedKey (ppkey skey : bytes) : res (Z * bytes) :=
  match dh ppkey with
  | None => Ok (-1, skey)
  | Some out =>
      skey ← memcpy_to skey 0 out;
      Ok (if 128 <? Zlen out then -1 else 0, skey)
  end.

(** The new handle, the result and the buffer [s1_data]. *)
Definition MakeS1 (h : C1S1Handle) (s1_data : bytes) : res (C1S1Handle * Z * bytes) :=
  let h := h <| s1_time_sec_ := c1_time_ h |> <| s1_version_ := 0x01000504 |> in
  if negb (dh_init =? 0) then Ok (h, dh_init, s1_data)
  else
    kr ← CopySharedKey (c1_key_data_ h) (s1_key_data_ h);
    let h := h <| s1_key_data_ := snd kr |> in
    if negb (fst kr =? 0) then Ok (h, fst kr, s1_data)
    else
      s1_digest ← MakeS1Digest h;
      match s1_digest with
      | None => Ok (h, -1, s1_data)
      | Some dg =>
          d ← memcpy_from dg 0 32;
          let h := h <| s1_digest_data_ := d |> in
          s1_data ← memcpy_to s1_data 0 (put4 (s1_time_sec_ h) ++ put4 (s1_version_ h));
          if schema_ h =? SCHEMA0 then s1_data ← MakeSchema0 h s1_data 8; Ok (h, 0, s1_data)
          else if schema_ h =? SCHEMA1 then s1_data ← MakeSchema1 h s1_data 8; Ok (h, 0, s1_data)
          else Ok (h, -1, s1_data)
      end.

(** ** S2 *)

Definition C2S2Handle_new (pos : nat) : C2S2Handle * nat :=
  let '(r, pos) := RtmpRandomGenerate 1504 pos in
  let '(d, pos) := RtmpRandomGenerate 32 pos in (mkC2S2 r d, pos).
Definition Generate (c : C2S2Handle) (body : bytes) : res bytes :=
  body ← memcpy_to body 0 (random_ c); memcpy_to body 1504 (digest_ c).
Definition Parse_C2S2 (c : C2S2Handle) (body : bytes) : res C2S2Handle :=
  r ← memcpy_from body 0 1504; d ← memcpy_from body 1504 32; Ok (mkC2S2 r d).

(** The digest both functions compute: keyed by the digest of C1 under 68 bytes of the key,
    which has 62. *)
Definition s2_digest (c : C2S2Handle) (c1_digest : bytes) : res (option bytes) :=
  key ← player_key 68;
  Ok match HmacSha256 key c1_digest with
     | None => None
     | Some temp_key => HmacSha256 temp_key (random_ c)
     end.
Definition CreateByDigest (c : C2S2Handle) (c1_digest : bytes) : res (C2S2Handle * Z) :=
  o ← s2_digest c c1_digest;
  Ok match o with
     | None => (c, -1)
     | Some d => (c <| digest_ := d |>, 0)
     end.
(** The error result is converted to [true]. *)
Definition ValidateS2 (c : C2S2Handle) (c1_digest : bytes) : res bool :=
  o ← s2_digest c c1_digest;
  match o with
  | None => Ok true
  | Some d => BytesIsEqual (digest_ c) d 32
  end.

(** ** The server *)

Definition ParseC0C1 (s : RtmpServerHandshake) (c0c1 : bytes) : res (RtmpServerHandshake * Z) :=
  c0 ← memcpy_from c0c1 0 1;
  let s := s <| c0_version_ := nth 0 c0 0 |> in
  r ← ParseC1 (c1s1_ s) (skipn 1 c0c1);
  Ok (s <| c1s1_ := fst r |>, snd r).

Definition MakeS1Data (s : RtmpServerHandshake) : res (RtmpServerHandshake * option bytes) :=
  r ← MakeS1 (c1s1_ s) (s1_body_ s);
  let '(h, ret, body) := r in
  let s := s <| c1s1_ := h |> <| s1_body_ := body |> in
  Ok (s, if negb (ret =? 0) then None else Some body).

Definition MakeS2Data (s : RtmpServerHandshake) : res (RtmpServerHandshake * option bytes) :=
  r ← CreateByDigest (c2s2_ s) (digest_data_ (c1s1_ s));
  let '(c, ret) := r in
  let s := s <| c2s2_ := c |> in
  if negb (ret =? 0) then Ok (s, None)
  else
    is_valid ← ValidateS2 c (digest_data_ (c1s1_ s));
    if negb is_valid then Ok (s, None)
    else
      body ← Generate c (s2_body_ s);
      Ok (s <| s2_body_ := body |>, Some body).

(** The handshake object, the random position, the result and the vector. *)
Definition SendS0S1S2 (s : RtmpServerHandshake) (pos : nat) : res (RtmpServerHandshake * nat * Z * bytes) :=
  let '(buf, pos) := RtmpRandomGenerate 3073 pos in
  buf ← memcpy_to buf 0 [RTMP_HANDSHAKE_VERSION];
  r1 ← MakeS1Data s;
  match r1 with
  | (s, None) => Ok (s, pos, -1, buf)
  | (s, Some s1_data) =>
      buf ← memcpy_to buf 1 s1_data;
      r2 ← MakeS2Data s;
      match r2 with
      | (s, None) => Ok (s, pos, -1, buf)
      | (s, Some s2_data) =>
          buf ← memcpy_to buf (1 + Zlen s1_data) s2_data;
          Ok (s, pos, RTMP_NEED_READ_MORE, buf)
      end
  end.

Section buffer.
Context {Q : Type} {HQ : ByteQueue Q}.
Definition Require_ (q : Q) (len : Z) : bool := s32 len <=? bq_len q.

(** [HandleC0C1] leaves the buffer as it is. *)
Definition HandleC0C1 (s : RtmpServerHandshake) (recv_buffer : Q) : res (RtmpServerHandshake * Z) :=
  if negb (Require_ recv_buffer (1 + 1536)) then Ok (s, RTMP_NEED_READ_MORE)
  else data ← bq_peek recv_buffer 0 (1 + 1536); ParseC0C1 s data.
Definition HandleC2 (s : RtmpServerHandshake) (recv_buffer : Q) : res (Q * Z) :=
  if negb (Require_ recv_buffer 1536) then Ok (recv_buffer, RTMP_NEED_READ_MORE)
  else recv_buffer ← bq_consume recv_buffer 1536; Ok (recv_buffer, RTMP_OK).
End buffer.

(** ** The client *)

Definition PrepareDigest (h : C1S1Handle) (pos : nat) : C1S1Handle * nat :=
  let off := u32 (random pos) in
  let real_offset := CalcValidDigestOffset off in
  let '(r0, pos) := RtmpRandomGenerate (Z.to_nat real_offset) (S pos) in
  let '(d, pos) := RtmpRandomGenerate 32 pos in
  let '(r1, pos) := RtmpRandomGenerate (Z.to_nat (u32 (764 - 4 - real_offset - 32))) pos in
  (h <| c1_digest_offset_ := off |> <| digest_random0_ := Some r0 |> <| digest_data_ := d |>
     <| digest_random1_ := Some r1 |>, pos).
Definition PrepareKey (h : C1S1Handle) (pos : nat) : C1S1Handle * nat :=
  let off := u32 (random pos) in
  let real_offset := CalcValidKeyOffset off in
  let '(k0, pos) := RtmpRandomGenerate (Z.to_nat real_offset) (S pos) in
  let '(key, pos) := RtmpRandomGenerate 128 pos in
  let '(k1, pos) := RtmpRandomGenerate (Z.to_nat (u32 (764 - real_offset - 128 - 4))) pos in
  (h <| c1_key_offset_ := off |> <| key_random0_ := Some k0 |> <| c1_key_data_ := key |>
     <| key_random1_ := Some k1 |>, pos).

Definition MakeC1Scheme1Digest (h : C1S1Handle) (pos : nat) : res (C1S1Handle * nat * option bytes) :=
  let '(h, pos) := PrepareDigest h pos in
  let '(h, pos) := PrepareKey h pos in
  let h := h <| c1_time_ := u32 now_ms |> <| c1_version_ := 0x80000702 |> in
  r0 ← block (digest_random0_ h); r1 ← block (digest_random1_ h);
  k0 ← block (key_random0_ h); k1 ← block (key_random1_ h);
  let joined := put4 (c1_time_ h) ++ put4 (c1_version_ h) ++ put4 (c1_digest_offset_ h) ++ r0 ++ r1 ++
    k0 ++ c1_key_data_ h ++ k1 ++ put4 (c1_key_offset_ h) in
  guard_res (Zlen joined =? 1536 - 32) ;;
  key ← player_key 30;
  Ok (h, pos, HmacSha256 key joined).

(** The handle, the random position, and the text or the error result -1. *)
Definition MakeC0C1 (h : C1S1Handle) (pos : nat) : res (C1S1Handle * nat * option bytes) :=
  r ← MakeC1Scheme1Digest h pos;
  match r with
  | (h, pos, None) => Ok (h, pos, None)
  | (h, pos, Some digest) =>
      if block_size (digest_random0_ h) <=? 0 then Ok (h, pos, None)
      else
        r0 ← block (digest_random0_ h);
        d ← memcpy_from digest 0 32;
        if block_size (digest_random1_ h) <=? 0 then Ok (h, pos, None)
        else
          r1 ← block (digest_random1_ h);
          k0 ← block (key_random0_ h); k1 ← block (key_random1_ h);
          let c0c1 := [RTMP_HANDSHAKE_VERSION] ++ put4 (c1_time_ h) ++ put4 (c1_version_ h) ++
            put4 (c1_digest_offset_ h) ++ r0 ++ d ++ r1 ++
            k0 ++ c1_key_data_ h ++ k1 ++ put4 (c1_key_offset_ h) in
          guard_res (Zlen c0c1 =? 1 + 1536) ;;
          Ok (h, pos, Some c0c1)
  end.

Definition ParseS0S1S2 (h : C1S1Handle) (s0s1s2 : bytes) : res (C1S1Handle * Z) :=
  v ← memcpy_from s0s1s2 0 1;
  if negb (nth 0 v 0 =? RTMP_HANDSHAKE_VERSION) then Ok (h, -1)
  else
    t ← Read4Bytes (skipn 1 s0s1s2);
    ver ← Read4Bytes (skipn 5 s0s1s2);
    Ok (h <| s1_time_sec_ := t |> <| s1_version_ := ver |>, 0).

Definition MakeC2 (h : C1S1Handle) (pos : nat) : res (bytes * nat) :=
  let '(c2, pos) := RtmpRandomGenerate 1536 pos in
  c2 ← memcpy_to c2 0 (put4 (u32 now_ms));
  c2 ← memcpy_to c2 4 (put4 (s1_time_sec_ h));
  Ok (c2, pos).
End handshake.

(** ** Blocks *)

Lemma Read4Bytes_put4 v rest : 0 <= v < 2 ^ 32 -> Read4Bytes (put4 v ++ rest) = Ok v.
Proof.
  intros H. unfold put4. cbn [app Read4Bytes].
  change [byte_at v 0; byte_at v 1; byte_at v 2; byte_at v 3] with (le_bytes 4 v).
  rewrite le_word_bytes. change (2 ^ (8 * Z.of_nat 4)) with (2 ^ 32). rewrite Z.mod_small by done. done.
Qed.
Lemma Read4Bytes_inv data : bytes_ok data -> 4 <= Zlen data ->
  exists v, Read4Bytes data = Ok v /\ 0 <= v < 2 ^ 32 /\ firstn 4 data = put4 v.
Proof.
  intros Hb Hl. destruct data as [|a [|b [|c [|d data]]]]; try (exfalso; unfold Zlen in Hl; cbn in Hl; lia).
  apply Forall_cons in Hb as [Ha Hb]. apply Forall_cons in Hb as [Hb Hc]. apply Forall_cons in Hc as [Hc Hd].
  apply Forall_cons in Hd as [Hd _].
  assert (Hok : bytes_ok [d; c; b; a]) by (repeat (constructor; [done|]); constructor).
  exists (le_word [d; c; b; a]). split; [done|]. split; [apply (le_word_range _ Hok)|].
  pose proof (le_bytes_word _ Hok) as E. cbn [length] in E. unfold le_bytes in E. cbn [seq map] in E.
  revert E. generalize (le_word [d; c; b; a]). intros w E. injection E as E0 E1 E2 E3. unfold put4. cbn [firstn].
  change (Z.of_nat 0) with 0 in E0. change (Z.of_nat 1) with 1 in E1. change (Z.of_nat 2) with 2 in E2.
  change (Z.of_nat 3) with 3 in E3. rewrite E0, E1, E2, E3. done.
Qed.

Lemma byte_at_range v k : 0 <= byte_at v k < 256.
Proof. apply byte_at_ok. Qed.
Lemma put4_len v : Zlen (put4 v) = 4.
Proof. done. Qed.
Lemma put4_ok v : bytes_ok (put4 v).
Proof. repeat (constructor; [apply byte_at_ok|]). constructor. Qed.
Lemma digest_offset_range off : 0 <= CalcValidDigestOffset off < 728.
Proof. apply Z.mod_pos_bound. lia. Qed.
Lemma key_offset_range off : 0 <= CalcValidKeyOffset off < 632.
Proof. apply Z.mod_pos_bound. lia. Qed.

Lemma memcpy_from_app a d c off n : off = Zlen a -> n = Zlen d -> memcpy_from (a ++ d ++ c) off n = Ok d.
Proof.
  intros -> ->. unfold memcpy_from. rewrite (slice_app a d c) by done.
  rewrite !(proj2 (Z.leb_le _ _)) by zlen. done.
Qed.
Lemma memcpy_from_head d c n : n = Zlen d -> memcpy_from (d ++ c) 0 n = Ok d.
Proof. apply (memcpy_from_app [] d c). done. Qed.
Lemma memcpy_from_tail a d off n : off = Zlen a -> n = Zlen d -> memcpy_from (a ++ d) off n = Ok d.
Proof. intros. rewrite <- (app_nil_r d) at 1. apply (memcpy_from_app a d []); done. Qed.
Lemma memcpy_from_all d n : n = Zlen d -> memcpy_from d 0 n = Ok d.
Proof. intros ->. rewrite <- (app_nil_r d) at 1. apply (memcpy_from_app [] d []); done. Qed.
Lemma memcpy_to_app a d d' c off : off = Zlen a -> Zlen d' = Zlen d ->
  memcpy_to (a ++ d ++ c) off d' = Ok (a ++ d' ++ c).
Proof.
  intros -> E. unfold memcpy_to. rewrite splice_app by done. rewrite !(proj2 (Z.leb_le _ _)) by zlen. done.
Qed.

Definition digest_block (off : Z) (r0 d r1 : bytes) : bytes := put4 off ++ r0 ++ d ++ r1.
Definition key_block (off : Z) (k0 key k1 : bytes) : bytes := k0 ++ key ++ k1 ++ put4 off.
Record digest_ok (off : Z) (r0 d r1 : bytes) : Prop := {
  do_off : 0 <= off < 2 ^ 32; do_r0 : Zlen r0 = CalcValidDigestOffset off;
  do_d : Zlen d = 32; do_r1 : Zlen r1 = 728 - Zlen r0 }.
Record key_ok (off : Z) (k0 key k1 : bytes) : Prop := {
  ko_off : 0 <= off < 2 ^ 32; ko_k0 : Zlen k0 = CalcValidKeyOffset off;
  ko_key : Zlen key = 128; ko_k1 : Zlen k1 = 632 - Zlen k0 }.

Lemma digest_block_len off r0 d r1 : digest_ok off r0 d r1 -> Zlen (digest_block off r0 d r1) = 764.
Proof. intros [_ _ H1 H2]. unfold digest_block. rewrite !Zlen_app, put4_len. lia. Qed.
Lemma key_block_len off k0 key k1 : key_ok off k0 key k1 -> Zlen (key_block off k0 key k1) = 764.
Proof. intros [_ _ H1 H2]. unfold key_block. rewrite !Zlen_app, put4_len. lia. Qed.

Definition with_digest (h : C1S1Handle) (off : Z) (r0 d r1 : bytes) : C1S1Handle :=
  h <| c1_digest_offset_ := off |> <| digest_random0_ := Some r0 |> <| digest_data_ := d |>
    <| digest_random1_ := Some r1 |>.
Definition with_key (h : C1S1Handle) (off : Z) (k0 key k1 : bytes) : C1S1Handle :=
  h <| c1_key_offset_ := off |> <| key_random0_ := Some k0 |> <| c1_key_data_ := key |>
    <| key_random1_ := Some k1 |>.

Lemma ParseDigest_block h off r0 d r1 rest : digest_ok off r0 d r1 ->
  ParseDigest h (digest_block off r0 d r1 ++ rest) = Ok (with_digest h off r0 d r1).
Proof.
  intros [Ho H0 Hd H1]. pose proof (digest_offset_range off) as Hr. unfold ParseDigest, digest_block.
  rewrite <- !app_assoc. rewrite (memcpy_from_head (put4 off)) by done. cbn [mbind res_bind].
  rewrite <- (app_nil_r (put4 off)) at 1. rewrite Read4Bytes_put4 by done. cbn [mbind res_bind]. rewrite <- H0 in *.
  rewrite (memcpy_from_app (put4 off) r0 _ 4) by (rewrite ?put4_len; lia).
  rewrite (app_assoc (put4 off) r0), (memcpy_from_app (put4 off ++ r0) d _ (4 + Zlen r0)) by (rewrite ?Zlen_app, ?put4_len; lia).
  rewrite u32_small by lia. rewrite (app_assoc (put4 off ++ r0) d).
  rewrite (memcpy_from_app ((put4 off ++ r0) ++ d) r1 _ (4 + Zlen r0 + 32)) by (rewrite ?Zlen_app, ?put4_len; lia).
  unfold guard_res. rewrite !(proj2 (Z.ltb_lt _ _)) by lia. rewrite (proj2 (Z.eqb_eq _ _)) by lia. done.
Qed.

Lemma ParseKey_block h off k0 key k1 rest : key_ok off k0 key k1 ->
  ParseKey h (key_block off k0 key k1 ++ rest) = Ok (with_key h off k0 key k1).
Proof.
  intros [Ho H0 Hd H1]. pose proof (key_offset_range off) as Hr. unfold ParseKey, key_block.
  rewrite <- !app_assoc. replace (k0 ++ key ++ k1 ++ put4 off ++ rest) with ((k0 ++ key ++ k1) ++ put4 off ++ rest) at 1
    by (rewrite <- !app_assoc; done).
  rewrite (memcpy_from_app (k0 ++ key ++ k1) (put4 off) _ (764 - 4)) by (rewrite ?Zlen_app, ?put4_len; lia). cbn [mbind res_bind].
  rewrite <- (app_nil_r (put4 off)) at 1. rewrite Read4Bytes_put4 by done. cbn [mbind res_bind]. rewrite <- H0 in *.
  rewrite (memcpy_from_head k0 _ (Zlen k0)) by lia. rewrite (memcpy_from_app k0 key _ (Zlen k0) 128) by lia.
  rewrite u32_small by lia. rewrite (app_assoc k0 key).
  rewrite (memcpy_from_app (k0 ++ key) k1 _ (Zlen k0 + 128)) by (rewrite ?Zlen_app; lia).
  unfold guard_res. rewrite !(proj2 (Z.ltb_lt _ _)) by lia. rewrite (proj2 (Z.eqb_eq _ _)) by lia. done.
Qed.

(** Every 764 bytes are a digest block and a key block. *)
Lemma take_drop_Z (l : bytes) n : 0 <= n <= Zlen l -> exists a b, l = a ++ b /\ Zlen a = n.
Proof.
  intros H. exists (firstn (Z.to_nat n) l), (skipn (Z.to_nat n) l). split; [rewrite take_drop; done|].
  rewrite Zlen_take by lia. lia.
Qed.
Lemma split_digest data : bytes_ok data -> Zlen data = 764 ->
  exists off r0 d r1, data = digest_block off r0 d r1 /\ digest_ok off r0 d r1.
Proof.
  intros Hb Hl. destruct (Read4Bytes_inv data Hb) as (off & _ & Ho & E4); [lia|].
  pose proof (digest_offset_range off) as Hr. pose proof (take_drop 4 data) as Et. rewrite E4 in Et.
  rewrite <- Et, Zlen_app, put4_len in Hl. set (rest := skipn 4 data) in *.
  destruct (take_drop_Z rest (CalcValidDigestOffset off)) as (r0 & x & E0 & H0); [lia|]. rewrite E0, Zlen_app in Hl.
  destruct (take_drop_Z x 32) as (d & r1 & E1 & H1); [lia|]. rewrite E1, Zlen_app in Hl.
  exists off, r0, d, r1. split; [|constructor; lia].
  unfold digest_block. rewrite <- Et, E0, E1. done.
Qed.
Lemma split_key data : bytes_ok data -> Zlen data = 764 ->
  exists off k0 key k1, data = key_block off k0 key k1 /\ key_ok off k0 key k1.
Proof.
  intros Hb Hl. destruct (take_drop_Z data 760) as (x & o & Ex & Hx); [lia|].
  assert (Hol : Zlen o = 4) by (rewrite Ex, Zlen_app in Hl; lia).
  rewrite Ex in Hb. apply bytes_ok_app in Hb as [_ Hb].
  destruct (Read4Bytes_inv o Hb) as (off & _ & Ho & E4); [lia|].
  rewrite firstn_all2 in E4 by (unfold Zlen in Hol; lia). pose proof (key_offset_range off) as Hr.
  destruct (take_drop_Z x (CalcValidKeyOffset off)) as (k0 & y & E0 & H0); [lia|]. rewrite E0, Zlen_app in Hx.
  destruct (take_drop_Z y 128) as (key & k1 & E1 & H1); [lia|]. rewrite E1, Zlen_app in Hx.
  exists off, k0, key, k1. split; [|constructor; lia].
  unfold key_block. rewrite Ex, E0, E1, E4, <- !app_assoc. done.
Qed.

(** ** C1 *)

Section c1.
Context (hmac : bytes -> bytes -> bytes).
Context (Hmac : forall k d, Zlen (hmac k d) = 32).
Implicit Types h : C1S1Handle.
Let check := CheckDigestValid hmac.
Let key30 := firstn 30 GENUINE_FLASH_PLAYER_KEY.

Lemma CheckDigestValid_split h schema a d b : c1_data_ h = a ++ d ++ b ->
  (schema = SCHEMA0 /\ Zlen a = 776 + block_size (digest_random0_ h) \/
   schema = SCHEMA1 /\ Zlen a = 12 + block_size (digest_random0_ h)) ->
  Zlen d = 32 -> Zlen b = 1504 - Zlen a -> Zlen (digest_data_ h) = 32 ->
  check h schema = Ok (bool_decide (digest_data_ h = hmac key30 (a ++ b))).
Proof.
  intros E Hs Hd Hb Hdd. pose proof (Zlen_nonneg a). pose proof (Zlen_nonneg b). unfold check, CheckDigestValid.
  assert (Hn : negb ((schema =? SCHEMA0) || (schema =? SCHEMA1)) = false) by (destruct Hs as [[-> _]|[-> _]]; done).
  rewrite Hn. clear Hn.
  assert (Hf : (if schema =? SCHEMA0 then 8 + 764 + 4 + block_size (digest_random0_ h) else 8 + 4 + block_size (digest_random0_ h)) = Zlen a).
  { destruct Hs as [[-> Ha]|[-> Ha]]; [change (SCHEMA0 =? SCHEMA0) with true|change (SCHEMA1 =? SCHEMA0) with false]; cbv iota; lia. }
  cbv zeta. rewrite Hf, E. rewrite u64_small by lia.
  rewrite (memcpy_from_head a) by done. cbn [mbind res_bind].
  change (player_key 30) with (Ok key30). rewrite (app_assoc a d), (memcpy_from_tail (a ++ d) b) by (rewrite ?Zlen_app; lia).
  replace (Zlen a + (1536 - Zlen a - 32) =? 1536 - 32) with true by (symmetry; apply Z.eqb_eq; lia).
  change (guard_res true) with (Ok tt). cbn [mbind res_bind]. rewrite Hmac.
  change (guard_res (32 =? 32)) with (Ok tt). cbn [mbind res_bind]. pose proof (Hmac key30 (a ++ b)) as Hm.
  unfold Zlen in Hm, Hdd. rewrite BytesIsEqual_spec by lia. rewrite !firstn_all2 by lia. done.
Qed.

(** C1 with the digest first, or with the key first. *)
Definition c1_schema1 (t v : Z) (dblock kblock : bytes) : bytes := put4 t ++ put4 v ++ dblock ++ kblock.
Definition c1_schema0 (t v : Z) (kblock dblock : bytes) : bytes := put4 t ++ put4 v ++ kblock ++ dblock.
(** The same without the digest. *)
Definition input1 (t v off : Z) (r0 r1 kblock : bytes) : bytes := put4 t ++ put4 v ++ put4 off ++ r0 ++ r1 ++ kblock.
Definition input0 (t v off : Z) (kblock r0 r1 : bytes) : bytes := put4 t ++ put4 v ++ kblock ++ put4 off ++ r0 ++ r1.

Lemma check1 h t v off r0 d r1 kb : c1_data_ h = c1_schema1 t v (digest_block off r0 d r1) kb ->
  digest_ok off r0 d r1 -> Zlen kb = 764 -> digest_random0_ h = Some r0 -> digest_data_ h = d ->
  check h SCHEMA1 = Ok (bool_decide (d = hmac key30 (input1 t v off r0 r1 kb))).
Proof.
  intros E [Ho H0 Hd H1] Hk Hr Hdd.
  rewrite (CheckDigestValid_split h SCHEMA1 (put4 t ++ put4 v ++ put4 off ++ r0) d (r1 ++ kb)).
  - rewrite Hdd. unfold input1. rewrite <- !app_assoc. done.
  - rewrite E. unfold c1_schema1, digest_block. rewrite <- !app_assoc. done.
  - right. split; [done|]. rewrite Hr, !Zlen_app, !put4_len. cbn [block_size]. lia.
  - done.
  - rewrite !Zlen_app, !put4_len. lia.
  - congruence.
Qed.
Lemma check0 h t v off r0 d r1 kb : c1_data_ h = c1_schema0 t v kb (digest_block off r0 d r1) ->
  digest_ok off r0 d r1 -> Zlen kb = 764 -> digest_random0_ h = Some r0 -> digest_data_ h = d ->
  check h SCHEMA0 = Ok (bool_decide (d = hmac key30 (input0 t v off kb r0 r1))).
Proof.
  intros E [Ho H0 Hd H1] Hk Hr Hdd.
  rewrite (CheckDigestValid_split h SCHEMA0 (put4 t ++ put4 v ++ kb ++ put4 off ++ r0) d r1).
  - rewrite Hdd. unfold input0. rewrite <- !app_assoc. done.
  - rewrite E. unfold c1_schema0, digest_block. rewrite <- !app_assoc. done.
  - left. split; [done|]. rewrite Hr, !Zlen_app, !put4_len. cbn [block_size]. lia.
  - done.
  - rewrite !Zlen_app, !put4_len. lia.
  - congruence.
Qed.

(** What the fields of a handle stand for: C1, and C1 without its digest. *)
Definition digest_of h : bytes :=
  digest_block (c1_digest_offset_ h) (default [] (digest_random0_ h)) (digest_data_ h) (default [] (digest_random1_ h)).
Definition key_of h : bytes :=
  key_block (c1_key_offset_ h) (default [] (key_random0_ h)) (c1_key_data_ h) (default [] (key_random1_ h)).
Definition c1_text h : bytes :=
  if schema_ h =? SCHEMA1 then c1_schema1 (c1_time_ h) (c1_version_ h) (digest_of h) (key_of h)
  else c1_schema0 (c1_time_ h) (c1_version_ h) (key_of h) (digest_of h).
Definition c1_unsigned h : bytes :=
  let r0 := default [] (digest_random0_ h) in let r1 := default [] (digest_random1_ h) in
  if schema_ h =? SCHEMA1 then input1 (c1_time_ h) (c1_version_ h) (c1_digest_offset_ h) r0 r1 (key_of h)
  else input0 (c1_time_ h) (c1_version_ h) (c1_digest_offset_ h) (key_of h) r0 r1.
(** A handle with all blocks of their sizes. *)
Record parsed h : Prop := {
  pa_time : 0 <= c1_time_ h < 2 ^ 32;
  pa_blocks : exists r0 r1 k0 k1, digest_random0_ h = Some r0 /\ digest_random1_ h = Some r1 /\
    key_random0_ h = Some k0 /\ key_random1_ h = Some k1 /\
    digest_ok (c1_digest_offset_ h) r0 (digest_data_ h) r1 /\ key_ok (c1_key_offset_ h) k0 (c1_key_data_ h) k1 }.

Lemma parsed_with h t off r0 d r1 koff k0 key k1 s : 0 <= t < 2 ^ 32 -> c1_time_ h = t ->
  digest_ok off r0 d r1 -> key_ok koff k0 key k1 ->
  parsed ((with_key (with_digest h off r0 d r1) koff k0 key k1) <| schema_ := s |>) /\
  parsed ((with_digest (with_key h koff k0 key k1) off r0 d r1) <| schema_ := s |>).
Proof. intros Ht <- Hd Hk. destruct h. split; (constructor; [done|]; exists r0, r1, k0, k1; done). Qed.

(** The fields after reading C1 as SCHEMA1 and as SCHEMA0. *)
Lemma TrySchema1_block h off r0 d r1 koff k0 key k1 : digest_ok off r0 d r1 -> key_ok koff k0 key k1 ->
  TrySchema1 h (digest_block off r0 d r1 ++ key_block koff k0 key k1) = Ok (with_key (with_digest h off r0 d r1) koff k0 key k1).
Proof.
  intros Hd Hk. unfold TrySchema1. rewrite ParseDigest_block by done. cbn [mbind res_bind].
  change 764%nat with (Z.to_nat 764). rewrite skipn_Zlen_app by (symmetry; apply digest_block_len; done).
  rewrite <- (app_nil_r (key_block koff k0 key k1)). apply ParseKey_block. done.
Qed.
Lemma TrySchema0_block h off r0 d r1 koff k0 key k1 : digest_ok off r0 d r1 -> key_ok koff k0 key k1 ->
  TrySchema0 h (key_block koff k0 key k1 ++ digest_block off r0 d r1) = Ok (with_digest (with_key h koff k0 key k1) off r0 d r1).
Proof.
  intros Hd Hk. unfold TrySchema0. rewrite ParseKey_block by done. cbn [mbind res_bind].
  change 764%nat with (Z.to_nat 764). rewrite skipn_Zlen_app by (symmetry; apply key_block_len; done).
  rewrite <- (app_nil_r (digest_block off r0 d r1)). apply ParseDigest_block. done.
Qed.

(** The time and version fields of C1. *)
Definition c1_head h (t v : Z) (c1 : bytes) : C1S1Handle := h <| c1_data_ := c1 |> <| c1_time_ := t |> <| c1_version_ := v |>.

Lemma ParseC1_start h t v body rest : 0 <= t < 2 ^ 32 -> 0 <= v < 2 ^ 32 -> Zlen body = 1528 ->
  ParseC1 hmac h (put4 t ++ put4 v ++ body ++ rest) =
  (let h := c1_head h t v (put4 t ++ put4 v ++ body) in
   let p := body ++ rest in
   h ← TrySchema1 h p;
   is_valid ← check h SCHEMA1;
   if negb is_valid then
     h ← TrySchema0 h p;
     is_valid ← check h SCHEMA0;
     if negb is_valid then Ok (h <| schema_ := SCHEMA0 |>, RTMP_SIMPLE_HANDSHAKE)
     else Ok (h <| schema_ := SCHEMA0 |>, 0)
   else Ok (h <| schema_ := SCHEMA1 |>, 0)).
Proof.
  intros Ht Hv Hl. unfold ParseC1.
  replace (put4 t ++ put4 v ++ body ++ rest) with ((put4 t ++ put4 v ++ body) ++ rest) by (rewrite <- !app_assoc; done).
  rewrite memcpy_from_head by (rewrite !Zlen_app, !put4_len; lia). rewrite <- !app_assoc. cbn [mbind res_bind].
  rewrite Read4Bytes_put4 by done. cbn [mbind res_bind].
  change (skipn 4 (put4 t ++ put4 v ++ body ++ rest)) with (put4 v ++ body ++ rest).
  rewrite Read4Bytes_put4 by done. cbn [mbind res_bind]. reflexivity.
Qed.

(** Every C1 is two blocks in either order. *)
Lemma split_c1 c1 : bytes_ok c1 -> Zlen c1 = 1536 ->
  exists t v off r0 d r1 koff k0 key k1 off' r0' d' r1' koff' k0' key' k1',
    c1 = c1_schema1 t v (digest_block off r0 d r1) (key_block koff k0 key k1) /\
    c1 = c1_schema0 t v (key_block koff' k0' key' k1') (digest_block off' r0' d' r1') /\
    0 <= t < 2 ^ 32 /\ 0 <= v < 2 ^ 32 /\ digest_ok off r0 d r1 /\ key_ok koff k0 key k1 /\
    digest_ok off' r0' d' r1' /\ key_ok koff' k0' key' k1'.
Proof.
  intros Hb Hl. destruct (Read4Bytes_inv c1 Hb) as (t & _ & Ht & Et); [lia|]. pose proof (take_drop 4 c1) as E. rewrite Et in E.
  set (c2 := skipn 4 c1) in *. assert (Hb2 : bytes_ok c2) by (apply bytes_ok_skipn; done).
  assert (Hl2 : Zlen c2 = 1532) by (rewrite <- E, Zlen_app, put4_len in Hl; lia).
  destruct (Read4Bytes_inv c2 Hb2) as (v & _ & Hv & Ev); [lia|]. pose proof (take_drop 4 c2) as E2. rewrite Ev in E2.
  set (p := skipn 4 c2) in *. assert (Hbp : bytes_ok p) by (apply bytes_ok_skipn; done).
  assert (Hlp : Zlen p = 1528) by (rewrite <- E2, Zlen_app, put4_len in Hl2; lia).
  destruct (take_drop_Z p 764) as (x & y & Ep & Hx); [lia|]. assert (Hy : Zlen y = 764) by (rewrite Ep, Zlen_app in Hlp; lia).
  rewrite Ep in Hbp. apply bytes_ok_app in Hbp as [Hbx Hby].
  destruct (split_digest x Hbx Hx) as (off & r0 & d & r1 & Ex & Hd). destruct (split_key y Hby Hy) as (koff & k0 & key & k1 & Ey & Hk).
  destruct (split_digest y Hby Hy) as (off' & r0' & d' & r1' & Ey' & Hd'). destruct (split_key x Hbx Hx) as (koff' & k0' & key' & k1' & Ex' & Hk').
  exists t, v, off, r0, d, r1, koff, k0, key, k1, off', r0', d', r1', koff', k0', key', k1'.
  unfold c1_schema1, c1_schema0. rewrite <- Ex, <- Ey, <- Ex', <- Ey', <- Ep, E2, E. done.
Qed.
End c1.

(** [ParseC1] always returns: with the fields of one of the two schemas. *)
Lemma ParseC1_total (hmac : bytes -> bytes -> bytes) (h : C1S1Handle) (c1 : bytes)
  (Hmac : forall k d, Zlen (hmac k d) = 32) (Hb : bytes_ok c1) (Hl : Zlen c1 = 1536) :
  exists h' ret, ParseC1 hmac h c1 = Ok (h', ret) /\
    (parsed h' /\ c1_text h' = c1 /\ c1_data_ h' = c1 /\ s1_key_data_ h' = s1_key_data_ h /\
     (schema_ h' = SCHEMA0 \/ schema_ h' = SCHEMA1)) /\
    ((ret = 0 /\ digest_data_ h' = hmac (firstn 30 GENUINE_FLASH_PLAYER_KEY) (c1_unsigned h')) \/
     (ret = RTMP_SIMPLE_HANDSHAKE /\ schema_ h' = SCHEMA0 /\
      digest_data_ h' <> hmac (firstn 30 GENUINE_FLASH_PLAYER_KEY) (c1_unsigned h'))).
Proof.
  destruct (split_c1 c1 Hb Hl) as (t & v & off & r0 & d & r1 & koff & k0 & key & k1 & off' & r0' & d' & r1' &
    koff' & k0' & key' & k1' & E1 & E0 & Ht & Hv & Hd & Hk & Hd' & Hk').
  set (body := digest_block off r0 d r1 ++ key_block koff k0 key k1) in *.
  assert (Eb : body = key_block koff' k0' key' k1' ++ digest_block off' r0' d' r1').
  { unfold c1_schema1, c1_schema0 in E1, E0. rewrite E1 in E0. apply app_inv_head in E0. apply app_inv_head in E0. exact E0. }
  assert (Ec : c1 = put4 t ++ put4 v ++ body) by exact E1.
  assert (Hbl : Zlen body = 1528) by (rewrite Ec, !Zlen_app, !put4_len in Hl; lia).
  replace (ParseC1 hmac h c1) with (ParseC1 hmac h (put4 t ++ put4 v ++ body ++ []))
    by (rewrite app_nil_r, <- Ec; done).
  rewrite ParseC1_start by done. rewrite app_nil_r, <- Ec. cbv zeta. set (h0 := c1_head h t v c1).
  assert (Ht0 : c1_time_ h0 = t) by (destruct h; done).
  rewrite (TrySchema1_block h0 off r0 d r1 koff k0 key k1 Hd Hk : TrySchema1 h0 body = _). cbn [mbind res_bind]. set (h1 := with_key _ _ _ _ _).
  rewrite (check1 hmac Hmac h1 t v off r0 d r1 (key_block koff k0 key k1)) by
    (done || (apply key_block_len; done) || (destruct h; exact E1) || (destruct h; done)). cbn [mbind res_bind].
  case_bool_decide as Hv1; cbn [negb].
  - exists (h1 <| schema_ := SCHEMA1 |>), 0. split; [done|].
    split; [split_and!; [apply (proj1 (parsed_with h0 t _ _ _ _ _ _ _ _ _ Ht Ht0 Hd Hk))|rewrite E1|..|right]; destruct h; done|]. left. split; [done|]. destruct h. exact Hv1.
  - rewrite Eb, TrySchema0_block by done. cbn [mbind res_bind]. set (h2 := with_digest _ _ _ _ _).
    rewrite (check0 hmac Hmac h2 t v off' r0' d' r1' (key_block koff' k0' key' k1')) by
      (done || (apply key_block_len; done) || (destruct h; exact E0) || (destruct h; done)). cbn [mbind res_bind].
    assert (Hp : parsed (h2 <| schema_ := SCHEMA0 |>)).
    { apply (proj2 (parsed_with h1 t off' r0' d' r1' koff' k0' key' k1' SCHEMA0 Ht ltac:(destruct h; done) Hd' Hk')). }
    case_bool_decide as Hv0; cbn [negb]; (eexists _, _; split; [reflexivity|];
      split; [split_and!; [exact Hp|rewrite E0|..|left]; destruct h; done|]).
    + left. split; [done|]. destruct h. exact Hv0.
    + right. split; [done|]. split; [destruct h; done|]. destruct h. exact Hv0.
Qed.

(** C28: [ParseC1] on any 1536 bytes: no assert fails and no access leaves the block, whatever the
    two offsets say; the fields printed in the order of the chosen schema are the bytes read;
    and the result says whether the digest found is the HMAC of the rest. *)
Theorem ParseC1_spec (hmac : bytes -> bytes -> bytes) (h : C1S1Handle) (c1 : bytes)
  (Hmac : forall k d, Zlen (hmac k d) = 32) (Hb : bytes_ok c1) (Hl : Zlen c1 = 1536) :
  exists h' ret, ParseC1 hmac h c1 = Ok (h', ret) /\
    parsed h' /\ c1_text h' = c1 /\ c1_data_ h' = c1 /\
    ((ret = 0 /\ digest_data_ h' = hmac (firstn 30 GENUINE_FLASH_PLAYER_KEY) (c1_unsigned h')) \/
     (ret = RTMP_SIMPLE_HANDSHAKE /\ schema_ h' = SCHEMA0 /\
      digest_data_ h' <> hmac (firstn 30 GENUINE_FLASH_PLAYER_KEY) (c1_unsigned h'))).
Proof.
  destruct (ParseC1_total hmac h c1 Hmac Hb Hl) as (h' & ret & E & (H1 & H2 & H3 & _) & H4).
  exists h', ret. split_and!; done.
Qed.

(** ** The client's C0 and C1 *)

Section client.
Context (hmac : bytes -> bytes -> bytes) (random : nat -> Z) (now_ms : Z).
Context (Hmac : forall k d, Zlen (hmac k d) = 32).

Lemma RtmpRandomGenerate_len n pos l pos' : RtmpRandomGenerate random n pos = (l, pos') -> Zlen l = Z.of_nat n.
Proof. intros [= <- _]. unfold Zlen. rewrite length_map, length_seq. done. Qed.

Lemma PrepareDigest_spec h pos : exists off r0 d r1 pos', PrepareDigest random h pos = (with_digest h off r0 d r1, pos') /\
  off = u32 (random pos) /\ digest_ok off r0 d r1.
Proof.
  unfold PrepareDigest. pose proof (digest_offset_range (u32 (random pos))) as Hr.
  destruct (RtmpRandomGenerate random (Z.to_nat _) (S pos)) as [r0 p1] eqn:E0.
  destruct (RtmpRandomGenerate random 32 p1) as [d p2] eqn:E1.
  destruct (RtmpRandomGenerate random _ p2) as [r1 p3] eqn:E2.
  apply RtmpRandomGenerate_len in E0, E1, E2. rewrite u32_small in E2 by lia.
  eexists _, _, _, _, _. split; [reflexivity|]. split; [done|]. constructor; try lia. apply Z.mod_pos_bound. lia.
Qed.
Lemma PrepareKey_spec h pos : exists off k0 key k1 pos', PrepareKey random h pos = (with_key h off k0 key k1, pos') /\
  key_ok off k0 key k1.
Proof.
  unfold PrepareKey. pose proof (key_offset_range (u32 (random pos))) as Hr.
  destruct (RtmpRandomGenerate random (Z.to_nat _) (S pos)) as [k0 p1] eqn:E0.
  destruct (RtmpRandomGenerate random 128 p1) as [key p2] eqn:E1.
  destruct (RtmpRandomGenerate random _ p2) as [k1 p3] eqn:E2.
  apply RtmpRandomGenerate_len in E0, E1, E2. rewrite u32_small in E2 by lia.
  eexists _, _, _, _, _. split; [reflexivity|]. constructor; try lia. apply Z.mod_pos_bound. lia.
Qed.

Definition client_version : Z := 0x80000702.
(** The handle of a client that has made C1. *)
Definition client_handle h off r0 d r1 koff k0 key k1 : C1S1Handle :=
  (with_key (with_digest h off r0 d r1) koff k0 key k1) <| c1_time_ := u32 now_ms |> <| c1_version_ := client_version |>.

Lemma MakeC1Scheme1Digest_spec h pos : exists off r0 d r1 koff k0 key k1 pos',
  MakeC1Scheme1Digest hmac random now_ms h pos =
    Ok (client_handle h off r0 d r1 koff k0 key k1, pos', Some (hmac (firstn 30 GENUINE_FLASH_PLAYER_KEY)
      (input1 (u32 now_ms) client_version off r0 r1 (key_block koff k0 key k1)))) /\
  off = u32 (random pos) /\ digest_ok off r0 d r1 /\ key_ok koff k0 key k1.
Proof.
  destruct (PrepareDigest_spec h pos) as (off & r0 & d & r1 & p1 & E1 & Eo & Hd).
  destruct (PrepareKey_spec (with_digest h off r0 d r1) p1) as (koff & k0 & key & k1 & p2 & E2 & Hk).
  exists off, r0, d, r1, koff, k0, key, k1, p2. split; [|done]. unfold MakeC1Scheme1Digest. rewrite E1, E2.
  fold client_version. change ((with_key (with_digest h off r0 d r1) koff k0 key k1) <| c1_time_ := u32 now_ms |> <| c1_version_ := client_version |>)
    with (client_handle h off r0 d r1 koff k0 key k1). set (hc := client_handle h off r0 d r1 koff k0 key k1).
  assert (F : digest_random0_ hc = Some r0 /\ digest_random1_ hc = Some r1 /\ key_random0_ hc = Some k0 /\
    key_random1_ hc = Some k1 /\ c1_time_ hc = u32 now_ms /\ c1_version_ hc = client_version /\
    c1_digest_offset_ hc = off /\ c1_key_data_ hc = key /\ c1_key_offset_ hc = koff) by (destruct h; done).
  destruct F as (-> & -> & -> & -> & -> & -> & -> & -> & ->). cbn [block mbind res_bind].
  change (k0 ++ key ++ k1 ++ put4 koff) with (key_block koff k0 key k1).
  fold (input1 (u32 now_ms) client_version off r0 r1 (key_block koff k0 key k1)).
  pose proof (key_block_len _ _ _ _ Hk) as Hkl. destruct Hd as [_ Hr0 _ Hr1].
  assert (Hlen : Zlen (input1 (u32 now_ms) client_version off r0 r1 (key_block koff k0 key k1)) = 1536 - 32).
  { unfold input1. rewrite !Zlen_app, Hkl, !put4_len. lia. }
  rewrite Hlen. change (guard_res (1536 - 32 =? 1536 - 32)) with (Ok tt).
  change (player_key 30) with (Ok (firstn 30 GENUINE_FLASH_PLAYER_KEY)). cbn [mbind res_bind].
  unfold HmacSha256. rewrite Hmac. done.
Qed.
End client.

(** C18: what [MakeC0C1] makes is a valid C0 and C1 for this server: it is parsed as SCHEMA1 with
    a correct digest, and the time, version and key are the client's.  The one exception is a
    random digest offset that is 0 modulo 728: [MakeC0C1] takes the empty random block for an
    error and fails. *)
Theorem client_hello_accepted (hmac : bytes -> bytes -> bytes) (random : nat -> Z) (now_ms : Z)
  (h : C1S1Handle) (pos : nat) (s : RtmpServerHandshake)
  (Hmac : forall k d, Zlen (hmac k d) = 32) :
  (CalcValidDigestOffset (u32 (random pos)) = 0 ->
     exists h' pos', MakeC0C1 hmac random now_ms h pos = Ok (h', pos', None)) /\
  (CalcValidDigestOffset (u32 (random pos)) <> 0 ->
     exists h' pos' c0c1 s', MakeC0C1 hmac random now_ms h pos = Ok (h', pos', Some c0c1) /\
       Zlen c0c1 = 1537 /\ ParseC0C1 hmac s c0c1 = Ok (s', 0) /\
       c0_version_ s' = RTMP_HANDSHAKE_VERSION /\ schema_ (c1s1_ s') = SCHEMA1 /\
       c1_time_ (c1s1_ s') = u32 now_ms /\ c1_version_ (c1s1_ s') = client_version /\
       c1_key_data_ (c1s1_ s') = c1_key_data_ h' /\
       digest_data_ (c1s1_ s') = hmac (firstn 30 GENUINE_FLASH_PLAYER_KEY) (c1_unsigned (c1s1_ s'))).
Proof.
  destruct (MakeC1Scheme1Digest_spec hmac random now_ms Hmac h pos) as
    (off & r0 & d & r1 & koff & k0 & key & k1 & pos' & E & Eo & Hd & Hk).
  set (hc := client_handle now_ms h off r0 d r1 koff k0 key k1) in *.
  set (dg := hmac _ _) in E. assert (Hdg : Zlen dg = 32) by apply Hmac.
  unfold MakeC0C1. rewrite E. cbn [mbind res_bind]. rewrite <- Eo. pose proof Hd as [Hoff Hr0 Hdl Hr1].
  pose proof (digest_offset_range off) as Hrange.
  assert (F : digest_random0_ hc = Some r0 /\ digest_random1_ hc = Some r1 /\ key_random0_ hc = Some k0 /\
    key_random1_ hc = Some k1 /\ c1_time_ hc = u32 now_ms /\ c1_version_ hc = client_version /\
    c1_digest_offset_ hc = off /\ c1_key_data_ hc = key /\ c1_key_offset_ hc = koff) by (destruct h; done).
  destruct F as (-> & -> & -> & -> & -> & -> & -> & Ekey & ->). rewrite Ekey. cbn [block block_size mbind res_bind].
  split; intros H.
  - rewrite (proj2 (Z.leb_le _ _)) by lia. eauto.
  - rewrite !(proj2 (Z.leb_gt _ _)) by lia. rewrite (memcpy_from_all dg) by done. cbn [mbind res_bind].
    change (k0 ++ key ++ k1 ++ put4 koff) with (key_block koff k0 key k1). set (kb := key_block koff k0 key k1).
    assert (Hkb : Zlen kb = 764) by (apply key_block_len; done).
    replace (put4 off ++ r0 ++ dg ++ r1 ++ kb) with (digest_block off r0 dg r1 ++ kb)
      by (unfold digest_block; rewrite <- !app_assoc; done).
    assert (Hd' : digest_ok off r0 dg r1) by (constructor; lia).
    set (c1 := put4 (u32 now_ms) ++ put4 client_version ++ digest_block off r0 dg r1 ++ kb).
    assert (Hc1 : Zlen c1 = 1536) by (unfold c1; rewrite !Zlen_app, Hkb, (digest_block_len _ _ _ _ Hd'), !put4_len; lia).
    assert (Hc0 : Zlen ([RTMP_HANDSHAKE_VERSION] ++ c1) = 1537) by (rewrite Zlen_app; change (Zlen [RTMP_HANDSHAKE_VERSION]) with 1; lia).
    rewrite Hc0. change (guard_res (1537 =? 1 + 1536)) with (Ok tt). cbn [mbind res_bind].
    eexists hc, pos', ([RTMP_HANDSHAKE_VERSION] ++ c1), _. split; [reflexivity|]. split; [exact Hc0|].
    assert (Hpc : forall hs, ParseC1 hmac hs c1 =
      Ok ((with_key (with_digest (c1_head hs (u32 now_ms) client_version c1) off r0 dg r1) koff k0 key k1) <| schema_ := SCHEMA1 |>, 0)).
    { intros hs. unfold c1 at 1. rewrite <- (app_nil_r (digest_block off r0 dg r1 ++ kb)).
      rewrite ParseC1_start; [|apply Z.mod_pos_bound; lia|unfold client_version; lia|rewrite Zlen_app, Hkb, (digest_block_len _ _ _ _ Hd'); lia].
      rewrite app_nil_r. fold c1. cbv zeta.
      rewrite (TrySchema1_block (c1_head hs (u32 now_ms) client_version c1) off r0 dg r1 koff k0 key k1 Hd' Hk
        : TrySchema1 _ (digest_block off r0 dg r1 ++ kb) = _). cbn [mbind res_bind].
      rewrite (check1 hmac Hmac _ (u32 now_ms) client_version off r0 dg r1 kb) by (done || (destruct hs; done)).
      rewrite bool_decide_true by done. done. }
    unfold ParseC0C1. rewrite memcpy_from_head by done. cbn [mbind res_bind skipn app]. rewrite Hpc. cbn [mbind res_bind fst snd].
    split; [reflexivity|]. destruct s as [? []]. split_and!; done.
Qed.

(** ** The server's answer *)

(** The bytes [MakeS1Digest] signs, and S1 without its digest. *)
Definition s1_signed (h : C1S1Handle) : bytes :=
  input0 (s1_time_sec_ h) (s1_version_ h) (c1_digest_offset_ h) (key_of h)
    (default [] (digest_random0_ h)) (default [] (digest_random1_ h)).
Definition s1_key_block (h : C1S1Handle) : bytes :=
  key_block (c1_key_offset_ h) (default [] (key_random0_ h)) (s1_key_data_ h) (default [] (key_random1_ h)).
Definition s1_digest_block (h : C1S1Handle) : bytes :=
  digest_block (c1_digest_offset_ h) (default [] (digest_random0_ h)) (s1_digest_data_ h) (default [] (digest_random1_ h)).
Definition s1_text (h : C1S1Handle) : bytes :=
  if schema_ h =? SCHEMA1 then c1_schema1 (s1_time_sec_ h) (s1_version_ h) (s1_digest_block h) (s1_key_block h)
  else c1_schema0 (s1_time_sec_ h) (s1_version_ h) (s1_key_block h) (s1_digest_block h).
Definition s1_unsigned (h : C1S1Handle) : bytes :=
  let r0 := default [] (digest_random0_ h) in let r1 := default [] (digest_random1_ h) in
  if schema_ h =? SCHEMA1 then input1 (s1_time_sec_ h) (s1_version_ h) (c1_digest_offset_ h) r0 r1 (s1_key_block h)
  else input0 (s1_time_sec_ h) (s1_version_ h) (c1_digest_offset_ h) (s1_key_block h) r0 r1.

Definition server_version : Z := 0x01000504.

Section server.
Context (hmac : bytes -> bytes -> bytes) (dh : bytes -> option bytes).
Context (Hmac : forall k d, Zlen (hmac k d) = 32).
Implicit Types h : C1S1Handle.

Lemma MakeS1Digest_spec h : parsed h ->
  MakeS1Digest hmac h = Ok (Some (hmac (firstn 36 GENUINE_FLASH_PLAYER_KEY) (s1_signed h))).
Proof.
  intros [_ (r0 & r1 & k0 & k1 & E1 & E2 & E3 & E4 & Hd & Hk)]. unfold MakeS1Digest, s1_signed, key_of.
  rewrite E1, E2, E3, E4. cbn [block mbind res_bind default]. pose proof (key_block_len _ _ _ _ Hk) as Hkl.
  destruct Hd as [_ Hr0 _ Hr1]. unfold input0.
  replace (k0 ++ c1_key_data_ h ++ k1 ++ put4 (c1_key_offset_ h) ++ put4 (c1_digest_offset_ h) ++ r0 ++ r1)
    with (key_block (c1_key_offset_ h) k0 (c1_key_data_ h) k1 ++ put4 (c1_digest_offset_ h) ++ r0 ++ r1)
    by (unfold key_block; rewrite <- !app_assoc; done).
  match goal with |- context [guard_res (Zlen ?x =? _)] => assert (Hx : Zlen x = 1536 - 32) by (rewrite !Zlen_app, Hkl, !put4_len; lia) end.
  rewrite Hx. change (guard_res (1536 - 32 =? 1536 - 32)) with (Ok tt).
  change (player_key 36) with (Ok (firstn 36 GENUINE_FLASH_PLAYER_KEY)). cbn [mbind res_bind].
  unfold HmacSha256. rewrite Hmac. done.
Qed.

(** Overwriting a whole buffer piece by piece. *)
Lemma memcpy_to_head data x n : Zlen data = n -> Zlen x <= n ->
  exists rest, memcpy_to data 0 x = Ok (x ++ rest) /\ Zlen rest = n - Zlen x.
Proof.
  intros <- Hx. destruct (take_drop_Z data (Zlen x)) as (a & b & -> & Ha); [pose proof (Zlen_nonneg x); lia|].
  exists b. split; [|rewrite Zlen_app; lia]. apply (memcpy_to_app [] a x b); [done|lia].
Qed.
Lemma memcpy_to_next a rest x off : off = Zlen a -> Zlen x <= Zlen rest ->
  exists rest', memcpy_to (a ++ rest) off x = Ok ((a ++ x) ++ rest') /\ Zlen rest' = Zlen rest - Zlen x.
Proof.
  intros Ho Hx. destruct (take_drop_Z rest (Zlen x)) as (y & b & -> & Hy); [pose proof (Zlen_nonneg x); lia|].
  exists b. split; [|rewrite Zlen_app; lia]. rewrite (memcpy_to_app a y x b off Ho) by lia. rewrite <- app_assoc. done.
Qed.
Lemma app_nil_Zlen (a rest : bytes) : Zlen rest = 0 -> a ++ rest = a.
Proof. intros H. apply Zlen_0_nil in H as ->. apply app_nil_r. Qed.

(** The key array after [DH_compute_key], which strips leading zeros: behind a short result
    the array keeps what it held. *)
Definition shared_key h (out : bytes) : bytes := out ++ skipn (length out) (s1_key_data_ h).
Lemma shared_key_len h out : Zlen out <= 128 -> Zlen (s1_key_data_ h) = 128 -> Zlen (shared_key h out) = 128.
Proof. unfold shared_key, Zlen. rewrite length_app, length_skipn. lia. Qed.
(** The handle after [MakeS1]. *)
Definition s1_handle h (skey : bytes) : C1S1Handle :=
  let h := h <| s1_time_sec_ := c1_time_ h |> <| s1_version_ := server_version |> <| s1_key_data_ := skey |> in
  h <| s1_digest_data_ := hmac (firstn 36 GENUINE_FLASH_PLAYER_KEY) (s1_signed h) |>.

Lemma s1_blocks h skey : parsed h -> Zlen skey = 128 ->
  let h' := s1_handle h skey in
  MakeKey h' = Ok (s1_key_block h') /\ MakeDigest h' = Ok (s1_digest_block h') /\
  Zlen (s1_key_block h') = 764 /\ Zlen (s1_digest_block h') = 764.
Proof.
  intros [_ (r0 & r1 & k0 & k1 & E1 & E2 & E3 & E4 & Hd & Hk)] Hs. cbv zeta.
  assert (Hsd : Zlen (s1_digest_data_ (s1_handle h skey)) = 32) by (destruct h; apply Hmac).
  assert (F : digest_random0_ (s1_handle h skey) = Some r0 /\ digest_random1_ (s1_handle h skey) = Some r1 /\
    key_random0_ (s1_handle h skey) = Some k0 /\ key_random1_ (s1_handle h skey) = Some k1 /\
    c1_digest_offset_ (s1_handle h skey) = c1_digest_offset_ h /\ c1_key_offset_ (s1_handle h skey) = c1_key_offset_ h /\
    s1_key_data_ (s1_handle h skey) = skey) by (destruct h; done).
  unfold MakeKey, MakeDigest, s1_key_block, s1_digest_block. destruct F as (-> & -> & -> & -> & -> & -> & ->).
  cbn [block mbind res_bind default]. split_and!; try done.
  - apply key_block_len. destruct Hk. constructor; done.
  - apply digest_block_len. destruct Hd. constructor; done.
Qed.

Lemma MakeS1_spec h out body : parsed h -> schema_ h = SCHEMA0 \/ schema_ h = SCHEMA1 ->
  dh (c1_key_data_ h) = Some out -> Zlen out <= 128 -> Zlen (s1_key_data_ h) = 128 -> Zlen body = 1536 ->
  let h' := s1_handle h (shared_key h out) in
  MakeS1 hmac dh 0 h body = Ok (h', 0, s1_text h') /\ Zlen (s1_text h') = 1536.
Proof.
  intros Hp Hs Hdh Hout Hold Hbody. cbv zeta. pose proof (shared_key_len h out Hout Hold) as Hsk.
  set (skey := shared_key h out) in *. unfold MakeS1. change (negb (0 =? 0)) with false. cbv iota zeta. fold server_version.
  set (h1 := h <| s1_time_sec_ := _ |> <| s1_version_ := _ |>).
  assert (Ek : CopySharedKey dh (c1_key_data_ h1) (s1_key_data_ h1) = Ok (0, skey)).
  { unfold CopySharedKey. replace (c1_key_data_ h1) with (c1_key_data_ h) by (destruct h; done). rewrite Hdh.
    replace (s1_key_data_ h1) with (s1_key_data_ h) by (destruct h; done).
    assert (Em : memcpy_to (s1_key_data_ h) 0 out = Ok skey).
    { unfold memcpy_to, splice. rewrite (proj2 (Z.leb_le (0 + Zlen out) _)) by lia.
      change (0 <=? 0) with true. change (Z.to_nat 0) with 0%nat. cbn [andb]. rewrite take_0. cbn [app]. unfold skey, shared_key, Zlen. rewrite Z.add_0_l, Nat2Z.id. done. }
    rewrite Em. cbn [mbind res_bind]. rewrite (proj2 (Z.ltb_ge 128 (Zlen out))) by lia. done. }
  rewrite Ek. cbn [mbind res_bind fst snd]. change (negb (0 =? 0)) with false. cbv iota.
  set (h2 := h1 <| s1_key_data_ := skey |>). assert (Hp2 : parsed h2).
  { destruct Hp as [Ht Hb]. constructor; destruct h; [exact Ht|exact Hb]. }
  rewrite MakeS1Digest_spec by done. cbn [mbind res_bind]. rewrite memcpy_from_all by (symmetry; apply Hmac).
  cbn [mbind res_bind]. change (h2 <| s1_digest_data_ := hmac (firstn 36 GENUINE_FLASH_PLAYER_KEY) (s1_signed h2) |>) with (s1_handle h skey).
  destruct (s1_blocks h skey Hp Hsk) as (Ekey & Edig & Hkl & Hdl). set (h3 := s1_handle h skey) in *.
  split; [|unfold s1_text, c1_schema1, c1_schema0; case_match; rewrite !Zlen_app, !put4_len, Hkl, Hdl; lia].
  destruct (memcpy_to_head body (put4 (s1_time_sec_ h3) ++ put4 (s1_version_ h3)) 1536 Hbody) as (rest & -> & Hr);
    [rewrite Zlen_app, !put4_len; lia|]. rewrite Zlen_app, !put4_len in Hr. cbn [mbind res_bind].
  assert (Hs3 : schema_ h3 = schema_ h) by (destruct h; done). rewrite Hs3. unfold s1_text. rewrite Hs3.
  destruct Hs as [-> | ->].
  - change (SCHEMA0 =? SCHEMA0) with true. change (SCHEMA0 =? SCHEMA1) with false. cbv iota.
    unfold MakeSchema0. rewrite Ekey, Edig. cbn [mbind res_bind].
    destruct (memcpy_to_next (put4 (s1_time_sec_ h3) ++ put4 (s1_version_ h3)) rest (s1_key_block h3) 8) as (rest1 & -> & Hr1);
      [rewrite Zlen_app, !put4_len; done|lia|]. cbn [mbind res_bind].
    destruct (memcpy_to_next ((put4 (s1_time_sec_ h3) ++ put4 (s1_version_ h3)) ++ s1_key_block h3) rest1 (s1_digest_block h3) (8 + 764)) as (rest2 & -> & Hr2);
      [rewrite !Zlen_app, !put4_len, Hkl; done|lia|]. cbn [mbind res_bind].
    rewrite app_nil_Zlen by lia. unfold c1_schema0. rewrite <- !app_assoc. done.
  - change (SCHEMA1 =? SCHEMA0) with false. change (SCHEMA1 =? SCHEMA1) with true. cbv iota.
    unfold MakeSchema1. rewrite Ekey, Edig. cbn [mbind res_bind].
    destruct (memcpy_to_next (put4 (s1_time_sec_ h3) ++ put4 (s1_version_ h3)) rest (s1_digest_block h3) 8) as (rest1 & -> & Hr1);
      [rewrite Zlen_app, !put4_len; done|lia|]. cbn [mbind res_bind].
    destruct (memcpy_to_next ((put4 (s1_time_sec_ h3) ++ put4 (s1_version_ h3)) ++ s1_digest_block h3) rest1 (s1_key_block h3) (8 + 764)) as (rest2 & -> & Hr2);
      [rewrite !Zlen_app, !put4_len, Hdl; done|lia|]. cbn [mbind res_bind].
    rewrite app_nil_Zlen by lia. unfold c1_schema1. rewrite <- !app_assoc. done.
Qed.
End server.

(** The fixed-size arrays of the handshake object. *)
Record arrays_ok (s : RtmpServerHandshake) : Prop := {
  ao_s1 : Zlen (s1_body_ s) = 1536; ao_s2 : Zlen (s2_body_ s) = 1536;
  ao_random : Zlen (random_ (c2s2_ s)) = 1504; ao_key : Zlen (s1_key_data_ (c1s1_ s)) = 128 }.

Lemma parsed_key_len (h : C1S1Handle) : parsed h -> Zlen (c1_key_data_ h) = 128.
Proof. intros [_ (r0 & r1 & k0 & k1 & _ & _ & _ & _ & _ & [_ _ H _])]. exact H. Qed.
(** A client reads the time and version at the start of S1. *)
Lemma ParseS0S1S2_reads c time s1 s2 : 0 <= time < 2 ^ 32 -> (exists more, s1 = put4 time ++ put4 server_version ++ more) ->
  exists c', ParseS0S1S2 c ([RTMP_HANDSHAKE_VERSION] ++ s1 ++ s2) = Ok (c', 0) /\
    s1_time_sec_ c' = time /\ s1_version_ c' = server_version.
Proof.
  intros Ht (more & ->). unfold ParseS0S1S2. rewrite memcpy_from_head by done.
  cbn [mbind res_bind]. change (negb (nth 0 [RTMP_HANDSHAKE_VERSION] 0 =? RTMP_HANDSHAKE_VERSION)) with false. cbv iota.
  rewrite <- !app_assoc. change (skipn 1 ([RTMP_HANDSHAKE_VERSION] ++ ?x)) with x.
  rewrite Read4Bytes_put4 by done. cbn [mbind res_bind].
  match goal with |- context [skipn 5 ?x] => change (skipn 5 x) with (put4 server_version ++ more ++ s2) end.
  rewrite Read4Bytes_put4 by (unfold server_version; lia). eexists. split; [reflexivity|]. destruct c; done.
Qed.

(** The 68 bytes of the key that S2 is signed with are not there. *)
Lemma MakeS2Data_undefined hmac s : MakeS2Data hmac s = Undef.
Proof. reflexivity. Qed.

(** The shared key: none when the DH object cannot be made or refuses the client's key. *)
Definition shared_secret (dh : bytes -> option bytes) (dh_init : Z) (h : C1S1Handle) : option bytes :=
  if dh_init =? 0 then dh (c1_key_data_ h) else None.

Section answer.
Context (hmac : bytes -> bytes -> bytes) (dh : bytes -> option bytes) (dh_init : Z) (random : nat -> Z).
Context (s : RtmpServerHandshake) (Hs : arrays_ok s).

Lemma MakeS1Data_fails : shared_secret dh dh_init (c1s1_ s) = None ->
  exists s', MakeS1Data hmac dh dh_init s = Ok (s', None) /\ s1_key_data_ (c1s1_ s') = s1_key_data_ (c1s1_ s).
Proof.
  unfold shared_secret, MakeS1Data, MakeS1. destruct (dh_init =? 0) eqn:E; intros H; cbn [negb].
  - unfold CopySharedKey. replace (c1_key_data_ ((c1s1_ s) <| s1_time_sec_ := _ |> <| s1_version_ := _ |>)) with (c1_key_data_ (c1s1_ s))
      by (destruct (c1s1_ s); done).
    rewrite H. cbn. eexists. split; [reflexivity|]. destruct s as [? []]. done.
  - cbn [mbind res_bind]. rewrite E. cbn [negb]. eexists. split; [reflexivity|]. destruct s as [? []]. done.
Qed.

Lemma MakeS1Data_makes out (Hmac : forall k d, Zlen (hmac k d) = 32) (Hp : parsed (c1s1_ s))
  (Hschema : schema_ (c1s1_ s) = SCHEMA0 \/ schema_ (c1s1_ s) = SCHEMA1)
  (Hout : shared_secret dh dh_init (c1s1_ s) = Some out) (Hl : Zlen out <= 128) :
  let h' := s1_handle hmac (c1s1_ s) (shared_key (c1s1_ s) out) in
  exists s', MakeS1Data hmac dh dh_init s = Ok (s', Some (s1_text h')) /\ c1s1_ s' = h' /\ Zlen (s1_text h') = 1536.
Proof.
  unfold shared_secret in Hout. destruct (dh_init =? 0) eqn:E0; [|done]. apply Z.eqb_eq in E0.
  destruct (MakeS1_spec hmac dh Hmac (c1s1_ s) out (s1_body_ s) Hp Hschema Hout Hl (ao_key _ Hs) (ao_s1 _ Hs)) as [E Ht].
  cbv zeta. unfold MakeS1Data. rewrite E0, E. cbn [mbind res_bind]. eexists. split; [reflexivity|]. split; [destruct s; done|exact Ht].
Qed.

(** Version and S1 are written; then S2 is made. *)
Lemma SendS0S1S2_head pos : exists rest pos', SendS0S1S2 hmac dh dh_init random s pos =
    (r1 ← MakeS1Data hmac dh dh_init s;
     match r1 with
     | (s1, None) => Ok (s1, pos', -1, [RTMP_HANDSHAKE_VERSION] ++ rest)
     | (s1, Some s1_data) => memcpy_to ([RTMP_HANDSHAKE_VERSION] ++ rest) 1 s1_data ;; Undef
     end) /\ Zlen rest = 3072.
Proof.
  unfold SendS0S1S2. destruct (RtmpRandomGenerate random 3073 pos) as [buf pos'] eqn:Er.
  apply RtmpRandomGenerate_len in Er.
  destruct (memcpy_to_head buf [RTMP_HANDSHAKE_VERSION] 3073 Er) as (rest & -> & Hrest); [done|]. cbn [mbind res_bind].
  exists rest, pos'. split; [|exact Hrest]. destruct (MakeS1Data _ _ _ _) as [[s1 [body|]]| |]; reflexivity.
Qed.
Lemma SendS0S1S2_fails pos : shared_secret dh dh_init (c1s1_ s) = None ->
  exists s' pos' buf, SendS0S1S2 hmac dh dh_init random s pos = Ok (s', pos', -1, buf).
Proof.
  intros H. destruct (SendS0S1S2_head pos) as (rest & pos' & E & _). destruct (MakeS1Data_fails H) as (s1 & E1 & _).
  rewrite E, E1. eauto.
Qed.
Lemma SendS0S1S2_undefined pos s1 body : MakeS1Data hmac dh dh_init s = Ok (s1, Some body) ->
  SendS0S1S2 hmac dh dh_init random s pos = Undef.
Proof.
  intros H. destruct (SendS0S1S2_head pos) as (rest & pos' & E & _). rewrite E, H. cbn [mbind res_bind].
  unfold memcpy_to. case_match; done.
Qed.
End answer.

(** C19: the server's side of the answer to a parsed C1.  When there is no shared key - the DH
    object cannot be made, or the public key in C1 is refused - [SendS0S1S2] fails.  Otherwise,
    however short the key, S1 is made: 1536 bytes with the client's time, the client's random
    blocks and offsets in the order of the client's schema, the shared key and a 32-byte digest;
    behind S0, and before any S2, a client reads the time and the version back.  Then the code
    signs S2 with 68 bytes of a 62-byte key: the answer as a whole is undefined. *)
Theorem server_answer (hmac : bytes -> bytes -> bytes) (dh : bytes -> option bytes) (dh_init : Z) (random : nat -> Z)
  (s : RtmpServerHandshake) (pos : nat)
  (Hmac : forall k d, Zlen (hmac k d) = 32)
  (Hdh : forall key out, Zlen key = 128 -> dh key = Some out -> Zlen out <= 128)
  (Hs : arrays_ok s) (Hp : parsed (c1s1_ s)) (Hschema : schema_ (c1s1_ s) = SCHEMA0 \/ schema_ (c1s1_ s) = SCHEMA1) :
  match shared_secret dh dh_init (c1s1_ s) with
  | None => exists s' pos' buf, SendS0S1S2 hmac dh dh_init random s pos = Ok (s', pos', -1, buf)
  | Some out =>
      let h' := s1_handle hmac (c1s1_ s) (shared_key (c1s1_ s) out) in
      (exists s', MakeS1Data hmac dh dh_init s = Ok (s', Some (s1_text h')) /\ c1s1_ s' = h') /\
      Zlen (s1_text h') = 1536 /\ Zlen (s1_key_data_ h') = 128 /\ Zlen (s1_digest_data_ h') = 32 /\
      (forall c s2, exists c', ParseS0S1S2 c ([RTMP_HANDSHAKE_VERSION] ++ s1_text h' ++ s2) = Ok (c', 0) /\
         s1_time_sec_ c' = c1_time_ (c1s1_ s) /\ s1_version_ c' = server_version) /\
      SendS0S1S2 hmac dh dh_init random s pos = Undef
  end.
Proof.
  destruct (shared_secret dh dh_init (c1s1_ s)) as [out|] eqn:E; [|apply SendS0S1S2_fails; done].
  assert (Hl : Zlen out <= 128).
  { unfold shared_secret in E. case_match; [|done]. eapply Hdh; [|exact E]. apply parsed_key_len. done. }
  destruct (MakeS1Data_makes hmac dh dh_init s Hs out Hmac Hp Hschema E Hl) as (s' & E1 & Eh & Ht).
  cbv zeta. split; [exists s'; split; [exact E1|exact Eh]|]. split; [exact Ht|].
  split; [etransitivity; [|apply (shared_key_len (c1s1_ s) out Hl (ao_key _ Hs))]; destruct (c1s1_ s); done|].
  split; [destruct (c1s1_ s); apply Hmac|]. split; [|eapply SendS0S1S2_undefined; exact E1].
  intros c s2. apply ParseS0S1S2_reads; [destruct Hp as [Htime _]; exact Htime|]. unfold s1_text, s1_handle. destruct (c1s1_ s).
  unfold c1_schema1, c1_schema0. case_match; eexists; reflexivity.
Qed.

(** The digest in S1 is not a digest of S1: it signs the client's key instead of the key that
    is sent, and always with the key block first.  A peer that verifies S1 like [ParseC1]
    verifies C1 computes the HMAC of other bytes. *)
Lemma S1_digest_signs_other_bytes (hmac : bytes -> bytes -> bytes) (h : C1S1Handle) (skey : bytes)
  (Hp : parsed h) (Hkey : Zlen skey = 128) :
  let h' := s1_handle hmac h skey in
  s1_digest_data_ h' = hmac (firstn 36 GENUINE_FLASH_PLAYER_KEY) (s1_signed h') /\
  (schema_ h = SCHEMA0 -> (s1_signed h' = s1_unsigned h' <-> skey = c1_key_data_ h)) /\
  (schema_ h = SCHEMA1 -> firstn 4 (key_of h) <> put4 (c1_digest_offset_ h) -> s1_signed h' <> s1_unsigned h').
Proof.
  destruct Hp as [_ (r0 & r1 & k0 & k1 & E1 & E2 & E3 & E4 & Hd & Hk)]. destruct Hk as [_ _ Hkl _].
  cbv zeta. split; [destruct h; done|].
  assert (Es : s1_signed (s1_handle hmac h skey) =
    input0 (c1_time_ h) server_version (c1_digest_offset_ h) (key_of h) r0 r1).
  { unfold s1_signed. destruct h. cbn in E1, E2, E3, E4. subst. done. }
  rewrite Es. unfold key_of. rewrite E3, E4. cbn [default]. split; intros Hs.
  - assert (Eu : s1_unsigned (s1_handle hmac h skey) = input0 (c1_time_ h) server_version (c1_digest_offset_ h)
      (key_block (c1_key_offset_ h) k0 skey k1) r0 r1).
    { destruct h. cbn in E1, E2, E3, E4, Hs. subst. done. }
    rewrite Eu. unfold input0, key_block. rewrite <- !app_assoc. split; [|intros ->; done]. intros E.
    do 3 apply app_inv_head in E. apply app_inj_1 in E as [E _]; [done|]. unfold Zlen in *. lia.
  - intros Hne E. assert (Eu : s1_unsigned (s1_handle hmac h skey) =
      put4 (c1_time_ h) ++ put4 server_version ++ put4 (c1_digest_offset_ h) ++ r0 ++ r1 ++ key_block (c1_key_offset_ h) k0 skey k1).
    { destruct h. cbn in E1, E2, E3, E4, Hs. subst. done. }
    rewrite Eu in E. unfold input0 in E. do 2 apply app_inv_head in E. apply Hne.
    set (kb := key_block (c1_key_offset_ h) k0 (c1_key_data_ h) k1) in *.
    assert (Hlen : (4 <= length kb)%nat) by (unfold kb, key_block; rewrite !length_app; unfold Zlen in Hkl; lia).
    apply (f_equal (firstn 4)) in E. rewrite (firstn_app 4 kb) in E. replace (4 - length kb)%nat with 0%nat in E by lia.
    rewrite take_0, app_nil_r in E. exact E.
Qed.

(** ** Witnesses: a constant digest function *)

Definition demo_hmac (k d : bytes) : bytes := replicate 32 7.
Definition demo_handle : C1S1Handle :=
  mkC1S1 SCHEMA_INIT [] 0 0 None None 0 [] 0 None None [] 0 0 (replicate 128 0) [].
Definition demo_server : RtmpServerHandshake :=
  mkServerHandshake 0 demo_handle (mkC2S2 (replicate 1504 1) (replicate 32 2)) (replicate 1536 0) (replicate 1536 0).
Definition demo_c1 : bytes := replicate 1536 0.
Lemma demo_hmac_len k d : Zlen (demo_hmac k d) = 32.
Proof. reflexivity. Qed.

Lemma ParseC1_spec_witness :
  exists h' ret, ParseC1 demo_hmac demo_handle demo_c1 = Ok (h', ret) /\
    parsed h' /\ c1_text h' = demo_c1 /\ c1_data_ h' = demo_c1 /\
    ((ret = 0 /\ digest_data_ h' = demo_hmac (firstn 30 GENUINE_FLASH_PLAYER_KEY) (c1_unsigned h')) \/
     (ret = RTMP_SIMPLE_HANDSHAKE /\ schema_ h' = SCHEMA0 /\
      digest_data_ h' <> demo_hmac (firstn 30 GENUINE_FLASH_PLAYER_KEY) (c1_unsigned h'))).
Proof.
  apply (ParseC1_spec demo_hmac demo_handle demo_c1 demo_hmac_len).
  - unfold demo_c1, bytes_ok. apply Forall_replicate. unfold byte_ok. lia.
  - reflexivity.
Defined.

Lemma client_hello_accepted_witness : exists h' pos' c0c1 s',
  MakeC0C1 demo_hmac (fun n => Z.of_nat n + 5) 1000 demo_handle 0 = Ok (h', pos', Some c0c1) /\
  Zlen c0c1 = 1537 /\ ParseC0C1 demo_hmac demo_server c0c1 = Ok (s', 0) /\
  c0_version_ s' = RTMP_HANDSHAKE_VERSION /\ schema_ (c1s1_ s') = SCHEMA1 /\
  c1_time_ (c1s1_ s') = u32 1000 /\ c1_version_ (c1s1_ s') = client_version /\
  c1_key_data_ (c1s1_ s') = c1_key_data_ h' /\
  digest_data_ (c1s1_ s') = demo_hmac (firstn 30 GENUINE_FLASH_PLAYER_KEY) (c1_unsigned (c1s1_ s')).
Proof.
  apply (client_hello_accepted demo_hmac (fun n => Z.of_nat n + 5) 1000 demo_handle 0 demo_server demo_hmac_len).
  vm_compute. discriminate.
Defined.

(** A server that has parsed a C1. *)
Definition demo_c1_handle : C1S1Handle :=
  mkC1S1 SCHEMA1 demo_c1 9 9 (Some []) (Some (replicate 632 0)) 0 (replicate 128 3) 0 (Some []) (Some (replicate 728 0))
    (replicate 32 4) 0 0 (replicate 128 0) [].
Definition demo_answering : RtmpServerHandshake :=
  mkServerHandshake 3 demo_c1_handle (mkC2S2 (replicate 1504 1) (replicate 32 2)) (replicate 1536 0) (replicate 1536 0).
Lemma demo_parsed : parsed demo_c1_handle.
Proof.
  constructor; [unfold demo_c1_handle; cbn; lia|]. exists [], (replicate 728 0), [], (replicate 632 0).
  split_and!; try reflexivity; (constructor; [cbn; lia|vm_compute; reflexivity..]).
Qed.

(** A shared key whose leading zero was stripped. *)
Definition demo_dh (key : bytes) : option bytes := Some (replicate 127 5).
Lemma server_answer_witness :
  shared_secret demo_dh 0 (c1s1_ demo_answering) = Some (replicate 127 5) /\
  let h' := s1_handle demo_hmac (c1s1_ demo_answering) (shared_key (c1s1_ demo_answering) (replicate 127 5)) in
  (exists s', MakeS1Data demo_hmac demo_dh 0 demo_answering = Ok (s', Some (s1_text h')) /\ c1s1_ s' = h') /\
  Zlen (s1_text h') = 1536 /\ Zlen (s1_key_data_ h') = 128 /\ Zlen (s1_digest_data_ h') = 32 /\
  (forall c s2, exists c', ParseS0S1S2 c ([RTMP_HANDSHAKE_VERSION] ++ s1_text h' ++ s2) = Ok (c', 0) /\
     s1_time_sec_ c' = c1_time_ (c1s1_ demo_answering) /\ s1_version_ c' = server_version) /\
  SendS0S1S2 demo_hmac demo_dh 0 (fun _ => 1) demo_answering 0 = Undef.
Proof.
  split; [reflexivity|]. apply (server_answer demo_hmac demo_dh 0 (fun _ => 1) demo_answering 0 demo_hmac_len).
  - intros key out _ [= <-]. vm_compute. discriminate.
  - constructor; reflexivity.
  - exact demo_parsed.
  - right. reflexivity.
Defined.

Lemma S1_digest_signs_other_bytes_witness :
  let h' := s1_handle demo_hmac demo_c1_handle (replicate 128 5) in
  s1_digest_data_ h' = demo_hmac (firstn 36 GENUINE_FLASH_PLAYER_KEY) (s1_signed h') /\
  (schema_ demo_c1_handle = SCHEMA0 -> (s1_signed h' = s1_unsigned h' <-> replicate 128 5 = c1_key_data_ demo_c1_handle)) /\
  (schema_ demo_c1_handle = SCHEMA1 -> firstn 4 (key_of demo_c1_handle) <> put4 (c1_digest_offset_ demo_c1_handle) ->
     s1_signed h' <> s1_unsigned h').
Proof. apply (S1_digest_signs_other_bytes demo_hmac demo_c1_handle (replicate 128 5) demo_parsed). reflexivity. Defined.
