(* ===== verification/CoPub.v ===== *)
(** The coroutine types of utils/co_pub.hpp: what a call of a coroutine function does and what
    its caller holds afterwards.

    A body is its run up to its first suspension or its end, as a step of the caller's state; a
    member that was never assigned is [None]. *)
From S2P Require Import Prelude Eff.

Section task.
Context {S T : Type}.

(** The promise inside the coroutine's frame, and the object the caller gets. *)
Record promise_type : Type := { promise_conn : option T }.
Record CoTask : Type := { task_conn : option T }.

Definition get_return_object (p : promise_type) : CoTask := {| task_conn := promise_conn p |}.
Definition return_value (p : promise_type) (co_conn : T) : promise_type := {| promise_conn := Some co_conn |}.
Definition promise_GetConnect (p : promise_type) : option T := promise_conn p.
Definition GetConnect (t : CoTask) : option T := task_conn t.

(** How a run of the body ends; an exception of the body is an outcome of [eff]. *)
Inductive body_end : Type := Suspended | CoReturned (v : T).

(** A call: the promise, the object, then the body at once ([initial_suspend] never suspends), an
    exception swallowed by [unhandled_exception]; a body at its end is destroyed with its promise
    ([final_suspend] never suspends). *)
Definition call_task (body : eff S body_end) : eff S (CoTask * option promise_type) := fun s =>
  let p := {| promise_conn := None |} in
  let task := get_return_object p in
  match body s with
  | Done s' (CoReturned v) => let _ := return_value p v in Done s' (task, None)
  | Done s' Suspended => Done s' (task, Some p)
  | Raised s' _ => Done s' (task, None)
  | Stuck => Stuck
  end.

(** [CoVoidTask] has no members: its call only runs the body. *)
Definition call_void (body : eff S unit) : eff S unit := fun s =>
  match body s with
  | Done s' _ => Done s' tt
  | Raised s' _ => Done s' tt
  | Stuck => Stuck
  end.

(** No call lets its caller see the value that is returned, and none raises. *)
Lemma call_task_no_value (body : eff S body_end) s : body s <> Stuck ->
  exists s' p, call_task body s = Done s' ({| task_conn := None |}, p) /\ GetConnect {| task_conn := None |} = None.
Proof. intros H. unfold call_task. destruct (body s) as [s' [|v]|s' x|]; [..|done]; eauto. Qed.

Lemma call_void_raises_nothing (body : eff S unit) s : body s <> Stuck -> exists s', call_void body s = Done s' tt.
Proof. intros H. unfold call_void. destruct (body s); [eauto..|done]. Qed.
End task.
