(* ===== verification/CoTcp.v ===== *)
(** Coroutine TCP connections ([src/src/net/tcp/co_tcp/co_tcp_server/], [co_tcp_client/]).

    An awaiter object is known by a number.  Resuming a coroutine is the last thing an operation
    does, except where noted, so an operation returns the resumption instead of performing it:
    which awaiter, the result [await_resume] gives, and the bytes stored in the caller's buffer.
    [uv_requests_] are the writes libuv holds, oldest first; results of libuv calls are
    arguments.  The bytes of a read are given with their count, as libuv does. *)
From S2P Require Import Prelude Eff ByteQueue.

Inductive TCP_CONNECT_STATUS : Type := TCP_CONNECT_PENDING | TCP_CONNECT_SUCCESS | TCP_CONNECT_FAILED.
Inductive RECV_STATUS : Type := RECV_PENDING | RECV_OK | RECV_ERROR.
Inductive SEND_STATUS : Type := SEND_PENDING | SEND_OK | SEND_ERROR.
Record RecvResult : Type := mkRecv { recv_status : RECV_STATUS; recv_len : Z }.
Record SendResult : Type := mkSend { send_status : SEND_STATUS; sent_len : Z }.

Inductive resumption : Type :=
| ResumeRecv (awaiter : nat) (result : RecvResult) (recv_data : bytes)
| ResumeSend (awaiter : nat) (result : SendResult)
| ResumeConnect (awaiter : nat) (status : TCP_CONNECT_STATUS).

Section conn.
Context {Q : Type} {HQ : ByteQueue Q}.

(** ** The accepted connection *)

Record TcpCoAcceptConn : Type := mkAcceptConn {
  status_ : TCP_CONNECT_STATUS;
  recv_size_ : Z;                     (* of recv_data_ *)
  recv_buffer_ : Q;
  read_awaiters_ : list nat;
  write_awaiters_ : list nat;
  uv_requests_ : list bytes }.

Definition TcpCoAcceptConn_new (status : TCP_CONNECT_STATUS) : res TcpCoAcceptConn :=
  b ← bq_new (50 * 1024); Ok (mkAcceptConn status 0 b [] [] []).

Abbreviation M := (eff TcpCoAcceptConn).

(** [CoTcpSessionRecvPromise::HandleReceive]. *)
Definition HandleReceive (awaiter : nat) (nread : Z) : M resumption :=
  if nread <=? 0 then mret (ResumeRecv awaiter (mkRecv RECV_ERROR 0) [])
  else
    s ← get;
    let n := if recv_size_ s <? nread then recv_size_ s else nread in
    d ← lift (bq_peek (recv_buffer_ s) 0 n);
    b ← lift (bq_consume (recv_buffer_ s) (s32 n));
    modify (fun s => s <| recv_buffer_ := b |>) ;;
    mret (ResumeRecv awaiter (mkRecv RECV_OK (s32 n)) d).

(** [co_await CoReceive(recv_data, recv_size)] up to the suspension or the resumption. *)
Definition CoReceive (recv_size : Z) : M unit := modify (fun s => s <| recv_size_ := recv_size |>).
Definition recv_await_suspend (awaiter : nat) : M (option resumption) :=
  s ← get;
  if 0 <? bq_len (recv_buffer_ s) then r ← HandleReceive awaiter (bq_len (recv_buffer_ s)); mret (Some r)
  else modify (fun s => s <| read_awaiters_ ::= fun q => q ++ [awaiter] |>) ;; mret None.

(** [TcpCoAcceptConn::OnReceive]: without an awaiter the bytes are only logged. *)
Definition OnReceive (nread : Z) (base : bytes) : M (option resumption) :=
  s ← get;
  match read_awaiters_ s with
  | [] => mret None
  | awaiter :: rest =>
      (if 0 <? nread then b ← lift (bq_append (recv_buffer_ s) base); modify (fun s => s <| recv_buffer_ := b |>)
       else mret tt) ;;
      modify (fun s => s <| read_awaiters_ := rest |>) ;;
      r ← HandleReceive awaiter nread; mret (Some r)
  end.
Definition OnUvRead (nread : Z) (base : bytes) : M (option resumption) :=
  if nread =? 0 then mret None else OnReceive nread base.

(** [SendData]; [ret] is the result of [uv_write]. *)
Definition SendData (ret : Z) (data : bytes) : M Z :=
  if negb (ret =? 0) then mret (-1)
  else modify (fun s => s <| uv_requests_ ::= fun q => q ++ [data] |>) ;; mret 0.

(** [CoTcpSessionSendPromise::HandleSend], [await_suspend]. *)
Definition HandleSend (awaiter : nat) (status sent : Z) : resumption :=
  ResumeSend awaiter (if status =? 0 then mkSend SEND_OK (s32 sent) else mkSend SEND_ERROR (-1)).
Definition send_await_suspend (ret : Z) (awaiter : nat) (data : bytes) : M (option resumption) :=
  r ← SendData ret data;
  if r <? 0 then mret (Some (ResumeSend awaiter (mkSend SEND_ERROR (-1))))
  else modify (fun s => s <| write_awaiters_ ::= fun q => q ++ [awaiter] |>) ;; mret None.

(** [OnUvWrite] for the oldest request libuv holds. *)
Definition OnWrite (status : Z) : M (option resumption) :=
  s ← get;
  match uv_requests_ s with
  | [] => stuck
  | req :: reqs =>
      modify (fun s => s <| uv_requests_ := reqs |>) ;;
      match write_awaiters_ s with
      | [] => mret None
      | awaiter :: rest =>
          modify (fun s => s <| write_awaiters_ := rest |>) ;;
          mret (Some (HandleSend awaiter status (Zlen req)))
      end
  end.

(** ** The listening socket *)

Record CoTcpServer : Type := mkCoServer {
  awaiters_ : list nat;
  unaccepted_ : nat }.                (* connections announced and not taken with uv_accept *)

Definition AddAwaiter (s : CoTcpServer) (awaiter : nat) : CoTcpServer := s <| awaiters_ ::= fun q => q ++ [awaiter] |>.
(** [OnConnection] and [AcceptConnection]: without an awaiter the connection is left alone. *)
Definition OnConnection (s : CoTcpServer) (status : Z) : CoTcpServer * option resumption :=
  let s := s <| unaccepted_ ::= S |> in
  match awaiters_ s with
  | [] => (s, None)
  | awaiter :: rest =>
      (s <| awaiters_ := rest |>,
       Some (ResumeConnect awaiter (if status =? 0 then TCP_CONNECT_SUCCESS else TCP_CONNECT_FAILED)))
  end.
(** [await_resume]: takes one connection, whatever the status. *)
Definition accept_await_resume (s : CoTcpServer) (status : TCP_CONNECT_STATUS) : CoTcpServer * res TcpCoAcceptConn :=
  (s <| unaccepted_ ::= Nat.pred |>, TcpCoAcceptConn_new status).

(** ** The client's connection *)

Record TcpCoConn : Type := mkCoConn {
  awaiter_callback_ : option nat;
  send_awaiter_callback_ : option nat;
  recv_awaiter_callback_ : option nat;
  connect_ : bool;                    (* the connect request exists *)
  cstatus_ : TCP_CONNECT_STATUS;
  send_buffer_ : bytes;
  crecv_size_ : Z;
  read_started_ : bool;
  crecv_buffer_ : Q;
  cuv_requests_ : list bytes }.

(** The constructor: the receive buffer has the default size. *)
Definition TcpCoConn_new : res TcpCoConn :=
  b ← bq_new (10 * 1024); Ok (mkCoConn None None None false TCP_CONNECT_PENDING [] 0 false b []).

Abbreviation C := (eff TcpCoConn).

Definition CoConnect (awaiter : nat) : C unit := modify (fun s => s <| awaiter_callback_ := Some awaiter |>).
(** [StartConnect]; a resolved name is used after [freeaddrinfo]. *)
Definition StartConnect (is_ipv4 : bool) (getaddrinfo ret : Z) : C Z :=
  if negb is_ipv4 then
    if negb (getaddrinfo =? 0) then modify (fun s => s <| connect_ := false |>) ;; mret (-1)
    else stuck
  else if negb (ret =? 0) then modify (fun s => s <| connect_ := false |>) ;; mret (-2)
  else modify (fun s => s <| connect_ := true |>) ;; mret 0.
Definition connect_await_suspend (is_ipv4 : bool) (getaddrinfo ret : Z) (awaiter : nat) : C (option resumption) :=
  r ← StartConnect is_ipv4 getaddrinfo ret;
  if r <? 0 then mret (Some (ResumeConnect awaiter TCP_CONNECT_FAILED)) else mret None.
Definition OnConnect (status : Z) : C resumption :=
  modify (fun s => s <| cstatus_ := if status =? 0 then TCP_CONNECT_SUCCESS else TCP_CONNECT_FAILED |>) ;;
  s ← get; a ← deref (awaiter_callback_ s);
  mret (ResumeConnect a (if status =? 0 then TCP_CONNECT_SUCCESS else TCP_CONNECT_FAILED)).

(** [CoSend]: the data is copied to [send_buffer_], which libuv reads until the write ends. *)
Definition CoSend (awaiter : nat) (data : bytes) : C unit :=
  modify (fun s => s <| send_buffer_ := data |> <| send_awaiter_callback_ := Some awaiter |>).
Definition StartSend (ret : Z) : C Z :=
  s ← get;
  if negb (connect_ s) then stuck
  else if negb (ret =? 0) then mret (-1)
  else modify (fun s => s <| cuv_requests_ ::= fun q => q ++ [send_buffer_ s] |>) ;; mret 0.
Definition csend_await_suspend (ret : Z) (awaiter : nat) : C (option resumption) :=
  r ← StartSend ret;
  if r <? 0 then mret (Some (ResumeSend awaiter (mkSend SEND_ERROR (-1)))) else mret None.
Definition OnAwaiterSend (awaiter : nat) (sent : Z) : resumption :=
  ResumeSend awaiter (if 0 <? sent then mkSend SEND_OK sent else mkSend SEND_ERROR (-1)).
(** [OnWrite] for the oldest request: a failed write resumes nobody. *)
Definition cOnWrite (status : Z) : C (option resumption) :=
  s ← get;
  match cuv_requests_ s with
  | [] => stuck
  | req :: reqs =>
      modify (fun s => s <| cuv_requests_ := reqs |>) ;;
      if status =? 0 then a ← deref (send_awaiter_callback_ s); mret (Some (OnAwaiterSend a (s32 (Zlen req))))
      else mret None
  end.

(** [CoReceive] and the constructor of [CoTcpRecvPromise]; its destructor. *)
Definition cCoReceive (awaiter : nat) (recv_size : Z) : C unit :=
  modify (fun s => s <| crecv_size_ := recv_size |> <| recv_awaiter_callback_ := Some awaiter |>).
Definition recv_promise_destroyed : C unit := modify (fun s => s <| recv_awaiter_callback_ := None |>).
(** [OnAwaiterRecv]: when more was read than fits, the coroutine is resumed before the result is
    stored. *)
Definition OnAwaiterRecv (awaiter : nat) (len : Z) : C resumption :=
  if len <=? 0 then mret (ResumeRecv awaiter (mkRecv RECV_ERROR 0) [])
  else
    s ← get;
    if s32 (crecv_size_ s) <? len then
      let len := s32 (crecv_size_ s) in
      d ← lift (bq_peek (crecv_buffer_ s) 0 len);
      b ← lift (bq_consume (crecv_buffer_ s) len);
      modify (fun s => s <| crecv_buffer_ := b |>) ;;
      mret (ResumeRecv awaiter (mkRecv RECV_PENDING 0) d)
    else
      d ← lift (bq_peek (crecv_buffer_ s) 0 len);
      b ← lift (bq_consume (crecv_buffer_ s) len);
      modify (fun s => s <| crecv_buffer_ := b |>) ;;
      mret (ResumeRecv awaiter (mkRecv RECV_OK len) d).
Definition StartReceive (ret : Z) (already : bool) : C Z :=
  s ← get;
  if read_started_ s then mret 0
  else if negb (connect_ s) then stuck
  else if negb (ret =? 0) then mret (if already then 0 else -1)
  else modify (fun s => s <| read_started_ := true |>) ;; mret 0.
Definition crecv_await_suspend (ret : Z) (already : bool) (awaiter : nat) : C (option resumption) :=
  s ← get;
  if 0 <? bq_len (crecv_buffer_ s) then r ← OnAwaiterRecv awaiter (s32 (bq_len (crecv_buffer_ s))); mret (Some r)
  else StartReceive ret already ;; mret None.
(** [OnRead]: the callback pointer is used without a test. *)
Definition OnRead (nread : Z) (base : bytes) : C resumption :=
  s ← get;
  if nread <=? 0 then a ← deref (recv_awaiter_callback_ s); OnAwaiterRecv a (s32 nread)
  else
    b ← lift (bq_append (crecv_buffer_ s) base);
    modify (fun s => s <| crecv_buffer_ := b |>) ;;
    a ← deref (recv_awaiter_callback_ s); OnAwaiterRecv a (s32 nread).
End conn.
Arguments TcpCoAcceptConn Q : clear implicits.
Arguments TcpCoConn Q : clear implicits.

(** ** One reader on an accepted connection *)

Section reader.
Context {Q : Type} {HQ : ByteQueue Q} {HQL : ByteQueueLaws Q} {HQS : ByteQueueSized Q}.

(** The connection with what has happened: the awaiter the coroutine is suspended on, the bytes
    it has received, the bytes that arrived while it was suspended, and the others. *)
Record reader : Type := mkReader {
  conn : TcpCoAcceptConn Q;
  waiting : option nat;
  got : bytes;
  kept : bytes;
  lost : bytes }.

Definition received (o : option resumption) : bytes :=
  match o with Some (ResumeRecv _ _ d) => d | _ => [] end.

(** The coroutine receives, in any sizes, when it is not suspended; data arrives at any time. *)
Inductive reader_step : reader -> reader -> Prop :=
| reader_call r id size c o : waiting r = None -> 0 < size < 2 ^ 31 ->
    (CoReceive size ;; recv_await_suspend id) (conn r) = Done c o ->
    reader_step r (mkReader c (match o with None => Some id | Some _ => None end) (got r ++ received o) (kept r) (lost r))
| reader_data r data c o : data <> [] -> Zlen data <= 20 * 1024 ->
    OnUvRead (Zlen data) data (conn r) = Done c o ->
    reader_step r (match o with
                   | Some _ => mkReader c None (got r ++ received o) (kept r ++ data) (lost r)
                   | None => mkReader c (waiting r) (got r) (kept r) (lost r ++ data)
                   end).

(** What holds between the steps; a suspended coroutine means an empty buffer. *)
Record reader_inv (r : reader) : Prop := {
  ri_awaiters : read_awaiters_ (conn r) = match waiting r with Some id => [id] | None => [] end;
  ri_size : waiting r <> None -> 0 < recv_size_ (conn r) < 2 ^ 31;
  ri_sized : bq_sized (recv_buffer_ (conn r));
  ri_buffer : exists l, bq_rep (recv_buffer_ (conn r)) l /\ got r ++ l = kept r /\ Zlen l <= 20 * 1024 /\
    (waiting r <> None -> l = []) }.

(** A new connection: nothing received, nothing under way. *)
Lemma TcpCoAcceptConn_new_start status : exists b,
  TcpCoAcceptConn_new status = Ok (mkAcceptConn status 0 b [] [] []) /\ bq_rep b [] /\ bq_sized b.
Proof.
  destruct (bq_new_sized (50 * 1024)) as (b & E & Hr & Hz & _); [lia|]. exists b. unfold TcpCoAcceptConn_new.
  rewrite E. done.
Qed.

Lemma HandleReceive_done (c : TcpCoAcceptConn Q) id l n : bq_rep (recv_buffer_ c) l -> 0 < n -> n = Zlen l ->
  Zlen l < 2 ^ 31 -> 0 < recv_size_ c < 2 ^ 31 ->
  exists c' d rest, HandleReceive id n c = Done c' (ResumeRecv id (mkRecv RECV_OK (Zlen d)) d) /\
    l = d ++ rest /\ bq_rep (recv_buffer_ c') rest /\ recv_size_ c' = recv_size_ c /\
    read_awaiters_ c' = read_awaiters_ c /\ uv_requests_ c' = uv_requests_ c /\
    write_awaiters_ c' = write_awaiters_ c /\ Zlen d = Z.min (recv_size_ c) n /\
    (bq_sized (recv_buffer_ c) -> bq_sized (recv_buffer_ c')).
Proof.
  intros Hr Hn En Hl Hs. unfold HandleReceive. rewrite (proj2 (Z.leb_gt _ _)) by lia.
  erewrite bind_done by reflexivity. set (k := if recv_size_ c <? n then recv_size_ c else n).
  assert (Hk : 0 < k <= Zlen l) by (unfold k; destruct (Z.ltb_spec (recv_size_ c) n); lia).
  rewrite (bq_peek_law _ _ 0 k Hr) by lia. erewrite bind_done by reflexivity. rewrite s32_small by lia.
  destruct (bq_consume_law _ _ k Hr) as (b & Eb & Hb); [lia|]. rewrite Eb. erewrite bind_done by reflexivity.
  erewrite bind_done by reflexivity. set (d := slice l 0 k).
  assert (Hd : Zlen d = k) by (apply Zlen_slice; lia).
  eexists _, d, (skipn (Z.to_nat k) l). split; [rewrite Hd; reflexivity|].
  split; [unfold d; rewrite slice_0, take_drop; done|].
  pose proof (bq_sized_consume _ _ _ Eb) as Hsz.
  assert (Zlen d = Z.min (recv_size_ c) n) by (rewrite Hd; unfold k; destruct (Z.ltb_spec (recv_size_ c) n); lia).
  split_and!; try done; destruct c; done.
Qed.

Lemma reader_call_done r id size : reader_inv r -> waiting r = None -> 0 < size < 2 ^ 31 ->
  exists c o, (CoReceive size ;; recv_await_suspend id) (conn r) = Done c o /\
    reader_inv (mkReader c (match o with None => Some id | Some _ => None end) (got r ++ received o) (kept r) (lost r)).
Proof.
  intros [Ha _ Hzd (l & Hr & Eg & Hl & _)] Hw Hs. rewrite Hw in Ha. erewrite bind_done by reflexivity.
  set (c0 := (conn r) <| recv_size_ := size |>). assert (Hr0 : bq_rep (recv_buffer_ c0) l) by (unfold c0; destruct (conn r); done).
  unfold recv_await_suspend. erewrite bind_done by reflexivity. destruct (bq_rep_len _ _ Hr0) as [-> _].
  destruct (Z.ltb_spec 0 (Zlen l)) as [Hpos|Hz].
  - destruct (HandleReceive_done c0 id l (Zlen l)) as (c & d & rest & E & El & Hb & Hsz & Haw & _ & _ & _ & Hzd');
      [done|lia|done|lia|unfold c0; destruct (conn r); done|].
    rewrite (bind_done _ _ _ _ _ E). eexists _, _. split; [reflexivity|]. constructor; cbn [conn waiting got kept received].
    + rewrite Haw. unfold c0. destruct (conn r). exact Ha.
    + done.
    + apply Hzd'. unfold c0. destruct (conn r). exact Hzd.
    + exists rest. split; [done|]. rewrite <- app_assoc, <- El. split; [done|].
      split; [rewrite El, Zlen_app in Hl; pose proof (Zlen_nonneg d); lia|done].
  - assert (l = []) as -> by (apply Zlen_0_nil; pose proof (Zlen_nonneg l); lia).
    eexists _, _. split; [reflexivity|]. constructor; cbn [conn waiting got kept received].
    + unfold c0. destruct (conn r). cbn in *. subst. done.
    + unfold c0. destruct (conn r). done.
    + unfold c0. destruct (conn r). exact Hzd.
    + exists []. rewrite !app_nil_r in *. split_and!; try done; unfold c0; destruct (conn r); done.
Qed.

Lemma reader_data_done r data : reader_inv r -> data <> [] -> Zlen data <= 20 * 1024 ->
  exists c o, OnUvRead (Zlen data) data (conn r) = Done c o /\ (o = None <-> waiting r = None) /\
    reader_inv (match o with
                | Some _ => mkReader c None (got r ++ received o) (kept r ++ data) (lost r)
                | None => mkReader c (waiting r) (got r) (kept r) (lost r ++ data)
                end).
Proof.
  intros [Ha Hs Hzd (l & Hr & Eg & Hl & He)] Hd Hdl. pose proof (Zlen_nonneg data) as H0.
  assert (Hpos : 0 < Zlen data) by (destruct (Z.eq_dec (Zlen data) 0) as [E|]; [apply Zlen_0_nil in E; done|lia]).
  unfold OnUvRead. rewrite (proj2 (Z.eqb_neq _ _)) by lia. unfold OnReceive. erewrite bind_done by reflexivity.
  rewrite Ha. destruct (waiting r) as [id|] eqn:Ew.
  - rewrite (He ltac:(done)) in *. rewrite app_nil_r in Eg. rewrite (proj2 (Z.ltb_lt _ _) Hpos).
    destruct (bq_append_law _ _ data Hr) as (b & Eb & Hb); [apply bq_sized_empty; [done|done|lia]|].
    erewrite bind_done; [|rewrite Eb; erewrite bind_done by reflexivity; reflexivity].
    erewrite bind_done by reflexivity. set (c1 := _ <| read_awaiters_ := [] |>).
    destruct (HandleReceive_done c1 id data (Zlen data)) as (c & d & rest & E & El & Hb' & Hsz & Haw & _ & _ & _ & Hzd');
      [unfold c1; destruct (conn r); exact Hb|lia|done|lia|unfold c1; specialize (Hs ltac:(done)); destruct (conn r); done|].
    rewrite (bind_done _ _ _ _ _ E). eexists _, _. split; [reflexivity|]. split; [done|].
    constructor; cbn [conn waiting got kept received].
    + rewrite Haw. unfold c1. destruct (conn r). done.
    + done.
    + apply Hzd'. unfold c1. destruct (conn r). exact (bq_sized_append _ _ _ Eb Hzd).
    + exists rest. split; [done|]. rewrite <- app_assoc, <- El, Eg. split; [done|].
      split; [rewrite El, Zlen_app in Hdl; pose proof (Zlen_nonneg d); lia|done].
  - eexists _, _. split; [reflexivity|]. split; [done|]. constructor; cbn [conn waiting got kept]; [done|done|done|].
    exists l. split_and!; done.
Qed.

(** A read that fits is delivered whole. *)
Lemma OnUvRead_delivers (c : TcpCoAcceptConn Q) id data : read_awaiters_ c = [id] -> bq_rep (recv_buffer_ c) [] ->
  bq_sized (recv_buffer_ c) ->
  0 < Zlen data <= recv_size_ c -> Zlen data < 2 ^ 30 -> recv_size_ c < 2 ^ 31 ->
  exists c', OnUvRead (Zlen data) data c = Done c' (Some (ResumeRecv id (mkRecv RECV_OK (Zlen data)) data)) /\
    bq_rep (recv_buffer_ c') [] /\ read_awaiters_ c' = [] /\ recv_size_ c' = recv_size_ c /\
    uv_requests_ c' = uv_requests_ c /\ bq_sized (recv_buffer_ c').
Proof.
  intros Ha Hr Hzd Hl H30 Hs. unfold OnUvRead. rewrite (proj2 (Z.eqb_neq _ _)) by lia. unfold OnReceive.
  erewrite bind_done by reflexivity. rewrite Ha, (proj2 (Z.ltb_lt _ _)) by lia.
  destruct (bq_append_law _ _ data Hr) as (b & Eb & Hb); [apply bq_sized_empty; [done|done|lia]|].
  cbn [app] in Hb. erewrite bind_done; [|rewrite Eb; erewrite bind_done by reflexivity; reflexivity].
  erewrite bind_done by reflexivity. set (c1 := _ <| read_awaiters_ := [] |>).
  unfold HandleReceive. rewrite (proj2 (Z.leb_gt _ _)) by lia.
  assert (Hc : recv_buffer_ c1 = b /\ recv_size_ c1 = recv_size_ c) by (destruct c; done). destruct Hc as [Hcb Hcs].
  rewrite bind_assoc. erewrite bind_done by reflexivity. rewrite Hcb, Hcs, (proj2 (Z.ltb_ge _ _)) by lia.
  rewrite (bq_peek_law _ _ _ _ Hb) by lia. rewrite bind_assoc. erewrite bind_done by reflexivity. rewrite s32_small by lia.
  destruct (bq_consume_law _ _ (Zlen data) Hb) as (b2 & E2 & Hb2); [lia|]. rewrite E2.
  rewrite bind_assoc. erewrite bind_done by reflexivity. rewrite bind_assoc. erewrite bind_done by reflexivity.
  rewrite slice_0, to_nat_Zlen, firstn_all. eexists. split; [reflexivity|].
  rewrite to_nat_Zlen, skipn_all in Hb2.
  pose proof (bq_sized_consume _ _ _ E2 (bq_sized_append _ _ _ Eb Hzd)). destruct c; done.
Qed.

Definition reader_start (c : TcpCoAcceptConn Q) : reader := mkReader c None [] [] [].

Lemma reader_inv_start c : read_awaiters_ c = [] -> bq_rep (recv_buffer_ c) [] -> bq_sized (recv_buffer_ c) ->
  reader_inv (reader_start c).
Proof. intros Ha Hr Hz. constructor; [done|done|done|]. exists []. split_and!; try done. Qed.

Lemma reader_step_inv r r' : reader_inv r -> reader_step r r' -> reader_inv r'.
Proof.
  intros Hi Hstep. destruct Hstep as [r id size c o Hw Hs E|r data c o Hd Hl E].
  - destruct (reader_call_done r id size Hi Hw Hs) as (c' & o' & E' & Hi'). rewrite E in E'. injection E' as <- <-. exact Hi'.
  - destruct (reader_data_done r data Hi Hd Hl) as (c' & o' & E' & _ & Hi'). rewrite E in E'. injection E' as <- <-. exact Hi'.
Qed.

Lemma reader_reach_inv r r' : rtc reader_step r r' -> reader_inv r -> reader_inv r'.
Proof. induction 1; eauto using reader_step_inv. Qed.
End reader.

(** C22: a coroutine that receives from an accepted connection, in any sizes and any
    interleaving with arriving data, gets the bytes that arrived while it was suspended, in order
    and without loss; no step is undefined.  Data that arrives while it is not suspended is
    dropped. *)
Theorem receive_in_order {Q : Type} {HQ : ByteQueue Q} {HQL : ByteQueueLaws Q} {HQS : ByteQueueSized Q}
  (c : TcpCoAcceptConn Q) (r : reader) (status : TCP_CONNECT_STATUS)
  (Hc : TcpCoAcceptConn_new status = Ok c) (Hreach : rtc reader_step (reader_start c) r) :
  (exists l, bq_rep (recv_buffer_ (conn r)) l /\ got r ++ l = kept r /\ (waiting r <> None -> l = [])) /\
  (forall id size, waiting r = None -> 0 < size < 2 ^ 31 ->
     exists c' o, (CoReceive size ;; recv_await_suspend id) (conn r) = Done c' o) /\
  (forall data, data <> [] -> Zlen data <= 20 * 1024 ->
     exists c' o, OnUvRead (Zlen data) data (conn r) = Done c' o /\ (o = None <-> waiting r = None)).
Proof.
  assert (Hi : reader_inv r).
  { eapply reader_reach_inv; [exact Hreach|]. destruct (TcpCoAcceptConn_new_start status) as (b & E & Hr & Hz).
    rewrite E in Hc. injection Hc as <-. apply reader_inv_start; done. }
  split; [|split].
  - destruct Hi as [_ _ _ (l & Hl & Eg & _ & He)]. exists l. done.
  - intros id size Hw Hs. destruct (reader_call_done r id size Hi Hw Hs) as (c' & o & E & _). eauto.
  - intros data Hd Hl. destruct (reader_data_done r data Hi Hd Hl) as (c' & o & E & Ho & _). eauto.
Qed.

(** ** Writers on an accepted connection *)

Section writer.
Context {Q : Type} {HQ : ByteQueue Q}.

(** The writes that are under way: awaiter and data, oldest first. *)
Definition writing (c : TcpCoAcceptConn Q) (pending : list (nat * bytes)) : Prop :=
  write_awaiters_ c = map fst pending /\ uv_requests_ c = map snd pending.

Inductive write_op : Type :=
| WSend (awaiter : nat) (data : bytes) (uv_write : Z)
| WDone (status : Z).

Definition write_exec (op : write_op) : eff (TcpCoAcceptConn Q) (option resumption) :=
  match op with WSend a d ret => send_await_suspend ret a d | WDone status => OnWrite status end.

(** What the operations mean for the writes under way, and whom they resume. *)
Definition write_spec (pending : list (nat * bytes)) (op : write_op) : option (list (nat * bytes) * option resumption) :=
  match op, pending with
  | WSend a d ret, _ =>
      Some (if ret =? 0 then (pending ++ [(a, d)], None)
            else (pending, Some (ResumeSend a (mkSend SEND_ERROR (-1)))))
  | WDone status, (a, d) :: p =>
      Some (p, Some (ResumeSend a (if status =? 0 then mkSend SEND_OK (s32 (Zlen d)) else mkSend SEND_ERROR (-1))))
  | WDone _, [] => None
  end.

Lemma write_exec_refines c pending op p' o : writing c pending -> write_spec pending op = Some (p', o) ->
  exists c', write_exec op c = Done c' o /\ writing c' p'.
Proof.
  intros [Hw Hu] E. destruct op as [a d ret|status]; cbn [write_spec write_exec] in *.
  - unfold send_await_suspend, SendData. injection E as E. destruct (ret =? 0) eqn:Er; injection E as <- <-; cbn [negb].
    + erewrite bind_done by reflexivity. eexists. split; [reflexivity|].
      split; rewrite map_app; cbn [map fst snd]; [rewrite <- Hw|rewrite <- Hu]; destruct c; done.
    + erewrite bind_done by reflexivity. eexists. split; [reflexivity|]. done.
  - destruct pending as [|[a d] p]; [done|]. injection E as <- <-. unfold OnWrite. erewrite bind_done by reflexivity.
    rewrite Hu. cbn [map snd]. erewrite bind_done by reflexivity.
    rewrite Hw. cbn [map fst]. erewrite bind_done by reflexivity. eexists. split; [reflexivity|].
    split; destruct c; done.
Qed.
End writer.

Fixpoint write_run {Q} `{ByteQueue Q} (ops : list write_op) : eff (TcpCoAcceptConn Q) (list (option resumption)) :=
  match ops with [] => mret [] | op :: ops => o ← write_exec op; os ← write_run ops; mret (o :: os) end.
Fixpoint write_run_spec (pending : list (nat * bytes)) (ops : list write_op) : option (list (nat * bytes) * list (option resumption)) :=
  match ops with
  | [] => Some (pending, [])
  | op :: ops =>
      '(p, o) ← write_spec pending op; '(p, os) ← write_run_spec p ops; Some (p, o :: os)
  end.

(** C23: every [CoSend] is resumed by the completion of its own write, in the order of the
    sends, with the number of bytes of its own data, or with an error when libuv refuses or fails
    the write; for any interleaving of sends and completions, libuv completing writes in order. *)
Theorem sends_complete_in_order {Q : Type} {HQ : ByteQueue Q} (c : TcpCoAcceptConn Q) (pending p' : list (nat * bytes))
  (ops : list write_op) (os : list (option resumption))
  (Hc : writing c pending) (Hspec : write_run_spec pending ops = Some (p', os)) :
  exists c', write_run ops c = Done c' os /\ writing c' p'.
Proof.
  revert c pending p' os Hc Hspec; induction ops as [|op ops IH]; intros c pending p' os Hc Hspec.
  - injection Hspec as <- <-. exists c. done.
  - cbn [write_run_spec] in Hspec. destruct (write_spec pending op) as [[p1 o]|] eqn:E1; [|done]. cbn in Hspec.
    destruct (write_run_spec p1 ops) as [[p2 os2]|] eqn:E2; [|done]. injection Hspec as <- <-.
    destruct (write_exec_refines c pending op p1 o Hc E1) as (c1 & Ec1 & Hc1).
    destruct (IH c1 p1 p2 os2 Hc1 E2) as (c2 & Ec2 & Hc2). exists c2. split; [|done].
    cbn [write_run]. rewrite (bind_done _ _ _ _ _ Ec1), (bind_done _ _ _ _ _ Ec2). done.
Qed.

(** ** The client's connection *)

(** A read that fits, with a receive under way, is delivered whole. *)
Lemma OnRead_fits {Q : Type} {HQ : ByteQueue Q} {HQL : ByteQueueLaws Q} {HQS : ByteQueueSized Q} (c : TcpCoConn Q) id data :
  bq_rep (crecv_buffer_ c) [] -> bq_sized (crecv_buffer_ c) -> recv_awaiter_callback_ c = Some id ->
  0 < Zlen data <= 20 * 1024 -> Zlen data <= crecv_size_ c < 2 ^ 31 ->
  exists b, OnRead (Zlen data) data c = Done (c <| crecv_buffer_ := b |>) (ResumeRecv id (mkRecv RECV_OK (Zlen data)) data) /\
    bq_rep b [] /\ bq_sized b.
Proof.
  intros Hr Hz Hi Hd Hs. destruct (bq_append_law _ _ data Hr) as (b & Eb & Hb); [apply bq_sized_empty; [done|done|lia]|].
  cbn [app] in Hb. unfold OnRead. erewrite bind_done by reflexivity. rewrite (proj2 (Z.leb_gt _ _)) by lia. rewrite Eb.
  erewrite bind_done by reflexivity. erewrite bind_done by reflexivity. rewrite Hi. erewrite bind_done by reflexivity.
  rewrite s32_small by lia. set (c1 := c <| crecv_buffer_ := b |>).
  assert (Hb1 : bq_rep (crecv_buffer_ c1) data) by (destruct c; done).
  assert (Hs1 : crecv_size_ c1 = crecv_size_ c) by (destruct c; done).
  unfold OnAwaiterRecv. rewrite (proj2 (Z.leb_gt _ _)) by lia. erewrite bind_done by reflexivity.
  rewrite Hs1, s32_small, (proj2 (Z.ltb_ge _ _)) by lia. rewrite (bq_peek_law _ _ _ _ Hb1) by lia. erewrite bind_done by reflexivity.
  destruct (bq_consume_law _ _ (Zlen data) Hb1) as (b2 & E2 & Hb2); [lia|]. rewrite E2.
  erewrite bind_done by reflexivity. erewrite bind_done by reflexivity. rewrite slice_0, to_nat_Zlen, firstn_all.
  exists b2. split; [destruct c; reflexivity|]. rewrite to_nat_Zlen, skipn_all in Hb2. split; [exact Hb2|].
  eapply bq_sized_consume; [exact E2|]. replace (crecv_buffer_ c1) with b by (destruct c; done). by eapply bq_sized_append.
Qed.

(** What a read does on the client's connection.  With a receive under way, a read that fits
    is delivered; a read that does not fit takes its bytes from the buffer but resumes the
    coroutine with the initial result, pending and length 0; and a read or an error that arrives
    when no receive is under way calls through the null callback pointer. *)
Lemma client_read_outcomes {Q : Type} {HQ : ByteQueue Q} {HQL : ByteQueueLaws Q} {HQS : ByteQueueSized Q}
  (c : TcpCoConn Q) (data : bytes)
  (Hbuf : bq_rep (crecv_buffer_ c) []) (Hsized : bq_sized (crecv_buffer_ c)) (Hdata : 0 < Zlen data <= 20 * 1024) (Hsize : 0 < crecv_size_ c < 2 ^ 31) :
  (recv_awaiter_callback_ c = None -> OnRead (Zlen data) data c = Stuck /\ OnRead (-4095) [] c = Stuck) /\
  (forall id, recv_awaiter_callback_ c = Some id ->
     (Zlen data <= crecv_size_ c ->
        exists c', OnRead (Zlen data) data c = Done c' (ResumeRecv id (mkRecv RECV_OK (Zlen data)) data) /\
          bq_rep (crecv_buffer_ c') []) /\
     (crecv_size_ c < Zlen data ->
        exists c', OnRead (Zlen data) data c =
            Done c' (ResumeRecv id (mkRecv RECV_PENDING 0) (firstn (Z.to_nat (crecv_size_ c)) data)) /\
          bq_rep (crecv_buffer_ c') (skipn (Z.to_nat (crecv_size_ c)) data))).
Proof.
  destruct (bq_append_law _ _ data Hbuf) as (b & Eb & Hb); [apply bq_sized_empty; [done|done|lia]|].
  cbn [app] in Hb. split; [|intros id].
  - intros Hn. unfold OnRead. split; (erewrite bind_done by reflexivity).
    + rewrite (proj2 (Z.leb_gt _ _)) by lia. rewrite Eb. erewrite bind_done by reflexivity. erewrite bind_done by reflexivity.
      replace (recv_awaiter_callback_ c) with (@None nat). done.
    + rewrite Hn. done.
  - intros Hi. split; intros Hle.
    + destruct (OnRead_fits c id data Hbuf Hsized Hi) as (b2 & E2 & Hb2 & _); [lia|lia|].
      eexists. split; [exact E2|]. destruct c; done.
    + unfold OnRead. erewrite bind_done by reflexivity. rewrite (proj2 (Z.leb_gt _ _)) by lia. rewrite Eb.
      erewrite bind_done by reflexivity. erewrite bind_done by reflexivity. rewrite Hi.
      erewrite bind_done by reflexivity. rewrite s32_small by lia. set (c1 := c <| crecv_buffer_ := b |>).
      assert (Hb1 : bq_rep (crecv_buffer_ c1) data) by (destruct c; done).
      assert (Hs1 : crecv_size_ c1 = crecv_size_ c) by (destruct c; done).
      unfold OnAwaiterRecv. rewrite (proj2 (Z.leb_gt _ _)) by lia. erewrite bind_done by reflexivity.
      rewrite Hs1, s32_small, (proj2 (Z.ltb_lt _ _)) by lia. rewrite (bq_peek_law _ _ _ _ Hb1) by lia. erewrite bind_done by reflexivity.
      destruct (bq_consume_law _ _ (crecv_size_ c) Hb1) as (b2 & E2 & Hb2); [lia|]. rewrite E2.
      erewrite bind_done by reflexivity. erewrite bind_done by reflexivity.
      rewrite slice_0. eexists. split; [reflexivity|]. destruct c; done.
Qed.

(** ** Witnesses *)

Definition demo_accepted : TcpCoAcceptConn bytes := mkAcceptConn TCP_CONNECT_SUCCESS 0 [] [] [] [].
Definition demo_accepted_after : TcpCoAcceptConn bytes := mkAcceptConn TCP_CONNECT_SUCCESS 3 (bstr "lo") [] [] [].

Lemma receive_in_order_witness :
  let r := mkReader demo_accepted_after None (bstr "hel") (bstr "hello") [] in
  (exists l, bq_rep (recv_buffer_ (conn r)) l /\ got r ++ l = kept r /\ (waiting r <> None -> l = [])) /\
  (forall id size, waiting r = None -> 0 < size < 2 ^ 31 ->
     exists c' o, (CoReceive size ;; recv_await_suspend id) (conn r) = Done c' o) /\
  (forall data, data <> [] -> Zlen data <= 20 * 1024 ->
     exists c' o, OnUvRead (Zlen data) data (conn r) = Done c' o /\ (o = None <-> waiting r = None)).
Proof.
  apply (receive_in_order demo_accepted (mkReader demo_accepted_after None (bstr "hel") (bstr "hello") []) TCP_CONNECT_SUCCESS).
  - reflexivity.
  - apply (rtc_l _ _ (mkReader (mkAcceptConn TCP_CONNECT_SUCCESS 3 [] [1%nat] [] []) (Some 1%nat) [] [] [])).
    + apply (reader_call (reader_start demo_accepted) 1 3 _ None); [reflexivity|lia|reflexivity].
    + apply rtc_once. apply (reader_data (mkReader (mkAcceptConn TCP_CONNECT_SUCCESS 3 [] [1%nat] [] []) (Some 1%nat) [] [] [])
        (bstr "hello") demo_accepted_after (Some (ResumeRecv 1 (mkRecv RECV_OK 3) (bstr "hel")))); [discriminate|vm_compute; discriminate|reflexivity].
Defined.

Lemma sends_complete_in_order_witness : exists c',
  write_run [WSend 1 (bstr "ab") 0; WSend 2 (bstr "c") 0; WDone 0; WSend 3 (bstr "x") (-32); WDone (-104)] demo_accepted =
    Done c' [None; None; Some (ResumeSend 1 (mkSend SEND_OK 2)); Some (ResumeSend 3 (mkSend SEND_ERROR (-1)));
             Some (ResumeSend 2 (mkSend SEND_ERROR (-1)))] /\ writing c' [].
Proof.
  apply (sends_complete_in_order demo_accepted [] []
    [WSend 1 (bstr "ab") 0; WSend 2 (bstr "c") 0; WDone 0; WSend 3 (bstr "x") (-32); WDone (-104)]); [split; reflexivity|reflexivity].
Defined.

Definition demo_co_conn : TcpCoConn bytes :=
  mkCoConn None None (Some 4%nat) true TCP_CONNECT_SUCCESS [] 3 true [] [].
Lemma client_read_outcomes_witness :
  exists c', OnRead (Zlen (bstr "hello")) (bstr "hello") demo_co_conn =
    Done c' (ResumeRecv 4 (mkRecv RECV_PENDING 0) (firstn (Z.to_nat (crecv_size_ demo_co_conn)) (bstr "hello"))) /\
    bq_rep (crecv_buffer_ c') (skipn (Z.to_nat (crecv_size_ demo_co_conn)) (bstr "hello")).
Proof.
  assert (H1 : bq_sized (crecv_buffer_ demo_co_conn)) by exact I.
  assert (H2 : bq_rep (crecv_buffer_ demo_co_conn) []) by (split; reflexivity).
  assert (H3 : 0 < Zlen (bstr "hello") <= 20 * 1024) by (vm_compute; split; congruence).
  assert (H4 : 0 < crecv_size_ demo_co_conn < 2 ^ 31) by (cbn [crecv_size_ demo_co_conn]; lia).
  assert (H5 : crecv_size_ demo_co_conn < Zlen (bstr "hello")) by reflexivity.
  exact (proj2 (proj2 (client_read_outcomes demo_co_conn (bstr "hello") H2 H1 H3 H4) 4%nat eq_refl) H5).
Defined.
