(* ===== verification/CoEcho.v ===== *)
(** The echo server of co_tcp_server_echo.cpp and the client of co_tcp_client_echo.cpp: coroutines
    over the connections of [CoTcp].

    A coroutine is a frame (its locals and where it is suspended) and a function that runs it from a
    point to the next suspension.  The events are what libuv reports; each carries the result of
    the [uv_write] it may lead to.  The abstract echo of a connection is [echo_state]. *)
From S2P Require Import Prelude Eff ByteQueue CoTcp.

Section server.
Context {Q : Type} {HQ : ByteQueue Q}.

Definition buffer_size : Z := 10 * 1024.

(** ** One connection: the coroutine [EchoRecv] *)

Inductive echo_pc : Type := InReceive (awaiter : nat) | InSend (awaiter : nat) | Returned.
Record echo : Type := mkEcho {
  accept_conn : TcpCoAcceptConn Q;
  pc : echo_pc;
  recv_data : bytes;
  next_awaiter : nat }.

Abbreviation E := (eff echo).
Definition on_accepted {A} (m : eff (TcpCoAcceptConn Q) A) : E A :=
  zoom accept_conn (fun e c => e <| accept_conn := c |>) m.
Definition fresh_awaiter : E nat := e ← get; modify (fun e => e <| next_awaiter ::= S |>) ;; mret (next_awaiter e).

(** What the connection stores at [recv_data]. *)
Definition store_received (buf d : bytes) : res bytes :=
  if Zlen d <=? Zlen buf then Ok (d ++ skipn (length d) buf) else Undef.

(** The points of the loop: its head, and the two resumptions. *)
Inductive echo_point : Type := LoopHead | Received (r : RecvResult) (d : bytes) | Sent (r : SendResult).

(** From the resumption of a send: the loop's head, a receive that is served from the buffer, a send that
    libuv refuses, the return; four points are passed at most. *)
Fixpoint EchoRecv (fuel : nat) (uv_write : Z) (p : echo_point) : E unit :=
  match fuel with
  | O => stuck
  | S fuel =>
      match p with
      | LoopHead =>
          id ← fresh_awaiter;
          on_accepted (CoReceive buffer_size) ;;
          o ← on_accepted (recv_await_suspend id);
          match o with
          | None => modify (fun e => e <| pc := InReceive id |>)
          | Some (ResumeRecv _ r d) => EchoRecv fuel uv_write (Received r d)
          | Some _ => stuck
          end
      | Received r d =>
          e ← get;
          buf ← lift (store_received (recv_data e) d);
          modify (fun e => e <| recv_data := buf |>) ;;
          match recv_status r with
          | RECV_OK =>
              id ← fresh_awaiter;
              o ← on_accepted (send_await_suspend uv_write id (firstn (Z.to_nat (recv_len r)) buf));
              match o with
              | None => modify (fun e => e <| pc := InSend id |>)
              | Some (ResumeSend _ r) => EchoRecv fuel uv_write (Sent r)
              | Some _ => stuck
              end
          | _ => modify (fun e => e <| pc := Returned |>)
          end
      | Sent r =>
          match send_status r with
          | SEND_OK => EchoRecv fuel uv_write LoopHead
          | _ => modify (fun e => e <| pc := Returned |>)
          end
      end
  end.

(** The connection resumes the awaiter it was given. *)
Definition resume (uv_write : Z) (o : option resumption) : E unit :=
  e ← get;
  match o, pc e with
  | None, _ => mret tt
  | Some (ResumeRecv id r d), InReceive id' => if Nat.eqb id id' then EchoRecv 4 uv_write (Received r d) else stuck
  | Some (ResumeSend id r), InSend id' => if Nat.eqb id id' then EchoRecv 4 uv_write (Sent r) else stuck
  | Some _, _ => stuck
  end.

Inductive conn_event : Type :=
| EvRead (nread : Z) (base : bytes) (uv_write : Z)
| EvWrite (status : Z) (uv_write : Z).

Definition echo_event (ev : conn_event) : E unit :=
  match ev with
  | EvRead nread base ret => o ← on_accepted (OnUvRead nread base); resume ret o
  | EvWrite status ret => o ← on_accepted (OnWrite status); resume ret o
  end.

(** ** The server: the coroutine [Run] *)

Record EchoServer : Type := mkEchoServer {
  listener : CoTcpServer;
  run_returned : bool;
  next_accept : nat;
  clients : list echo }.                  (* in the order of their connections *)

(** The head of the loop: [co_await server->CoAccept()]. *)
Definition Run_accept (s : EchoServer) : EchoServer :=
  s <| listener := AddAwaiter (listener s) (next_accept s) |> <| next_accept ::= S |>.

Definition EchoRecv_call (c : TcpCoAcceptConn Q) : echo := mkEcho c Returned (replicate (Z.to_nat buffer_size) 0) 0.

Definition start_client (c : TcpCoAcceptConn Q) : eff EchoServer echo := fun s =>
  match EchoRecv 4 0 LoopHead (EchoRecv_call c) with
  | Done e _ => Done s e
  | Raised _ x => Raised s x
  | Stuck => Stuck
  end.
Definition at_client (i : nat) (e : echo) (m : E unit) : eff EchoServer unit := fun s =>
  match m e with
  | Done e' _ => Done (s <| clients ::= fun l => <[i := e']> l |>) tt
  | Raised e' x => Raised (s <| clients ::= fun l => <[i := e']> l |>) x
  | Stuck => Stuck
  end.

(** [on_uv_connection]: the accepted connection is given to a coroutine of its own, a failed
    one ends the loop. *)
Definition Run_connection (status : Z) : eff EchoServer unit :=
  s ← get;
  let '(l, o) := OnConnection (listener s) status in
  modify (fun s => s <| listener := l |>) ;;
  match o with
  | None => mret tt
  | Some (ResumeConnect _ st) =>
      s ← get;
      let '(l, c) := accept_await_resume (listener s) st in
      modify (fun s => s <| listener := l |>) ;;
      c ← lift c;
      match st with
      | TCP_CONNECT_SUCCESS =>
          e ← start_client c;
          modify (fun s => s <| clients ::= fun l => l ++ [e] |>) ;;
          modify Run_accept
      | _ => modify (fun s => s <| run_returned := true |>)
      end
  | Some _ => stuck
  end.

Inductive server_event : Type := EvConnection (status : Z) | EvAt (client : nat) (ev : conn_event).

Definition server_step (ev : server_event) : eff EchoServer unit :=
  match ev with
  | EvConnection status => Run_connection status
  | EvAt i ev =>
      s ← get;
      e ← deref (clients s !! i);
      at_client i e (echo_event ev)
  end.
End server.
Arguments echo Q : clear implicits.
Arguments EchoServer Q : clear implicits.

(** ** The abstract echo *)

Inductive echo_state : Type :=
| Receiving
| Sending (d rest : bytes)            (* [d] is being written, [rest] has been received behind it *)
| Finished.

Definition begin_send (uv_write : Z) (l : bytes) : echo_state :=
  if uv_write =? 0 then Sending (firstn (Z.to_nat buffer_size) l) (skipn (Z.to_nat buffer_size) l) else Finished.

(** What an event does; [None] for the completion of a write that was not started.  Bytes and
    errors that arrive while the echo is being written are dropped. *)
Definition echo_next (st : echo_state) (ev : conn_event) : option echo_state :=
  match ev, st with
  | EvRead nread base ret, Receiving =>
      Some (if nread =? 0 then Receiving else if nread <? 0 then Finished else begin_send ret base)
  | EvRead _ _ _, _ => Some st
  | EvWrite status ret, Sending _ rest =>
      Some (if negb (status =? 0) then Finished
            else if decide (rest = []) then Receiving else begin_send ret rest)
  | EvWrite _ _, _ => None
  end.

(** libuv reports at most the 20 KiB it was given. *)
Definition event_ok (ev : conn_event) : Prop :=
  match ev with
  | EvRead nread base _ => if 0 <? nread then nread = Zlen base /\ nread <= 20 * 1024 else base = []
  | EvWrite _ _ => True
  end.

Record server_state : Type := mkServerState { accepting : bool; waiting_conns : nat; echoes : list echo_state }.
Definition server_next (st : server_state) (ev : server_event) : option server_state :=
  match ev with
  | EvConnection status =>
      Some (if negb (accepting st) then st <| waiting_conns ::= S |>
            else if status =? 0 then st <| echoes ::= fun l => l ++ [Receiving] |> else st <| accepting := false |>)
  | EvAt i ev =>
      x ← echoes st !! i; x' ← echo_next x ev; Some (st <| echoes ::= fun l => <[i := x']> l |>)
  end.
Definition server_event_ok (ev : server_event) : Prop :=
  match ev with EvConnection _ => True | EvAt _ ev => event_ok ev end.

Fixpoint server_run (st : server_state) (evs : list server_event) : option server_state :=
  match evs with [] => Some st | ev :: evs => st' ← server_next st ev; server_run st' evs end.

(** ** One connection implements the abstract echo *)

Section refinement.
Context {Q : Type} {HQ : ByteQueue Q} {HQL : ByteQueueLaws Q} {HQS : ByteQueueSized Q}.
Implicit Types e : echo Q.

(** Who waits, what libuv holds, and what has been received and not taken. *)
Record echo_at e (reads writes : list nat) (reqs : list bytes) (l : bytes) : Prop := {
  ea_reads : read_awaiters_ (accept_conn e) = reads;
  ea_writes : write_awaiters_ (accept_conn e) = writes;
  ea_uv : uv_requests_ (accept_conn e) = reqs;
  ea_buffer : bq_rep (recv_buffer_ (accept_conn e)) l;
  ea_sized : bq_sized (recv_buffer_ (accept_conn e));
  ea_len : Zlen l <= 20 * 1024;
  ea_data : Zlen (recv_data e) = buffer_size }.

Definition echo_rel e (st : echo_state) : Prop :=
  match st with
  | Receiving => exists id, pc e = InReceive id /\ echo_at e [id] [] [] [] /\ recv_size_ (accept_conn e) = buffer_size
  | Sending d rest => exists id, pc e = InSend id /\ echo_at e [] [id] [d] rest
  | Finished => pc e = Returned /\ read_awaiters_ (accept_conn e) = []
  end.

Lemma on_accepted_done {A} (m : eff (TcpCoAcceptConn Q) A) e c a : m (accept_conn e) = Done c a ->
  on_accepted m e = Done (e <| accept_conn := c |>) a.
Proof. intros Em. unfold on_accepted, zoom. rewrite Em. done. Qed.

Lemma fresh_awaiter_done e : fresh_awaiter e = Done (e <| next_awaiter ::= S |>) (next_awaiter e).
Proof. done. Qed.

Lemma split_at_size (l d rest : bytes) : l = d ++ rest -> Zlen d = Z.min buffer_size (Zlen l) ->
  firstn (Z.to_nat buffer_size) l = d /\ skipn (Z.to_nat buffer_size) l = rest.
Proof.
  intros Ed Hdl. pose proof (f_equal Zlen Ed) as Elen. rewrite Zlen_app in Elen.
  pose proof (Zlen_nonneg d). pose proof (Zlen_nonneg rest). destruct (Z.le_gt_cases (Zlen l) buffer_size).
  - assert (rest = []) as -> by (apply Zlen_0_nil; lia). rewrite app_nil_r in Ed. subst d.
    rewrite firstn_all2, skipn_all2 by (unfold Zlen in *; lia). done.
  - subst l. rewrite firstn_Zlen_app, skipn_Zlen_app by lia. done.
Qed.

(** A received portion is handed to libuv, or the coroutine returns. *)
Lemma received_done n ret e d l : echo_at e [] [] [] l -> Zlen d <= buffer_size ->
  exists e', EchoRecv (S (S n)) ret (Received (mkRecv RECV_OK (Zlen d)) d) e = Done e' tt /\
    echo_rel e' (if ret =? 0 then Sending d l else Finished).
Proof.
  intros [H1 H2 H3 H4 H5 H6 H7] Hd. pose proof (Zlen_nonneg d). cbn [EchoRecv recv_status recv_len].
  erewrite bind_done by reflexivity. unfold store_received. rewrite H7, (proj2 (Z.leb_le _ _)) by lia.
  erewrite bind_done by reflexivity. erewrite bind_done by reflexivity.
  rewrite (bind_done _ _ _ _ _ (fresh_awaiter_done _)). rewrite to_nat_Zlen, firstn_app_len.
  set (e1 := (e <| recv_data := _ |>) <| next_awaiter ::= S |>).
  assert (Hc : accept_conn e1 = accept_conn e) by (destruct e; done).
  assert (Hl : Zlen (recv_data e1) = buffer_size).
  { replace (recv_data e1) with (d ++ skipn (length d) (recv_data e)) by (destruct e; done).
    rewrite Zlen_app, <- (to_nat_Zlen d), Zlen_drop by lia. lia. }
  set (id := next_awaiter _).
  assert (Es : send_await_suspend ret id d (accept_conn e1) =
    if ret =? 0 then Done ((accept_conn e1) <| uv_requests_ ::= fun q => q ++ [d] |> <| write_awaiters_ ::= fun q => q ++ [id] |>) None
    else Done (accept_conn e1) (Some (ResumeSend id (mkSend SEND_ERROR (-1))))).
  { unfold send_await_suspend, SendData. destruct (ret =? 0); done. }
  destruct (ret =? 0).
  - rewrite (bind_done _ _ _ _ _ (on_accepted_done _ _ _ _ Es)), Hc.
    eexists. split; [reflexivity|]. exists id. destruct e as [[] ? ? ?]. cbn in *. subst. split; [done|]. constructor; done.
  - rewrite (bind_done _ _ _ _ _ (on_accepted_done _ _ _ _ Es)). cbn [EchoRecv send_status].
    eexists. split; [reflexivity|]. destruct e as [[] ? ? ?]. cbn in *. done.
Qed.

(** The head of the loop: wait when nothing has been received, serve the buffer otherwise. *)
Lemma loop_head_done n ret e l : echo_at e [] [] [] l ->
  exists e', EchoRecv (S (S (S n))) ret LoopHead e = Done e' tt /\
    echo_rel e' (if decide (l = []) then Receiving else begin_send ret l).
Proof.
  intros [H1 H2 H3 H4 H5 H6 H7]. remember (S (S n)) as n2 eqn:En. cbn [EchoRecv].
  rewrite (bind_done _ _ _ _ _ (fresh_awaiter_done _)). set (id := next_awaiter e). set (e1 := e <| next_awaiter ::= S |>).
  erewrite bind_done by (apply on_accepted_done; reflexivity).
  set (c1 := (accept_conn e1) <| recv_size_ := buffer_size |>). set (e2 := e1 <| accept_conn := c1 |>).
  assert (Hc1 : recv_buffer_ c1 = recv_buffer_ (accept_conn e) /\ recv_size_ c1 = buffer_size /\ read_awaiters_ c1 = [] /\
    write_awaiters_ c1 = [] /\ uv_requests_ c1 = []) by (unfold c1, e1; destruct e as [[] ? ? ?]; done).
  destruct Hc1 as (C1 & C2 & C3 & C4 & C5). destruct (bq_rep_len _ _ H4) as [El H31].
  assert (Ec2 : accept_conn e2 = c1 /\ recv_data e2 = recv_data e) by (unfold e2, e1; destruct e; done). destruct Ec2 as [Ec2 Er2].
  destruct (decide (l = [])) as [->|Hl].
  - assert (Ew : recv_await_suspend id c1 = Done (c1 <| read_awaiters_ ::= fun q => q ++ [id] |>) None).
    { unfold recv_await_suspend. erewrite bind_done by reflexivity. rewrite C1, El. done. }
    erewrite bind_done by (apply on_accepted_done; rewrite Ec2; exact Ew). eexists. split; [reflexivity|].
    exists id. clearbody c1. unfold e2, e1 in *. destruct e as [c ? ? ?], c1. cbn in *. subst. split; [done|]. split; [constructor; done|done].
  - assert (Hpos : 0 < Zlen l) by (destruct l as [|x l']; [done|rewrite Zlen_cons; pose proof (Zlen_nonneg l'); lia]).
    destruct (HandleReceive_done c1 id l (Zlen l)) as (c2 & d & rest & Eh & Ed & Hr & Hs & Ha & Hu & Hw & Hdl & Hz);
      [rewrite C1; done|lia|done|lia|rewrite C2; unfold buffer_size; lia|].
    assert (Ew : recv_await_suspend id c1 = Done c2 (Some (ResumeRecv id (mkRecv RECV_OK (Zlen d)) d))).
    { unfold recv_await_suspend. erewrite bind_done by reflexivity. rewrite C1, El, (proj2 (Z.ltb_lt _ _)) by lia.
      rewrite (bind_done _ _ _ _ _ Eh). done. }
    erewrite bind_done by (apply on_accepted_done; rewrite Ec2; exact Ew). cbv iota. subst n2.
    rewrite C2 in Hdl. pose proof (Zlen_nonneg rest). pose proof (Zlen_nonneg d). pose proof (f_equal Zlen Ed) as Elen. rewrite Zlen_app in Elen.
    destruct (received_done n ret (e2 <| accept_conn := c2 |>) d rest) as (e' & E' & Hrel); [|lia|].
    { assert (Ec : accept_conn (e2 <| accept_conn := c2 |>) = c2 /\ recv_data (e2 <| accept_conn := c2 |>) = recv_data e2)
        by (destruct e2; done). destruct Ec as [Ec Er].
      constructor; rewrite ?Ec, ?Er; try congruence; [apply Hz; rewrite C1; done|lia]. }
    exists e'. split; [exact E'|]. unfold begin_send. destruct (ret =? 0); [|exact Hrel].
    destruct (split_at_size l d rest Ed Hdl) as [-> ->]. exact Hrel.
Qed.

(** A read while the coroutine receives: an error ends it, data is handed on. *)
Lemma read_error e id nread base ret : pc e = InReceive id -> echo_at e [id] [] [] [] -> nread < 0 ->
  exists e', echo_event (EvRead nread base ret) e = Done e' tt /\ echo_rel e' Finished.
Proof.
  intros Hpc [H1 _ _ _ _ _ H7] Hneg. cbn [echo_event]. unfold OnUvRead. rewrite (proj2 (Z.eqb_neq nread 0)) by lia.
  assert (Ew : OnReceive nread base (accept_conn e) =
    Done ((accept_conn e) <| read_awaiters_ := [] |>) (Some (ResumeRecv id (mkRecv RECV_ERROR 0) []))).
  { unfold OnReceive. erewrite bind_done by reflexivity. rewrite H1, (proj2 (Z.ltb_ge 0 nread)) by lia.
    erewrite bind_done by reflexivity. erewrite bind_done by reflexivity. unfold HandleReceive.
    rewrite (proj2 (Z.leb_le nread 0)) by lia. done. }
  rewrite (bind_done _ _ _ _ _ (on_accepted_done _ _ _ _ Ew)). unfold resume. erewrite bind_done by reflexivity.
  set (e1 := e <| accept_conn := _ |>). replace (pc e1) with (InReceive id) by (destruct e; cbn in *; congruence).
  rewrite Nat.eqb_refl. cbn [EchoRecv recv_status]. erewrite bind_done by reflexivity. unfold store_received. cbn [length app skipn].
  rewrite (proj2 (Z.leb_le _ _)) by apply Zlen_nonneg. erewrite bind_done by reflexivity. erewrite bind_done by reflexivity.
  eexists. split; [reflexivity|]. unfold e1. destruct e as [[] ? ? ?]. done.
Qed.

Lemma read_data e id base ret : pc e = InReceive id -> echo_at e [id] [] [] [] ->
  recv_size_ (accept_conn e) = buffer_size -> 0 < Zlen base <= 20 * 1024 ->
  exists e', echo_event (EvRead (Zlen base) base ret) e = Done e' tt /\ echo_rel e' (begin_send ret base).
Proof.
  intros Hpc [H1 H2 H3 H4 H5 H6 H7] Hsz Hb0. cbn [echo_event]. unfold OnUvRead. rewrite (proj2 (Z.eqb_neq _ 0)) by lia.
  destruct (bq_append_law _ _ base H4) as (b & Eb & Hb); [apply bq_sized_empty; [done|done|lia]|]. cbn [app] in Hb.
  set (c2 := ((accept_conn e) <| recv_buffer_ := b |>) <| read_awaiters_ := [] |>).
  assert (Hc2 : recv_buffer_ c2 = b /\ recv_size_ c2 = buffer_size /\ read_awaiters_ c2 = [] /\ write_awaiters_ c2 = [] /\
    uv_requests_ c2 = []) by (unfold c2; destruct (accept_conn e); cbn in *; subst; done).
  destruct Hc2 as (C1 & C2 & C3 & C4 & C5).
  destruct (HandleReceive_done c2 id base (Zlen base)) as (c3 & d & rest & Eh & Ed & Hr & Hs & Ha & Hu & Hw & Hdl & Hz);
    [rewrite C1; done|lia|done|lia|rewrite C2; unfold buffer_size; lia|].
  assert (Ew : OnReceive (Zlen base) base (accept_conn e) = Done c3 (Some (ResumeRecv id (mkRecv RECV_OK (Zlen d)) d))).
  { unfold OnReceive. erewrite bind_done by reflexivity. rewrite H1, (proj2 (Z.ltb_lt 0 _)) by lia. rewrite Eb.
    erewrite bind_done by (erewrite bind_done by reflexivity; reflexivity). erewrite bind_done by reflexivity.
    fold c2. rewrite (bind_done _ _ _ _ _ Eh). done. }
  rewrite (bind_done _ _ _ _ _ (on_accepted_done _ _ _ _ Ew)). unfold resume. erewrite bind_done by reflexivity.
  set (e3 := e <| accept_conn := c3 |>).
  assert (He3 : accept_conn e3 = c3 /\ recv_data e3 = recv_data e /\ pc e3 = InReceive id) by (unfold e3; destruct e; done).
  destruct He3 as (E1 & E2 & ->). rewrite Nat.eqb_refl. rewrite C2 in Hdl.
  pose proof (Zlen_nonneg rest). pose proof (Zlen_nonneg d). pose proof (f_equal Zlen Ed) as Elen. rewrite Zlen_app in Elen.
  destruct (received_done 2 ret e3 d rest) as (e' & E' & Hrel); [|lia|].
  { constructor; rewrite ?E1, ?E2; try congruence; [|lia]. apply Hz. rewrite C1. exact (bq_sized_append _ _ _ Eb H5). }
  exists e'. split; [exact E'|]. unfold begin_send. destruct (ret =? 0); [|exact Hrel].
  destruct (split_at_size base d rest Ed Hdl) as [-> ->]. exact Hrel.
Qed.

(** A read while it does not. *)
Lemma read_dropped e nread base ret : read_awaiters_ (accept_conn e) = [] ->
  echo_event (EvRead nread base ret) e = Done e tt.
Proof.
  intros Ha. cbn [echo_event]. assert (Eu : OnUvRead nread base (accept_conn e) = Done (accept_conn e) None).
  { unfold OnUvRead. destruct (nread =? 0); [done|]. unfold OnReceive. erewrite bind_done by reflexivity. rewrite Ha. done. }
  rewrite (bind_done _ _ _ _ _ (on_accepted_done _ _ _ _ Eu)). destruct e. done.
Qed.

(** The completion of a write. *)
Lemma write_completed e id d rest status ret : pc e = InSend id -> echo_at e [] [id] [d] rest ->
  exists e', echo_event (EvWrite status ret) e = Done e' tt /\
    echo_rel e' (if negb (status =? 0) then Finished else if decide (rest = []) then Receiving else begin_send ret rest).
Proof.
  intros Hpc [H1 H2 H3 H4 H5 H6 H7]. cbn [echo_event].
  set (c1 := ((accept_conn e) <| uv_requests_ := [] |>) <| write_awaiters_ := [] |>).
  assert (Ew : OnWrite status (accept_conn e) = Done c1 (Some (HandleSend id status (Zlen d)))).
  { unfold OnWrite. erewrite bind_done by reflexivity. rewrite H3. erewrite bind_done by reflexivity. rewrite H2.
    erewrite bind_done by reflexivity. done. }
  rewrite (bind_done _ _ _ _ _ (on_accepted_done _ _ _ _ Ew)). unfold resume, HandleSend. erewrite bind_done by reflexivity.
  set (e1 := e <| accept_conn := c1 |>). replace (pc e1) with (InSend id) by (destruct e; cbn in *; congruence).
  rewrite Nat.eqb_refl. assert (Hat : echo_at e1 [] [] [] rest) by (unfold e1, c1; destruct e as [[] ? ? ?]; by constructor).
  destruct (status =? 0); cbn [negb].
  - destruct (loop_head_done 0 ret e1 rest Hat) as (e' & E' & Hrel). exists e'. split; [|exact Hrel]. exact E'.
  - eexists. split; [reflexivity|]. destruct e1 as [[] ? ? ?]. split; [done|]. exact (ea_reads _ _ _ _ _ Hat).
Qed.

Lemma echo_event_refines e st st' ev : echo_rel e st -> event_ok ev -> echo_next st ev = Some st' ->
  exists e', echo_event ev e = Done e' tt /\ echo_rel e' st'.
Proof.
  intros Hrel Hok Hnext. destruct ev as [nread base ret|status ret], st as [|d rest|]; cbn [echo_next] in Hnext; injection Hnext as <- || done.
  - destruct Hrel as (id & Hpc & Hat & Hsz). cbn [event_ok] in Hok.
    destruct (Z.eqb_spec nread 0) as [->|Hn0]; [|destruct (Z.ltb_spec nread 0)].
    + exists e. split; [|by exists id]. cbn [echo_event].
      erewrite bind_done by (apply on_accepted_done; reflexivity). destruct e. done.
    + by apply (read_error e id).
    + rewrite (proj2 (Z.ltb_lt 0 nread)) in Hok by lia. destruct Hok as [-> Hmax]. apply (read_data e id); done || lia.
  - exists e. split; [|done]. apply read_dropped. destruct Hrel as (id & _ & Hat). exact (ea_reads _ _ _ _ _ Hat).
  - exists e. split; [|done]. apply read_dropped, Hrel.
  - destruct Hrel as (id & Hpc & Hat). by apply (write_completed e id d).
Qed.

(** ** The server implements a list of abstract echoes *)

Definition server_rel (s : EchoServer Q) (st : server_state) : Prop :=
  run_returned s = negb (accepting st) /\ awaiters_ (listener s) = (if accepting st then [Nat.pred (next_accept s)] else []) /\
  unaccepted_ (listener s) = waiting_conns st /\ Forall2 echo_rel (clients s) (echoes st).

Lemma start_client_done status s : exists c e,
  TcpCoAcceptConn_new status = Ok c /\ start_client c s = Done s e /\ echo_rel e Receiving.
Proof.
  destruct (TcpCoAcceptConn_new_start status) as (b & E & Hr & Hz). eexists. 
  destruct (loop_head_done 1 0 (EchoRecv_call (mkAcceptConn status 0 b [] [] [])) []) as (e & Ee & Hrel).
  { constructor; try done. }
  exists e. split; [exact E|]. split; [|exact Hrel]. unfold start_client. rewrite Ee. done.
Qed.

Lemma server_step_refines s st st' ev : server_rel s st -> server_event_ok ev -> server_next st ev = Some st' ->
  exists s', server_step ev s = Done s' tt /\ server_rel s' st'.
Proof.
  intros (R1 & R2 & R3 & R4) Hok Hnext. destruct ev as [status|i ev]; cbn [server_next server_step] in *.
  - injection Hnext as <-. unfold Run_connection. erewrite bind_done by reflexivity.
    destruct s as [[aw un] rr na cl], st as [acc wc es]. cbn in R1, R2, R3, R4. subst.
    destruct acc; cbn [negb accepting listener OnConnection awaiters_].
    + unfold OnConnection. cbn. set (st := if status =? 0 then TCP_CONNECT_SUCCESS else TCP_CONNECT_FAILED).
      erewrite bind_done by reflexivity. erewrite bind_done by reflexivity. cbn. erewrite bind_done by reflexivity.
      match goal with |- context [start_client] => idtac end. unfold st. destruct (status =? 0).
      * match goal with |- context [mbind _ (lift _) ?s0] => destruct (start_client_done TCP_CONNECT_SUCCESS s0) as (c & e & Ec & Es & Hrel) end.
        rewrite Ec. erewrite bind_done by reflexivity. cbv iota. rewrite (bind_done _ _ _ _ _ Es).
        erewrite bind_done by reflexivity. eexists. split; [reflexivity|]. split_and!; cbn; try done.
        apply Forall2_app; [done|]. by constructor.
      * destruct (TcpCoAcceptConn_new_start (Q := Q) TCP_CONNECT_FAILED) as (b & Ec & _). rewrite Ec.
        eexists. split; [reflexivity|]. done.
    + eexists. split; [reflexivity|]. done.
  - destruct (echoes st !! i) as [x|] eqn:Ex; [|done]. cbn in Hnext. destruct (echo_next x ev) as [x'|] eqn:En; [|done].
    injection Hnext as <-. destruct (Forall2_lookup_r _ _ _ _ _ R4 Ex) as (e & Ee & Hrel).
    destruct (echo_event_refines e x x' ev Hrel Hok En) as (e' & E' & Hrel').
    erewrite bind_done by reflexivity. rewrite Ee. erewrite bind_done by reflexivity. unfold at_client. rewrite E'.
    eexists. split; [reflexivity|]. destruct s, st. cbn in *. split_and!; try done. cbn. by apply Forall2_insert.
Qed.
End refinement.

(** [Run] before the first connection: the server awaits one. *)
Definition Run_start {Q : Type} : EchoServer Q := Run_accept (mkEchoServer (mkCoServer [] 0) false 0 []).
Definition server_start : server_state := mkServerState true 0 [].

(** C21: the echo server implements the abstract echo.  For any run of events - connections
    announced by libuv, reads, errors and completed writes of the accepted connections in any
    interleaving, whatever [uv_write] returns - that is possible for the abstract server (a write completes
    only when one is under way), no step of the coroutines is undefined, no exception leaves them, and the
    connections are then in the abstract states: one that is sending has handed exactly the portion [d] to libuv and holds
    [rest], one that receives has no write under way and nothing unread. *)
Theorem echo_server_refines {Q : Type} {HQ : ByteQueue Q} {HQL : ByteQueueLaws Q} {HQS : ByteQueueSized Q}
  (evs : list server_event) (st : server_state) :
  Forall server_event_ok evs -> server_run server_start evs = Some st ->
  exists s, for_each evs server_step (Run_start (Q := Q)) = Done s tt /\ server_rel s st.
Proof.
  intros Hok Hrun. assert (Hrel : server_rel (Run_start (Q := Q)) server_start) by (split_and!; try done; constructor).
  revert Hrun Hrel. generalize (Run_start (Q := Q)) as s. generalize server_start as st0.
  induction Hok as [|ev evs Hev _ IH]; intros st0 s Hrun Hrel; cbn [server_run for_each] in *.
  - injection Hrun as <-. exists s. done.
  - destruct (server_next st0 ev) as [st1|] eqn:En; [|done]. cbn in Hrun.
    destruct (server_step_refines s st0 st1 ev Hrel Hev En) as (s1 & E1 & Hrel1).
    destruct (IH st1 s1 Hrun Hrel1) as (s2 & E2 & Hrel2). exists s2. rewrite (bind_done _ _ _ _ _ E1). done.
Qed.

Lemma echo_server_refines_witness :
  let evs := [EvConnection 0; EvAt 0 (EvRead 2 [104; 105] 0); EvAt 0 (EvRead 1 [33] 0); EvConnection 0; EvAt 0 (EvWrite 0 0);
              EvConnection (-1); EvConnection 0; EvAt 1 (EvRead (-4095) [] 0); EvAt 0 (EvRead 1 [63] 0)] in
  exists s, for_each evs server_step (Run_start (Q := bytes)) = Done s tt /\
    server_rel s (mkServerState false 1 [Sending [63] []; Finished]).
Proof.
  apply (echo_server_refines (Q := bytes)
    [EvConnection 0; EvAt 0 (EvRead 2 [104; 105] 0); EvAt 0 (EvRead 1 [33] 0); EvConnection 0; EvAt 0 (EvWrite 0 0);
     EvConnection (-1); EvConnection 0; EvAt 1 (EvRead (-4095) [] 0); EvAt 0 (EvRead 1 [63] 0)]).
  - repeat (apply Forall_cons; split; [cbn; try lia; done|]). constructor.
  - reflexivity.
Defined.

(** What the abstract echo gives back: the bytes of the reads that it took, in order, as long as it
    has not ended. *)
Definition taken (st : echo_state) (ev : conn_event) : bytes :=
  match st, ev with Receiving, EvRead nread base _ => if 0 <? nread then base else [] | _, _ => [] end.
Definition handed (st : echo_state) (ev : conn_event) (st' : echo_state) : bytes :=
  match st, ev, st' with
  | Receiving, EvRead _ _ _, Sending d _ => d
  | Sending _ _, EvWrite _ _, Sending d _ => d
  | _, _, _ => []
  end.
Definition unsent (st : echo_state) : bytes := match st with Sending _ rest => rest | _ => [] end.

Lemma echo_conserves st ev st' : echo_next st ev = Some st' -> st' <> Finished ->
  handed st ev st' ++ unsent st' = unsent st ++ taken st ev.
Proof.
  intros E Hn. destruct st as [|d rest|], ev as [nread base ret|status ret]; cbn in E; injection E as <- || done.
  - cbn. unfold begin_send in *. destruct (Z.eqb_spec nread 0) as [->|]; [done|].
    destruct (Z.ltb_spec nread 0); [done|]. rewrite (proj2 (Z.ltb_lt 0 nread)) by lia.
    destruct (ret =? 0); [|done]. cbn. apply take_drop.
  - cbn. rewrite app_nil_r. done.
  - cbn. rewrite app_nil_r. unfold begin_send in *. destruct (status =? 0); cbn [negb] in *; [|done].
    destruct (decide (rest = [])) as [->|]; [done|]. destruct (ret =? 0); [|done]. cbn. apply take_drop.
  - done.
Qed.
