(* ===== verification/CoEchoClient.v ===== *)
(** The echo client of co_tcp_client_echo.cpp, and its dialogue with the echo server of [CoEcho]. *)
From S2P Require Import Prelude Eff ByteQueue CoTcp CoEcho.

(** The text that is sent; the dash between the years is three bytes of UTF-8. *)
Definition send_msg : bytes :=
  bstr "Isaac Newton (1643" ++ [226; 128; 147] ++
  bstr "1727) was an English physicist, mathematician, and astronomer, widely regarded as one of the most influential scientists in history. ".

Section client.
Context {Q : Type} {HQ : ByteQueue Q}.

Inductive job_pc : Type := JobNone | InConnect (awaiter : nat) | InJobSend (awaiter : nat) | InJobReceive (awaiter : nat).

(** [job] is the coroutine's frame, with its connection; [replies] is what was received, as it is logged. *)
Record EchoClient : Type := mkEchoClient {
  is_job_running_ : bool;
  conn_ptr : option (TcpCoConn Q);
  job : job_pc;
  next_job_awaiter : nat;
  replies : list bytes }.

(** What the calls of libuv return while the coroutine runs. *)
Record uv_results : Type := mkUv {
  host_is_ipv4 : bool; getaddrinfo_ret : Z; uv_tcp_connect_ret : Z; uv_write_ret : Z; uv_read_start_ret : Z; read_already : bool }.

Abbreviation C := (eff EchoClient).
Definition on_conn_ptr {A} (m : eff (TcpCoConn Q) A) : C A := fun s =>
  match conn_ptr s with
  | None => Stuck
  | Some c => match m c with
              | Done c' a => Done (s <| conn_ptr := Some c' |>) a
              | Raised c' x => Raised (s <| conn_ptr := Some c' |>) x
              | Stuck => Stuck
              end
  end.
Definition job_awaiter : C nat := s ← get; modify (fun s => s <| next_job_awaiter ::= S |>) ;; mret (next_job_awaiter s).
Definition wait_at (p : job_pc) : C unit := modify (fun s => s <| job := p |>).
(** [is_job_running_ = false; co_return]: the connection goes with the frame. *)
Definition job_return : C unit :=
  modify (fun s => s <| is_job_running_ := false |> <| job := JobNone |> <| conn_ptr := None |>).

Inductive job_point : Type :=
| JobStart
| JobConnected (status : TCP_CONNECT_STATUS)
| JobLoop
| JobSent (r : SendResult)
| JobReceived (r : RecvResult) (d : bytes).

(** The coroutine from a point to its next suspension; from a completed write with data waiting it passes
    four points. *)
Fixpoint DoJob (fuel : nat) (uv : uv_results) (p : job_point) : C unit :=
  match fuel with
  | O => stuck
  | S fuel =>
      match p with
      | JobStart =>
          c ← lift TcpCoConn_new;
          modify (fun s => s <| conn_ptr := Some c |>) ;;
          id ← job_awaiter;
          on_conn_ptr (CoConnect id) ;;
          o ← on_conn_ptr (connect_await_suspend (host_is_ipv4 uv) (getaddrinfo_ret uv) (uv_tcp_connect_ret uv) id);
          match o with
          | None => wait_at (InConnect id)
          | Some (ResumeConnect _ st) => DoJob fuel uv (JobConnected st)
          | Some _ => stuck
          end
      | JobConnected st =>
          match st with TCP_CONNECT_SUCCESS => DoJob fuel uv JobLoop | _ => job_return end
      | JobLoop =>
          id ← job_awaiter;
          on_conn_ptr (CoSend id send_msg) ;;
          o ← on_conn_ptr (csend_await_suspend (uv_write_ret uv) id);
          match o with
          | None => wait_at (InJobSend id)
          | Some (ResumeSend _ r) => DoJob fuel uv (JobSent r)
          | Some _ => stuck
          end
      | JobSent r =>
          match send_status r with
          | SEND_OK =>
              id ← job_awaiter;
              on_conn_ptr (cCoReceive id (10 * 1024)) ;;
              o ← on_conn_ptr (crecv_await_suspend (uv_read_start_ret uv) (read_already uv) id);
              match o with
              | None => wait_at (InJobReceive id)
              | Some (ResumeRecv _ r d) => DoJob fuel uv (JobReceived r d)
              | Some _ => stuck
              end
          | _ => job_return
          end
      | JobReceived r d =>
          on_conn_ptr recv_promise_destroyed ;;
          match recv_status r with
          | RECV_OK => modify (fun s => s <| replies ::= fun l => l ++ [firstn (Z.to_nat (recv_len r)) d] |>) ;; DoJob fuel uv JobLoop
          | _ => job_return
          end
      end
  end.

Definition job_resume (uv : uv_results) (o : option resumption) : C unit :=
  s ← get;
  match o, job s with
  | None, _ => mret tt
  | Some (ResumeConnect id st), InConnect id' => if Nat.eqb id id' then DoJob 4 uv (JobConnected st) else stuck
  | Some (ResumeSend id r), InJobSend id' => if Nat.eqb id id' then DoJob 4 uv (JobSent r) else stuck
  | Some (ResumeRecv id r d), InJobReceive id' => if Nat.eqb id id' then DoJob 4 uv (JobReceived r d) else stuck
  | Some _, _ => stuck
  end.

Inductive client_event : Type :=
| CeTimer
| CeConnected (status : Z)
| CeWritten (status : Z)
| CeRead (nread : Z) (base : bytes).

Definition OnTimer (uv : uv_results) : C unit :=
  s ← get;
  when (negb (is_job_running_ s)) (modify (fun s => s <| is_job_running_ := true |>) ;; DoJob 4 uv JobStart).

Definition client_step (uv : uv_results) (ev : client_event) : C unit :=
  match ev with
  | CeTimer => OnTimer uv
  | CeConnected status => r ← on_conn_ptr (OnConnect status); job_resume uv (Some r)
  | CeWritten status => o ← on_conn_ptr (cOnWrite status); job_resume uv o
  | CeRead nread base => r ← on_conn_ptr (OnRead nread base); job_resume uv (Some r)
  end.
End client.
Arguments EchoClient Q : clear implicits.

(** ** The dialogue: one connection of the server, one client, the network between them *)

Definition all_ok : uv_results := mkUv true 0 0 0 0 false.
Definition EchoClient_new {Q} : EchoClient Q := mkEchoClient false None JobNone 0 [].

(** One round: the client's write ends and arrives at the server, which writes it back; its write ends and
    arrives at the client by [deliver].  Both ends hand whole buffers to libuv. *)
Definition round_with {Q} `{ByteQueue Q} (deliver : bytes -> eff (EchoClient Q) unit) : eff (EchoClient Q * echo Q) unit :=
  let at_client (m : eff (EchoClient Q) unit) := zoom fst (fun s c => (c, snd s)) m in
  let at_server (m : eff (echo Q) unit) := zoom snd (fun s e => (fst s, e)) m in
  s ← get;
  c ← deref (conn_ptr (fst s));
  let out := concat (cuv_requests_ c) in
  at_client (client_step all_ok (CeWritten 0)) ;;
  at_server (echo_event (EvRead (Zlen out) out 0)) ;;
  s ← get;
  let back := concat (uv_requests_ (accept_conn (snd s))) in
  at_server (echo_event (EvWrite 0 0)) ;;
  at_client (deliver back).
Definition read_whole {Q} `{ByteQueue Q} (data : bytes) : eff (EchoClient Q) unit := client_step all_ok (CeRead (Zlen data) data).
(** The network delivers a buffer in one read, or the answer in two. *)
Definition round {Q} `{ByteQueue Q} : eff (EchoClient Q * echo Q) unit := round_with read_whole.
Definition cut_round {Q} `{ByteQueue Q} (k : nat) : eff (EchoClient Q * echo Q) unit :=
  round_with (fun back => read_whole (firstn k back) ;; read_whole (skipn k back)).

#[local] Opaque send_msg.

Section dialogue.
Context {Q : Type} {HQ : ByteQueue Q} {HQL : ByteQueueLaws Q} {HQS : ByteQueueSized Q}.
Implicit Types (s : EchoClient Q) (c : TcpCoConn Q).

Lemma on_conn_ptr_done {A} (m : eff (TcpCoConn Q) A) s c c' a : conn_ptr s = Some c -> m c = Done c' a ->
  on_conn_ptr m s = Done (s <| conn_ptr := Some c' |>) a.
Proof. intros Hc Em. unfold on_conn_ptr. rewrite Hc, Em. done. Qed.
Lemma job_awaiter_done s : job_awaiter s = Done (s <| next_job_awaiter ::= S |>) (next_job_awaiter s).
Proof. done. Qed.

(** Between the jobs' events: a connection that is open, with nothing unread. *)
Record talking s c (l : list bytes) : Prop := {
  tk_conn : conn_ptr s = Some c;
  tk_running : is_job_running_ s = true;
  tk_open : connect_ c = true;
  tk_buffer : bq_rep (crecv_buffer_ c) [];
  tk_sized : bq_sized (crecv_buffer_ c);
  tk_replies : replies s = l }.

(** The text is being written, or an answer is awaited. *)
Definition client_sends s (l : list bytes) : Prop :=
  exists c id, talking s c l /\ job s = InJobSend id /\ send_awaiter_callback_ c = Some id /\ cuv_requests_ c = [send_msg].
Definition client_receives s (l : list bytes) : Prop :=
  exists c id, talking s c l /\ job s = InJobReceive id /\ recv_awaiter_callback_ c = Some id /\ cuv_requests_ c = [] /\
    crecv_size_ c = 10 * 1024.

Lemma csend_done c id : connect_ c = true -> cuv_requests_ c = [] ->
  csend_await_suspend 0 id c = Done (c <| cuv_requests_ := [send_buffer_ c] |>) None.
Proof. intros Hc Hu. destruct c. cbn in Hc, Hu. subst. done. Qed.

Lemma loop_sends fuel s c l : talking s c l -> cuv_requests_ c = [] ->
  exists s', DoJob (S fuel) all_ok JobLoop s = Done s' tt /\ client_sends s' l /\
    exists c', conn_ptr s' = Some c' /\ recv_awaiter_callback_ c' = recv_awaiter_callback_ c.
Proof.
  intros [H1 H2 H3 H4 H5 H6] Hu. cbn [DoJob]. rewrite (bind_done _ _ _ _ _ (job_awaiter_done s)).
  set (id := next_job_awaiter s). set (s1 := s <| next_job_awaiter ::= S |>).
  assert (Hc1 : conn_ptr s1 = Some c) by (destruct s; done).
  set (c1 := (c <| send_buffer_ := send_msg |>) <| send_awaiter_callback_ := Some id |>).
  rewrite (bind_done _ _ _ _ _ (on_conn_ptr_done (CoSend id send_msg) s1 c c1 tt Hc1 eq_refl)).
  assert (Es : csend_await_suspend 0 id c1 = Done (c1 <| cuv_requests_ := [send_msg] |>) None).
  { rewrite csend_done by (destruct c; done). destruct c; done. }
  rewrite (bind_done _ _ _ _ _ (on_conn_ptr_done _ (s1 <| conn_ptr := Some c1 |>) c1 _ None ltac:(destruct s; done) Es)).
  eexists. split; [reflexivity|]. split.
  - exists (c1 <| cuv_requests_ := [send_msg] |>), id. unfold c1, s1. destruct s, c. cbn in *. subst. split_and!; done.
  - exists (c1 <| cuv_requests_ := [send_msg] |>). unfold c1, s1. destruct s, c. done.
Qed.

(** The write has ended: the client asks for the answer. *)
Lemma client_written s l : client_sends s l ->
  exists s', client_step all_ok (CeWritten 0) s = Done s' tt /\ client_receives s' l.
Proof.
  intros (c & id & [H1 H2 H3 H4 H5 H6] & Hj & Ha & Hu). cbn [client_step].
  assert (Ew : cOnWrite 0 c = Done (c <| cuv_requests_ := [] |>) (Some (ResumeSend id (mkSend SEND_OK (Zlen send_msg))))).
  { unfold cOnWrite. erewrite bind_done by reflexivity. rewrite Hu. erewrite bind_done by reflexivity. rewrite Ha. done. }
  rewrite (bind_done _ _ _ _ _ (on_conn_ptr_done _ _ _ _ _ H1 Ew)). set (c1 := c <| cuv_requests_ := [] |>).
  set (s1 := s <| conn_ptr := Some c1 |>). unfold job_resume. erewrite bind_done by reflexivity.
  replace (job s1) with (InJobSend id) by (destruct s; cbn in *; congruence). rewrite Nat.eqb_refl.
  cbn [DoJob send_status]. rewrite (bind_done _ _ _ _ _ (job_awaiter_done s1)). set (id2 := next_job_awaiter s1).
  set (s2 := s1 <| next_job_awaiter ::= S |>). set (c2 := (c1 <| crecv_size_ := 10 * 1024 |>) <| recv_awaiter_callback_ := Some id2 |>).
  rewrite (bind_done _ _ _ _ _ (on_conn_ptr_done (cCoReceive id2 (10 * 1024)) s2 c1 c2 tt ltac:(destruct s; done) eq_refl)).
  set (s3 := s2 <| conn_ptr := Some c2 |>).
  assert (Es : exists c3, crecv_await_suspend 0 false id2 c2 = Done c3 None /\ recv_awaiter_callback_ c3 = Some id2 /\
    cuv_requests_ c3 = [] /\ crecv_size_ c3 = 10 * 1024 /\ connect_ c3 = true /\ crecv_buffer_ c3 = crecv_buffer_ c).
  { unfold crecv_await_suspend. destruct (bq_rep_len _ _ H4) as [El _]. unfold c2, c1. destruct c as [a1 a2 a3 a4 a5 a6 a7 rs a9 a10].
    cbn in H3, H4, El |- *. subst a4. erewrite bind_done by reflexivity. cbn. rewrite El. change (0 <? Zlen []) with false.
    destruct rs; eexists; split; reflexivity || done. }
  destruct Es as (c3 & Es & P1 & P2 & P3 & P4 & P5).
  rewrite (bind_done _ _ _ _ _ (on_conn_ptr_done _ s3 c2 c3 None ltac:(destruct s; done) Es)).
  eexists. split; [reflexivity|]. exists c3, id2. rewrite <- P5 in H4, H5. unfold s3, s2, s1. destruct s. cbn in *.
  split; [constructor; done|]. done.
Qed.

(** Some of the answer has come: the client sends again, and nobody awaits what is still to come. *)
Lemma client_answered s l d : client_receives s l -> 0 < Zlen d <= 10 * 1024 ->
  exists s', read_whole d s = Done s' tt /\ client_sends s' (l ++ [d]) /\
    exists c', conn_ptr s' = Some c' /\ recv_awaiter_callback_ c' = None.
Proof.
  intros (c & id & [H1 H2 H3 H4 H5 H6] & Hj & Ha & Hu & Hs) Hd. unfold read_whole. cbn [client_step].
  destruct (OnRead_fits c id d H4 H5 Ha) as (b & Er & Hb & Hzb); [lia|rewrite Hs; lia|].
  rewrite (bind_done _ _ _ _ _ (on_conn_ptr_done _ _ _ _ _ H1 Er)). set (c1 := c <| crecv_buffer_ := b |>).
  set (s1 := s <| conn_ptr := Some c1 |>). unfold job_resume. erewrite bind_done by reflexivity.
  replace (job s1) with (InJobReceive id) by (destruct s; cbn in *; congruence). rewrite Nat.eqb_refl.
  remember 3%nat as f3 eqn:Ef. cbn [DoJob].
  set (c2 := c1 <| recv_awaiter_callback_ := None |>).
  rewrite (bind_done _ _ _ _ _ (on_conn_ptr_done recv_promise_destroyed s1 c1 c2 tt ltac:(destruct s; done) eq_refl)).
  cbn [recv_status recv_len]. erewrite bind_done by reflexivity. rewrite to_nat_Zlen, firstn_all.
  set (s2 := _ <| replies ::= _ |>). subst f3.
  destruct (loop_sends 2 s2 c2 (l ++ [d])) as (s' & E & Hs' & c' & Hc' & Hn').
  - unfold s2, s1, c2, c1. destruct s, c. cbn in *. subst. constructor; done.
  - unfold c2, c1. destruct c. done.
  - exists s'. split; [exact E|]. split; [exact Hs'|]. exists c'. split; [exact Hc'|]. rewrite Hn'. by destruct c.
Qed.

(** Data that nobody awaits. *)
Lemma unawaited_read s c d : conn_ptr s = Some c -> recv_awaiter_callback_ c = None ->
  bq_rep (crecv_buffer_ c) [] -> bq_sized (crecv_buffer_ c) -> 0 < Zlen d <= 20 * 1024 -> read_whole d s = Stuck.
Proof.
  intros Hc Ha Hr Hz Hd. destruct (bq_append_law _ _ d Hr) as (b & Eb & _); [apply bq_sized_empty; [done|done|lia]|].
  assert (E : OnRead (Zlen d) d c = Stuck).
  { unfold OnRead. erewrite bind_done by reflexivity. rewrite (proj2 (Z.leb_gt _ _)), Eb by lia.
    do 2 erewrite bind_done by reflexivity. rewrite Ha. reflexivity. }
  unfold read_whole, client_step, mbind, eff_bind, on_conn_ptr. by rewrite Hc, E.
Qed.
Lemma cut_answer s l k : client_receives s l -> (0 < k < length send_msg)%nat ->
  (read_whole (firstn k send_msg) ;; read_whole (skipn k send_msg)) s = Stuck.
Proof.
  intros Hs Hk. assert (Hlen : Zlen send_msg <= 10 * 1024) by (vm_compute; discriminate). unfold Zlen in Hlen.
  destruct (client_answered s l (firstn k send_msg) Hs) as (s1 & E & (c & id & Ht & _) & c' & Hc & Ha);
    [unfold Zlen; rewrite length_firstn; lia|].
  rewrite (tk_conn _ _ _ Ht) in Hc. injection Hc as <-. rewrite (bind_done _ _ _ _ _ E).
  apply (unawaited_read s1 c); [apply Ht|done|apply Ht|apply Ht|unfold Zlen; rewrite length_skipn; lia].
Qed.

(** A round until the answer is about to arrive. *)
Lemma round_answered s e l deliver : client_sends s l -> echo_rel e Receiving ->
  exists s1 e2, round_with deliver (s, e) = zoom fst (fun (w : EchoClient Q * echo Q) (u : EchoClient Q) => (u, snd w)) (deliver send_msg) (s1, e2) /\
    client_receives s1 l /\ echo_rel e2 Receiving.
Proof.
  intros Hs He. pose proof Hs as (c & id & [H1 _ _ _ _ _] & _ & _ & Hu). unfold round_with.
  erewrite bind_done by reflexivity. cbn [fst snd]. rewrite H1. erewrite bind_done by reflexivity. rewrite Hu. cbn [concat app].
  destruct (client_written s l Hs) as (s1 & E1 & Hs1).
  erewrite bind_done by (unfold zoom; cbn [fst snd]; rewrite E1; reflexivity).
  change (concat [send_msg]) with (send_msg ++ []). rewrite app_nil_r.
  destruct (echo_event_refines e Receiving (Sending send_msg []) (EvRead (Zlen send_msg) send_msg 0) He) as (e1 & Ee1 & He1);
    [split; [reflexivity|vm_compute; discriminate]|reflexivity|].
  erewrite bind_done by (unfold zoom; cbn [fst snd]; rewrite Ee1; reflexivity).
  erewrite bind_done by reflexivity. cbn [fst snd]. pose proof He1 as (id1 & _ & [_ _ Huv _ _ _ _]). rewrite Huv.
  destruct (echo_event_refines e1 (Sending send_msg []) Receiving (EvWrite 0 0) He1) as (e2 & Ee2 & He2); [done|reflexivity|].
  erewrite bind_done by (unfold zoom; cbn [fst snd]; rewrite Ee2; reflexivity).
  change (concat [send_msg]) with (send_msg ++ []). rewrite app_nil_r. exists s1, e2. done.
Qed.
Lemma round_done s e l : client_sends s l -> echo_rel e Receiving ->
  exists s' e', round (s, e) = Done (s', e') tt /\ client_sends s' (l ++ [send_msg]) /\ echo_rel e' Receiving.
Proof.
  intros Hs He. destruct (round_answered s e l read_whole Hs He) as (s1 & e2 & E & Hs1 & He2).
  destruct (client_answered s1 l send_msg Hs1) as (s2 & E2 & Hs2 & _); [split; [reflexivity|vm_compute; discriminate]|].
  exists s2, e2. unfold round. rewrite E. unfold zoom. cbn [fst snd]. rewrite E2. done.
Qed.
Lemma cut_round_fails s e l k : client_sends s l -> echo_rel e Receiving -> (0 < k < length send_msg)%nat ->
  cut_round k (s, e) = Stuck.
Proof.
  intros Hs He Hk. destruct (round_answered s e l (fun back => read_whole (firstn k back) ;; read_whole (skipn k back)) Hs He)
    as (s1 & e2 & E & Hs1 & _).
  unfold cut_round. rewrite E. unfold zoom. cbn [fst]. by rewrite (cut_answer s1 l k Hs1 Hk).
Qed.

Lemma client_connects : exists s, (OnTimer all_ok ;; client_step all_ok (CeConnected 0)) (EchoClient_new (Q := Q)) = Done s tt /\
  client_sends s [].
Proof.
  destruct (bq_new_sized (10 * 1024)) as (b & Eb & Hr & Hz & _); [lia|].
  set (c0 := mkCoConn (Some 0%nat) None None true TCP_CONNECT_PENDING [] 0 false b []).
  set (s0 := mkEchoClient true (Some c0) (InConnect 0) 1 []).
  assert (E0 : OnTimer all_ok (EchoClient_new (Q := Q)) = Done s0 tt).
  { unfold OnTimer, EchoClient_new. erewrite bind_done by reflexivity. cbn [is_job_running_ negb when].
    erewrite bind_done by reflexivity. cbn [DoJob]. unfold TcpCoConn_new. rewrite Eb. reflexivity. }
  rewrite (bind_done _ _ _ _ _ E0). cbn [client_step].
  set (c1 := c0 <| cstatus_ := TCP_CONNECT_SUCCESS |>).
  rewrite (bind_done _ _ _ _ _ (on_conn_ptr_done (OnConnect 0) s0 c0 c1 _ eq_refl eq_refl)).
  unfold job_resume. erewrite bind_done by reflexivity. cbn [job Nat.eqb].
  destruct (loop_sends 2 (s0 <| conn_ptr := Some c1 |>) c1 []) as (s & E & Hs & _); [by constructor|done|]. by exists s.
Qed.
End dialogue.


Definition demo_echo : echo bytes :=
  mkEcho (mkAcceptConn TCP_CONNECT_SUCCESS buffer_size [] [0%nat] [] []) (InReceive 0) (replicate (Z.to_nat buffer_size) 0) 1.
