(* ===== verification/CoHttp.v ===== *)
(** The coroutine HTTP server ([src/src/net/http/co_http/]).

    A session runs one coroutine, [HandleRequest], on an accepted connection ([CoTcp.v]), and the
    coroutines [Write] and [WriteStatus] its handler starts.  Each is cut at its [co_await]: the
    part after the cut is applied to the resumption.  The only [co_await] of [HandleRequest] is
    its receive, so it is suspended exactly when the connection has a read awaiter; a suspended
    write is its awaiter's number and what it still has to send ([wtask]).

    [CoTask] has no [co_await] of its own, so a handler starts its writes and returns: it is a
    list of operations.  An exception ends the coroutine it is thrown in, the promise types
    swallow it.  Clock, peer name and the results of libuv's calls are arguments: [uv_write n] is
    the result for the [n]th send.  An operation returns the endpoint for which the session has
    called its server's [OnClose], if it has: that call is the last thing the operation does, and
    it destroys the session. *)
From S2P Require Import Prelude Eff StdMap StdText StringEx ByteQueue HttpCommon CoTcp.

(** ** Messages ([co_http_common.hpp]) *)

(** The members [CoHttpRequest] shares with [HttpRequest], and the text of the head. *)
Record CoHttpRequest : Type := mkCoRequest { fields_ : HttpRequest; rheader_data_ : bytes }.

(** [accept_] is whether the pointer to the connection is not null. *)
Record CoHttpResponse : Type := mkCoResponse {
  is_close_ : bool;
  written_header_ : bool;
  status_ : bytes;
  status_code_ : Z;
  proto_ : bytes;
  version_ : bytes;
  headers_ : headers;
  accept_ : bool }.
Definition new_co_response : CoHttpResponse :=
  mkCoResponse false false (bstr "OK") 200 (bstr "HTTP") (bstr "1.1") [] true.

Definition LF : bytes := [10].
Definition dump_lines (hs : headers) : bytes := concat (map (fun h => fst h ++ bstr ": " ++ snd h ++ LF) hs).
Definition Dump (r : CoHttpRequest) : bytes :=
  let q := fields_ r in
  let body := default [] (content_body_ q) in
  bstr "Method: " ++ method_ q ++ LF ++ bstr "URI: " ++ uri_ q ++ LF ++
  bstr "Version: " ++ HttpCommon.version_ q ++ LF ++
  bstr "Content-Length: " ++ to_string_int (content_length_ q) ++ LF ++
  bstr "Headers:" ++ LF ++ dump_lines (req_headers_ q) ++
  (match params_ q with [] => [] | ps => bstr "Params:" ++ LF ++ dump_lines ps end) ++
  (if (0 <? content_length_ q) && (0 <? Zlen body) then bstr "Content Data: " ++ body ++ LF else []).

(** The text [Write] sends before the body. *)
Definition write_head (p : CoHttpResponse) (len : Z) (continue_flag : bool) : bytes :=
  proto_ p ++ bstr "/" ++ version_ p ++ bstr " " ++ to_string_int (status_code_ p) ++ bstr " " ++
  status_ p ++ CRLF ++ header_lines (headers_ p) ++
  (if negb continue_flag then bstr "Content-Length: " ++ to_string len ++ CRLF else []) ++ CRLF.
Definition status_head (p : CoHttpResponse) (code : Z) : bytes :=
  proto_ p ++ bstr "/" ++ version_ p ++ bstr " " ++ to_string (u32 code) ++ bstr " " ++
  status_ p ++ CRLF ++ bstr "Content-Length: 0" ++ CRLF ++ CRLF.

(** The destructor's [Close]. *)
Definition resp_Close (p : CoHttpResponse) : CoHttpResponse :=
  if is_close_ p then p else p <| is_close_ := true |> <| accept_ := false |>.

(** What a handler does with its response object. *)
Inductive co_op : Type :=
| CSetStatusCode (code : Z)
| CSetStatus (status : bytes)
| CAddHeader (key value : bytes)
| CWrite (data : bytes) (continue_flag : bool)
| CWriteStatus (code : Z) (status : bytes) (continue_flag : bool)
| CThrow.
#[export] Instance co_op_eq_dec : EqDecision co_op.
Proof. solve_decision. Defined.

(** A suspended [Write] or [WriteStatus]: the bytes from [p] on and the length left. *)
Inductive write_phase : Type :=
| WHeader (p : bytes) (header_len : Z)
| WBody (p : bytes) (total_len : Z)
| WStatus (p : bytes) (header_len : Z).
Record wtask : Type := mkTask { w_data : bytes; w_continue : bool; w_phase : write_phase }.

(** ** The request parser: methods on the request *)

Abbreviation R := (eff CoHttpRequest).
Definition on_fields (f : HttpRequest -> HttpRequest) : R unit := modify (fun r => r <| fields_ ::= f |>).

Fixpoint co_header_loop (lines : list bytes) : R Z :=
  match lines with
  | [] => mret 1
  | info_line :: lines' =>
      let pos := find (bstr ":") info_line in
      if pos =? npos then mret (-1)
      else
        key ← lift (substr info_line 0 pos);
        value ← lift (substr_from info_line (pos + 2));
        when (beqb key (bstr "Content-Length")) (
          n ← lift (atoi value); on_fields (fun q => q <| content_length_ := n |>)) ;;
        on_fields (fun q => q <| req_headers_ ::= smap_insert key value |>) ;;
        co_header_loop lines'
  end.

(** [AnalyzeHeader] from the split of the head on. *)
Definition co_parse_head (header_str : bytes) : R Z :=
  match StringSplit header_str CRLF with
  | [] => mret (-1)
  | first_line :: header_vec =>
      match StringSplit first_line (bstr " ") with
      | [m; u; version_info] =>
          on_fields (fun q => q <| method_ := m |>) ;;
          r ← get;
          let '(ret, uri, ps) := GetUriAndParams u (params_ (fields_ r)) in
          on_fields (fun q => q <| uri_ := uri |> <| params_ := ps |>) ;;
          if ret <? 0 then mret (-1)
          else
            let pos := find (bstr "HTTP") version_info in
            if pos =? npos then mret (-1)
            else
              v ← lift (substr_from version_info (pos + 5));
              on_fields (fun q => q <| HttpCommon.version_ := v |>) ;;
              co_header_loop header_vec
      | _ => mret (-1)
      end
  end.

(** ** The session ([co_http_session.cpp], [co_http_common.cpp]) *)

Section session.
Context {Q : Type} {HQ : ByteQueue Q}.
Context (GetHandle : CoHttpRequest -> option nat).
Context (handler : nat -> CoHttpRequest -> list co_op).
Context (uv_write : nat -> Z).

Record CoHttpSession : Type := mkCoSession {
  accept_conn_ : TcpCoAcceptConn Q;
  header_data_ : Q;
  content_data_ : Q;
  header_is_ready_ : bool;
  content_start_ : Z;
  request_ : option CoHttpRequest;
  response_ : option CoHttpResponse;
  alive_ms_ : Z;
  sclose_ : bool;                     (* is_close_ *)
  writes_ : list (nat * wtask);       (* the suspended writes, by awaiter *)
  next_ : nat;                        (* awaiters made so far *)
  handed_ : bytes }.                  (* all bytes uv_write has taken *)

Definition CoHttpSession_new (conn : TcpCoAcceptConn Q) (now : Z) : res CoHttpSession :=
  h ← bq_new (10 * 1024); c ← bq_new (10 * 1024);
  Ok (mkCoSession conn h c false (-1) None None now false [] 0 []).

Abbreviation M := (eff CoHttpSession).

Definition on_conn {A} (m : eff (TcpCoAcceptConn Q) A) : M A :=
  zoom accept_conn_ (fun s c => s <| accept_conn_ := c |>) m.
Definition new_awaiter : M nat := s ← get; modify (fun s => s <| next_ ::= S |>) ;; mret (next_ s).

Definition OnResponseAlive (now : Z) : M unit := modify (fun s => s <| alive_ms_ := now |>).
Definition OnResponseClose (peer : bytes) : M (option bytes) :=
  modify (fun s => s <| sclose_ := true |>) ;; mret (Some peer).
Definition IsAlive (now : Z) (s : CoHttpSession) : bool := (now - alive_ms_ s <? 5000) && negb (sclose_ s).

(** *** Writing *)

Definition resp_get : M CoHttpResponse := s ← get; deref (response_ s).
Definition resp_upd (f : CoHttpResponse -> CoHttpResponse) : M unit :=
  p ← resp_get; modify (fun s => s <| response_ := Some (f p) |>).

(** [co_await accept_conn_->CoSend(p, n)] in the coroutine that then is [w]: it is suspended, or,
    when the write is refused, resumed with the error and finished.  A negative length is a huge
    [size_t]. *)
Definition co_send (w : wtask) (p : bytes) (n : Z) : M unit :=
  if n <? 0 then stuck
  else
    let data := firstn (Z.to_nat n) p in
    id ← new_awaiter;
    o ← on_conn (send_await_suspend (uv_write id) id data);
    match o with
    | None => modify (fun s => s <| writes_ ::= fun l => l ++ [(id, w)] |> <| handed_ ::= fun h => h ++ data |>)
    | Some _ => mret tt
    end.

(** The send a suspended task is at. *)
Definition send_task (w : wtask) : M unit :=
  match w_phase w with WHeader p n => co_send w p n | WBody p n => co_send w p n | WStatus p n => co_send w p n end.

(** From the body on; [&send_data[0]] needs an element. *)
Definition start_body (data : bytes) (continue_flag : bool) : M unit :=
  match data with
  | [] => stuck
  | _ => send_task (mkTask data continue_flag (WBody data (s32 (Zlen data))))
  end.

Definition co_Write (data : bytes) (continue_flag : bool) : M unit :=
  p ← resp_get;
  if is_close_ p || negb (accept_ p) then mret tt
  else if negb (written_header_ p) then
    let header_str := write_head p (Zlen data) continue_flag in
    send_task (mkTask data continue_flag (WHeader header_str (s32 (Zlen header_str))))
  else start_body data continue_flag.

Definition co_WriteStatus (code : Z) (status : bytes) (continue_flag : bool) : M unit :=
  p ← resp_get;
  if is_close_ p || negb (accept_ p) then mret tt
  else
    resp_upd (fun p => p <| status_ := status |>) ;;
    p ← resp_get;
    let header_str := status_head p code in
    send_task (mkTask [] continue_flag (WStatus header_str (s32 (Zlen header_str)))).

(** The end of [Write] and [WriteStatus]. *)
Definition write_finish (peer : bytes) (continue_flag : bool) : M (option bytes) :=
  if negb continue_flag then resp_upd (fun p => p <| is_close_ := true |>) ;; OnResponseClose peer
  else mret None.

(** A suspended write is resumed with the result of its send. *)
Definition write_resumed (now : Z) (peer : bytes) (w : wtask) (result : SendResult) : M (option bytes) :=
  match send_status result with
  | SEND_OK =>
      let n := sent_len result in
      match w_phase w with
      | WHeader p len =>
          OnResponseAlive now ;;
          if 0 <? len - n then
            send_task (w <| w_phase := WHeader (skipn (Z.to_nat n) p) (len - n) |>) ;; mret None
          else
            resp_upd (fun p => p <| written_header_ := true |>) ;;
            start_body (w_data w) (w_continue w) ;; mret None
      | WBody p len =>
          OnResponseAlive now ;;
          if 0 <? len - n then
            send_task (w <| w_phase := WBody (skipn (Z.to_nat n) p) (len - n) |>) ;; mret None
          else write_finish peer (w_continue w)
      | WStatus p len =>
          if 0 <? len - n then
            send_task (w <| w_phase := WStatus (skipn (Z.to_nat n) p) (len - n) |>) ;; mret None
          else write_finish peer (w_continue w)
      end
  | _ => mret None
  end.

(** libuv's write callback. *)
Fixpoint take_task (id : nat) (l : list (nat * wtask)) : option (wtask * list (nat * wtask)) :=
  match l with
  | [] => None
  | (i, w) :: l' =>
      if Nat.eqb i id then Some (w, l')
      else match take_task id l' with Some (w', k) => Some (w', (i, w) :: k) | None => None end
  end.
Definition session_uv_written (now : Z) (peer : bytes) (status : Z) : M (option bytes) :=
  o ← on_conn (OnWrite status);
  match o with
  | Some (ResumeSend id result) =>
      s ← get;
      match take_task id (writes_ s) with
      | Some (w, l) => modify (fun s => s <| writes_ := l |>) ;; write_resumed now peer w result
      | None => stuck
      end
  | _ => mret None
  end.

(** *** The request *)

Definition exec_op (op : co_op) : M unit :=
  match op with
  | CSetStatusCode c => resp_upd (fun p => p <| status_code_ := c |>)
  | CSetStatus st => resp_upd (fun p => p <| status_ := st |>)
  | CAddHeader k v => resp_upd (fun p => p <| headers_ ::= smap_set k v |>)
  | CWrite d c => co_Write d c
  | CWriteStatus c st f => co_WriteStatus c st f
  | CThrow => raise (StreamExn [])
  end.

(** The call of a handler: its coroutine swallows what it throws. *)
Definition call_handle (h : nat) (q : CoHttpRequest) : M unit :=
  try_catch (for_each (handler h q) exec_op) (fun _ => mret tt).

Definition on_request {A} (m : R A) : M A :=
  s ← get; q ← deref (request_ s); zoom (fun _ => q) (fun s q => s <| request_ := Some q |>) m.

Definition append_content (data : bytes) : M unit :=
  s ← get; b ← lift (bq_append (content_data_ s) data); modify (fun s => s <| content_data_ := b |>).

Definition new_co_request (head : bytes) : CoHttpRequest :=
  mkCoRequest (new_request <| content_body_ := Some [] |>) head.

Definition AnalyzeHeader (data : bytes) : M Z :=
  s ← get;
  if header_is_ready_ s then mret 1
  else
    b ← lift (bq_append (header_data_ s) data);
    modify (fun s => s <| header_data_ := b |>) ;;
    info ← lift (bq_string b);
    let pos := find (CRLF ++ CRLF) info in
    if pos =? npos then modify (fun s => s <| header_is_ready_ := false |>) ;; mret 0
    else
      let content_start := s32 pos + 4 in
      let header_str := firstn (Z.to_nat pos) info in
      modify (fun s => s <| content_start_ := content_start |> <| header_is_ready_ := true |>
                         <| request_ := Some (new_co_request header_str) |>) ;;
      start ← lift (bq_peek b content_start (u64 (s32 (s32 (bq_len b) - content_start))));
      append_content start ;;
      on_request (co_parse_head header_str).

Definition HandleRequest_handle (q : CoHttpRequest) (now : Z) (body : option bytes) : M unit :=
  match GetHandle q with
  | None => mret tt
  | Some h =>
      modify (fun s => s <| response_ ::= fun r =>
        match body, r with Some _, Some p => Some p | _, _ => Some new_co_response end |>) ;;
      let q := match body with Some d => q <| fields_ ::= fun f => f <| content_body_ := Some d |> |> | None => q end in
      modify (fun s => s <| request_ := Some q |> <| alive_ms_ := now |>) ;;
      call_handle h q
  end.

(** What [HandleRequest] does with a complete head, whatever part of the body is there; [true]
    goes on with the loop. *)
Definition HandleRequest_dispatch (now : Z) : M bool :=
  s ← get; q ← deref (request_ s);
  if beqb (method_ (fields_ q)) (bstr "GET") then HandleRequest_handle q now None ;; mret false
  else if (0 <? content_length_ (fields_ q)) &&
          (content_length_ (fields_ q) <=? s32 (bq_len (content_data_ s))) then
    body ← lift (bq_string (content_data_ s));
    HandleRequest_handle q now (Some body) ;; mret false
  else mret true.

(** [HandleRequest] after its receive. *)
Definition request_received (now : Z) (result : RecvResult) (data : bytes) : M bool :=
  match recv_status result with
  | RECV_OK =>
      modify (fun s => s <| alive_ms_ := now |>) ;;
      s ← get;
      ret ← (if negb (header_is_ready_ s) then AnalyzeHeader data else append_content data ;; mret 1);
      if ret =? 0 then mret true
      else if ret <? 0 then mret false
      else HandleRequest_dispatch now
  | _ => mret false
  end.

(** The loop of [HandleRequest] until it suspends or ends; [fuel] bounds the receives that the
    connection answers from its buffer.  A throw ends the coroutine. *)
Fixpoint HandleRequest (fuel : nat) (now : Z) : M unit :=
  match fuel with
  | O => stuck
  | S fuel =>
      modify (fun s => s <| alive_ms_ := now |>) ;;
      id ← new_awaiter;
      o ← on_conn (CoReceive (10 * 1024) ;; recv_await_suspend id);
      match o with
      | Some (ResumeRecv _ result data) =>
          go ← try_catch (request_received now result data) (fun _ => mret false);
          if go : bool then HandleRequest fuel now else mret tt
      | _ => mret tt
      end
  end.

(** Every receive takes at least one byte. *)
Definition loop_fuel (s : CoHttpSession) : nat := S (Z.to_nat (bq_len (recv_buffer_ (accept_conn_ s)))).

(** libuv's read callback. *)
Definition session_uv_read (now nread : Z) (base : bytes) : M unit :=
  o ← on_conn (OnUvRead nread base);
  match o with
  | Some (ResumeRecv _ result data) =>
      go ← try_catch (request_received now result data) (fun _ => mret false);
      s ← get;
      if go : bool then HandleRequest (loop_fuel s) now else mret tt
  | _ => mret tt
  end.
End session.
Arguments CoHttpSession Q : clear implicits.

(** ** The server ([co_http_server.cpp]) *)

Section server.
Context {Q : Type} {HQ : ByteQueue Q}.
Context (handler : nat -> CoHttpRequest -> list co_op).
Context (uv_write : bytes -> nat -> Z).

(** [orphans_] are the writes libuv holds for connections whose object is destroyed: [uv_close]
    cancels them, and their callback finds its object through the handle. *)
Record CoHttpServer : Type := mkCoHttpServer {
  http_sessions_ : list (bytes * CoHttpSession Q);
  get_handle_map_ : list (bytes * nat);
  post_handle_map_ : list (bytes * nat);
  listening_ : CoTcpServer;
  accepting_ : bool;                  (* Run has not left its loop *)
  orphans_ : list bytes }.

Abbreviation V := (eff CoHttpServer).

Definition AddGetHandle (s : CoHttpServer) (uri : bytes) (handle_func : nat) : CoHttpServer :=
  s <| get_handle_map_ ::= smap_set (GetUri uri) handle_func |>.
Definition AddPostHandle (s : CoHttpServer) (uri : bytes) (handle_func : nat) : CoHttpServer :=
  s <| post_handle_map_ ::= smap_set (GetUri uri) handle_func |>.

Definition server_GetHandle (s : CoHttpServer) (request : CoHttpRequest) : option nat :=
  let uri := GetUri (uri_ (fields_ request)) in
  if beqb (method_ (fields_ request)) (bstr "GET") then smap_find uri (get_handle_map_ s)
  else if beqb (method_ (fields_ request)) (bstr "POST") then smap_find uri (post_handle_map_ s)
  else None.

(** The last reference to a session goes. *)
Definition destroy_session (x : CoHttpSession Q) (s : CoHttpServer) : CoHttpServer :=
  s <| orphans_ ::= fun l => l ++ uv_requests_ (accept_conn_ x) |>.

Definition server_OnClose (endpoint : bytes) (s : CoHttpServer) : CoHttpServer :=
  match smap_find endpoint (http_sessions_ s) with
  | Some x => destroy_session x (s <| http_sessions_ ::= smap_erase endpoint |>)
  | None => s
  end.

Definition OnTimer (now : Z) (s : CoHttpServer) : CoHttpServer :=
  let live e := IsAlive now (snd e) in
  fold_left (fun s e => destroy_session (snd e) s)
    (List.filter (fun e => negb (live e)) (http_sessions_ s))
    (s <| http_sessions_ ::= List.filter live |>).

(** A method of the session stored under an endpoint. *)
Definition on_session {A} (endpoint : bytes) (m : eff (CoHttpSession Q) A) : V A :=
  s ← get; x ← deref (smap_find endpoint (http_sessions_ s));
  zoom (fun _ => x) (fun s x => s <| http_sessions_ ::= smap_set endpoint x |>) m.

(** [Run] from [CoAccept] to the next one; the first failed accept ends the loop. *)
Definition Run_accept (awaiter : nat) : V unit := modify (fun s => s <| listening_ ::= fun l => AddAwaiter l awaiter |>).
Definition Run_accepted (now : Z) (endpoint : bytes) (awaiter : nat) (status : TCP_CONNECT_STATUS) : V unit :=
  s ← get;
  let '(l, r) := accept_await_resume (listening_ s) status in
  modify (fun s => s <| listening_ := l |>) ;;
  conn ← lift r;
  match status with
  | TCP_CONNECT_SUCCESS =>
      x ← lift (CoHttpSession_new conn now);
      modify (server_OnClose endpoint) ;;
      modify (fun s => s <| http_sessions_ ::= smap_set endpoint x |>) ;;
      s ← get;
      on_session endpoint (HandleRequest (server_GetHandle s) handler (uv_write endpoint) (loop_fuel x) now) ;;
      Run_accept awaiter
  | _ => modify (fun s => s <| accepting_ := false |>)
  end.
Definition server_uv_connection (now : Z) (endpoint : bytes) (awaiter : nat) (status : Z) : V unit :=
  s ← get;
  let '(l, o) := OnConnection (listening_ s) status in
  modify (fun s => s <| listening_ := l |>) ;;
  match o with
  | Some (ResumeConnect _ st) => Run_accepted now endpoint awaiter st
  | _ => mret tt
  end.

(** libuv's callbacks on the connection of a session; a session that has called [OnClose] is
    destroyed, if the server knows the endpoint it names. *)
Definition server_uv_read (now : Z) (endpoint : bytes) (nread : Z) (base : bytes) : V unit :=
  s ← get; on_session endpoint (session_uv_read (server_GetHandle s) handler (uv_write endpoint) now nread base).
Definition server_uv_written (now : Z) (endpoint peer : bytes) (status : Z) : V unit :=
  o ← on_session endpoint (session_uv_written (uv_write endpoint) now peer status);
  match o with Some ep => modify (server_OnClose ep) | None => mret tt end.
End server.
Arguments CoHttpServer Q : clear implicits.
