(* ===== verification/CoHttpRequests.v ===== *)
(** The coroutine HTTP server answers requests: theorems about [CoHttp.v].

    The first part evaluates the request parser and the loop of [HandleRequest] on the bytes of
    a request, however they are cut into reads; the second follows the writes a handler has
    started to their completion; the third puts both together with the server. *)
From S2P Require Import Prelude Eff StdMap StdText StringEx ByteQueue HttpCommon HttpText HttpRequests CoTcp CoHttp.

(** ** The parser *)

Lemma co_header_loop_ok hs : forall r, Forall header_ok hs -> Forall (fun h => Zlen (header_line h) < npos) hs ->
  co_header_loop (map header_line hs) r = Done (r <| fields_ := store_headers (fields_ r) hs |>) 1.
Proof.
  induction hs as [|h hs IH]; intros r Hok Hl; [destruct r; done|].
  apply Forall_cons in Hok as [Hh Hok]. apply Forall_cons in Hl as [Hlh Hl].
  destruct (header_line_find h Hh Hlh) as (E1 & E2 & E3 & E4).
  cbn [map co_header_loop]. rewrite E1, (proj2 (Z.eqb_neq _ _) E2), E3, E4.
  erewrite bind_done by reflexivity. erewrite bind_done by reflexivity. cbv beta.
  destruct Hh as (_ & _ & _ & Hc). unfold when. destruct (beqb (fst h) (bstr "Content-Length")) eqn:E.
  - apply beqb_true in E as E'. destruct (Hc E') as (n & Hn & Ev).
    assert (Ea : atoi (snd h) = Ok n).
    { rewrite Ev, <- (app_nil_r (to_string n)). apply atoi_to_string; done. }
    rewrite Ea. erewrite bind_done by (erewrite bind_done by reflexivity; reflexivity).
    erewrite bind_done by reflexivity. rewrite IH by done. unfold store_headers. cbn [fold_left].
    unfold store_header at 3. rewrite E, Ea. destruct r as [f d]. done.
  - erewrite bind_done by reflexivity. erewrite bind_done by reflexivity. rewrite IH by done.
    unfold store_headers. cbn [fold_left]. unfold store_header at 3. rewrite E. destruct r as [f d]. done.
Qed.

(** The request built from a head. *)
Definition co_parsed (m target : bytes) (hs : headers) : CoHttpRequest :=
  mkCoRequest (store_headers (first_line_request (new_request <| content_body_ := Some [] |>) m target) hs)
    (join CRLF (request_lines m target hs)).

Lemma co_parse_head_ok m target hs : request_ok m target hs -> Zlen (request_text m target hs) < npos ->
  co_parse_head (join CRLF (request_lines m target hs)) (new_co_request (join CRLF (request_lines m target hs))) =
  Done (co_parsed m target hs) 1.
Proof.
  intros Hok Hl. unfold co_parse_head.
  rewrite head_split; [|apply request_lines_ok; done|done|].
  2:{ unfold request_text, head_text in Hl. rewrite !Zlen_app in Hl. pose proof (Zlen_nonneg CRLF). lia. }
  unfold request_lines at 1. cbv iota.
  rewrite (first_line_split m target hs []); [|done|rewrite app_nil_r; done].
  erewrite bind_done by reflexivity. erewrite bind_done by reflexivity. cbv beta.
  change (params_ _) with (@nil (bytes * bytes)).
  destruct (GetUriAndParams target []) as [[ret uri] ps] eqn:Eu. cbv iota.
  erewrite bind_done by reflexivity. pose proof (ro_uri _ _ _ Hok) as Huri. rewrite Eu in Huri. cbn [fst] in Huri.
  rewrite (proj2 (Z.ltb_ge _ _)) by lia. destruct find_HTTP as [-> ->]. change (0 =? npos) with false. cbv iota.
  erewrite bind_done by reflexivity. erewrite bind_done by reflexivity. rewrite co_header_loop_ok; [|apply Hok|].
  - unfold co_parsed, first_line_request. change (params_ (new_request <| content_body_ := Some [] |>)) with (@nil (bytes * bytes)).
    rewrite Eu. done.
  - apply List.Forall_forall. intros h Hin. eapply (request_lines_len m target hs [] h); [done|].
    rewrite app_nil_r. done.
Qed.

Lemma co_parsed_method m target hs : method_ (fields_ (co_parsed m target hs)) = m.
Proof.
  unfold co_parsed. cbn [fields_]. rewrite store_headers_method. unfold first_line_request.
  destruct (GetUriAndParams _ _) as [[? ?] ?]. done.
Qed.

Section request.
Context {Q : Type} {HQ : ByteQueue Q} {HQL : ByteQueueLaws Q} {HQP : ByteQueuePacked Q} {HQS : ByteQueueSized Q}.
Context (GetHandle : CoHttpRequest -> option nat) (handler : nat -> CoHttpRequest -> list co_op) (uv_write : nat -> Z).
Implicit Types s : CoHttpSession Q.

(** *** One receive *)

(** A session that has not started to answer. *)
Record quiet s : Prop := {
  qt_response : response_ s = None;
  qt_writes : writes_ s = [];
  qt_handed : handed_ s = [];
  qt_close : sclose_ s = false;
  qt_uv : uv_requests_ (accept_conn_ s) = [];
  qt_aw : write_awaiters_ (accept_conn_ s) = [] }.

Context (m target : bytes) (hs : headers) (body : bytes) (h : nat).
Context (Hok : request_ok m target hs).
Abbreviation text := (request_text m target hs).
Abbreviation q0 := (co_parsed m target hs).
Context (Hlen : Zlen (text ++ body) < 2 ^ 30).
Context (Hbody : if decide (m = bstr "GET") then body = []
                 else content_length_ (fields_ q0) = Zlen body /\ body <> []).
Context (Hroute : GetHandle q0 = Some h).

(** What the handler is called with. *)
Definition co_seen : CoHttpRequest :=
  if decide (m = bstr "GET") then q0 else q0 <| fields_ ::= fun f => f <| content_body_ := Some body |> |>.

(** [pre] has been received and the request is not complete. *)
Definition reading s (pre : bytes) : Prop :=
  quiet s /\
  ((exists k, header_is_ready_ s = false /\ bq_rep (header_data_ s) pre /\ bq_packed (header_data_ s) /\
      bq_rep (content_data_ s) [] /\ bq_packed (content_data_ s) /\ pre ++ k = text /\ k <> []) \/
   (exists b k, header_is_ready_ s = true /\ request_ s = Some q0 /\ bq_rep (content_data_ s) b /\
      bq_packed (content_data_ s) /\ pre = text ++ b /\ body = b ++ k /\ k <> [])).

(** The handler is about to be called. *)
Definition about_to_answer s s0 : Prop :=
  response_ s0 = Some new_co_response /\ writes_ s0 = [] /\ handed_ s0 = [] /\ sclose_ s0 = false /\
  accept_conn_ s0 = accept_conn_ s /\ request_ s0 = Some co_seen.

Lemma text_nonnil : text <> [].
Proof. unfold request_text, head_text. intros E. apply app_nil in E as [_ E]. done. Qed.

Lemma append_content_ok s b d : bq_rep (content_data_ s) b -> bq_packed (content_data_ s) ->
  Zlen b + Zlen d < 2 ^ 30 ->
  exists q, append_content d s = Done (s <| content_data_ := q |>) tt /\ bq_rep q (b ++ d) /\ bq_packed q.
Proof.
  intros Hr Hp Hl. destruct (bq_packed_append _ _ d Hr Hp Hl) as (q & E & Hq & Hqp). exists q.
  unfold append_content. erewrite bind_done by reflexivity. rewrite E. done.
Qed.

Lemma AnalyzeHeader_more s pre d k : header_is_ready_ s = false -> bq_rep (header_data_ s) pre ->
  bq_packed (header_data_ s) -> (pre ++ d) ++ k = text -> k <> [] ->
  exists q, AnalyzeHeader d s = Done (s <| header_data_ := q |> <| header_is_ready_ := false |>) 0 /\
    bq_rep q (pre ++ d) /\ bq_packed q.
Proof.
  intros Hrdy Hr Hp E Hk. rewrite Zlen_app, <- E, !Zlen_app in Hlen. pose proof (Zlen_nonneg k). pose proof (Zlen_nonneg body).
  destruct (bq_packed_append _ _ d Hr Hp) as (q & Eq & Hq & Hqp); [lia|]. exists q. split; [|done].
  unfold AnalyzeHeader. erewrite bind_done by reflexivity. rewrite Hrdy, Eq.
  erewrite bind_done by reflexivity. erewrite bind_done by reflexivity. rewrite (bq_string_law _ _ Hq).
  erewrite bind_done by reflexivity.
  rewrite (head_incomplete _ (pre ++ d) k (request_lines_ok _ _ _ Hok)); try done.
  fold text. rewrite <- E, !Zlen_app. unfold npos. lia.
Qed.

Lemma AnalyzeHeader_full s pre d b k : header_is_ready_ s = false -> bq_rep (header_data_ s) pre ->
  bq_packed (header_data_ s) -> bq_rep (content_data_ s) [] -> bq_packed (content_data_ s) ->
  pre ++ d = text ++ b -> body = b ++ k ->
  exists hq cq c, AnalyzeHeader d s = Done (s <| header_data_ := hq |> <| content_start_ := c |>
      <| header_is_ready_ := true |> <| request_ := Some q0 |> <| content_data_ := cq |>) 1 /\
    bq_rep cq b /\ bq_packed cq.
Proof.
  intros Hrdy Hr Hp Hc Hcp E Eb. assert (Hl := Hlen). rewrite Zlen_app, Eb, Zlen_app in Hl.
  assert (Hl' := f_equal Zlen E). rewrite !Zlen_app in Hl'. pose proof (Zlen_nonneg k). pose proof (Zlen_nonneg b).
  destruct (bq_packed_append _ _ d Hr Hp) as (hq & Eq & Hq & Hqp); [lia|].
  unfold AnalyzeHeader. erewrite bind_done by reflexivity. rewrite Hrdy, Eq.
  erewrite bind_done by reflexivity. erewrite bind_done by reflexivity. rewrite (bq_string_law _ _ Hq), E.
  erewrite bind_done by reflexivity. destruct (bq_rep_len _ _ Hq) as [El _]. rewrite E in El, Hq.
  assert (Hlt : Zlen (text ++ b) < npos) by (rewrite Zlen_app; unfold npos; lia).
  assert (Ef : find (CRLF ++ CRLF) (text ++ b) = Zlen (join CRLF (request_lines m target hs)))
    by (apply (head_find _ b (request_lines_ok _ _ _ Hok)); done).
  rewrite Ef. set (head := join CRLF (request_lines m target hs)) in *.
  assert (Et : Zlen text = Zlen head + 4).
  { unfold request_text, head_text. fold head. rewrite !Zlen_app. change (Zlen CRLF) with 2. lia. }
  rewrite Zlen_app, Et in El. rewrite Et in Hl. pose proof (Zlen_nonneg head).
  rewrite (proj2 (Z.eqb_neq _ _)) by (unfold npos; lia).
  rewrite El, !s32_small by (try rewrite s32_small; lia).
  replace (u64 (Zlen head + 4 + Zlen b - (Zlen head + 4))) with (Zlen b) by (unfold u64; rewrite Z.mod_small; lia).
  erewrite bind_done by reflexivity. rewrite (bq_peek_law _ _ _ _ Hq) by (rewrite ?Zlen_app, ?Et; lia).
  erewrite bind_done by reflexivity.
  replace (slice _ _ _) with b by (rewrite <- (app_nil_r b) at 2; symmetry; apply slice_app; done).
  replace (firstn _ _) with head.
  2:{ unfold request_text, head_text. fold head. rewrite <- app_assoc, firstn_Zlen_app; done. }
  set (s1 := s <| header_data_ := hq |> <| content_start_ := _ |> <| header_is_ready_ := true |> <| request_ := _ |>).
  destruct (append_content_ok s1 [] b) as (cq & Ea & Hcq & Hcqp);
    [unfold s1; destruct s; exact Hc|unfold s1; destruct s; exact Hcp|change (Zlen (@nil Z)) with 0; lia|].
  rewrite (bind_done _ _ _ _ _ Ea). exists hq, cq, (Zlen head + 4). split; [|done].
  unfold on_request. erewrite bind_done by reflexivity.
  replace (request_ (s1 <| content_data_ := cq |>)) with (Some (new_co_request head)) by (unfold s1; destruct s; done).
  erewrite bind_done by reflexivity. unfold zoom, head. rewrite co_parse_head_ok by (done || (rewrite Et; unfold npos; lia)).
  unfold s1. destruct s; done.
Qed.

Lemma get_method : beqb (method_ (fields_ q0)) (bstr "GET") = if decide (m = bstr "GET") then true else false.
Proof. rewrite co_parsed_method. unfold beqb. destruct (decide (m = bstr "GET")); [rewrite bool_decide_true|rewrite bool_decide_false]; done. Qed.

Lemma HandleRequest_handle_ok s now o : response_ s = None -> writes_ s = [] -> handed_ s = [] -> sclose_ s = false ->
  co_seen = match o with Some d => q0 <| fields_ ::= fun f => f <| content_body_ := Some d |> |> | None => q0 end ->
  exists s0, HandleRequest_handle GetHandle handler uv_write q0 now o s = call_handle handler uv_write h co_seen s0 /\
    about_to_answer s s0.
Proof.
  intros H1 H2 H3 H4 E. unfold HandleRequest_handle. rewrite Hroute. erewrite bind_done by reflexivity.
  rewrite <- E. erewrite bind_done by reflexivity. eexists. split; [reflexivity|].
  destruct s. cbn in H1, H2, H3, H4. subst. destruct o; done.
Qed.

(** With part of the body the coroutine goes on, with all of it it calls the handler. *)
Lemma dispatch_more s now b k : request_ s = Some q0 -> bq_rep (content_data_ s) b -> body = b ++ k -> k <> [] ->
  HandleRequest_dispatch GetHandle handler uv_write now s = Done s true.
Proof.
  intros Hq Hb Eb Hk. unfold HandleRequest_dispatch. erewrite bind_done by reflexivity. rewrite Hq.
  erewrite bind_done by reflexivity. rewrite get_method. destruct (decide _) as [Hm|Hm].
  - rewrite Hbody in Eb. symmetry in Eb. apply app_nil in Eb as [_ Eb]. done.
  - destruct Hbody as [-> _]. destruct (bq_rep_len _ _ Hb) as [-> Hl].
    assert (Hlt : Zlen b < Zlen body) by (rewrite Eb, Zlen_app; destruct k; [done|rewrite Zlen_cons; pose proof (Zlen_nonneg k); lia]).
    rewrite s32_small by (pose proof (Zlen_nonneg b); lia). rewrite (proj2 (Z.leb_gt _ _)) by lia. rewrite andb_false_r. done.
Qed.

Lemma dispatch_now s now : request_ s = Some q0 -> bq_rep (content_data_ s) body ->
  response_ s = None -> writes_ s = [] -> handed_ s = [] -> sclose_ s = false ->
  exists s0, HandleRequest_dispatch GetHandle handler uv_write now s = (call_handle handler uv_write h co_seen ;; mret false) s0 /\
    about_to_answer s s0.
Proof.
  intros Hq Hb H1 H2 H3 H4. unfold HandleRequest_dispatch. erewrite bind_done by reflexivity. rewrite Hq.
  erewrite bind_done by reflexivity. rewrite get_method. destruct (decide _) as [Hm|Hm].
  - destruct (HandleRequest_handle_ok s now None) as (s0 & E & Ha); try done.
    { unfold co_seen. rewrite decide_True; done. }
    exists s0. split; [|exact Ha]. unfold mbind, eff_bind. rewrite E. done.
  - destruct Hbody as [Ec Hne]. rewrite Ec. destruct (bq_rep_len _ _ Hb) as [El Hl]. rewrite El, s32_small by (pose proof (Zlen_nonneg body); lia).
    rewrite (proj2 (Z.ltb_lt _ _)) by (destruct body as [|? l]; [done|rewrite Zlen_cons; pose proof (Zlen_nonneg l); lia]).
    rewrite Z.leb_refl, (bq_string_law _ _ Hb). cbn [andb]. erewrite bind_done by reflexivity.
    destruct (HandleRequest_handle_ok s now (Some body)) as (s0 & E & Ha); try done.
    { unfold co_seen. rewrite decide_False; done. }
    exists s0. split; [|exact Ha]. unfold mbind, eff_bind. rewrite E. done.
Qed.

Lemma reading_cases pre d k : (pre ++ d) ++ k = text ++ body ->
  (exists k1, (pre ++ d) ++ k1 = text /\ k1 <> []) \/ (exists b, pre ++ d = text ++ b /\ body = b ++ k).
Proof.
  intros E. apply app_eq_inv in E as [(z & E1 & E2)|(z & E1 & E2)].
  - right. exists z. done.
  - destruct z as [|z0 z]; [right; exists []; rewrite app_nil_r in *; done|left; exists (z0 :: z); done].
Qed.

Lemma request_received_step s now pre d k : reading s pre -> d <> [] -> (pre ++ d) ++ k = text ++ body ->
  if decide (k = []) then
    exists s0, request_received GetHandle handler uv_write now (mkRecv RECV_OK (Zlen d)) d s =
      (call_handle handler uv_write h co_seen ;; mret false) s0 /\ about_to_answer s s0
  else
    exists s', request_received GetHandle handler uv_write now (mkRecv RECV_OK (Zlen d)) d s = Done s' true /\
      reading s' (pre ++ d) /\ accept_conn_ s' = accept_conn_ s.
Proof.
  intros [[Hr Hw Hh Hcl Hu Ha] Hst] Hd E. unfold request_received. cbn [recv_status].
  erewrite bind_done by reflexivity. erewrite bind_done by reflexivity. set (s1 := s <| alive_ms_ := now |>).
  destruct Hst as [(k0 & Hrdy & Hb & Hbp & Hc & Hcp & E0 & Hk0)|(b & k0 & Hrdy & Hq & Hc & Hcp & E0 & Eb & Hk0)].
  - replace (header_is_ready_ s1) with false by (unfold s1; destruct s; done). cbn [negb].
    destruct (reading_cases pre d k E) as [(k1 & E1 & Hk1)|(b & E1 & Eb)].
    + destruct (AnalyzeHeader_more s1 pre d k1) as (q & EA & Hq & Hqp);
        [unfold s1; destruct s; assumption..|done|done|].
      rewrite (bind_done _ _ _ _ _ EA). change (0 =? 0) with true. cbv iota.
      rewrite decide_False by (intros ->; rewrite app_nil_r in E; rewrite E in E1; apply (f_equal (@length _)) in E1;
        rewrite !length_app in E1; destruct k1; [done|cbn in E1; lia]).
      eexists. split; [reflexivity|]. split; [|unfold s1; destruct s; done].
      unfold s1. destruct s; cbn in *. split; [constructor; done|]. left. exists k1. done.
    + destruct (AnalyzeHeader_full s1 pre d b k) as (hq & cq & c & EA & Hq & Hqp);
        [unfold s1; destruct s; assumption..|done|done|].
      rewrite (bind_done _ _ _ _ _ EA). change (1 =? 0) with false. change (1 <? 0) with false. cbv iota.
      set (s2 := _ <| content_data_ := cq |>). destruct (decide (k = [])) as [->|Hk].
      * rewrite app_nil_r in Eb. destruct (dispatch_now s2 now) as (s0 & ED & Hab);
          [unfold s2, s1; destruct s; cbn in *; subst; done..|].
        exists s0. split; [exact ED|]. unfold s2, s1 in Hab. destruct s; exact Hab.
      * rewrite (dispatch_more s2 now b k); [|unfold s2, s1; destruct s; done..].
        eexists. split; [reflexivity|]. split; [|unfold s2, s1; destruct s; done].
        unfold s2, s1. destruct s; cbn in *. split; [constructor; done|]. right. exists b, k. done.
  - replace (header_is_ready_ s1) with true by (unfold s1; destruct s; done). cbn [negb].
    rewrite E0, Eb in E. rewrite <- !app_assoc in E. apply app_inv_head, app_inv_head in E.
    assert (Hl := Hlen). rewrite Eb, <- E, !Zlen_app in Hl. pose proof (Zlen_nonneg text). pose proof (Zlen_nonneg k).
    destruct (append_content_ok s1 b d) as (cq & EA & Hcq & Hcqp); [unfold s1; destruct s; assumption..|lia|].
    rewrite (bind_done _ _ s1 (s1 <| content_data_ := cq |>) 1) by (rewrite (bind_done _ _ _ _ _ EA); done).
    change (1 =? 0) with false. change (1 <? 0) with false. cbv iota. set (s2 := s1 <| content_data_ := cq |>).
    assert (Eb' : body = (b ++ d) ++ k) by (rewrite Eb, <- E, app_assoc; done).
    destruct (decide (k = [])) as [->|Hk].
    + rewrite app_nil_r in Eb'. destruct (dispatch_now s2 now) as (s0 & ED & Hab);
        [unfold s2, s1; destruct s; cbn in *; rewrite ?Eb'; done..|].
      exists s0. split; [exact ED|]. unfold s2, s1 in Hab. destruct s; exact Hab.
    + rewrite (dispatch_more s2 now (b ++ d) k); [|unfold s2, s1; destruct s; done..].
      eexists. split; [reflexivity|]. split; [|unfold s2, s1; destruct s; done].
      unfold s2, s1. destruct s; cbn in *. split; [constructor; done|]. right. exists (b ++ d), k.
      rewrite E0, app_assoc. done.
Qed.

(** *** The loop *)

Lemma HandleReceive_exact (c : TcpCoAcceptConn Q) id l : bq_rep (recv_buffer_ c) l -> 0 < Zlen l < 2 ^ 31 ->
  0 < recv_size_ c < 2 ^ 31 ->
  exists b d rest, l = d ++ rest /\ d <> [] /\ (bq_rep b rest /\ (bq_sized (recv_buffer_ c) -> bq_sized b)) /\
    HandleReceive id (Zlen l) c = Done (c <| recv_buffer_ := b |>) (ResumeRecv id (mkRecv RECV_OK (Zlen d)) d).
Proof.
  intros Hr Hl Hs. set (n := if recv_size_ c <? Zlen l then recv_size_ c else Zlen l).
  assert (Hn : 0 < n <= Zlen l) by (unfold n; destruct (Z.ltb_spec (recv_size_ c) (Zlen l)); lia).
  destruct (bq_consume_law _ _ n Hr) as (b & Eb & Hb); [lia|].
  exists b, (firstn (Z.to_nat n) l), (skipn (Z.to_nat n) l).
  assert (Ed : Zlen (firstn (Z.to_nat n) l) = n) by (rewrite Zlen_take; lia).
  split_and!; [symmetry; apply take_drop|intros E; rewrite E in Ed; change (Zlen (@nil Z)) with 0 in Ed; lia|done|exact (bq_sized_consume _ _ _ Eb)|].
  unfold HandleReceive. rewrite (proj2 (Z.leb_gt _ _)) by lia. erewrite bind_done by reflexivity. fold n.
  rewrite (bq_peek_law _ _ _ _ Hr) by lia. erewrite bind_done by reflexivity. rewrite s32_small by lia. rewrite Eb.
  erewrite bind_done by reflexivity. erewrite bind_done by reflexivity. rewrite slice_0, Ed. done.
Qed.

Lemma call_handle_catches q s : match call_handle handler uv_write h q s with Raised _ _ => False | _ => True end.
Proof. unfold call_handle, try_catch. destruct (for_each _ _ s); done. Qed.

(** A handler's end is the coroutine's end. *)
Lemma handled_ends (m' : eff (CoHttpSession Q) bool) q (k : bool -> eff (CoHttpSession Q) unit) s s0 :
  m' s = (call_handle handler uv_write h q ;; mret false) s0 -> (forall s, k false s = Done s tt) ->
  (go ← try_catch m' (fun _ => mret false); k go) s = call_handle handler uv_write h q s0.
Proof.
  intros E Hk. pose proof (call_handle_catches q s0) as H. unfold mbind, eff_bind, try_catch. rewrite E.
  unfold mbind, eff_bind. destruct (call_handle handler uv_write h q s0) as [s1 []| |]; [apply Hk|done|done].
Qed.

(** The handler of the complete request is called on a response of its own. *)
Definition answering s0 : Prop :=
  response_ s0 = Some new_co_response /\ request_ s0 = Some co_seen /\ writes_ s0 = [] /\ handed_ s0 = [] /\
  sclose_ s0 = false /\ writing (accept_conn_ s0) [].

Lemma about_answering s s0 : quiet s -> about_to_answer s s0 -> answering s0.
Proof.
  intros [H1 H2 H3 H4 H5 H6] (A1 & A2 & A3 & A4 & A5 & A6). unfold answering, writing. rewrite A5. done.
Qed.

Lemma reading_frame s pre c f t : reading s pre -> uv_requests_ c = [] -> write_awaiters_ c = [] ->
  reading (s <| alive_ms_ := t |> <| next_ ::= f |> <| accept_conn_ := c |>) pre.
Proof. intros [[H1 H2 H3 H4 H5 H6] H] Hu Ha. destruct s; cbn in *. split; [constructor; done|exact H]. Qed.

Definition suspended s : Prop :=
  exists id, read_awaiters_ (accept_conn_ s) = [id] /\ bq_rep (recv_buffer_ (accept_conn_ s)) [] /\
    bq_sized (recv_buffer_ (accept_conn_ s)) /\ recv_size_ (accept_conn_ s) = 10 * 1024.

Lemma reading_proper s pre k : reading s pre -> pre ++ k = text ++ body -> k <> [].
Proof.
  intros [_ [(k0 & _ & _ & _ & _ & _ & E & Hk)|(b & k0 & _ & _ & _ & _ & E & Eb & Hk)]] E' ->;
    rewrite app_nil_r in E'; apply (f_equal (@length _)) in E; apply (f_equal (@length _)) in E'.
  - rewrite length_app in E, E'. destruct k0; [done|cbn [length] in E; lia].
  - apply (f_equal (@length _)) in Eb. rewrite length_app in E, E', Eb. destruct k0; [done|cbn [length] in Eb; lia].
Qed.

(** What a run of the coroutine on the bytes [l] ends in; [k] are the bytes still to come. *)
Definition fed (o : outc (CoHttpSession Q) unit) (pre k : bytes) : Prop :=
  if decide (k = []) then exists s0, o = call_handle handler uv_write h co_seen s0 /\ answering s0
  else exists s', o = Done s' tt /\ reading s' pre /\ suspended s'.

Lemma HandleRequest_fed fuel : forall s now pre l k, reading s pre -> read_awaiters_ (accept_conn_ s) = [] ->
  bq_rep (recv_buffer_ (accept_conn_ s)) l -> bq_sized (recv_buffer_ (accept_conn_ s)) ->
  (pre ++ l) ++ k = text ++ body -> Zlen l < Z.of_nat fuel ->
  fed (HandleRequest GetHandle handler uv_write fuel now s) (pre ++ l) k.
Proof.
  induction fuel as [|fuel IH]; intros s now pre l k Hr Ha Hb Hz E Hf; [pose proof (Zlen_nonneg l); lia|].
  cbn [HandleRequest]. erewrite bind_done by reflexivity. erewrite bind_done by reflexivity. cbv beta.
  set (s1 := s <| alive_ms_ := now |> <| next_ ::= S |>).
  set (c1 := (accept_conn_ s) <| recv_size_ := 10 * 1024 |>).
  assert (Hc : recv_buffer_ c1 = recv_buffer_ (accept_conn_ s) /\ accept_conn_ s1 = accept_conn_ s)
    by (unfold c1, s1; destruct s as [c]; destruct c; done).
  assert (Hq : uv_requests_ c1 = [] /\ write_awaiters_ c1 = []).
  { destruct Hr as [[_ _ _ _ Hu Hw] _]. unfold c1. destruct (accept_conn_ s); done. }
  destruct (bq_rep_len _ _ Hb) as [El Hl31].
  destruct (decide (l = [])) as [->|Hl].
  - rewrite app_nil_r in *. unfold fed. rewrite decide_False by (eapply reading_proper; done).
    erewrite bind_done.
    2:{ unfold on_conn, zoom. erewrite bind_done by reflexivity. rewrite (proj2 Hc). fold c1.
        unfold recv_await_suspend. erewrite bind_done by reflexivity. rewrite (proj1 Hc), El. cbn [Z.ltb Zlen]. reflexivity. }
    eexists. split; [reflexivity|]. split.
    + apply reading_frame; [exact Hr| |]; unfold c1 in Hq; destruct (accept_conn_ s); apply Hq.
    + exists (next_ s). unfold s1, c1. destruct s as [c]; destruct c; cbn in *. subst. done.
  - assert (Hpos : 0 < Zlen l) by (destruct l as [|? l']; [done|rewrite Zlen_cons; pose proof (Zlen_nonneg l'); lia]).
    destruct (HandleReceive_exact c1 (next_ s) l) as (b & d & rest & El' & Hd & [Hrest Hzb] & EH);
      [rewrite (proj1 Hc); done|lia|assert (recv_size_ c1 = 10 * 1024) as -> by (unfold c1; destruct (accept_conn_ s); done); lia|].
    erewrite bind_done.
    2:{ unfold on_conn, zoom. erewrite bind_done by reflexivity. rewrite (proj2 Hc). fold c1.
        unfold recv_await_suspend. erewrite bind_done by reflexivity. rewrite (proj1 Hc), El.
        rewrite (proj2 (Z.ltb_lt _ _)) by lia. rewrite (bind_done _ _ _ _ _ EH). reflexivity. }
    cbv iota. set (s2 := s1 <| accept_conn_ := c1 <| recv_buffer_ := b |> |>).
    assert (Hr2 : reading s2 pre).
    { apply reading_frame; [exact Hr| |]; destruct c1; apply Hq. }
    assert (Hs2 : read_awaiters_ (accept_conn_ s2) = [] /\ recv_buffer_ (accept_conn_ s2) = b).
    { unfold s2, s1, c1. destruct s as [c]; destruct c; cbn in *. done. }
    rewrite (proj1 Hc) in Hzb. specialize (Hzb Hz).
    assert (E2 : (pre ++ d) ++ rest ++ k = text ++ body) by (rewrite <- E, El', <- !app_assoc; done).
    pose proof (request_received_step s2 now pre d (rest ++ k) Hr2 Hd E2) as Hstep.
    assert (Epl : pre ++ l = (pre ++ d) ++ rest) by (rewrite El', app_assoc; done). rewrite Epl.
    destruct (decide (rest ++ k = [])) as [En|En].
    + apply app_nil in En as [-> ->]. destruct Hstep as (s0 & ES & Hab). unfold fed. rewrite decide_True by done.
      exists s0. split; [|eapply about_answering; [apply Hr2|exact Hab]].
      apply (handled_ends _ co_seen (fun go => if go then _ else _) s2 s0 ES). done.
    + destruct Hstep as (s3 & ES & Hr3 & Ec3).
      erewrite bind_done by (unfold try_catch; rewrite ES; reflexivity).
      apply IH; [exact Hr3|rewrite Ec3; apply Hs2|rewrite Ec3, (proj2 Hs2); exact Hrest|rewrite Ec3, (proj2 Hs2); exact Hzb|rewrite <- app_assoc; done|].
      rewrite El', Zlen_app in Hf. destruct d as [|? d']; [done|rewrite Zlen_cons in Hf; pose proof (Zlen_nonneg d'); lia].
Qed.

Lemma session_uv_read_fed s now pre c k : reading s pre -> suspended s -> c <> [] -> Zlen c <= 20 * 1024 ->
  (pre ++ c) ++ k = text ++ body -> fed (session_uv_read GetHandle handler uv_write now (Zlen c) c s) (pre ++ c) k.
Proof.
  intros Hr (id & Ha & Hb & Hz & Hs) Hc Hl E.
  assert (Hpos : 0 < Zlen c) by (destruct c as [|? c']; [done|rewrite Zlen_cons; pose proof (Zlen_nonneg c'); lia]).
  destruct (bq_append_law _ _ c Hb) as (q & Eq & Hq); [apply bq_sized_empty; [exact Hz|done|lia]|].
  cbn [app] in Hq. set (c1 := (accept_conn_ s) <| recv_buffer_ := q |> <| read_awaiters_ := [] |>).
  assert (Hc1 : recv_buffer_ c1 = q /\ recv_size_ c1 = 10 * 1024 /\ read_awaiters_ c1 = [] /\
    uv_requests_ c1 = uv_requests_ (accept_conn_ s) /\ write_awaiters_ c1 = write_awaiters_ (accept_conn_ s))
    by (unfold c1; destruct (accept_conn_ s); done).
  destruct Hc1 as (Hq1 & Hs1 & Ha1 & Hu1 & Hw1).
  destruct (HandleReceive_exact c1 id c) as (b & d & rest & Ec & Hd & [Hrest Hzb] & EH); [rewrite Hq1; done|lia|lia|].
  rewrite Hq1 in Hzb. specialize (Hzb (bq_sized_append _ _ _ Eq Hz)).
  assert (EU : OnUvRead (Zlen c) c (accept_conn_ s) =
    Done (c1 <| recv_buffer_ := b |>) (Some (ResumeRecv id (mkRecv RECV_OK (Zlen d)) d))).
  { unfold OnUvRead. rewrite (proj2 (Z.eqb_neq _ _)) by lia. unfold OnReceive. erewrite bind_done by reflexivity.
    rewrite Ha, (proj2 (Z.ltb_lt _ _)) by lia. rewrite Eq.
    erewrite bind_done by (erewrite bind_done by reflexivity; reflexivity).
    erewrite bind_done by reflexivity. fold c1. rewrite (bind_done _ _ _ _ _ EH). done. }
  unfold session_uv_read. erewrite bind_done by (unfold on_conn, zoom; rewrite EU; reflexivity). cbv iota.
  set (s2 := s <| accept_conn_ := c1 <| recv_buffer_ := b |> |>).
  assert (Hr2 : reading s2 pre).
  { pose proof (proj1 Hr) as [_ _ _ _ Hu0 Hw0].
    unfold s2. replace (s <| accept_conn_ := _ |>) with
      (s <| alive_ms_ := alive_ms_ s |> <| next_ ::= fun n => n |> <| accept_conn_ := c1 <| recv_buffer_ := b |> |>)
      by (destruct s; done).
    apply reading_frame; [exact Hr|destruct c1; cbn in *; congruence..]. }
  assert (E2 : (pre ++ d) ++ rest ++ k = text ++ body) by (rewrite <- E, Ec, <- !app_assoc; done).
  pose proof (request_received_step s2 now pre d (rest ++ k) Hr2 Hd E2) as Hstep.
  assert (Epl : pre ++ c = (pre ++ d) ++ rest) by (rewrite Ec, app_assoc; done). rewrite Epl.
  destruct (decide (rest ++ k = [])) as [En|En].
  - apply app_nil in En as [-> ->]. destruct Hstep as (s0 & ES & Hab). unfold fed. rewrite decide_True by done.
    exists s0. split; [|eapply about_answering; [apply Hr2|exact Hab]].
    apply (handled_ends _ co_seen (fun go => s ← get; if go then _ else _) s2 s0 ES). done.
  - destruct Hstep as (s3 & ES & Hr3 & Ec3).
    erewrite bind_done by (unfold try_catch; rewrite ES; reflexivity). erewrite bind_done by reflexivity.
    assert (Hbq : recv_buffer_ (accept_conn_ s3) = b /\ read_awaiters_ (accept_conn_ s3) = []).
    { rewrite Ec3. unfold s2. destruct s as [cc]. destruct c1. cbn in *. done. }
    destruct Hbq as [Hbq Ha3]. apply HandleRequest_fed; [done|done|rewrite Hbq; done|rewrite Hbq; done|rewrite <- app_assoc; done|].
    unfold loop_fuel. rewrite Hbq. destruct (bq_rep_len _ _ Hrest) as [-> _]. pose proof (Zlen_nonneg rest). lia.
Qed.
End request.

(** ** What a handler starts *)

Definition task_text (w : wtask) : bytes :=
  match w_phase w with WHeader p n | WBody p n | WStatus p n => firstn (Z.to_nat n) p end.

(** The operations up to a throw: the response object and the writes that are started. *)
Fixpoint co_starts (ops : list co_op) (p : CoHttpResponse) : CoHttpResponse * list wtask :=
  match ops with
  | [] => (p, [])
  | CThrow :: _ => (p, [])
  | CSetStatusCode c :: ops => co_starts ops (p <| status_code_ := c |>)
  | CSetStatus st :: ops => co_starts ops (p <| status_ := st |>)
  | CAddHeader k v :: ops => co_starts ops (p <| headers_ ::= smap_set k v |>)
  | CWrite d c :: ops =>
      let t := write_head p (Zlen d) c in
      let '(p', ws) := co_starts ops p in (p', mkTask d c (WHeader t (s32 (Zlen t))) :: ws)
  | CWriteStatus code st c :: ops =>
      let p := p <| status_ := st |> in
      let t := status_head p code in
      let '(p', ws) := co_starts ops p in (p', mkTask [] c (WStatus t (s32 (Zlen t))) :: ws)
  end.

(** The writes under way, oldest first. *)
Definition pending {Q} (s : CoHttpSession Q) (ps : list (nat * wtask)) : Prop :=
  writes_ s = ps /\ writing (accept_conn_ s) (map (fun e => (fst e, task_text (snd e))) ps).

(** A task with a text to send. *)
Definition sendable (w : wtask) : Prop :=
  match w_phase w with WHeader p n | WBody p n | WStatus p n => n = Zlen p /\ 0 < n < 2 ^ 31 end.

Lemma sendable_text w : sendable w ->
  task_text w = match w_phase w with WHeader p _ | WBody p _ | WStatus p _ => p end.
Proof.
  unfold sendable, task_text. destruct (w_phase w); intros [-> _]; rewrite to_nat_Zlen, firstn_all; done.
Qed.

Section writes.
Context {Q : Type} {HQ : ByteQueue Q}.
Context (handler : nat -> CoHttpRequest -> list co_op) (uv_write : nat -> Z).
Context (Huv : forall n, uv_write n = 0).
Implicit Types s : CoHttpSession Q.

(** The members sending does not touch. *)
Definition same_request s s' : Prop :=
  request_ s' = request_ s /\ response_ s' = response_ s /\ sclose_ s' = sclose_ s.

Lemma send_await_ok (c : TcpCoAcceptConn Q) id data : send_await_suspend 0 id data c =
  Done (c <| uv_requests_ ::= fun q => q ++ [data] |> <| write_awaiters_ ::= fun q => q ++ [id] |>) None.
Proof. done. Qed.

Lemma send_task_ok s w ps : sendable w -> pending s ps ->
  exists s', send_task uv_write w s = Done s' tt /\ pending s' (ps ++ [(next_ s, w)]) /\
    handed_ s' = handed_ s ++ task_text w /\ same_request s s'.
Proof.
  intros Hw [Hp [Ha Hu]]. unfold sendable in Hw. unfold send_task, task_text.
  assert (G : forall p n, n = Zlen p /\ 0 < n < 2 ^ 31 -> firstn (Z.to_nat n) p = task_text w ->
    exists s', co_send uv_write w p n s = Done s' tt /\ pending s' (ps ++ [(next_ s, w)]) /\
      handed_ s' = handed_ s ++ firstn (Z.to_nat n) p /\ same_request s s').
  { intros p n [-> Hn] Et. unfold co_send. rewrite (proj2 (Z.ltb_ge _ _)) by lia. erewrite bind_done by reflexivity.
    erewrite bind_done.
    2:{ unfold on_conn, zoom. rewrite Huv, send_await_ok. reflexivity. }
    eexists. split; [reflexivity|]. unfold pending, writing, same_request. rewrite !map_app. cbn [map fst snd].
    destruct s as [c]; destruct c; cbn in *. subst. rewrite Et. done. }
  unfold task_text in G. destruct (w_phase w); apply G; done.
Qed.

Lemma resp_get_ok s p : response_ s = Some p -> resp_get s = Done s p.
Proof. intros H. unfold resp_get. erewrite bind_done by reflexivity. rewrite H. done. Qed.
Lemma resp_upd_ok s p f : response_ s = Some p -> resp_upd f s = Done (s <| response_ := Some (f p) |>) tt.
Proof. intros H. unfold resp_upd. rewrite (bind_done _ _ _ _ _ (resp_get_ok _ _ H)). done. Qed.

Definition usable (p : CoHttpResponse) : Prop := is_close_ p = false /\ accept_ p = true /\ written_header_ p = false.

(** The writes [ws] have been started between [s] and [s']. *)
Definition started s s' (ps : list (nat * wtask)) (ws : list wtask) : Prop :=
  exists ids, length ids = length ws /\ pending s' (ps ++ combine ids ws) /\
    handed_ s' = handed_ s ++ concat (map task_text ws) /\ request_ s' = request_ s /\ sclose_ s' = sclose_ s.

Lemma started_nil s ps : pending s ps -> started s s ps [].
Proof. intros H. exists []. cbn. rewrite !app_nil_r. done. Qed.
Lemma started_cons s s1 s' ps id w ws : pending s1 (ps ++ [(id, w)]) -> handed_ s1 = handed_ s ++ task_text w ->
  request_ s1 = request_ s -> sclose_ s1 = sclose_ s -> started s1 s' (ps ++ [(id, w)]) ws -> started s s' ps (w :: ws).
Proof.
  intros _ Hh Hq Hc (ids & H1 & H2 & H3 & H4 & H5). exists (id :: ids). cbn [length combine map concat].
  rewrite <- app_assoc in H2. rewrite H3, Hh, <- app_assoc, H4, H5, Hq, Hc. split_and!; try done. congruence.
Qed.

(** A handler's operations start the writes of [co_starts], in order. *)
Definition runs_ops_as (ops : list co_op) s p ps : Prop :=
  exists s', try_catch (for_each ops (exec_op uv_write)) (fun _ => mret tt) s = Done s' tt /\
    response_ s' = Some (fst (co_starts ops p)) /\ usable (fst (co_starts ops p)) /\
    started s s' ps (snd (co_starts ops p)).

Lemma runs_set op ops s p p' ps : exec_op uv_write op s = Done (s <| response_ := Some p' |>) tt ->
  co_starts (op :: ops) p = co_starts ops p' -> runs_ops_as ops (s <| response_ := Some p' |>) p' ps ->
  runs_ops_as (op :: ops) s p ps.
Proof.
  intros E Eo (s' & E' & H1 & H2 & H3). unfold runs_ops_as. rewrite Eo. exists s'. split_and!; [|done|done|destruct s; exact H3].
  unfold try_catch in *. cbn [for_each]. rewrite (bind_done _ _ _ _ _ E). exact E'.
Qed.

Lemma runs_send op ops s p p' w ps : sendable w -> pending s ps ->
  exec_op uv_write op s = send_task uv_write w (s <| response_ := Some p' |>) ->
  co_starts (op :: ops) p = (fst (co_starts ops p'), w :: snd (co_starts ops p')) ->
  (forall s1 ps1, response_ s1 = Some p' -> pending s1 ps1 -> runs_ops_as ops s1 p' ps1) -> runs_ops_as (op :: ops) s p ps.
Proof.
  intros Hw Hp E Eo IH. set (s1 := s <| response_ := Some p' |>) in *.
  destruct (send_task_ok s1 w ps Hw) as (s2 & E2 & Hp2 & Hh2 & Hq2 & Hr2 & Hc2); [unfold s1; destruct s; exact Hp|].
  destruct (IH s2 (ps ++ [(next_ s1, w)])) as (s' & E' & H1 & H2 & H3); [rewrite Hr2; unfold s1; destruct s; done|done|].
  unfold runs_ops_as. rewrite Eo. cbn [fst snd]. exists s'. split_and!; [|done|done|].
  - unfold try_catch in *. cbn [for_each]. rewrite (bind_done _ _ _ _ _ (eq_trans E E2)). exact E'.
  - apply (started_cons s s2 s' ps (next_ s1)); [done|rewrite Hh2; unfold s1; destruct s; done
      |rewrite Hq2; unfold s1; destruct s; done|rewrite Hc2; unfold s1; destruct s; done|done].
Qed.

Lemma call_ops_ok ops : forall s p ps, response_ s = Some p -> usable p -> pending s ps ->
  Forall sendable (snd (co_starts ops p)) -> runs_ops_as ops s p ps.
Proof.
  induction ops as [|op ops IH]; intros s p ps Hr Hu Hp Hok; [exists s; split_and!; try done; by apply started_nil|].
  assert (Hu' := Hu). destruct Hu as (U1 & U2 & U3).
  destruct op; cbn [co_starts] in Hok.
  - apply (runs_set _ ops s p (p <| status_code_ := code |>)); [apply resp_upd_ok; done|done|]. apply IH; destruct s, p; done.
  - apply (runs_set _ ops s p (p <| status_ := status |>)); [apply resp_upd_ok; done|done|]. apply IH; destruct s, p; done.
  - apply (runs_set _ ops s p (p <| headers_ ::= smap_set key value |>)); [apply resp_upd_ok; done|done|]. apply IH; destruct s, p; done.
  - set (w := mkTask data continue_flag (WHeader (write_head p (Zlen data) continue_flag)
                (s32 (Zlen (write_head p (Zlen data) continue_flag))))) in *.
    destruct (co_starts ops p) as [p2 ws] eqn:Ews. apply Forall_cons in Hok as [Hw Hok].
    apply (runs_send _ ops s p p w); [done|done| |cbn [co_starts]; rewrite Ews; done|].
    + cbn [exec_op]. unfold co_Write. rewrite (bind_done _ _ _ _ _ (resp_get_ok _ _ Hr)), U1, U2, U3.
      cbn [negb orb]. f_equal. destruct s; cbn in *; subst; done.
    + intros s1 ps1 H1 H2. apply IH; try done. rewrite Ews. done.
  - set (p' := p <| status_ := status |>) in *.
    set (w := mkTask [] continue_flag (WStatus (status_head p' code) (s32 (Zlen (status_head p' code))))) in *.
    destruct (co_starts ops p') as [p2 ws] eqn:Ews. apply Forall_cons in Hok as [Hw Hok].
    apply (runs_send _ ops s p p' w); [done|done| |cbn [co_starts]; fold p'; rewrite Ews; done|].
    + cbn [exec_op]. unfold co_WriteStatus. rewrite (bind_done _ _ _ _ _ (resp_get_ok _ _ Hr)), U1, U2. cbn [negb orb].
      rewrite (bind_done _ _ _ _ _ (resp_upd_ok _ _ _ Hr)).
      erewrite bind_done by (apply resp_get_ok; destruct s; reflexivity). done.
    + intros s1 ps1 H1 H2. apply IH; [done|unfold p'; destruct p; done|done|rewrite Ews; done].
  - exists s. split_and!; try done. by apply started_nil.
Qed.

(** *** Completions *)

Definition after_ack s s' : Prop :=
  request_ s' = request_ s /\ sclose_ s' = sclose_ s /\ response_ s' = response_ s /\ handed_ s' = handed_ s.

(** The completion of the oldest write resumes its task with the whole length. *)
Lemma ack_front s id w ps now peer : pending s ((id, w) :: ps) -> sendable w ->
  exists s1, session_uv_written uv_write now peer 0 s =
      write_resumed uv_write now peer w (mkSend SEND_OK (Zlen (task_text w))) s1 /\
    pending s1 ps /\ after_ack s s1.
Proof.
  intros [Hp [Ha Hu]] Hw. cbn [map fst snd] in Ha, Hu. unfold session_uv_written.
  assert (Hl : Zlen (task_text w) < 2 ^ 31 /\ 0 <= Zlen (task_text w)).
  { rewrite sendable_text by done. unfold sendable in Hw. destruct (w_phase w); lia. }
  erewrite bind_done.
  2:{ unfold on_conn, zoom, OnWrite. erewrite bind_done by reflexivity. rewrite Hu.
      erewrite bind_done by reflexivity. rewrite Ha. erewrite bind_done by reflexivity.
      unfold HandleSend. change (0 =? 0) with true. cbv iota. rewrite s32_small by lia. reflexivity. }
  cbv iota. erewrite bind_done by reflexivity.
  match goal with |- context [take_task id ?l] => replace l with ((id, w) :: ps) by (destruct s; done) end.
  cbn [take_task]. rewrite Nat.eqb_refl. erewrite bind_done by reflexivity. eexists. split; [reflexivity|].
  unfold pending, writing, after_ack. destruct s as [c]; destruct c; done.
Qed.

Definition body_task (w : wtask) : wtask :=
  mkTask (w_data w) (w_continue w) (WBody (w_data w) (s32 (Zlen (w_data w)))).

(** A header that has been sent is followed by its body. *)
Lemma ack_header s id w t n ps now peer p : pending s ((id, w) :: ps) -> sendable w -> w_phase w = WHeader t n ->
  0 < Zlen (w_data w) < 2 ^ 31 -> response_ s = Some p ->
  exists s' id', session_uv_written uv_write now peer 0 s = Done s' None /\ pending s' (ps ++ [(id', body_task w)]) /\
    response_ s' = Some (p <| written_header_ := true |>) /\ handed_ s' = handed_ s ++ w_data w /\
    request_ s' = request_ s /\ sclose_ s' = sclose_ s.
Proof.
  intros Hp Hw Ew Hd Hr. destruct (ack_front s id w ps now peer Hp Hw) as (s1 & -> & Hp1 & Hq1 & Hc1 & Hr1 & Hh1).
  rewrite sendable_text by done. unfold write_resumed. cbn [send_status sent_len]. rewrite Ew.
  unfold sendable in Hw. rewrite Ew in Hw. destruct Hw as [-> _]. rewrite Z.sub_diag. change (0 <? 0) with false. cbv iota.
  erewrite bind_done by reflexivity.
  erewrite bind_done by (apply (resp_upd_ok _ p); rewrite <- Hr, <- Hr1; destruct s1; done).
  set (s2 := _ <| response_ := _ |>). assert (Hp2 : pending s2 ps) by (unfold s2; destruct s1; exact Hp1).
  assert (Hb : sendable (body_task w)) by (unfold sendable, body_task; cbn [w_phase]; rewrite s32_small by lia; done).
  destruct (send_task_ok s2 (body_task w) ps Hb Hp2) as (s3 & E3 & Hp3 & Hh3 & Hq3 & Hr3 & Hc3).
  assert (E : start_body uv_write (w_data w) (w_continue w) s2 = Done s3 tt).
  { unfold start_body. destruct (w_data w) eqn:Ed; [change (Zlen (@nil Z)) with 0 in Hd; lia|]. rewrite <- Ed in *. exact E3. }
  rewrite (bind_done _ _ _ _ _ E). exists s3, (next_ s2). split_and!; [done|done|..].
  - rewrite Hr3. unfold s2. destruct s1; done.
  - rewrite Hh3, sendable_text by done. cbn [body_task w_phase]. rewrite <- Hh1. unfold s2. destruct s1; done.
  - rewrite Hq3, <- Hq1. unfold s2. destruct s1; done.
  - rewrite Hc3, <- Hc1. unfold s2. destruct s1; done.
Qed.

(** A body that has been sent ends its coroutine, which closes the response if it is the last. *)
Lemma ack_body s id w t n ps now peer p : pending s ((id, w) :: ps) -> sendable w -> w_phase w = WBody t n ->
  response_ s = Some p ->
  exists s', session_uv_written uv_write now peer 0 s = Done s' (if w_continue w then None else Some peer) /\
    pending s' ps /\ handed_ s' = handed_ s /\ request_ s' = request_ s /\
    (w_continue w = true -> response_ s' = response_ s /\ sclose_ s' = sclose_ s).
Proof.
  intros Hp Hw Ew Hr. destruct (ack_front s id w ps now peer Hp Hw) as (s1 & -> & Hp1 & Hq1 & Hc1 & Hr1 & Hh1).
  rewrite sendable_text by done. unfold write_resumed. cbn [send_status sent_len]. rewrite Ew.
  unfold sendable in Hw. rewrite Ew in Hw. destruct Hw as [-> _]. rewrite Z.sub_diag. change (0 <? 0) with false. cbv iota.
  erewrite bind_done by reflexivity. unfold write_finish. destruct (w_continue w); cbn [negb].
  - eexists. split; [reflexivity|]. destruct s1; done.
  - erewrite bind_done by (apply (resp_upd_ok _ p); rewrite <- Hr, <- Hr1; destruct s1; done).
    unfold OnResponseClose. erewrite bind_done by reflexivity. eexists. split; [reflexivity|]. destruct s1; done.
Qed.
End writes.

Lemma combine_map_snd {A B} (l : list A) : forall k : list B, length l = length k -> map snd (combine l k) = k.
Proof. induction l as [|x l IH]; intros [|y k] E; try done. cbn. rewrite IH; [done|]. cbn in E. lia. Qed.

(** ** The session and its server *)

Section server.
Context {Q : Type} {HQ : ByteQueue Q} {HQL : ByteQueueLaws Q} {HQP : ByteQueuePacked Q} {HQS : ByteQueueSized Q}.
Context (handler : nat -> CoHttpRequest -> list co_op) (uv_write : bytes -> nat -> Z).
Context (Huv : forall ep n, uv_write ep n = 0) (ep : bytes).
Implicit Types (v : CoHttpServer Q) (s : CoHttpSession Q).

Definition hosts v s : Prop := smap_find ep (http_sessions_ v) = Some s.
Definition same_server v v' : Prop :=
  get_handle_map_ v' = get_handle_map_ v /\ post_handle_map_ v' = post_handle_map_ v /\ orphans_ v' = orphans_ v.

Lemma hosted_done {A} v s s' (m : eff (CoHttpSession Q) A) a : hosts v s -> m s = Done s' a ->
  exists v', on_session ep m v = Done v' a /\ hosts v' s' /\ same_server v v'.
Proof.
  intros Hh E. unfold on_session. erewrite bind_done by reflexivity. rewrite Hh. erewrite bind_done by reflexivity.
  unfold zoom. rewrite E. eexists. split; [reflexivity|]. split; [|destruct v; done].
  unfold hosts. destruct v. cbn. rewrite smap_find_set, beqb_refl. done.
Qed.

Lemma same_GetHandle v v' q : same_server v v' -> server_GetHandle v' q = server_GetHandle v q.
Proof. intros (H1 & H2 & _). unfold server_GetHandle. rewrite H1, H2. done. Qed.

Lemma same_server_trans v1 v2 v3 : same_server v1 v2 -> same_server v2 v3 -> same_server v1 v3.
Proof. intros (H1 & H2 & H3) (H4 & H5 & H6). split_and!; congruence. Qed.

(** *** Completions of a whole response *)

Definition written_at (peer : bytes) (now : Z) : eff (CoHttpServer Q) unit := server_uv_written uv_write now ep peer 0.

Lemma written_step v s s' peer now : hosts v s -> session_uv_written (uv_write ep) now peer 0 s = Done s' None ->
  exists v', written_at peer now v = Done v' tt /\ hosts v' s' /\ same_server v v'.
Proof.
  intros Hh E. destruct (hosted_done v s s' _ None Hh E) as (v' & E' & H). exists v'. split; [|exact H].
  unfold written_at, server_uv_written. rewrite (bind_done _ _ _ _ _ E'). done.
Qed.

Definition header_task (w : wtask) : Prop :=
  sendable w /\ 0 < Zlen (w_data w) < 2 ^ 31 /\ match w_phase w with WHeader _ _ => True | _ => False end.
Definition is_body (w : wtask) : Prop := sendable w /\ match w_phase w with WBody _ _ => True | _ => False end.

Lemma body_task_body w : header_task w -> is_body (body_task w).
Proof. intros (_ & H & _). split; [|done]. unfold sendable, body_task. cbn [w_phase]. rewrite s32_small by lia. done. Qed.

Lemma headers_sent peer hs : forall times v s bs p, length times = length hs -> hosts v s ->
  pending s (hs ++ bs) -> Forall (fun e => header_task (snd e)) hs -> response_ s = Some p ->
  exists v' s' bodies p', for_each times (written_at peer) v = Done v' tt /\ hosts v' s' /\ same_server v v' /\
    pending s' (bs ++ bodies) /\ map snd bodies = map (fun e => body_task (snd e)) hs /\
    response_ s' = Some p' /\ handed_ s' = handed_ s ++ concat (map (fun e => w_data (snd e)) hs) /\ request_ s' = request_ s.
Proof.
  induction hs as [|[id w] hs IH]; intros [|now times] v s bs p El Hh Hp Hok Hr; try done.
  - exists v, s, [], p. cbn. rewrite !app_nil_r. done.
  - apply Forall_cons in Hok as [(Hw & Hd & Hph) Hok]. cbn [snd] in *. destruct (w_phase w) as [t n| |] eqn:Ew; try done.
    destruct (ack_header (uv_write ep) (Huv ep) s id w t n (hs ++ bs) now peer p Hp Hw Ew Hd Hr)
      as (s1 & id1 & E1 & Hp1 & Hr1 & Hh1 & Hq1 & _).
    destruct (written_step v s s1 peer now Hh E1) as (v1 & Ev1 & Hv1 & Hs1).
    rewrite <- app_assoc in Hp1. injection El as El.
    destruct (IH times v1 s1 _ _ El Hv1 Hp1 Hok Hr1) as (v2 & s2 & bodies & p2 & E2 & Hv2 & Hs2 & Hp2 & Hb2 & Hr2 & Hh2 & Hq2).
    exists v2, s2, ((id1, body_task w) :: bodies), p2. cbn [for_each map concat snd].
    rewrite (bind_done _ _ _ _ _ Ev1), Hb2, Hh2, Hh1, <- app_assoc. rewrite <- app_assoc in Hp2.
    split_and!; try done; [eapply same_server_trans; done|congruence].
Qed.

Lemma bodies_sent peer bs : forall times v s rest p, length times = length bs -> hosts v s -> pending s (bs ++ rest) ->
  Forall (fun e => is_body (snd e) /\ w_continue (snd e) = true) bs -> response_ s = Some p ->
  exists v' s', for_each times (written_at peer) v = Done v' tt /\ hosts v' s' /\ same_server v v' /\
    pending s' rest /\ response_ s' = Some p /\ handed_ s' = handed_ s /\ request_ s' = request_ s.
Proof.
  induction bs as [|[id w] bs IH]; intros [|now times] v s rest p El Hh Hp Hok Hr; try done.
  - exists v, s. done.
  - apply Forall_cons in Hok as [((Hw & Hph) & Hc) Hok]. cbn [snd] in *. destruct (w_phase w) as [|t n|] eqn:Ew; try done.
    destruct (ack_body (uv_write ep) s id w t n (bs ++ rest) now peer p Hp Hw Ew Hr) as (s1 & E1 & Hp1 & Hh1 & Hq1 & Hr1).
    rewrite Hc in E1. destruct (Hr1 Hc) as [Hr1' _]. rewrite Hr in Hr1'.
    destruct (written_step v s s1 peer now Hh E1) as (v1 & Ev1 & Hv1 & Hs1). injection El as El.
    destruct (IH times v1 s1 rest p El Hv1 Hp1 Hok Hr1') as (v2 & s2 & E2 & Hv2 & Hs2 & Hp2 & Hr2 & Hh2 & Hq2).
    exists v2, s2. cbn [for_each]. rewrite (bind_done _ _ _ _ _ Ev1).
    split_and!; try done; [eapply same_server_trans; done|congruence|congruence].
Qed.

Lemma last_body_sent v s id w now p : hosts v s -> pending s [(id, w)] -> is_body w -> w_continue w = false ->
  response_ s = Some p ->
  exists v', written_at ep now v = Done v' tt /\ smap_find ep (http_sessions_ v') = None /\ same_server v v'.
Proof.
  intros Hh Hp (Hw & Hph) Hc Hr. destruct (w_phase w) as [|t n|] eqn:Ew; try done.
  destruct (ack_body (uv_write ep) s id w t n [] now ep p Hp Hw Ew Hr) as (s1 & E1 & Hp1 & _). rewrite Hc in E1.
  destruct (hosted_done v s s1 _ (Some ep) Hh E1) as (v1 & Ev1 & Hv1 & Hs1). unfold hosts in Hv1.
  unfold written_at, server_uv_written. rewrite (bind_done _ _ _ _ _ Ev1).
  eexists. split; [reflexivity|]. unfold server_OnClose. rewrite Hv1. destruct Hp1 as [_ [_ Hu]]. cbn [map] in Hu.
  unfold destroy_session. rewrite Hu. split.
  - match goal with |- smap_find _ ?m = None => replace m with (smap_erase ep (http_sessions_ v1)) by (destruct v1; done) end.
    rewrite smap_find_erase, beqb_refl. done.
  - destruct Hs1 as (H1 & H2 & H3). destruct v1. unfold same_server. cbn in *. rewrite app_nil_r. done.
Qed.

(** *** Feeding a request *)

Context (m target : bytes) (hs : headers) (body : bytes) (h : nat).
Context (Hok : request_ok m target hs) (Hlen : Zlen (request_text m target hs ++ body) < 2 ^ 30).
Context (Hbody : if decide (m = bstr "GET") then body = []
                 else content_length_ (fields_ (co_parsed m target hs)) = Zlen body /\ body <> []).
Abbreviation seen := (co_seen m target hs body).
Abbreviation starts := (co_starts (handler h seen) new_co_response).
Context (Hsend : Forall sendable (snd starts)).

(** The handler has run: its writes are under way. *)
Definition served s : Prop :=
  exists ids p, length ids = length (snd starts) /\ pending s (combine ids (snd starts)) /\ response_ s = Some p /\
    handed_ s = concat (map task_text (snd starts)) /\ request_ s = Some seen.

Definition read_at (e : Z * bytes) : eff (CoHttpServer Q) unit :=
  server_uv_read handler uv_write (fst e) ep (Zlen (snd e)) (snd e).

Lemma answering_served s : answering m target hs body s ->
  exists s', call_handle handler (uv_write ep) h seen s = Done s' tt /\ served s'.
Proof.
  intros (H1 & H2 & H3 & H4 & H5 & H6).
  destruct (call_ops_ok (uv_write ep) (Huv ep) (handler h seen) s new_co_response []) as
    (s' & E & Hr & _ & (ids & Hi & Hp & Hh & Hq & _)); try done.
  exists s'. split; [exact E|]. exists ids. eexists. rewrite Hh, H4, Hq, H2. done.
Qed.

Lemma request_fed chunks : forall v s pre, hosts v s -> reading m target hs body s pre -> suspended s ->
  server_GetHandle v (co_parsed m target hs) = Some h ->
  Forall (fun e => snd e <> [] /\ Zlen (snd e) <= 20 * 1024) chunks ->
  pre ++ concat (map snd chunks) = request_text m target hs ++ body ->
  exists v' s', for_each chunks read_at v = Done v' tt /\ hosts v' s' /\ same_server v v' /\ served s'.
Proof.
  induction chunks as [|[now c] chunks IH]; intros v s pre Hh Hr Hs Hroute Hch E.
  { exfalso. eapply reading_proper; [exact Hr|exact E|done]. }
  apply Forall_cons in Hch as [[Hc Hl] Hch]. cbn [map concat snd] in *. rewrite app_assoc in E.
  pose proof (session_uv_read_fed (server_GetHandle v) handler (uv_write ep) m target hs body h Hok Hlen Hbody Hroute
    s now pre c (concat (map snd chunks)) Hr Hs Hc Hl E) as HF.
  cbn [for_each]. unfold fed in HF. destruct (decide (concat (map snd chunks) = [])) as [En|En].
  - assert (chunks = []) as -> by (destruct chunks as [|[? c'] ?]; [done|]; apply Forall_cons in Hch as [[Hn _] _];
      cbn in *; apply app_nil in En as [? _]; done).
    destruct HF as (s0 & E0 & Hans). destruct (answering_served s0 Hans) as (s1 & E1 & Hsv).
    rewrite E1 in E0. destruct (hosted_done v s s1 _ tt Hh E0) as (v1 & Ev & Hv & Hsame).
    exists v1, s1. split; [|done]. erewrite bind_done; [done|]. unfold read_at, server_uv_read.
    erewrite bind_done by reflexivity. exact Ev.
  - destruct HF as (s1 & E1 & Hr1 & Hs1). destruct (hosted_done v s s1 _ tt Hh E1) as (v1 & Ev & Hv & Hsame).
    destruct (IH v1 s1 (pre ++ c)) as (v2 & s2 & E2 & Hv2 & Hsame2 & Hsv); try done.
    { rewrite (same_GetHandle v) by done. done. }
    exists v2, s2. split; [|split_and!; try done; eapply same_server_trans; done].
    erewrite bind_done; [exact E2|]. unfold read_at, server_uv_read. erewrite bind_done by reflexivity. exact Ev.
Qed.
End server.

(** A session whose coroutine waits for the first byte of its request. *)
Definition co_idle {Q} {HQ : ByteQueue Q} {HQL : ByteQueueLaws Q} {HQP : ByteQueuePacked Q} {HQS : ByteQueueSized Q} (s : CoHttpSession Q) : Prop :=
  quiet s /\ suspended s /\ header_is_ready_ s = false /\ bq_rep (header_data_ s) [] /\ bq_packed (header_data_ s) /\
  bq_rep (content_data_ s) [] /\ bq_packed (content_data_ s).

Section properties.
Context {Q : Type} {HQ : ByteQueue Q} {HQL : ByteQueueLaws Q} {HQP : ByteQueuePacked Q} {HQS : ByteQueueSized Q}.
Context (handler : nat -> CoHttpRequest -> list co_op) (uv_write : bytes -> nat -> Z).

(** A request on a session that waits for its first byte. *)
Lemma co_answered (v : CoHttpServer Q) (s : CoHttpSession Q) (ep m target : bytes) (hs : headers) (body : bytes)
  (chunks : list (Z * bytes)) (h : nat) (ws : list wtask) (w : wtask) (times : list Z) (now : Z)
  (Huv : forall ep n, uv_write ep n = 0)
  (Hh : hosts ep v s) (Hread : reading m target hs body s []) (Hsus : suspended s) (Hok : request_ok m target hs)
  (Hlen : Zlen (request_text m target hs ++ body) < 2 ^ 30)
  (Hbody : if decide (m = bstr "GET") then body = []
           else content_length_ (fields_ (co_parsed m target hs)) = Zlen body /\ body <> [])
  (Hroute : server_GetHandle v (co_parsed m target hs) = Some h)
  (Hchunks : Forall (fun e => snd e <> [] /\ Zlen (snd e) <= 20 * 1024) chunks)
  (Htext : concat (map snd chunks) = request_text m target hs ++ body)
  (Hws : snd (co_starts (handler h (co_seen m target hs body)) new_co_response) = ws ++ [w])
  (Hheads : Forall header_task (ws ++ [w])) (Hcont : Forall (fun w => w_continue w = true) ws)
  (Hlast : w_continue w = false) (Htimes : length times = (2 * length ws + 1)%nat) :
  exists v1 v2 s2 v3,
    for_each chunks (read_at handler uv_write ep) v = Done v1 tt /\
    for_each times (written_at uv_write ep ep) v1 = Done v2 tt /\ hosts ep v2 s2 /\
    handed_ s2 = concat (map task_text (ws ++ [w])) ++ concat (map w_data (ws ++ [w])) /\
    written_at uv_write ep ep now v2 = Done v3 tt /\ smap_find ep (http_sessions_ v3) = None /\
    orphans_ v3 = orphans_ v.
Proof.
  destruct (request_fed handler uv_write Huv ep m target hs body h Hok Hlen Hbody) with
    (chunks := chunks) (v := v) (s := s) (pre := @nil Z) as (v1 & s1 & E1 & Hv1 & Hsame1 & ids & p & Hi & Hp & Hr & Hhd & _); try done.
  { rewrite Hws. eapply Forall_impl; [exact Hheads|]. intros x [Hx _]. done. }
  rewrite Hws in Hi, Hp, Hhd. set (ps := combine ids (ws ++ [w])) in *.
  assert (Eps : map snd ps = ws ++ [w]) by (apply combine_map_snd; lia).
  assert (Hlp : length ps = S (length ws)) by (rewrite <- (length_map snd), Eps, length_app; cbn; lia).
  set (t1 := firstn (S (length ws)) times). set (t2 := skipn (S (length ws)) times).
  assert (Et : times = t1 ++ t2) by (symmetry; apply take_drop).
  assert (Hl1 : length t1 = S (length ws)) by (unfold t1; rewrite length_firstn; lia).
  assert (Hl2 : length t2 = length ws) by (unfold t2; rewrite length_skipn; lia).
  destruct (headers_sent uv_write Huv ep ep ps t1 v1 s1 [] p) as
    (v2 & s2 & bodies & p2 & E2 & Hv2 & Hsame2 & Hp2 & Hb2 & Hr2 & Hh2 & _); [congruence|done|rewrite app_nil_r; done| |done|].
  { apply Forall_map with (f := snd) (P := header_task). rewrite Eps. done. }
  cbn [app] in Hp2. rewrite <- (map_map snd body_task), Eps, map_app in Hb2. cbn [map] in Hb2.
  apply map_eq_app in Hb2 as (bs & bl & -> & Hbs & Hbl). destruct bl as [|[id w'] [|]]; try done. cbn in Hbl. injection Hbl as ->.
  apply Forall_app in Hheads as [Hheads Hw]. apply Forall_cons in Hw as [Hw _].
  destruct (bodies_sent uv_write ep ep bs t2 v2 s2 [(id, body_task w)] p2) as
    (v3 & s3 & E3 & Hv3 & Hsame3 & Hp3 & Hr3 & Hh3 & _);
    [rewrite Hl2, <- (length_map snd bs), Hbs, length_map; done|done|done| |done|].
  { apply (Forall_map snd (fun w => is_body w /\ w_continue w = true)). rewrite Hbs. apply Forall_map.
    apply List.Forall_forall. intros x Hx. rewrite List.Forall_forall in Hheads, Hcont.
    split; [apply body_task_body; auto|exact (Hcont x Hx)]. }
  destruct (last_body_sent uv_write ep v3 s3 id (body_task w) now p2) as (v4 & E4 & Hn4 & Hsame4);
    [done|done|apply body_task_body; done|done|done|].
  exists v1, v3, s3, v4. split_and!; try done.
  - rewrite Et, for_each_app, (bind_done _ _ _ _ _ E2). done.
  - rewrite Hh3, Hh2, Hhd, <- (map_map snd w_data), Eps. done.
  - destruct Hsame1 as (_ & _ & O1), Hsame2 as (_ & _ & O2), Hsame3 as (_ & _ & O3), Hsame4 as (_ & _ & O4). congruence.
Qed.

(** C20: a GET, or a request of another method with a body of the announced length that is not empty, is answered by
    the coroutine server, whatever way its bytes are cut into reads (without a body no other method is ever answered,
    empty_post_unanswered): the handler of its route runs once, on the parsed request, and starts its writes; when libuv
    completes the writes (each uv_write succeeds; no write is empty, and the last one alone ends the response), the connection has been given all the heads, in the order of the
    writes, and then all the bodies in that order (so a handler that writes twice sends two
    heads before its first body), and the last completion destroys the session without leaving
    a write behind. *)
Theorem co_request_answered (v : CoHttpServer Q) (s : CoHttpSession Q) (ep m target : bytes) (hs : headers) (body : bytes)
  (chunks : list (Z * bytes)) (h : nat) (ws : list wtask) (w : wtask) (times : list Z) (now : Z)
  (Huv : forall ep n, uv_write ep n = 0)
  (Hh : hosts ep v s) (Hidle : co_idle s) (Hok : request_ok m target hs)
  (Hlen : Zlen (request_text m target hs ++ body) < 2 ^ 30)
  (Hbody : if decide (m = bstr "GET") then body = []
           else content_length_ (fields_ (co_parsed m target hs)) = Zlen body /\ body <> [])
  (Hroute : server_GetHandle v (co_parsed m target hs) = Some h)
  (Hchunks : Forall (fun e => snd e <> [] /\ Zlen (snd e) <= 20 * 1024) chunks)
  (Htext : concat (map snd chunks) = request_text m target hs ++ body)
  (Hws : snd (co_starts (handler h (co_seen m target hs body)) new_co_response) = ws ++ [w])
  (Hheads : Forall header_task (ws ++ [w])) (Hcont : Forall (fun w => w_continue w = true) ws)
  (Hlast : w_continue w = false) (Htimes : length times = (2 * length ws + 1)%nat) :
  exists v1 v2 s2 v3,
    for_each chunks (read_at handler uv_write ep) v = Done v1 tt /\
    for_each times (written_at uv_write ep ep) v1 = Done v2 tt /\ hosts ep v2 s2 /\
    handed_ s2 = concat (map task_text (ws ++ [w])) ++ concat (map w_data (ws ++ [w])) /\
    written_at uv_write ep ep now v2 = Done v3 tt /\ smap_find ep (http_sessions_ v3) = None /\
    orphans_ v3 = orphans_ v.
Proof.
  destruct Hidle as (Hq & Hs & Hrdy & H1 & H2 & H3 & H4). eapply co_answered; try done.
  split; [done|]. left. eexists. split_and!; [done..|reflexivity|apply text_nonnil].
Qed.

(** A request without a body that is not a GET is never answered: whatever arrives after its
    head only grows the buffer, and no handler is called. *)
Lemma empty_post_unanswered (GetHandle : CoHttpRequest -> option nat) (s : CoHttpSession Q) (q : CoHttpRequest)
  (b : bytes) (reads : list (Z * bytes)) (Hready : header_is_ready_ s = true) (Hq : request_ s = Some q)
  (Hm : method_ (fields_ q) <> bstr "GET") (Hlen : content_length_ (fields_ q) <= 0)
  (Hb : bq_rep (content_data_ s) b) (Hp : bq_packed (content_data_ s))
  (Hsize : Zlen b + Zlen (concat (map snd reads)) < 2 ^ 30) :
  exists s', for_each reads (fun e =>
      go ← request_received GetHandle handler (uv_write []) (fst e) (mkRecv RECV_OK (Zlen (snd e))) (snd e);
      if go : bool then mret tt else stuck) s = Done s' tt /\
    bq_rep (content_data_ s') (b ++ concat (map snd reads)) /\
    response_ s' = response_ s /\ writes_ s' = writes_ s /\ accept_conn_ s' = accept_conn_ s.
Proof.
  revert s b Hready Hq Hb Hp Hsize; induction reads as [|[now d] reads IH]; intros s b Hready Hq Hb Hp Hsize.
  { exists s. cbn. rewrite app_nil_r. done. }
  cbn [map concat snd fst for_each] in *. rewrite Zlen_app in Hsize. pose proof (Zlen_nonneg (concat (map snd reads))).
  destruct (append_content_ok (s <| alive_ms_ := now |>) b d) as (cq & EA & Hcq & Hcp); [destruct s; done|destruct s; done|lia|].
  set (s1 := s <| alive_ms_ := now |> <| content_data_ := cq |>) in *.
  assert (E : request_received GetHandle handler (uv_write []) now (mkRecv RECV_OK (Zlen d)) d s = Done s1 true).
  { unfold request_received. cbn [recv_status]. erewrite bind_done by reflexivity. erewrite bind_done by reflexivity.
    replace (header_is_ready_ _) with true by (destruct s; done). cbn [negb].
    rewrite (bind_done _ _ _ s1 1) by (rewrite (bind_done _ _ _ _ _ EA); done).
    change (1 =? 0) with false. change (1 <? 0) with false. cbv iota.
    unfold HandleRequest_dispatch. erewrite bind_done by reflexivity.
    replace (request_ s1) with (Some q) by (unfold s1; destruct s; done). erewrite bind_done by reflexivity.
    rewrite (proj2 (beqb_false _ _)) by done. rewrite (proj2 (Z.ltb_ge _ _)) by lia. done. }
  destruct (IH s1 (b ++ d)) as (s' & E' & H1 & H2 & H3 & H4); [unfold s1; destruct s; done..|rewrite Zlen_app; lia|].
  exists s'. erewrite bind_done by (erewrite bind_done by exact E; reflexivity). rewrite <- app_assoc in H1.
  split_and!; [exact E'|done|..]; [rewrite H2|rewrite H3|rewrite H4]; unfold s1; destruct s; done.
Qed.

End properties.

Section timer.
Context {Q : Type} {HQ : ByteQueue Q}.

Lemma find_filter {V} (m : list (bytes * V)) (f : bytes * V -> bool) k v : smap_wf m ->
  smap_find k (List.filter f m) = Some v <-> smap_find k m = Some v /\ f (k, v) = true.
Proof.
  unfold smap_wf. induction 1 as [|[k1 v1] m Hm IH Hall]; [split; [done|intros [? _]; done]|]. cbn.
  assert (Habs : beqb k k1 = true -> smap_find k m = None).
  { intros E. apply beqb_true in E as ->. clear IH Hm. induction m as [|[k2 v2] m IH]; [done|].
    apply Forall_cons in Hall as [Hlt Hall]. cbn. destruct (beqb k1 k2) eqn:E; [|apply IH; done].
    apply beqb_true in E as ->. unfold key_lt in Hlt. cbn in Hlt. rewrite bytes_ltb_irrefl in Hlt. done. }
  destruct (f (k1, v1)) eqn:Ef; cbn; destruct (beqb k k1) eqn:E; try exact IH.
  - apply beqb_true in E as ->. split; [intros [= ->]; done|tauto].
  - rewrite IH, (Habs eq_refl). apply beqb_true in E as ->. split; [intros [? _]; done|intros [[= ->] ?]; congruence].
Qed.

Lemma destroy_sessions_orphans (l : list (bytes * CoHttpSession Q)) : forall v,
  let v' := fold_left (fun v e => destroy_session (snd e) v) l v in
  http_sessions_ v' = http_sessions_ v /\
  orphans_ v' = orphans_ v ++ concat (map (fun e => uv_requests_ (accept_conn_ (snd e))) l).
Proof.
  induction l as [|e l IH]; intros v; cbn [fold_left map concat]; [rewrite app_nil_r; done|].
  destruct (IH (destroy_session (snd e) v)) as [-> ->]. rewrite app_assoc. destruct v; done.
Qed.

(** A session that counts as alive at [now]: it was active in the last five seconds and is not closed. *)
Definition active (now : Z) (s : CoHttpSession Q) : Prop := now - alive_ms_ s < 5000 /\ sclose_ s = false.

(** A tick of the timer keeps exactly the sessions that have been active in the last five seconds and are not
    closed; the writes that a dropped session has under way (a client that takes that long to read) are left to libuv,
    which will report them to the destroyed connection. *)
Lemma OnTimer_keeps (now : Z) (v : CoHttpServer Q) (ep : bytes) (s : CoHttpSession Q) (Hwf : smap_wf (http_sessions_ v)) :
  (smap_find ep (http_sessions_ (CoHttp.OnTimer now v)) = Some s <->
     smap_find ep (http_sessions_ v) = Some s /\ active now s) /\
  (smap_find ep (http_sessions_ v) = Some s -> smap_find ep (http_sessions_ (CoHttp.OnTimer now v)) = None ->
     incl (uv_requests_ (accept_conn_ s)) (orphans_ (CoHttp.OnTimer now v))).
Proof.
  set (live := fun e : bytes * CoHttpSession Q => IsAlive now (snd e)).
  destruct (destroy_sessions_orphans (List.filter (fun e => negb (live e)) (http_sessions_ v))
    (v <| http_sessions_ ::= List.filter live |>)) as [Es Eo].
  fold live in Es, Eo. unfold OnTimer. fold live. set (v' := fold_left _ _ _) in *.
  replace (http_sessions_ (v <| http_sessions_ ::= List.filter live |>)) with (List.filter live (http_sessions_ v))
    in Es by (destruct v; done).
  assert (Hlive : live (ep, s) = true <-> active now s).
  { unfold live, active, IsAlive. cbn [snd]. rewrite andb_true_iff, Z.ltb_lt, negb_true_iff. done. }
  rewrite Es, find_filter, Hlive by done. split; [done|]. intros Hf Hn.
  assert (Hdead : live (ep, s) = false).
  { destruct (live (ep, s)) eqn:El; [|done]. assert (smap_find ep (List.filter live (http_sessions_ v)) = Some s); [|congruence].
    apply find_filter; done. }
  assert (Hin : In (ep, s) (http_sessions_ v)).
  { clear -Hf. induction (http_sessions_ v) as [|[k x] mm IH]; [done|]. cbn in Hf. destruct (beqb ep k) eqn:E.
    - injection Hf as ->. apply beqb_true in E as ->. left. done.
    - right. apply IH. done. }
  rewrite Eo. intros x Hx. apply in_app_iff. right. apply in_concat. eexists. split; [|exact Hx].
  apply in_map_iff. exists (ep, s). split; [done|]. apply filter_In. by rewrite Hdead.
Qed.
End timer.

(** ** Witnesses *)

Definition demo_co_session : CoHttpSession bytes :=
  mkCoSession (mkAcceptConn TCP_CONNECT_SUCCESS (10 * 1024) [] [0%nat] [] []) [] [] false (-1) None None 100 false [] 1 [].
Definition demo_co_server : CoHttpServer bytes :=
  CoHttp.AddGetHandle (mkCoHttpServer [(bstr "1.2.3.4:5", demo_co_session)] [] [] (mkCoServer [0%nat] 0) true []) (bstr "/hi/") 0.
(** A handler that writes twice. *)
Definition demo_co_handler (h : nat) (q : CoHttpRequest) : list co_op :=
  [CSetStatus (bstr "Fine"); CWrite (bstr "ab") true; CWrite (bstr "c") false].
Definition demo_co_headers : headers := [(bstr "Host", bstr "example.org")].

Lemma demo_co_request_ok : request_ok (bstr "GET") (bstr "/hi?x=1") demo_co_headers.
Proof.
  constructor; [apply demo_word; [reflexivity|reflexivity|discriminate]..|vm_compute; congruence|].
  repeat constructor; cbn [fst snd demo_co_headers]; try not_in. discriminate.
Defined.

Lemma demo_co_idle : co_idle demo_co_session.
Proof.
  split; [constructor; reflexivity|]. split; [exists 0%nat; repeat split|]. repeat split.
Defined.

Definition demo_writes : list wtask := snd (co_starts (demo_co_handler 0 (co_parsed [] [] [])) new_co_response).

Lemma co_request_answered_witness :
  let text := request_text (bstr "GET") (bstr "/hi?x=1") demo_co_headers in
  let ep := bstr "1.2.3.4:5" in
  exists v1 v2 s2 v3,
    for_each [(200, firstn 9 text); (300, skipn 9 text)] (read_at demo_co_handler (fun _ _ => 0) ep) demo_co_server = Done v1 tt /\
    for_each [400; 401; 402] (written_at (fun _ _ => 0) ep ep) v1 = Done v2 tt /\ hosts ep v2 s2 /\
    handed_ s2 = concat (map task_text (firstn 1 demo_writes ++ [List.last demo_writes (mkTask [] false (WBody [] 0))])) ++
                 concat (map w_data (firstn 1 demo_writes ++ [List.last demo_writes (mkTask [] false (WBody [] 0))])) /\
    written_at (fun _ _ => 0) ep ep 500 v2 = Done v3 tt /\ smap_find ep (http_sessions_ v3) = None /\
    orphans_ v3 = orphans_ demo_co_server.
Proof.
  apply (co_request_answered demo_co_handler (fun _ _ => 0) demo_co_server demo_co_session (bstr "1.2.3.4:5")
    (bstr "GET") (bstr "/hi?x=1") demo_co_headers [] [(200, firstn 9 (request_text (bstr "GET") (bstr "/hi?x=1") demo_co_headers));
      (300, skipn 9 (request_text (bstr "GET") (bstr "/hi?x=1") demo_co_headers))] 0
    (firstn 1 demo_writes) (List.last demo_writes (mkTask [] false (WBody [] 0))) [400; 401; 402] 500).
  - reflexivity.
  - reflexivity.
  - apply demo_co_idle.
  - apply demo_co_request_ok.
  - vm_compute. reflexivity.
  - vm_compute. reflexivity.
  - vm_compute. reflexivity.
  - repeat (apply Forall_cons; split; [split; [discriminate|vm_compute; discriminate]|]). apply Forall_nil. exact I.
  - vm_compute. reflexivity.
  - vm_compute. reflexivity.
  - repeat (apply Forall_cons; split; [repeat split; vm_compute; reflexivity|]). apply Forall_nil. exact I.
  - apply Forall_cons. split; [reflexivity|]. apply Forall_nil. exact I.
  - reflexivity.
  - reflexivity.
Defined.

Definition demo_post : CoHttpRequest :=
  mkCoRequest (new_request <| method_ := bstr "POST" |> <| uri_ := bstr "/hi" |>) (bstr "POST /hi HTTP/1.1").
Lemma empty_post_unanswered_witness :
  let s := demo_co_session <| header_is_ready_ := true |> <| request_ := Some demo_post |> in
  exists s', for_each [(1, bstr "x"); (2, bstr "yz")] (fun e =>
      go ← request_received (fun _ => Some 0%nat) demo_co_handler (fun _ => 0) (fst e) (mkRecv RECV_OK (Zlen (snd e))) (snd e);
      if go : bool then mret tt else stuck) s = Done s' tt /\
    bq_rep (content_data_ s') ([] ++ concat (map snd [(1, bstr "x"); (2, bstr "yz")])) /\
    response_ s' = response_ s /\ writes_ s' = writes_ s /\ accept_conn_ s' = accept_conn_ s.
Proof.
  apply (empty_post_unanswered demo_co_handler (fun _ _ => 0) (fun _ => Some 0%nat)
    (demo_co_session <| header_is_ready_ := true |> <| request_ := Some demo_post |>) demo_post []
    [(1, bstr "x"); (2, bstr "yz")]);
    [reflexivity|reflexivity|discriminate|vm_compute; discriminate|split; reflexivity|exact I|vm_compute; reflexivity].
Defined.

Definition demo_slow : CoHttpSession bytes :=
  demo_co_session <| accept_conn_ := mkAcceptConn TCP_CONNECT_SUCCESS 0 [] [] [1%nat] [bstr "HTTP/1.1"] |>.
Definition demo_slow_server : CoHttpServer bytes :=
  mkCoHttpServer [(bstr "1.2.3.4:5", demo_slow)] [] [] (mkCoServer [0%nat] 0) true [].
Example slow_session_dropped :
  http_sessions_ (OnTimer 5100 demo_slow_server) = [] /\ orphans_ (OnTimer 5100 demo_slow_server) = [bstr "HTTP/1.1"].
Proof. by split. Qed.
