(* ===== verification/CoHttpDemo.v ===== *)
(** The demo program of the coroutine HTTP server (co_http_server_demo.cpp): its two handlers, the server
    its [main] sets up, and a whole exchange from the accepted connection to the closed one.  The
    requests the handlers log, and the port that [main] parses, are left out. *)
From S2P Require Import Prelude Eff StdMap StdText StringEx ByteQueue DataBuffer HttpCommon HttpRequests CoTcp CoHttp CoHttpRequests Double JsonUtf8 Json.

Definition send_msg : bytes := bstr "hello world...".

Section demo.
Context (to_chars : double -> bytes).

(** [response_json], and its [dump()]. *)
Definition response_json : res json :=
  j ← index_assign JNull (bstr "message") (JString send_msg); index_assign j (bstr "code") (JInteger 200).
Definition response_str : res bytes := j ← response_json; dump to_chars j (-1) 32 false Strict.

Definition set_response : list co_op :=
  [CSetStatusCode 200; CSetStatus (bstr "OK"); CAddHeader (bstr "Content-Type") (bstr "application/json")].
(** The exceptions of the JSON library are caught here, and leave the coroutine there; [response_str] is
    always defined ([response_str_ok]). *)
Definition HandleGetRequest : list co_op :=
  set_response ++ match response_str with Ok s => [CWrite s false] | _ => [] end.
Definition HandlePostRequest : list co_op :=
  set_response ++ match response_str with Ok s => [CWrite s false] | _ => [CThrow] end.
Definition demo_handler (h : nat) (q : CoHttpRequest) : list co_op :=
  match h with O => HandleGetRequest | _ => HandlePostRequest end.
End demo.

Section main.
Context {Q : Type} {HQ : ByteQueue Q}.

(** [main] up to [uv_run]: the handlers are registered, and [Run] waits for the first connection. *)
Definition http_server : CoHttpServer Q := mkCoHttpServer [] [] [] (mkCoServer [] 0) true [].
Definition main_server : CoHttpServer Q :=
  CoHttp.AddPostHandle (CoHttp.AddGetHandle http_server (bstr "/api/get") 0) (bstr "/api/post") 1.
End main.

Definition demo_body : bytes :=
  bstr "{" ++ [34] ++ bstr "code" ++ [34] ++ bstr ":200," ++ [34] ++ bstr "message" ++ [34; 58; 34] ++ bstr "hello world..." ++ [34; 125].
Definition demo_response : bytes :=
  bstr "HTTP/1.1 200 OK" ++ CRLF ++ bstr "Content-Type: application/json" ++ CRLF ++ bstr "Content-Length: 39" ++ CRLF ++ CRLF ++ demo_body.

Lemma response_str_ok to_chars : response_str to_chars = Ok demo_body.
Proof. vm_compute. reflexivity. Qed.

(** Either handler starts one write, of the same response. *)
Definition demo_write : wtask :=
  let head := write_head (new_co_response <| headers_ := [(bstr "Content-Type", bstr "application/json")] |>) 39 false in
  mkTask demo_body false (WHeader head (Zlen head)).

Lemma demo_starts to_chars h q : snd (co_starts (demo_handler to_chars h q) new_co_response) = [demo_write].
Proof.
  unfold demo_handler, HandleGetRequest, HandlePostRequest. rewrite response_str_ok. destruct h; vm_compute; reflexivity.
Qed.

Section accept.
Context {Q : Type} {HQ : ByteQueue Q} {HQL : ByteQueueLaws Q} {HQP : ByteQueuePacked Q} {HQS : ByteQueueSized Q}.
Context (handler : nat -> CoHttpRequest -> list co_op) (uv_write : bytes -> nat -> Z).

Lemma on_session_listening {A} ep (m : eff (CoHttpSession Q) A) v v' a : on_session ep m v = Done v' a -> listening_ v' = listening_ v.
Proof.
  unfold on_session. erewrite bind_done by reflexivity. destruct (smap_find ep (http_sessions_ v)) as [x|]; [|done].
  erewrite bind_done by reflexivity. unfold zoom. destruct (m x); [|done..]. intros [= <- _]. by destruct v.
Qed.

(** An accepted connection gets a session that waits for its first byte, and the server accepts on. *)
Lemma accepted_reads (v : CoHttpServer Q) ep now awaiter rest m target hs body h :
  request_ok m target hs -> Zlen (request_text m target hs ++ body) < 2 ^ 30 ->
  (if decide (m = bstr "GET") then body = [] else content_length_ (fields_ (co_parsed m target hs)) = Zlen body /\ body <> []) ->
  server_GetHandle v (co_parsed m target hs) = Some h ->
  awaiters_ (listening_ v) = awaiter :: rest -> smap_find ep (http_sessions_ v) = None ->
  exists v' s, server_uv_connection handler uv_write now ep awaiter 0 v = Done v' tt /\ hosts ep v' s /\ same_server v v' /\
    reading m target hs body s [] /\ suspended s /\ awaiters_ (listening_ v') = rest ++ [awaiter].
Proof.
  intros Hok Hlen Hbody Hroute Haw Hnew.
  destruct (TcpCoAcceptConn_new_start TCP_CONNECT_SUCCESS) as (b & Ec & Hb & Hbz).
  destruct (bq_new_packed (10 * 1024)) as (hd & Eh & Hh & Hhp); [lia|].
  set (c := mkAcceptConn TCP_CONNECT_SUCCESS 0 b [] [] []). set (s0 := mkCoSession c hd hd false (-1) None None now false [] 0 []).
  assert (Hread : reading m target hs body s0 []).
  { split; [by constructor|]. left. exists (request_text m target hs). split_and!; try done. apply text_nonnil. }
  unfold server_uv_connection. erewrite bind_done by reflexivity. unfold OnConnection.
  replace (awaiters_ ((listening_ v) <| unaccepted_ ::= S |>)) with (awaiter :: rest) by (destruct v as [? ? ? []]; done).
  erewrite bind_done by reflexivity. change (0 =? 0) with true. cbv iota. unfold Run_accepted.
  erewrite bind_done by reflexivity. unfold accept_await_resume. rewrite Ec. cbv iota.
  erewrite bind_done by reflexivity. erewrite bind_done by reflexivity. cbv iota.
  unfold CoHttpSession_new. rewrite Eh, !bind_Ok. erewrite bind_done by reflexivity. fold c s0.
  set (v1 := v <| listening_ := _ |> <| listening_ := _ |>).
  assert (Hv1 : http_sessions_ v1 = http_sessions_ v /\ same_server v v1 /\ awaiters_ (listening_ v1) = rest) by (destruct v as [? ? ? [] ? ?]; done).
  destruct Hv1 as (Hs1 & Hsame1 & Ha1).
  assert (Eclose : server_OnClose ep v1 = v1) by (unfold server_OnClose; rewrite Hs1, Hnew; done).
  erewrite bind_done by reflexivity. rewrite Eclose. erewrite bind_done by reflexivity.
  set (v2 := v1 <| http_sessions_ ::= smap_set ep s0 |>).
  assert (Hv2 : hosts ep v2 s0 /\ same_server v v2 /\ awaiters_ (listening_ v2) = rest).
  { split_and!; [|destruct v1; exact Hsame1|destruct v1; exact Ha1]. unfold hosts, v2. destruct v1. cbn. by rewrite smap_find_set, beqb_refl. }
  destruct Hv2 as (Hh2 & Hsame2 & Ha2). erewrite bind_done by reflexivity.
  pose proof (HandleRequest_fed (server_GetHandle v2) handler (uv_write ep) m target hs body h Hok Hlen Hbody) as HF.
  specialize (HF ltac:(rewrite (same_GetHandle v); done) (loop_fuel s0) s0 now [] [] (request_text m target hs ++ body) Hread eq_refl Hb Hbz eq_refl).
  unfold fed in HF. rewrite decide_False in HF by (intros E; apply app_nil in E as [E _]; by apply text_nonnil in E).
  destruct HF as (s1 & E1 & Hread1 & Hsus1); [unfold loop_fuel, Zlen; cbn [length]; lia|].
  destruct (hosted_done ep v2 s0 s1 _ tt Hh2 E1) as (v3 & E3 & Hh3 & Hsame3).
  rewrite (bind_done _ _ _ _ _ E3). unfold Run_accept. eexists _, s1. split; [reflexivity|].
  apply on_session_listening in E3. rewrite <- E3 in Ha2. pose proof (same_server_trans _ _ _ Hsame2 Hsame3) as Hsame.
  split_and!; try done. destruct v3 as [? ? ? [] ? ?]. cbn in *. by rewrite Ha2.
Qed.
End accept.

(** C14: the demo server answers.  A client connects to the server [main] has set up and sends a GET, or a request of
    another method with a body that is not empty and has the announced length, for one of the two registered paths, its
    bytes cut into reads in any way (without a body a POST is never answered, empty_post_unanswered); then no step is
    undefined, the connection is given exactly the head and the JSON text of the response, and when libuv, whose uv_write
    succeeds, has completed both writes the session is gone and no write is left behind. *)
Theorem demo_answers {Q : Type} {HQ : ByteQueue Q} {HQL : ByteQueueLaws Q} {HQP : ByteQueuePacked Q} {HQS : ByteQueueSized Q}
  (to_chars : double -> bytes) (uv_write : bytes -> nat -> Z) (ep m target : bytes) (hs : headers) (body : bytes)
  (chunks : list (Z * bytes)) (h : nat) (now t1 t2 : Z)
  (Huv : forall ep n, uv_write ep n = 0) (Hok : request_ok m target hs)
  (Hlen : Zlen (request_text m target hs ++ body) < 2 ^ 30)
  (Hbody : if decide (m = bstr "GET") then body = []
           else content_length_ (fields_ (co_parsed m target hs)) = Zlen body /\ body <> [])
  (Hroute : server_GetHandle (main_server (Q := Q)) (co_parsed m target hs) = Some h)
  (Hchunks : Forall (fun e => snd e <> [] /\ Zlen (snd e) <= 20 * 1024) chunks)
  (Htext : concat (map snd chunks) = request_text m target hs ++ body) :
  exists v0 v1 v2 s2 v3,
    (Run_accept 0 ;; server_uv_connection (demo_handler to_chars) uv_write now ep 0 0) (main_server (Q := Q)) = Done v0 tt /\
    for_each chunks (read_at (demo_handler to_chars) uv_write ep) v0 = Done v1 tt /\
    written_at uv_write ep ep t1 v1 = Done v2 tt /\ hosts ep v2 s2 /\ handed_ s2 = demo_response /\
    written_at uv_write ep ep t2 v2 = Done v3 tt /\ smap_find ep (http_sessions_ v3) = None /\ orphans_ v3 = [].
Proof.
  assert (Hl : forall v : CoHttpServer Q, awaiters_ (listening_ v) = [] ->
    awaiters_ (listening_ (v <| listening_ ::= fun l => AddAwaiter l 0 |>)) = [0%nat] /\
    http_sessions_ (v <| listening_ ::= fun l => AddAwaiter l 0 |>) = http_sessions_ v /\
    server_GetHandle (v <| listening_ ::= fun l => AddAwaiter l 0 |>) = server_GetHandle v /\
    orphans_ (v <| listening_ ::= fun l => AddAwaiter l 0 |>) = orphans_ v) by (intros [? ? ? [] ? ?]; cbn; intros ->; done).
  destruct (Hl main_server eq_refl) as (Hl1 & Hl2 & Hl3 & Hl4). clear Hl. 
  destruct (accepted_reads (demo_handler to_chars) uv_write ((main_server (Q := Q)) <| listening_ ::= fun l => AddAwaiter l 0 |>)
    ep now 0 [] m target hs body h Hok Hlen Hbody ltac:(by rewrite Hl3) Hl1 ltac:(by rewrite Hl2)) as (v0 & s0 & E0 & Hh0 & Hsame0 & Hr0 & Hs0 & _).
  assert (Hroute0 : server_GetHandle v0 (co_parsed m target hs) = Some h) by (rewrite (same_GetHandle _ _ _ Hsame0), Hl3; exact Hroute).
  assert (Hheads : Forall header_task ([] ++ [demo_write])).
  { apply Forall_cons. split; [repeat split; vm_compute; reflexivity|constructor]. }
  destruct (co_answered (demo_handler to_chars) uv_write v0 s0 ep m target hs body chunks h [] demo_write [t1] t2 Huv Hh0 Hr0 Hs0 Hok
    Hlen Hbody Hroute0 Hchunks Htext (demo_starts to_chars h _) Hheads ltac:(constructor) eq_refl eq_refl)
    as (v1 & v2 & s2 & v3 & E1 & E2 & Hh2 & Hhd & E3 & Hn3 & Ho).
  exists v0, v1, v2, s2, v3. split_and!; [|exact E1| |exact Hh2| |exact E3|exact Hn3|].
  - unfold Run_accept. erewrite bind_done by reflexivity. exact E0.
  - cbn [for_each] in E2. unfold mbind, eff_bind in E2. by destruct (written_at uv_write ep ep t1 v1) as [v2' []| |]; [injection E2 as ->|..].
  - rewrite Hhd. vm_compute. reflexivity.
  - rewrite Ho. destruct Hsame0 as (_ & _ & Ho0). rewrite Ho0, Hl4. done.
Qed.

(** On the program's own buffers: a GET in two reads. *)
Definition demo_request : bytes := request_text (bstr "GET") (bstr "/api/get") demo_co_headers.
Lemma demo_get_ok : request_ok (bstr "GET") (bstr "/api/get") demo_co_headers.
Proof.
  constructor; [apply demo_word; [reflexivity|reflexivity|discriminate]..|vm_compute; congruence|].
  repeat constructor; cbn [fst snd demo_co_headers]; try not_in. discriminate.
Defined.

Lemma demo_answers_witness :
  let ep := bstr "1.2.3.4:5" in
  exists v0 v1 v2 s2 v3,
    (Run_accept 0 ;; server_uv_connection (demo_handler (fun _ => [])) (fun _ _ => 0) 100 ep 0 0) (main_server (Q := DataBuffer)) = Done v0 tt /\
    for_each [(200, firstn 9 demo_request); (300, skipn 9 demo_request)] (read_at (demo_handler (fun _ => [])) (fun _ _ => 0) ep) v0 = Done v1 tt /\
    written_at (fun _ _ => 0) ep ep 400 v1 = Done v2 tt /\ hosts ep v2 s2 /\ handed_ s2 = demo_response /\
    written_at (fun _ _ => 0) ep ep 500 v2 = Done v3 tt /\ smap_find ep (http_sessions_ v3) = None /\ orphans_ v3 = [].
Proof.
  apply (demo_answers (Q := DataBuffer) (fun _ => []) (fun _ _ => 0) (bstr "1.2.3.4:5") (bstr "GET") (bstr "/api/get") demo_co_headers []
    [(200, firstn 9 demo_request); (300, skipn 9 demo_request)] 0 100 400 500).
  - reflexivity.
  - apply demo_get_ok.
  - vm_compute. reflexivity.
  - vm_compute. reflexivity.
  - vm_compute. reflexivity.
  - repeat (apply Forall_cons; split; [split; [discriminate|vm_compute; discriminate]|]). constructor.
  - vm_compute. reflexivity.
Defined.
