(* ===== verification/RtmpSession.v ===== *)
(** The RTMP server session and server ([src/src/net/rtmp/co_rtmp/co_rtmp_session.cpp],
    [co_rtmp_server.cpp]).

    Two coroutines run on the connection: [Run], which is suspended in its receive, and one
    [HandleRequest] per read, which may be suspended in its send.  Each is cut at its [co_await]:
    the function before the cut asks the connection, the function after the cut is applied to
    the resumption.  The receive of [Run] is awaiter 0; the sends are numbered by [next_].
    [uv_write] is the result of libuv's write. *)
From S2P Require Import Prelude Eff StdMap ByteQueue RtmpHandshake CoTcp.

Definition RECV_DATA_SIZE : Z := 10 * 1024.
Definition initial_phase : Z := -1.
Definition handshake_c2_phase : Z := 0.
Definition connect_phase : Z := 1.

Section session.
Context {Q : Type} {HQ : ByteQueue Q}.
Context (hmac : bytes -> bytes -> bytes) (dh : bytes -> option bytes) (dh_init : Z).
Context (random : nat -> Z) (uv_write : Z).

Record CoRtmpSession : Type := mkRtmpSession {
  conn_ptr_ : TcpCoAcceptConn Q;
  recv_data_ : bytes;
  rrecv_buffer_ : Q;
  phase_ : Z;
  closed_ : bool;
  hs_ : RtmpServerHandshake;
  random_pos_ : nat;
  sending_ : list nat;                (* the HandleRequest coroutines suspended in CoSend *)
  next_ : nat;
  running_ : bool }.                  (* Run has not returned *)

Abbreviation M := (eff CoRtmpSession).

Definition on_conn {A} (m : eff (TcpCoAcceptConn Q) A) : M A := zoom conn_ptr_ (fun s c => s <| conn_ptr_ := c |>) m.

(** [HandleRequest] after [co_await CoSend]. *)
Definition request_sent (result : SendResult) : M unit :=
  match send_status result with
  | SEND_OK => modify (fun s => s <| phase_ := handshake_c2_phase |>)
  | _ => mret tt
  end.

(** [HandleRequest]; its result is not used. *)
Definition HandleRequest : M unit :=
  s ← get;
  if phase_ s =? initial_phase then
    r ← lift (HandleC0C1 hmac (hs_ s) (rrecv_buffer_ s));
    modify (fun s => s <| hs_ := fst r |>) ;;
    if snd r <? 0 then modify (fun s => s <| closed_ := true |>)
    else if snd r =? RTMP_NEED_READ_MORE then mret tt
    else
      modify (fun s => s <| rrecv_buffer_ ::= bq_reset |>) ;;
      s ← get;
      x ← lift (SendS0S1S2 hmac dh dh_init random (hs_ s) (random_pos_ s));
      let '(hs, pos, ret, s0s1s2) := x in
      modify (fun s => s <| hs_ := hs |> <| random_pos_ := pos |>) ;;
      if ret <? 0 then modify (fun s => s <| closed_ := true |>)
      else
        s ← get;
        modify (fun s => s <| next_ ::= S |>) ;;
        o ← on_conn (send_await_suspend uv_write (next_ s) s0s1s2);
        match o with
        | Some (ResumeSend _ result) => request_sent result
        | _ => modify (fun t => t <| sending_ ::= fun l => l ++ [next_ s] |>)
        end
  else if phase_ s =? handshake_c2_phase then
    r ← lift (HandleC2 (hs_ s) (rrecv_buffer_ s));
    modify (fun s => s <| rrecv_buffer_ := fst r |>) ;;
    if snd r =? RTMP_NEED_READ_MORE then mret tt
    else modify (fun s => s <| phase_ := connect_phase |>)
  else mret tt.

(** [Run] after its receive; [false] leaves the loop.  The whole of [recv_data_] is appended,
    whatever was received. *)
Definition run_received (result : RecvResult) (data : bytes) : M bool :=
  match recv_status result with
  | RECV_OK =>
      s ← get;
      d ← lift (memcpy_to (recv_data_ s) 0 data);
      b ← lift (bq_append (rrecv_buffer_ s) d);
      modify (fun s => s <| recv_data_ := d |> <| rrecv_buffer_ := b |>) ;;
      HandleRequest ;; mret true
  | _ => modify (fun s => s <| closed_ := false |> <| running_ := false |>) ;; mret false
  end.

(** The loop of [Run] until it suspends or returns; [fuel] bounds the receives that the
    connection answers from its buffer. *)
Fixpoint Run (fuel : nat) : M unit :=
  match fuel with
  | O => stuck
  | S fuel =>
      s ← get;
      if closed_ s then modify (fun s => s <| running_ := false |>)
      else
        o ← on_conn (CoReceive RECV_DATA_SIZE ;; recv_await_suspend 0);
        match o with
        | Some (ResumeRecv _ result data) => go ← run_received result data; if go : bool then Run fuel else mret tt
        | _ => mret tt
        end
  end.

(** libuv's callbacks on the connection. *)
Definition session_uv_read (fuel : nat) (nread : Z) (data : bytes) : M unit :=
  o ← on_conn (OnUvRead nread data);
  match o with
  | Some (ResumeRecv _ result d) => go ← run_received result d; if go : bool then Run fuel else mret tt
  | _ => mret tt
  end.
Definition session_uv_written (status : Z) : M unit :=
  o ← on_conn (OnWrite status);
  match o with
  | Some (ResumeSend a result) =>
      modify (fun s => s <| sending_ ::= List.filter (fun x => negb (Nat.eqb x a)) |>) ;; request_sent result
  | _ => mret tt
  end.

(** ** The server *)

Record RtmpServer : Type := mkRtmpServer {
  sessions_ : list (bytes * CoRtmpSession);
  last_check_ms_ : Z }.

Definition IsAlive (s : CoRtmpSession) : bool := true.
Definition OnCheckAlive (s : RtmpServer) (now_ms : Z) : RtmpServer :=
  if last_check_ms_ s <? 0 then s <| last_check_ms_ := now_ms |>
  else if now_ms - last_check_ms_ s <? 2000 then s
  else s <| last_check_ms_ := now_ms |> <| sessions_ ::= List.filter (fun e => IsAlive (snd e)) |>.
(** [CoRtmpSession]'s constructor. *)
Definition CoRtmpSession_new (conn : TcpCoAcceptConn Q) (hs : RtmpServerHandshake) (pos : nat) : res CoRtmpSession :=
  b ← bq_new (64 * 1024);
  Ok (mkRtmpSession conn (replicate (Z.to_nat RECV_DATA_SIZE) 0) b initial_phase false hs pos [] 1 false).
(** [Run] of the server after [CoAccept]: the session is stored and not started. *)
Definition server_accepted (s : RtmpServer) (uuid : bytes) (session : CoRtmpSession) : RtmpServer :=
  s <| sessions_ ::= smap_set uuid session |>.
End session.
Arguments CoRtmpSession Q : clear implicits.
Arguments RtmpServer Q : clear implicits.

(** ** The first read *)

Section answering.
Context {Q : Type} {HQ : ByteQueue Q} {HQL : ByteQueueLaws Q} {HQS : ByteQueueSized Q}.
Context (hmac : bytes -> bytes -> bytes) (dh : bytes -> option bytes) (dh_init : Z) (random : nat -> Z).
Context (Hmac : forall k d, Zlen (hmac k d) = 32).
Context (Hdh : forall k out, Zlen k = 128 -> dh k = Some out -> Zlen out <= 128).
Implicit Types s : CoRtmpSession Q.

(** [Run] is suspended in its receive and the handshake has not got beyond C1. *)
Record answering s : Prop := {
  an_phase : phase_ s = initial_phase;
  an_open : closed_ s = false;
  an_reader : read_awaiters_ (conn_ptr_ s) = [0%nat];
  an_size : recv_size_ (conn_ptr_ s) = RECV_DATA_SIZE;
  an_conn : bq_rep (recv_buffer_ (conn_ptr_ s)) [];
  an_buffer : bq_rep (rrecv_buffer_ s) [];
  an_sized : bq_sized (recv_buffer_ (conn_ptr_ s)) /\ bq_sized (rrecv_buffer_ s);
  an_data : Zlen (recv_data_ s) = RECV_DATA_SIZE /\ bytes_ok (recv_data_ s);
  an_arrays : arrays_ok (hs_ s) }.

(** Parsing and answering a C0C1, whatever it contains. *)
Lemma C0C1_handled (hs : RtmpServerHandshake) (q : Q) (l : bytes) pos : arrays_ok hs -> bq_rep q l -> bytes_ok l ->
  1537 <= Zlen l -> exists hs1 ret, HandleC0C1 hmac hs q = Ok (hs1, ret) /\ (ret = 0 \/ ret = RTMP_SIMPLE_HANDSHAKE) /\
    ParseC1 hmac (c1s1_ hs) (firstn 1536 (skipn 1 l)) = Ok (c1s1_ hs1, ret) /\
    match shared_secret dh dh_init (c1s1_ hs1) with
    | None => exists hs2 pos' buf, SendS0S1S2 hmac dh dh_init random hs1 pos = Ok (hs2, pos', -1, buf)
    | Some _ => SendS0S1S2 hmac dh dh_init random hs1 pos = Undef
    end.
Proof.
  intros Harr Hr Hb Hl. destruct (bq_rep_len _ _ Hr) as [El Hl31].
  set (c0c1 := firstn 1537 l). assert (Hc : Zlen c0c1 = 1537).
  { unfold c0c1. change 1537%nat with (Z.to_nat 1537). rewrite Zlen_take by lia. lia. }
  assert (Hcb : bytes_ok c0c1) by (apply bytes_ok_firstn; done).
  destruct l as [|b0 l]; [done|]. set (c1 := firstn 1536 l). assert (Ec : c0c1 = b0 :: c1) by done. rewrite Ec in Hc, Hcb. rewrite Zlen_cons in Hc. apply Forall_cons in Hcb as [_ Hcb].
  destruct (ParseC1_total hmac (c1s1_ hs) c1 Hmac Hcb) as (h & ret & Ep & (Hp & _ & _ & Hk & Hs) & Hret); [lia|].
  set (hs1 := (hs <| c0_version_ := b0 |>) <| c1s1_ := h |>). exists hs1, ret.
  assert (Eh : c1s1_ hs1 = h) by (destruct hs; done).
  split; [|split; [tauto|split; [rewrite Eh; exact Ep|]]].
  { unfold HandleC0C1, Require_. rewrite El. change (s32 (1 + 1536)) with 1537. rewrite (proj2 (Z.leb_le _ _)) by lia.
    cbn [negb]. change (1 + 1536) with 1537. rewrite (bq_peek_law _ _ 0 1537 Hr) by lia. cbn [mbind res_bind]. rewrite slice_0.
    change (Z.to_nat 1537) with 1537%nat. fold c0c1. rewrite Ec. unfold ParseC0C1.
    change (skipn 1 (b0 :: c1)) with c1. change (b0 :: c1) with ([b0] ++ c1).
    rewrite (memcpy_from_head [b0] c1) by done. cbn [mbind res_bind]. change (nth 0 [b0] 0) with b0.
    replace (c1s1_ (hs <| c0_version_ := b0 |>)) with (c1s1_ hs) by (destruct hs; done). rewrite Ep. done. }
  assert (Ha1 : arrays_ok hs1).
  { destruct Harr as [A1 A2 A3 A4]. constructor; [destruct hs; exact A1|destruct hs; exact A2|destruct hs; exact A3|rewrite Eh, Hk; exact A4]. }
  destruct (shared_secret dh dh_init (c1s1_ hs1)) as [out|] eqn:E; [|apply SendS0S1S2_fails; done].
  assert (Hout : Zlen out <= 128).
  { unfold shared_secret in E. case_match; [|done]. eapply Hdh; [|exact E]. apply parsed_key_len. rewrite Eh. exact Hp. }
  rewrite <- Eh in Hp, Hs. destruct (MakeS1Data_makes hmac dh dh_init hs1 Ha1 out Hmac Hp Hs E Hout) as (? & E1 & _).
  eapply SendS0S1S2_undefined. exact E1.
Qed.

(** [HandleRequest] on a buffer of one read. *)
Lemma HandleRequest_first s l : phase_ s = initial_phase -> arrays_ok (hs_ s) -> bq_rep (rrecv_buffer_ s) l ->
  bytes_ok l -> 1537 <= Zlen l ->
  exists h ret, ParseC1 hmac (c1s1_ (hs_ s)) (firstn 1536 (skipn 1 l)) = Ok (h, ret) /\
    match shared_secret dh dh_init h with
    | None => exists s', HandleRequest hmac dh dh_init random 0 s = Done s' tt /\ closed_ s' = true /\
        uv_requests_ (conn_ptr_ s') = uv_requests_ (conn_ptr_ s)
    | Some _ => HandleRequest hmac dh dh_init random 0 s = Stuck
    end.
Proof.
  intros Hph Ha Hr Hb Hl. destruct (C0C1_handled (hs_ s) _ l (random_pos_ s) Ha Hr Hb Hl) as (hs1 & ret & E1 & Hret & Ep & E2).
  exists (c1s1_ hs1), ret. split; [exact Ep|]. assert (E : HandleRequest hmac dh dh_init random 0 s =
    (x ← lift (SendS0S1S2 hmac dh dh_init random hs1 (random_pos_ s));
     let '(hs, pos, ret, s0s1s2) := x in
     modify (fun s => s <| hs_ := hs |> <| random_pos_ := pos |>) ;;
     if ret <? 0 then modify (fun s => s <| closed_ := true |>)
     else
       s ← get;
       modify (fun s => s <| next_ ::= S |>) ;;
       o ← on_conn (send_await_suspend 0 (next_ s) s0s1s2);
       match o with
       | Some (ResumeSend _ result) => request_sent result
       | _ => modify (fun t => t <| sending_ ::= fun l => l ++ [next_ s] |>)
       end) ((s <| hs_ := hs1 |>) <| rrecv_buffer_ ::= bq_reset |>)).
  { unfold HandleRequest. erewrite bind_done by reflexivity. rewrite Hph. change (initial_phase =? initial_phase) with true.
    cbv iota. rewrite E1. erewrite bind_done by reflexivity. erewrite bind_done by reflexivity. cbn [fst snd].
    assert (Hneg : (ret <? 0) = false /\ (ret =? RTMP_NEED_READ_MORE) = false) by (destruct Hret as [-> | ->]; done).
    destruct Hneg as [-> ->]. erewrite bind_done by reflexivity. erewrite bind_done by reflexivity. destruct s; reflexivity. }
  destruct (shared_secret dh dh_init (c1s1_ hs1)).
  - rewrite E, E2. reflexivity.
  - destruct E2 as (hs2 & pos' & buf & E2). rewrite E, E2. erewrite bind_done by reflexivity. cbv iota beta.
    erewrite bind_done by reflexivity. change (-1 <? 0) with true. cbv iota. eexists. split; [reflexivity|]. destruct s. done.
Qed.

(** C40: any first bytes of a client - one byte is enough - count as a complete C0C1: [Run]
    appends the whole receive array whatever the read brought, so the server parses the read with
    what the array held before behind it.  Without a shared key the session closes and [Run]
    ends, with nothing written; with one, the answer is undefined ([server_answer]). *)
Theorem first_read_is_a_C0C1 s data : answering s -> 0 < Zlen data <= RECV_DATA_SIZE -> bytes_ok data ->
  let c0c1 := data ++ skipn (length data) (recv_data_ s) in
  exists h ret, ParseC1 hmac (c1s1_ (hs_ s)) (firstn 1536 (skipn 1 c0c1)) = Ok (h, ret) /\
    match shared_secret dh dh_init h with
    | None => exists s', session_uv_read hmac dh dh_init random 0 1 (Zlen data) data s = Done s' tt /\ closed_ s' = true /\
        running_ s' = false /\ uv_requests_ (conn_ptr_ s') = uv_requests_ (conn_ptr_ s)
    | Some _ => session_uv_read hmac dh dh_init random 0 1 (Zlen data) data s = Stuck
    end.
Proof.
  intros [Hph Hop Hrd Hsz Hcb Hbf [Hzc Hzb] [Hdl Hdb] Har] Hl Hb. unfold RECV_DATA_SIZE in *.
  (* the connection delivers the data *)
  destruct (OnUvRead_delivers (conn_ptr_ s) 0 data) as (c2 & Eread & _ & _ & _ & Hw2 & _);
    [exact Hrd|exact Hcb|exact Hzc|lia|lia|lia|]. set (s2 := s <| conn_ptr_ := c2 |>).
  (* the whole receive array is appended and handled *)
  destruct (memcpy_to_head (recv_data_ s) data (10 * 1024) Hdl) as (rd & Em & Hrdl); [lia|].
  assert (Erd : rd = skipn (length data) (recv_data_ s)).
  { unfold memcpy_to in Em. case_match; [|done]. injection Em as Em. unfold splice in Em.
    change (Z.to_nat 0) with 0%nat in Em. rewrite take_0 in Em. cbn [app] in Em. apply app_inv_head in Em.
    rewrite <- Em. unfold Zlen. rewrite Z.add_0_l, Nat2Z.id. done. }
  cbv zeta. rewrite <- Erd. set (full := data ++ rd). assert (Hfl : Zlen full = 10 * 1024) by (unfold full; rewrite Zlen_app; lia).
  assert (Hfb : bytes_ok full).
  { unfold full. apply bytes_ok_app. split; [done|]. rewrite Erd. apply bytes_ok_skipn. done. }
  destruct (bq_append_law _ _ full Hbf) as (b3 & Eb3 & Hb3); [apply bq_sized_empty; [done|done|lia]|]. cbn [app] in Hb3.
  set (s3 := (s2 <| recv_data_ := full |>) <| rrecv_buffer_ := b3 |>).
  assert (E : session_uv_read hmac dh dh_init random 0 1 (Zlen data) data s =
    (go ← (HandleRequest hmac dh dh_init random 0 ;; mret true);
     if go : bool then Run hmac dh dh_init random 0 1 else mret tt) s3).
  { unfold session_uv_read, on_conn, zoom. erewrite bind_done; [|rewrite Eread; reflexivity]. fold s2.
    unfold run_received. cbn [recv_status]. rewrite bind_assoc. erewrite bind_done by reflexivity.
    replace (recv_data_ s2) with (recv_data_ s) by (destruct s; done). rewrite Em. rewrite bind_assoc. erewrite bind_done by reflexivity. fold full.
    replace (rrecv_buffer_ s2) with (rrecv_buffer_ s) by (destruct s; done). rewrite Eb3. rewrite bind_assoc. erewrite bind_done by reflexivity.
    rewrite bind_assoc. erewrite bind_done by reflexivity. fold s3. reflexivity. }
  destruct (HandleRequest_first s3 full) as (h & ret & Ep & H);
    [destruct s; exact Hph|destruct s; exact Har|destruct s; exact Hb3|exact Hfb|lia|].
  exists h, ret. split; [destruct s; exact Ep|]. rewrite E, bind_assoc. destruct (shared_secret dh dh_init h).
  - unfold mbind, eff_bind. rewrite H. reflexivity.
  - destruct H as (s4 & E4 & Hc & Hw). rewrite (bind_done _ _ _ _ _ E4). erewrite bind_done by reflexivity. cbn [Run].
    erewrite bind_done by reflexivity. rewrite Hc. eexists. split; [reflexivity|].
    replace (conn_ptr_ s3) with c2 in Hw by (destruct s; done). rewrite Hw2 in Hw. destruct s4. done.
Qed.
End answering.

Definition demo_rtmp_session : CoRtmpSession bytes :=
  mkRtmpSession (mkAcceptConn TCP_CONNECT_SUCCESS RECV_DATA_SIZE [] [0%nat] [] []) (replicate (Z.to_nat RECV_DATA_SIZE) 0)
    [] initial_phase false demo_server 0 [] 1 true.
Lemma first_read_is_a_C0C1_witness :
  exists h ret, ParseC1 demo_hmac demo_handle (firstn 1536 (skipn 1 ([3] ++ skipn 1 (replicate (Z.to_nat RECV_DATA_SIZE) 0)))) = Ok (h, ret) /\
    match shared_secret (fun _ => None) 0 h with
    | None => exists s', session_uv_read demo_hmac (fun _ => None) 0 (fun _ => 1) 0 1 (Zlen [3]) [3] demo_rtmp_session = Done s' tt /\
        closed_ s' = true /\ running_ s' = false /\ uv_requests_ (conn_ptr_ s') = uv_requests_ (conn_ptr_ demo_rtmp_session)
    | Some _ => session_uv_read demo_hmac (fun _ => None) 0 (fun _ => 1) 0 1 (Zlen [3]) [3] demo_rtmp_session = Stuck
    end.
Proof.
  assert (Hdh : forall k out : bytes, Zlen k = 128 -> @None bytes = Some out -> Zlen out <= 128) by discriminate.
  apply (first_read_is_a_C0C1 demo_hmac (fun _ => None) 0 (fun _ => 1) demo_hmac_len Hdh demo_rtmp_session [3]).
  - constructor; try reflexivity.
    + split; reflexivity.
    + split; reflexivity.
    + split; exact I.
    + split; [reflexivity|]. unfold bytes_ok. apply Forall_replicate. unfold byte_ok. lia.
    + constructor; reflexivity.
  - vm_compute. split; congruence.
  - repeat constructor; vm_compute; congruence.
Defined.
(** The two outcomes of one byte. *)
Example one_byte_is_answered :
  session_uv_read demo_hmac demo_dh 0 (fun _ => 1) 0 1 1 [3] demo_rtmp_session = Stuck.
Proof. vm_compute. reflexivity. Qed.
Example one_byte_closes :
  exists s', session_uv_read demo_hmac (fun _ => None) 0 (fun _ => 1) 0 1 1 [3] demo_rtmp_session = Done s' tt /\
    closed_ s' = true /\ running_ s' = false.
Proof. eexists. split; [vm_compute; reflexivity|done]. Qed.
